(* ===== verification/_CoqProject ===== *)
-Q . S2P
Prelude.v
Platform.v
Api.v
Cluster.v
Fake.v
Validation.v
Available.v
Authz.v
Webhooks.v
WebhookTheorems.v
Framework.v
OrganizationCtl.v
OrganizationTheorems.v
Interference.v
InterferenceTheorems.v
ProjectCtl.v
NetPol.v
ProjectSpecs.v
ProjectPipeline.v
ProjectTheorems.v
ProjectLiveness.v
ProjectInterference.v
MaaS.v
MaaSSpecs.v
MaaSTheorems.v
MaaSInterference.v
MaaSLiveness.v
Manager.v
ManagerTheorems.v
Rbac.v
RbacTheorems.v
AdmissionChain.v
ChainTheorems.v
MaaSLifecycle.v
Json.v
JsonTheorems.v
Schema.v
SchemaTheorems.v
SchemaEffects.v
Admission.v
AdmissionTheorems.v
SchemaInvariant.v
CommandLine.v
CommandLineTheorems.v
Heap.v
HeapLemmas.v
CopyLemmas.v
DeepCopy.v
DeepCopyTheorems.v
Scheme.v
