(* ===== verification/Prelude.v ===== *)
(** * The tenancy operator, verified

    The tenancy operator gives a Kubernetes cluster a tree of organizations.  Four
    custom resources describe it: an Organization has a parent, an
    OrganizationProfile lists the administrators and defaults of one organization,
    an OrganizationProject asks for a namespace in an organization, and a
    MaaSConfiguration for an AITenant of a root organization.  Validating webhooks
    decide who may change what; four controllers turn the resources into
    namespaces, role bindings, network policies and AITenants.  The webhooks and
    controllers do not call each other: they meet in the objects the API server
    stores, and a controller's own writes pass the webhooks like any other request.

    ** Files

    - Prelude.v (this file): outcomes of Go functions (value, error, panic), the
      state monad [GoM] with its weakest-precondition rules, slices, maps, int32,
      strings, messages.  fmt.Sprintf is kept as format and operands.
    - Platform.v: object metadata and the class [Platform], the functions of
      controller-runtime, apimachinery and the operator framework that the code
      calls; [PlatformLaws] states the documented behaviour the theorems use.
    - Api.v: the types of api/v1alpha1 and their accessors.
    - Cluster.v: the Kubernetes objects the operator writes, a typed client per
      kind, the class [Cluster], and [LawfulCluster]: a view of the cluster as a
      store of finite maps and how each client call changes it.  Any call may fail
      at any time; [ReliableReads] excludes that for reads and is assumed only
      where a theorem says what must be accepted.
    - Fake.v: a platform and an in-memory cluster that satisfy all these laws, and
      the example tree (research > genomics > proteomics) of the concrete runs.
    - Validation.v: what the server documents that it refuses among the namespaces, role
      bindings and network policies the operator writes (names, labels, subjects,
      selectors, missing namespaces).
    - Available.v: the classes [AvailableCluster] and [AvailableWrites], an API server
      that is up and stores what passes its validation, for the theorems that say a
      reconciliation must succeed.
    - Authz.v: internal/webhook/v1alpha1/authz.go, with its specification
      [inherits_admin].
    - Webhooks.v: the four *_webhook.go files, a module each, and what each
      validator checks.  WebhookTheorems.v: claims C1, C3 to C8 and C36.
    - Framework.v: reconciliation requests, condition marks, the registration of a
      controller, and the class [Framework] that runs its actions in order.
    - OrganizationCtl.v: internal/controller/organization.
      OrganizationTheorems.v: claims C9 to C11.
    - Interference.v: the cluster shared with others, who may change the store before
      every single call ([busyCluster]), with a rely and guarantee rule per client call.
      InterferenceTheorems.v: the authorizer and the organization controller on it,
      claims C2 and C12.
    - ProjectCtl.v and NetPol.v: internal/controller/organizationproject, the
      registration of the organizationprofile controller, and the meaning of
      network policies for traffic.  ProjectSpecs.v: a specification per action.
      ProjectPipeline.v: the five actions in sequence.  ProjectTheorems.v: claims
      C13, C15 and C16.  ProjectLiveness.v: claim C17.  ProjectInterference.v: the
      actions on the shared cluster, claim C14.
    - MaaS.v: internal/controller/maasconfiguration.  MaaSSpecs.v: its steps.
      MaaSTheorems.v: claims C18 and C21.  MaaSInterference.v: the controller on the
      shared cluster, claims C19 and C20.  MaaSLiveness.v: what a reconciliation needs
      to succeed.  MaaSLifecycle.v: claims C22 to C24.
    - Manager.v: cmd/main.go and the Setup*WebhookWithManager functions, over the
      class [ManagerRuntime].  ManagerTheorems.v: the startup sequence and the server
      options.  CommandLine.v: the flags and flag.Parse.  CommandLineTheorems.v:
      claims C37 and C38.
    - Rbac.v: the kubebuilder:rbac markers of the controllers and the cluster behind
      them, over the class [RBAC].  RbacTheorems.v: claim C26 and the limits of the
      role.
    - AdmissionChain.v: the kubebuilder:webhook markers, the dispatch of a request to
      its validator and the cluster behind the webhooks, over the class
      [AdmissionServer].  The webhooks served are those that [main] registers, run on a
      runtime that records its requests ([servedBy]).  ChainTheorems.v: claim C25, and
      that the operator's own writes are admitted.
    - Json.v: the json tags of the spec types, a codec per struct built from its fields.
      JsonTheorems.v: the round trip of each spec.  Schema.v: the kubebuilder:validation and default
      markers, over the class [SchemaServer].  SchemaTheorems.v: claims C27 and C28.
      SchemaEffects.v: claim C29.
    - Admission.v: all of the above as one transition system on stores.
      AdmissionTheorems.v: claims C31 to C35.  SchemaInvariant.v: the same steps behind
      the schemas, claim C30.
    - Heap.v: memory as Go has it, with places (a location, an index and a path of
      fields), pointers, slices and their assignments.  HeapLemmas.v, CopyLemmas.v:
      how a value is represented in it and when a statement copies one.
      DeepCopy.v: api/v1alpha1/zz_generated.deepcopy.go and the memory layout of
      each type, the lists included.  DeepCopyTheorems.v: claims C39 and C40.
    - Scheme.v: groupversion_info.go and the init functions of the types files.

    ** How the code is modelled

    A Go function that uses the client is a [GoM] over the cluster; an action of a
    controller is a [GoM] over the reconciliation request, which holds the cluster,
    the object under reconciliation (a pointer in Go: [setInstance] is a write
    through it), the condition marks and the map of extensions.  Early returns and
    wrapped errors are kept; a write to a nil map is a panic, and the theorems show
    that none is reached.  Log lines are left out.  An unstructured object is its
    metadata and a tree of JSON values.  int32 arithmetic wraps; the project count
    is exact below 2^31 projects (C8).  The two walks up the tree are bounded by
    the constants of the code (three steps each), so no fuel is added anywhere.  The
    statements give the code's limits as numbers: three levels (C1, C2, C9, C36), 41
    characters for the name of an AITenant (C18, C22).
    The records of Api.v are the values the webhooks and controllers see; only the
    deep copies are about sharing, and there the same types are layouts of memory.

    ** What the theorems show

    - Authorization (C1, C2): the check admits exactly trusted users and listed
      administrators within three levels, also while others change the profiles between
      its reads: its answer is that of a single moment.
    - Webhooks (C3 to C8, C36): denial while profiles cannot be read, and for each resource
      exactly which requests are admitted, including quota and placement rules, and the
      quota at the width of its counter.
    - Organization controller (C9 to C12): the recorded root is the root of the
      lineage, cycles and deep trees are refused, profiles appear restrictive and
      existing ones are untouched, also when others interfere between its calls.
    - Project controller (C13 to C17): what a successful reconciliation provisions,
      what none of its calls can touch whatever others do in between, that access and traffic are exactly those of
      the users and the preset, and that with nothing in the way, and names and users
      the server takes, a reconciliation succeeds and the next one changes nothing.
    - MaaS controller (C18 to C24): the rendered AITenant, every verdict with its
      conditions, foreign AITenants untouched by every call as long as nobody replaces the
      configuration's own, the window in which the cleanup deletes one whenever somebody does,
      the accepted deletion of the AITenant before the finalizer goes; behind
      the operator's own webhooks it converges to the AITenant asked for and can be deleted while its
      organization is there, and can never be deleted once the organization is gone.
    - Configuration (C25, C26): the markers, the paths and what the entry point registers
      send every request to the right validator; the permissions beside each controller are enough for it.
    - The API's data (C27 to C30): what the schemas let through keeps to the markers
      (which leave the MaaS quotas without a lower bound) and what keeps to them is let
      through; with such specs no user of a project is left without a binding and every
      project works with one of the three presets, and the specs in every reachable store
      are such.
    - The whole operator (C31 to C35): names and references stay consistent along
      every sequence of steps, the quota holds when admissions do not overlap and
      is exceeded by any number of creates that do, and an administrator of an
      organization can take any namespace nobody controls.
    - The entry point (C37, C38): nothing starts before everything is wired, and the
      servers are protected unless an argument says otherwise.
    - The deep copies (C39, C40): a copy stands for the same data as the original and
      neither is affected by what is later written to the other.

    ** Not modelled

    The logger of cmd/main.go and the flags of other packages, the deep copies and the
    JSON form of ObjectMeta, ListMeta and Status (library code), the resource markers
    (scope, short names, printed columns), the YAML under config/ that is generated from
    the markers or consumed by kustomize, and the tests.  JSON is a tree, not text, and
    its numbers are those of the tree.  The framework's own loop (queueing, status
    writes, finalizer bookkeeping), the manager and the API server are interfaces, not
    models.  Of the server's validation, size limits, owner references and the
    quotas and admission plugins a cluster may add are left out: C17 and C22 speak of a
    server on which those do not refuse.  Others interfere between the calls of a check or a reconciliation, not inside
    one: a CreateOrUpdate is atomic, because the server refuses to replace a version that
    is no longer current, and that refusal is one of the errors any call may return.  A
    plain update is not required to fail on a newer version, so the model allows more
    runs than the server.  A read returns the store as it is, not an older state of a
    cache.  What a whole reconciliation achieves (C11, C13, C18) is stated for
    undisturbed calls; under interference the theorems bound every single call. *)

From stdpp Require Import gmap strings list fin_maps.
From Stdlib Require Import ZArith Lia Ascii.

(* ------------------------------------------------------------------ *)
(** ** Go results: a value, a non-nil error, or a panic *)

Inductive outcome (E A : Type) : Type :=
| Ret (a : A)
| Err (e : E)
| Panic.
Arguments Ret {E A} a.
Arguments Err {E A} e.
Arguments Panic {E A}.

Definition is_ret {E A} (r : outcome E A) : bool :=
  match r with Ret _ => true | _ => false end.

(** A Go function that reads and writes a shared state [S] (the cluster, or a
    reconciliation request): it returns an [outcome] and leaves a state behind,
    also when it fails. *)
Definition GoM (S E A : Type) : Type := S -> outcome E A * S.

Definition ret {S E A} (a : A) : GoM S E A := fun s => (Ret a, s).
Definition fail {S E A} (e : E) : GoM S E A := fun s => (Err e, s).
Definition panic {S E A} : GoM S E A := fun s => (Panic, s).
Definition get {S E} : GoM S E S := fun s => (Ret s, s).
Definition put {S E} (s : S) : GoM S E unit := fun _ => (Ret tt, s).

Definition bind {S E A B} (m : GoM S E A) (k : A -> GoM S E B) : GoM S E B :=
  fun s =>
    match m s with
    | (Ret a, s') => k a s'
    | (Err e, s') => (Err e, s')
    | (Panic, s') => (Panic, s')
    end.

(** A call of a client method: it always returns, with its result (which may be
    an error value that the caller inspects) and the next state. *)
Definition call {S E B} (f : S -> B * S) : GoM S E B :=
  fun s => let (b, s') := f s in (Ret b, s').

(** An outcome computed without touching the state. *)
Definition lift {S E A} (r : outcome E A) : GoM S E A := fun s => (r, s).

(** Pure sequencing of outcomes, for callbacks that mutate a local object. *)
Definition obind {E A B} (m : outcome E A) (k : A -> outcome E B) : outcome E B :=
  match m with Ret a => k a | Err e => Err e | Panic => Panic end.

Declare Scope go_scope.
Delimit Scope go_scope with go.
Notation "'let*' x ':=' m 'in' k" := (bind m (fun x => k))
  (at level 10, x name, m at level 100, k at level 200) : go_scope.
Notation "m ';;;' k" := (bind m (fun _ => k))
  (at level 199, right associativity) : go_scope.
Notation "'let?' x ':=' m 'in' k" := (obind m (fun x => k))
  (at level 10, x name, m at level 100, k at level 200) : go_scope.
Open Scope go_scope.

(** [for _, x := range l { body }] whose body may return early with an error. *)
Fixpoint range {S E A} (l : list A) (body : A -> GoM S E unit) : GoM S E unit :=
  match l with
  | [] => ret tt
  | x :: l' => body x ;;; range l' body
  end.

(* ------------------------------------------------------------------ *)
(** ** Weakest preconditions for [GoM] *)

Definition wp {S E A} (m : GoM S E A) (Q : outcome E A -> S -> Prop) (s : S) : Prop :=
  Q (fst (m s)) (snd (m s)).

Create HintDb go.

Section wp_rules.
  Context {S E : Type}.

Lemma wp_ret {A} (a : A) (Q : outcome E A -> S -> Prop) s : Q (Ret a) s -> wp (ret a) Q s.
Proof. exact id. Qed.

Lemma wp_fail {A} (e : E) (Q : outcome E A -> S -> Prop) s : Q (Err e) s -> wp (fail e) Q s.
Proof. exact id. Qed.

Lemma wp_bind {A B} (m : GoM S E A) (k : A -> GoM S E B) Q s :
    wp m (fun r s' => match r with
                      | Ret a => wp (k a) Q s'
                      | Err e => Q (Err e) s'
                      | Panic => Q Panic s'
                      end) s ->
    wp (bind m k) Q s.
Proof. unfold wp, bind. destruct (m s) as [[a|e|] s']; exact id. Qed.

Lemma wp_call {B} (f : S -> B * S) (Q : outcome E B -> S -> Prop) s :
    (forall b s', f s = (b, s') -> Q (Ret b) s') -> wp (call f) Q s.
Proof. unfold wp, call. destruct (f s) as [b s'] eqn:Ef. intros H. by apply H. Qed.

Lemma wp_mono {A} (m : GoM S E A) (P Q : outcome E A -> S -> Prop) s :
    wp m P s -> (forall r s', P r s' -> Q r s') -> wp m Q s.
Proof. unfold wp. auto. Qed.

Lemma wp_conj {A} (m : GoM S E A) (P Q : outcome E A -> S -> Prop) s :
    wp m P s -> wp m Q s -> wp m (fun r s' => P r s' /\ Q r s') s.
Proof. unfold wp. auto. Qed.

(** From a weakest precondition to a statement about a given run and back. *)
Lemma wp_run {A} (m : GoM S E A) Q s r s' : wp m Q s -> m s = (r, s') -> Q r s'.
Proof. unfold wp. intros H Em. by rewrite Em in H. Qed.

Lemma run_wp {A} (m : GoM S E A) (Q : outcome E A -> S -> Prop) s :
    (forall r s', m s = (r, s') -> Q r s') -> wp m Q s.
Proof. unfold wp. intros H. destruct (m s) as [r s'] eqn:Em. by apply H. Qed.
End wp_rules.

(** Inverting a run that returned: every step before it returned too. *)
Lemma bind_ret_inv {S E A B} (m : GoM S E A) (k : A -> GoM S E B) s b s' :
  bind m k s = (Ret b, s') -> exists a s1, m s = (Ret a, s1) /\ k a s1 = (Ret b, s').
Proof. unfold bind. destruct (m s) as [[a|e|] s1]; naive_solver. Qed.

Lemma call_ret_inv {S E B} (f : S -> B * S) s (b : B) s' :
  call (E := E) f s = (Ret b, s') -> f s = (b, s').
Proof. unfold call. destruct (f s). naive_solver. Qed.

(** Simplify the run of a composed computation found in a hypothesis. *)
Ltac run_inv :=
  repeat match goal with
  | H : bind _ _ _ = (Ret _, _) |- _ => apply bind_ret_inv in H as (? & ? & ? & H)
  | H : call _ _ = (Ret _, _) |- _ => apply call_ret_inv in H
  | H : ret _ _ = (_, _) |- _ => unfold ret in H; simplify_eq
  | H : fail _ _ = (_, _) |- _ => unfold fail in H; simplify_eq
  | H : lift _ _ = (_, _) |- _ => unfold lift in H; simplify_eq
  end.

(* ------------------------------------------------------------------ *)
(** ** Messages: [fmt.Errorf] and [fmt.Sprintf] keep their format and operands *)

Inductive text : Type :=
| Sprintf (fmt : string) (operands : list operand)
with operand : Type :=
| OStr (s : string)
| OInt (z : Z)
| OText (t : text).

(* ------------------------------------------------------------------ *)
(** ** Go values *)

(** A slice: [None] is the nil slice, which ranges like an empty one but is not
    [reflect.DeepEqual] to it. *)
Definition slice (A : Type) : Type := option (list A).
Definition elems {A} (s : slice A) : list A := default [] s.

(** A map: [None] is the nil map; reading it finds nothing, writing it panics. *)
Definition gomap (V : Type) : Type := option (gmap string V).
Definition map_index {V} (m : gomap V) (k : string) : option V :=
  match m with Some m' => m' !! k | None => None end.
Definition map_assign {E V} (m : gomap V) (k : string) (v : V) : outcome E (gomap V) :=
  match m with Some m' => Ret (Some (<[k := v]> m')) | None => Panic end.

(** int32 with Go's wrap-around. *)
Definition int32_wrap (z : Z) : Z := (z + 2 ^ 31) mod 2 ^ 32 - 2 ^ 31.
Definition int32_range (z : Z) : Prop := (- 2 ^ 31 <= z < 2 ^ 31)%Z.

Lemma int32_wrap_id z : int32_range z -> int32_wrap z = z.
Proof. unfold int32_range, int32_wrap. intros H. rewrite Z.mod_small; lia. Qed.

Lemma int32_wrap_range z : int32_range (int32_wrap z).
Proof.
  unfold int32_range, int32_wrap.
  pose proof (Z.mod_pos_bound (z + 2 ^ 31) (2 ^ 32)). lia.
Qed.

(** Wrapping the operands of an addition changes nothing. *)
Lemma int32_wrap_add z d : int32_wrap (int32_wrap z + d) = int32_wrap (z + d).
Proof.
  unfold int32_wrap. f_equal.
  replace ((z + 2 ^ 31) mod 2 ^ 32 - 2 ^ 31 + d + 2 ^ 31)%Z with ((z + 2 ^ 31) mod 2 ^ 32 + d)%Z by lia.
  rewrite Zplus_mod_idemp_l. f_equal. lia.
Qed.

(** [slices.Contains] on strings. *)
Definition slices_Contains (l : list string) (x : string) : bool := bool_decide (x ∈ l).

(** [strings.Split] with a one-byte separator. *)
Fixpoint strings_Split (sep : ascii) (s : string) : list string :=
  match s with
  | EmptyString => [EmptyString]
  | String c s' =>
      if decide (c = sep) then EmptyString :: strings_Split sep s'
      else match strings_Split sep s' with
           | [] => [String c EmptyString]
           | w :: ws => String c w :: ws
           end
  end.

(** [strings.Join] with the same separator, the inverse used to state what a
    split means. *)
Fixpoint strings_Join (sep : ascii) (ws : list string) : string :=
  match ws with
  | [] => EmptyString
  | [w] => w
  | w :: ws' => (w +:+ String sep (strings_Join sep ws'))%string
  end.

Fixpoint string_has (c : ascii) (s : string) : bool :=
  match s with
  | EmptyString => false
  | String d s' => bool_decide (d = c) || string_has c s'
  end.

Lemma strings_Split_nonempty sep s : strings_Split sep s <> [].
Proof. destruct s; simpl; [done|]. repeat case_match; done. Qed.

Lemma strings_Join_Split sep s : strings_Join sep (strings_Split sep s) = s.
Proof.
  induction s as [|c s IH]; simpl; [done|].
  case_decide as Hc.
  - subst. destruct (strings_Split sep s) eqn:Es.
    + by apply strings_Split_nonempty in Es.
    + by rewrite <- IH.
  - destruct (strings_Split sep s) as [|w ws] eqn:Es.
    + by apply strings_Split_nonempty in Es.
    + destruct ws; simpl in *; by rewrite <- IH.
Qed.

Lemma strings_Split_no_sep sep s : Forall (fun w => string_has sep w = false) (strings_Split sep s).
Proof.
  induction s as [|c s IH]; simpl; [by constructor|].
  case_decide as Hc; [by constructor|].
  destruct (strings_Split sep s) as [|w ws]; [by apply Forall_singleton; simpl; rewrite bool_decide_false|].
  apply Forall_cons in IH as [Hw Hws]. constructor; [|done].
  simpl. by rewrite bool_decide_false.
Qed.

(** Splitting two strings at a separator the first parts do not contain is unique. *)
Lemma string_app_sep_inj c a a' b b' :
  string_has c a = false -> string_has c a' = false ->
  (a +:+ String c b = a' +:+ String c b')%string -> a = a' /\ b = b'.
Proof.
  revert a'. induction a as [|x a IH]; intros [|y a'] Ha Ha'; simpl in *.
  - by intros [= ->].
  - intros [= -> _]. by rewrite bool_decide_true in Ha'.
  - intros [= -> _]. by rewrite bool_decide_true in Ha.
  - intros [= -> Heq]. apply orb_false_elim in Ha as [_ Ha], Ha' as [_ Ha'].
    destruct (IH a' Ha Ha' Heq) as [-> ->]. done.
Qed.

Lemma string_app_inj_l (p a b : string) : (p +:+ a = p +:+ b)%string -> a = b.
Proof. induction p as [|x p IH]; simpl; [done|]. intros [= H]. by apply IH. Qed.

(** The values of a finite map, as a list. *)
Lemma Forall_map_values `{Countable K} {V} (Q : V -> Prop) (m : gmap K V) :
  Forall Q (map_to_list m).*2 <-> forall k v, m !! k = Some v -> Q v.
Proof.
  rewrite Forall_forall. split.
  - intros H' k v Hk. apply H', list_elem_of_fmap. exists (k, v). by rewrite elem_of_map_to_list.
  - intros H' v Hv. apply list_elem_of_fmap in Hv as ([k v'] & -> & Hkv).
    apply elem_of_map_to_list in Hkv. by eapply H'.
Qed.

#[export] Hint Resolve wp_ret wp_fail wp_bind int32_wrap_range : go.

(** An invariant that every outcome keeps, for handlers that do not panic. *)
Lemma wp_bind_keeping {S E A B} (I : S -> Prop) (m : GoM S E A) (k : A -> GoM S E B) s :
  wp m (fun r s' => r <> Panic /\ I s' /\
          forall a, r = Ret a -> wp (k a) (fun r s => r <> Panic /\ I s) s') s ->
  wp (bind m k) (fun r s => r <> Panic /\ I s) s.
Proof.
  intros H. apply wp_bind. eapply wp_mono; [exact H|].
  intros [a|e|] s' (Hp & Hi & Hk); [by apply Hk|done|done].
Qed.

(** A loop keeps an invariant that says which elements have been handled. *)
Lemma wp_range {S E A} (l : list A) (body : A -> GoM S E unit)
    (I : list A -> S -> Prop) (Q : outcome E unit -> S -> Prop) s :
  I [] s ->
  (forall done x rest s', l = done ++ x :: rest -> I done s' ->
     wp (body x) (fun r s'' => match r with Ret _ => I (done ++ [x]) s'' | _ => Q r s'' end) s') ->
  (forall s', I l s' -> Q (Ret tt) s') ->
  wp (range l body) Q s.
Proof.
  intros H0 Hstep HQ.
  assert (forall rest done s', l = done ++ rest -> I done s' -> wp (range rest body) Q s') as Hgen.
  { induction rest as [|x rest IH]; intros done s' Hl HI; simpl.
    - apply wp_ret, HQ. by rewrite Hl, app_nil_r.
    - apply wp_bind. eapply wp_mono; [by eapply Hstep|].
      intros [[]|e|] s'' Hr; [|done|done]. apply (IH (done ++ [x])); [|done].
      by rewrite <- app_assoc. }
  by apply (Hgen l []).
Qed.
