(* ===== verification/Platform.v ===== *)
(** Kubernetes data and the libraries the operator links against.

    The client library, the operator framework and apimachinery are not part of
    the repository.  What the code uses of them is the class [Platform]: opaque
    types and functions that every component takes as an argument.  The data
    types the code builds or inspects field by field ([ObjectMeta],
    [OwnerReference], [UserInfo], ...) are records with the fields it uses. *)

From stdpp Require Import gmap strings list.
From Stdlib Require Import ZArith.
From S2P Require Import Prelude.

(* ------------------------------------------------------------------ *)
(** ** apimachinery metadata *)

(** metav1.OwnerReference.  [Controller] is a [*bool]. *)
Record OwnerReference := {
  APIVersion : string;
  owner_Kind : string;
  owner_Name : string;
  owner_UID : string;
  Controller : option bool;
}.

(** metav1.ObjectMeta, the fields the operator reads or writes. *)
Record ObjectMeta := {
  Name : string;
  Namespace : string;
  UID : string;
  Labels : gomap string;
  Annotations : gomap string;
  OwnerReferences : list OwnerReference;
  Finalizers : list string;
  DeletionTimestamp : option Z;
}.

(** [metav1.ObjectMeta{Name: name, Namespace: ns}]: every other field is Go's
    zero value. *)
Definition namedMeta (ns name : string) : ObjectMeta :=
  {| Name := name; Namespace := ns; UID := ""; Labels := None; Annotations := None;
     OwnerReferences := []; Finalizers := []; DeletionTimestamp := None |}.

Definition setLabels (m : ObjectMeta) (l : gomap string) : ObjectMeta :=
  {| Name := Name m; Namespace := Namespace m; UID := UID m; Labels := l;
     Annotations := Annotations m; OwnerReferences := OwnerReferences m;
     Finalizers := Finalizers m; DeletionTimestamp := DeletionTimestamp m |}.

Definition setOwnerReferences (m : ObjectMeta) (rs : list OwnerReference) : ObjectMeta :=
  {| Name := Name m; Namespace := Namespace m; UID := UID m; Labels := Labels m;
     Annotations := Annotations m; OwnerReferences := rs;
     Finalizers := Finalizers m; DeletionTimestamp := DeletionTimestamp m |}.

Definition setFinalizers (m : ObjectMeta) (fs : list string) : ObjectMeta :=
  {| Name := Name m; Namespace := Namespace m; UID := UID m; Labels := Labels m;
     Annotations := Annotations m; OwnerReferences := OwnerReferences m;
     Finalizers := fs; DeletionTimestamp := DeletionTimestamp m |}.

Definition setUID (m : ObjectMeta) (u : string) : ObjectMeta :=
  {| Name := Name m; Namespace := Namespace m; UID := u; Labels := Labels m;
     Annotations := Annotations m; OwnerReferences := OwnerReferences m;
     Finalizers := Finalizers m; DeletionTimestamp := DeletionTimestamp m |}.

#[export] Instance OwnerReference_eq_dec : EqDecision OwnerReference.
Proof. solve_decision. Defined.
#[export] Instance ObjectMeta_eq_dec : EqDecision ObjectMeta.
Proof. unfold gomap. solve_decision. Defined.

(** authenticationv1.UserInfo. *)
Record UserInfo := { Username : string; Groups : list string }.

(** schema.GroupVersionKind. *)
Record GroupVersionKind := { gvk_Group : string; gvk_Version : string; gvk_Kind : string }.

(** The controlling owner reference of an object: the first one whose controller
    flag is set (what metav1.GetControllerOf documents). *)
Definition controllerOf (m : ObjectMeta) : option OwnerReference :=
  List.find (fun r => bool_decide (Controller r = Some true)) (OwnerReferences m).

(** The object that takes ownership: its group, version and kind come from the
    scheme, its name and UID from its metadata. *)
Record Owner := { own_gvk : GroupVersionKind; own_meta : ObjectMeta }.

(** schema.GroupVersion.String *)
Definition GroupVersion_String (g : GroupVersionKind) : string :=
  if decide (gvk_Group g = "") then gvk_Version g
  else (gvk_Group g +:+ "/" +:+ gvk_Version g)%string.

(** The owner reference that names an owner. *)
Definition ownerRef (o : Owner) (ctrl : option bool) : OwnerReference :=
  {| APIVersion := GroupVersion_String (own_gvk o);
     owner_Kind := gvk_Kind (own_gvk o);
     owner_Name := Name (own_meta o);
     owner_UID := UID (own_meta o);
     Controller := ctrl |}.

(** Nothing controls the object, or what controls it has the owner's kind and name. *)
Definition claimable (o : Owner) (m : ObjectMeta) : Prop :=
  forall r, controllerOf m = Some r ->
    APIVersion r = GroupVersion_String (own_gvk o) /\ owner_Kind r = gvk_Kind (own_gvk o) /\
    owner_Name r = Name (own_meta o).

#[local] Set Warnings "-register-all".

(** The value of an [any] in an unstructured object (decoded JSON). *)
Inductive any : Type :=
| ANil
| ABool (b : bool)
| AInt (z : Z)
| AFloat (bits : Z)
| AStr (s : string)
| ASlice (l : list any)
| AMap (m : gmap string any).

(* ------------------------------------------------------------------ *)
(** ** The linked libraries *)

Class Platform := {
  (** errors made by the libraries, with the tests the operator applies *)
  liberror : Type;
  IsNotFound : liberror -> bool;
  IsNoMatchError : liberror -> bool;
  IgnoreNotFound : option liberror -> option liberror;

  (** the status the framework embeds in every custom resource *)
  apiStatus : Type;
  apiCondition : Type;
  Status_GetConditions : apiStatus -> list apiCondition;
  Status_SetConditions : apiStatus -> list apiCondition -> apiStatus;
  zeroStatus : apiStatus;

  (** a request context and the admission request it carries *)
  context : Type;
  RequestFromContext : context -> liberror + UserInfo;

  (** metav1 and controllerutil on object metadata *)
  IsControlledBy : ObjectMeta -> ObjectMeta -> bool;
  SetControllerReference : Owner -> ObjectMeta -> liberror + ObjectMeta;
  SetOwnerReference : Owner -> ObjectMeta -> liberror + ObjectMeta;
  ContainsFinalizer : ObjectMeta -> string -> bool;
  AddFinalizer : ObjectMeta -> string -> ObjectMeta;
  RemoveFinalizer : ObjectMeta -> string -> ObjectMeta;

  (** unstructured helpers on the content of an object *)
  GvkToUnstructured : GroupVersionKind -> gmap string any;
  SetNestedField : gmap string any -> any -> list string -> liberror + gmap string any;
  RemoveNestedField : gmap string any -> list string -> gmap string any;
  NestedSlice : gmap string any -> list string -> (list any * bool * option liberror);
}.

(** The errors of the operator: one passed on from a library, one built with
    fmt.Errorf (the wrapped error of a %w kept apart), or the framework's stop
    error with its requeue delay in seconds. *)
Inductive error `{Platform} : Type :=
| ELib (e : liberror)
| Errorf (t : text)
| ErrorfW (t : text) (e : error)
| StopError (t : text) (requeueAfter : Z).

(** What the libraries document about object metadata. *)
Class PlatformLaws (P : Platform) : Prop := {
  IgnoreNotFound_nil : IgnoreNotFound None = None;
  IgnoreNotFound_err e : IgnoreNotFound (Some e) = if IsNotFound e then None else Some e;
  IsControlledBy_spec m o :
    IsControlledBy m o = true <->
    exists r, controllerOf m = Some r /\ owner_UID r = UID o;
  (** on success the owner is the controller and nothing but the owner
      references has changed *)
  SetControllerReference_ok o m m' :
    SetControllerReference o m = inr m' ->
    IsControlledBy m' (own_meta o) = true /\
    m' = setOwnerReferences m (OwnerReferences m');
  SetControllerReference_ref o m m' :
    SetControllerReference o m = inr m' -> controllerOf m' = Some (ownerRef o (Some true));
  (** a cluster-scoped owner can take control of an object that nobody else controls *)
  SetControllerReference_claims o m :
    claimable o m -> Namespace (own_meta o) = ""%string ->
    exists m', SetControllerReference o m = inr m';
  (** taking control again changes nothing, whatever the UID and the labels *)
  SetControllerReference_again o m m' u l :
    SetControllerReference o m = inr m' ->
    SetControllerReference o (setLabels (setUID m' u) l) = inr (setLabels (setUID m' u) l);
  (** an object controlled by something else is refused *)
  SetControllerReference_owned o m r :
    controllerOf m = Some r -> owner_UID r <> UID (own_meta o) ->
    owner_Name r <> Name (own_meta o) ->
    exists e, SetControllerReference o m = inl e;
  (** an owner reference to an object of another kind does not change who is in
      control *)
  SetOwnerReference_ok o m m' :
    SetOwnerReference o m = inr m' ->
    m' = setOwnerReferences m (OwnerReferences m') /\
    ((forall r, controllerOf m = Some r -> owner_Kind r <> gvk_Kind (own_gvk o)) ->
     controllerOf m' = controllerOf m);
  (** a cluster-scoped owner is never refused *)
  SetOwnerReference_claims o m :
    Namespace (own_meta o) = ""%string -> exists m', SetOwnerReference o m = inr m';
  ContainsFinalizer_spec m f : ContainsFinalizer m f = true <-> f ∈ Finalizers m;
  AddFinalizer_spec m f :
    AddFinalizer m f = setFinalizers m (Finalizers (AddFinalizer m f)) /\
    forall g, g ∈ Finalizers (AddFinalizer m f) <-> g = f \/ g ∈ Finalizers m;
  RemoveFinalizer_spec m f :
    RemoveFinalizer m f = setFinalizers m (Finalizers (RemoveFinalizer m f)) /\
    forall g, g ∈ Finalizers (RemoveFinalizer m f) <-> g <> f /\ g ∈ Finalizers m;
  (** a new unstructured object has nothing but its group, version and kind *)
  GvkToUnstructured_empty g k :
    k <> "apiVersion"%string -> k <> "kind"%string -> GvkToUnstructured g !! k = None;
  (** a field two levels down: missing levels are made, anything but a map on the
      way is an error *)
  SetNestedField_new obj v a b :
    obj !! a = None -> SetNestedField obj v [a; b] = inr (<[a := AMap {[b := v]}]> obj);
  SetNestedField_in obj v a b m :
    obj !! a = Some (AMap m) ->
    SetNestedField obj v [a; b] = inr (<[a := AMap (<[b := v]> m)]> obj);
  SetNestedField_blocked obj v a b x :
    obj !! a = Some x -> (forall m, x <> AMap m) ->
    exists e, SetNestedField obj v [a; b] = inl e;
  RemoveNestedField_two obj a b :
    RemoveNestedField obj [a; b] =
    match obj !! a with Some (AMap m) => <[a := AMap (delete b m)]> obj | _ => obj end;
  NestedSlice_found obj a b m l :
    obj !! a = Some (AMap m) -> m !! b = Some (ASlice l) ->
    NestedSlice obj [a; b] = (l, true, None);
  NestedSlice_missing obj a b :
    (forall m l, obj !! a = Some (AMap m) -> m !! b <> Some (ASlice l)) ->
    snd (fst (NestedSlice obj [a; b])) = false;
}.

(** The UID the API server assigns does not change who controls an object. *)
Lemma IsControlledBy_setUID `{P : Platform} `{!PlatformLaws P} m u o :
  IsControlledBy (setUID m u) o = IsControlledBy m o.
Proof. apply Bool.eq_iff_eq_true. rewrite !IsControlledBy_spec. done. Qed.

(** Nor do labels. *)
Lemma IsControlledBy_setLabels `{P : Platform} `{!PlatformLaws P} m l o :
  IsControlledBy (setLabels m l) o = IsControlledBy m o.
Proof. apply Bool.eq_iff_eq_true. rewrite !IsControlledBy_spec. done. Qed.
