(* ===== verification/Api.v ===== *)
(** The API types of api/v1alpha1: the four custom resources and their parts.

    A pointer field is an [option], a slice a [slice] (nil and empty kept apart),
    an int32 a [Z].  [TypeMeta] is not a field: the kind of an object is its
    Rocq type. *)

From stdpp Require Import gmap strings list.
From Stdlib Require Import ZArith.
From S2P Require Import Prelude Platform.

(** *** common_types.go *)

Record Subject := {
  subject_Kind : string;
  subject_Name : string;
  subject_Namespace : string;
}.

(** *** organizationprofile_types.go: the parts of a profile *)

Record OrganizationReference := { ref_Name : string }.

Record OIDCConfig := { IssuerURL : string }.

Record GatewayReference := {
  gw_Group : string;
  gw_Kind : string;
  gw_Name : string;
  gw_Namespace : string;
}.

Record OrganizationPlatformConfig := {
  platform_OIDC : option OIDCConfig;
  IngressGatewayRef : option GatewayReference;
}.

Record ProjectDefaults := {
  default_NetworkIsolation : string;
  MaxProjects : Z;
}.

Record OrganizationProfileSpec := {
  profile_OrganizationRef : OrganizationReference;
  Admins : slice Subject;
  Defaults : ProjectDefaults;
  profile_Platform : option OrganizationPlatformConfig;
}.

(** *** organization_types.go *)

Record OrganizationSpec := { Parent : string }.

(** *** organizationproject_types.go *)

Record NetworkGrant := { To : string; Direction : string; Ports : slice Z }.

Record ProjectUser := {
  pu_Kind : string;
  pu_Name : string;
  pu_Namespace : string;
  pu_Role : string;
}.

Record OrganizationProjectSpec := {
  project_OrganizationRef : OrganizationReference;
  Users : slice ProjectUser;
  NetworkIsolation : string;
  NetworkGrants : slice NetworkGrant;
}.

(** *** maasconfiguration_types.go *)

Record MaaSOIDC := { ClientID : string }.
Record MaaSCertificateRef := { cert_Name : string; cert_Namespace : string }.
Record MaaSTLS := { CertificateRef : MaaSCertificateRef }.
Record MaaSQuotas := { MaxModels : Z; MaxSubscriptions : Z; MaxAPIKeys : Z }.

Record MaaSConfigurationSpec := {
  maas_OrganizationRef : OrganizationReference;
  maas_OIDC : option MaaSOIDC;
  maas_TLS : option MaaSTLS;
  maas_Quotas : option MaaSQuotas;
}.

(** *** The resources: metadata, spec and status *)

Section resources.
  Context `{P : Platform}.

Record OrganizationStatus := {
  organization_apiStatus : apiStatus;
  Root : string;
}.

Record Organization := {
  organization_meta : ObjectMeta;
  organization_Spec : OrganizationSpec;
  organization_Status : OrganizationStatus;
}.

Record OrganizationProfileStatus := { profile_apiStatus : apiStatus }.

Record OrganizationProfile := {
  profile_meta : ObjectMeta;
  profile_Spec : OrganizationProfileSpec;
  profile_Status : OrganizationProfileStatus;
}.

Record OrganizationProjectStatus := {
  project_apiStatus : apiStatus;
  status_Namespace : string;
}.

Record OrganizationProject := {
  project_meta : ObjectMeta;
  project_Spec : OrganizationProjectSpec;
  project_Status : OrganizationProjectStatus;
}.

Record MaaSConfigurationStatus := { maas_apiStatus : apiStatus }.

Record MaaSConfiguration := {
  maas_meta : ObjectMeta;
  maas_Spec : MaaSConfigurationSpec;
  maas_Status : MaaSConfigurationStatus;
}.

(** Shorthands for the fields the handlers compare. *)
Definition organizationParent (o : Organization) : string := Parent (organization_Spec o).
Definition profileOrg (p : OrganizationProfile) : string :=
  ref_Name (profile_OrganizationRef (profile_Spec p)).
Definition projectOrg (p : OrganizationProject) : string :=
  ref_Name (project_OrganizationRef (project_Spec p)).
Definition maasOrg (m : MaaSConfiguration) : string :=
  ref_Name (maas_OrganizationRef (maas_Spec m)).
End resources.

(** *** Decidable equality: [reflect.DeepEqual] on these types *)

#[export] Instance Subject_eq_dec : EqDecision Subject.
Proof. solve_decision. Defined.
#[export] Instance OrganizationReference_eq_dec : EqDecision OrganizationReference.
Proof. solve_decision. Defined.
#[export] Instance slice_eq_dec `{EqDecision A} : EqDecision (slice A).
Proof. unfold slice. solve_decision. Defined.

(** *** api.PlatformObject: the accessors the framework uses

    [GetStatus] returns a pointer into the object; [with_*Status] is the write
    through that pointer. *)

Section platform_objects.
  Context `{P : Platform}.

Definition Organization_GetStatus (o : Organization) : apiStatus :=
  organization_apiStatus (organization_Status o).
Definition with_OrganizationStatus (s : apiStatus) (o : Organization) : Organization :=
  {| organization_meta := organization_meta o;
     organization_Spec := organization_Spec o;
     organization_Status :=
       {| organization_apiStatus := s; Root := Root (organization_Status o) |} |}.
Definition Organization_GetConditions (o : Organization) : list apiCondition :=
  Status_GetConditions (organization_apiStatus (organization_Status o)).
Definition Organization_SetConditions (cs : list apiCondition) (o : Organization) : Organization :=
  with_OrganizationStatus (Status_SetConditions (Organization_GetStatus o) cs) o.

Definition OrganizationProfile_GetStatus (p : OrganizationProfile) : apiStatus :=
  profile_apiStatus (profile_Status p).
Definition with_OrganizationProfileStatus (s : apiStatus) (p : OrganizationProfile) : OrganizationProfile :=
  {| profile_meta := profile_meta p; profile_Spec := profile_Spec p;
     profile_Status := {| profile_apiStatus := s |} |}.
Definition OrganizationProfile_GetConditions (p : OrganizationProfile) : list apiCondition :=
  Status_GetConditions (profile_apiStatus (profile_Status p)).
Definition OrganizationProfile_SetConditions (cs : list apiCondition) (p : OrganizationProfile) : OrganizationProfile :=
  with_OrganizationProfileStatus (Status_SetConditions (OrganizationProfile_GetStatus p) cs) p.

Definition OrganizationProject_GetStatus (p : OrganizationProject) : apiStatus :=
  project_apiStatus (project_Status p).
Definition with_OrganizationProjectStatus (s : apiStatus) (p : OrganizationProject) : OrganizationProject :=
  {| project_meta := project_meta p; project_Spec := project_Spec p;
     project_Status :=
       {| project_apiStatus := s; status_Namespace := status_Namespace (project_Status p) |} |}.
Definition OrganizationProject_GetConditions (p : OrganizationProject) : list apiCondition :=
  Status_GetConditions (project_apiStatus (project_Status p)).
Definition OrganizationProject_SetConditions (cs : list apiCondition) (p : OrganizationProject) : OrganizationProject :=
  with_OrganizationProjectStatus (Status_SetConditions (OrganizationProject_GetStatus p) cs) p.

Definition MaaSConfiguration_GetStatus (m : MaaSConfiguration) : apiStatus :=
  maas_apiStatus (maas_Status m).
Definition with_MaaSConfigurationStatus (s : apiStatus) (m : MaaSConfiguration) : MaaSConfiguration :=
  {| maas_meta := maas_meta m; maas_Spec := maas_Spec m;
     maas_Status := {| maas_apiStatus := s |} |}.
Definition MaaSConfiguration_GetConditions (m : MaaSConfiguration) : list apiCondition :=
  Status_GetConditions (maas_apiStatus (maas_Status m)).
Definition MaaSConfiguration_SetConditions (cs : list apiCondition) (m : MaaSConfiguration) : MaaSConfiguration :=
  with_MaaSConfigurationStatus (Status_SetConditions (MaaSConfiguration_GetStatus m) cs) m.

(** The interface, and that the four resources implement it. *)
Class PlatformObject (T : Type) := {
  GetStatus : T -> apiStatus;
  GetConditions : T -> list apiCondition;
  SetConditions : list apiCondition -> T -> T;
}.

#[export] Instance Organization_PlatformObject : PlatformObject Organization := {
  GetStatus := Organization_GetStatus;
  GetConditions := Organization_GetConditions;
  SetConditions := Organization_SetConditions;
}.
#[export] Instance OrganizationProfile_PlatformObject : PlatformObject OrganizationProfile := {
  GetStatus := OrganizationProfile_GetStatus;
  GetConditions := OrganizationProfile_GetConditions;
  SetConditions := OrganizationProfile_SetConditions;
}.
#[export] Instance OrganizationProject_PlatformObject : PlatformObject OrganizationProject := {
  GetStatus := OrganizationProject_GetStatus;
  GetConditions := OrganizationProject_GetConditions;
  SetConditions := OrganizationProject_SetConditions;
}.
#[export] Instance MaaSConfiguration_PlatformObject : PlatformObject MaaSConfiguration := {
  GetStatus := MaaSConfiguration_GetStatus;
  GetConditions := MaaSConfiguration_GetConditions;
  SetConditions := MaaSConfiguration_SetConditions;
}.
End platform_objects.
