(* ===== verification/Cluster.v ===== *)
(** The cluster as the operator sees it: the Kubernetes objects it provisions, a
    typed client per kind, and what is assumed of the API server behind them.

    [Cluster] is the interface the handlers are written against.  [LawfulCluster]
    gives the world a [view] as a [Store] of finite maps and says how each client
    call relates to it: a read returns what is stored, a write changes one entry,
    a failed call changes nothing.  [ReliableReads] adds that reads do not fail
    for another reason than absence; only theorems about what the code must
    accept need it, the safety theorems do not. *)

From stdpp Require Import gmap strings list.
From Stdlib Require Import ZArith.
From S2P Require Import Prelude Platform Api.

#[local] Open Scope string_scope.

(* ------------------------------------------------------------------ *)
(** ** Kubernetes objects *)

(** corev1.Namespace (its spec and status are not used). *)
Record Namespaced := { ns_meta : ObjectMeta }.

(** rbacv1 *)
Record RoleRef := { rr_APIGroup : string; rr_Kind : string; rr_Name : string }.
Record RBACSubject := {
  rs_Kind : string; rs_APIGroup : string; rs_Name : string; rs_Namespace : string }.
Record RoleBinding := {
  rb_meta : ObjectMeta;
  rb_RoleRef : RoleRef;
  rb_Subjects : slice RBACSubject;
}.

(** networkingv1 *)
Record LabelSelector := { MatchLabels : gomap string }.
Record NetworkPolicyPeer := {
  PodSelector : option LabelSelector;
  NamespaceSelector : option LabelSelector;
}.
Record NetworkPolicyIngressRule := { np_From : list NetworkPolicyPeer }.
Inductive PolicyType := PolicyTypeIngress | PolicyTypeEgress.
Record NetworkPolicySpec := {
  np_PodSelector : LabelSelector;
  PolicyTypes : list PolicyType;
  Ingress : list NetworkPolicyIngressRule;
}.
Record NetworkPolicy := { np_meta : ObjectMeta; np_Spec : NetworkPolicySpec }.

(** unstructured.Unstructured: the metadata behind its accessors and the rest of
    the content. *)
Record Unstructured := { u_meta : ObjectMeta; Object : gmap string any }.

#[export] Instance PolicyType_eq_dec : EqDecision PolicyType.
Proof. solve_decision. Defined.
#[export] Instance LabelSelector_eq_dec : EqDecision LabelSelector.
Proof. unfold gomap. solve_decision. Defined.
#[export] Instance NetworkPolicyPeer_eq_dec : EqDecision NetworkPolicyPeer.
Proof. solve_decision. Defined.
#[export] Instance NetworkPolicyIngressRule_eq_dec : EqDecision NetworkPolicyIngressRule.
Proof. solve_decision. Defined.
#[export] Instance NetworkPolicySpec_eq_dec : EqDecision NetworkPolicySpec.
Proof. solve_decision. Defined.
#[export] Instance RBACSubject_eq_dec : EqDecision RBACSubject.
Proof. solve_decision. Defined.
#[export] Instance RoleRef_eq_dec : EqDecision RoleRef.
Proof. solve_decision. Defined.

(* ------------------------------------------------------------------ *)
(** ** Clients *)

Section clients.
  Context `{P : Platform}.

(** The calls of client.Client on one kind, and controllerutil.CreateOrUpdate.
    A write returns the object as the server left it in the caller's variable. *)
Record TypedClient (W K T : Type) := {
  Get : K -> W -> (liberror + T) * W;
  List : W -> (liberror + list T) * W;
  Create : T -> W -> (liberror + T) * W;
  Update : T -> W -> (liberror + T) * W;
  Delete : T -> W -> option liberror * W;
  CreateOrUpdate : T -> (T -> outcome error T) -> W -> outcome error T * W;
}.

(** The whole client, and cluster.HasCRD. *)
Class Cluster := {
  world : Type;
  organizations : TypedClient world string Organization;
  profiles : TypedClient world string OrganizationProfile;
  projects : TypedClient world string OrganizationProject;
  maasconfigurations : TypedClient world string MaaSConfiguration;
  namespaces : TypedClient world string Namespaced;
  rolebindings : TypedClient world (string * string) RoleBinding;
  networkpolicies : TypedClient world (string * string) NetworkPolicy;
  unstructureds : TypedClient world (string * string) Unstructured;
  HasCRD : GroupVersionKind -> world -> (liberror + bool) * world;
}.

(* ------------------------------------------------------------------ *)
(** ** The stored objects *)

Record Store := {
  s_organizations : gmap string Organization;
  s_profiles : gmap string OrganizationProfile;
  s_projects : gmap string OrganizationProject;
  s_maas : gmap string MaaSConfiguration;
  s_namespaces : gmap string Namespaced;
  s_rolebindings : gmap (string * string) RoleBinding;
  s_networkpolicies : gmap (string * string) NetworkPolicy;
  s_aitenants : gmap (string * string) Unstructured;
}.

(** A kind: how to find its objects in a store, their key, and which part of an
    object the API server keeps as it was sent ([ksame]). *)
Record Kind (K T : Type) `{Countable K} := {
  kmeta : T -> ObjectMeta;
  kkey : T -> K;
  ksame : T -> T -> Prop;
  ksel : Store -> gmap K T;
  kput : gmap K T -> Store -> Store;
}.

Definition same_meta (m m' : ObjectMeta) : Prop := m' = setUID m (UID m').

Definition organizationKind : Kind string Organization := {|
  kmeta := organization_meta;
  kkey o := Name (organization_meta o);
  ksame o o' := same_meta (organization_meta o) (organization_meta o') /\
                organization_Spec o' = organization_Spec o;
  ksel := s_organizations;
  kput m s := {| s_organizations := m; s_profiles := s_profiles s; s_projects := s_projects s;
    s_maas := s_maas s; s_namespaces := s_namespaces s; s_rolebindings := s_rolebindings s;
    s_networkpolicies := s_networkpolicies s; s_aitenants := s_aitenants s |};
|}.

Definition profileKind : Kind string OrganizationProfile := {|
  kmeta := profile_meta;
  kkey o := Name (profile_meta o);
  ksame o o' := same_meta (profile_meta o) (profile_meta o') /\
                profile_Spec o' = profile_Spec o;
  ksel := s_profiles;
  kput m s := {| s_organizations := s_organizations s; s_profiles := m; s_projects := s_projects s;
    s_maas := s_maas s; s_namespaces := s_namespaces s; s_rolebindings := s_rolebindings s;
    s_networkpolicies := s_networkpolicies s; s_aitenants := s_aitenants s |};
|}.

Definition projectKind : Kind string OrganizationProject := {|
  kmeta := project_meta;
  kkey o := Name (project_meta o);
  ksame o o' := same_meta (project_meta o) (project_meta o') /\
                project_Spec o' = project_Spec o;
  ksel := s_projects;
  kput m s := {| s_organizations := s_organizations s; s_profiles := s_profiles s; s_projects := m;
    s_maas := s_maas s; s_namespaces := s_namespaces s; s_rolebindings := s_rolebindings s;
    s_networkpolicies := s_networkpolicies s; s_aitenants := s_aitenants s |};
|}.

Definition maasKind : Kind string MaaSConfiguration := {|
  kmeta := maas_meta;
  kkey o := Name (maas_meta o);
  ksame o o' := same_meta (maas_meta o) (maas_meta o') /\ maas_Spec o' = maas_Spec o;
  ksel := s_maas;
  kput m s := {| s_organizations := s_organizations s; s_profiles := s_profiles s;
    s_projects := s_projects s; s_maas := m; s_namespaces := s_namespaces s;
    s_rolebindings := s_rolebindings s; s_networkpolicies := s_networkpolicies s;
    s_aitenants := s_aitenants s |};
|}.

(** The label the API server puts on every namespace: its name. *)
Definition namespaceNameLabel : string := "kubernetes.io/metadata.name".

(** The metadata of a namespace as it is stored: as it was sent, up to the UID, possibly
    with the server's label added. *)
Definition same_namespace_meta (m m' : ObjectMeta) : Prop :=
  m' = setLabels (setUID m (UID m')) (Labels m') /\
  (Labels m' = Labels m \/
   Labels m' = Some (<[namespaceNameLabel := Name m]> (default ∅ (Labels m)))).

Definition namespaceKind : Kind string Namespaced := {|
  kmeta := ns_meta;
  kkey o := Name (ns_meta o);
  ksame o o' := same_namespace_meta (ns_meta o) (ns_meta o');
  ksel := s_namespaces;
  kput m s := {| s_organizations := s_organizations s; s_profiles := s_profiles s;
    s_projects := s_projects s; s_maas := s_maas s; s_namespaces := m;
    s_rolebindings := s_rolebindings s; s_networkpolicies := s_networkpolicies s;
    s_aitenants := s_aitenants s |};
|}.

Definition namespacedKey (m : ObjectMeta) : string * string := (Namespace m, Name m).

Definition rolebindingKind : Kind (string * string) RoleBinding := {|
  kmeta := rb_meta;
  kkey o := namespacedKey (rb_meta o);
  ksame o o' := same_meta (rb_meta o) (rb_meta o') /\
                rb_RoleRef o' = rb_RoleRef o /\ rb_Subjects o' = rb_Subjects o;
  ksel := s_rolebindings;
  kput m s := {| s_organizations := s_organizations s; s_profiles := s_profiles s;
    s_projects := s_projects s; s_maas := s_maas s; s_namespaces := s_namespaces s;
    s_rolebindings := m; s_networkpolicies := s_networkpolicies s;
    s_aitenants := s_aitenants s |};
|}.

Definition networkpolicyKind : Kind (string * string) NetworkPolicy := {|
  kmeta := np_meta;
  kkey o := namespacedKey (np_meta o);
  ksame o o' := same_meta (np_meta o) (np_meta o') /\ np_Spec o' = np_Spec o;
  ksel := s_networkpolicies;
  kput m s := {| s_organizations := s_organizations s; s_profiles := s_profiles s;
    s_projects := s_projects s; s_maas := s_maas s; s_namespaces := s_namespaces s;
    s_rolebindings := s_rolebindings s; s_networkpolicies := m;
    s_aitenants := s_aitenants s |};
|}.

Definition aitenantKind : Kind (string * string) Unstructured := {|
  kmeta := u_meta;
  kkey o := namespacedKey (u_meta o);
  ksame o o' := same_meta (u_meta o) (u_meta o') /\
                Object o' !! "spec" = Object o !! "spec";
  ksel := s_aitenants;
  kput m s := {| s_organizations := s_organizations s; s_profiles := s_profiles s;
    s_projects := s_projects s; s_maas := s_maas s; s_namespaces := s_namespaces s;
    s_rolebindings := s_rolebindings s; s_networkpolicies := s_networkpolicies s;
    s_aitenants := m |};
|}.
End clients.
Arguments Get {P W K T}.
Arguments List {P W K T}.
Arguments Create {P W K T}.
Arguments Update {P W K T}.
Arguments Delete {P W K T}.
Arguments CreateOrUpdate {P W K T}.
Arguments kmeta {P K T _ _}.
Arguments kkey {P K T _ _}.
Arguments ksame {P K T _ _}.
Arguments ksel {P K T _ _}.
Arguments kput {P K T _ _}.

(* ------------------------------------------------------------------ *)
(** ** What is assumed of the API server *)

Class LawfulClient `{P : Platform} {W K T} `{Countable K}
    (view : W -> Store) (c : TypedClient W K T) (kd : Kind K T) : Prop := {
  get_found k w o w' :
    Get c k w = (inr o, w') -> ksel kd (view w) !! k = Some o /\ view w' = view w;
  get_failed k w e w' :
    Get c k w = (inl e, w') ->
    (IsNotFound e = true -> ksel kd (view w) !! k = None) /\ view w' = view w;
  list_found w l w' :
    List c w = (inr l, w') ->
    l ≡ₚ (map_to_list (ksel kd (view w))).*2 /\ view w' = view w;
  list_failed w e w' : List c w = (inl e, w') -> view w' = view w;
  create_done o w o' w' :
    Create c o w = (inr o', w') ->
    ksel kd (view w) !! kkey kd o = None /\ ksame kd o o' /\
    view w' = kput kd (<[kkey kd o := o']> (ksel kd (view w))) (view w);
  create_failed o w e w' : Create c o w = (inl e, w') -> view w' = view w;
  (** an object under deletion is gone when an update removes its last finalizer *)
  update_done o w o' w' :
    Update c o w = (inr o', w') ->
    is_Some (ksel kd (view w) !! kkey kd o) /\ ksame kd o o' /\
    (UID (kmeta kd o) <> ""%string -> UID (kmeta kd o') = UID (kmeta kd o)) /\
    exists r, view w' = kput kd (partial_alter (fun _ => r) (kkey kd o) (ksel kd (view w))) (view w) /\
      (r = Some o' \/
       r = None /\ DeletionTimestamp (kmeta kd o) <> None /\ Finalizers (kmeta kd o) = []);
  update_failed o w e w' : Update c o w = (inl e, w') -> view w' = view w;
  (** an object without finalizers is gone, one with finalizers may stay *)
  delete_done o w w' :
    Delete c o w = (None, w') ->
    exists o0 r, ksel kd (view w) !! kkey kd o = Some o0 /\
      view w' = kput kd (partial_alter (fun _ => r) (kkey kd o) (ksel kd (view w))) (view w) /\
      (Finalizers (kmeta kd o0) = [] -> r = None) /\
      (forall o1, r = Some o1 -> kkey kd o1 = kkey kd o0 /\
         Finalizers (kmeta kd o1) = Finalizers (kmeta kd o0));
  delete_failed o w e w' :
    Delete c o w = (Some e, w') ->
    (IsNotFound e = true -> ksel kd (view w) !! kkey kd o = None) /\ view w' = view w;
  (** the mutation is applied to the stored object, or to the one passed in *)
  createOrUpdate_done o f w o' w' :
    CreateOrUpdate c o f w = (Ret o', w') ->
    exists o1, f (default o (ksel kd (view w) !! kkey kd o)) = Ret o1 /\ ksame kd o1 o' /\
      view w' = kput kd (<[kkey kd o := o']> (ksel kd (view w))) (view w);
  createOrUpdate_failed o f w e w' :
    CreateOrUpdate c o f w = (Err e, w') -> view w' = view w;
  createOrUpdate_panic o f w w' :
    CreateOrUpdate c o f w = (Panic, w') ->
    f (default o (ksel kd (view w) !! kkey kd o)) = Panic;
}.

(** Reads that fail only when the object is absent. *)
Class ReliableClient `{P : Platform} {W K T} `{Countable K}
    (view : W -> Store) (c : TypedClient W K T) (kd : Kind K T) : Prop := {
  get_present k w o :
    ksel kd (view w) !! k = Some o -> exists w', Get c k w = (inr o, w') /\ view w' = view w;
  get_absent k w :
    ksel kd (view w) !! k = None ->
    exists e w', Get c k w = (inl e, w') /\ IsNotFound e = true /\ view w' = view w;
  list_total w : exists l w', List c w = (inr l, w');
}.

Class LawfulCluster `{P : Platform} (C : Cluster) := {
  view : world -> Store;
  organizations_lawful :: LawfulClient view organizations organizationKind;
  profiles_lawful :: LawfulClient view profiles profileKind;
  projects_lawful :: LawfulClient view projects projectKind;
  maas_lawful :: LawfulClient view maasconfigurations maasKind;
  namespaces_lawful :: LawfulClient view namespaces namespaceKind;
  rolebindings_lawful :: LawfulClient view rolebindings rolebindingKind;
  networkpolicies_lawful :: LawfulClient view networkpolicies networkpolicyKind;
  aitenants_lawful :: LawfulClient view unstructureds aitenantKind;
  (** a kind the server does not know has no objects *)
  aitenants_nomatch k w e w' :
    Get unstructureds k w = (inl e, w') -> IsNoMatchError e = true ->
    s_aitenants (view w) !! k = None;
  HasCRD_pure g w : view (snd (HasCRD g w)) = view w;
}.

Class ReliableReads `{P : Platform} (C : Cluster) `{!LawfulCluster C} : Prop := {
  organizations_reliable :: ReliableClient view organizations organizationKind;
  profiles_reliable :: ReliableClient view profiles profileKind;
  projects_reliable :: ReliableClient view projects projectKind;
  maas_reliable :: ReliableClient view maasconfigurations maasKind;
}.

(* ------------------------------------------------------------------ *)
(** ** Rules for client calls *)

(** [R] stands for "reads fail only on absence": with [R := False] a rule asks
    nothing of the API server's availability, with [R := True] it assumes
    [ReliableClient]. *)
Section client_rules.
  Context `{P : Platform} {W K T : Type} `{Countable K}.
  Context (view : W -> Store) (c : TypedClient W K T) (kd : Kind K T).
  Context `{!LawfulClient view c kd}.
  Context (R : Prop) (HR : R -> ReliableClient view c kd).

Lemma wp_Get k (Q : outcome error (liberror + T) -> W -> Prop) w :
  (forall o w', ksel kd (view w) !! k = Some o -> view w' = view w -> Q (Ret (inr o)) w') ->
  (forall e w', (IsNotFound e = true -> ksel kd (view w) !! k = None) ->
     (R -> IsNotFound e = true) -> view w' = view w -> Q (Ret (inl e)) w') ->
  wp (call (Get c k)) Q w.
Proof.
  intros Hok Herr. apply wp_call. intros [e|o] w' Hg.
  - pose proof Hg as Hg0. apply get_failed in Hg as [Hnone Hv]. apply Herr; [done| |done].
    intros HRel%HR. destruct (ksel kd (view w) !! k) as [o|] eqn:Hk.
    + destruct (get_present (c := c) k w o Hk) as (w1 & Hg' & _). congruence.
    + destruct (get_absent (c := c) k w Hk) as (e' & w1 & Hg' & ? & _). congruence.
  - apply get_found in Hg as [??]. by apply Hok.
Qed.

Lemma wp_List (Q : outcome error (liberror + list T) -> W -> Prop) w :
  (forall l w', l ≡ₚ (map_to_list (ksel kd (view w))).*2 -> view w' = view w -> Q (Ret (inr l)) w') ->
  (forall e w', (R -> False) -> view w' = view w -> Q (Ret (inl e)) w') ->
  wp (call (List c)) Q w.
Proof.
  intros Hok Herr. apply wp_call. intros [e|l] w' Hl.
  - apply Herr; [|by eapply list_failed]. intros HRel%HR.
    destruct (list_total (c := c) w) as (l & w1 & Hl'). congruence.
  - apply list_found in Hl as [??]. by apply Hok.
Qed.
End client_rules.

(** Writes. *)
Section write_rules.
  Context `{P : Platform} {W K T : Type} `{Countable K}.
  Context (view : W -> Store) (c : TypedClient W K T) (kd : Kind K T).
  Context `{!LawfulClient view c kd}.

(** The store after writing [o] under key [k]. *)
Definition stored (k : K) (o : T) (s : Store) : Store := kput kd (<[k := o]> (ksel kd s)) s.

Lemma wp_Create o (Q : outcome error (liberror + T) -> W -> Prop) w :
  (forall o' w', ksel kd (view w) !! kkey kd o = None -> ksame kd o o' ->
     view w' = stored (kkey kd o) o' (view w) -> Q (Ret (inr o')) w') ->
  (forall e w', view w' = view w -> Q (Ret (inl e)) w') ->
  wp (call (Create c o)) Q w.
Proof.
  intros Hok Herr. apply wp_call. intros [e|o'] w' Hc.
  - apply create_failed in Hc. by apply Herr.
  - apply create_done in Hc as (?&?&?). by apply Hok.
Qed.

Lemma wp_Update o (Q : outcome error (liberror + T) -> W -> Prop) w :
  (forall o' r w', is_Some (ksel kd (view w) !! kkey kd o) -> ksame kd o o' ->
     (UID (kmeta kd o) <> ""%string -> UID (kmeta kd o') = UID (kmeta kd o)) ->
     view w' = kput kd (partial_alter (fun _ => r) (kkey kd o) (ksel kd (view w))) (view w) ->
     (r = Some o' \/
      r = None /\ DeletionTimestamp (kmeta kd o) <> None /\ Finalizers (kmeta kd o) = []) ->
     Q (Ret (inr o')) w') ->
  (forall e w', view w' = view w -> Q (Ret (inl e)) w') ->
  wp (call (Update c o)) Q w.
Proof.
  intros Hok Herr. apply wp_call. intros [e|o'] w' Hc.
  - apply update_failed in Hc. by apply Herr.
  - apply update_done in Hc as (? & ? & ? & r & ? & ?). by eapply Hok.
Qed.

Lemma wp_Delete o (Q : outcome error (option liberror) -> W -> Prop) w :
  (forall o0 r w', ksel kd (view w) !! kkey kd o = Some o0 ->
     view w' = kput kd (partial_alter (fun _ => r) (kkey kd o) (ksel kd (view w))) (view w) ->
     (Finalizers (kmeta kd o0) = [] -> r = None) ->
     (forall o1, r = Some o1 -> kkey kd o1 = kkey kd o0 /\
        Finalizers (kmeta kd o1) = Finalizers (kmeta kd o0)) -> Q (Ret None) w') ->
  (forall e w', (IsNotFound e = true -> ksel kd (view w) !! kkey kd o = None) ->
     view w' = view w -> Q (Ret (Some e)) w') ->
  wp (call (Delete c o)) Q w.
Proof.
  intros Hok Herr. apply wp_call. intros [e|] w' Hc.
  - apply delete_failed in Hc as [??]. by apply Herr.
  - apply delete_done in Hc as (o0 & r & ? & ? & ? & ?). by eapply Hok.
Qed.

Lemma wp_CreateOrUpdate o f (Q : outcome error T -> W -> Prop) w :
  f (default o (ksel kd (view w) !! kkey kd o)) <> Panic ->
  (forall o1 o' w', f (default o (ksel kd (view w) !! kkey kd o)) = Ret o1 -> ksame kd o1 o' ->
     view w' = stored (kkey kd o) o' (view w) -> Q (Ret o') w') ->
  (forall e w', view w' = view w -> Q (Err e) w') ->
  wp (CreateOrUpdate c o f) Q w.
Proof.
  intros Hp Hok Herr. apply run_wp. intros [o'|e|] w' Hc.
  - apply createOrUpdate_done in Hc as (o1 & ? & ? & ?). by eapply Hok.
  - apply createOrUpdate_failed in Hc. by apply Herr.
  - by apply createOrUpdate_panic in Hc.
Qed.
End write_rules.
Arguments stored {P K T _ _}.

(** ** Read-only checks

    [checks R m w Q]: at [w], the handler [m] leaves the stored objects alone,
    returns only if [Q] holds, and, where reads are reliable, fails only if [Q]
    does not hold.  It never panics. *)
Section checks.
  Context `{P : Platform} `{C : !Cluster} `{L : !LawfulCluster C} (R : Prop).

Definition checks {A} (m : GoM world error A) (w : world) (Q : Prop) : Prop :=
  wp m (fun r w' => view w' = view w /\
          match r with Ret _ => Q | Err _ => R -> ~ Q | Panic => False end) w.

Lemma checks_wp {A} (m : GoM world error A) w Q (Q' : outcome error A -> world -> Prop) :
  checks m w Q ->
  (forall r w', view w' = view w ->
     match r with Ret _ => Q | Err _ => R -> ~ Q | Panic => False end -> Q' r w') ->
  wp m Q' w.
Proof. unfold checks, wp. intros [? ?] HQ. by apply HQ. Qed.

Lemma checks_ret {A} (a : A) w (Q : Prop) : Q -> checks (ret a) w Q.
Proof. intros HQ. by apply wp_ret. Qed.

Lemma checks_fail {A} e w (Q : Prop) : (R -> ~ Q) -> checks (fail (A := A) e) w Q.
Proof. intros HQ. by apply wp_fail. Qed.

Lemma checks_iff {A} (m : GoM world error A) w Q Q' : (Q <-> Q') -> checks m w Q -> checks m w Q'.
Proof.
  intros HQ Hm. apply (checks_wp _ _ _ _ Hm). intros [] ? ? Hr; (split; [done|]); tauto.
Qed.

Lemma checks_seq {A B} (m : GoM world error A) (k : GoM world error B) w Q1 Q2 :
  checks m w Q1 -> (forall w', view w' = view w -> Q1 -> checks k w' Q2) ->
  checks (m ;;; k) w (Q1 /\ Q2).
Proof.
  intros Hm Hk. apply wp_bind, (checks_wp _ _ _ _ Hm).
  intros [a|e|] w1 Hv Hr; [|by split; [done|tauto]|done].
  apply (checks_wp _ _ _ _ (Hk w1 Hv Hr)).
  intros [] w2 Hv2 Hr2; (split; [congruence|]); tauto.
Qed.

Lemma checks_then_ret {A B} (m : GoM world error A) (b : B) w Q :
  checks m w Q -> checks (m ;;; ret b) w Q.
Proof.
  intros Hm. apply (checks_iff _ _ (Q /\ True)); [tauto|].
  apply checks_seq; [done|]. intros. by apply checks_ret.
Qed.

(** Guard by a decidable condition whose failure denies. *)
Lemma checks_guard {A} (D : Prop) `{!Decision D} e (m : GoM world error A) w Q :
  (D -> checks m w Q) -> checks (if decide (~ D) then fail e else m) w (D /\ Q).
Proof.
  intros Hm. case_decide as HD.
  - apply checks_fail. tauto.
  - apply (checks_iff _ _ Q); [tauto|auto].
Qed.

(** Reading an object that the check depends on. *)
Lemma checks_Get `{Countable K} {T A} (c : TypedClient world K T) (kd : Kind K T)
    `{!LawfulClient view c kd} (HR : R -> ReliableClient view c kd)
    k (ko : T -> GoM world error A) (nf : liberror -> GoM world error A) w (Q : T -> Prop) :
  (forall o w', view w' = view w -> ksel kd (view w) !! k = Some o -> checks (ko o) w' (Q o)) ->
  (forall e w', (IsNotFound e = true -> ksel kd (view w) !! k = None) ->
     (R -> IsNotFound e = true) -> view w' = view w ->
     checks (nf e) w' False) ->
  checks (let* r := call (Get c k) in match r with inl e => nf e | inr o => ko o end) w
         (exists o, ksel kd (view w) !! k = Some o /\ Q o).
Proof.
  intros Ho He. apply wp_bind, (wp_Get _ _ kd R HR); simpl.
  - intros o w' Hk Hv. apply (checks_wp _ _ _ _ (Ho o w' Hv Hk)).
    intros [] w2 Hv2 Hr; (split; [congruence|]); naive_solver.
  - intros e w' Hnf HRnf Hv. apply (checks_wp _ _ _ _ (He e w' Hnf HRnf Hv)).
    intros [] w2 Hv2 Hr; (split; [congruence|]); [done| |done].
    intros HRr (o & Hk & _). rewrite Hnf in Hk by auto. done.
Qed.
End checks.

(** A handler that returns (a webhook that allows the request). *)
Definition admits `{P : Platform} `{C : !Cluster} {A} (m : GoM world error A) (w : world) : Prop :=
  is_ret (fst (m w)) = true.

Lemma checks_sound `{P : Platform} `{C : !Cluster} `{L : !LawfulCluster C} R {A}
    (m : GoM world error A) w Q :
  checks R m w Q -> admits m w -> Q.
Proof. unfold checks, wp, admits. destruct (fst (m w)); naive_solver. Qed.

Lemma checks_admits `{P : Platform} `{C : !Cluster} `{L : !LawfulCluster C} {A}
    (m : GoM world error A) w Q :
  checks True m w Q -> (admits m w <-> Q).
Proof. unfold checks, wp, admits. destruct (fst (m w)); naive_solver. Qed.
