(* ===== verification/Fake.v ===== *)
(** A reference platform and an in-memory cluster, in the role of
    controller-runtime's fake client: they show that the assumptions of
    [PlatformLaws], [LawfulCluster] and [ReliableReads] can hold together, and
    the concrete scenarios of the development run on them. *)

From stdpp Require Import gmap strings list.
From Stdlib Require Import ZArith.
From S2P Require Import Prelude Platform Api Cluster.

Local Open Scope string_scope.

Inductive FakeError := FNotFound | FNoMatch | FConflict | FForbidden | FInvalid.

(* ------------------------------------------------------------------ *)
(** ** Unstructured content *)

Fixpoint fakeSetNested (obj : gmap string any) (v : any) (path : list string)
    : FakeError + gmap string any :=
  match path with
  | [] => inl FInvalid
  | k :: [] => inr (<[k := v]> obj)
  | k :: rest =>
      match obj !! k with
      | None => match fakeSetNested ∅ v rest with
                | inl e => inl e
                | inr m => inr (<[k := AMap m]> obj)
                end
      | Some (AMap m0) => match fakeSetNested m0 v rest with
                          | inl e => inl e
                          | inr m => inr (<[k := AMap m]> obj)
                          end
      | Some _ => inl FInvalid
      end
  end.

Fixpoint fakeRemoveNested (obj : gmap string any) (path : list string) : gmap string any :=
  match path with
  | [] => obj
  | k :: [] => delete k obj
  | k :: rest => match obj !! k with
                 | Some (AMap m) => <[k := AMap (fakeRemoveNested m rest)]> obj
                 | _ => obj
                 end
  end.

Fixpoint fakeNestedSlice (obj : gmap string any) (path : list string)
    : list any * bool * option FakeError :=
  match path with
  | [] => ([], false, None)
  | k :: [] => match obj !! k with
               | None => ([], false, None)
               | Some (ASlice l) => (l, true, None)
               | Some _ => ([], false, Some FInvalid)
               end
  | k :: rest => match obj !! k with
                 | None => ([], false, None)
                 | Some (AMap m) => fakeNestedSlice m rest
                 | Some _ => ([], false, Some FInvalid)
                 end
  end.

(* ------------------------------------------------------------------ *)
(** ** Metadata *)

(** The reference is replaced where the list has one to the same object. *)
Definition sameObject (r r' : OwnerReference) : bool :=
  bool_decide (APIVersion r = APIVersion r') && bool_decide (owner_Kind r = owner_Kind r') &&
  bool_decide (owner_Name r = owner_Name r').

Fixpoint upsertOwnerRef (new : OwnerReference) (l : list OwnerReference) : list OwnerReference :=
  match l with
  | [] => [new]
  | r :: l' => if sameObject r new then new :: l' else r :: upsertOwnerRef new l'
  end.

Definition fakeIsControlledBy (m o : ObjectMeta) : bool :=
  match controllerOf m with
  | Some r => bool_decide (owner_UID r = UID o)
  | None => false
  end.

Definition fakeSetController (o : Owner) (m : ObjectMeta) : FakeError + ObjectMeta :=
  let new := ownerRef o (Some true) in
  let m' := setOwnerReferences m (upsertOwnerRef new (OwnerReferences m)) in
  match controllerOf m with
  | Some r => if sameObject r new then inr m' else inl FForbidden
  | None => inr m'
  end.

Definition fakeSetOwner (o : Owner) (m : ObjectMeta) : FakeError + ObjectMeta :=
  inr (setOwnerReferences m (upsertOwnerRef (ownerRef o None) (OwnerReferences m))).

Definition FakePlatform : Platform := {|
  liberror := FakeError;
  IsNotFound e := match e with FNotFound => true | _ => false end;
  IsNoMatchError e := match e with FNoMatch => true | _ => false end;
  IgnoreNotFound e := match e with Some FNotFound => None | _ => e end;
  apiStatus := list string;
  apiCondition := string;
  Status_GetConditions s := s;
  Status_SetConditions _ cs := cs;
  zeroStatus := [];
  context := FakeError + UserInfo;
  RequestFromContext ctx := ctx;
  IsControlledBy := fakeIsControlledBy;
  SetControllerReference := fakeSetController;
  SetOwnerReference := fakeSetOwner;
  ContainsFinalizer m f := bool_decide (f ∈ Finalizers m);
  AddFinalizer m f := if decide (f ∈ Finalizers m) then m
                      else setFinalizers m (Finalizers m ++ [f]);
  RemoveFinalizer m f := setFinalizers m (filter (fun g => g <> f) (Finalizers m));
  GvkToUnstructured g := <["apiVersion" := AStr (GroupVersion_String g)]>
                           {["kind" := AStr (gvk_Kind g)]};
  SetNestedField := fakeSetNested;
  RemoveNestedField := fakeRemoveNested;
  NestedSlice := fakeNestedSlice;
|}.

#[local] Existing Instance FakePlatform.

Lemma find_upsert_controller new l :
  Controller new = Some true ->
  (forall r, List.find (fun r => bool_decide (Controller r = Some true)) l = Some r ->
     sameObject r new = true) ->
  List.find (fun r => bool_decide (Controller r = Some true)) (upsertOwnerRef new l) = Some new.
Proof.
  intros Hnew. assert (bool_decide (Controller new = Some true) = true) as Hb by by apply bool_decide_true.
  induction l as [|r l IH]; simpl; [by rewrite Hb|].
  intros Hl. destruct (bool_decide (Controller r = Some true)) eqn:Hr.
  - rewrite (Hl r eq_refl). simpl. by rewrite Hb.
  - destruct (sameObject r new); simpl; [by rewrite Hb|]. rewrite Hr. auto.
Qed.

Lemma find_upsert_other new l :
  Controller new = None ->
  (forall r, List.find (fun r => bool_decide (Controller r = Some true)) l = Some r ->
     sameObject r new = false) ->
  List.find (fun r => bool_decide (Controller r = Some true)) (upsertOwnerRef new l) =
  List.find (fun r => bool_decide (Controller r = Some true)) l.
Proof.
  intros Hnew. assert (bool_decide (Controller new = Some true) = false) as Hb
    by (apply bool_decide_false; congruence).
  induction l as [|r l IH]; simpl; [by rewrite Hb|].
  intros Hl. destruct (bool_decide (Controller r = Some true)) eqn:Hr.
  - rewrite (Hl r eq_refl). simpl. by rewrite Hr.
  - destruct (sameObject r new); simpl; [by rewrite Hb|]. rewrite Hr. auto.
Qed.

Lemma fakeSetController_ref o m m' :
  fakeSetController o m = inr m' ->
  controllerOf m' = Some (ownerRef o (Some true)) /\ m' = setOwnerReferences m (OwnerReferences m').
Proof.
  unfold fakeSetController. intros Hset.
  destruct (controllerOf m) as [r|] eqn:Hc; [destruct (sameObject r _) eqn:Hs; [|done]|];
    injection Hset as <-; (split; [|done]); apply find_upsert_controller; try done;
    unfold controllerOf in Hc; intros r'; rewrite Hc; congruence.
Qed.

Lemma sameObject_refl r : sameObject r r = true.
Proof. unfold sameObject. by rewrite !bool_decide_true. Qed.

Lemma upsertOwnerRef_again new l : upsertOwnerRef new (upsertOwnerRef new l) = upsertOwnerRef new l.
Proof.
  induction l as [|r l IH]; simpl; [by rewrite sameObject_refl|].
  destruct (sameObject r new) eqn:E; simpl; [by rewrite sameObject_refl|]. by rewrite E, IH.
Qed.

Lemma fakeSetController_again o m m' u l :
  fakeSetController o m = inr m' ->
  fakeSetController o (setLabels (setUID m' u) l) = inr (setLabels (setUID m' u) l).
Proof.
  intros Hset. pose proof (fakeSetController_ref o m m' Hset) as [Hc _].
  assert (OwnerReferences m' = upsertOwnerRef (ownerRef o (Some true)) (OwnerReferences m)) as Hm.
  { unfold fakeSetController in Hset. repeat case_match; by simplify_eq. }
  unfold fakeSetController. change (controllerOf (setLabels (setUID m' u) l)) with (controllerOf m').
  rewrite Hc, sameObject_refl. simpl. rewrite Hm, upsertOwnerRef_again, <- Hm. by destruct m'.
Qed.

Lemma fakeSetOwner_ok o m m' :
  fakeSetOwner o m = inr m' ->
  m' = setOwnerReferences m (OwnerReferences m') /\
  ((forall r, controllerOf m = Some r -> owner_Kind r <> gvk_Kind (own_gvk o)) ->
   controllerOf m' = controllerOf m).
Proof.
  unfold fakeSetOwner. intros [= <-]. split; [done|]. intros Hk.
  apply find_upsert_other; [done|]. intros r Hr. unfold sameObject. simpl.
  rewrite (bool_decide_false (owner_Kind r = _)) by by apply Hk. by rewrite andb_false_r.
Qed.

#[local] Instance FakePlatform_laws : PlatformLaws FakePlatform.
Proof.
  constructor; simpl.
  - done.
  - by intros [].
  - intros m o. unfold fakeIsControlledBy. destruct (controllerOf m); [|naive_solver].
    rewrite bool_decide_eq_true. naive_solver.
  - intros o m m' Hset. apply fakeSetController_ref in Hset as [Hc Hm]. split; [|done].
    unfold fakeIsControlledBy. rewrite Hc. by apply bool_decide_true.
  - intros o m m' Hset. by apply fakeSetController_ref in Hset as [Hc _].
  - intros o m Hc _. unfold fakeSetController. destruct (controllerOf m) as [r|] eqn:Hr; [|eauto].
    destruct (Hc r Hr) as (H1 & H2 & H3). unfold sameObject. simpl. rewrite H1, H2, H3, !bool_decide_true by done. eauto.
  - exact fakeSetController_again.
  - intros o m r Hc _ Hn. unfold fakeSetController, sameObject. rewrite Hc. simpl.
    rewrite (bool_decide_false (owner_Name r = _)) by done. rewrite andb_false_r. eauto.
  - exact fakeSetOwner_ok.
  - intros o m _. by eexists.
  - intros m f. apply bool_decide_eq_true.
  - intros m f. case_decide; [split; [by destruct m|naive_solver]|].
    split; [done|]. intros g. simpl. rewrite elem_of_app, list_elem_of_singleton. naive_solver.
  - intros m f. split; [done|]. intros g. simpl. by rewrite list_elem_of_filter.
  - intros g k Ha Hk. by rewrite lookup_insert_ne, lookup_singleton_ne by done.
  - intros obj v a b Ha. by rewrite Ha.
  - intros obj v a b m Ha. by rewrite Ha.
  - intros obj v a b x Ha Hx. rewrite Ha. destruct x; try (by eexists). by destruct (Hx m).
  - done.
  - intros obj a b m l Ha Hb. by rewrite Ha, Hb.
  - intros obj a b Hno. destruct (obj !! a) as [[]|]; try done.
    specialize (Hno m). destruct (m !! b) as [[]|]; try done. by destruct (Hno l).
Qed.

(* ------------------------------------------------------------------ *)
(** ** An in-memory cluster *)

Record FakeWorld := { fw_store : Store; fw_crds : list GroupVersionKind }.

Definition withStore (w : FakeWorld) (s : Store) : FakeWorld :=
  {| fw_store := s; fw_crds := fw_crds w |}.

Definition fakePut `{Countable K} {T} (kd : Kind K T) (o : T) (w : FakeWorld) : FakeWorld :=
  withStore w (kput kd (<[kkey kd o := o]> (ksel kd (fw_store w))) (fw_store w)).

Definition fakeClient `{Countable K} {T} (kd : Kind K T) : TypedClient FakeWorld K T := {|
  Get k w := (match ksel kd (fw_store w) !! k with
              | Some o => inr o
              | None => inl FNotFound
              end : liberror + T, w);
  List w := (inr (map_to_list (ksel kd (fw_store w))).*2, w);
  Create o w := match ksel kd (fw_store w) !! kkey kd o with
                | Some _ => (inl (FConflict : liberror), w)
                | None => (inr o, fakePut kd o w)
                end;
  Update o w := match ksel kd (fw_store w) !! kkey kd o with
                | Some _ =>
                    (inr o, if decide (DeletionTimestamp (kmeta kd o) <> None /\
                                       Finalizers (kmeta kd o) = [])
                            then withStore w (kput kd (delete (kkey kd o) (ksel kd (fw_store w)))
                                                   (fw_store w))
                            else fakePut kd o w)
                | None => (inl (FNotFound : liberror), w)
                end;
  Delete o w := match ksel kd (fw_store w) !! kkey kd o with
                | None => (Some (FNotFound : liberror), w)
                | Some o0 =>
                    (None, if decide (Finalizers (kmeta kd o0) = []) then
                             withStore w (kput kd (delete (kkey kd o) (ksel kd (fw_store w)))
                                               (fw_store w))
                           else w)
                end;
  CreateOrUpdate o f w :=
    match f (default o (ksel kd (fw_store w) !! kkey kd o)) with
    | Ret o1 => (Ret o1, withStore w (kput kd (<[kkey kd o := o1]> (ksel kd (fw_store w)))
                                           (fw_store w)))
    | Err e => (Err e, w)
    | Panic => (Panic, w)
    end;
|}.

Definition FakeCluster : Cluster := {|
  world := FakeWorld;
  organizations := fakeClient organizationKind;
  profiles := fakeClient profileKind;
  projects := fakeClient projectKind;
  maasconfigurations := fakeClient maasKind;
  namespaces := fakeClient namespaceKind;
  rolebindings := fakeClient rolebindingKind;
  networkpolicies := fakeClient networkpolicyKind;
  unstructureds := fakeClient aitenantKind;
  HasCRD g w := (inr (existsb (fun h => bool_decide (gvk_Kind h = gvk_Kind g)) (fw_crds w)), w);
|}.

#[local] Existing Instance FakeCluster.

(** The two facts about a kind the laws need. *)
Class KindLaws `{Countable K} {T} (kd : Kind K T) : Prop := {
  ksame_refl o : ksame kd o o;
  kput_self s : kput kd (ksel kd s) s = s;
}.

Lemma fakeClient_lawful `{Countable K} {T} (kd : Kind K T) `{!KindLaws kd} :
  LawfulClient fw_store (fakeClient kd) kd.
Proof.
  pose proof (ksame_refl (kd := kd)) as Hrefl.
  constructor; simpl; unfold fakePut, withStore; simpl.
  - intros k w o w'. repeat case_match; naive_solver.
  - intros k w e w'. repeat case_match; naive_solver.
  - intros w l w' [= <- <-]. done.
  - done.
  - intros o w o' w'. repeat case_match; naive_solver.
  - intros o w e w'. repeat case_match; naive_solver.
  - intros o w o' w'. destruct (ksel kd (fw_store w) !! kkey kd o) as [o0|] eqn:Ho; [|done].
    intros [= <- <-]. split; [done|]. split; [done|]. split; [done|]. case_decide as Hd; simpl.
    + exists None. split; [done|]. by right.
    + exists (Some o). split; [done|]. by left.
  - intros o w e w'. repeat case_match; naive_solver.
  - intros o w w'. destruct (ksel kd (fw_store w) !! kkey kd o) as [o0|] eqn:Ho; [|done].
    intros [= <-]. case_decide as Hf; simpl.
    + exists o0, None. done.
    + exists o0, (ksel kd (fw_store w) !! kkey kd o).
      split; [done|]. split; [by rewrite partial_alter_self, kput_self|].
      split; [done|]. rewrite Ho. by intros o1 [= ->].
  - intros o w e w'. repeat case_match; naive_solver.
  - intros o f w o' w'. case_match eqn:Hf; naive_solver.
  - intros o f w e w'. case_match eqn:Hf; naive_solver.
  - intros o f w w'. case_match eqn:Hf; naive_solver.
Qed.

Lemma fakeClient_reliable `{Countable K} {T} (kd : Kind K T) :
  ReliableClient fw_store (fakeClient kd) kd.
Proof.
  constructor; simpl.
  - intros k w o ->. eauto.
  - intros k w ->. eauto.
  - eauto.
Qed.

Lemma fakeClient_nomatch `{Countable K} {T} (kd : Kind K T) k w e w' :
  Get (fakeClient kd) k w = (inl e, w') -> IsNoMatchError e = true ->
  ksel kd (fw_store w) !! k = None.
Proof. simpl. by destruct (ksel kd (fw_store w) !! k). Qed.

Lemma same_meta_refl m : same_meta m m.
Proof. by destruct m. Qed.
Lemma same_namespace_meta_refl m : same_namespace_meta m m.
Proof. destruct m. split; [done|by left]. Qed.
#[local] Hint Resolve same_meta_refl same_namespace_meta_refl : core.

Ltac solve_kind := constructor; [intros []; simpl; auto | by intros []].

#[local] Instance organizationKind_laws : KindLaws organizationKind.
Proof. solve_kind. Qed.
#[local] Instance profileKind_laws : KindLaws profileKind.
Proof. solve_kind. Qed.
#[local] Instance projectKind_laws : KindLaws projectKind.
Proof. solve_kind. Qed.
#[local] Instance maasKind_laws : KindLaws maasKind.
Proof. solve_kind. Qed.
#[local] Instance namespaceKind_laws : KindLaws namespaceKind.
Proof. solve_kind. Qed.
#[local] Instance rolebindingKind_laws : KindLaws rolebindingKind.
Proof. solve_kind. Qed.
#[local] Instance networkpolicyKind_laws : KindLaws networkpolicyKind.
Proof. solve_kind. Qed.
#[local] Instance aitenantKind_laws : KindLaws aitenantKind.
Proof. solve_kind. Qed.

#[local] Instance FakeCluster_lawful : LawfulCluster FakeCluster := {|
  view := (fw_store : world -> Store);
  organizations_lawful := fakeClient_lawful organizationKind;
  profiles_lawful := fakeClient_lawful profileKind;
  projects_lawful := fakeClient_lawful projectKind;
  maas_lawful := fakeClient_lawful maasKind;
  namespaces_lawful := fakeClient_lawful namespaceKind;
  rolebindings_lawful := fakeClient_lawful rolebindingKind;
  networkpolicies_lawful := fakeClient_lawful networkpolicyKind;
  aitenants_lawful := fakeClient_lawful aitenantKind;
  aitenants_nomatch := fakeClient_nomatch aitenantKind;
  HasCRD_pure g w := eq_refl;
|}.

#[local] Instance FakeCluster_reliable : ReliableReads FakeCluster.
Proof. constructor; apply fakeClient_reliable. Qed.

(** An empty cluster, and building blocks for scenarios. *)
Definition emptyStore : Store := {|
  s_organizations := ∅; s_profiles := ∅; s_projects := ∅; s_maas := ∅;
  s_namespaces := ∅; s_rolebindings := ∅; s_networkpolicies := ∅; s_aitenants := ∅ |}.

Definition org (name parent root : string) : Organization :=
  {| organization_meta := setUID (namedMeta "" name) ("uid-" +:+ name);
     organization_Spec := {| Parent := parent |};
     organization_Status := {| organization_apiStatus := zeroStatus; Root := root |} |}.

Definition profileWith (name : string) (admins : slice Subject) (maxProjects : Z)
    : OrganizationProfile :=
  {| profile_meta := setUID (namedMeta "" name) ("uid-profile-" +:+ name);
     profile_Spec := {| profile_OrganizationRef := {| ref_Name := name |};
                        Admins := admins;
                        Defaults := {| default_NetworkIsolation := "tenant";
                                       MaxProjects := maxProjects |};
                        profile_Platform := None |};
     profile_Status := {| profile_apiStatus := zeroStatus |} |}.

Definition userSubject (name : string) : Subject :=
  {| subject_Kind := "User"; subject_Name := name; subject_Namespace := "" |}.

(** The subset of users a request context can carry here. *)
Definition ctxOf (name : string) (groups : list string) : context :=
  inr {| Username := name; Groups := groups |}.

Definition fakeWorld (s : Store) : world := {| fw_store := s; fw_crds := [] |}.

(** A three-level organization tree: research > genomics > proteomics, with alice
    an administrator of the root and carol of the leaf. *)
Definition demoStore : Store := {|
  s_organizations := list_to_map
    [("research", org "research" "" "research");
     ("genomics", org "genomics" "research" "research");
     ("proteomics", org "proteomics" "genomics" "research")];
  s_profiles := list_to_map
    [("research", profileWith "research" (Some [userSubject "alice"]) 0);
     ("genomics", profileWith "genomics" None 2);
     ("proteomics", profileWith "proteomics" (Some [userSubject "carol"]) 1)];
  s_projects := ∅; s_maas := ∅; s_namespaces := ∅; s_rolebindings := ∅;
  s_networkpolicies := ∅; s_aitenants := ∅ |}.

(** Evaluate a lookup in a store written out with [list_to_map] and inserts. *)
Ltac store_lookup :=
  simpl; repeat (rewrite lookup_insert_ne by discriminate);
  first [apply lookup_insert_eq | apply lookup_empty].

Lemma demo_organization o x :
  s_organizations demoStore !! o = Some x <->
  o = "research" /\ x = org "research" "" "research" \/
  o = "genomics" /\ x = org "genomics" "research" "research" \/
  o = "proteomics" /\ x = org "proteomics" "genomics" "research".
Proof.
  unfold demoStore. simpl. rewrite !lookup_insert_Some, lookup_empty. naive_solver.
Qed.

Lemma demo_profile o p :
  s_profiles demoStore !! o = Some p <->
  o = "research" /\ p = profileWith "research" (Some [userSubject "alice"]) 0 \/
  o = "genomics" /\ p = profileWith "genomics" None 2 \/
  o = "proteomics" /\ p = profileWith "proteomics" (Some [userSubject "carol"]) 1.
Proof.
  unfold demoStore. simpl. rewrite !lookup_insert_Some, lookup_empty. naive_solver.
Qed.

(** For the scenarios: [Import FakeInstances] makes the platform above the one in use. *)
Module FakeInstances.
#[export] Existing Instance FakePlatform.
#[export] Existing Instance FakePlatform_laws.
#[export] Existing Instance FakeCluster.
#[export] Existing Instance FakeCluster_lawful.
#[export] Existing Instance FakeCluster_reliable.
End FakeInstances.
