(* ===== verification/Validation.v ===== *)
(** What the Kubernetes API server checks of the objects the project controller writes, as
    its API reference documents it: the syntax of names and labels, the subjects of a role
    binding, the selectors of a network policy, and that nothing is created in a namespace
    that is missing or going away.  All of it is decidable.

    Not among the checks: owner references, finalizers and annotations (the operator only
    passes on what the libraries make of them), size limits, and quotas or admission
    plugins that a cluster may add. *)

From stdpp Require Import gmap strings list.
From Stdlib Require Import Ascii ZArith.
From S2P Require Import Prelude Platform Api Cluster.

Local Open Scope string_scope.

(* ------------------------------------------------------------------ *)
(** ** Names *)

Definition between (lo hi c : ascii) : bool :=
  (N_of_ascii lo <=? N_of_ascii c)%N && (N_of_ascii c <=? N_of_ascii hi)%N.

Definition lowerAlnum (c : ascii) : bool := between "a" "z" c || between "0" "9" c.
Definition anyAlnum (c : ascii) : bool := lowerAlnum c || between "A" "Z" c.

(** A non-empty word of inner characters that starts and ends with an outer one. *)
Definition word (inner outer : ascii -> bool) (l : list ascii) : bool :=
  match l, last l with
  | c :: _, Some c' => outer c && outer c' && forallb inner l
  | _, _ => false
  end.

Definition dnsPart : list ascii -> bool := word (fun c => lowerAlnum c || (c =? "-")%char) lowerAlnum.
Definition namePart : list ascii -> bool :=
  word (fun c => anyAlnum c || (c =? "-")%char || (c =? "_")%char || (c =? ".")%char) anyAlnum.

(** The pieces of a string between separators. *)
Fixpoint pieces (sep : ascii) (l : list ascii) : list (list ascii) :=
  match l with
  | [] => [[]]
  | c :: l' =>
      if (c =? sep)%char then [] :: pieces sep l'
      else match pieces sep l' with
           | p :: ps => (c :: p) :: ps
           | [] => [[c]]
           end
  end.

(** DNS labels (names of namespaces) and DNS subdomains (names of other objects). *)
Definition dnsLabel (s : string) : bool :=
  dnsPart (String.list_ascii_of_string s) && (String.length s <=? 63)%nat.
Definition dnsSubdomain (s : string) : bool :=
  forallb dnsPart (pieces "." (String.list_ascii_of_string s)) && (String.length s <=? 253)%nat.

(** The value of a label: empty, or a name of at most 63 characters. *)
Definition labelValue (s : string) : bool :=
  bool_decide (s = "") || namePart (String.list_ascii_of_string s) && (String.length s <=? 63)%nat.

(** The key of a label: a name, possibly behind a DNS subdomain and a slash. *)
Definition labelKey (s : string) : bool :=
  match pieces "/" (String.list_ascii_of_string s) with
  | [name] => namePart name && (length name <=? 63)%nat
  | [prefix; name] =>
      dnsSubdomain (String.string_of_list_ascii prefix) && namePart name && (length name <=? 63)%nat
  | _ => false
  end.

(** Every DNS label is a label value. *)
Lemma word_mono (inner inner' outer outer' : ascii -> bool) l :
  (forall c, inner c = true -> inner' c = true) -> (forall c, outer c = true -> outer' c = true) ->
  word inner outer l = true -> word inner' outer' l = true.
Proof.
  intros Hi Ho. unfold word. destruct l as [|c l]; [done|]. destruct (last (c :: l)); [|done].
  rewrite !andb_true_iff, !forallb_forall. intros [[??] Hall]. auto.
Qed.

Lemma dnsLabel_value s : dnsLabel s = true -> labelValue s = true.
Proof.
  unfold dnsLabel, labelValue, dnsPart, namePart. rewrite !andb_true_iff. intros [Hw Hl].
  apply orb_true_iff. right. rewrite Hl, andb_true_r. revert Hw. apply word_mono; intros c; unfold anyAlnum.
  - rewrite !orb_true_iff. tauto.
  - intros ->. done.
Qed.

Definition labels_valid (l : gomap string) : Prop :=
  map_Forall (fun k v => labelKey k = true /\ labelValue v = true) (default ∅ l).

Lemma labels_valid_insert k v (l : gmap string string) :
  labelKey k = true -> labelValue v = true -> labels_valid (Some l) -> labels_valid (Some (<[k := v]> l)).
Proof. intros Hk Hv Hl. by apply map_Forall_insert_2. Qed.

Lemma labels_valid_empty : labels_valid None.
Proof. apply map_Forall_empty. Qed.

(* ------------------------------------------------------------------ *)
(** ** Objects *)

(** The subject of a role binding: users and groups are of the RBAC API group, a service
    account is of the core group and has a namespace. *)
Definition subjectValid (s : RBACSubject) : bool :=
  negb (bool_decide (rs_Name s = "")) &&
  (if decide (rs_Kind s = "ServiceAccount")
   then bool_decide (rs_APIGroup s = "") && dnsSubdomain (rs_Name s) && negb (bool_decide (rs_Namespace s = ""))
   else bool_decide (rs_Kind s = "User" \/ rs_Kind s = "Group") &&
        bool_decide (rs_APIGroup s = "rbac.authorization.k8s.io")).

Definition selector_valid (s : LabelSelector) : Prop := labels_valid (MatchLabels s).

Definition peer_valid (p : NetworkPolicyPeer) : Prop :=
  (PodSelector p <> None \/ NamespaceSelector p <> None) /\
  (forall s, PodSelector p = Some s -> selector_valid s) /\
  (forall s, NamespaceSelector p = Some s -> selector_valid s).

Definition policy_valid (s : NetworkPolicySpec) : Prop :=
  selector_valid (np_PodSelector s) /\
  forall r p, r ∈ Ingress s -> p ∈ np_From r -> peer_valid p.

Section accepted.
  Context `{P : Platform}.

(** The namespace exists and is not being deleted. *)
Definition active (name : string) (st : Store) : Prop :=
  exists ns, s_namespaces st !! name = Some ns /\ DeletionTimestamp (ns_meta ns) = None.

(* ------------------------------------------------------------------ *)
(** ** What the server accepts

    [accepts st old new]: with the objects of [st] stored, [new] may be created ([old] is
    [None]) or replace [old]. *)

Definition namespace_accepted (st : Store) (old : option Namespaced) (new : Namespaced) : Prop :=
  Namespace (ns_meta new) = "" /\ dnsLabel (Name (ns_meta new)) = true /\ labels_valid (Labels (ns_meta new)).

(** The role reference of a binding is immutable. *)
Definition binding_accepted (st : Store) (old : option RoleBinding) (new : RoleBinding) : Prop :=
  (old = None -> active (Namespace (rb_meta new)) st) /\
  rr_APIGroup (rb_RoleRef new) = "rbac.authorization.k8s.io" /\
  rr_Kind (rb_RoleRef new) ∈ ["Role"; "ClusterRole"] /\ rr_Name (rb_RoleRef new) <> "" /\
  (forall s, s ∈ elems (rb_Subjects new) -> subjectValid s = true) /\
  (forall b, old = Some b -> rb_RoleRef new = rb_RoleRef b).

Definition policy_accepted (st : Store) (old : option NetworkPolicy) (new : NetworkPolicy) : Prop :=
  (old = None -> active (Namespace (np_meta new)) st) /\ policy_valid (np_Spec new).

End accepted.

Example dnsLabel_lab : dnsLabel "lab" && dnsLabel "a-1" && negb (dnsLabel "a.b") && negb (dnsLabel "-a") = true.
Proof. reflexivity. Qed.

Example labelKey_used :
  labelKey "organization.opendatahub.io/name" && labelKey "kubernetes.io/metadata.name" && negb (labelKey "a/b/c") = true.
Proof. reflexivity. Qed.
