(* ===== verification/Available.v ===== *)
(** An API server that is up: the calls the project and MaaS controllers make succeed when
    the server's own rules allow them.  Only the theorems about progress assume it
    ([AvailableCluster]); all others hold for any answers.

    The rules are those of Validation.v: a write that breaks one may be refused. *)

From stdpp Require Import gmap strings list.
From S2P Require Import Prelude Platform Api Cluster Fake Validation.

(** [accepts st old new]: in the store [st] the server lets [new] be created, or replace the
    stored [old]. *)
Class AvailableClient `{P : Platform} {W K T} `{Countable K}
    (view : W -> Store) (c : TypedClient W K T) (kd : Kind K T) (accepts : Store -> option T -> T -> Prop) : Prop := {
  available_reads :: ReliableClient view c kd;
  (** the mutated object is stored; a stored object keeps its UID, and one that the
      mutation leaves as it is is not written *)
  createOrUpdate_available o f w o1 :
    f (default o (ksel kd (view w) !! kkey kd o)) = Ret o1 ->
    accepts (view w) (ksel kd (view w) !! kkey kd o) o1 ->
    exists o' w', CreateOrUpdate c o f w = (Ret o', w') /\
      forall o0, ksel kd (view w) !! kkey kd o = Some o0 ->
        UID (kmeta kd o') = UID (kmeta kd o1) /\ (o1 = o0 -> o' = o0);
  delete_available o w :
    exists r w', Delete c o w = (r, w') /\ forall e, r = Some e -> IsNotFound e = true;
}.

Class AvailableCluster `{P : Platform} (C : Cluster) `{!LawfulCluster C} : Prop := {
  available_api :: ReliableReads C;
  namespaces_available :: AvailableClient view namespaces namespaceKind namespace_accepted;
  rolebindings_available :: AvailableClient view rolebindings rolebindingKind binding_accepted;
  networkpolicies_available :: AvailableClient view networkpolicies networkpolicyKind policy_accepted;
}.

(** Creating and updating through the plain calls.  [accepts st o]: admission lets [o] be
    written to the store [st]. *)
Class AvailableWrites `{P : Platform} {W K T} `{Countable K}
    (view : W -> Store) (c : TypedClient W K T) (kd : Kind K T) (accepts : Store -> T -> Prop) : Prop := {
  writes_reads :: ReliableClient view c kd;
  create_available o w :
    ksel kd (view w) !! kkey kd o = None -> accepts (view w) o ->
    exists o' w', Create c o w = (inr o', w');
  (** an update that changes nothing leaves the stored object as it is *)
  update_available o w o0 :
    ksel kd (view w) !! kkey kd o = Some o0 -> accepts (view w) o ->
    exists o' w', Update c o w = (inr o', w') /\ (o = o0 -> o' = o0);
  remove_available o w o0 :
    ksel kd (view w) !! kkey kd o = Some o0 -> exists w', Delete c o w = (None, w');
}.

Section rules.
  Context `{P : Platform} {W K T : Type} `{Countable K}.
  Context (view : W -> Store) (c : TypedClient W K T) (kd : Kind K T) (accepts : Store -> option T -> T -> Prop).
  Context `{!LawfulClient view c kd} `{!AvailableClient view c kd accepts}.
  Hypothesis kput_ksel : forall s, kput kd (ksel kd s) s = s.

Lemma wp_CreateOrUpdate_available o f o1 (Q : outcome error T -> W -> Prop) w :
  f (default o (ksel kd (view w) !! kkey kd o)) = Ret o1 ->
  accepts (view w) (ksel kd (view w) !! kkey kd o) o1 ->
  (forall o' w', ksame kd o1 o' -> view w' = stored kd (kkey kd o) o' (view w) ->
     (forall o0, ksel kd (view w) !! kkey kd o = Some o0 ->
        UID (kmeta kd o') = UID (kmeta kd o1) /\ (o1 = o0 -> o' = o0 /\ view w' = view w)) ->
     Q (Ret o') w') ->
  wp (CreateOrUpdate c o f) Q w.
Proof.
  intros Hf Hacc HQ.
  destruct (createOrUpdate_available (accepts := accepts) o f w o1 Hf Hacc) as (o' & w' & Hrun & Hkept).
  unfold wp. rewrite Hrun. simpl.
  apply createOrUpdate_done in Hrun as (o2 & Hf2 & Hsame & Hv). rewrite Hf in Hf2. simplify_eq.
  apply HQ; [done..|]. intros o0 Ho0. destruct (Hkept o0 Ho0) as [Huid Heq]. split; [done|].
  intros Ho1. specialize (Heq Ho1). subst o'. split; [done|].
  rewrite Hv, insert_id, kput_ksel by done. done.
Qed.

(** Deleting: the object is gone if nothing holds it, and there was none otherwise. *)
Lemma wp_Delete_available o (Q : outcome error (option liberror) -> W -> Prop) w :
  (forall r w', (forall e, r = Some e -> IsNotFound e = true) ->
     (r = None \/ ksel kd (view w) !! kkey kd o = None) ->
     (ksel kd (view w) !! kkey kd o = None -> view w' = view w) ->
     (forall o0, ksel kd (view w) !! kkey kd o = Some o0 -> Finalizers (kmeta kd o0) = [] ->
        view w' = kput kd (delete (kkey kd o) (ksel kd (view w))) (view w)) ->
     Q (Ret r) w') ->
  wp (call (Delete c o)) Q w.
Proof.
  intros HQ. apply wp_call. intros r w' Hrun.
  destruct (delete_available (c := c) o w) as (r' & w1 & Hrun' & Hnf). rewrite Hrun in Hrun'. simplify_eq.
  destruct r' as [e|].
  - apply delete_failed in Hrun as [Hnone Hv]. specialize (Hnone (Hnf e eq_refl)).
    apply HQ; [done|by right|done|congruence].
  - apply delete_done in Hrun as (o0 & r & Ho0 & Hv & Hfin & _).
    apply HQ; [done|by left|congruence|]. intros o1 Ho1 Hf. simplify_eq. rewrite Hfin in Hv by done.
    exact Hv.
Qed.

(** Reading: what is stored is returned. *)
Lemma wp_Get_available k (Q : outcome error (liberror + T) -> W -> Prop) w :
  (forall o w', ksel kd (view w) !! k = Some o -> view w' = view w -> Q (Ret (inr o)) w') ->
  (forall e w', ksel kd (view w) !! k = None -> IsNotFound e = true -> view w' = view w -> Q (Ret (inl e)) w') ->
  wp (call (Get c k)) Q w.
Proof.
  intros Hok Herr. apply (wp_Get view c kd True); [intros _; exact available_reads|done|].
  intros e w' Hnf HR Hv. apply Herr; auto.
Qed.
End rules.

Section write_rules.
  Context `{P : Platform} {W K T : Type} `{Countable K}.
  Context (view : W -> Store) (c : TypedClient W K T) (kd : Kind K T) (accepts : Store -> T -> Prop).
  Context `{!LawfulClient view c kd} `{!AvailableWrites view c kd accepts}.

Lemma wp_Create_available o (Q : outcome error (liberror + T) -> W -> Prop) w :
  ksel kd (view w) !! kkey kd o = None -> accepts (view w) o ->
  (forall o' w', ksame kd o o' -> view w' = stored kd (kkey kd o) o' (view w) -> Q (Ret (inr o')) w') ->
  wp (call (Create c o)) Q w.
Proof.
  intros Hn Ha HQ. destruct (create_available (accepts := accepts) o w Hn Ha) as (o' & w' & Hrun).
  unfold wp, call. rewrite Hrun. simpl. apply create_done in Hrun as (_ & ? & ?). by apply HQ.
Qed.

Lemma wp_Update_available o o0 (Q : outcome error (liberror + T) -> W -> Prop) w :
  ksel kd (view w) !! kkey kd o = Some o0 -> accepts (view w) o ->
  (forall o' r w', ksame kd o o' -> (UID (kmeta kd o) <> ""%string -> UID (kmeta kd o') = UID (kmeta kd o)) ->
     (o = o0 -> o' = o0) ->
     view w' = kput kd (partial_alter (fun _ => r) (kkey kd o) (ksel kd (view w))) (view w) ->
     (r = Some o' \/
      r = None /\ DeletionTimestamp (kmeta kd o) <> None /\ Finalizers (kmeta kd o) = []) ->
     Q (Ret (inr o')) w') ->
  wp (call (Update c o)) Q w.
Proof.
  intros Ho Ha HQ. destruct (update_available (accepts := accepts) o w o0 Ho Ha) as (o' & w' & Hrun & Hsame).
  unfold wp, call. rewrite Hrun. simpl. apply update_done in Hrun as (_ & ? & ? & r & ? & ?).
  by eapply HQ.
Qed.
End write_rules.

(* ------------------------------------------------------------------ *)
(** ** The in-memory cluster is available *)

Section fake.
Import FakeInstances.

Lemma fakeClient_available `{Countable K} {T} (kd : Kind K T) accepts :
  AvailableClient fw_store (fakeClient kd) kd accepts.
Proof.
  constructor.
  - apply fakeClient_reliable.
  - intros o f w o1 Hf _. simpl. rewrite Hf. eexists _, _. split; [done|]. done.
  - intros o w. simpl. destruct (ksel kd (fw_store w) !! kkey kd o) as [o0|].
    + eexists _, _. split; [done|]. done.
    + eexists _, _. split; [done|]. by intros e [= <-].
Qed.

Lemma fakeClient_writes `{Countable K} {T} (kd : Kind K T) accepts :
  AvailableWrites fw_store (fakeClient kd) kd accepts.
Proof.
  constructor; [apply fakeClient_reliable| | |]; intros; simpl; case_match; simplify_eq; eauto.
Qed.

#[local] Instance FakeCluster_available : AvailableCluster FakeCluster.
Proof. constructor; [exact _|apply fakeClient_available..]. Qed.
End fake.
