(* ===== verification/Authz.v ===== *)
(** The authorizer of internal/webhook/v1alpha1/authz.go: who is trusted, who is
    an administrator of an organization, and who inherits that authority.

    The abstract specification is [admin_of] (a subject of the profile matches)
    and [ancestor] (so many [spec.parent] hops away, through organizations that
    exist); the theorems say that the bounded walk of the code decides exactly
    "some ancestor at most two hops up lists the user". *)

From stdpp Require Import gmap strings list.
From Stdlib Require Import ZArith Ascii.
From S2P Require Import Prelude Platform Api Cluster.

Local Open Scope string_scope.

Definition maxAncestorWalk : nat := 3.
Definition defaultOperatorNS : string := "tenancy-operator-system".
Definition defaultClusterAdminGroups : list string := ["system:masters"; "kubeadm:cluster-admins"].

(** The authorizer struct; its reader is the cluster the definitions below take. *)
Record authorizer := {
  operatorNamespace : string;
  clusterAdminGroups : list string;
}.

(** [getenv] is os.Getenv: the empty string for a variable that is not set. *)
Definition newAuthorizer (getenv : string -> string) : authorizer :=
  let ns := getenv "OPERATOR_NAMESPACE" in
  let ns := if decide (ns = "") then defaultOperatorNS else ns in
  let env := getenv "CLUSTER_ADMIN_GROUPS" in
  let groups := if decide (env = "") then defaultClusterAdminGroups
                else strings_Split ","%char env in
  {| operatorNamespace := ns; clusterAdminGroups := groups |}.

Fixpoint isTrusted_loop (a : authorizer) (operatorSAGroup : string) (gs : list string) : bool :=
  match gs with
  | [] => false
  | g :: gs' =>
      if decide (g = operatorSAGroup) then true
      else if slices_Contains (clusterAdminGroups a) g then true
      else isTrusted_loop a operatorSAGroup gs'
  end.

Definition isTrusted (a : authorizer) (u : UserInfo) : bool :=
  isTrusted_loop a ("system:serviceaccounts:" +:+ operatorNamespace a) (Groups u).

Definition serviceAccountUsername (ns name : string) : string :=
  "system:serviceaccount:" +:+ ns +:+ ":" +:+ name.

Definition subjectMatches (s : Subject) (u : UserInfo) : bool :=
  if decide (subject_Kind s = "User") then bool_decide (subject_Name s = Username u)
  else if decide (subject_Kind s = "Group") then slices_Contains (Groups u) (subject_Name s)
  else if decide (subject_Kind s = "ServiceAccount") then
    bool_decide (Username u = serviceAccountUsername (subject_Namespace s) (subject_Name s))
  else false.

Section authz.
  Context `{P : Platform} `{C : !Cluster}.

Definition userFromContext (ctx : context) : outcome error UserInfo :=
  match RequestFromContext ctx with
  | inl e => Err (ELib e)
  | inr u => Ret u
  end.

Fixpoint anyMatch (admins : list Subject) (u : UserInfo) : bool :=
  match admins with
  | [] => false
  | s :: admins' => if subjectMatches s u then true else anyMatch admins' u
  end.

Definition selfAdmin (u : UserInfo) (organization : string) : GoM world error bool :=
  let* r := call (Get profiles organization) in
  match r with
  | inl err => if IsNotFound err then ret false else fail (ELib err)
  | inr p => ret (anyMatch (elems (Admins (profile_Spec p))) u)
  end.

(** [for range n] with the loop variable [cur]. *)
Fixpoint ancestorAdmin_loop (n : nat) (u : UserInfo) (cur : string) : GoM world error bool :=
  match n with
  | O => ret false
  | S n' =>
      if decide (cur = "") then ret false
      else
        let* ok := selfAdmin u cur in
        if ok : bool then ret true
        else
          let* r := call (Get organizations cur) in
          match r with
          | inl err => if IsNotFound err then ret false else fail (ELib err)
          | inr parent => ancestorAdmin_loop n' u (organizationParent parent)
          end
  end.

Definition ancestorAdmin (u : UserInfo) (organization : string) : GoM world error bool :=
  ancestorAdmin_loop maxAncestorWalk u organization.

Definition requireAncestorAdmin (a : authorizer) (ctx : context) (organization : string)
    (action : text) : GoM world error unit :=
  let* u := lift (userFromContext ctx) in
  if isTrusted a u then ret tt
  else
    let* ok := ancestorAdmin u organization in
    if negb ok then
      fail (Errorf (Sprintf "user %q is not an admin of organization %q or any ancestor; cannot %s"
                      [OStr (Username u); OStr organization; OText action]))
    else ret tt.

Definition requireSelfAdmin (a : authorizer) (ctx : context) (organization : string)
    (action : text) : GoM world error unit :=
  let* u := lift (userFromContext ctx) in
  if isTrusted a u then ret tt
  else
    let* ok := selfAdmin u organization in
    if negb ok then
      fail (Errorf (Sprintf "user %q is not an admin of organization %q; cannot %s"
                      [OStr (Username u); OStr organization; OText action]))
    else ret tt.
End authz.

(* ------------------------------------------------------------------ *)
(** ** Abstract specification *)

Section spec.
  Context `{P : Platform}.

(** The profile of [org] lists a subject that the user satisfies. *)
Definition admin_of (st : Store) (u : UserInfo) (org : string) : Prop :=
  exists p s, s_profiles st !! org = Some p /\
    s ∈ elems (Admins (profile_Spec p)) /\ subjectMatches s u = true.

(** [a] is [n] parent links above [o]; every organization below it exists. *)
Inductive ancestor (st : Store) : nat -> string -> string -> Prop :=
| ancestor_self o : o <> "" -> ancestor st 0 o o
| ancestor_parent n o x a :
    o <> "" -> s_organizations st !! o = Some x ->
    ancestor st n (organizationParent x) a -> ancestor st (S n) o a.

Definition inherits_admin (bound : nat) (st : Store) (u : UserInfo) (org : string) : Prop :=
  exists n a, n < bound /\ ancestor st n org a /\ admin_of st u a.

(** A computed boolean decides [Q]; with reliable reads ([R]) there is one. *)
Definition decides (R : Prop) (r : outcome error bool) (Q : Prop) : Prop :=
  match r with Ret b => b = true <-> Q | Err _ => R -> False | Panic => False end.

(** The user behind a request is trusted or satisfies a rule. *)
Definition userFrom (ctx : context) (u : UserInfo) : Prop := RequestFromContext ctx = inr u.
Definition authorized (a : authorizer) (ctx : context) (rule : UserInfo -> Prop) : Prop :=
  exists u, userFrom ctx u /\ (isTrusted a u = true \/ rule u).
End spec.

(* ------------------------------------------------------------------ *)
(** ** Pure parts *)

Lemma isTrusted_loop_spec a sa gs :
  isTrusted_loop a sa gs = true <-> exists g, g ∈ gs /\ (g = sa \/ g ∈ clusterAdminGroups a).
Proof.
  induction gs as [|g gs IH]; simpl; [set_solver|].
  unfold slices_Contains. setoid_rewrite elem_of_cons.
  case_decide; [naive_solver|].
  case_bool_decide; [naive_solver|].
  rewrite IH. naive_solver.
Qed.

Lemma anyMatch_spec admins u :
  anyMatch admins u = true <-> exists s, s ∈ admins /\ subjectMatches s u = true.
Proof.
  induction admins as [|s l IH]; simpl; [set_solver|].
  setoid_rewrite elem_of_cons.
  destruct (subjectMatches s u) eqn:Es; [by split; [exists s; auto|]|].
  rewrite IH. split; [intros (s' & ? & ?); exists s'; auto|].
  intros (s' & [->|] & ?); [congruence|by exists s'].
Qed.

(** The walk, one level at a time. *)
Section walk_spec.
  Context `{P : Platform}.

Lemma inherits_admin_0 st u org : ~ inherits_admin 0 st u org.
Proof. intros (n & a & Hn & _). lia. Qed.

Lemma inherits_admin_empty n st u : ~ inherits_admin n st u "".
Proof. intros (k & a & _ & Ha & _). inversion Ha; congruence. Qed.

Lemma inherits_admin_S n st u org :
  org <> "" ->
  inherits_admin (S n) st u org <->
  admin_of st u org \/
  exists x, s_organizations st !! org = Some x /\
            inherits_admin n st u (organizationParent x).
Proof.
  intros Hne. split.
  - intros (k & a & Hk & Ha & Hadm). inversion Ha; subst; [by left|].
    right. eexists; split; [done|]. eexists _, a. split; [|done]. lia.
  - intros [Hadm | (x & Hx & k & a & Hk & Ha & Hadm)].
    + exists 0, org. repeat split; [lia|by constructor|done].
    + exists (S k), a. repeat split; [lia|by eapply ancestor_parent|done].
Qed.

Lemma inherits_admin_mono n m st u org :
  n <= m -> inherits_admin n st u org -> inherits_admin m st u org.
Proof. intros Hle (k & a & Hk & H). exists k, a. split; [lia|done]. Qed.
End walk_spec.

(* ------------------------------------------------------------------ *)
(** ** The checks decide the specification *)

Section correctness.
  Context `{P : Platform} `{C : !Cluster} `{L : !LawfulCluster C}.
  Context (R : Prop) (HR : R -> ReliableReads C).

Lemma selfAdmin_decides u org w :
  wp (selfAdmin u org)
     (fun r w' => view w' = view w /\ decides R r (admin_of (view w) u org)) w.
Proof.
  unfold selfAdmin. apply wp_bind, (wp_Get _ _ profileKind R (fun r => let _ := HR r in _)); simpl.
  - intros p w' Hp Hv. apply wp_ret. split; [done|]. simpl.
    rewrite anyMatch_spec. unfold admin_of. naive_solver.
  - intros e w' Hnf HRnf Hv. destruct (IsNotFound e) eqn:He.
    + apply wp_ret. split; [done|]. simpl. split; [done|].
      intros (p & s & Hp & _). specialize (Hnf eq_refl). congruence.
    + apply wp_fail. split; [done|]. simpl. intros Hr. by specialize (HRnf Hr).
Qed.

Lemma ancestorAdmin_loop_decides n u org w :
  wp (ancestorAdmin_loop n u org)
     (fun r w' => view w' = view w /\ decides R r (inherits_admin n (view w) u org)) w.
Proof.
  revert org w. induction n as [|n IH]; intros org w; simpl.
  - apply wp_ret. split; [done|]. simpl. split; [done|]. by intros ?%inherits_admin_0.
  - case_decide as Hne.
    { subst. apply wp_ret. split; [done|]. simpl. split; [done|]. by intros ?%inherits_admin_empty. }
    apply wp_bind. eapply wp_mono; [apply selfAdmin_decides|].
    intros [b|e|] w1 [Hv Hb]; [|done|done]. simpl in Hb.
    destruct b.
    { apply wp_ret. split; [done|]. simpl. rewrite inherits_admin_S by done. naive_solver. }
    apply wp_bind, (wp_Get _ _ organizationKind R (fun r => let _ := HR r in _)); simpl; rewrite Hv.
    + intros x w2 Hx Hv2. eapply wp_mono; [apply IH|].
      intros r w3 [Hv3 Hr]. split; [congruence|]. rewrite Hv2 in Hr.
      destruct r as [b| |]; simpl in *; [|done|done].
      rewrite Hr, inherits_admin_S by done. split; [intros ?; right; by exists x|].
      intros [Ha|(x' & Hx' & Hi)]; [by apply Hb in Ha|]. rewrite Hx in Hx'. by injection Hx' as <-.
    + intros e w2 Hnf HRnf Hv2. destruct (IsNotFound e).
      * apply wp_ret. split; [congruence|]. simpl. split; [done|].
        rewrite inherits_admin_S by done. naive_solver.
      * apply wp_fail. split; [congruence|]. simpl. intros Hr. by specialize (HRnf Hr).
Qed.

Lemma ancestorAdmin_decides u org w :
  wp (ancestorAdmin u org)
     (fun r w' => view w' = view w /\
        decides R r (inherits_admin 3 (view w) u org)) w.
Proof. apply ancestorAdmin_loop_decides. Qed.

(** What the two [require*] functions share: the user of the request, the
    trusted bypass, then a decision. *)
Lemma require_checks a ctx (decision : UserInfo -> GoM world error bool) rule deny w :
  (forall u w0, view w0 = view w ->
     wp (decision u) (fun r w' => view w' = view w0 /\ decides R r (rule u)) w0) ->
  checks R (let* u := lift (userFromContext ctx) in
            if isTrusted a u then ret tt
            else let* ok := decision u in
                 if negb ok then fail (deny u) else ret tt)
         w (authorized a ctx rule).
Proof.
  intros Hdec. apply wp_bind. unfold wp at 1, lift, userFromContext, authorized, userFrom. simpl.
  destruct (RequestFromContext ctx) as [e|u] eqn:Eu; simpl.
  { split; [done|]. naive_solver. }
  destruct (isTrusted a u) eqn:Et.
  { apply wp_ret. naive_solver. }
  apply wp_bind. eapply wp_mono; [by apply Hdec|].
  intros [b|e|] w1 [Hv Hb]; simpl in Hb; [|split; [done|tauto]|done].
  destruct b; simpl; [apply wp_ret|apply wp_fail]; naive_solver.
Qed.

Lemma requireAncestorAdmin_checks a ctx org action w :
  checks R (requireAncestorAdmin a ctx org action) w
    (authorized a ctx (fun u => inherits_admin 3 (view w) u org)).
Proof.
  unfold requireAncestorAdmin. apply require_checks.
  intros u w0 <-. apply ancestorAdmin_decides.
Qed.

Lemma requireSelfAdmin_checks a ctx org action w :
  checks R (requireSelfAdmin a ctx org action) w
    (authorized a ctx (fun u => admin_of (view w) u org)).
Proof.
  unfold requireSelfAdmin. apply require_checks.
  intros u w0 <-. apply selfAdmin_decides.
Qed.
End correctness.
