(* ===== verification/Webhooks.v ===== *)
(** The validating webhooks of internal/webhook/v1alpha1, one module per resource.

    A validator returns (nil, err): the warnings are always the nil slice and a
    non-nil error denies the request.  The log line at the start of each function
    is not modelled. *)

From stdpp Require Import gmap strings list.
From Stdlib Require Import ZArith.
From S2P Require Import Prelude Platform Api Cluster Authz.

Local Open Scope string_scope.

Definition Warnings : Type := slice string.

(** [return nil, err] after a check that returned [err]. *)
Definition noWarnings {S E} (m : GoM S E unit) : GoM S E Warnings := m ;;; ret None.

Module OrganizationWebhook.
Section webhook.
  Context `{P : Platform} `{C : !Cluster}.

Definition ValidateCreate (authz : authorizer) (ctx : context) (obj : Organization)
    : GoM world error Warnings :=
  let action := Sprintf "create organization %q under parent %q"
                  [OStr (Name (organization_meta obj)); OStr (organizationParent obj)] in
  noWarnings (requireAncestorAdmin authz ctx (organizationParent obj) action).

Definition ValidateUpdate (authz : authorizer) (ctx : context) (oldObj newObj : Organization)
    : GoM world error Warnings :=
  if decide (organizationParent oldObj <> organizationParent newObj) then
    fail (Errorf (Sprintf "spec.parent is immutable: cannot change from %q to %q"
                    [OStr (organizationParent oldObj); OStr (organizationParent newObj)]))
  else
    noWarnings (requireAncestorAdmin authz ctx (Name (organization_meta newObj))
                  (Sprintf "update organization %q" [OStr (Name (organization_meta newObj))])).

Definition ValidateDelete (authz : authorizer) (ctx : context) (obj : Organization)
    : GoM world error Warnings := ret None.
End webhook.
End OrganizationWebhook.

Module OrganizationProfileWebhook.
Section webhook.
  Context `{P : Platform} `{C : !Cluster}.

Definition ValidateCreate (authz : authorizer) (ctx : context) (obj : OrganizationProfile)
    : GoM world error Warnings :=
  let organization := profileOrg obj in
  if decide (Name (profile_meta obj) <> organization) then
    fail (Errorf (Sprintf "OrganizationProfile name %q must equal spec.organizationRef.name %q"
                    [OStr (Name (profile_meta obj)); OStr organization]))
  else
    noWarnings (requireAncestorAdmin authz ctx organization
                  (Sprintf "create profile for organization %q" [OStr organization])).

Definition ValidateUpdate (authz : authorizer) (ctx : context)
    (oldObj newObj : OrganizationProfile) : GoM world error Warnings :=
  let oldOrganization := profileOrg oldObj in
  let organization := profileOrg newObj in
  if decide (oldOrganization <> organization) then
    fail (Errorf (Sprintf "spec.organizationRef.name is immutable: cannot change from %q to %q"
                    [OStr oldOrganization; OStr organization]))
  else if negb (bool_decide (Admins (profile_Spec oldObj) = Admins (profile_Spec newObj))) then
    noWarnings (requireAncestorAdmin authz ctx organization
                  (Sprintf "modify admins of organization %q" [OStr organization]))
  else
    noWarnings (requireSelfAdmin authz ctx organization
                  (Sprintf "modify profile of organization %q" [OStr organization])).

Definition ValidateDelete (authz : authorizer) (ctx : context) (obj : OrganizationProfile)
    : GoM world error Warnings := ret None.
End webhook.
End OrganizationProfileWebhook.

Module OrganizationProjectWebhook.
Section webhook.
  Context `{P : Platform} `{C : !Cluster}.

(** The loop that counts the projects of an organization in an int32. *)
Fixpoint countProjects (organization : string) (items : list OrganizationProject) (count : Z) : Z :=
  match items with
  | [] => count
  | p :: items' =>
      countProjects organization items'
        (if decide (projectOrg p = organization) then int32_wrap (count + 1) else count)
  end.

Definition checkProjectQuota (organization : string) : GoM world error unit :=
  let* r := call (Get profiles organization) in
  match r with
  | inl err =>
      if IsNotFound err then
        fail (Errorf (Sprintf "organization %q has no OrganizationProfile; cannot create projects"
                        [OStr organization]))
      else fail (ELib err)
  | inr profile =>
      let max := MaxProjects (Defaults (profile_Spec profile)) in
      let* rl := call (List projects) in
      match rl with
      | inl err => fail (ELib err)
      | inr items =>
          let count := countProjects organization items 0 in
          if (count >=? max)%Z then
            fail (Errorf (Sprintf "organization %q has reached its maxProjects limit (%d); raise spec.defaults.maxProjects on its OrganizationProfile"
                            [OStr organization; OInt max]))
          else ret tt
      end
  end.

Definition ValidateCreate (authz : authorizer) (ctx : context) (obj : OrganizationProject)
    : GoM world error Warnings :=
  let organization := projectOrg obj in
  requireAncestorAdmin authz ctx organization
    (Sprintf "create project in organization %q" [OStr organization]) ;;;
  noWarnings (checkProjectQuota organization).

Definition ValidateUpdate (authz : authorizer) (ctx : context)
    (oldObj newObj : OrganizationProject) : GoM world error Warnings :=
  let oldOrganization := projectOrg oldObj in
  let organization := projectOrg newObj in
  if decide (oldOrganization <> organization) then
    fail (Errorf (Sprintf "spec.organizationRef.name is immutable: cannot change from %q to %q"
                    [OStr oldOrganization; OStr organization]))
  else
    noWarnings (requireAncestorAdmin authz ctx organization
                  (Sprintf "update project in organization %q" [OStr organization])).

Definition ValidateDelete (authz : authorizer) (ctx : context) (obj : OrganizationProject)
    : GoM world error Warnings := ret None.
End webhook.
End OrganizationProjectWebhook.

Module MaaSConfigurationWebhook.
Section webhook.
  Context `{P : Platform} `{C : !Cluster}.

(** The scan for another configuration of the same organization. *)
Fixpoint findDuplicate (name organizationName : string) (items : list MaaSConfiguration)
    : option MaaSConfiguration :=
  match items with
  | [] => None
  | existing :: items' =>
      if decide (Name (maas_meta existing) <> name /\ maasOrg existing = organizationName)
      then Some existing
      else findDuplicate name organizationName items'
  end.

Definition validate (authz : authorizer) (ctx : context) (obj : MaaSConfiguration) (verb : string)
    : GoM world error unit :=
  let organizationName := maasOrg obj in
  if decide (organizationName = "") then
    fail (Errorf (Sprintf "spec.organizationRef.name is required" []))
  else if decide (Name (maas_meta obj) <> organizationName) then
    fail (Errorf (Sprintf "MaaSConfiguration name %q must equal spec.organizationRef.name %q"
                    [OStr (Name (maas_meta obj)); OStr organizationName]))
  else
    let* r := call (Get organizations organizationName) in
    match r with
    | inl err =>
        if IsNotFound err then
          fail (Errorf (Sprintf "organization %q does not exist" [OStr organizationName]))
        else fail (ELib err)
    | inr organization =>
        if decide (organizationParent organization <> "") then
          fail (Errorf (Sprintf "MaaSConfiguration is supported only for root Organizations" []))
        else
          let* rl := call (List maasconfigurations) in
          match rl with
          | inl err => fail (ELib err)
          | inr items =>
              match findDuplicate (Name (maas_meta obj)) organizationName items with
              | Some existing =>
                  fail (Errorf (Sprintf "organization %q already has MaaSConfiguration %q"
                                  [OStr organizationName; OStr (Name (maas_meta existing))]))
              | None =>
                  requireSelfAdmin authz ctx organizationName
                    (Sprintf "%s MaaS configuration for organization %q"
                       [OStr verb; OStr organizationName])
              end
          end
    end.

Definition ValidateCreate (authz : authorizer) (ctx : context) (obj : MaaSConfiguration)
    : GoM world error Warnings :=
  noWarnings (validate authz ctx obj "create").

Definition ValidateUpdate (authz : authorizer) (ctx : context) (oldObj obj : MaaSConfiguration)
    : GoM world error Warnings :=
  if decide (maasOrg oldObj <> maasOrg obj) then
    fail (Errorf (Sprintf "spec.organizationRef.name is immutable" []))
  else noWarnings (validate authz ctx obj "update").

Definition ValidateDelete (authz : authorizer) (ctx : context) (obj : MaaSConfiguration)
    : GoM world error Warnings :=
  noWarnings (requireSelfAdmin authz ctx (maasOrg obj)
                (Sprintf "delete MaaS configuration for organization %q" [OStr (maasOrg obj)])).
End webhook.
End MaaSConfigurationWebhook.

(* ------------------------------------------------------------------ *)
(** ** Quota arithmetic *)

Section quota.
  Context `{P : Platform}.

(** The projects of an organization in a list, and in a store. *)
Definition ownedIn (org : string) (l : list OrganizationProject) : Z :=
  Z.of_nat (length (filter (fun p => projectOrg p = org) l)).
Definition owned (st : Store) (org : string) : Z :=
  ownedIn org (map_to_list (s_projects st)).*2.

Lemma ownedIn_perm org l l' : l ≡ₚ l' -> ownedIn org l = ownedIn org l'.
Proof. intros Hl. unfold ownedIn. by rewrite Hl. Qed.

(** The loop counts modulo 2^32, in the range of an int32. *)
Lemma countProjects_wraps org items count :
  OrganizationProjectWebhook.countProjects org items (int32_wrap count) =
  int32_wrap (count + ownedIn org items).
Proof.
  unfold ownedIn. revert count. induction items as [|p items IH]; intros count; simpl.
  - f_equal. lia.
  - rewrite filter_cons. case_decide; simpl; [|apply IH].
    rewrite int32_wrap_add, IH. f_equal. lia.
Qed.

Lemma countProjects_owned org items :
  OrganizationProjectWebhook.countProjects org items 0 = int32_wrap (ownedIn org items).
Proof. exact (countProjects_wraps org items 0). Qed.

(** A store of fewer than 2^31 projects is counted exactly. *)
Lemma owned_exact st org :
  (Z.of_nat (size (s_projects st)) < 2 ^ 31)%Z -> int32_wrap (owned st org) = owned st org.
Proof.
  intros Hsize. apply int32_wrap_id. unfold int32_range, owned, ownedIn.
  pose proof (length_filter (fun p => projectOrg p = org) (map_to_list (s_projects st)).*2) as Hle.
  rewrite length_fmap, length_map_to_list in Hle. lia.
Qed.
End quota.

(* ------------------------------------------------------------------ *)
(** ** What each validator checks *)

Lemma noWarnings_checks `{P : Platform} `{C : !Cluster} `{L : !LawfulCluster C} R m w Q :
  checks R m w Q -> checks R (noWarnings m) w Q.
Proof. apply checks_then_ret. Qed.
#[export] Hint Resolve noWarnings_checks requireAncestorAdmin_checks requireSelfAdmin_checks : go.

Section validators.
  Context `{P : Platform} `{C : !Cluster} `{L : !LawfulCluster C}.
  Context (R : Prop) (HR : R -> ReliableReads C).

Definition may_act (a : authorizer) (ctx : context) (st : Store) (org : string) : Prop :=
  authorized a ctx (fun u => inherits_admin 3 st u org).
Definition may_configure (a : authorizer) (ctx : context) (st : Store) (org : string) : Prop :=
  authorized a ctx (fun u => admin_of st u org).

Lemma organization_create_checks a ctx obj w :
  checks R (OrganizationWebhook.ValidateCreate a ctx obj) w
    (may_act a ctx (view w) (organizationParent obj)).
Proof. unfold OrganizationWebhook.ValidateCreate, may_act. auto with go. Qed.

Lemma organization_update_checks a ctx old new w :
  checks R (OrganizationWebhook.ValidateUpdate a ctx old new) w
    (organizationParent old = organizationParent new /\
     may_act a ctx (view w) (Name (organization_meta new))).
Proof.
  unfold OrganizationWebhook.ValidateUpdate, may_act. apply checks_guard. auto with go.
Qed.

Lemma profile_create_checks a ctx obj w :
  checks R (OrganizationProfileWebhook.ValidateCreate a ctx obj) w
    (Name (profile_meta obj) = profileOrg obj /\ may_act a ctx (view w) (profileOrg obj)).
Proof.
  unfold OrganizationProfileWebhook.ValidateCreate, may_act. apply checks_guard. auto with go.
Qed.

Lemma profile_update_checks a ctx old new w :
  checks R (OrganizationProfileWebhook.ValidateUpdate a ctx old new) w
    (profileOrg old = profileOrg new /\
     if bool_decide (Admins (profile_Spec old) = Admins (profile_Spec new))
     then may_configure a ctx (view w) (profileOrg new)
     else may_act a ctx (view w) (profileOrg new)).
Proof.
  unfold OrganizationProfileWebhook.ValidateUpdate, may_act, may_configure.
  apply checks_guard. intros _. destruct (bool_decide _); simpl; auto with go.
Qed.

Lemma checkProjectQuota_checks org w :
  checks R (OrganizationProjectWebhook.checkProjectQuota org) w
    (exists p, s_profiles (view w) !! org = Some p /\
       (int32_wrap (owned (view w) org) < MaxProjects (Defaults (profile_Spec p)))%Z).
Proof.
  unfold OrganizationProjectWebhook.checkProjectQuota.
  apply (checks_Get R profiles profileKind (fun r => let _ := HR r in _)).
  - intros p w1 Hv1 Hp. apply wp_bind, (wp_List _ _ projectKind R (fun r => let _ := HR r in _)); simpl.
    + intros items w2 Hperm Hv2. rewrite countProjects_owned.
      rewrite (ownedIn_perm _ _ _ Hperm), Hv1. unfold owned.
      case_match eqn:Hge; [apply wp_fail|apply wp_ret]; (split; [congruence|]); lia.
    + intros e w2 HnR Hv2. apply wp_fail. split; [congruence|]. tauto.
  - intros e w1 Hnf HRnf Hv1. destruct (IsNotFound e); apply checks_fail; tauto.
Qed.

Lemma project_create_counts a ctx obj w :
  checks R (OrganizationProjectWebhook.ValidateCreate a ctx obj) w
    (may_act a ctx (view w) (projectOrg obj) /\
     exists p, s_profiles (view w) !! projectOrg obj = Some p /\
       (int32_wrap (owned (view w) (projectOrg obj)) < MaxProjects (Defaults (profile_Spec p)))%Z).
Proof.
  unfold OrganizationProjectWebhook.ValidateCreate, may_act.
  apply checks_seq; [by apply requireAncestorAdmin_checks|].
  intros w' Hv _. rewrite <- Hv in *. by apply noWarnings_checks, checkProjectQuota_checks.
Qed.

Lemma project_create_checks a ctx obj w :
  (Z.of_nat (size (s_projects (view w))) < 2 ^ 31)%Z ->
  checks R (OrganizationProjectWebhook.ValidateCreate a ctx obj) w
    (may_act a ctx (view w) (projectOrg obj) /\
     exists p, s_profiles (view w) !! projectOrg obj = Some p /\
       (owned (view w) (projectOrg obj) < MaxProjects (Defaults (profile_Spec p)))%Z).
Proof.
  intros Hsize. rewrite <- (owned_exact (view w) (projectOrg obj) Hsize). apply project_create_counts.
Qed.

Lemma project_update_checks a ctx old new w :
  checks R (OrganizationProjectWebhook.ValidateUpdate a ctx old new) w
    (projectOrg old = projectOrg new /\ may_act a ctx (view w) (projectOrg new)).
Proof.
  unfold OrganizationProjectWebhook.ValidateUpdate, may_act. apply checks_guard. auto with go.
Qed.

Lemma findDuplicate_None name org items :
  MaaSConfigurationWebhook.findDuplicate name org items = None <->
  Forall (fun m => maasOrg m = org -> Name (maas_meta m) = name) items.
Proof.
  induction items as [|m items IH]; simpl; [by split; [constructor|]|].
  rewrite Forall_cons. case_decide; [naive_solver|]. rewrite IH.
  split; [|tauto]. intros ?. split; [|done]. intros. apply dec_stable. tauto.
Qed.

(** The root organization named like the configuration exists, and no
    configuration with another name refers to it. *)
Definition maas_wellplaced (st : Store) (obj : MaaSConfiguration) : Prop :=
  maasOrg obj <> "" /\ Name (maas_meta obj) = maasOrg obj /\
  (exists o, s_organizations st !! maasOrg obj = Some o /\ organizationParent o = "") /\
  (forall k m, s_maas st !! k = Some m -> maasOrg m = maasOrg obj -> Name (maas_meta m) = Name (maas_meta obj)).

Lemma maas_validate_checks a ctx obj verb w :
  checks R (MaaSConfigurationWebhook.validate a ctx obj verb) w
    (maas_wellplaced (view w) obj /\ may_configure a ctx (view w) (maasOrg obj)).
Proof.
  unfold MaaSConfigurationWebhook.validate, maas_wellplaced, may_configure.
  case_decide as He; [by apply checks_fail; naive_solver|].
  eapply checks_iff; [|apply checks_guard; intros Hn;
    apply (checks_Get R organizations organizationKind (fun r => let _ := HR r in _) _ _ _ _
      (fun o => organizationParent o = "" /\
         ((forall k m, s_maas (view w) !! k = Some m -> maasOrg m = maasOrg obj ->
             Name (maas_meta m) = Name (maas_meta obj)) /\
          authorized a ctx (fun u => admin_of (view w) u (maasOrg obj)))))].
  - simpl. naive_solver.
  - intros o w1 Hv1 Ho. apply checks_guard. intros _.
    apply wp_bind, (wp_List _ _ maasKind R (fun r => let _ := HR r in _)); simpl.
    + intros items w2 Hperm Hv2. rewrite Hv1 in *.
      assert (MaaSConfigurationWebhook.findDuplicate (Name (maas_meta obj)) (maasOrg obj) items = None <->
        (forall k m, s_maas (view w) !! k = Some m -> maasOrg m = maasOrg obj ->
             Name (maas_meta m) = Name (maas_meta obj))) as Hdup.
      { by rewrite findDuplicate_None, Hperm, Forall_map_values. }
      destruct (MaaSConfigurationWebhook.findDuplicate _ _ _) as [d|] eqn:Hd.
      * apply wp_fail. split; [congruence|]. intros _ [Hno _]. by apply Hdup in Hno.
      * eapply checks_wp; [apply requireSelfAdmin_checks; exact HR|].
        intros r w3 Hv3 Hr. split; [congruence|].
        assert (view w2 = view w) as Hv02 by congruence. rewrite Hv02 in Hr.
        destruct r; tauto.
    + intros e w2 HnR Hv2. apply wp_fail. split; [congruence|]. tauto.
  - intros e w1 Hnf HRnf Hv1. destruct (IsNotFound e); apply checks_fail; tauto.
Qed.

Lemma maas_create_checks a ctx obj w :
  checks R (MaaSConfigurationWebhook.ValidateCreate a ctx obj) w
    (maas_wellplaced (view w) obj /\ may_configure a ctx (view w) (maasOrg obj)).
Proof. apply noWarnings_checks, maas_validate_checks. Qed.

Lemma maas_update_checks a ctx old obj w :
  checks R (MaaSConfigurationWebhook.ValidateUpdate a ctx old obj) w
    (maasOrg old = maasOrg obj /\
     maas_wellplaced (view w) obj /\ may_configure a ctx (view w) (maasOrg obj)).
Proof.
  unfold MaaSConfigurationWebhook.ValidateUpdate. apply checks_guard. intros _.
  apply noWarnings_checks, maas_validate_checks.
Qed.

Lemma maas_delete_checks a ctx obj w :
  checks R (MaaSConfigurationWebhook.ValidateDelete a ctx obj) w
    (may_configure a ctx (view w) (maasOrg obj)).
Proof. unfold MaaSConfigurationWebhook.ValidateDelete, may_configure. auto with go. Qed.
End validators.
