(* ===== verification/WebhookTheorems.v ===== *)
(** What the authorizer and the validating webhooks guarantee, with concrete runs
    on the in-memory cluster.

    - the two [require*] checks admit exactly the trusted users and the
      administrators the organization tree gives authority to;
    - they fail closed: unreadable profiles admit nobody but trusted users;
    - each validator admits exactly the requests its comment promises, except
      where the divergence theorems say otherwise. *)

From stdpp Require Import gmap strings list.
From Stdlib Require Import ZArith Ascii.
From S2P Require Import Prelude Platform Api Cluster Fake Authz Webhooks.

Local Open Scope string_scope.

(* ------------------------------------------------------------------ *)
(** ** Scenario facts *)

Module Scenario.
Import FakeInstances.

Definition demoAuthz : authorizer := newAuthorizer (fun _ => "").
Definition demo : world := fakeWorld demoStore.
Definition alice : UserInfo := {| Username := "alice"; Groups := ["tenancy-users"] |}.
Definition carol : UserInfo := {| Username := "carol"; Groups := ["tenancy-users"] |}.
Definition ctx (u : UserInfo) : context := inr u.
Definition act : text := Sprintf "act" [].

(** A fourth level below the tree of [demoStore]. *)
Definition deepStore : Store :=
  kput organizationKind
    (<["depth-04" := org "depth-04" "proteomics" ""]> (s_organizations demoStore)) demoStore.
Definition deep : world := fakeWorld deepStore.

(** The same clusters with one project of genomics. *)
Definition project (name organization : string) : OrganizationProject :=
  {| project_meta := setUID (namedMeta "" name) ("uid-" +:+ name);
     project_Spec := {| project_OrganizationRef := {| ref_Name := organization |};
                        Users := None; NetworkIsolation := ""; NetworkGrants := None |};
     project_Status := {| project_apiStatus := zeroStatus; status_Namespace := "" |} |}.

Definition maascfg (name organization : string) : MaaSConfiguration :=
  {| maas_meta := setUID (namedMeta "" name) ("uid-maas-" +:+ name);
     maas_Spec := {| maas_OrganizationRef := {| ref_Name := organization |};
                     maas_OIDC := None; maas_TLS := None; maas_Quotas := None |};
     maas_Status := {| maas_apiStatus := zeroStatus |} |}.

Lemma alice_admin_research st :
  s_profiles st = s_profiles demoStore -> admin_of st alice "research".
Proof.
  intros Hp. exists (profileWith "research" (Some [userSubject "alice"]) 0), (userSubject "alice").
  rewrite Hp, demo_profile. split; [auto|]. split; [apply list_elem_of_here|reflexivity].
Qed.

Lemma alice_above_genomics st :
  s_organizations st !! "genomics" = Some (org "genomics" "research" "research") ->
  ancestor st 1 "genomics" "research".
Proof. intros Ho. eapply ancestor_parent; [done|done|by constructor]. Qed.

Lemma alice_inherits_genomics : inherits_admin 3 demoStore alice "genomics".
Proof.
  exists 1, "research". split; [lia|].
  split; [apply alice_above_genomics, demo_organization; auto|by apply alice_admin_research].
Qed.

Lemma not_admin_genomics u : ~ admin_of demoStore u "genomics".
Proof.
  intros (p & s & Hp & Hs & _).
  apply demo_profile in Hp as [[? _]|[[_ ->]|[? _]]]; [discriminate| |discriminate].
  by apply elem_of_nil in Hs.
Qed.
End Scenario.

(* ------------------------------------------------------------------ *)
(** ** The authorizer *)

Section authorizer_theorems.
  Context `{P : Platform} `{C : !Cluster} `{L : !LawfulCluster C}.

(** C1: requireAncestorAdmin admits a request exactly when the user is trusted or is
    listed in the profile of the organization or of one of its ancestors at most
    two parent links up (the walk visits three organizations). *)
Theorem requireAncestorAdmin_correct `{!ReliableReads C} a ctx org action w :
  admits (requireAncestorAdmin a ctx org action) w <->
  authorized a ctx (fun u => inherits_admin 3 (view w) u org).
Proof. by apply checks_admits, requireAncestorAdmin_checks. Qed.

(** [requireSelfAdmin] admits a request exactly when the user is trusted or is listed
    in the organization's own profile; ancestors give no right here. *)
Theorem requireSelfAdmin_correct `{!ReliableReads C} a ctx org action w :
  admits (requireSelfAdmin a ctx org action) w <->
  authorized a ctx (fun u => admin_of (view w) u org).
Proof. by apply checks_admits, requireSelfAdmin_checks. Qed.

Lemma ancestor_prefix st k o a j :
  ancestor st k o a -> j <= k -> exists b, ancestor st j o b.
Proof.
  intros Ha. revert j. induction Ha as [o|n o x a Ho Hx Ha IH]; intros j Hj.
  - exists o. replace j with 0 by lia. by constructor.
  - destruct j as [|j]; [exists o; by constructor|].
    destruct (IH j) as [b Hb]; [lia|]. exists b. by eapply ancestor_parent.
Qed.

(** On an organization tree of at most three levels above and including the
    organization, the bounded walk loses nothing: requireAncestorAdmin admits
    exactly the trusted users and the administrators of any ancestor at all. *)
Theorem bounded_walk_complete `{!ReliableReads C} a ctx org action w :
  (forall top, ~ ancestor (view w) 3 org top) ->
  (admits (requireAncestorAdmin a ctx org action) w <->
   authorized a ctx (fun u => exists n top, ancestor (view w) n org top /\ admin_of (view w) u top)).
Proof.
  intros Hdepth.
  rewrite (checks_admits _ _ _ (requireAncestorAdmin_checks True (fun _ => _) a ctx org action w)).
  unfold authorized, inherits_admin.
  split; intros (u & Hu & [Ht|(n & top & H)]); exists u; (split; [done|]); [by left| |by left|].
  - right. naive_solver.
  - right. exists n, top. split; [|done]. destruct H as [Ha _].
    destruct (decide (n < 3)); [done|]. exfalso.
    destruct (ancestor_prefix _ _ _ _ 3 Ha) as [b Hb]; [lia|]. by apply (Hdepth b).
Qed.

(** Beyond that bound the walk stops short: an administrator who is listed only
    three or more parent links above the organization is refused, although the
    comments promise authority to an admin "anywhere along the chain". *)
Theorem distant_admin_refused a ctx u org action w :
  userFrom ctx u -> isTrusted a u = false ->
  ~ inherits_admin 3 (view w) u org ->
  (exists n top, ancestor (view w) n org top /\ admin_of (view w) u top) ->
  ~ admits (requireAncestorAdmin a ctx org action) w.
Proof.
  intros Hu Ht Hno _ Had.
  apply (checks_sound _ _ _ _ (requireAncestorAdmin_checks False (False_ind _) a ctx org action w)) in Had
    as (u' & Hu' & Hr).
  unfold userFrom in *. assert (u' = u) as -> by congruence.
  destruct Hr; [congruence|done].
Qed.
End authorizer_theorems.

(** A profile that cannot be read makes nobody an administrator, for any client. *)
Section no_laws.
  Context `{P : Platform} `{C : !Cluster}.

Definition profiles_unreadable : Prop :=
  forall k w, exists e w', Get profiles k w = (inl e, w').

Lemma selfAdmin_unreadable u org w :
  profiles_unreadable -> fst (selfAdmin u org w) <> Ret true.
Proof.
  intros Hbad. unfold selfAdmin, bind, call.
  destruct (Hbad org w) as (e & w' & ->). by destruct (IsNotFound e).
Qed.

Lemma ancestorAdmin_unreadable n u org w :
  profiles_unreadable -> fst (ancestorAdmin_loop n u org w) <> Ret true.
Proof.
  intros Hbad. revert org w. induction n as [|n IH]; intros org w; simpl; [done|].
  case_decide; [done|]. unfold bind at 1.
  pose proof (selfAdmin_unreadable u org w Hbad) as Hself.
  destruct (selfAdmin u org w) as [[[]|e|] w1]; simpl in *; [done| |done|done].
  unfold bind, call. destruct (Get organizations org w1) as [[e|x] w2]; [by destruct (IsNotFound e)|].
  apply IH.
Qed.

(** C3: the checks fail closed whatever the client does: while profiles cannot be read
    (any error, NotFound included), only a trusted user passes either check. *)
Theorem fail_closed a ctx u org action w :
  profiles_unreadable -> userFrom ctx u -> isTrusted a u = false ->
  ~ admits (requireAncestorAdmin a ctx org action) w /\
  ~ admits (requireSelfAdmin a ctx org action) w.
Proof.
  intros Hbad Hu Ht. unfold userFrom in Hu.
  pose proof (ancestorAdmin_unreadable maxAncestorWalk u org w Hbad) as Ha.
  pose proof (selfAdmin_unreadable u org w Hbad) as Hs.
  unfold admits, requireAncestorAdmin, requireSelfAdmin, ancestorAdmin, bind, lift, userFromContext.
  rewrite Hu, Ht. split.
  - destruct (ancestorAdmin_loop _ _ _ _) as [[[]|e|] w1]; simpl in *; congruence.
  - destruct (selfAdmin _ _ _) as [[[]|e|] w1]; simpl in *; congruence.
Qed.

(** Creating a root organization is reserved to trusted users, for any client: with
    an empty parent the walk ends before it reads anything. *)
Theorem root_creation_trusted_only a ctx (obj : Organization) w :
  organizationParent obj = "" ->
  (admits (OrganizationWebhook.ValidateCreate a ctx obj) w <->
   exists u, userFrom ctx u /\ isTrusted a u = true).
Proof.
  intros Hp. unfold admits, OrganizationWebhook.ValidateCreate, noWarnings, requireAncestorAdmin,
    ancestorAdmin, bind, lift, userFromContext, userFrom. rewrite Hp.
  destruct (RequestFromContext ctx) as [e|u]; simpl; [naive_solver|].
  destruct (isTrusted a u) eqn:Ht; naive_solver.
Qed.
End no_laws.

(** Who is trusted with the configured environment: a member of the service-account
    group of the operator's namespace (the default one when OPERATOR_NAMESPACE is
    empty), or of one of the cluster-admin groups; a non-empty
    CLUSTER_ADMIN_GROUPS replaces the default groups by its comma-separated
    entries, none of which contains a comma. *)
Theorem isTrusted_correct getenv u :
  let ns := if decide (getenv "OPERATOR_NAMESPACE" = "") then "tenancy-operator-system"
            else getenv "OPERATOR_NAMESPACE" in
  let env := getenv "CLUSTER_ADMIN_GROUPS" in
  exists groups,
    (isTrusted (newAuthorizer getenv) u = true <->
     exists g, g ∈ Groups u /\ (g = "system:serviceaccounts:" +:+ ns \/ g ∈ groups)) /\
    (if decide (env = "") then groups = ["system:masters"; "kubeadm:cluster-admins"]
     else strings_Join ","%char groups = env /\
          Forall (fun g => string_has ","%char g = false) groups).
Proof.
  exists (clusterAdminGroups (newAuthorizer getenv)). split.
  - unfold isTrusted. by rewrite isTrusted_loop_spec.
  - simpl. case_decide; [done|].
    split; [apply strings_Join_Split|apply strings_Split_no_sep].
Qed.

(** A service-account subject names one account: when two such subjects, in
    namespaces without a colon, match the same user, they agree in namespace and
    name. *)
Theorem service_account_unambiguous s1 s2 u :
  subject_Kind s1 = "ServiceAccount" -> subject_Kind s2 = "ServiceAccount" ->
  string_has ":"%char (subject_Namespace s1) = false ->
  string_has ":"%char (subject_Namespace s2) = false ->
  subjectMatches s1 u = true -> subjectMatches s2 u = true ->
  subject_Namespace s1 = subject_Namespace s2 /\ subject_Name s1 = subject_Name s2.
Proof.
  intros Hk1 Hk2 Hc1 Hc2. unfold subjectMatches. rewrite Hk1, Hk2. simpl.
  rewrite !bool_decide_eq_true. intros Hu1 Hu2. rewrite Hu1 in Hu2.
  apply string_app_inj_l in Hu2. by apply string_app_sep_inj in Hu2.
Qed.

(* ------------------------------------------------------------------ *)
(** ** The validators *)

Section validator_theorems.
  Context `{P : Platform} `{C : !Cluster} `{L : !LawfulCluster C} `{Rel : !ReliableReads C}.

(** C36: The Organization webhook admits a create exactly under authority over the
    parent, an update exactly when spec.parent is unchanged and the user has
    authority over the organization itself, and every delete; authority is being
    trusted, or listed in the profile of the organization or of one of the two above it. *)
Theorem organization_webhook_correct a ctx old new w :
  (admits (OrganizationWebhook.ValidateCreate a ctx new) w <->
   may_act a ctx (view w) (organizationParent new)) /\
  (admits (OrganizationWebhook.ValidateUpdate a ctx old new) w <->
   organizationParent old = organizationParent new /\
   may_act a ctx (view w) (Name (organization_meta new))) /\
  admits (OrganizationWebhook.ValidateDelete a ctx new) w.
Proof.
  split; [|split; [|done]]; apply checks_admits; [by apply organization_create_checks|by apply organization_update_checks].
Qed.

(** C4: the OrganizationProfile webhook admits a create exactly when the profile is
    named after its organization and the user has ancestor authority, and an
    update exactly when the reference is unchanged and the user has ancestor
    authority if spec.admins changes, self-admin authority otherwise. *)
Theorem profile_webhook_correct a ctx old new w :
  (admits (OrganizationProfileWebhook.ValidateCreate a ctx new) w <->
   Name (profile_meta new) = profileOrg new /\ may_act a ctx (view w) (profileOrg new)) /\
  (admits (OrganizationProfileWebhook.ValidateUpdate a ctx old new) w <->
   profileOrg old = profileOrg new /\
   if bool_decide (Admins (profile_Spec old) = Admins (profile_Spec new))
   then may_configure a ctx (view w) (profileOrg new)
   else may_act a ctx (view w) (profileOrg new)).
Proof.
  split; apply checks_admits; [by apply profile_create_checks|by apply profile_update_checks].
Qed.

(** C5: the OrganizationProject webhook admits a create exactly under ancestor authority
    and while the organization owns fewer projects than its profile allows (the
    int32 counter is exact below 2^31 stored projects), and an update exactly when
    the reference is unchanged, under ancestor authority. *)
Theorem project_webhook_correct a ctx old new w :
  (Z.of_nat (size (s_projects (view w))) < 2 ^ 31)%Z ->
  (admits (OrganizationProjectWebhook.ValidateCreate a ctx new) w <->
   may_act a ctx (view w) (projectOrg new) /\
   exists p, s_profiles (view w) !! projectOrg new = Some p /\
     (owned (view w) (projectOrg new) < MaxProjects (Defaults (profile_Spec p)))%Z) /\
  (admits (OrganizationProjectWebhook.ValidateUpdate a ctx old new) w <->
   projectOrg old = projectOrg new /\ may_act a ctx (view w) (projectOrg new)).
Proof.
  intros Hsize. split; apply checks_admits;
    [by apply project_create_checks|by apply project_update_checks].
Qed.

(** C8: the quota at the width of its counter: in a store of any size the webhook
    compares the number of projects modulo 2^32, as an int32, with the cap.  Below 2^31
    projects of the organization that is their number; from 2^31 to 2^32 the counter
    is negative and the quota no longer refuses anything. *)
Theorem quota_counter_bounds a ctx obj p w :
  s_profiles (view w) !! projectOrg obj = Some p ->
  let n := owned (view w) (projectOrg obj) in
  let max := MaxProjects (Defaults (profile_Spec p)) in
  let admitted := admits (OrganizationProjectWebhook.ValidateCreate a ctx obj) w in
  let authority := may_act a ctx (view w) (projectOrg obj) in
  (admitted <-> authority /\ (int32_wrap n < max)%Z) /\
  ((n < 2 ^ 31)%Z -> (admitted <-> authority /\ (n < max)%Z)) /\
  ((2 ^ 31 <= n < 2 ^ 32)%Z -> (0 <= max)%Z -> (admitted <-> authority)).
Proof.
  intros Hp n max admitted authority.
  assert (admitted <-> authority /\ (int32_wrap n < max)%Z) as Heq.
  { etransitivity; [apply (checks_admits _ _ _ (project_create_counts True (fun _ => Rel) a ctx obj w))|].
    fold authority n. split; [intros (? & p' & Hp' & ?)|intros []]; [|by eauto].
    rewrite Hp in Hp'. by injection Hp' as <-. }
  assert (0 <= n)%Z as Hpos by (unfold n, owned, ownedIn; lia).
  split; [exact Heq|]. split.
  - intros Hlt. rewrite Heq, int32_wrap_id; [done|]. unfold int32_range. lia.
  - intros Hn Hmax. rewrite Heq. split; [tauto|]. intros Ha. split; [done|].
    assert (int32_wrap n = n - 2 ^ 32)%Z as ->; [|lia].
    unfold int32_wrap. replace (n + 2 ^ 31)%Z with (n - 2 ^ 31 + 1 * 2 ^ 32)%Z by lia.
    rewrite Z_mod_plus_full, Z.mod_small; lia.
Qed.

(** C6: the MaaSConfiguration webhook admits a create or update exactly for a
    configuration named after an existing root organization that no configuration
    of another name refers to, by a self-admin of it; an update also keeps the
    reference; a delete needs self-admin authority. *)
Theorem maas_webhook_correct a ctx old new w :
  (admits (MaaSConfigurationWebhook.ValidateCreate a ctx new) w <->
   maas_wellplaced (view w) new /\ may_configure a ctx (view w) (maasOrg new)) /\
  (admits (MaaSConfigurationWebhook.ValidateUpdate a ctx old new) w <->
   maasOrg old = maasOrg new /\
   maas_wellplaced (view w) new /\ may_configure a ctx (view w) (maasOrg new)) /\
  (admits (MaaSConfigurationWebhook.ValidateDelete a ctx new) w <->
   may_configure a ctx (view w) (maasOrg new)).
Proof.
  split; [|split]; apply checks_admits;
    [by apply maas_create_checks|by apply maas_update_checks|by apply maas_delete_checks].
Qed.

(** C7: changing spec.admins lifts the self-admin requirement from the rest of the
    profile: an ancestor admin who is not a self-admin may change any other field
    in the same update, although alone that change is refused to them. *)
Theorem admins_change_covers_config a ctx u old new new' w :
  userFrom ctx u -> isTrusted a u = false ->
  inherits_admin 3 (view w) u (profileOrg old) -> ~ admin_of (view w) u (profileOrg old) ->
  profileOrg new = profileOrg old -> Admins (profile_Spec new) <> Admins (profile_Spec old) ->
  profileOrg new' = profileOrg old -> Admins (profile_Spec new') = Admins (profile_Spec old) ->
  admits (OrganizationProfileWebhook.ValidateUpdate a ctx old new) w /\
  ~ admits (OrganizationProfileWebhook.ValidateUpdate a ctx old new') w.
Proof.
  intros Hu Ht Hin Hself Hn Hna Hn' Hna'.
  rewrite !(checks_admits _ _ _ (profile_update_checks True (fun _ => Rel) a ctx old _ w)).
  rewrite bool_decide_false, bool_decide_true, Hn, Hn' by congruence.
  split; [split; [done|]; exists u; auto|].
  intros [_ (u' & Hu' & Hr)]. unfold userFrom in *. assert (u' = u) as -> by congruence.
  destruct Hr; [congruence|done].
Qed.
End validator_theorems.

(* ------------------------------------------------------------------ *)
(** ** Runs *)

Section runs.
Import FakeInstances Scenario.

Lemma requireAncestorAdmin_correct_witness :
  admits (requireAncestorAdmin demoAuthz (ctx alice) "genomics" act) demo.
Proof.
  apply (requireAncestorAdmin_correct demoAuthz (ctx alice) "genomics" act demo).
  exists alice. split; [reflexivity|right; exact alice_inherits_genomics].
Defined.

Lemma requireSelfAdmin_correct_witness :
  ~ admits (requireSelfAdmin demoAuthz (ctx alice) "genomics" act) demo.
Proof.
  rewrite (requireSelfAdmin_correct demoAuthz (ctx alice) "genomics" act demo).
  intros (u & Hu & [Ht|Hadm]); [injection Hu as <-; discriminate Ht|].
  exact (not_admin_genomics u Hadm).
Defined.

Lemma demo_genomics_depth top : ~ ancestor demoStore 3 "genomics" top.
Proof.
  intros Ha. inversion Ha as [|? ? x1 ? ? Hx1 Ha1]; subst.
  apply demo_organization in Hx1 as [[? _]|[[_ ->]|[? _]]]; [discriminate| |discriminate].
  inversion Ha1 as [|? ? x2 ? ? Hx2 Ha2]; subst.
  apply demo_organization in Hx2 as [[_ ->]|[[? _]|[? _]]]; [|discriminate|discriminate].
  inversion Ha2 as [|? ? x3 ? Hne]; subst. by apply Hne.
Qed.

Lemma bounded_walk_complete_witness :
  admits (requireAncestorAdmin demoAuthz (ctx alice) "genomics" act) demo.
Proof.
  apply (bounded_walk_complete demoAuthz (ctx alice) "genomics" act demo); [exact demo_genomics_depth|].
  exists alice. split; [reflexivity|right]. exists 1, "research".
  split; [apply alice_above_genomics, demo_organization; auto|apply alice_admin_research; reflexivity].
Defined.

Lemma deep_chain : ancestor deepStore 3 "depth-04" "research".
Proof.
  do 3 (eapply ancestor_parent; [discriminate|store_lookup|]). by constructor.
Qed.

Lemma deep_not_inherited : ~ inherits_admin 3 deepStore alice "depth-04".
Proof.
  intros Hin. assert (admits (requireAncestorAdmin demoAuthz (ctx alice) "depth-04" act) deep) as Had.
  { apply (checks_admits _ _ _ (requireAncestorAdmin_checks True (fun _ => _) demoAuthz (ctx alice)
             "depth-04" act deep)).
    exists alice. split; [reflexivity|by right]. }
  vm_compute in Had. discriminate.
Qed.

Lemma distant_admin_refused_witness :
  ~ admits (requireAncestorAdmin demoAuthz (ctx alice) "depth-04" act) deep.
Proof.
  apply (distant_admin_refused demoAuthz (ctx alice) alice "depth-04" act deep);
    [reflexivity|reflexivity|exact deep_not_inherited|].
  exists 3, "research". split; [exact deep_chain|apply alice_admin_research; reflexivity].
Defined.

(** A client whose profile reads all fail. *)
Definition brokenCluster : Cluster := {|
  world := FakeWorld;
  organizations := fakeClient organizationKind;
  profiles := {| Get _ w := (inl (FForbidden : liberror), w);
                 List := List (fakeClient profileKind);
                 Create := Create (fakeClient profileKind);
                 Update := Update (fakeClient profileKind);
                 Delete := Delete (fakeClient profileKind);
                 CreateOrUpdate := CreateOrUpdate (fakeClient profileKind) |};
  projects := fakeClient projectKind;
  maasconfigurations := fakeClient maasKind;
  namespaces := fakeClient namespaceKind;
  rolebindings := fakeClient rolebindingKind;
  networkpolicies := fakeClient networkpolicyKind;
  unstructureds := fakeClient aitenantKind;
  HasCRD _ w := (inr false, w);
|}.

Lemma fail_closed_witness :
  ~ admits (C := brokenCluster) (requireAncestorAdmin (C := brokenCluster) demoAuthz (ctx alice) "research" act)
      (fakeWorld demoStore) /\
  ~ admits (C := brokenCluster) (requireSelfAdmin (C := brokenCluster) demoAuthz (ctx alice) "research" act)
      (fakeWorld demoStore).
Proof.
  apply (fail_closed (C := brokenCluster) demoAuthz (ctx alice) alice "research" act);
    [intros k w; exists FForbidden, w; reflexivity|reflexivity|reflexivity].
Defined.

Lemma root_creation_trusted_only_witness :
  admits (OrganizationWebhook.ValidateCreate demoAuthz
            (ctx {| Username := "root"; Groups := ["system:masters"] |}) (org "r2" "" "")) demo.
Proof.
  apply (root_creation_trusted_only demoAuthz _ (org "r2" "" "") demo); [reflexivity|].
  eexists. split; reflexivity.
Defined.

Lemma service_account_unambiguous_witness :
  "ci" = "ci" /\ "deployer" = "deployer".
Proof.
  apply (service_account_unambiguous
    {| subject_Kind := "ServiceAccount"; subject_Name := "deployer"; subject_Namespace := "ci" |}
    {| subject_Kind := "ServiceAccount"; subject_Name := "deployer"; subject_Namespace := "ci" |}
    {| Username := "system:serviceaccount:ci:deployer"; Groups := [] |}); reflexivity.
Defined.

Lemma organization_webhook_correct_witness :
  admits (OrganizationWebhook.ValidateCreate demoAuthz (ctx alice) (org "new" "genomics" "")) demo /\
  ~ admits (OrganizationWebhook.ValidateUpdate demoAuthz (ctx alice)
      (org "genomics" "research" "") (org "genomics" "" "")) demo.
Proof.
  destruct (organization_webhook_correct demoAuthz (ctx alice) (org "genomics" "research" "")
              (org "new" "genomics" "") demo) as [Hc _].
  destruct (organization_webhook_correct demoAuthz (ctx alice) (org "genomics" "research" "")
              (org "genomics" "" "") demo) as (_ & Hu & _).
  split.
  - apply Hc. exists alice. split; [reflexivity|right; exact alice_inherits_genomics].
  - rewrite Hu. intros [Heq _]. discriminate Heq.
Defined.

Lemma profile_webhook_correct_witness :
  admits (OrganizationProfileWebhook.ValidateCreate demoAuthz (ctx alice) (profileWith "genomics" None 0)) demo /\
  ~ admits (OrganizationProfileWebhook.ValidateUpdate demoAuthz (ctx alice)
      (profileWith "genomics" None 2) (profileWith "genomics" None 9)) demo.
Proof.
  destruct (profile_webhook_correct demoAuthz (ctx alice) (profileWith "genomics" None 2)
              (profileWith "genomics" None 0) demo) as [Hc _].
  destruct (profile_webhook_correct demoAuthz (ctx alice) (profileWith "genomics" None 2)
              (profileWith "genomics" None 9) demo) as [_ Hu].
  split.
  - apply Hc. split; [reflexivity|]. exists alice. split; [reflexivity|right; exact alice_inherits_genomics].
  - rewrite Hu. intros [_ (u & Huc & [Ht|Hadm])]; [injection Huc as <-; discriminate Ht|].
    exact (not_admin_genomics u Hadm).
Defined.

Lemma project_webhook_correct_witness :
  admits (OrganizationProjectWebhook.ValidateCreate demoAuthz (ctx alice) (project "p1" "genomics")) demo.
Proof.
  destruct (project_webhook_correct demoAuthz (ctx alice) (project "p0" "genomics")
              (project "p1" "genomics") demo) as [Hc _]; [reflexivity|].
  apply Hc. split; [exists alice; split; [reflexivity|right; exact alice_inherits_genomics]|].
  exists (profileWith "genomics" None 2). split; [apply demo_profile; auto|reflexivity].
Defined.

(** No project of genomics is stored, and its cap is two. *)
Lemma quota_counter_bounds_witness :
  admits (OrganizationProjectWebhook.ValidateCreate demoAuthz (ctx alice) (project "p1" "genomics")) demo.
Proof.
  destruct (quota_counter_bounds demoAuthz (ctx alice) (project "p1" "genomics")
              (profileWith "genomics" None 2) demo) as [Hcount _]; [apply demo_profile; auto|].
  apply Hcount. split; [exists alice; split; [reflexivity|right; exact alice_inherits_genomics]|reflexivity].
Defined.

Lemma maas_webhook_correct_witness :
  admits (MaaSConfigurationWebhook.ValidateCreate demoAuthz (ctx alice) (maascfg "research" "research")) demo.
Proof.
  destruct (maas_webhook_correct demoAuthz (ctx alice) (maascfg "research" "research")
              (maascfg "research" "research") demo) as [Hc _].
  apply Hc. split.
  - split; [discriminate|]. split; [reflexivity|]. split; [|intros k m Hk; discriminate Hk].
    exists (org "research" "" "research"). split; [apply demo_organization; auto|reflexivity].
  - exists alice. split; [reflexivity|right; apply alice_admin_research; reflexivity].
Defined.

Lemma admins_change_covers_config_witness :
  admits (OrganizationProfileWebhook.ValidateUpdate demoAuthz (ctx alice)
            (profileWith "genomics" None 2) (profileWith "genomics" (Some []) 100)) demo /\
  ~ admits (OrganizationProfileWebhook.ValidateUpdate demoAuthz (ctx alice)
            (profileWith "genomics" None 2) (profileWith "genomics" None 100)) demo.
Proof.
  apply (admins_change_covers_config demoAuthz (ctx alice) alice);
    [reflexivity|reflexivity|exact alice_inherits_genomics|apply not_admin_genomics
    |reflexivity|discriminate|reflexivity|reflexivity].
Defined.
End runs.
