(* ===== verification/Framework.v ===== *)
(** The reconciliation framework as the controllers use it.

    A controller is a list of actions over a [ReconciliationRequest]: the client
    (here the state of the cluster), the object under reconciliation, the
    condition marks made so far and a map of extensions the actions share.  The
    framework that runs the actions is not part of the repository: [Framework]
    is its interface and [FrameworkLaws] what the actions rely on, that they run
    in order and that the first error stops the rest. *)

From stdpp Require Import gmap strings list.
From Stdlib Require Import ZArith.
From S2P Require Import Prelude Platform Api Cluster.

(** The calls rr.Conditions.MarkTrue, MarkFalse and MarkUnknown, in order. *)
Inductive ConditionStatus := ConditionTrue | ConditionFalse | ConditionUnknown.
Record ConditionMark := {
  cm_Type : string;
  cm_Status : ConditionStatus;
  cm_Reason : string;
  cm_Message : option text;
}.
#[export] Instance ConditionStatus_eq_dec : EqDecision ConditionStatus.
Proof. solve_decision. Defined.

(** The last mark made for a condition type. *)
Definition lastMark (ty : string) (ms : list ConditionMark) : option ConditionMark :=
  List.find (fun m => bool_decide (cm_Type m = ty)) (rev ms).

Definition ProvisioningSucceeded : string := "ProvisioningSucceeded".

(** [W] is the state behind rr.Client, [I] the type of rr.Instance, [X] the dynamic types
    stored in rr.Extensions. *)
Record Request (W I X : Type) := {
  Client : W;
  Instance_ : I;
  Conditions : list ConditionMark;
  Extensions : gomap X;
}.
Arguments Client {W I X}.
Arguments Instance_ {W I X}.
Arguments Conditions {W I X}.
Arguments Extensions {W I X}.
Abbreviation ReconciliationRequest := (Request world).

Section framework.
  Context `{P : Platform} `{C : !Cluster}.

Context {I X : Type}.
Abbreviation RR := (ReconciliationRequest I X).
Abbreviation Action := (GoM RR error unit).

Definition withClient (rr : RR) (w : world) : RR :=
  {| Client := w; Instance_ := Instance_ rr; Conditions := Conditions rr; Extensions := Extensions rr |}.
Definition withInstance (rr : RR) (i : I) : RR :=
  {| Client := Client rr; Instance_ := i; Conditions := Conditions rr; Extensions := Extensions rr |}.
Definition withConditions (rr : RR) (cs : list ConditionMark) : RR :=
  {| Client := Client rr; Instance_ := Instance_ rr; Conditions := cs; Extensions := Extensions rr |}.
Definition withExtensions (rr : RR) (x : gomap X) : RR :=
  {| Client := Client rr; Instance_ := Instance_ rr; Conditions := Conditions rr; Extensions := x |}.

(** A computation on the cluster, run by an action through rr.Client. *)
Definition onClient {A} (m : GoM world error A) : GoM RR error A :=
  fun rr => let (r, w) := m (Client rr) in (r, withClient rr w).

Definition instance : GoM RR error I := fun rr => (Ret (Instance_ rr), rr).
Definition setInstance (i : I) : Action := fun rr => (Ret tt, withInstance rr i).
Definition mark (c : ConditionMark) : Action :=
  fun rr => (Ret tt, withConditions rr (Conditions rr ++ [c])).

(** [if err != nil { return fmt.Errorf("...: %w", err) }] *)
Definition wrapErr {S A} (t : text) (m : GoM S error A) : GoM S error A :=
  fun s => match m s with
           | (Err e, s') => (Err (ErrorfW t e), s')
           | r => r
           end.

(** A callback that returns [error] on a library error. *)
Definition libErr {A} (r : liberror + A) : outcome error A :=
  match r with inl e => Err (ELib e) | inr a => Ret a end.

(** What a controller registers with the framework's builder. *)
Record ReconcilerConfig := {
  rc_For : string;
  rc_Owns : list string;
  rc_WatchesGVK : list GroupVersionKind;
  rc_FinalizerName : option string;
  rc_Actions : list Action;
  rc_Finalizers : list Action;
  rc_Dependents : list string;
}.
End framework.
Arguments ReconcilerConfig {P C}.

Class Framework `{P : Platform} `{C : !Cluster} := {
  runActions {I X : Type} :
    list (GoM (ReconciliationRequest I X) error unit) -> GoM (ReconciliationRequest I X) error unit;
}.

Class FrameworkLaws `{P : Platform} `{C : !Cluster} (F : Framework) : Prop := {
  run_none {I X} (rr : ReconciliationRequest I X) : runActions [] rr = (Ret tt, rr);
  run_next {I X} a l (rr rr' : ReconciliationRequest I X) :
    a rr = (Ret tt, rr') -> runActions (a :: l) rr = runActions l rr';
  run_stop {I X} a l (rr rr' : ReconciliationRequest I X) e :
    a rr = (Err e, rr') -> runActions (a :: l) rr = (Err e, rr');
  run_panic {I X} a l (rr rr' : ReconciliationRequest I X) :
    a rr = (Panic, rr') -> runActions (a :: l) rr = (Panic, rr');
}.

Section framework_rules.
  Context `{P : Platform} `{C : !Cluster} {I X : Type}.
  Abbreviation RR := (ReconciliationRequest I X).

Lemma wp_onClient {A} (m : GoM world error A) (Q : outcome error A -> RR -> Prop) rr :
  wp m (fun r w => Q r (withClient rr w)) (Client rr) -> wp (onClient m) Q rr.
Proof. unfold wp, onClient. by destruct (m (Client rr)). Qed.

Lemma wp_instance (Q : outcome error I -> RR -> Prop) rr :
  Q (Ret (Instance_ rr)) rr -> wp instance Q rr.
Proof. exact id. Qed.

Lemma wp_setInstance i (Q : outcome error unit -> RR -> Prop) rr :
  Q (Ret tt) (withInstance rr i) -> wp (setInstance i) Q rr.
Proof. exact id. Qed.

Lemma wp_mark c (Q : outcome error unit -> RR -> Prop) rr :
  Q (Ret tt) (withConditions rr (Conditions rr ++ [c])) -> wp (mark c) Q rr.
Proof. exact id. Qed.

Lemma wp_wrapErr {S A} t (m : GoM S error A) Q s :
  wp m (fun r s' => match r with Err e => Q (Err (ErrorfW t e)) s' | _ => Q r s' end) s ->
  wp (wrapErr t m) Q s.
Proof. unfold wp, wrapErr. destruct (m s) as [[]]; exact id. Qed.

(** Running a list of actions, in terms of the first one. *)
Lemma wp_runActions_nil `{F : !Framework} `{!FrameworkLaws F} (Q : outcome error unit -> RR -> Prop) rr :
  Q (Ret tt) rr -> wp (runActions []) Q rr.
Proof. unfold wp. by rewrite run_none. Qed.

Lemma wp_runActions_cons `{F : !Framework} `{!FrameworkLaws F} a l
    (Q : outcome error unit -> RR -> Prop) rr :
  wp a (fun r rr' => match r with
                     | Ret _ => wp (runActions l) Q rr'
                     | _ => Q r rr'
                     end) rr ->
  wp (runActions (a :: l)) Q rr.
Proof.
  unfold wp. destruct (a rr) as [[[]|e|] rr'] eqn:Ha; simpl.
  - by rewrite (run_next a l rr rr' Ha).
  - by rewrite (run_stop a l rr rr' e Ha).
  - by rewrite (run_panic a l rr rr' Ha).
Qed.
End framework_rules.

(** An action that returns, and what holds after it. *)
Abbreviation returns Q := (fun r rr' => r = Ret tt /\ Q rr').

(** The runner the laws describe, for concrete runs. *)
Definition sequentialFramework `{P : Platform} `{C : !Cluster} : Framework := {|
  runActions I X :=
    fix run (l : list (GoM (ReconciliationRequest I X) error unit)) :=
      match l with
      | [] => ret tt
      | a :: l' => a ;;; run l'
      end;
|}.

Lemma sequentialFramework_laws `{P : Platform} `{C : !Cluster} : FrameworkLaws sequentialFramework.
Proof. constructor; try done; intros * Ha; simpl; unfold bind; by rewrite Ha. Qed.
