(* ===== verification/OrganizationCtl.v ===== *)
(** The Organization controller (internal/controller/organization): the root of an
    organization's lineage and its initial, restrictive profile. *)

From stdpp Require Import gmap strings list.
From Stdlib Require Import ZArith.
From S2P Require Import Prelude Platform Api Cluster Framework.

Local Open Scope string_scope.

Definition organizationLabel : string := "organization.opendatahub.io/name".
Definition organizationRootLabel : string := "organization.opendatahub.io/root".
Definition maxHierarchyDepth : nat := 3.

(** The kind under which the scheme registers an API type (groupversion_info.go). *)
Definition SchemeGroupVersion : string * string := ("organization.opendatahub.io", "v1alpha1").
Definition apiKind (kind : string) : GroupVersionKind :=
  {| gvk_Group := fst SchemeGroupVersion; gvk_Version := snd SchemeGroupVersion; gvk_Kind := kind |}.

Section controller.
  Context `{P : Platform} `{C : !Cluster}.

Abbreviation OrgAction := (GoM (ReconciliationRequest Organization unit) error unit).

Definition withRoot (o : Organization) (root : string) : Organization :=
  {| organization_meta := organization_meta o;
     organization_Spec := organization_Spec o;
     organization_Status := {| organization_apiStatus := organization_apiStatus (organization_Status o);
                               Root := root |} |}.

Definition organizationOwner (o : Organization) : Owner :=
  {| own_gvk := apiKind "Organization"; own_meta := organization_meta o |}.

(** The profile literal of ensureProfile, before its owner reference is set. *)
Definition defaultProfile (organization : Organization) : OrganizationProfile :=
  {| profile_meta :=
       setLabels (namedMeta "" (Name (organization_meta organization)))
         (Some (<[organizationLabel := Name (organization_meta organization)]>
               (<[organizationRootLabel := Root (organization_Status organization)]> ∅)));
     profile_Spec :=
       {| profile_OrganizationRef := {| ref_Name := Name (organization_meta organization) |};
          Admins := None;
          Defaults := {| default_NetworkIsolation := "tenant"; MaxProjects := 0 |};
          profile_Platform := None |};
     profile_Status := {| profile_apiStatus := zeroStatus |} |}.

Definition withProfileMeta (p : OrganizationProfile) (m : ObjectMeta) : OrganizationProfile :=
  {| profile_meta := m; profile_Spec := profile_Spec p; profile_Status := profile_Status p |}.

Definition ensureProfile : OrgAction :=
  let* organization := instance in
  let* r := onClient (call (Get profiles (Name (organization_meta organization)))) in
  match r with
  | inr _ => ret tt
  | inl err =>
      if negb (IsNotFound err) then fail (ELib err)
      else
        let profile := defaultProfile organization in
        match SetControllerReference (organizationOwner organization) (profile_meta profile) with
        | inl err => fail (ELib err)
        | inr meta =>
            let* rc := onClient (call (Create profiles (withProfileMeta profile meta))) in
            match rc with
            | inl err => fail (ELib err)
            | inr _ => ret tt
            end
        end
  end.

(** [for range n] of computeRootWalk, with the loop variable [cur]. *)
Fixpoint computeRootWalk_loop (n : nat) (organization cur : Organization) : GoM world error string :=
  match n with
  | O => fail (Errorf (Sprintf "organization hierarchy for %q exceeds max depth %d"
                         [OStr (Name (organization_meta organization)); OInt (Z.of_nat maxHierarchyDepth)]))
  | S n' =>
      if decide (organizationParent cur = "") then ret (Name (organization_meta cur))
      else
        let* r := call (Get organizations (organizationParent cur)) in
        match r with
        | inl err => fail (ELib err)
        | inr parent => computeRootWalk_loop n' organization parent
        end
  end.

Definition computeRootWalk (organization : Organization) : GoM world error string :=
  computeRootWalk_loop maxHierarchyDepth organization organization.

Definition computeRoot : OrgAction :=
  let* organization := instance in
  let* root := wrapErr (Sprintf "failed to compute root: %w" [])
                 (onClient (computeRootWalk organization)) in
  if decide (Root (organization_Status organization) <> root)
  then setInstance (withRoot organization root)
  else ret tt.

(** What NewOrganizationReconciler registers. *)
Definition NewOrganizationReconciler : ReconcilerConfig Organization unit :=
  {| rc_For := "Organization";
     rc_Owns := ["OrganizationProfile"];
     rc_WatchesGVK := [];
     rc_FinalizerName := None;
     rc_Actions := [computeRoot; ensureProfile];
     rc_Finalizers := [];
     rc_Dependents := [ProvisioningSucceeded] |}.
End controller.

(* ------------------------------------------------------------------ *)
(** ** Specification of the lineage *)

Section lineage.
  Context `{P : Platform}.

(** [r] is the name of the root reached from [o] after [n] parent links. *)
Inductive root_of (st : Store) : nat -> Organization -> string -> Prop :=
| root_here o : organizationParent o = "" -> root_of st 0 o (Name (organization_meta o))
| root_above n o p r :
    organizationParent o <> "" -> s_organizations st !! organizationParent o = Some p ->
    root_of st n p r -> root_of st (S n) o r.

Lemma root_of_functional st n m o r r' : root_of st n o r -> root_of st m o r' -> n = m /\ r = r'.
Proof.
  intros H. revert m r'. induction H as [o Ho|n o p r Ho Hp Hr IH]; intros m r' H'.
  - inversion H'; subst; [done|congruence].
  - inversion H' as [|? ? p' ? ? Hp']; subst; [congruence|].
    rewrite Hp in Hp'. injection Hp' as <-. edestruct IH as [-> ->]; eauto.
Qed.

Lemma root_of_0 st o r : root_of st 0 o r <-> organizationParent o = "" /\ r = Name (organization_meta o).
Proof. split; [by inversion 1|]. intros [? ->]. by constructor. Qed.

Lemma root_of_S st n o r :
  root_of st (S n) o r <->
  organizationParent o <> "" /\
  exists p, s_organizations st !! organizationParent o = Some p /\ root_of st n p r.
Proof.
  split; [inversion 1; subst; eauto|]. intros (? & p & ? & ?). by eapply root_above.
Qed.
End lineage.

(* ------------------------------------------------------------------ *)
(** ** The walk computes the root *)

Section walk.
  Context `{P : Platform} `{C : !Cluster} `{L : !LawfulCluster C}.
  Context (R : Prop) (HR : R -> ReliableReads C).

(** A walk of [n] steps finds a root less than [n] links up, or fails; with
    reliable reads it fails only when there is none. *)
Lemma computeRootWalk_loop_spec n o cur w :
  wp (computeRootWalk_loop n o cur)
     (fun r w' => view w' = view w /\
        match r with
        | Ret root => exists k, k < n /\ root_of (view w) k cur root
        | Err _ => R -> forall k root, k < n -> ~ root_of (view w) k cur root
        | Panic => False
        end) w.
Proof.
  revert cur w. induction n as [|n IH]; intros cur w; simpl.
  { apply wp_fail. split; [done|]. lia. }
  case_decide as Hroot.
  { apply wp_ret. split; [done|]. exists 0. split; [lia|by constructor]. }
  apply wp_bind, (wp_Get _ _ organizationKind R (fun r => let _ := HR r in _)); simpl.
  - intros p w1 Hp Hv. eapply wp_mono; [apply IH|].
    intros [root|e|] w2 [Hv2 Hr]; rewrite Hv in *; (split; [done|]).
    + destruct Hr as (k & ? & ?). exists (S k). split; [lia|by eapply root_above].
    + intros HRr [|k] root Hk; [by rewrite root_of_0; intros [? _]|].
      rewrite root_of_S. intros (_ & p' & Hp' & Hk'). rewrite Hp in Hp'. injection Hp' as <-.
      eapply (Hr HRr k); [lia|done].
    + done.
  - intros e w1 Hnf HRnf Hv. apply wp_fail. split; [done|].
    intros HRr [|k] root Hk; [by rewrite root_of_0; intros [? _]|].
    rewrite root_of_S. intros (_ & p' & Hp' & _). rewrite Hnf in Hp' by auto. discriminate.
Qed.
End walk.

(* ------------------------------------------------------------------ *)
(** ** The actions *)

Section actions.
  Context `{P : Platform} `{C : !Cluster} `{L : !LawfulCluster C} `{PL : !PlatformLaws P}.
  Context (R : Prop) (HR : R -> ReliableReads C).
  Abbreviation RR := (ReconciliationRequest Organization unit).
  Implicit Types rr : RR.

Definition stateOf (rr : RR) : Store := view (Client rr).

Definition has_root (st : Store) (o : Organization) (root : string) : Prop :=
  exists k, k < 3 /\ root_of st k o root.

Lemma withRoot_self o : withRoot o (Root (organization_Status o)) = o.
Proof. by destruct o as [? ? []]. Qed.

Lemma computeRoot_spec rr :
  wp computeRoot
     (fun r rr' =>
        stateOf rr' = stateOf rr /\
        match r with
        | Ret _ => exists root, has_root (stateOf rr) (Instance_ rr) root /\
                     Instance_ rr' = withRoot (Instance_ rr) root
        | Err _ => Instance_ rr' = Instance_ rr /\
                   (R -> forall root, ~ has_root (stateOf rr) (Instance_ rr) root)
        | Panic => False
        end) rr.
Proof.
  unfold computeRoot. apply wp_bind, wp_instance, wp_bind, wp_wrapErr, wp_onClient.
  eapply wp_mono; [apply (computeRootWalk_loop_spec R HR)|].
  unfold stateOf, has_root.
  intros [root|e|] w [Hv Hr]; [| |done].
  - case_decide as Hsame; [apply wp_setInstance|apply wp_ret]; simpl; (split; [done|]); exists root;
      (split; [done|]); [done|].
    by rewrite <- Hsame, withRoot_self.
  - simpl. split; [done|]. split; [done|]. intros HRr root (k & Hk & Hro). by eapply Hr.
Qed.

(** A profile as the controller creates it: no administrators, no projects, the
    tenant preset, labelled and controlled by its organization. *)
Definition restrictive_for (o : Organization) (p : OrganizationProfile) : Prop :=
  Name (profile_meta p) = Name (organization_meta o) /\
  profileOrg p = Name (organization_meta o) /\
  elems (Admins (profile_Spec p)) = [] /\
  MaxProjects (Defaults (profile_Spec p)) = 0%Z /\
  default_NetworkIsolation (Defaults (profile_Spec p)) = "tenant" /\
  profile_Platform (profile_Spec p) = None /\
  map_index (Labels (profile_meta p)) organizationLabel = Some (Name (organization_meta o)) /\
  map_index (Labels (profile_meta p)) organizationRootLabel = Some (Root (organization_Status o)) /\
  IsControlledBy (profile_meta p) (organization_meta o) = true.

Lemma defaultProfile_restrictive o meta p :
  SetControllerReference (organizationOwner o) (profile_meta (defaultProfile o)) = inr meta ->
  ksame profileKind (withProfileMeta (defaultProfile o) meta) p ->
  restrictive_for o p.
Proof.
  intros [Hctl Hmeta]%SetControllerReference_ok [Hm Hs]. simpl in Hm, Hctl. unfold same_meta in Hm.
  unfold restrictive_for, profileOrg. rewrite Hs, Hm, IsControlledBy_setUID, Hctl. simpl.
  rewrite Hmeta. simpl. rewrite lookup_insert_eq, lookup_insert_ne, lookup_insert_eq by done. done.
Qed.

(** The only effect ensureProfile may have on the stored objects. *)
Definition profile_ensured (o : Organization) (st st' : Store) : Prop :=
  is_Some (s_profiles st !! Name (organization_meta o)) /\ st' = st \/
  s_profiles st !! Name (organization_meta o) = None /\
  exists p, restrictive_for o p /\ st' = stored profileKind (Name (organization_meta o)) p st.

Lemma ensureProfile_spec rr :
  wp ensureProfile
     (fun r rr' =>
        Instance_ rr' = Instance_ rr /\
        match r with
        | Ret _ => profile_ensured (Instance_ rr) (stateOf rr) (stateOf rr')
        | Err _ => stateOf rr' = stateOf rr /\
                   (R -> s_profiles (stateOf rr) !! Name (organization_meta (Instance_ rr)) = None)
        | Panic => False
        end) rr.
Proof.
  unfold ensureProfile, stateOf, profile_ensured.
  apply wp_bind, wp_instance, wp_bind, wp_onClient.
  apply (wp_Get _ _ profileKind R (fun r => let _ := HR r in _)); simpl.
  - intros p w Hp Hv. apply wp_ret. split; [done|]. left. eauto.
  - intros e w Hnf HRnf Hv. destruct (IsNotFound e) eqn:He; simpl.
    2:{ apply wp_fail. simpl. split; [done|]. split; [done|]. intros HRr. by specialize (HRnf HRr). }
    destruct (SetControllerReference _ _) as [e'|meta] eqn:Hset; [by apply wp_fail; auto|].
    apply wp_bind, wp_onClient.
    assert (Name meta = Name (organization_meta (Instance_ rr))) as Hname.
    { apply SetControllerReference_ok in Hset as [_ ->]. done. }
    apply (wp_Create _ _ profileKind); simpl; rewrite ?Hname, Hv.
    + intros p w' _ Hsame Hv'. apply wp_ret. simpl. split; [done|]. right.
      split; [auto|]. exists p. split; [by eapply defaultProfile_restrictive|done].
    + intros e' w' Hv'. apply wp_fail. simpl. split; [done|]. split; [congruence|auto].
Qed.

(** Neither the root nor a later run depends on profiles. *)
Lemma root_of_ext st st' n o r :
  s_organizations st' = s_organizations st -> root_of st n o r -> root_of st' n o r.
Proof.
  intros He. induction 1 as [o Ho|n o p r Ho Hp Hr IH]; [by constructor|].
  eapply root_above; [done|by rewrite He|done].
Qed.

Lemma root_of_withRoot st n o x r : root_of st n o r -> root_of st n (withRoot o x) r.
Proof.
  intros [o' Ho|k o' p r' Ho Hp Hr].
  - exact (root_here st (withRoot o' x) Ho).
  - by apply (root_above st k (withRoot o' x) p).
Qed.

Lemma profile_ensured_organizations o st st' :
  profile_ensured o st st' -> s_organizations st' = s_organizations st.
Proof. by intros [[_ ->]|(_ & p & _ & ->)]. Qed.

Lemma profile_ensured_present o st st' :
  profile_ensured o st st' -> is_Some (s_profiles st' !! Name (organization_meta o)).
Proof.
  intros [[? ->]|(_ & p & _ & ->)]; [done|]. simpl. rewrite lookup_insert_eq. eauto.
Qed.

(** Both actions, as the framework runs them. *)
Lemma reconcile_spec `{F : !Framework} `{!FrameworkLaws F} rr :
  wp (runActions (rc_Actions NewOrganizationReconciler))
     (fun r rr' =>
        match r with
        | Ret _ => exists root, has_root (stateOf rr) (Instance_ rr) root /\
                     Instance_ rr' = withRoot (Instance_ rr) root /\
                     profile_ensured (Instance_ rr') (stateOf rr) (stateOf rr')
        | Err _ => stateOf rr' = stateOf rr /\
                   (R -> (forall root, ~ has_root (stateOf rr) (Instance_ rr) root) \/
                         s_profiles (stateOf rr) !! Name (organization_meta (Instance_ rr)) = None)
        | Panic => False
        end) rr.
Proof.
  simpl. apply wp_runActions_cons. eapply wp_mono; [apply computeRoot_spec|].
  intros [[]|e|] rr1 [Hst1 Hr1]; [|by destruct Hr1; eauto|done].
  destruct Hr1 as (root & Hroot & Hi1).
  apply wp_runActions_cons. eapply wp_mono; [apply ensureProfile_spec|].
  intros [[]|e|] rr2 [Hi2 Hr2]; [| |done].
  - apply wp_runActions_nil. exists root. rewrite Hi2, <- Hst1, Hi1 in *. done.
  - destruct Hr2 as [Hst2 Hr2]. rewrite Hst1, Hi1 in *. simpl in *. split; [congruence|auto].
Qed.
End actions.
