(* ===== verification/OrganizationTheorems.v ===== *)
(** What the Organization controller guarantees: the root it records is the root of
    the lineage and nothing else, cycles and deep trees are refused, a profile
    always exists after a successful reconciliation and is restrictive when it is
    new, and reconciling again changes nothing. *)

From stdpp Require Import gmap strings list.
From Stdlib Require Import ZArith.
From S2P Require Import Prelude Platform Api Cluster Fake Authz Webhooks Framework OrganizationCtl.

Local Open Scope string_scope.

Section cycles.
  Context `{P : Platform}.

(** [p] is [n] parent links above [o], through stored organizations. *)
Inductive climbs (st : Store) : nat -> Organization -> Organization -> Prop :=
| climbs_0 o : climbs st 0 o o
| climbs_S n o q p :
    organizationParent o <> "" -> s_organizations st !! organizationParent o = Some q ->
    climbs st n q p -> climbs st (S n) o p.

Lemma root_of_climbs st m o p k r :
  climbs st m o p -> root_of st k o r -> exists j, k = m + j /\ root_of st j p r.
Proof.
  intros Hc. revert k. induction Hc as [o|m o q p Hne Hq Hc IH]; intros k Hr; [by exists k|].
  inversion Hr as [|k' ? q' ? ? Hq' Hr']; subst; [congruence|].
  rewrite Hq in Hq'. injection Hq' as <-. destruct (IH _ Hr') as (j & -> & Hj). by exists j.
Qed.

Lemma cycle_has_no_root st n o k r : climbs st (S n) o o -> ~ root_of st k o r.
Proof.
  intros Hc Hr. destruct (root_of_climbs _ _ _ _ _ _ Hc Hr) as (j & -> & Hj).
  destruct (root_of_functional _ _ _ _ _ _ Hr Hj) as [Heq _]. lia.
Qed.
End cycles.

Section theorems.
  Context `{P : Platform} `{C : !Cluster} `{L : !LawfulCluster C} `{PL : !PlatformLaws P}.
  Abbreviation RR := (ReconciliationRequest Organization unit).

(** C9: computeRoot records exactly the root of the lineage: it succeeds with root r
    if and only if r is the name of the parentless organization reached from the
    instance in fewer than three links; it never touches the stored objects. *)
Theorem computeRoot_correct `{Rel : !ReliableReads C} (rr : RR) root :
  (has_root (stateOf rr) (Instance_ rr) root <->
   exists rr', computeRoot rr = (Ret tt, rr') /\
     Instance_ rr' = withRoot (Instance_ rr) root) /\
  stateOf (snd (computeRoot rr)) = stateOf rr.
Proof.
  pose proof (computeRoot_spec True (fun _ => Rel) rr) as Hwp. unfold wp in Hwp.
  destruct (computeRoot rr) as [r rr'] eqn:Hrun. simpl in *. destruct Hwp as [Hst Hr].
  split; [|done]. split.
  - intros Hroot. destruct r as [[]|e|]; [|by destruct Hr as [_ []%(fun H => H I root)]|done].
    destruct Hr as (root' & (k' & _ & Hroot') & Hi). destruct Hroot as (k & _ & Hroot).
    destruct (root_of_functional _ _ _ _ _ _ Hroot Hroot') as [_ <-]. eauto.
  - intros (rr'' & [= -> <-] & Hi). destruct Hr as (root' & Hroot & Hi').
    rewrite Hi in Hi'. unfold withRoot in Hi'. injection Hi' as ->. done.
Qed.

(** C10: an organization on a parent cycle never gets a root: whatever the client
    returns, computeRoot ends with an error and leaves the instance as it was. *)
Theorem cyclic_hierarchy_refused (rr : RR) n :
  climbs (stateOf rr) (S n) (Instance_ rr) (Instance_ rr) ->
  exists e rr', computeRoot rr = (Err e, rr') /\ Instance_ rr' = Instance_ rr /\
    stateOf rr' = stateOf rr.
Proof.
  intros Hcyc. pose proof (computeRoot_spec False (False_ind _) rr) as Hwp. unfold wp in Hwp.
  destruct (computeRoot rr) as [[[]|e|] rr'] eqn:Hrun; simpl in *; destruct Hwp as [Hst Hr].
  - destruct Hr as (root & (k & _ & Hk) & _). by apply cycle_has_no_root with (k := k) (r := root) in Hcyc.
  - exists e, rr'. destruct Hr. done.
  - done.
Qed.

(** C11: a reconciliation that succeeds has recorded the root of the lineage and leaves a
    profile for the organization: the one that was there, untouched, or a new
    restrictive one labelled with that root; one that fails has stored nothing. *)
Theorem organization_reconcile_correct `{F : !Framework} `{!FrameworkLaws F} (rr : RR) :
  match runActions (rc_Actions NewOrganizationReconciler) rr with
  | (Ret _, rr') =>
      exists root, has_root (stateOf rr) (Instance_ rr) root /\
        Root (organization_Status (Instance_ rr')) = root /\
        organization_Spec (Instance_ rr') = organization_Spec (Instance_ rr) /\
        profile_ensured (withRoot (Instance_ rr) root) (stateOf rr) (stateOf rr')
  | (Err _, rr') => stateOf rr' = stateOf rr
  | (Panic, _) => False
  end.
Proof.
  pose proof (reconcile_spec False (False_ind _) rr) as Hwp. unfold wp in Hwp.
  destruct (runActions _ rr) as [[[]|e|] rr']; simpl in *; [|by destruct Hwp|done].
  destruct Hwp as (root & Hroot & Hi & Hp). exists root. rewrite Hi in *. done.
Qed.

(** Reconciliation converges: after a successful run, running the actions again on
    the resulting request succeeds and changes neither the stored objects nor the
    instance. *)
Theorem organization_reconcile_idempotent `{Rel : !ReliableReads C}
    `{F : !Framework} `{!FrameworkLaws F} (rr rr' : RR) :
  runActions (rc_Actions NewOrganizationReconciler) rr = (Ret tt, rr') ->
  exists rr'', runActions (rc_Actions NewOrganizationReconciler) rr' = (Ret tt, rr'') /\
    stateOf rr'' = stateOf rr' /\ Instance_ rr'' = Instance_ rr'.
Proof.
  intros H1. pose proof (wp_run _ _ _ _ _ (reconcile_spec True (fun _ => Rel) rr) H1) as Hwp1.
  simpl in Hwp1. destruct Hwp1 as (root & (k & Hk & Hroot) & Hi & Hp).
  pose proof (profile_ensured_present _ _ _ Hp) as Hpres.
  assert (root_of (stateOf rr') k (Instance_ rr') root) as Hroot'.
  { eapply root_of_ext; [by eapply profile_ensured_organizations|]. rewrite Hi.
    by apply root_of_withRoot. }
  pose proof (reconcile_spec True (fun _ => Rel) rr') as Hwp2. unfold wp in Hwp2.
  destruct (runActions _ rr') as [[[]|e|] rr''] eqn:H2; simpl in Hwp2; [| |done].
  - destruct Hwp2 as (root2 & (k2 & _ & Hroot2) & Hi2 & Hp2).
    destruct (root_of_functional _ _ _ _ _ _ Hroot' Hroot2) as [_ <-].
    exists rr''. split; [done|]. assert (Instance_ rr'' = Instance_ rr') as Hii by (rewrite Hi2, Hi; done).
    split; [|done]. destruct Hp2 as [[_ Hs]|[Hn _]]; [done|].
    rewrite Hii in Hn. rewrite Hn in Hpres. by destruct Hpres.
  - destruct Hwp2 as [_ [Hno|Hno]]; [done| |].
    + exfalso. apply (Hno root). exists k. done.
    + rewrite Hno in Hpres. by destruct Hpres.
Qed.

(** A freshly created profile is restrictive to the end: until someone raises its
    cap, no project of the organization is admitted, not even from a trusted user. *)
Theorem fresh_profile_admits_no_project (rr rr' : RR) a ctx (obj : OrganizationProject) :
  s_profiles (stateOf rr) !! Name (organization_meta (Instance_ rr)) = None ->
  ensureProfile rr = (Ret tt, rr') ->
  projectOrg obj = Name (organization_meta (Instance_ rr)) ->
  (Z.of_nat (size (s_projects (stateOf rr))) < 2 ^ 31)%Z ->
  ~ admits (OrganizationProjectWebhook.ValidateCreate a ctx obj) (Client rr').
Proof.
  intros Hnone Hrun Hobj Hsize Had.
  pose proof (wp_run _ _ _ _ _ (ensureProfile_spec False (False_ind _) rr) Hrun) as [_ Hp]. simpl in Hp.
  destruct Hp as [[[p Hp] _]|(_ & p & Hrestr & Hst)]; [congruence|].
  apply (checks_sound False) with (Q :=
    may_act a ctx (stateOf rr') (projectOrg obj) /\
    exists p, s_profiles (stateOf rr') !! projectOrg obj = Some p /\
      (owned (stateOf rr') (projectOrg obj) < MaxProjects (Defaults (profile_Spec p)))%Z) in Had.
  - destruct Had as (_ & p' & Hp' & Hlt). rewrite Hst, Hobj in Hp'. simpl in Hp'.
    rewrite lookup_insert_eq in Hp'. injection Hp' as <-.
    destruct Hrestr as (_ & _ & _ & Hmax & _). rewrite Hmax in Hlt. unfold owned, ownedIn in Hlt. lia.
  - apply project_create_checks; [done|]. unfold stateOf in Hst. by rewrite Hst.
Qed.
End theorems.

(* ------------------------------------------------------------------ *)
(** ** Runs *)

Section runs.
Import FakeInstances.
#[local] Existing Instance sequentialFramework.
#[local] Existing Instance sequentialFramework_laws.

Definition request (s : Store) (o : Organization) : ReconciliationRequest Organization unit :=
  {| Client := fakeWorld s; Instance_ := o; Conditions := []; Extensions := None |}.

(** Two organizations that are each other's parent. *)
Definition cyclicStore : Store :=
  kput organizationKind
    (list_to_map [("a", org "a" "b" ""); ("b", org "b" "a" "")]) emptyStore.

(** A child of the demo tree that has no profile yet. *)
Definition newOrg : Organization := org "newcomer" "genomics" "".

Lemma newOrg_root : has_root demoStore newOrg "research".
Proof.
  exists 2. split; [lia|].
  eapply root_above; [discriminate|apply demo_organization; auto|].
  eapply root_above; [discriminate|apply demo_organization; auto|].
  by apply (root_here _ (org "research" "" "research")).
Qed.

Lemma computeRoot_correct_witness :
  exists rr', computeRoot (request demoStore newOrg) = (Ret tt, rr') /\
    Instance_ rr' = withRoot newOrg "research".
Proof.
  apply (computeRoot_correct (request demoStore newOrg) "research"). exact newOrg_root.
Defined.

Lemma cyclic_hierarchy_refused_witness :
  exists e rr', computeRoot (request cyclicStore (org "a" "b" "")) = (Err e, rr') /\
    Instance_ rr' = org "a" "b" "" /\
    stateOf rr' = stateOf (request cyclicStore (org "a" "b" "")).
Proof.
  apply (cyclic_hierarchy_refused (request cyclicStore (org "a" "b" "")) 1).
  eapply climbs_S; [discriminate|store_lookup|].
  eapply climbs_S; [discriminate|store_lookup|]. constructor.
Defined.

Lemma organization_reconcile_correct_witness :
  exists root, has_root demoStore newOrg root /\ root = "research".
Proof.
  pose proof (organization_reconcile_correct (request demoStore newOrg)) as H.
  destruct (runActions _ _) as [[u|e|] rr'] eqn:Hrun;
    [|apply (f_equal (fun x => is_ret (fst x))) in Hrun; vm_compute in Hrun; discriminate|done].
  destruct H as (root & Hroot & _). exists root. split; [exact Hroot|].
  destruct Hroot as (k & _ & Hk). destruct newOrg_root as (k' & _ & Hk').
  exact (proj2 (root_of_functional _ _ _ _ _ _ Hk Hk')).
Defined.

Lemma organization_reconcile_idempotent_witness :
  exists rr' rr'',
    runActions (rc_Actions NewOrganizationReconciler) (request demoStore newOrg) = (Ret tt, rr') /\
    runActions (rc_Actions NewOrganizationReconciler) rr' = (Ret tt, rr'') /\
    stateOf rr'' = stateOf rr' /\ Instance_ rr'' = Instance_ rr'.
Proof.
  destruct (runActions (rc_Actions NewOrganizationReconciler) (request demoStore newOrg))
    as [[[]|e|] rr'] eqn:Hrun;
    [|apply (f_equal (fun x => is_ret (fst x))) in Hrun; vm_compute in Hrun; discriminate
     |apply (f_equal (fun x => is_ret (fst x))) in Hrun; vm_compute in Hrun; discriminate].
  destruct (organization_reconcile_idempotent (request demoStore newOrg) rr' Hrun) as [rr'' H].
  exists rr', rr''. split; [reflexivity|exact H].
Defined.

Lemma fresh_profile_admits_no_project_witness :
  exists rr', ensureProfile (request demoStore newOrg) = (Ret tt, rr') /\
    forall a ctx obj, projectOrg obj = "newcomer" ->
      ~ admits (OrganizationProjectWebhook.ValidateCreate a ctx obj) (Client rr').
Proof.
  destruct (ensureProfile (request demoStore newOrg)) as [[[]|e|] rr'] eqn:Hrun;
    [|apply (f_equal (fun x => is_ret (fst x))) in Hrun; vm_compute in Hrun; discriminate
     |apply (f_equal (fun x => is_ret (fst x))) in Hrun; vm_compute in Hrun; discriminate].
  exists rr'. split; [reflexivity|]. intros a ctx obj Hobj.
  apply (fresh_profile_admits_no_project (request demoStore newOrg) rr' a ctx obj);
    [store_lookup|exact Hrun|exact Hobj|reflexivity].
Defined.
End runs.
