(* ===== verification/Interference.v ===== *)
(** A reconciliation or an admission check among others: between any two calls of the
    client, other users of the cluster may change the stored objects.

    [busyCluster] runs a move of the others before each call and records the store before
    and after it, so what is proved of it says what each single call finds and does.  A
    CreateOrUpdate is one call: the API server refuses its update of a version that is no
    longer the current one.  A deletion asks for no version. *)

From stdpp Require Import gmap strings list.
From S2P Require Import Prelude Platform Api Cluster Fake.

Section interference.
  Context `{P : Platform} `{C : !Cluster} `{L : !LawfulCluster C}.

(** The world, the moves the others will make, one before each call, and the calls made so
    far as the stores they found and left.  When the moves are used up, the others rest. *)
Record Busy := {
  real : world;
  moves : list (world -> world);
  calls : list (Store * Store);
}.

Definition current_world (s : Busy) : world :=
  match moves s with [] => real s | move :: _ => move (real s) end.

Definition atWork {A} (f : world -> A * world) (s : Busy) : A * Busy :=
  let w := current_world s in
  let (a, w') := f w in
  (a, {| real := w'; moves := tail (moves s); calls := (calls s ++ [(view w, view w')])%list |}).

Definition busyClient {K T} (c : TypedClient world K T) : TypedClient Busy K T := {|
  Get k := atWork (Get c k);
  List := atWork (List c);
  Create o := atWork (Create c o);
  Update o := atWork (Update c o);
  Delete o := atWork (Delete c o);
  CreateOrUpdate o f := atWork (CreateOrUpdate c o f);
|}.

Definition busyCluster : Cluster := {|
  world := Busy;
  organizations := busyClient organizations;
  profiles := busyClient profiles;
  projects := busyClient projects;
  maasconfigurations := busyClient maasconfigurations;
  namespaces := busyClient namespaces;
  rolebindings := busyClient rolebindings;
  networkpolicies := busyClient networkpolicies;
  unstructureds := busyClient unstructureds;
  HasCRD g := atWork (HasCRD g);
|}.

(** The store as the last call left it, and the stores the calls found. *)
Definition now (s : Busy) : Store := view (real s).
Definition moments (s : Busy) : list Store := (calls s).*1.

(* ------------------------------------------------------------------ *)
(** ** Rely and guarantee *)

Section rules.
  Context (rely guarantee : Store -> Store -> Prop).

(** The moves keep to [rely], the calls so far to [guarantee]. *)
Record calm (s : Busy) : Prop := {
  calm_moves : Forall (fun move => forall w, rely (view w) (view (move w))) (moves s);
  calm_calls : Forall (fun c => guarantee (fst c) (snd c)) (calls s);
}.

(** A call finds a store the others may have changed; it is to keep to the guarantee. *)
Lemma wp_atWork `{!Reflexive rely} {A} (f : world -> outcome error A * world)
    (Q : outcome error A -> Busy -> Prop) s :
  calm s ->
  (forall w, rely (now s) (view w) ->
     wp f (fun r w' => guarantee (view w) (view w') /\
             forall s', calm s' -> now s' = view w' -> calls s' = (calls s ++ [(view w, view w')])%list -> Q r s') w) ->
  wp (atWork f) Q s.
Proof.
  intros [Hm Hc] Hf. unfold wp, atWork in *.
  assert (rely (now s) (view (current_world s))) as Hr.
  { unfold current_world, now. destruct (moves s) as [|move l]; [done|]. by inversion Hm. }
  specialize (Hf _ Hr). destruct (f (current_world s)) as [r w']. simpl in *. destruct Hf as [Hg HQ].
  apply HQ; [|done|done]. constructor; simpl.
  - destruct (moves s); [done|]. by inversion Hm.
  - apply Forall_app. split; [done|]. by constructor.
Qed.

Lemma wp_atWork_call `{!Reflexive rely} {A} (f : world -> A * world) (Q : outcome error A -> Busy -> Prop) s :
  calm s ->
  (forall w, rely (now s) (view w) ->
     wp (call f) (fun r w' => guarantee (view w) (view w') /\
             forall s', calm s' -> now s' = view w' -> calls s' = (calls s ++ [(view w, view w')])%list -> Q r s') w) ->
  wp (call (atWork f)) Q s.
Proof.
  intros Hs Hf. pose proof (wp_atWork (call f) Q s Hs Hf) as H. revert H. unfold wp, call, atWork.
  by destruct (f (current_world s)).
Qed.

(** A read finds an object as it was at that moment. *)
Section calls.
  Context `{!Reflexive rely} `{!Reflexive guarantee}.
  Context {K T : Type} `{Countable K} (c : TypedClient world K T) (kd : Kind K T).
  Context `{!LawfulClient view c kd}.
  Context (R : Prop) (HR : R -> ReliableClient view c kd).

Lemma wp_busy_Get k (Q : outcome error (liberror + T) -> Busy -> Prop) s :
  calm s ->
  (forall s' r, calm s' -> rely (now s) (now s') -> now s' ∈ moments s' ->
     moments s ⊆ moments s' ->
     match r with
     | inr o => ksel kd (now s') !! k = Some o
     | inl e => (IsNotFound e = true -> ksel kd (now s') !! k = None) /\ (R -> IsNotFound e = true)
     end -> Q (Ret r) s') ->
  wp (call (Get (busyClient c) k)) Q s.
Proof.
  intros Hs HQ. apply wp_atWork_call; [done|]. intros w Hw.
  assert (forall s', calls s' = (calls s ++ [(view w, view w)])%list ->
    view w ∈ moments s' /\ moments s ⊆ moments s') as Hm.
  { intros s' Hc. unfold moments. rewrite Hc, fmap_app. set_solver. }
  apply (wp_Get _ _ kd R HR).
  - intros o w' Ho Hv. rewrite Hv. split; [done|]. intros s' Hs' Hnow Hc.
    apply Hm in Hc as [??]. apply HQ; rewrite ?Hnow; done.
  - intros e w' Hnf HRnf Hv. rewrite Hv. split; [done|]. intros s' Hs' Hnow Hc.
    apply Hm in Hc as [??]. apply HQ; rewrite ?Hnow; done.
Qed.

(** A write changes the store the others left, which is to keep to the guarantee. *)
Lemma wp_busy_Create o (Q : outcome error (liberror + T) -> Busy -> Prop) s :
  calm s ->
  (forall st o', rely (now s) st -> ksel kd st !! kkey kd o = None -> ksame kd o o' ->
     guarantee st (stored kd (kkey kd o) o' st)) ->
  (forall s' o' st, calm s' -> rely (now s) st -> ksel kd st !! kkey kd o = None -> ksame kd o o' ->
     now s' = stored kd (kkey kd o) o' st -> Q (Ret (inr o')) s') ->
  (forall s' e, calm s' -> rely (now s) (now s') -> moments s ⊆ moments s' -> Q (Ret (inl e)) s') ->
  wp (call (Create (busyClient c) o)) Q s.
Proof.
  intros Hs Hg Hok Herr. apply wp_atWork_call; [done|]. intros w Hw. apply (wp_Create _ _ kd).
  - intros o' w' Hk Hsame Hv. rewrite Hv. split; [by apply Hg|]. intros s' Hs' Hnow _. by eapply Hok.
  - intros e w' Hv. rewrite Hv. split; [done|]. intros s' Hs' Hnow Hc.
    apply Herr; [done|by rewrite Hnow|]. intros st Hst. unfold moments in *.
    rewrite Hc, fmap_app, elem_of_app. by left.
Qed.

Lemma wp_busy_Update o (Q : outcome error (liberror + T) -> Busy -> Prop) s :
  let updated st o' r := is_Some (ksel kd st !! kkey kd o) /\ ksame kd o o' /\
    (UID (kmeta kd o) <> ""%string -> UID (kmeta kd o') = UID (kmeta kd o)) /\
    (r = Some o' \/ r = None /\ DeletionTimestamp (kmeta kd o) <> None /\ Finalizers (kmeta kd o) = []) in
  let after st r := kput kd (partial_alter (fun _ => r) (kkey kd o) (ksel kd st)) st in
  calm s ->
  (forall st o' r, rely (now s) st -> updated st o' r -> guarantee st (after st r)) ->
  (forall s' st o' r, calm s' -> rely (now s) st -> updated st o' r -> now s' = after st r ->
     Q (Ret (inr o')) s') ->
  (forall s' e, calm s' -> rely (now s) (now s') -> Q (Ret (inl e)) s') ->
  wp (call (Update (busyClient c) o)) Q s.
Proof.
  intros updated after Hs Hg Hok Herr. apply wp_atWork_call; [done|]. intros w Hw. apply (wp_Update _ _ kd).
  - intros o' r w' Hk Hsame Huid Hv Hr. rewrite Hv. split; [by eapply Hg|].
    intros s' Hs' Hnow _. by eapply Hok.
  - intros e w' Hv. rewrite Hv. split; [done|]. intros s' Hs' Hnow _. apply Herr; by rewrite ?Hnow.
Qed.

Lemma wp_busy_Delete o (Q : outcome error (option liberror) -> Busy -> Prop) s :
  let deleted st o0 r := ksel kd st !! kkey kd o = Some o0 /\
    (Finalizers (kmeta kd o0) = [] -> r = None) /\
    (forall o1, r = Some o1 -> kkey kd o1 = kkey kd o0 /\
       Finalizers (kmeta kd o1) = Finalizers (kmeta kd o0)) in
  let after st r := kput kd (partial_alter (fun _ => r) (kkey kd o) (ksel kd st)) st in
  calm s ->
  (forall st o0 r, rely (now s) st -> deleted st o0 r -> guarantee st (after st r)) ->
  (forall s' st o0 r, calm s' -> rely (now s) st -> deleted st o0 r -> now s' = after st r ->
     Q (Ret None) s') ->
  (forall s' e, calm s' -> rely (now s) (now s') -> Q (Ret (Some e)) s') ->
  wp (call (Delete (busyClient c) o)) Q s.
Proof.
  intros deleted after Hs Hg Hok Herr. apply wp_atWork_call; [done|]. intros w Hw. apply (wp_Delete _ _ kd).
  - intros o0 r w' Hk Hv Hf Hr. rewrite Hv. split; [by eapply Hg|].
    intros s' Hs' Hnow _. by eapply Hok.
  - intros e w' _ Hv. rewrite Hv. split; [done|]. intros s' Hs' Hnow _. apply Herr; by rewrite ?Hnow.
Qed.

(** Read, mutate and write are one call: an update of another version is refused. *)
Lemma wp_busy_CreateOrUpdate o f (Q : outcome error T -> Busy -> Prop) s :
  let mutated st o1 o' := f (default o (ksel kd st !! kkey kd o)) = Ret o1 /\ ksame kd o1 o' in
  calm s ->
  (forall st, rely (now s) st -> f (default o (ksel kd st !! kkey kd o)) <> Panic) ->
  (forall st o1 o', rely (now s) st -> mutated st o1 o' -> guarantee st (stored kd (kkey kd o) o' st)) ->
  (forall s' st o1 o', calm s' -> rely (now s) st -> mutated st o1 o' ->
     now s' = stored kd (kkey kd o) o' st -> Q (Ret o') s') ->
  (forall s' e, calm s' -> rely (now s) (now s') -> Q (Err e) s') ->
  wp (CreateOrUpdate (busyClient c) o f) Q s.
Proof.
  intros mutated Hs Hp Hg Hok Herr. apply wp_atWork; [done|]. intros w Hw.
  apply (wp_CreateOrUpdate _ _ kd); [by apply Hp| |].
  - intros o1 o' w' Hf Hsame Hv. rewrite Hv. split; [by eapply Hg|].
    intros s' Hs' Hnow _. by eapply Hok.
  - intros e w' Hv. rewrite Hv. split; [done|]. intros s' Hs' Hnow _. apply Herr; by rewrite ?Hnow.
Qed.
End calls.

Lemma wp_busy_HasCRD `{!Reflexive rely} `{!Reflexive guarantee} g
    (Q : outcome error (liberror + bool) -> Busy -> Prop) s :
  calm s ->
  (forall s' r, calm s' -> rely (now s) (now s') -> Q (Ret r) s') ->
  wp (call (atWork (HasCRD g))) Q s.
Proof.
  intros Hs HQ. apply wp_atWork_call; [done|]. intros w Hw. apply wp_call. intros r w' Hc.
  assert (view w' = view w) as Hv by (rewrite <- (HasCRD_pure g w); by rewrite Hc).
  rewrite Hv. split; [done|]. intros s' Hs' Hnow _. apply HQ; by rewrite ?Hnow.
Qed.

(** What the moves keep to before the first call. *)
Definition others_keep (s : Busy) : Prop :=
  Forall (fun move => forall w, rely (view w) (view (move w))) (moves s).

Lemma calm_start s : others_keep s -> calls s = [] -> calm s.
Proof. intros Hm Hc. constructor; [done|]. by rewrite Hc. Qed.
End rules.
End interference.
Arguments Busy {P C}.
