(* ===== verification/InterferenceTheorems.v ===== *)
(** What holds of the operator while others work on the cluster: the authorizer and the
    walk to the root, which only read, and the controllers, whose writes stay confined. *)

From stdpp Require Import gmap strings list.
From Stdlib Require Import ZArith.
From S2P Require Import Prelude Platform Api Cluster Fake Authz Webhooks WebhookTheorems Framework OrganizationCtl Interference.

Local Open Scope string_scope.

(** No organization goes away or moves to another parent. *)
Definition lineage_kept `{P : Platform} (st st' : Store) : Prop :=
  forall k o, s_organizations st !! k = Some o ->
    exists o', s_organizations st' !! k = Some o' /\
      organizationParent o' = organizationParent o /\
      Name (organization_meta o') = Name (organization_meta o).

#[export] Instance lineage_kept_preorder `{P : Platform} : PreOrder lineage_kept.
Proof.
  split; [by intros st k o Ho; eauto|].
  intros st1 st2 st3 H12 H23 k o (o2 & Ho2 & Hp2 & Hn2)%H12.
  apply H23 in Ho2 as (o3 & Ho3 & Hp3 & Hn3). exists o3. split; [done|]. split; congruence.
Qed.

Section lineage.
  Context `{P : Platform}.

Lemma ancestor_kept st st' n o a : lineage_kept st st' -> ancestor st n o a -> ancestor st' n o a.
Proof.
  intros Hk. induction 1 as [|n o x a Hne Ho _ IH]; [by constructor|].
  apply Hk in Ho as (o' & Ho' & Hp & _). eapply ancestor_parent; [done|done|]. by rewrite Hp.
Qed.

Lemma root_of_kept st st' n o r :
  lineage_kept st st' -> root_of st n o r ->
  forall o', organizationParent o' = organizationParent o ->
    Name (organization_meta o') = Name (organization_meta o) -> root_of st' n o' r.
Proof.
  intros Hk. induction 1 as [o Ho|n o p r Ho Hp _ IH]; intros o' Hpar Hname.
  - rewrite <- Hname. constructor. congruence.
  - apply Hk in Hp as (p' & Hp' & Hpp & Hpn). rewrite <- Hpar in *. eapply root_above; eauto.
Qed.
End lineage.

(* ------------------------------------------------------------------ *)
(** ** Checks among others *)

Section reading.
  Context `{P : Platform} `{C : !Cluster} `{L : !LawfulCluster C}.
  Context (R : Prop) (HR : R -> ReliableReads C).
  Context (rely : Store -> Store -> Prop) `{!PreOrder rely}.
  Context (rely_lineage : forall st st', rely st st' -> lineage_kept st st').
  Context (guarantee : Store -> Store -> Prop) `{!Reflexive guarantee}.

Abbreviation calm := (calm rely guarantee).

(** The walk says yes only if the authority was there at the moment of a read. *)
Definition held_at (s s' : Busy) (Q : Store -> Prop) : Prop :=
  exists st, st ∈ moments s' /\ rely (now s) st /\ Q st.

(** What a check leaves: no write, and a justified answer. *)
Definition justified (s s' : Busy) (r : outcome error bool) (Q : Store -> Prop) : Prop :=
  calm s' /\ rely (now s) (now s') /\ moments s ⊆ moments s' /\
  match r with Ret b => b = true -> held_at s s' Q | Err _ => R -> False | Panic => False end.

Lemma selfAdmin_justified u org s :
  calm s ->
  wp (selfAdmin (C := busyCluster) u org)
     (fun r s' => justified s s' r (fun st => admin_of st u org) /\
        (r = Ret false -> R -> ~ admin_of (now s') u org)) s.
Proof.
  intros Hs. unfold selfAdmin. apply wp_bind.
  apply (wp_busy_Get rely guarantee profiles profileKind R (fun r => let _ := HR r in _)); [done|].
  intros s' [e|p] Hs' Hrel Hin Hsub Hr.
  - destruct Hr as [Hnf HRnf]. destruct (IsNotFound e) eqn:He.
    + apply wp_ret. split; [done|]. intros _ _ (p & ? & Hp & _). simpl in Hnf. by rewrite Hnf in Hp.
    + apply wp_fail. split; [|done]. do 3 (split; [done|]). intros HRr. by specialize (HRnf HRr).
  - apply wp_ret. simpl in Hr. split.
    + do 3 (split; [done|]). intros Ha%anyMatch_spec. exists (now s'). do 2 (split; [done|]).
      unfold admin_of. naive_solver.
    + intros [= Ha] _ (p' & x & Hp' & Hx). rewrite Hr in Hp'. injection Hp' as <-.
      assert (anyMatch (elems (Admins (profile_Spec p))) u = true) by (apply anyMatch_spec; eauto).
      congruence.
Qed.

Lemma ancestorAdmin_loop_justified n u org s :
  calm s ->
  wp (ancestorAdmin_loop (C := busyCluster) n u org)
     (fun r s' => justified s s' r (fun st => inherits_admin n st u org)) s.
Proof.
  revert org s. induction n as [|n IH]; intros org s Hs; simpl.
  { apply wp_ret. split; [done|]. done. }
  case_decide as Hne; [apply wp_ret; done|].
  apply wp_bind. eapply wp_mono; [by apply selfAdmin_justified|].
  intros r s1 [(Hs1 & Hrel1 & Hsub1 & Hr1) _]. destruct r as [[]|e|]; [| |done|done].
  { apply wp_ret. do 3 (split; [done|]). intros _. destruct (Hr1 eq_refl) as (st & Hin & Hst & Ha).
    exists st. do 2 (split; [done|]). apply inherits_admin_S; auto. }
  apply wp_bind, (wp_busy_Get rely guarantee organizations organizationKind R (fun r => let _ := HR r in _)); [done|].
  intros s2 [e|x] Hs2 Hrel2 _ Hsub2 Hr2.
  - assert (rely (now s) (now s2)) by by etrans.
    assert (moments s ⊆ moments s2) by set_solver.
    destruct (IsNotFound e) eqn:He; [apply wp_ret; done|apply wp_fail].
    do 3 (split; [done|]). intros HRr. by destruct Hr2 as [_ ?%(fun H => H HRr)].
  - eapply wp_mono; [by apply IH|]. intros r s3 (Hs3 & Hrel3 & Hsub3 & Hr3).
    split; [done|]. split; [by do 2 (etrans; [eassumption|])|]. split; [set_solver|].
    destruct r as [b|e|]; [|done|done]. intros Hb. destruct (Hr3 Hb) as (st & Hin & Hst & Ha).
    exists st. split; [done|]. split; [by do 2 (etrans; [eassumption|])|].
    apply inherits_admin_S; [done|]. right. simpl in Hr2.
    destruct (rely_lineage _ _ Hst _ _ Hr2) as (x' & Hx' & Hpar & _). exists x'. by rewrite Hpar.
Qed.

(** An ancestor that lists the user all along is found. *)
Lemma ancestorAdmin_loop_finds n u anc k org s :
  R -> (forall st st', rely st st' -> admin_of st u anc -> admin_of st' u anc) ->
  calm s -> k < n -> ancestor (now s) k org anc -> admin_of (now s) u anc ->
  wp (ancestorAdmin_loop (C := busyCluster) n u org) (fun r _ => r = Ret true) s.
Proof.
  intros HRr Hkeep. revert k org s. induction n as [|n IH]; intros k org s Hs Hk Hanc Hadm; [lia|]. simpl.
  rewrite decide_False by by inversion Hanc.
  apply wp_bind. eapply wp_mono; [by apply selfAdmin_justified|].
  intros r s1 [(Hs1 & Hrel1 & _ & Hr1) Hno]. destruct r as [[]|e|]; [by apply wp_ret| |by destruct (Hr1 HRr)|done].
  pose proof (ancestor_kept _ _ _ _ _ (rely_lineage _ _ Hrel1) Hanc) as Hanc1.
  specialize (Hkeep _ _ Hrel1 Hadm) as Hadm1.
  inversion Hanc1 as [|k' o x a Hne Hx Hup]; subst; [by destruct (Hno eq_refl HRr)|].
  apply wp_bind, (wp_busy_Get rely guarantee organizations organizationKind R (fun r => let _ := HR r in _)); [done|].
  intros s2 r Hs2 Hrel2 _ _ Hr2.
  destruct (rely_lineage _ _ Hrel2 _ _ Hx) as (x2 & Hx2 & Hpar & _).
  destruct r as [e|y]; simpl in Hr2.
  { destruct Hr2 as [Hnf HRnf]. rewrite Hnf in Hx2 by auto. done. }
  rewrite Hr2 in Hx2. injection Hx2 as ->.
  apply (IH k'); [done|lia| |by eapply Hkeep].
  rewrite Hpar. by eapply ancestor_kept; [apply rely_lineage|].
Qed.

(** The walk to the root, in the hierarchy as it is when the walk ends. *)
Lemma computeRootWalk_loop_interleaved n o cur s :
  calm s ->
  wp (computeRootWalk_loop (C := busyCluster) n o cur)
     (fun r s' => calm s' /\ rely (now s) (now s') /\
        match r with
        | Ret root => exists k, k < n /\ root_of (now s') k cur root
        | Err _ => R -> forall k root, k < n -> ~ root_of (now s) k cur root
        | Panic => False
        end) s.
Proof.
  revert cur s. induction n as [|n IH]; intros cur s Hs; simpl.
  { apply wp_fail. do 2 (split; [done|]). lia. }
  case_decide as Hroot.
  { apply wp_ret. do 2 (split; [done|]). exists 0. split; [lia|by constructor]. }
  apply wp_bind, (wp_busy_Get rely guarantee organizations organizationKind R (fun r => let _ := HR r in _)); [done|].
  intros s1 [e|p] Hs1 Hrel1 _ _ Hr1; simpl in Hr1.
  - apply wp_fail. do 2 (split; [done|]). intros HRr [|k] root Hk; [by rewrite root_of_0; intros [? _]|].
    rewrite root_of_S. intros (_ & p & Hp & _). destruct (rely_lineage _ _ Hrel1 _ _ Hp) as (p' & Hp' & _).
    destruct Hr1 as [Hnf HRnf]. rewrite Hnf in Hp' by auto. done.
  - eapply wp_mono; [by apply IH|]. intros r s2 (Hs2 & Hrel2 & Hr2).
    split; [done|]. split; [by etrans|]. destruct r as [root|e|]; [| |done].
    + destruct Hr2 as (k & Hk & Hroot2). exists (S k). split; [lia|].
      destruct (rely_lineage _ _ Hrel2 _ _ Hr1) as (p2 & Hp2 & Hpar & Hname).
      eapply root_above; [done|done|].
      by eapply (root_of_kept _ _ _ p); [reflexivity|..].
    + intros HRr [|k] root Hk; [by rewrite root_of_0; intros [? _]|].
      rewrite root_of_S. intros (_ & p0 & Hp0 & Hk0). apply (Hr2 HRr k root); [lia|].
      destruct (rely_lineage _ _ Hrel1 _ _ Hp0) as (p' & Hp' & Hpar & Hname).
      rewrite Hr1 in Hp'. injection Hp' as <-.
      eapply root_of_kept; [by apply rely_lineage|done|done|done].
Qed.

Lemma computeRoot_interleaved (rr : Request Busy Organization unit) :
  calm (Client rr) ->
  wp (computeRoot (C := busyCluster))
     (fun r rr' => calm (Client rr') /\
        rely (now (Client rr)) (now (Client rr')) /\
        match r with
        | Ret _ => exists k root, k < 3 /\
            root_of (now (Client rr')) k (Instance_ rr) root /\
            Instance_ rr' = withRoot (Instance_ rr) root
        | Err _ => R -> forall root, ~ has_root (now (Client rr)) (Instance_ rr) root
        | Panic => False
        end) rr.
Proof.
  intros Hs. unfold computeRoot. apply wp_bind, (wp_instance (C := busyCluster)), wp_bind, wp_wrapErr.
  apply (wp_onClient (C := busyCluster)).
  eapply wp_mono; [by apply computeRootWalk_loop_interleaved|].
  intros [root|e|] s1 (Hs1 & Hrel & Hr); [| |done].
  - destruct Hr as (k & Hk & Hroot). case_decide as Hsame; [apply (wp_setInstance (C := busyCluster))|apply wp_ret];
      (do 2 (split; [done|])); exists k, root; (do 2 (split; [done|])); [done|].
    by rewrite <- Hsame, withRoot_self.
  - do 2 (split; [done|]). intros HRr root' (k & Hk & Hroot). by eapply Hr.
Qed.
End reading.

Section authority.
  Context `{P : Platform} `{C : !Cluster} `{L : !LawfulCluster C}.

(** C2: an authorization check reads one object after the other, while others may change
    everything but the lineages.  It writes nothing; a request it admits was entitled in
    the store one of its reads found; and a user whom one ancestor lists all along is
    admitted, so the answer is always that of a single moment of the check. *)
Theorem authorization_linearizable a ctx org action s :
  others_keep lineage_kept s -> calls s = [] ->
  let m := requireAncestorAdmin (C := busyCluster) a ctx org action in
  let s' := snd (m s) in
  Forall (fun c => fst c = snd c) (calls s') /\
  (admits (C := busyCluster) m s ->
     exists u, userFrom ctx u /\
       (isTrusted a u = true \/
        exists st, st ∈ moments s' /\ inherits_admin 3 st u org)) /\
  (ReliableReads C -> forall u n anc,
     userFrom ctx u -> n < 3 -> ancestor (now s) n org anc -> admin_of (now s) u anc ->
     others_keep (fun st st' => admin_of st u anc -> admin_of st' u anc) s ->
     admits (C := busyCluster) m s).
Proof.
  intros Hq Hc m s'. subst m s'. unfold admits, requireAncestorAdmin, bind, lift, userFromContext, userFrom.
  destruct (RequestFromContext ctx) as [e|u]; simpl; [rewrite Hc; naive_solver|].
  destruct (isTrusted a u) eqn:Ht; simpl; [rewrite Hc; naive_solver|].
  pose proof (ancestorAdmin_loop_justified False (False_rect _) lineage_kept (fun _ _ H => H) eq
    maxAncestorWalk u org s (calm_start _ _ _ Hq Hc)) as Hj.
  unfold wp in Hj. unfold ancestorAdmin.
  destruct (ancestorAdmin_loop (C := busyCluster) maxAncestorWalk u org s) as [r s'] eqn:Hrun; simpl in Hj.
  destruct Hj as ([_ Hcalls] & _ & _ & Hr). split; [by destruct r as [[]| |]|]. split.
  { intros Had. exists u. split; [done|]. right. destruct r as [[]|e|]; [|done..].
    destruct (Hr eq_refl) as (st & Hin & _ & Ha). by exists st. }
  intros HRel u0 n anc [= <-] Hn Hanc Hadm Hkeep.
  pose (rely := fun st st' => lineage_kept st st' /\ (admin_of st u anc -> admin_of st' u anc)).
  assert (PreOrder rely) by (split; [by split|intros ??? [??] [??]; split; [by etrans|auto]]).
  pose proof (ancestorAdmin_loop_finds True (fun _ => HRel) rely (fun _ _ H => proj1 H) eq maxAncestorWalk u anc n org s
    I (fun _ _ H => proj2 H)) as Hf.
  unfold wp in Hf. rewrite Hrun in Hf. simpl in Hf. rewrite Hf; try done.
  apply calm_start; [|done]. unfold others_keep, rely in *. rewrite !Forall_forall in *. by eauto.
Qed.

End authority.

(* ------------------------------------------------------------------ *)
(** ** The organization controller among others *)

Section organization.
  Context `{P : Platform} `{C : !Cluster} `{L : !LawfulCluster C} `{PL : !PlatformLaws P}.
  Context `{F : !@Framework P busyCluster} `{!FrameworkLaws F}.
  Implicit Types rr : Request Busy Organization unit.

(** A call of the controller: the restrictive profile of an organization that has none. *)
Definition provisions (name : string) (st st' : Store) : Prop :=
  st' = st \/
  s_profiles st !! name = None /\
  exists o p, Name (organization_meta o) = name /\ restrictive_for o p /\
    st' = stored profileKind name p st.

#[local] Instance provisions_refl name : Reflexive (provisions name).
Proof. by left. Qed.

Lemma lineage_kept_provisions st st1 st' name :
  lineage_kept st st1 -> provisions name st1 st' -> lineage_kept st st'.
Proof. by intros H [->|(_ & o & p & _ & _ & ->)]. Qed.

Lemma ensureProfile_interleaved (R : Prop) (HR : R -> ReliableReads C) rr o :
  let name := Name (organization_meta o) in
  Instance_ rr = o ->
  calm lineage_kept (provisions name) (Client rr) ->
  wp (ensureProfile (C := busyCluster))
     (fun r rr' => calm lineage_kept (provisions name) (Client rr') /\
        lineage_kept (now (Client rr)) (now (Client rr')) /\ Instance_ rr' = o /\
        match r with
        | Ret _ => is_Some (s_profiles (now (Client rr')) !! name)
        | Err _ => R -> exists st, st ∈ moments (Client rr') /\ s_profiles st !! name = None
        | Panic => False
        end) rr.
Proof.
  intros name <- Hs. unfold ensureProfile. apply wp_bind, (wp_instance (C := busyCluster)), wp_bind.
  apply (wp_onClient (C := busyCluster)).
  apply (wp_busy_Get lineage_kept (provisions name) profiles profileKind R (fun r => let _ := HR r in _)); [done|].
  intros s1 [e|p] Hs1 Hrel1 Hin1 _ Hr1; simpl in Hr1;
    [|apply wp_ret; simpl; fold name in Hr1; rewrite Hr1; eauto].
  destruct Hr1 as [Hnf HRnf]. destruct (IsNotFound e) eqn:He; simpl.
  2:{ apply wp_fail. do 3 (split; [done|]). intros HRr. by specialize (HRnf HRr). }
  assert (exists st, st ∈ moments s1 /\ s_profiles st !! name = None) as Habsent by eauto.
  destruct (SetControllerReference _ _) as [e'|meta] eqn:Hset; [by apply wp_fail|].
  assert (Name meta = name) as Hname by (apply SetControllerReference_ok in Hset as [_ ->]; done).
  apply wp_bind, (wp_onClient (C := busyCluster)).
  apply (wp_busy_Create lineage_kept (provisions name) profiles profileKind); [done|..]; simpl; rewrite ?Hname.
  - intros st p _ Hnone Hsame. right. split; [done|]. exists (Instance_ rr), p.
    split; [done|]. split; [by eapply defaultProfile_restrictive|done].
  - intros s2 p st Hs2 Hst _ _ Hnow. apply wp_ret. simpl. split; [done|]. rewrite Hnow.
    split; [by etrans|]. split; [done|]. simpl. rewrite lookup_insert_eq. eauto.
  - intros s2 e2 Hs2 Hrel2 Hsub2. apply wp_fail. simpl. split; [done|]. split; [by etrans|].
    split; [done|]. intros _. destruct Habsent as (st & Hin & Hst). exists st. split; [by apply Hsub2|done].
Qed.

(** C12: a whole reconciliation of an organization, while others change anything but
    lineages.  Each of its calls writes nothing or creates the restrictive profile where
    there was none: it never overwrites a profile.  If it returns, the recorded root is
    that of the lineage as it stands at the end, and the profile is there; with reliable
    reads it fails only without a root within the depth limit, or when a profile found
    missing could not be created. *)
Theorem organization_under_interference rr :
  others_keep lineage_kept (Client rr) -> calls (Client rr) = [] ->
  let name := Name (organization_meta (Instance_ rr)) in
  let (r, rr') := runActions (C := busyCluster) (rc_Actions NewOrganizationReconciler) rr in
  Forall (fun c => provisions name (fst c) (snd c)) (calls (Client rr')) /\
  match r with
  | Ret _ => is_Some (s_profiles (now (Client rr')) !! name) /\
      exists root, has_root (now (Client rr')) (Instance_ rr) root /\
        Instance_ rr' = withRoot (Instance_ rr) root
  | Err _ => ReliableReads C ->
      (forall root, ~ has_root (now (Client rr)) (Instance_ rr) root) \/
      exists st, st ∈ moments (Client rr') /\ s_profiles st !! name = None
  | Panic => False
  end.
Proof.
  intros Hq Hc name.
  enough (wp (runActions (C := busyCluster) (rc_Actions NewOrganizationReconciler)) (fun r rr' =>
    calm lineage_kept (provisions name) (Client rr') /\
    match r with
    | Ret _ => is_Some (s_profiles (now (Client rr')) !! name) /\
        exists root, has_root (now (Client rr')) (Instance_ rr) root /\
          Instance_ rr' = withRoot (Instance_ rr) root
    | Err _ => ReliableReads C ->
        (forall root, ~ has_root (now (Client rr)) (Instance_ rr) root) \/
        exists st, st ∈ moments (Client rr') /\ s_profiles st !! name = None
    | Panic => False
    end) rr) as H.
  { unfold wp in H. destruct (runActions (C := busyCluster) _ rr) as [r rr']. destruct H as [[_ ?] ?]. done. }
  simpl. apply (wp_runActions_cons (C := busyCluster)).
  eapply wp_mono; [apply (computeRoot_interleaved (ReliableReads C) id lineage_kept (fun _ _ H => H) (provisions name));
    by apply calm_start|].
  intros [[]|e|] rr1 (Hs1 & Hrel1 & Hr1); [|by eauto|done].
  destruct Hr1 as (k & root & Hk & Hroot & Hi1).
  apply (wp_runActions_cons (C := busyCluster)).
  eapply wp_mono; [by apply (ensureProfile_interleaved (ReliableReads C) id _ _ Hi1)|].
  intros [[]|e|] rr2 (Hs2 & Hrel2 & Hi2 & Hr2); [|by eauto|done].
  apply (wp_runActions_nil (C := busyCluster)). split; [done|]. split; [done|].
  exists root. split; [|done]. exists k. split; [done|].
  by eapply root_of_kept; [exact Hrel2|exact Hroot|..].
Qed.
End organization.

(* ------------------------------------------------------------------ *)
(** ** Runs *)

Section runs.
Import FakeInstances Scenario.

(** Meanwhile the profile of genomics is deleted, and later that of proteomics. *)
Definition dropProfile (name : string) (w : FakeWorld) : FakeWorld :=
  withStore w (kput profileKind (delete name (s_profiles (fw_store w))) (fw_store w)).

Definition busyDemo : Busy :=
  {| real := demo; moves := [dropProfile "genomics"; dropProfile "proteomics"]; calls := [] |}.

Lemma busyDemo_keeps : others_keep lineage_kept busyDemo.
Proof. do 2 (apply Forall_cons; split; [intros w k o Ho; by exists o|]). by apply Forall_nil. Qed.

Lemma dropProfile_admin name other u w :
  other <> name -> admin_of (view w) u other -> admin_of (view (dropProfile name w)) u other.
Proof.
  intros Hne (p & s & Hp & Hs). exists p, s. split; [|done]. simpl. by rewrite lookup_delete_ne.
Qed.

(** alice, whom research lists all along, is admitted for genomics. *)
Lemma authorization_linearizable_witness :
  admits (C := busyCluster) (requireAncestorAdmin (C := busyCluster) demoAuthz (ctx alice) "genomics" act) busyDemo.
Proof.
  destruct (authorization_linearizable demoAuthz (ctx alice) "genomics" act busyDemo busyDemo_keeps eq_refl)
    as (_ & _ & H).
  apply (H _ alice 1 "research"); [reflexivity|lia| | |].
  - eapply ancestor_parent; [discriminate|apply demo_organization; auto|]. by apply ancestor_self.
  - exists (profileWith "research" (Some [userSubject "alice"]) 0), (userSubject "alice").
    split; [apply demo_profile; auto|]. split; [left|reflexivity].
  - do 2 (apply Forall_cons; split; [intros w; by apply dropProfile_admin|]). by apply Forall_nil.
Defined.

#[local] Existing Instance sequentialFramework.
#[local] Existing Instance sequentialFramework_laws.

(** The leaf's lineage is found, and the profile deleted in between is created again. *)
Lemma organization_under_interference_witness :
  let o := org "proteomics" "genomics" "" in
  let rr : Request Busy Organization unit :=
    {| Client := busyDemo; Instance_ := o; Conditions := []; Extensions := None |} in
  exists rr' root,
    runActions (C := busyCluster) (rc_Actions (C := busyCluster) NewOrganizationReconciler) rr = (Ret tt, rr') /\
    is_Some (s_profiles (now (Client rr')) !! "proteomics") /\ Instance_ rr' = withRoot o root.
Proof.
  intros o rr. pose proof (organization_under_interference rr busyDemo_keeps eq_refl) as H.
  destruct (runActions (C := busyCluster) _ rr) as [[[]|e|] rr'] eqn:Hrun;
    [|apply (f_equal (fun x => is_ret (fst x))) in Hrun; vm_compute in Hrun; discriminate..].
  destruct H as (_ & Hp & root & _ & Hroot). exists rr', root. done.
Defined.
End runs.
