(* ===== verification/ProjectCtl.v ===== *)
(** The OrganizationProject controller (internal/controller/organizationproject):
    the shared reconciliation state, the owning organization, the effective
    isolation preset, the project namespace and its role bindings.  The network
    policies are in NetPol.v. *)

From stdpp Require Import gmap strings list.
From Stdlib Require Import ZArith.
From S2P Require Import Prelude Platform Api Cluster Framework OrganizationCtl.

Local Open Scope string_scope.

Definition labelOrganization : string := "organization.opendatahub.io/name".
Definition labelOrganizationRoot : string := "organization.opendatahub.io/root".
Definition reconciliationStateKey : string := "organization.opendatahub.io/organizationproject-state".

(** rbacv1.GroupName *)
Definition rbacGroupName : string := "rbac.authorization.k8s.io".

Section controller.
  Context `{P : Platform} `{C : !Cluster}.

Record reconciliationState := {
  st_organization : option Organization;
  st_namespace : option Namespaced;
  st_isolation : string;
}.

(** The dynamic type of a value in rr.Extensions: a pointer to a reconciliationState,
    or something else.  The pointer is shared through the map only, so a write
    through it is a write of the map entry. *)
Inductive Extension := XState (s : reconciliationState) | XOther.

Abbreviation RR := (ReconciliationRequest OrganizationProject Extension).
Abbreviation ProjectAction := (GoM RR error unit).

Definition zeroState : reconciliationState :=
  {| st_organization := None; st_namespace := None; st_isolation := "" |}.

Definition writeState (rr : RR) (s : reconciliationState) : RR :=
  withExtensions rr (Some (<[reconciliationStateKey := XState s]> (default ∅ (Extensions rr)))).

Definition stateFor : GoM RR error reconciliationState :=
  fun rr =>
    let rr := match Extensions rr with
              | None => withExtensions rr (Some ∅)
              | Some _ => rr
              end in
    match map_index (Extensions rr) reconciliationStateKey with
    | Some (XState state) => (Ret state, rr)
    | _ => (Ret zeroState, writeState rr zeroState)
    end.

(** [stateFor(rr).field = v] *)
Definition updateState (f : reconciliationState -> reconciliationState) : ProjectAction :=
  let* state := stateFor in
  fun rr => (Ret tt, writeState rr (f state)).

Definition withOrganization (o : Organization) (s : reconciliationState) : reconciliationState :=
  {| st_organization := Some o; st_namespace := st_namespace s; st_isolation := st_isolation s |}.
Definition withNamespace (n : Namespaced) (s : reconciliationState) : reconciliationState :=
  {| st_organization := st_organization s; st_namespace := Some n; st_isolation := st_isolation s |}.
Definition withIsolation (i : string) (s : reconciliationState) : reconciliationState :=
  {| st_organization := st_organization s; st_namespace := st_namespace s; st_isolation := i |}.

(** *** organizationproject_controller_actions.go *)

Definition validateParentOrganization : ProjectAction :=
  let* project := instance in
  let* r := onClient (call (Get organizations (projectOrg project))) in
  match r with
  | inl err => fail (ErrorfW (Sprintf "failed to get organization: %w" []) (ELib err))
  | inr organization =>
      if decide (Root (organization_Status organization) = "") then
        fail (StopError (Sprintf "organization %q not yet reconciled (missing root)"
                           [OStr (projectOrg project)]) 10)
      else updateState (withOrganization organization)
  end.

Definition effectiveIsolation (project : OrganizationProject) : GoM world error string :=
  if decide (NetworkIsolation (project_Spec project) <> "") then
    ret (NetworkIsolation (project_Spec project))
  else
    let* r := call (Get profiles (projectOrg project)) in
    match r with
    | inr profile =>
        if decide (default_NetworkIsolation (Defaults (profile_Spec profile)) <> "") then
          ret (default_NetworkIsolation (Defaults (profile_Spec profile)))
        else ret "tenant"
    | inl _ => ret "tenant"
    end.

Definition computeEffectiveIsolation : ProjectAction :=
  let* project := instance in
  let* isolation := onClient (effectiveIsolation project) in
  updateState (withIsolation isolation).

(** *** organizationproject_controller_namespace.go *)

Definition projectOwner (p : OrganizationProject) : Owner :=
  {| own_gvk := apiKind "OrganizationProject"; own_meta := project_meta p |}.

(** The callback of CreateOrUpdate in ensureNamespace. *)
Definition mutateNamespace (project : OrganizationProject) (organization : Organization)
    (ns : Namespaced) : outcome error Namespaced :=
  let labels := match Labels (ns_meta ns) with None => Some ∅ | l => l end in
  let? labels := map_assign labels labelOrganization (projectOrg project) in
  let? labels := map_assign labels labelOrganizationRoot (Root (organization_Status organization)) in
  let? meta := libErr (SetControllerReference (projectOwner project) (setLabels (ns_meta ns) labels)) in
  Ret {| ns_meta := meta |}.

Definition withStatusNamespace (p : OrganizationProject) (ns : string) : OrganizationProject :=
  {| project_meta := project_meta p; project_Spec := project_Spec p;
     project_Status := {| project_apiStatus := project_apiStatus (project_Status p);
                          status_Namespace := ns |} |}.

Definition ensureNamespace : ProjectAction :=
  let* project := instance in
  let* state := stateFor in
  match st_organization state with
  | None => fail (Errorf (Sprintf "organization not found in reconciliation state" []))
  | Some organization =>
      let nsName := Name (project_meta project) in
      let* ns := onClient (CreateOrUpdate namespaces {| ns_meta := namedMeta "" nsName |}
                             (mutateNamespace project organization)) in
      updateState (withNamespace ns) ;;;
      if decide (status_Namespace (project_Status project) <> nsName)
      then setInstance (withStatusNamespace project nsName)
      else ret tt
  end.

(** *** organizationproject_controller_rbac.go *)

(** The loop of subjectsForRole; appending to the nil slice allocates one. *)
Fixpoint subjectsForRole_loop (users : list ProjectUser) (role : string)
    (subjects : slice RBACSubject) : slice RBACSubject :=
  match users with
  | [] => subjects
  | u :: users' =>
      if decide (pu_Role u <> role) then subjectsForRole_loop users' role subjects
      else
        let s := if decide (pu_Kind u = "ServiceAccount")
                 then {| rs_Kind := pu_Kind u; rs_APIGroup := ""; rs_Name := pu_Name u;
                         rs_Namespace := pu_Namespace u |}
                 else {| rs_Kind := pu_Kind u; rs_APIGroup := rbacGroupName; rs_Name := pu_Name u;
                         rs_Namespace := "" |} in
        subjectsForRole_loop users' role (Some (elems subjects ++ [s])%list)
  end.

Definition subjectsForRole (users : slice ProjectUser) (role : string) : slice RBACSubject :=
  subjectsForRole_loop (elems users) role None.

Definition namespaceOwner (ns : Namespaced) : Owner :=
  {| own_gvk := {| gvk_Group := ""; gvk_Version := "v1"; gvk_Kind := "Namespace" |};
     own_meta := ns_meta ns |}.

Definition bindingMeta (nsName role : string) : ObjectMeta := namedMeta nsName ("tenant-" +:+ role).

(** The callback of CreateOrUpdate in ensureRBAC. *)
Definition mutateBinding (ns : Namespaced) (role : string) (subjects : slice RBACSubject)
    (rb : RoleBinding) : outcome error RoleBinding :=
  let? meta := libErr (SetControllerReference (namespaceOwner ns) (rb_meta rb)) in
  Ret {| rb_meta := meta;
         rb_RoleRef := {| rr_APIGroup := rbacGroupName; rr_Kind := "ClusterRole"; rr_Name := role |};
         rb_Subjects := subjects |}.

(** The body of the loop over the roles. *)
Definition ensureBinding (project : OrganizationProject) (ns : Namespaced) (role : string)
    : ProjectAction :=
  let subjects := subjectsForRole (Users (project_Spec project)) role in
  let rb := {| rb_meta := bindingMeta (Name (ns_meta ns)) role;
               rb_RoleRef := {| rr_APIGroup := ""; rr_Kind := ""; rr_Name := "" |};
               rb_Subjects := None |} in
  if decide (length (elems subjects) = 0) then
    let* err := onClient (call (Delete rolebindings rb)) in
    match IgnoreNotFound err with
    | Some e => fail (ELib e)
    | None => ret tt
    end
  else
    onClient (CreateOrUpdate rolebindings rb (mutateBinding ns role subjects)) ;;; ret tt.

Definition ensureRBAC : ProjectAction :=
  let* project := instance in
  let* state := stateFor in
  match st_namespace state with
  | None => fail (Errorf (Sprintf "namespace not found in reconciliation state" []))
  | Some ns => range ["edit"; "view"] (ensureBinding project ns)
  end.
End controller.

(* ------------------------------------------------------------------ *)
(** ** The shared state *)

Section state_rules.
  Context `{P : Platform} `{C : !Cluster}.
  Abbreviation RR := (ReconciliationRequest OrganizationProject Extension).
  Implicit Types rr : RR.

(** The state that stateFor finds in a request. *)
Definition stateIn (rr : RR) : reconciliationState :=
  match map_index (Extensions rr) reconciliationStateKey with
  | Some (XState s) => s
  | _ => zeroState
  end.

(** Two requests that differ in the shared state only. *)
Definition same_request (rr rr' : RR) : Prop :=
  Client rr' = Client rr /\ Instance_ rr' = Instance_ rr /\ Conditions rr' = Conditions rr.

Lemma stateIn_write rr s : stateIn (writeState rr s) = s.
Proof. unfold stateIn, writeState. simpl. by rewrite lookup_insert_eq. Qed.

Lemma wp_stateFor (Q : outcome error reconciliationState -> RR -> Prop) rr :
  (forall rr', same_request rr rr' -> stateIn rr' = stateIn rr -> Q (Ret (stateIn rr)) rr') ->
  wp stateFor Q rr.
Proof.
  intros HQ. unfold wp, stateFor.
  destruct (Extensions rr) as [m|] eqn:He; simpl; [rewrite He; simpl|].
  - destruct (m !! reconciliationStateKey) as [[s|]|] eqn:Hm; simpl.
    + assert (stateIn rr = s) as <- by (unfold stateIn; by rewrite He; simpl; rewrite Hm).
      by apply HQ.
    + assert (stateIn rr = zeroState) as Hz by (unfold stateIn; by rewrite He; simpl; rewrite Hm).
      rewrite Hz in HQ. apply HQ; [done|]. unfold stateIn; simpl; by rewrite lookup_insert_eq.
    + assert (stateIn rr = zeroState) as Hz by (unfold stateIn; by rewrite He; simpl; rewrite Hm).
      rewrite Hz in HQ. apply HQ; [done|]. unfold stateIn; simpl; by rewrite lookup_insert_eq.
  - assert (stateIn rr = zeroState) as Hz by (unfold stateIn; by rewrite He).
    rewrite lookup_empty. simpl. rewrite Hz in HQ. apply HQ; [done|]. unfold stateIn; simpl; by rewrite lookup_insert_eq.
Qed.

Lemma wp_updateState f (Q : outcome error unit -> RR -> Prop) rr :
  (forall rr', same_request rr rr' -> stateIn rr' = f (stateIn rr) -> Q (Ret tt) rr') ->
  wp (updateState f) Q rr.
Proof.
  intros HQ. unfold updateState. apply wp_bind, wp_stateFor.
  intros rr' Hsame Hst. apply (HQ (writeState rr' (f (stateIn rr)))); [done|apply stateIn_write].
Qed.
End state_rules.

(* ------------------------------------------------------------------ *)
(** ** Subjects of a role *)

Section subjects.
  Context `{P : Platform}.

(** The RBAC subject of a project user. *)
Definition subjectOf (u : ProjectUser) : RBACSubject :=
  if decide (pu_Kind u = "ServiceAccount")
  then {| rs_Kind := "ServiceAccount"; rs_APIGroup := ""; rs_Name := pu_Name u;
          rs_Namespace := pu_Namespace u |}
  else {| rs_Kind := pu_Kind u; rs_APIGroup := rbacGroupName; rs_Name := pu_Name u;
          rs_Namespace := "" |}.

Lemma subjectsForRole_loop_spec users role acc :
  subjectsForRole_loop users role acc =
  match map subjectOf (filter (fun u => pu_Role u = role) users) with
  | [] => acc
  | ss => Some (elems acc ++ ss)%list
  end.
Proof.
  revert acc. induction users as [|u users IH]; intros acc; simpl; [done|].
  rewrite filter_cons. destruct (decide (pu_Role u <> role)) as [Hr|Hr].
  { rewrite decide_False by done. apply IH. }
  apply dec_stable in Hr. rewrite (decide_True (P := pu_Role u = role)) by done. rewrite IH. simpl.
  assert ((if decide (pu_Kind u = "ServiceAccount")
           then {| rs_Kind := pu_Kind u; rs_APIGroup := ""; rs_Name := pu_Name u;
                   rs_Namespace := pu_Namespace u |}
           else {| rs_Kind := pu_Kind u; rs_APIGroup := rbacGroupName; rs_Name := pu_Name u;
                   rs_Namespace := "" |}) = subjectOf u) as ->.
  { unfold subjectOf. case_decide as Hk; [by rewrite Hk|done]. }
  destruct (map subjectOf _); simpl; [done|]. by rewrite <- app_assoc.
Qed.

Lemma subjectsForRole_spec users role :
  subjectsForRole users role =
  match map subjectOf (filter (fun u => pu_Role u = role) (elems users)) with
  | [] => None
  | ss => Some ss
  end.
Proof. unfold subjectsForRole. rewrite subjectsForRole_loop_spec. by case_match. Qed.

(** The subjects are those of the users with the role, and there are none if no user has it. *)
Lemma subjectsForRole_exact users role s :
  s ∈ elems (subjectsForRole users role) <->
  exists u, u ∈ elems users /\ pu_Role u = role /\ s = subjectOf u.
Proof.
  rewrite subjectsForRole_spec.
  assert (s ∈ map subjectOf (filter (fun u => pu_Role u = role) (elems users)) <->
    exists u, u ∈ elems users /\ pu_Role u = role /\ s = subjectOf u) as <-.
  { rewrite list_elem_of_fmap. setoid_rewrite list_elem_of_filter. naive_solver. }
  by destruct (map subjectOf _).
Qed.

Lemma subjectsForRole_None users role :
  subjectsForRole users role = None <-> forall u, u ∈ elems users -> pu_Role u <> role.
Proof.
  rewrite subjectsForRole_spec.
  destruct (filter (fun u => pu_Role u = role) (elems users)) as [|u l] eqn:Hf; simpl; split; try done.
  - intros _ u Hu Hr. assert (u ∈ filter (fun u => pu_Role u = role) (elems users)) as Hin
      by by apply list_elem_of_filter.
    rewrite Hf in Hin. by apply elem_of_nil in Hin.
  - intros Hnone. assert (u ∈ filter (fun u => pu_Role u = role) (elems users)) as Hin
      by (rewrite Hf; left).
    apply list_elem_of_filter in Hin as [??]. by destruct (Hnone u).
Qed.
End subjects.
