(* ===== verification/NetPol.v ===== *)
(** Network policies of a project namespace
    (organizationproject_controller_netpol.go), and the registration of the
    OrganizationProject controller.

    [ingress_allowed] is the meaning of a set of NetworkPolicy objects that the
    Kubernetes documentation gives: a pod no policy selects accepts everything, a
    selected pod accepts what some rule of some policy that selects it allows. *)

From stdpp Require Import gmap strings list.
From Stdlib Require Import ZArith.
From S2P Require Import Prelude Platform Api Cluster Framework OrganizationCtl ProjectCtl.

Local Open Scope string_scope.

Definition npDenyIngress : string := "default-deny-ingress".
Definition npAllowOrganization : string := "allow-from-organization".
Definition npAllowSameNS : string := "allow-same-namespace".

Definition managedNetworkPolicies : list string := [npDenyIngress; npAllowOrganization; npAllowSameNS].

(** [metav1.LabelSelector{}] *)
Definition emptySelector : LabelSelector := {| MatchLabels := None |}.

Definition denyIngress (nsName : string) : NetworkPolicy :=
  {| np_meta := namedMeta nsName npDenyIngress;
     np_Spec := {| np_PodSelector := emptySelector;
                   PolicyTypes := [PolicyTypeIngress];
                   Ingress := [] |} |}.

Definition allowFromOrganization (nsName organization : string) : NetworkPolicy :=
  {| np_meta := namedMeta nsName npAllowOrganization;
     np_Spec := {| np_PodSelector := emptySelector;
                   PolicyTypes := [PolicyTypeIngress];
                   Ingress := [ {| np_From := [
                     {| PodSelector := None;
                        NamespaceSelector :=
                          Some {| MatchLabels := Some {[labelOrganization := organization]} |} |} ] |} ] |} |}.

Definition allowSameNamespace (nsName : string) : NetworkPolicy :=
  {| np_meta := namedMeta nsName npAllowSameNS;
     np_Spec := {| np_PodSelector := emptySelector;
                   PolicyTypes := [PolicyTypeIngress];
                   Ingress := [ {| np_From := [
                     {| PodSelector := Some emptySelector; NamespaceSelector := None |} ] |} ] |} |}.

Section controller.
  Context `{P : Platform} `{C : !Cluster}.
  Abbreviation RR := (ReconciliationRequest OrganizationProject Extension).
  Abbreviation ProjectAction := (GoM RR error unit).

Definition desiredNetworkPolicies (project : OrganizationProject) (nsName isolation : string)
    : list NetworkPolicy :=
  if decide (isolation = "none") then []
  else if decide (isolation = "strict") then [denyIngress nsName; allowSameNamespace nsName]
  else [denyIngress nsName; allowFromOrganization nsName (projectOrg project)].

(** The callback of CreateOrUpdate in ensureNetworkPolicies. *)
Definition mutatePolicy (ns : Namespaced) (spec : NetworkPolicySpec) (policy : NetworkPolicy)
    : outcome error NetworkPolicy :=
  let? meta := libErr (SetControllerReference (namespaceOwner ns) (np_meta policy)) in
  Ret {| np_meta := meta; np_Spec := spec |}.

(** The zero value of networkingv1.NetworkPolicySpec. *)
Definition zeroPolicySpec : NetworkPolicySpec :=
  {| np_PodSelector := emptySelector; PolicyTypes := []; Ingress := [] |}.

(** The body of the loop over the desired policies. *)
Definition ensurePolicy (ns : Namespaced) (np : NetworkPolicy) : ProjectAction :=
  let nsName := Name (ns_meta ns) in
  let npName := Name (np_meta np) in
  let apply_ : ProjectAction :=
    onClient (CreateOrUpdate networkpolicies
                {| np_meta := namedMeta nsName npName; np_Spec := zeroPolicySpec |}
                (mutatePolicy ns (np_Spec np))) ;;; ret tt in
  let* r := onClient (call (Get networkpolicies (nsName, npName))) in
  match r with
  | inr existing =>
      if negb (IsControlledBy (np_meta existing) (ns_meta ns)) then
        fail (Errorf (Sprintf "network policy %s/%s already exists and is not managed by this OrganizationProject"
                        [OStr nsName; OStr npName]))
      else apply_
  | inl err => if negb (IsNotFound err) then fail (ELib err) else apply_
  end.

(** The body of the loop over the managed names. *)
Definition removeStalePolicy (ns : Namespaced) (desired : list NetworkPolicy) (name : string)
    : ProjectAction :=
  let nsName := Name (ns_meta ns) in
  if decide (name ∈ map (fun np => Name (np_meta np)) desired) then ret tt
  else
    let* r := onClient (call (Get networkpolicies (nsName, name))) in
    match r with
    | inl err => if IsNotFound err then ret tt else fail (ELib err)
    | inr stale =>
        if negb (IsControlledBy (np_meta stale) (ns_meta ns)) then ret tt
        else
          let* err := onClient (call (Delete networkpolicies stale)) in
          match err with
          | Some err => if negb (IsNotFound err) then fail (ELib err) else ret tt
          | None => ret tt
          end
    end.

Definition ensureNetworkPolicies : ProjectAction :=
  let* project := instance in
  let* state := stateFor in
  match st_namespace state with
  | None => fail (Errorf (Sprintf "namespace not found in reconciliation state" []))
  | Some ns =>
      if decide (st_isolation state = "") then
        fail (Errorf (Sprintf "isolation not found in reconciliation state" []))
      else
        let desired := desiredNetworkPolicies project (Name (ns_meta ns)) (st_isolation state) in
        range desired (ensurePolicy ns) ;;;
        range managedNetworkPolicies (removeStalePolicy ns desired)
  end.

(** What NewOrganizationProjectReconciler registers. *)
Definition NewOrganizationProjectReconciler : ReconcilerConfig OrganizationProject Extension :=
  {| rc_For := "OrganizationProject";
     rc_Owns := ["Namespace"];
     rc_WatchesGVK := [];
     rc_FinalizerName := None;
     rc_Actions := [validateParentOrganization; computeEffectiveIsolation; ensureNamespace;
                    ensureRBAC; ensureNetworkPolicies];
     rc_Finalizers := [];
     rc_Dependents := [ProvisioningSucceeded] |}.

(** What NewOrganizationProfileReconciler registers: no action of its own. *)
Definition NewOrganizationProfileReconciler : ReconcilerConfig OrganizationProfile unit :=
  {| rc_For := "OrganizationProfile";
     rc_Owns := [];
     rc_WatchesGVK := [];
     rc_FinalizerName := None;
     rc_Actions := [];
     rc_Finalizers := [];
     rc_Dependents := [ProvisioningSucceeded] |}.
End controller.

(* ------------------------------------------------------------------ *)
(** ** The meaning of network policies *)

(** A pod: its namespace, that namespace's labels, and its own labels. *)
Record Pod := { pod_ns : string; pod_nsLabels : gmap string string; pod_labels : gmap string string }.

Definition selects (s : LabelSelector) (labels : gmap string string) : bool :=
  bool_decide (map_Forall (fun k v => labels !! k = Some v) (default ∅ (MatchLabels s))).

Definition peer_matches (policyNs : string) (peer : NetworkPolicyPeer) (src : Pod) : bool :=
  match NamespaceSelector peer, PodSelector peer with
  | Some n, Some p => selects n (pod_nsLabels src) && selects p (pod_labels src)
  | Some n, None => selects n (pod_nsLabels src)
  | None, Some p => bool_decide (pod_ns src = policyNs) && selects p (pod_labels src)
  | None, None => false
  end.

Definition rule_allows (policyNs : string) (r : NetworkPolicyIngressRule) (src : Pod) : bool :=
  match np_From r with
  | [] => true
  | peers => existsb (fun p => peer_matches policyNs p src) peers
  end.

Definition isolates (np : NetworkPolicy) (dst : Pod) : bool :=
  bool_decide (Namespace (np_meta np) = pod_ns dst) &&
  selects (np_PodSelector (np_Spec np)) (pod_labels dst) &&
  bool_decide (PolicyTypeIngress ∈ PolicyTypes (np_Spec np)).

Definition ingress_allowed (nps : list NetworkPolicy) (src dst : Pod) : bool :=
  let applying := List.filter (fun np => isolates np dst) nps in
  match applying with
  | [] => true
  | _ => existsb (fun np => existsb (fun r => rule_allows (Namespace (np_meta np)) r src)
                              (Ingress (np_Spec np))) applying
  end.

Lemma selects_empty labels : selects emptySelector labels = true.
Proof. apply bool_decide_eq_true. apply map_Forall_empty. Qed.

Lemma selects_singleton k v labels :
  selects {| MatchLabels := Some {[k := v]} |} labels = bool_decide (labels !! k = Some v).
Proof.
  apply bool_decide_ext. simpl. rewrite map_Forall_singleton. done.
Qed.

Lemma isolates_preset np dst :
  np_PodSelector (np_Spec np) = emptySelector -> PolicyTypes (np_Spec np) = [PolicyTypeIngress] ->
  isolates np dst = bool_decide (Namespace (np_meta np) = pod_ns dst).
Proof.
  intros Hs Ht. unfold isolates. rewrite Hs, Ht, selects_empty. by rewrite !andb_true_r.
Qed.

(** A pod is reachable if nothing isolates it or a rule of an isolating policy lets
    the source in. *)
Lemma ingress_allowed_spec nps src dst :
  ingress_allowed nps src dst = true <->
  (forall np, np ∈ nps -> isolates np dst = false) \/
  exists np, np ∈ nps /\ isolates np dst = true /\
    existsb (fun r => rule_allows (Namespace (np_meta np)) r src) (Ingress (np_Spec np)) = true.
Proof.
  unfold ingress_allowed.
  assert (forall np, np ∈ List.filter (fun np => isolates np dst) nps <->
                     np ∈ nps /\ isolates np dst = true) as Hf
    by (intros np; rewrite !list_elem_of_In; apply filter_In).
  destruct (List.filter _ nps) as [|np0 l] eqn:Hl.
  - split; [|done]. intros _. left. intros np Hnp. apply not_true_iff_false. intros Hi.
    by apply (not_elem_of_nil np), Hf.
  - rewrite <- Hl in *. rewrite existsb_exists. split.
    + intros (np & Hin & Hr). right. exists np. apply list_elem_of_In, Hf in Hin as [??]. done.
    + intros [Hnone|(np & Hin & Hi & Hr)].
      * assert (np0 ∈ nps /\ isolates np0 dst = true) as [Hin Hi] by (apply Hf; rewrite Hl; left).
        by rewrite Hnone in Hi.
      * exists np. split; [|done]. by apply list_elem_of_In, Hf.
Qed.

(** Which sources a set of desired policies lets into the namespace. *)
Definition sources_of_preset (isolation nsName organization : string) (src : Pod) : bool :=
  if decide (isolation = "none") then true
  else if decide (isolation = "strict") then bool_decide (pod_ns src = nsName)
  else bool_decide (pod_nsLabels src !! labelOrganization = Some organization).

Lemma desired_sources `{P : Platform} p nsName i src :
  sources_of_preset i nsName (projectOrg p) src = true <->
  desiredNetworkPolicies p nsName i = [] \/
  exists np, np ∈ desiredNetworkPolicies p nsName i /\
    existsb (fun r => rule_allows nsName r src) (Ingress (np_Spec np)) = true.
Proof.
  unfold sources_of_preset, desiredNetworkPolicies.
  destruct (decide (i = "none")); [|destruct (decide (i = "strict"))].
  - split; auto.
  - split.
    + intros Hs. right. exists (allowSameNamespace nsName). split; [set_solver|].
      simpl. unfold rule_allows, peer_matches. simpl. by rewrite Hs, selects_empty.
    + intros [|(np & Hnp & Hr)]; [done|]. rewrite !elem_of_cons in Hnp.
      destruct Hnp as [->|[->|[]%elem_of_nil]]; [done|].
      simpl in Hr. unfold rule_allows, peer_matches in Hr. simpl in Hr. rewrite selects_empty in Hr.
      by rewrite !orb_false_r, andb_true_r in Hr.
  - split.
    + intros Hs. right. exists (allowFromOrganization nsName (projectOrg p)). split; [set_solver|].
      simpl. unfold rule_allows, peer_matches. simpl. by rewrite selects_singleton, Hs.
    + intros [|(np & Hnp & Hr)]; [done|]. rewrite !elem_of_cons in Hnp.
      destruct Hnp as [->|[->|[]%elem_of_nil]]; [done|].
      simpl in Hr. unfold rule_allows, peer_matches in Hr. simpl in Hr.
      by rewrite selects_singleton, !orb_false_r in Hr.
Qed.

(** Every desired policy isolates every pod of its namespace. *)
Lemma desired_shape `{P : Platform} p nsName i np :
  np ∈ desiredNetworkPolicies p nsName i ->
  np_PodSelector (np_Spec np) = emptySelector /\ PolicyTypes (np_Spec np) = [PolicyTypeIngress].
Proof.
  unfold desiredNetworkPolicies. repeat case_decide; rewrite ?elem_of_cons, elem_of_nil; naive_solver.
Qed.
