(* ===== verification/ProjectSpecs.v ===== *)
(** What each action of the OrganizationProject controller does to the stored
    objects and to the shared state, and the pipeline of all five.

    The specifications hold for every lawful cluster; [R] marks what needs reads
    that fail only on absence. *)

From stdpp Require Import gmap strings list.
From Stdlib Require Import ZArith.
From S2P Require Import Prelude Platform Api Cluster Framework OrganizationCtl ProjectCtl NetPol.

Local Open Scope string_scope.

(* ------------------------------------------------------------------ *)
(** ** Stores and keys *)

Section stores.
  Context `{P : Platform} `{Countable K} {T : Type} (kd : Kind K T).

(** [st'] is [st] but for the objects of one kind, and of those only [k]. *)
Definition changes_only (k : K) (st st' : Store) : Prop :=
  st' = kput kd (ksel kd st') st /\
  forall k', k' <> k -> ksel kd st' !! k' = ksel kd st !! k'.
End stores.

Section project.
  Context `{P : Platform} `{C : !Cluster} `{L : !LawfulCluster C} `{PL : !PlatformLaws P}.
  Context (R : Prop) (HR : R -> ReliableReads C).
  Abbreviation RR := (ReconciliationRequest OrganizationProject Extension).
  Implicit Types rr : RR.

Definition storeOf (rr : RR) : Store := view (Client rr).

Lemma storeOf_same rr rr' : same_request rr rr' -> storeOf rr' = storeOf rr.
Proof. intros [Hc _]. unfold storeOf. by rewrite Hc. Qed.

(* ------------------------------------------------------------------ *)
(** ** The owning organization and the preset *)

Lemma validateParentOrganization_spec rr :
  wp validateParentOrganization
     (fun r rr' =>
        storeOf rr' = storeOf rr /\ Instance_ rr' = Instance_ rr /\
        match r with
        | Ret _ => exists o, s_organizations (storeOf rr) !! projectOrg (Instance_ rr) = Some o /\
                     Root (organization_Status o) <> "" /\
                     stateIn rr' = withOrganization o (stateIn rr)
        | Err (StopError _ d) =>
            d = 10%Z /\ stateIn rr' = stateIn rr /\
            exists o, s_organizations (storeOf rr) !! projectOrg (Instance_ rr) = Some o /\
              Root (organization_Status o) = ""
        | Err _ => stateIn rr' = stateIn rr /\
                   (R -> s_organizations (storeOf rr) !! projectOrg (Instance_ rr) = None)
        | Panic => False
        end) rr.
Proof.
  unfold validateParentOrganization, storeOf.
  apply wp_bind, wp_instance, wp_bind, wp_onClient.
  apply (wp_Get _ _ organizationKind R (fun r => let _ := HR r in _)); simpl.
  - intros o w Ho Hv. case_decide as Hroot.
    + apply wp_fail. simpl. split; [done|]. split; [done|]. split; [done|]. split; [done|eauto].
    + apply wp_updateState. intros rr' (Hc & Hi & _) Hst. rewrite Hc, Hi. simpl.
      split; [done|]. split; [done|]. exists o. done.
  - intros e w Hnf HRnf Hv. apply wp_fail. simpl. split; [done|]. split; [done|]. split; [done|auto].
Qed.

(** The documented fallback: the project's preset, the organization's default, "tenant". *)
Definition preset (st : Store) (p : OrganizationProject) : string :=
  if decide (NetworkIsolation (project_Spec p) <> "") then NetworkIsolation (project_Spec p)
  else match s_profiles st !! projectOrg p with
       | Some pr => if decide (default_NetworkIsolation (Defaults (profile_Spec pr)) <> "")
                    then default_NetworkIsolation (Defaults (profile_Spec pr)) else "tenant"
       | None => "tenant"
       end.

Lemma preset_nonempty st p : preset st p <> "".
Proof. unfold preset. repeat case_match; done. Qed.

(** A profile that cannot be read falls back to "tenant". *)
Lemma effectiveIsolation_spec p w :
  wp (effectiveIsolation p)
     (fun r w' => view w' = view w /\ exists i, r = Ret i /\
        (i = preset (view w) p \/ i = "tenant") /\ (R -> i = preset (view w) p) /\
        (NetworkIsolation (project_Spec p) <> "" -> i = NetworkIsolation (project_Spec p))) w.
Proof.
  unfold effectiveIsolation, preset. case_decide as Hown.
  { apply wp_ret. split; [done|]. eexists. split; [done|]. auto. }
  apply wp_bind, (wp_Get _ _ profileKind R (fun r => let _ := HR r in _)); simpl.
  - intros pr w' Hp Hv. rewrite Hp. case_decide; apply wp_ret; (split; [done|]); eexists; (split; [done|]);
      split_and!; auto; tauto.
  - intros e w' Hnf HRnf Hv. apply wp_ret. split; [done|]. eexists. split; [done|].
    split; [by right|]. split; [|tauto]. intros HRr. by rewrite Hnf by auto.
Qed.

Lemma computeEffectiveIsolation_spec rr :
  wp computeEffectiveIsolation
     (fun r rr' =>
        r = Ret tt /\ storeOf rr' = storeOf rr /\ Instance_ rr' = Instance_ rr /\
        exists i, stateIn rr' = withIsolation i (stateIn rr) /\
          (i = preset (storeOf rr) (Instance_ rr) \/ i = "tenant") /\
          (R -> i = preset (storeOf rr) (Instance_ rr)) /\
          (NetworkIsolation (project_Spec (Instance_ rr)) <> "" ->
           i = NetworkIsolation (project_Spec (Instance_ rr)))) rr.
Proof.
  unfold computeEffectiveIsolation. apply wp_bind, wp_instance, wp_bind, wp_onClient.
  eapply wp_mono; [apply effectiveIsolation_spec|]. intros r w (Hv & i & -> & Hi).
  apply wp_updateState. intros rr' (Hc & Hinst & _) Hst. unfold storeOf in *. rewrite Hc, Hinst.
  repeat split; [done|]. by exists i.
Qed.

(* ------------------------------------------------------------------ *)
(** ** The namespace *)

(** The namespace the controller leaves, in terms of the one it found.  The server's own
    label may be added. *)
Definition ns_provisioned (p : OrganizationProject) (root : string) (old ns : ObjectMeta) : Prop :=
  Name ns = Name old /\
  map_index (Labels ns) labelOrganization = Some (projectOrg p) /\
  map_index (Labels ns) labelOrganizationRoot = Some root /\
  (forall k, k <> labelOrganization -> k <> labelOrganizationRoot -> k <> namespaceNameLabel ->
     map_index (Labels ns) k = map_index (Labels old) k) /\
  Annotations ns = Annotations old /\ Finalizers ns = Finalizers old /\
  IsControlledBy ns (project_meta p) = true.

Lemma mutateNamespace_no_panic p o ns : mutateNamespace p o ns <> Panic.
Proof.
  unfold mutateNamespace. destruct (Labels (ns_meta ns)); simpl;
    destruct (SetControllerReference _ _); done.
Qed.

Lemma mutateNamespace_spec p o ns ns1 ns' :
  mutateNamespace p o ns = Ret ns1 -> same_namespace_meta (ns_meta ns1) (ns_meta ns') ->
  ns_provisioned p (Root (organization_Status o)) (ns_meta ns) (ns_meta ns').
Proof.
  unfold mutateNamespace. intros Hmut Hsame.
  set (ls := match Labels (ns_meta ns) with None => ∅ | Some m => m end).
  set (ls' := <[labelOrganizationRoot := Root (organization_Status o)]>
                (<[labelOrganization := projectOrg p]> ls)).
  assert (obind (libErr (SetControllerReference (projectOwner p) (setLabels (ns_meta ns) (Some ls'))))
            (fun meta => Ret {| ns_meta := meta |}) = Ret ns1) as Hset.
  { subst ls' ls. by destruct (Labels (ns_meta ns)). }
  clear Hmut. destruct (SetControllerReference _ _) as [e|meta] eqn:Href; [done|].
  simpl in Hset. injection Hset as <-. destruct Hsame as [Hsame Hl]. simpl in Hsame, Hl.
  apply SetControllerReference_ok in Href as [Hctl Hmeta]. simpl in Hctl. rewrite Hmeta in Hl. simpl in Hl.
  assert (forall k, k <> namespaceNameLabel -> map_index (Labels (ns_meta ns')) k = ls' !! k) as Hlab.
  { intros k Hk. destruct Hl as [-> | ->]; simpl; [done|]. by rewrite lookup_insert_ne. }
  unfold ns_provisioned. rewrite !Hlab by done. subst ls'.
  split; [by rewrite Hsame, Hmeta|]. split; [by rewrite lookup_insert_ne, lookup_insert_eq by done|].
  split; [by rewrite lookup_insert_eq|]. split.
  { intros k Hk1 Hk2 Hk3. rewrite Hlab, !lookup_insert_ne by done. subst ls.
    destruct (Labels (ns_meta ns)); simpl; [done|]. by rewrite lookup_empty. }
  split; [by rewrite Hsame, Hmeta|]. split; [by rewrite Hsame, Hmeta|].
  rewrite Hsame. change (IsControlledBy (setLabels (setUID meta (UID (ns_meta ns'))) (Labels (ns_meta ns')))
    (project_meta p) = true). rewrite (IsControlledBy_setLabels (setUID _ _)). by rewrite IsControlledBy_setUID.
Qed.

Definition namespaceBefore (st : Store) (p : OrganizationProject) : ObjectMeta :=
  match s_namespaces st !! Name (project_meta p) with
  | Some ns => ns_meta ns
  | None => namedMeta "" (Name (project_meta p))
  end.

Lemma ensureNamespace_spec rr o :
  st_organization (stateIn rr) = Some o ->
  wp ensureNamespace
     (fun r rr' =>
        match r with
        | Ret _ => exists ns,
            ns_provisioned (Instance_ rr) (Root (organization_Status o))
              (namespaceBefore (storeOf rr) (Instance_ rr)) (ns_meta ns) /\
            storeOf rr' = stored namespaceKind (Name (project_meta (Instance_ rr))) ns (storeOf rr) /\
            stateIn rr' = withNamespace ns (stateIn rr) /\
            Instance_ rr' = withStatusNamespace (Instance_ rr) (Name (project_meta (Instance_ rr)))
        | Err _ => storeOf rr' = storeOf rr /\ Instance_ rr' = Instance_ rr
        | Panic => False
        end) rr.
Proof.
  intros Ho. unfold ensureNamespace. apply wp_bind, wp_instance, wp_bind, wp_stateFor.
  intros rr1 (Hc1 & Hi1 & _) Hst1. rewrite Ho. apply wp_bind, wp_onClient.
  assert (storeOf rr1 = storeOf rr) as Hs1 by (unfold storeOf; by rewrite Hc1).
  apply (wp_CreateOrUpdate _ _ namespaceKind); simpl; change (view (Client rr1)) with (storeOf rr1);
    rewrite Hs1.
  - apply mutateNamespace_no_panic.
  - intros ns1 ns w Hmut Hsame Hv. apply wp_bind, wp_updateState.
    intros rr2 (Hc2 & Hi2 & _) Hst2.
    assert (ns_provisioned (Instance_ rr) (Root (organization_Status o))
              (namespaceBefore (storeOf rr) (Instance_ rr)) (ns_meta ns)) as Hns.
    { unfold namespaceBefore. eapply mutateNamespace_spec in Hmut; [|exact Hsame].
      by destruct (s_namespaces (storeOf rr) !! _). }
    assert (storeOf rr2 = stored namespaceKind (Name (project_meta (Instance_ rr))) ns (storeOf rr)) as Hs2
      by (unfold storeOf at 1; by rewrite Hc2).
    assert (stateIn rr2 = withNamespace ns (stateIn rr)) as Hst
      by (rewrite Hst2; unfold withClient, stateIn in *; simpl; by rewrite Hst1).
    simpl in Hi2. rewrite Hi1 in Hi2.
    case_decide as Hsn; [apply wp_setInstance|apply wp_ret]; exists ns.
    + split; [done|]. split; [done|]. split; [done|]. done.
    + split; [done|]. split; [done|]. split; [done|]. rewrite Hi2.
      destruct (Instance_ rr) as [pm ps []]. simpl in *. by rewrite <- Hsn.
  - intros e w Hv. unfold storeOf. simpl. by rewrite Hv, Hi1.
Qed.

(* ------------------------------------------------------------------ *)
(** ** Role bindings *)

Definition bindingKey (nsName role : string) : string * string := (nsName, "tenant-" +:+ role).

(** The binding of a role after the controller has passed: exactly the users with
    that role, or none (an object kept by a foreign finalizer apart). *)
Definition binding_state (nsm : ObjectMeta) (users : slice ProjectUser) (role : string)
    (st st' : Store) : Prop :=
  match subjectsForRole users role with
  | Some subjects => exists b, s_rolebindings st' !! bindingKey (Name nsm) role = Some b /\
      rb_Subjects b = Some subjects /\
      rb_RoleRef b = {| rr_APIGroup := rbacGroupName; rr_Kind := "ClusterRole"; rr_Name := role |} /\
      IsControlledBy (rb_meta b) nsm = true
  | None => forall b0, s_rolebindings st' !! bindingKey (Name nsm) role = Some b0 ->
      exists b1, s_rolebindings st !! bindingKey (Name nsm) role = Some b1 /\
        Finalizers (rb_meta b1) <> []
  end.

Definition binding_ensured (nsm : ObjectMeta) (users : slice ProjectUser) (role : string)
    (st st' : Store) : Prop :=
  changes_only rolebindingKind (bindingKey (Name nsm) role) st st' /\
  binding_state nsm users role st st'.

Lemma binding_state_ext nsm users role st1 st1' st2 st2' :
  s_rolebindings st2 !! bindingKey (Name nsm) role = s_rolebindings st1 !! bindingKey (Name nsm) role ->
  s_rolebindings st2' !! bindingKey (Name nsm) role = s_rolebindings st1' !! bindingKey (Name nsm) role ->
  binding_state nsm users role st1 st1' -> binding_state nsm users role st2 st2'.
Proof. unfold binding_state. by intros -> ->. Qed.

Lemma subjectsForRole_length users role :
  length (elems (subjectsForRole users role)) = 0 <-> subjectsForRole users role = None.
Proof. rewrite subjectsForRole_spec. by case_match. Qed.

Lemma kput_self_rolebinding st : st = kput rolebindingKind (ksel rolebindingKind st) st.
Proof. by destruct st. Qed.

Lemma ensureBinding_spec p ns role rr :
  wp (ensureBinding p ns role)
     (fun r rr' =>
        Instance_ rr' = Instance_ rr /\ stateIn rr' = stateIn rr /\
        match r with
        | Ret _ => binding_ensured (ns_meta ns) (Users (project_Spec p)) role (storeOf rr) (storeOf rr')
        | Err _ => storeOf rr' = storeOf rr
        | Panic => False
        end) rr.
Proof.
  unfold ensureBinding, binding_ensured, binding_state. case_decide as Hlen.
  - apply subjectsForRole_length in Hlen. rewrite Hlen. apply wp_bind, wp_onClient.
    apply (wp_Delete _ _ rolebindingKind); simpl; unfold storeOf.
    + intros b1 x w Hb1 Hv Hfin _. rewrite IgnoreNotFound_nil. apply wp_ret. simpl.
      split; [done|]. split; [done|]. rewrite Hv. split.
      { split; [done|]. intros k' Hk'. simpl. by rewrite lookup_partial_alter_ne. }
      intros b0. simpl. rewrite lookup_partial_alter_eq. intros ->.
      exists b1. split; [done|]. intros Hf. by specialize (Hfin Hf).
    + intros e w Hnf Hv. rewrite IgnoreNotFound_err. destruct (IsNotFound e).
      2:{ apply wp_fail. simpl. by rewrite Hv. }
      apply wp_ret. simpl. rewrite Hv. split; [done|]. split; [done|].
      split; [split; [apply kput_self_rolebinding|done]|].
      intros b0 Hb0. discriminate (eq_trans (eq_sym Hb0) (Hnf eq_refl)).
  - destruct (subjectsForRole _ role) as [subjects|] eqn:Hsub; [|done].
    apply wp_bind, wp_onClient.
    apply (wp_CreateOrUpdate _ _ rolebindingKind); simpl; unfold storeOf, mutateBinding.
    + by destruct (SetControllerReference _ _).
    + intros b1 b w Hmut (Hmeta & Href & Hsubj) Hv. apply wp_ret. simpl. rewrite Hv.
      split; [done|]. split; [done|].
      destruct (SetControllerReference _ _) as [e|meta] eqn:Hset; [done|].
      injection Hmut as <-. simpl in *. split.
      { split; [done|]. intros k' Hk'. simpl. by rewrite lookup_insert_ne. }
      exists b. rewrite lookup_insert_eq. split; [done|]. split; [done|]. split; [done|].
      apply SetControllerReference_ok in Hset as [Hctl _].
      unfold same_meta in Hmeta. by rewrite Hmeta, IsControlledBy_setUID.
    + intros e w Hv. simpl. by rewrite Hv.
Qed.

(** Both roles.  The two bindings have different names, so the second pass leaves
    the first binding alone. *)
Lemma ensureRBAC_spec rr ns :
  st_namespace (stateIn rr) = Some ns ->
  wp ensureRBAC
     (fun r rr' =>
        Instance_ rr' = Instance_ rr /\ stateIn rr' = stateIn rr /\
        match r with
        | Ret _ => exists st1,
            binding_ensured (ns_meta ns) (Users (project_Spec (Instance_ rr))) "edit" (storeOf rr) st1 /\
            binding_ensured (ns_meta ns) (Users (project_Spec (Instance_ rr))) "view" st1 (storeOf rr')
        | Err _ => storeOf rr' = storeOf rr \/
            binding_ensured (ns_meta ns) (Users (project_Spec (Instance_ rr))) "edit"
              (storeOf rr) (storeOf rr')
        | Panic => False
        end) rr.
Proof.
  intros Hns. unfold ensureRBAC. apply wp_bind, wp_instance, wp_bind, wp_stateFor.
  intros rr1 Hsame Hst1. rewrite Hns. pose proof (storeOf_same _ _ Hsame) as Hs1.
  destruct Hsame as (_ & Hi1 & _). simpl.
  apply wp_bind. eapply wp_mono; [apply ensureBinding_spec|].
  intros [[]|e|] rr2 (Hi2 & Hst2 & Hr2); rewrite ?Hi2, ?Hi1, ?Hst2, ?Hs1 in *; [| |done].
  - apply wp_bind. eapply wp_mono; [apply ensureBinding_spec|].
    intros [[]|e|] rr3 (Hi3 & Hst3 & Hr3); [| |done].
    + apply wp_ret. split; [congruence|]. split; [congruence|]. eauto.
    + split; [congruence|]. split; [congruence|]. rewrite Hr3. by right.
  - split; [done|]. split; [done|]. by left.
Qed.

End project.

(* ------------------------------------------------------------------ *)
(** ** Network policies *)

Section policies.
  Context `{P : Platform} `{C : !Cluster} `{L : !LawfulCluster C} `{PL : !PlatformLaws P}.
  Abbreviation RR := (ReconciliationRequest OrganizationProject Extension).
  Implicit Types rr : RR.

(** Stored policies are found under their own namespace and name. *)
Definition np_keyed (st : Store) : Prop :=
  forall k p, s_networkpolicies st !! k = Some p -> namespacedKey (np_meta p) = k.

(** The only policies of [st] that may change are managed names of the namespace,
    and of those only policies the namespace controls. *)
Record np_frame (nsm : ObjectMeta) (st st' : Store) : Prop := {
  npf_kind : st' = kput networkpolicyKind (s_networkpolicies st') st;
  npf_keyed : np_keyed st -> np_keyed st';
  npf_others k : (forall name, name ∈ managedNetworkPolicies -> k <> (Name nsm, name)) ->
    s_networkpolicies st' !! k = s_networkpolicies st !! k;
  npf_foreign k p : s_networkpolicies st !! k = Some p ->
    IsControlledBy (np_meta p) nsm = false -> s_networkpolicies st' !! k = Some p;
}.

Lemma np_frame_refl nsm st : np_frame nsm st st.
Proof. constructor; auto. by destruct st. Qed.

Lemma np_frame_trans nsm st1 st2 st3 :
  np_frame nsm st1 st2 -> np_frame nsm st2 st3 -> np_frame nsm st1 st3.
Proof.
  intros [H1 H2 H3 H4] [G1 G2 G3 G4]. constructor; auto.
  - destruct st1, st2, st3. simpl in *. congruence.
  - intros k Hk. by rewrite G3, H3.
Qed.

(** Writing a policy under a managed name of the namespace. *)
Lemma np_frame_store nsm st name x :
  name ∈ managedNetworkPolicies ->
  (forall p, x = Some p -> namespacedKey (np_meta p) = (Name nsm, name)) ->
  (forall p, s_networkpolicies st !! (Name nsm, name) = Some p -> IsControlledBy (np_meta p) nsm = true) ->
  np_frame nsm st
    (kput networkpolicyKind (partial_alter (fun _ => x) (Name nsm, name) (s_networkpolicies st)) st).
Proof.
  intros Hname Hx Hctl. constructor; simpl.
  - done.
  - intros Hk k p. simpl. destruct (decide (k = (Name nsm, name))) as [->|Hne].
    + rewrite lookup_partial_alter_eq. auto.
    + rewrite lookup_partial_alter_ne by done. apply Hk.
  - intros k Hk. rewrite lookup_partial_alter_ne; [done|]. intros <-. by apply (Hk name).
  - intros k p Hp Hf. rewrite lookup_partial_alter_ne; [done|]. intros <-.
    rewrite (Hctl p Hp) in Hf. done.
Qed.

(** A desired policy is in place: its spec, controlled by the namespace. *)
Definition policy_in_place (nsm : ObjectMeta) (np : NetworkPolicy) (st : Store) : Prop :=
  exists p, s_networkpolicies st !! (Name nsm, Name (np_meta np)) = Some p /\
    np_Spec p = np_Spec np /\ IsControlledBy (np_meta p) nsm = true.

(** The write of ensurePolicy, once the existing policy is known to be ours. *)
Lemma applyPolicy_spec ns np rr :
  Name (np_meta np) ∈ managedNetworkPolicies -> np_keyed (storeOf rr) ->
  (forall p, s_networkpolicies (storeOf rr) !! (Name (ns_meta ns), Name (np_meta np)) = Some p ->
     IsControlledBy (np_meta p) (ns_meta ns) = true) ->
  wp (onClient (CreateOrUpdate networkpolicies
        {| np_meta := namedMeta (Name (ns_meta ns)) (Name (np_meta np)); np_Spec := zeroPolicySpec |}
        (mutatePolicy ns (np_Spec np))) ;;; ret tt)
     (fun r rr' =>
        Instance_ rr' = Instance_ rr /\ stateIn rr' = stateIn rr /\
        match r with
        | Ret _ => np_frame (ns_meta ns) (storeOf rr) (storeOf rr') /\
            policy_in_place (ns_meta ns) np (storeOf rr') /\
            changes_only networkpolicyKind (Name (ns_meta ns), Name (np_meta np)) (storeOf rr) (storeOf rr')
        | Err _ => storeOf rr' = storeOf rr
        | Panic => False
        end) rr.
Proof.
  intros Hman Hkeyed Hctl. apply wp_bind, wp_onClient.
  apply (wp_CreateOrUpdate _ _ networkpolicyKind); simpl; unfold storeOf, mutatePolicy in *.
  - by destruct (SetControllerReference _ _).
  - intros p1 p w Hmut [Hmeta Hspec] Hv. apply wp_ret. simpl. rewrite Hv.
    split; [done|]. split; [done|].
    destruct (SetControllerReference _ _) as [e|meta] eqn:Hset; [done|].
    injection Hmut as <-. simpl in *.
    apply SetControllerReference_ok in Hset as [Hset Hsetm]. unfold same_meta in Hmeta.
    split; [|split].
    + apply (np_frame_store (ns_meta ns) _ (Name (np_meta np)) (Some p)); [done| |done].
      intros p' [= <-]. rewrite Hmeta, Hsetm. unfold namespacedKey in *. simpl.
      destruct (s_networkpolicies (view (Client rr)) !! _) as [p0|] eqn:Hp0; [|done].
      by apply Hkeyed in Hp0.
    + exists p. simpl. rewrite lookup_insert_eq. split; [done|]. split; [done|].
      by rewrite Hmeta, IsControlledBy_setUID.
    + split; [done|]. intros k' Hk'. simpl. by rewrite lookup_insert_ne.
  - intros e w Hv. simpl. by rewrite Hv.
Qed.

Lemma ensurePolicy_spec ns np rr :
  Name (np_meta np) ∈ managedNetworkPolicies -> np_keyed (storeOf rr) ->
  wp (ensurePolicy ns np)
     (fun r rr' =>
        Instance_ rr' = Instance_ rr /\ stateIn rr' = stateIn rr /\
        match r with
        | Ret _ => np_frame (ns_meta ns) (storeOf rr) (storeOf rr') /\
            policy_in_place (ns_meta ns) np (storeOf rr') /\
            changes_only networkpolicyKind (Name (ns_meta ns), Name (np_meta np)) (storeOf rr) (storeOf rr')
        | Err _ => storeOf rr' = storeOf rr
        | Panic => False
        end) rr.
Proof.
  intros Hman Hkeyed. unfold ensurePolicy. apply wp_bind, wp_onClient.
  apply (wp_Get _ _ networkpolicyKind False (False_ind _)); simpl.
  - intros existing w He Hv. destruct (IsControlledBy _ _) eqn:Hctl; simpl.
    2:{ apply wp_fail. unfold storeOf. simpl. by rewrite Hv. }
    assert (storeOf (withClient rr w) = storeOf rr) as Hs by done.
    eapply wp_mono; [apply applyPolicy_spec; rewrite ?Hs; [done|done|]|].
    { unfold storeOf. congruence. }
    intros r rr' Hr. rewrite Hs in Hr. exact Hr.
  - intros e w Hnf _ Hv. destruct (IsNotFound e); simpl.
    2:{ apply wp_fail. unfold storeOf. simpl. by rewrite Hv. }
    assert (storeOf (withClient rr w) = storeOf rr) as Hs by done.
    eapply wp_mono; [apply applyPolicy_spec; rewrite ?Hs; [done|done|]|].
    { unfold storeOf. by rewrite Hnf. }
    intros r rr' Hr. rewrite Hs in Hr. exact Hr.
Qed.

(** A managed policy the preset does not want is gone, unless it was never ours or
    a finalizer keeps it. *)
Definition not_stale (nsm : ObjectMeta) (name : string) (st st' : Store) : Prop :=
  forall p', s_networkpolicies st' !! (Name nsm, name) = Some p' ->
    s_networkpolicies st !! (Name nsm, name) = Some p' /\ IsControlledBy (np_meta p') nsm = false \/
    exists p, s_networkpolicies st !! (Name nsm, name) = Some p /\ Finalizers (np_meta p) <> [].

Definition names (nps : list NetworkPolicy) : list string := map (fun np => Name (np_meta np)) nps.

Lemma kput_self_networkpolicy st : st = kput networkpolicyKind (ksel networkpolicyKind st) st.
Proof. by destruct st. Qed.

Lemma removeStalePolicy_spec ns desired name rr :
  name ∈ managedNetworkPolicies -> np_keyed (storeOf rr) ->
  wp (removeStalePolicy ns desired name)
     (fun r rr' =>
        Instance_ rr' = Instance_ rr /\ stateIn rr' = stateIn rr /\
        match r with
        | Ret _ => np_frame (ns_meta ns) (storeOf rr) (storeOf rr') /\
            changes_only networkpolicyKind (Name (ns_meta ns), name) (storeOf rr) (storeOf rr') /\
            (if decide (name ∈ names desired) then storeOf rr' = storeOf rr
             else not_stale (ns_meta ns) name (storeOf rr) (storeOf rr'))
        | Err _ => storeOf rr' = storeOf rr
        | Panic => False
        end) rr.
Proof.
  intros Hman Hkeyed. unfold removeStalePolicy. fold (names desired).
  assert (forall st, changes_only networkpolicyKind (Name (ns_meta ns), name) st st) as Hrefl.
  { intros st. split; [apply kput_self_networkpolicy|done]. }
  case_decide as Hin.
  { apply wp_ret. split; [done|]. split; [done|]. split; [apply np_frame_refl|]. by split. }
  apply wp_bind, wp_onClient.
  apply (wp_Get _ _ networkpolicyKind False (False_ind _)); simpl.
  2:{ intros e w Hnf _ Hv. unfold storeOf in *.
      destruct (IsNotFound e); [apply wp_ret|apply wp_fail]; simpl; rewrite Hv; [|done].
      split; [done|]. split; [done|]. split; [apply np_frame_refl|]. split; [done|].
      intros p' Hp'. rewrite (Hnf eq_refl) in Hp'. done. }
  intros stale w Hst Hv. destruct (IsControlledBy _ _) eqn:Hctl; simpl.
  2:{ apply wp_ret. unfold storeOf. simpl. rewrite Hv. split; [done|]. split; [done|].
      split; [apply np_frame_refl|]. split; [done|]. intros p' Hp'. left. split; [done|congruence]. }
  pose proof (Hkeyed _ _ Hst) as Hkey.
  apply wp_bind, wp_onClient, (wp_Delete _ _ networkpolicyKind); simpl; unfold storeOf in *;
    rewrite ?Hkey, ?Hv.
  - intros p0 x w' Hp0 Hv' Hfin Hxkey. apply wp_ret. simpl. rewrite Hv'.
    rewrite Hst in Hp0. injection Hp0 as <-. split; [done|]. split; [done|].
    split; [|split].
    + apply (np_frame_store (ns_meta ns) _ name x); [done| |congruence].
      intros p' Hp'. by destruct (Hxkey p' Hp') as [-> _].
    + split; [done|]. intros k' Hk'. simpl. by rewrite lookup_partial_alter_ne.
    + intros p'. simpl. rewrite lookup_partial_alter_eq. intros ->. right. exists stale.
      split; [done|]. intros Hf. by specialize (Hfin Hf).
  - intros e w' Hnf Hv'. destruct (IsNotFound e) eqn:He; simpl.
    + rewrite (Hnf eq_refl) in Hst. done.
    + apply wp_fail. simpl. by rewrite Hv'.
Qed.

(** *** The two loops *)

Lemma policy_in_place_other nsm np name st st' :
  changes_only networkpolicyKind (Name nsm, name) st st' -> Name (np_meta np) <> name ->
  policy_in_place nsm np st -> policy_in_place nsm np st'.
Proof.
  intros [_ Hother] Hne (p & Hp & Hrest). exists p. split; [|done].
  simpl in Hother. by rewrite Hother by congruence.
Qed.

Lemma names_app l1 l2 : names (l1 ++ l2)%list = (names l1 ++ names l2)%list.
Proof. apply map_app. Qed.

Lemma elem_of_names np l : np ∈ l -> Name (np_meta np) ∈ names l.
Proof. intros H. unfold names. apply list_elem_of_fmap. eauto. Qed.

Lemma ensurePolicies_spec ns desired rr :
  NoDup (names desired) -> (forall name, name ∈ names desired -> name ∈ managedNetworkPolicies) ->
  np_keyed (storeOf rr) ->
  wp (range desired (ensurePolicy ns))
     (fun r rr' =>
        Instance_ rr' = Instance_ rr /\ stateIn rr' = stateIn rr /\
        np_frame (ns_meta ns) (storeOf rr) (storeOf rr') /\
        match r with
        | Ret _ => (forall np, np ∈ desired -> policy_in_place (ns_meta ns) np (storeOf rr')) /\
            (forall name, name ∉ names desired ->
               s_networkpolicies (storeOf rr') !! (Name (ns_meta ns), name) =
               s_networkpolicies (storeOf rr) !! (Name (ns_meta ns), name))
        | Err _ => True
        | Panic => False
        end) rr.
Proof.
  intros Hnd Hman Hkeyed.
  apply wp_range with (I := fun pre rr' =>
    Instance_ rr' = Instance_ rr /\ stateIn rr' = stateIn rr /\
    np_frame (ns_meta ns) (storeOf rr) (storeOf rr') /\
    (forall np, np ∈ pre -> policy_in_place (ns_meta ns) np (storeOf rr')) /\
    (forall name, name ∉ names pre ->
       s_networkpolicies (storeOf rr') !! (Name (ns_meta ns), name) =
       s_networkpolicies (storeOf rr) !! (Name (ns_meta ns), name))).
  - split; [done|]. split; [done|]. split; [apply np_frame_refl|]. split; [set_solver|done].
  - intros pre np rest rr1 -> (Hi & Hst & Hf & Hin & Hout).
    rewrite names_app in Hnd, Hman. simpl in Hnd, Hman.
    eapply wp_mono; [apply ensurePolicy_spec; [apply Hman; set_solver|by apply (npf_keyed _ _ _ Hf)]|].
    intros [[]|e|] rr2 (Hi2 & Hst2 & Hr2); [| |done].
    2:{ split; [congruence|]. split; [congruence|]. by rewrite Hr2. }
    destruct Hr2 as (Hf2 & Hin2 & Hch).
    split; [congruence|]. split; [congruence|].
    split; [by eapply np_frame_trans|]. split.
    + intros np' Hnp'. apply elem_of_app in Hnp' as [Hnp'|Hnp'];
        [|apply list_elem_of_singleton in Hnp' as ->; done].
      eapply policy_in_place_other; [done| |by apply Hin].
      intros Heq. apply NoDup_app in Hnd as (_ & Hdisj & _).
      apply (Hdisj (Name (np_meta np'))); [by apply elem_of_names|]. rewrite Heq. set_solver.
    + intros name Hname. rewrite names_app in Hname. simpl in Hname.
      destruct Hch as [_ Hother]. simpl in Hother. rewrite Hother by set_solver.
      apply Hout. set_solver.
  - intros rr' (? & ? & ? & ? & ?). done.
Qed.

(** The stored policies after ensureNetworkPolicies, in terms of those before. *)
Record policies_ensured (nsm : ObjectMeta) (desired : list NetworkPolicy) (st st' : Store) : Prop := {
  pe_frame : np_frame nsm st st';
  pe_desired np : np ∈ desired -> policy_in_place nsm np st';
  pe_stale name : name ∈ managedNetworkPolicies -> name ∉ names desired -> not_stale nsm name st st';
}.

Lemma removeStale_spec ns desired rr :
  np_keyed (storeOf rr) ->
  wp (range managedNetworkPolicies (removeStalePolicy ns desired))
     (fun r rr' =>
        Instance_ rr' = Instance_ rr /\ stateIn rr' = stateIn rr /\
        np_frame (ns_meta ns) (storeOf rr) (storeOf rr') /\
        match r with
        | Ret _ =>
            (forall np, np ∈ desired -> policy_in_place (ns_meta ns) np (storeOf rr) ->
               policy_in_place (ns_meta ns) np (storeOf rr')) /\
            (forall name, name ∈ managedNetworkPolicies -> name ∉ names desired ->
               not_stale (ns_meta ns) name (storeOf rr) (storeOf rr'))
        | Err _ => True
        | Panic => False
        end) rr.
Proof.
  intros Hkeyed.
  assert (NoDup managedNetworkPolicies) as Hnd by (apply (bool_decide_unpack _); reflexivity).
  apply wp_range with (I := fun pre rr' =>
    Instance_ rr' = Instance_ rr /\ stateIn rr' = stateIn rr /\
    np_frame (ns_meta ns) (storeOf rr) (storeOf rr') /\
    (forall np, np ∈ desired -> policy_in_place (ns_meta ns) np (storeOf rr) ->
       policy_in_place (ns_meta ns) np (storeOf rr')) /\
    (forall name, name ∈ pre -> name ∉ names desired ->
       not_stale (ns_meta ns) name (storeOf rr) (storeOf rr')) /\
    (forall name, name ∉ pre ->
       s_networkpolicies (storeOf rr') !! (Name (ns_meta ns), name) =
       s_networkpolicies (storeOf rr) !! (Name (ns_meta ns), name))).
  - split; [done|]. split; [done|]. split; [apply np_frame_refl|]. split; [done|].
    split; [set_solver|done].
  - intros pre name rest rr1 Hl (Hi & Hst & Hf & Hin & Hdone & Hout). rewrite Hl in Hnd.
    eapply wp_mono; [apply removeStalePolicy_spec; [rewrite Hl; set_solver|by apply (npf_keyed _ _ _ Hf)]|].
    intros [[]|e|] rr2 (Hi2 & Hst2 & Hr2); [| |done].
    2:{ split; [congruence|]. split; [congruence|]. by rewrite Hr2. }
    destruct Hr2 as (Hf2 & Hch & Hr2).
    assert (name ∉ pre) as Hfresh by (apply NoDup_app in Hnd as (_ & Hd & _); set_solver).
    split; [congruence|]. split; [congruence|]. split; [by eapply np_frame_trans|].
    split; [|split].
    + intros np Hnp Hp. case_decide as Hn; [rewrite Hr2; by apply Hin|].
      eapply policy_in_place_other; [done| |by apply Hin].
      intros <-. by apply Hn, elem_of_names.
    + intros name' Hd Hnot. apply elem_of_app in Hd as [Hd|Hd];
        [|apply list_elem_of_singleton in Hd as ->].
      * intros p'. destruct Hch as [_ Hother]. simpl in Hother.
        rewrite Hother by (intros [= ->]; done). by apply Hdone.
      * rewrite decide_False in Hr2 by done. intros p' Hp'. rewrite <- (Hout name Hfresh).
        by apply Hr2.
    + intros name' Hn'. destruct Hch as [_ Hother]. simpl in Hother.
      rewrite Hother by set_solver. apply Hout. set_solver.
  - intros rr' (? & ? & ? & ? & ? & ?). done.
Qed.

Lemma desired_names p nsName i :
  NoDup (names (desiredNetworkPolicies p nsName i)) /\
  forall name, name ∈ names (desiredNetworkPolicies p nsName i) -> name ∈ managedNetworkPolicies.
Proof.
  unfold desiredNetworkPolicies. repeat case_decide; simpl.
  - split; [constructor|set_solver].
  - split; [apply (bool_decide_unpack _); reflexivity|]. unfold managedNetworkPolicies. set_solver.
  - split; [apply (bool_decide_unpack _); reflexivity|]. unfold managedNetworkPolicies. set_solver.
Qed.

Lemma ensureNetworkPolicies_spec rr ns :
  st_namespace (stateIn rr) = Some ns -> st_isolation (stateIn rr) <> "" -> np_keyed (storeOf rr) ->
  wp ensureNetworkPolicies
     (fun r rr' =>
        Instance_ rr' = Instance_ rr /\ stateIn rr' = stateIn rr /\
        match r with
        | Ret _ => policies_ensured (ns_meta ns)
            (desiredNetworkPolicies (Instance_ rr) (Name (ns_meta ns)) (st_isolation (stateIn rr)))
            (storeOf rr) (storeOf rr')
        | Err _ => np_frame (ns_meta ns) (storeOf rr) (storeOf rr')
        | Panic => False
        end) rr.
Proof.
  intros Hns Hiso Hkeyed. unfold ensureNetworkPolicies.
  apply wp_bind, wp_instance, wp_bind, wp_stateFor.
  intros rr1 Hsame Hst1. rewrite Hns, decide_False by done.
  pose proof (storeOf_same _ _ Hsame) as Hs1. destruct Hsame as (_ & Hi1 & _).
  set (desired := desiredNetworkPolicies _ _ _).
  destruct (desired_names (Instance_ rr) (Name (ns_meta ns)) (st_isolation (stateIn rr))) as [Hnd Hman].
  apply wp_bind. eapply wp_mono; [apply ensurePolicies_spec; [done|done|by rewrite Hs1]|].
  rewrite Hs1, Hi1, Hst1.
  intros [[]|e|] rr2 (Hi2 & Hst2 & Hf2 & Hr2); [|done|done]. destruct Hr2 as [Hin Hout].
  eapply wp_mono; [apply (removeStale_spec ns desired); by apply (npf_keyed _ _ _ Hf2)|].
  intros [[]|e|] rr3 (Hi3 & Hst3 & Hf3 & Hr3); (split; [congruence|split; [congruence|]]); [| |done].
  - destruct Hr3 as [Hkeep Hstale]. constructor.
    + by eapply np_frame_trans.
    + intros np Hnp. by apply Hkeep, Hin.
    + intros name Hm Hn p' Hp'. rewrite <- (Hout name Hn). by apply Hstale.
  - by eapply np_frame_trans.
Qed.
End policies.
