(* ===== verification/ProjectPipeline.v ===== *)
(** The five actions of the OrganizationProject controller, run by the framework:
    what a whole reconciliation leaves behind, and what it cannot touch. *)

From stdpp Require Import gmap strings list.
From Stdlib Require Import ZArith.
From S2P Require Import Prelude Platform Api Cluster Framework OrganizationCtl ProjectCtl NetPol.
From S2P Require Import ProjectSpecs.

Local Open Scope string_scope.

(* ------------------------------------------------------------------ *)
(** ** What a project asks for *)

Section asked.
  Context `{P : Platform}.

(** A policy of the preset [i] for the organization [org]: "none" wants no policy; any
    other preset refuses all ingress to all pods, and lets in pods of the same namespace
    under "strict", pods of the organization's namespaces otherwise. *)
Inductive wants (i org : string) : string -> NetworkPolicySpec -> Prop :=
| wants_deny : i <> "none" ->
    wants i org "default-deny-ingress"
      {| np_PodSelector := {| MatchLabels := None |}; PolicyTypes := [PolicyTypeIngress]; Ingress := [] |}
| wants_same : i = "strict" ->
    wants i org "allow-same-namespace"
      {| np_PodSelector := {| MatchLabels := None |}; PolicyTypes := [PolicyTypeIngress];
         Ingress := [ {| np_From := [ {| PodSelector := Some {| MatchLabels := None |};
                                         NamespaceSelector := None |} ] |} ] |}
| wants_organization : i <> "none" -> i <> "strict" ->
    wants i org "allow-from-organization"
      {| np_PodSelector := {| MatchLabels := None |}; PolicyTypes := [PolicyTypeIngress];
         Ingress := [ {| np_From := [ {| PodSelector := None; NamespaceSelector := Some
           {| MatchLabels := Some {["organization.opendatahub.io/name" := org]} |} |} ] |} ] |}.

(** The names of all policies some preset wants. *)
Definition policyNames : list string :=
  ["default-deny-ingress"; "allow-from-organization"; "allow-same-namespace"].

(** A binding of a role that serves exactly the users listed with it. *)
Definition serves (users : slice ProjectUser) (role : string) (b : RoleBinding) : Prop :=
  rb_RoleRef b = {| rr_APIGroup := "rbac.authorization.k8s.io"; rr_Kind := "ClusterRole"; rr_Name := role |} /\
  forall s, s ∈ elems (rb_Subjects b) <->
    exists u, u ∈ elems users /\ pu_Role u = role /\ s = subjectOf u.

(** No user is listed with the role. *)
Definition unused (users : slice ProjectUser) (role : string) : Prop :=
  forall u, u ∈ elems users -> pu_Role u <> role.

Lemma wants_desired p nsName i name spec :
  wants i (projectOrg p) name spec <->
  exists np, np ∈ desiredNetworkPolicies p nsName i /\ Name (np_meta np) = name /\ np_Spec np = spec.
Proof.
  unfold desiredNetworkPolicies. split.
  - intros [Hn| -> |Hn Hs].
    + exists (denyIngress nsName). rewrite decide_False by done. split; [case_decide; left|done].
    + exists (allowSameNamespace nsName). split; [right; left|done].
    + rewrite !decide_False by done. exists (allowFromOrganization nsName (projectOrg p)). split; [right; left|done].
  - intros (np & Hnp & <- & <-). repeat case_decide; rewrite ?elem_of_cons, elem_of_nil in Hnp;
      destruct_or?; subst; try done; by constructor.
Qed.

Lemma wants_name i org name spec : wants i org name spec -> name ∈ policyNames.
Proof. unfold policyNames. intros []; set_solver. Qed.

Lemma subjects_serve users role b :
  rb_RoleRef b = {| rr_APIGroup := rbacGroupName; rr_Kind := "ClusterRole"; rr_Name := role |} ->
  rb_Subjects b = subjectsForRole users role -> serves users role b.
Proof. intros Href Hs. split; [done|]. intros s. rewrite Hs. apply subjectsForRole_exact. Qed.
End asked.

Section confinement.
  Context `{P : Platform} `{C : !Cluster} `{L : !LawfulCluster C} `{PL : !PlatformLaws P}.

(** Namespaces and network policies are stored under their own names. *)
Definition well_keyed (st : Store) : Prop :=
  np_keyed st /\ forall k ns, s_namespaces st !! k = Some ns -> Name (ns_meta ns) = k.

(** [st'] differs from [st] only in what belongs to project [p]: its namespace, the
    two role bindings and the managed network policies in that namespace. *)
Record confined (p : OrganizationProject) (st st' : Store) : Prop := {
  cf_api : s_organizations st' = s_organizations st /\ s_profiles st' = s_profiles st /\
           s_projects st' = s_projects st /\ s_maas st' = s_maas st /\
           s_aitenants st' = s_aitenants st;
  cf_namespaces k : k <> Name (project_meta p) -> s_namespaces st' !! k = s_namespaces st !! k;
  cf_bindings k : k <> bindingKey (Name (project_meta p)) "edit" ->
    k <> bindingKey (Name (project_meta p)) "view" ->
    s_rolebindings st' !! k = s_rolebindings st !! k;
  cf_policies k : (forall name, name ∈ managedNetworkPolicies -> k <> (Name (project_meta p), name)) ->
    s_networkpolicies st' !! k = s_networkpolicies st !! k;
}.

Lemma confined_refl p st : confined p st st.
Proof. by constructor. Qed.

Lemma confined_trans p st1 st2 st3 : confined p st1 st2 -> confined p st2 st3 -> confined p st1 st3.
Proof.
  intros [(?&?&?&?&?) Hns Hrb Hnp] [(?&?&?&?&?) Hns' Hrb' Hnp']. constructor.
  - repeat split; congruence.
  - intros k Hk. by rewrite Hns', Hns.
  - intros k Hk1 Hk2. by rewrite Hrb', Hrb.
  - intros k Hk. by rewrite Hnp', Hnp.
Qed.

#[local] Instance confined_preorder p : PreOrder (confined p).
Proof. split; [exact (confined_refl p)|exact (confined_trans p)]. Qed.

Lemma confined_namespace p ns st : confined p st (stored namespaceKind (Name (project_meta p)) ns st).
Proof. constructor; try done. intros k Hk. simpl. by rewrite lookup_insert_ne. Qed.

Lemma confined_binding p role users nsm st st' :
  role = "edit" \/ role = "view" -> Name nsm = Name (project_meta p) ->
  binding_ensured nsm users role st st' -> confined p st st'.
Proof.
  intros Hrole Hn [[Hk Hother] _]. simpl in *. rewrite Hn in Hother. rewrite Hk.
  constructor; simpl; [done|done| |done].
  intros k Hk1 Hk2. apply Hother. by destruct Hrole as [-> | ->].
Qed.

Lemma confined_policies p nsm st st' :
  Name nsm = Name (project_meta p) -> np_frame nsm st st' -> confined p st st'.
Proof.
  intros Hn [Hk _ Hothers _]. rewrite Hn in Hothers. rewrite Hk.
  constructor; simpl; [done|done|done|]. exact Hothers.
Qed.

(** The bindings and the policies do not change the namespaces, nor each other. *)
Lemma binding_keeps nsm users role st st' :
  binding_ensured nsm users role st st' ->
  s_namespaces st' = s_namespaces st /\ s_networkpolicies st' = s_networkpolicies st.
Proof. intros [[-> _] _]. done. Qed.

Lemma frame_keeps nsm st st' :
  np_frame nsm st st' ->
  s_namespaces st' = s_namespaces st /\ s_rolebindings st' = s_rolebindings st.
Proof. intros [-> _ _ _]. done. Qed.

(** What a reconciliation that returns leaves, in terms of the store it found. *)
Record project_provisioned (i : string) (p p' : OrganizationProject) (o : Organization)
    (ns : Namespaced) (st st' : Store) : Prop := {
  pp_owner : s_organizations st !! projectOrg p = Some o /\ Root (organization_Status o) <> "";
  pp_namespace : s_namespaces st' !! Name (project_meta p) = Some ns /\
    ns_provisioned p (Root (organization_Status o)) (namespaceBefore st p) (ns_meta ns);
  pp_name : Name (ns_meta ns) = Name (project_meta p);
  pp_bindings role : role ∈ ["edit"; "view"] ->
    binding_state (ns_meta ns) (Users (project_Spec p)) role st st';
  pp_desired np : np ∈ desiredNetworkPolicies p (Name (project_meta p)) i ->
    policy_in_place (ns_meta ns) np st';
  pp_stale name : name ∈ managedNetworkPolicies ->
    name ∉ names (desiredNetworkPolicies p (Name (project_meta p)) i) ->
    not_stale (ns_meta ns) name st st';
  pp_keyed : np_keyed st';
  pp_status : p' = withStatusNamespace p (Name (project_meta p));
}.

(** The same as the project's owner reads it: nothing of it speaks of how the controller
    computes what it stores. *)
Record provisioned_as_asked (i : string) (p p' : OrganizationProject) (o : Organization)
    (ns : Namespaced) (st st' : Store) : Prop := {
  pa_owner : s_organizations st !! projectOrg p = Some o /\ Root (organization_Status o) <> "";
  pa_namespace : s_namespaces st' !! Name (project_meta p) = Some ns /\
    Name (ns_meta ns) = Name (project_meta p) /\ IsControlledBy (ns_meta ns) (project_meta p) = true;
  pa_labels :
    map_index (Labels (ns_meta ns)) "organization.opendatahub.io/name" = Some (projectOrg p) /\
    map_index (Labels (ns_meta ns)) "organization.opendatahub.io/root" = Some (Root (organization_Status o));
  (** the rest of an existing namespace is as it was, a label of the server's own apart *)
  pa_namespace_kept ns0 : s_namespaces st !! Name (project_meta p) = Some ns0 ->
    (forall k, k ∉ ["organization.opendatahub.io/name"; "organization.opendatahub.io/root";
                    "kubernetes.io/metadata.name"] ->
       map_index (Labels (ns_meta ns)) k = map_index (Labels (ns_meta ns0)) k) /\
    Annotations (ns_meta ns) = Annotations (ns_meta ns0) /\ Finalizers (ns_meta ns) = Finalizers (ns_meta ns0);
  pa_bound role u : role ∈ ["edit"; "view"] -> u ∈ elems (Users (project_Spec p)) -> pu_Role u = role ->
    exists b, s_rolebindings st' !! (Name (project_meta p), "tenant-" +:+ role) = Some b /\
      serves (Users (project_Spec p)) role b /\ IsControlledBy (rb_meta b) (ns_meta ns) = true;
  (** without a user of the role there is no binding, unless a finalizer holds it *)
  pa_unbound role b : role ∈ ["edit"; "view"] -> unused (Users (project_Spec p)) role ->
    s_rolebindings st' !! (Name (project_meta p), "tenant-" +:+ role) = Some b ->
    exists b0, s_rolebindings st !! (Name (project_meta p), "tenant-" +:+ role) = Some b0 /\
      Finalizers (rb_meta b0) <> [];
  pa_policies name spec : wants i (projectOrg p) name spec ->
    exists np, s_networkpolicies st' !! (Name (project_meta p), name) = Some np /\
      np_Spec np = spec /\ IsControlledBy (np_meta np) (ns_meta ns) = true;
  (** what the preset does not want is gone, unless it is not the controller's or a
      finalizer holds it *)
  pa_stale name np : name ∈ policyNames -> (forall spec, ~ wants i (projectOrg p) name spec) ->
    s_networkpolicies st' !! (Name (project_meta p), name) = Some np ->
    s_networkpolicies st !! (Name (project_meta p), name) = Some np /\
      IsControlledBy (np_meta np) (ns_meta ns) = false \/
    exists np0, s_networkpolicies st !! (Name (project_meta p), name) = Some np0 /\
      Finalizers (np_meta np0) <> [];
  pa_status : project_meta p' = project_meta p /\ project_Spec p' = project_Spec p /\
    status_Namespace (project_Status p') = Name (project_meta p);
}.

Lemma provisioned_asked i p p' o ns st st' :
  project_provisioned i p p' o ns st st' -> provisioned_as_asked i p p' o ns st st'.
Proof.
  intros [Howner [Hns (Hn0 & Hlo & Hlr & Hrest & Hann & Hfin & Hctl)] Hname Hb Hdes Hstale _ ->].
  constructor; [done|done|done| | | | | |done].
  - intros ns0 Hns0. unfold namespaceBefore in *. rewrite Hns0 in *. split; [|done].
    intros k Hk. apply Hrest; set_solver.
  - intros role u Hrole Hu Hr. specialize (Hb role Hrole). unfold binding_state, bindingKey in Hb.
    rewrite Hname in Hb. destruct (subjectsForRole _ role) as [ss|] eqn:Hss.
    + destruct Hb as (b & Hb & Hsub & Href & Hc). exists b. split; [done|]. split; [|done].
      apply subjects_serve; congruence.
    + by destruct (proj1 (subjectsForRole_None _ _) Hss u).
  - intros role b Hrole Hun Hstored. specialize (Hb role Hrole). unfold binding_state, bindingKey in Hb.
    rewrite Hname, (proj2 (subjectsForRole_None _ _) Hun) in Hb. by eapply Hb.
  - intros name spec (np & Hnp & <- & <-)%(wants_desired _ (Name (project_meta p))).
    specialize (Hdes np Hnp). unfold policy_in_place in Hdes. by rewrite Hname in Hdes.
  - intros name np Hman Hno Hnp. unfold not_stale in Hstale. rewrite Hname in Hstale. apply (Hstale name Hman); [|done].
    intros (q & -> & Hq)%list_elem_of_fmap. eapply Hno, wants_desired. eauto.
Qed.

(** The two bindings, from the two passes. *)
Lemma bindings_final nsm users st st1 st2 :
  binding_ensured nsm users "edit" st st1 -> binding_ensured nsm users "view" st1 st2 ->
  forall role, role ∈ ["edit"; "view"] -> binding_state nsm users role st st2.
Proof.
  intros [[_ Hother1] H1] [[_ Hother2] H2] role Hrole. simpl in *.
  rewrite !elem_of_cons in Hrole. destruct Hrole as [->|[->|[]%elem_of_nil]].
  - apply (binding_state_ext _ _ _ st st1); [done| |done]. by apply Hother2.
  - apply (binding_state_ext _ _ _ st1 st2); [|done|done]. symmetry. by apply Hother1.
Qed.

(** A policy the namespace does not control survives. *)
Definition foreign_kept (p : OrganizationProject) (st st' : Store) : Prop :=
  forall k np, s_networkpolicies st !! k = Some np ->
    (forall ns, s_namespaces st' !! Name (project_meta p) = Some ns ->
       IsControlledBy (np_meta np) (ns_meta ns) = false) ->
    s_networkpolicies st' !! k = Some np.
End confinement.

Section pipeline.
  Context `{P : Platform} `{C : !Cluster} `{L : !LawfulCluster C} `{PL : !PlatformLaws P}.
  Context (R : Prop) (HR : R -> ReliableReads C).
  Context `{F : !Framework} `{FL : !FrameworkLaws F}.
  Abbreviation RR := (ReconciliationRequest OrganizationProject Extension).
  Implicit Types rr : RR.

(** The preset in force: the configured one, or "tenant" when the profile cannot be
    read and the project has none of its own. *)
Definition preset_in_force (st : Store) (p : OrganizationProject) (i : string) : Prop :=
  (i = preset st p \/ i = "tenant") /\ (R -> i = preset st p) /\
  (NetworkIsolation (project_Spec p) <> "" -> i = NetworkIsolation (project_Spec p)).

Lemma preset_in_force_nonempty st p i : preset_in_force st p i -> i <> "".
Proof. intros ([->| ->] & _); [apply preset_nonempty|done]. Qed.

Definition project_outcome rr (r : outcome error unit) rr' : Prop :=
  confined (Instance_ rr) (storeOf rr) (storeOf rr') /\
  foreign_kept (Instance_ rr) (storeOf rr) (storeOf rr') /\
  well_keyed (storeOf rr') /\
  match r with
  | Ret _ => exists i o ns,
      (preset_in_force (storeOf rr) (Instance_ rr) i /\ st_isolation (stateIn rr') = i) /\
      project_provisioned i (Instance_ rr) (Instance_ rr') o ns (storeOf rr) (storeOf rr')
  | Err _ => True
  | Panic => False
  end.

Lemma project_outcome_unchanged rr e rr' :
  well_keyed (storeOf rr) -> storeOf rr' = storeOf rr -> project_outcome rr (Err e) rr'.
Proof. intros Hk Hs. unfold project_outcome. rewrite Hs. split; [apply confined_refl|].
  split; [intros k np Hnp _; exact Hnp|done].
Qed.

(** The last action, on a store that differs from the first one only within the
    project and not yet in its policies. *)
Lemma policies_action_spec rr1 rr3 ns i :
  np_keyed (storeOf rr1) -> i <> "" -> Name (ns_meta ns) = Name (project_meta (Instance_ rr1)) ->
  confined (Instance_ rr1) (storeOf rr1) (storeOf rr3) ->
  s_networkpolicies (storeOf rr3) = s_networkpolicies (storeOf rr1) ->
  s_namespaces (storeOf rr3) !! Name (project_meta (Instance_ rr1)) = Some ns ->
  Instance_ rr3 = withStatusNamespace (Instance_ rr1) (Name (project_meta (Instance_ rr1))) ->
  st_namespace (stateIn rr3) = Some ns -> st_isolation (stateIn rr3) = i ->
  wp ensureNetworkPolicies
     (fun r rr4 =>
        confined (Instance_ rr1) (storeOf rr1) (storeOf rr4) /\
        foreign_kept (Instance_ rr1) (storeOf rr1) (storeOf rr4) /\
        (np_keyed (storeOf rr4) /\ s_namespaces (storeOf rr4) = s_namespaces (storeOf rr3)) /\
        match r with
        | Ret _ => Instance_ rr4 = Instance_ rr3 /\ stateIn rr4 = stateIn rr3 /\
            s_namespaces (storeOf rr4) !! Name (project_meta (Instance_ rr1)) = Some ns /\
            s_rolebindings (storeOf rr4) = s_rolebindings (storeOf rr3) /\
            policies_ensured (ns_meta ns)
              (desiredNetworkPolicies (Instance_ rr1) (Name (project_meta (Instance_ rr1))) i)
              (storeOf rr3) (storeOf rr4)
        | Err _ => True
        | Panic => False
        end) rr3.
Proof.
  intros Hnpk Hi Hname Hc3 Hnp3 Hns3 Hi3 Hstn Hsti.
  assert (np_keyed (storeOf rr3)) as Hnpk3 by (intros k p; rewrite Hnp3; apply Hnpk).
  eapply wp_mono; [by apply (ensureNetworkPolicies_spec rr3 ns); rewrite ?Hsti|].
  rewrite Hsti, Hi3, Hname.
  assert (forall rr4, np_frame (ns_meta ns) (storeOf rr3) (storeOf rr4) ->
    confined (Instance_ rr1) (storeOf rr1) (storeOf rr4) /\
    foreign_kept (Instance_ rr1) (storeOf rr1) (storeOf rr4) /\
    (np_keyed (storeOf rr4) /\ s_namespaces (storeOf rr4) = s_namespaces (storeOf rr3)) /\
    s_namespaces (storeOf rr4) !! Name (project_meta (Instance_ rr1)) = Some ns) as Hframe.
  { intros rr4 Hf. destruct (frame_keeps _ _ _ Hf) as [Hfns _].
    assert (s_namespaces (storeOf rr4) !! Name (project_meta (Instance_ rr1)) = Some ns) as Hns4
      by by rewrite Hfns.
    pose proof (npf_keyed _ _ _ Hf Hnpk3) as Hkey4.
    split; [eapply confined_trans; [exact Hc3|by eapply confined_policies]|].
    split; [|done]. intros k np Hk Hfor. eapply npf_foreign; [exact Hf|by rewrite Hnp3|]. auto. }
  intros [[]|e|] rr4 (Hi4 & Hst4 & Hr4); [| |done].
  - pose proof (pe_frame _ _ _ _ Hr4) as Hf. destruct (Hframe _ Hf) as (? & ? & ? & ?).
    repeat (split; [done|]). destruct (frame_keeps _ _ _ Hf) as [_ Hfrb]. done.
  - destruct (Hframe _ Hr4) as (? & ? & ? & _). done.
Qed.

(** The last two actions, after the namespace has been provisioned. *)
Lemma bindings_and_policies_spec rr1 rr2 ns i o :
  well_keyed (storeOf rr1) -> preset_in_force (storeOf rr1) (Instance_ rr1) i ->
  s_organizations (storeOf rr1) !! projectOrg (Instance_ rr1) = Some o ->
  Root (organization_Status o) <> "" ->
  ns_provisioned (Instance_ rr1) (Root (organization_Status o))
    (namespaceBefore (storeOf rr1) (Instance_ rr1)) (ns_meta ns) ->
  storeOf rr2 = stored namespaceKind (Name (project_meta (Instance_ rr1))) ns (storeOf rr1) ->
  Instance_ rr2 = withStatusNamespace (Instance_ rr1) (Name (project_meta (Instance_ rr1))) ->
  st_namespace (stateIn rr2) = Some ns -> st_isolation (stateIn rr2) = i ->
  wp (runActions [ensureRBAC; ensureNetworkPolicies]) (project_outcome rr1) rr2.
Proof.
  intros [Hnpk Hnsk] Hi Ho Hroot Hns Hs2 Hi2 Hstn Hsti.
  assert (Name (ns_meta ns) = Name (project_meta (Instance_ rr1))) as Hname.
  { destruct Hns as [-> _]. unfold namespaceBefore.
    destruct (s_namespaces (storeOf rr1) !! _) eqn:Hn; [by apply Hnsk in Hn|done]. }
  assert (confined (Instance_ rr1) (storeOf rr1) (storeOf rr2)) as Hc2
    by (rewrite Hs2; apply confined_namespace).
  assert (s_networkpolicies (storeOf rr2) = s_networkpolicies (storeOf rr1)) as Hnp2 by by rewrite Hs2.
  assert (s_namespaces (storeOf rr2) !! Name (project_meta (Instance_ rr1)) = Some ns) as Hns2
    by (rewrite Hs2; apply lookup_insert_eq).
  assert (forall st', np_keyed st' -> s_namespaces st' = s_namespaces (storeOf rr2) -> well_keyed st') as Hkeyed.
  { intros st' Hnp Hn. split; [done|]. intros k ns'. rewrite Hn, Hs2. simpl.
    rewrite lookup_insert_Some. intros [[<- <-]|[_ ?]]; [done|by apply Hnsk]. }
  assert (forall st', s_networkpolicies st' = s_networkpolicies (storeOf rr1) -> np_keyed st') as Hnpk'.
  { intros st' Heq k q. rewrite Heq. apply Hnpk. }
  apply wp_runActions_cons. eapply wp_mono; [by apply ensureRBAC_spec|].
  rewrite Hi2. intros [[]|e|] rr3 (Hi3 & Hst3 & Hr3); [| |done].
  2:{ destruct Hr3 as [Hr3|Hr3].
      { unfold project_outcome. rewrite Hr3. split; [done|]. split; [intros k np Hk _; congruence|].
        split; [auto|done]. }
      split; [eapply confined_trans; [exact Hc2|by eapply (confined_binding _ "edit"); [left| |]]|].
      apply binding_keeps in Hr3 as [Hn3 Hnp3]. split; [intros k np Hk _; congruence|].
      split; [|done]. apply Hkeyed; [apply Hnpk'|]; congruence. }
  destruct Hr3 as (st1 & He & Hv).
  pose proof (confined_binding (Instance_ rr1) "edit" _ _ _ _ (or_introl eq_refl) Hname He) as Hce.
  pose proof (confined_binding (Instance_ rr1) "view" _ _ _ _ (or_intror eq_refl) Hname Hv) as Hcv.
  destruct (binding_keeps _ _ _ _ _ He) as [Hens Henp], (binding_keeps _ _ _ _ _ Hv) as [Hvns Hvnp].
  assert (s_networkpolicies (storeOf rr3) = s_networkpolicies (storeOf rr1)) as Hnp3 by congruence.
  apply wp_runActions_cons. eapply wp_mono.
  { apply (policies_action_spec rr1 rr3 ns i); rewrite ?Hst3; try done.
    - by eapply preset_in_force_nonempty.
    - by eapply confined_trans; [eapply confined_trans|].
    - by rewrite Hvns, Hens. }
  intros r rr4 (Hc4 & Hfor4 & [Hkey4 Hn4] & Hr4).
  assert (well_keyed (storeOf rr4)) as Hwk4 by (apply Hkeyed; [done|congruence]).
  destruct r as [[]|e|]; [|done|done]. destruct Hr4 as (Hi4 & Hst4 & Hns4 & Hrb4 & [_ Hdes Hstale]).
  apply wp_runActions_nil. split; [done|]. split; [done|]. split; [done|]. exists i, o, ns.
  split; [split; [done|by rewrite Hst4, Hst3]|].
  constructor; [done|done|done| |exact Hdes| |done|congruence].
  - intros role Hrole. eapply binding_state_ext; [| |by eapply (bindings_final _ _ _ _ _ He Hv)].
    + by rewrite Hs2.
    + by rewrite Hrb4.
  - intros name Hm Hn p' Hp'. rewrite <- Hnp3. by apply Hstale.
Qed.

Lemma project_reconcile_spec rr :
  well_keyed (storeOf rr) ->
  wp (runActions (rc_Actions NewOrganizationProjectReconciler)) (project_outcome rr) rr.
Proof.
  intros Hkeyed. simpl. apply wp_runActions_cons.
  eapply wp_mono; [apply (validateParentOrganization_spec R HR)|].
  intros [[]|e|] rr1 (Hs1 & Hi1 & Hr1); [| |done]; [|by apply project_outcome_unchanged; [|done]].
  destruct Hr1 as (o & Ho & Hroot & Hst1).
  apply wp_runActions_cons. eapply wp_mono; [apply (computeEffectiveIsolation_spec R HR)|].
  intros r2 rr2 (-> & Hs2 & Hi2 & i & Hst2 & Hpre).
  rewrite Hs1, Hi1 in Hpre. rewrite Hs1 in Hs2. rewrite Hi1 in Hi2.
  apply wp_runActions_cons. eapply wp_mono; [apply (ensureNamespace_spec _ o); by rewrite Hst2, Hst1|].
  rewrite Hs2, Hi2. intros [[]|e|] rr3 Hr3; [| |done].
  2:{ apply project_outcome_unchanged; [done|]. by destruct Hr3. }
  destruct Hr3 as (ns & Hns & Hs3 & Hst3 & Hi3).
  apply (bindings_and_policies_spec rr rr3 ns i o); try done; by rewrite Hst3, ?Hst2.
Qed.
End pipeline.
