(* ===== verification/ProjectTheorems.v ===== *)
(** What the OrganizationProject controller guarantees: what a reconciliation
    provisions, what it can never touch, who gets access to the namespace, and
    which pods can reach it. *)

From stdpp Require Import gmap strings list.
From Stdlib Require Import ZArith.
From S2P Require Import Prelude Platform Api Cluster Fake Framework OrganizationCtl ProjectCtl NetPol.
From S2P Require Import ProjectSpecs ProjectPipeline.

Local Open Scope string_scope.

(** All stored network policies. *)
Definition policiesIn `{P : Platform} (st : Store) : list NetworkPolicy :=
  (map_to_list (s_networkpolicies st)).*2.

Lemma elem_of_policiesIn `{P : Platform} st np :
  np ∈ policiesIn st <-> exists k, s_networkpolicies st !! k = Some np.
Proof.
  unfold policiesIn. rewrite list_elem_of_fmap. split.
  - intros ([k np'] & -> & Hin). exists k. by apply elem_of_map_to_list.
  - intros [k Hk]. exists (k, np). split; [done|]. by apply elem_of_map_to_list.
Qed.

Section traffic.
  Context `{P : Platform} `{C : !Cluster} `{L : !LawfulCluster C} `{PL : !PlatformLaws P}.

(** Before the reconciliation the namespace has no policy but managed ones that the
    namespace controls and nothing holds back. *)
Definition only_managed (p : OrganizationProject) (st st' : Store) : Prop :=
  forall name np, s_networkpolicies st !! (Name (project_meta p), name) = Some np ->
    name ∈ managedNetworkPolicies /\ Finalizers (np_meta np) = [] /\
    forall ns, s_namespaces st' !! Name (project_meta p) = Some ns ->
      IsControlledBy (np_meta np) (ns_meta ns) = true.

Lemma remaining_desired i p p' o ns st st' name np :
  project_provisioned i p p' o ns st st' -> confined p st st' -> only_managed p st st' ->
  s_networkpolicies st' !! (Name (project_meta p), name) = Some np ->
  exists d, d ∈ desiredNetworkPolicies p (Name (project_meta p)) i /\ np_Spec np = np_Spec d.
Proof.
  intros [_ [Hns _] Hname _ Hdes Hstale _ _] Hconf Hown Hnp.
  destruct (decide (name ∈ names (desiredNetworkPolicies p (Name (project_meta p)) i))) as [Hin|Hin].
  { unfold names in Hin. apply list_elem_of_fmap in Hin as (d & -> & Hd). exists d. split; [done|].
    destruct (Hdes d Hd) as (q & Hq & Hspec & _). congruence. }
  exfalso. destruct (decide (name ∈ managedNetworkPolicies)) as [Hm|Hm].
  - unfold not_stale in Hstale. rewrite Hname in Hstale.
    destruct (Hstale name Hm Hin np Hnp) as [[Hold Hf]|(q & Hold & Hf)];
      destruct (Hown _ _ Hold) as (_ & Hfin & Hctl); [|done].
    by rewrite (Hctl ns Hns) in Hf.
  - rewrite (cf_policies _ _ _ Hconf) in Hnp; [by apply Hown in Hnp as [? _]|].
    intros name' Hm' [= ->]. done.
Qed.

(** Which pods can reach the namespace after a successful reconciliation. *)
Lemma provisioned_traffic i p p' o ns st st' src dst :
  project_provisioned i p p' o ns st st' -> confined p st st' -> only_managed p st st' ->
  pod_ns dst = Name (project_meta p) ->
  ingress_allowed (policiesIn st') src dst =
  sources_of_preset i (Name (project_meta p)) (projectOrg p) src.
Proof.
  intros Hprov Hconf Hown Hdst. apply Bool.eq_iff_eq_true.
  rewrite ingress_allowed_spec, (desired_sources p).
  pose proof (pp_keyed _ _ _ _ _ _ _ Hprov) as Hkeyed.
  assert (forall np, np ∈ policiesIn st' -> isolates np dst = true ->
    Namespace (np_meta np) = Name (project_meta p) /\
    exists d, d ∈ desiredNetworkPolicies p (Name (project_meta p)) i /\ np_Spec np = np_Spec d) as Hthere.
  { intros np [[n name] Hk]%elem_of_policiesIn Hiso. unfold isolates in Hiso.
    rewrite !andb_true_iff, bool_decide_eq_true, Hdst in Hiso. destruct Hiso as [[Hn _] _].
    split; [done|]. assert (n = Name (project_meta p)) as ->.
    { apply Hkeyed in Hk. unfold namespacedKey in Hk. congruence. }
    by eapply remaining_desired. }
  assert (forall d, d ∈ desiredNetworkPolicies p (Name (project_meta p)) i ->
    exists np, np ∈ policiesIn st' /\ isolates np dst = true /\ np_Spec np = np_Spec d /\
      Namespace (np_meta np) = Name (project_meta p)) as Hback.
  { intros d Hd. destruct (pp_desired _ _ _ _ _ _ _ Hprov d Hd) as (np & Hk & Hspec & _).
    rewrite (pp_name _ _ _ _ _ _ _ Hprov) in Hk.
    assert (Namespace (np_meta np) = Name (project_meta p)) as Hn
      by (apply Hkeyed in Hk; unfold namespacedKey in Hk; congruence).
    exists np. split; [by apply elem_of_policiesIn; eexists|]. split; [|done].
    destruct (desired_shape _ _ _ _ Hd) as [Hsel Htypes].
    rewrite isolates_preset by congruence. apply bool_decide_true. congruence. }
  split.
  - intros [Hnone|(np & Hin & Hiso & Hr)].
    + left. destruct (desiredNetworkPolicies _ _ _) as [|d l] eqn:Hd; [done|].
      destruct (Hback d) as (np & Hin & Hiso & _).
      { rewrite ?Hd. set_solver. }
      by rewrite Hnone in Hiso.
    + right. destruct (Hthere np Hin Hiso) as (Hn & d & Hd & Hspec). exists d.
      split; [done|]. by rewrite <- Hspec, <- Hn.
  - intros [Hnil|(d & Hd & Hr)].
    + left. intros np Hin. apply not_true_iff_false. intros Hiso.
      destruct (Hthere np Hin Hiso) as (_ & d & Hd & _). rewrite Hnil in Hd. by apply elem_of_nil in Hd.
    + right. destruct (Hback d Hd) as (np & Hin & Hiso & Hspec & Hn). exists np.
      rewrite Hspec, Hn. done.
Qed.
End traffic.

Section theorems.
  Context `{P : Platform} `{C : !Cluster} `{L : !LawfulCluster C} `{PL : !PlatformLaws P}.
  Context `{F : !Framework} `{FL : !FrameworkLaws F}.
  Abbreviation RR := (ReconciliationRequest OrganizationProject Extension).

(** C13: a reconciliation of a project never panics, and when it returns the project is
    provisioned as asked: the owning organization was found and has a root; the namespace
    named after the project is stored with the organization and root labels, every label
    but the server's own and every annotation and finalizer as it was, controlled by the
    project; for each of the two roles a binding serves exactly the users listed with it,
    and without such users there is none, unless a finalizer holds an old one; the policies
    of the preset in force are in place, and the other managed ones are gone, but for those
    the namespace does not control and those a finalizer holds; and the namespace is
    recorded in the status.  The preset in force is the documented one; only where the
    profile cannot be read and the project has none of its own may "tenant" replace it. *)
Theorem project_reconcile_correct (rr : RR) :
  well_keyed (storeOf rr) ->
  match runActions (rc_Actions NewOrganizationProjectReconciler) rr with
  | (Ret _, rr') => exists i o ns,
      preset_in_force (ReliableReads C) (storeOf rr) (Instance_ rr) i /\
      provisioned_as_asked i (Instance_ rr) (Instance_ rr') o ns (storeOf rr) (storeOf rr')
  | (Err _, _) => True
  | (Panic, _) => False
  end.
Proof.
  intros Hk. pose proof (project_reconcile_spec (ReliableReads C) id rr Hk) as Hwp.
  unfold wp, project_outcome in Hwp. destruct (runActions _ rr) as [r rr']. simpl in Hwp.
  destruct Hwp as (_ & _ & _ & Hr). destruct r; [|done..].
  destruct Hr as (i & o & ns & [Hi _] & Hr). exists i, o, ns. split; [done|]. by apply provisioned_asked.
Qed.

(** Whatever the outcome, and whatever the API server answers, a reconciliation
    changes nothing but the project's namespace, its two role bindings and its
    managed network policies; a network policy that the namespace does not control
    is neither changed nor deleted, even under a managed name. *)
Theorem project_reconcile_confined (rr : RR) :
  well_keyed (storeOf rr) ->
  let st' := storeOf (snd (runActions (rc_Actions NewOrganizationProjectReconciler) rr)) in
  confined (Instance_ rr) (storeOf rr) st' /\ foreign_kept (Instance_ rr) (storeOf rr) st'.
Proof.
  intros Hk. pose proof (project_reconcile_spec False (False_ind _) rr Hk) as Hwp.
  unfold wp, project_outcome in Hwp. simpl. by destruct Hwp as (? & ? & _).
Qed.

(** A project whose organization is stored without a root is not provisioned: the
    reconciliation stops with a request to try again in ten seconds; one whose
    organization does not exist fails with another error.  Neither stores anything. *)
Theorem project_waits_for_organization `{Rel : !ReliableReads C} (rr : RR) :
  match s_organizations (storeOf rr) !! projectOrg (Instance_ rr) with
  | Some o => Root (organization_Status o) = ""
  | None => True
  end ->
  exists e rr', runActions (rc_Actions NewOrganizationProjectReconciler) rr = (Err e, rr') /\
    storeOf rr' = storeOf rr /\ Instance_ rr' = Instance_ rr /\
    (is_Some (s_organizations (storeOf rr) !! projectOrg (Instance_ rr)) <->
     exists t, e = StopError t 10).
Proof.
  intros Horg. simpl.
  pose proof (validateParentOrganization_spec True (fun _ => Rel) rr) as Hwp. unfold wp in Hwp.
  destruct (validateParentOrganization rr) as [[[]|e|] rr'] eqn:Hrun; simpl in Hwp;
    destruct Hwp as (Hs & Hi & Hr); [| |done].
  { destruct Hr as (o & Ho & Hroot & _). by rewrite Ho in Horg. }
  exists e, rr'. split; [by apply (run_stop _ _ _ _ _ Hrun)|]. split; [done|]. split; [done|].
  destruct e as [e|t|t e|t d].
  1-3: destruct Hr as [_ Hnone]; rewrite Hnone by done; (split; [by intros []|by intros []]).
  destruct Hr as (-> & _ & o & Ho & _). split; [by exists t|]. by rewrite Ho.
Qed.

(** The preset in force is the project's own, else the default of its organization's
    profile, else "tenant"; computing it always succeeds, and while profiles cannot be
    read it is the project's own or "tenant", never an open namespace by accident. *)
Theorem effective_isolation_correct (rr : RR) :
  exists rr' i, computeEffectiveIsolation rr = (Ret tt, rr') /\
    stateIn rr' = withIsolation i (stateIn rr) /\ storeOf rr' = storeOf rr /\
    (ReliableReads C -> i = preset (storeOf rr) (Instance_ rr)) /\
    (NetworkIsolation (project_Spec (Instance_ rr)) <> "" ->
     i = NetworkIsolation (project_Spec (Instance_ rr))) /\
    (i = "none" -> preset (storeOf rr) (Instance_ rr) = "none").
Proof.
  pose proof (computeEffectiveIsolation_spec (ReliableReads C) id rr) as Hwp. unfold wp in Hwp.
  destruct (computeEffectiveIsolation rr) as [r rr'] eqn:Hrun. simpl in Hwp.
  destruct Hwp as (-> & Hs & _ & i & Hst & Hor & HR & Hown). exists rr', i.
  repeat (split; [done|]). intros Hi. destruct Hor as [<-|Ht]; [done|]. by rewrite Ht in Hi.
Qed.

(** C15: access is exact: after a successful reconciliation the subjects bound in the
    namespace for a role are those of the project users listed with that role and no
    others, and the binding refers to the cluster role of that name; a binding left
    over from removed users is gone unless a finalizer holds it. *)
Theorem role_bindings_exact (rr rr' : RR) role :
  well_keyed (storeOf rr) ->
  runActions (rc_Actions NewOrganizationProjectReconciler) rr = (Ret tt, rr') ->
  role ∈ ["edit"; "view"] ->
  let key := bindingKey (Name (project_meta (Instance_ rr))) role in
  (forall b, s_rolebindings (storeOf rr) !! key = Some b -> Finalizers (rb_meta b) = []) ->
  (forall s, (exists b, s_rolebindings (storeOf rr') !! key = Some b /\ s ∈ elems (rb_Subjects b)) <->
     exists u, u ∈ elems (Users (project_Spec (Instance_ rr))) /\ pu_Role u = role /\ s = subjectOf u) /\
  (forall b, s_rolebindings (storeOf rr') !! key = Some b ->
     rb_RoleRef b = {| rr_APIGroup := rbacGroupName; rr_Kind := "ClusterRole"; rr_Name := role |}).
Proof.
  intros Hk Hrun Hrole key Hfin.
  pose proof (wp_run _ _ _ _ _ (project_reconcile_spec False (False_ind _) rr Hk) Hrun)
    as (_ & _ & _ & i & o & ns & _ & Hprov).
  pose proof (pp_bindings _ _ _ _ _ _ _ Hprov role Hrole) as Hb. unfold binding_state in Hb.
  rewrite (pp_name _ _ _ _ _ _ _ Hprov) in Hb. fold key in Hb. rewrite subjectsForRole_spec in Hb.
  assert (forall s, s ∈ map subjectOf (filter (fun u => pu_Role u = role)
                          (elems (Users (project_Spec (Instance_ rr))))) <->
    exists u, u ∈ elems (Users (project_Spec (Instance_ rr))) /\ pu_Role u = role /\ s = subjectOf u) as Hmem.
  { intros s. rewrite list_elem_of_fmap. setoid_rewrite list_elem_of_filter. naive_solver. }
  setoid_rewrite <- Hmem.
  destruct (map subjectOf _) as [|s0 ss] eqn:Hss.
  - assert (forall b, s_rolebindings (storeOf rr') !! key <> Some b) as Hnone.
    { intros b Hb'. destruct (Hb b Hb') as (b1 & Hb1 & Hf). by rewrite (Hfin b1 Hb1) in Hf. }
    split; [|intros b Hb'; by destruct (Hnone b)]. intros s. split.
    + intros (b & Hb' & _). by destruct (Hnone b).
    + by intros ?%elem_of_nil.
  - destruct Hb as (b & Hb & Hsub & Href & _). rewrite Hb. split; [|by intros b' [= <-]].
    intros s. split; [intros (b' & [= <-] & Hs); by rewrite Hsub in Hs|].
    intros Hs. exists b. by rewrite Hsub.
Qed.

(** C16: the preset is what the network enforces.  After a successful reconciliation of a
    project whose namespace holds no policies of others, a pod of the namespace
    accepts traffic from everywhere under "none", from its own namespace only under
    "strict", and under every other preset exactly from the namespaces labelled with
    the project's organization; also when another preset was in force before. *)
Theorem preset_enforced `{Rel : !ReliableReads C} (rr rr' : RR) src dst :
  well_keyed (storeOf rr) ->
  runActions (rc_Actions NewOrganizationProjectReconciler) rr = (Ret tt, rr') ->
  only_managed (Instance_ rr) (storeOf rr) (storeOf rr') ->
  pod_ns dst = Name (project_meta (Instance_ rr)) ->
  ingress_allowed (policiesIn (storeOf rr')) src dst =
  if decide (preset (storeOf rr) (Instance_ rr) = "none") then true
  else if decide (preset (storeOf rr) (Instance_ rr) = "strict")
  then bool_decide (pod_ns src = Name (project_meta (Instance_ rr)))
  else bool_decide (pod_nsLabels src !! labelOrganization = Some (projectOrg (Instance_ rr))).
Proof.
  intros Hk Hrun Hown Hdst.
  pose proof (wp_run _ _ _ _ _ (project_reconcile_spec True (fun _ => Rel) rr Hk) Hrun)
    as (Hconf & _ & _ & i & o & ns & [(_ & Hpre & _) _] & Hprov).
  rewrite <- (Hpre I). by eapply provisioned_traffic.
Qed.
End theorems.

(* ------------------------------------------------------------------ *)
(** ** Runs *)

Section runs.
Import FakeInstances.
#[local] Existing Instance sequentialFramework.
#[local] Existing Instance sequentialFramework_laws.

Definition projectUser (kind name ns role : string) : ProjectUser :=
  {| pu_Kind := kind; pu_Name := name; pu_Namespace := ns; pu_Role := role |}.

(** A project of the organization [owner] with two editors and no viewer. *)
Definition lab (owner : string) : OrganizationProject :=
  {| project_meta := setUID (namedMeta "" "lab") "uid-lab";
     project_Spec := {| project_OrganizationRef := {| ref_Name := owner |};
                        Users := Some [projectUser "User" "dora" "" "edit";
                                       projectUser "ServiceAccount" "ci" "build" "edit"];
                        NetworkIsolation := ""; NetworkGrants := None |};
     project_Status := {| project_apiStatus := zeroStatus; status_Namespace := "" |} |}.

Definition labNs : Namespaced := {| ns_meta := setUID (namedMeta "" "lab") "uid-ns-lab" |}.

(** Left over from the time the project was "strict". *)
Definition labStrict : NetworkPolicy :=
  {| np_meta := setOwnerReferences (namedMeta "lab" npAllowSameNS)
                  [ownerRef (namespaceOwner labNs) (Some true)];
     np_Spec := np_Spec (allowSameNamespace "lab") |}.

Definition labStore : Store := {|
  s_organizations := s_organizations demoStore;
  s_profiles := s_profiles demoStore;
  s_projects := ∅; s_maas := ∅;
  s_namespaces := {["lab" := labNs]};
  s_rolebindings := ∅;
  s_networkpolicies := {[("lab", npAllowSameNS) := labStrict]};
  s_aitenants := ∅ |}.

Definition projectRequest (s : Store) (p : OrganizationProject)
    : ReconciliationRequest OrganizationProject Extension :=
  {| Client := fakeWorld s; Instance_ := p; Conditions := []; Extensions := None |}.

Lemma lab_policy k np :
  s_networkpolicies labStore !! k = Some np -> k = ("lab", npAllowSameNS) /\ np = labStrict.
Proof. simpl. intros H. apply lookup_singleton_Some in H as [<- <-]. done. Qed.

Lemma lab_namespace k ns : s_namespaces labStore !! k = Some ns -> k = "lab" /\ ns = labNs.
Proof. simpl. intros H. apply lookup_singleton_Some in H as [<- <-]. done. Qed.

Lemma labStore_keyed : well_keyed (storeOf (projectRequest labStore (lab "genomics"))).
Proof.
  split.
  - intros k p Hk. by apply lab_policy in Hk as [-> ->].
  - intros k ns Hk. by apply lab_namespace in Hk as [-> ->].
Qed.

Lemma lab_reconciles : exists rr',
  runActions (rc_Actions NewOrganizationProjectReconciler) (projectRequest labStore (lab "genomics")) =
  (Ret tt, rr').
Proof.
  destruct (runActions _ _) as [[[]|e|] rr'] eqn:Hrun;
    [by exists rr'|apply (f_equal (fun x => is_ret (fst x))) in Hrun; vm_compute in Hrun; discriminate..].
Qed.

Lemma project_reconcile_correct_witness :
  exists i o ns rr',
    preset_in_force (ReliableReads FakeCluster) labStore (lab "genomics") i /\
    provisioned_as_asked i (lab "genomics") (Instance_ rr') o ns labStore (storeOf rr').
Proof.
  pose proof (project_reconcile_correct _ labStore_keyed) as H. destruct lab_reconciles as [rr' Hrun].
  rewrite Hrun in H. destruct H as (i & o & ns & H). exists i, o, ns, rr'. exact H.
Defined.

Lemma project_reconcile_confined_witness :
  exists st', confined (lab "genomics") labStore st' /\ foreign_kept (lab "genomics") labStore st'.
Proof. eexists. exact (project_reconcile_confined _ labStore_keyed). Defined.

Lemma project_waits_for_organization_witness :
  exists e rr',
    runActions (rc_Actions NewOrganizationProjectReconciler) (projectRequest labStore (lab "unknown")) =
    (Err e, rr') /\ storeOf rr' = labStore.
Proof.
  destruct (project_waits_for_organization (projectRequest labStore (lab "unknown")))
    as (e & rr' & Hrun & Hs & _); [|exists e, rr'; split; [exact Hrun|exact Hs]].
  assert (s_organizations (storeOf (projectRequest labStore (lab "unknown"))) !! "unknown" = None) as Hn
    by store_lookup.
  change (projectOrg _) with "unknown". by rewrite Hn.
Defined.

Lemma effective_isolation_correct_witness :
  exists rr', computeEffectiveIsolation (projectRequest labStore (lab "genomics")) = (Ret tt, rr') /\
    st_isolation (stateIn rr') = "tenant".
Proof.
  destruct (effective_isolation_correct (projectRequest labStore (lab "genomics")))
    as (rr' & i & Hrun & Hst & _ & Hpre & _). exists rr'. split; [exact Hrun|].
  rewrite Hst. simpl. rewrite (Hpre _). unfold preset.
  rewrite decide_False by (intros H; by apply H).
  assert (s_profiles (storeOf (projectRequest labStore (lab "genomics"))) !! "genomics" =
          Some (profileWith "genomics" None 2)) as Hp by (apply demo_profile; auto).
  change (projectOrg _) with "genomics". by rewrite Hp.
Defined.

Lemma role_bindings_exact_witness :
  exists rr', forall s,
    (exists b, s_rolebindings (storeOf rr') !! bindingKey "lab" "edit" = Some b /\
       s ∈ elems (rb_Subjects b)) <->
    exists u, u ∈ elems (Users (project_Spec (lab "genomics"))) /\ pu_Role u = "edit" /\ s = subjectOf u.
Proof.
  destruct lab_reconciles as [rr' Hrun]. exists rr'.
  apply (role_bindings_exact (projectRequest labStore (lab "genomics")) rr' "edit" labStore_keyed Hrun).
  - left.
  - intros b Hb. simpl in Hb. by rewrite lookup_empty in Hb.
Defined.

(** The stored namespace still controls the left-over policy after the run. *)
Lemma lab_only_managed rr' :
  runActions (rc_Actions NewOrganizationProjectReconciler) (projectRequest labStore (lab "genomics")) =
  (Ret tt, rr') -> only_managed (lab "genomics") labStore (storeOf rr').
Proof.
  intros Hrun name np Hk. apply lab_policy in Hk as [[= ->] ->].
  split; [apply (bool_decide_unpack _); reflexivity|]. split; [done|]. intros ns Hns.
  assert (match s_namespaces (storeOf (snd (runActions (rc_Actions NewOrganizationProjectReconciler)
                   (projectRequest labStore (lab "genomics"))))) !! "lab" with
          | Some ns => IsControlledBy (np_meta labStrict) (ns_meta ns)
          | None => true end = true) as Hb by (vm_compute; reflexivity).
  rewrite Hrun in Hb. simpl in Hb, Hns. by rewrite Hns in Hb.
Qed.

Lemma preset_enforced_witness :
  exists rr', forall src,
    ingress_allowed (policiesIn (storeOf rr')) src
      {| pod_ns := "lab"; pod_nsLabels := ∅; pod_labels := ∅ |} =
    bool_decide (pod_nsLabels src !! labelOrganization = Some "genomics").
Proof.
  destruct lab_reconciles as [rr' Hrun]. exists rr'. intros src.
  rewrite (preset_enforced (projectRequest labStore (lab "genomics")) rr' src _ labStore_keyed Hrun);
    [|exact (lab_only_managed _ Hrun)|reflexivity].
  assert (preset (storeOf (projectRequest labStore (lab "genomics"))) (lab "genomics") = "tenant") as Hpre.
  { unfold preset. rewrite decide_False by (intros H; by apply H).
    assert (s_profiles (storeOf (projectRequest labStore (lab "genomics"))) !! "genomics" =
            Some (profileWith "genomics" None 2)) as Hp by (apply demo_profile; auto).
    change (projectOrg _) with "genomics". by rewrite Hp. }
  change (Instance_ _) with (lab "genomics"). rewrite Hpre. reflexivity.
Defined.
End runs.
