(* ===== verification/ProjectLiveness.v ===== *)
(** Progress of the OrganizationProject controller: with an API server that is up and
    nothing in the way, one reconciliation provisions the project, and from then on
    reconciling again writes nothing.

    [unobstructed] is what may not be in the way; [settled] is the fixed point: each
    object the controller maintains is what its own mutation would make of it. *)

From stdpp Require Import gmap strings list.
From Stdlib Require Import ZArith.
From S2P Require Import Prelude Platform Api Cluster Fake Validation Available Framework OrganizationCtl ProjectCtl NetPol.
From S2P Require Import ProjectSpecs ProjectPipeline ProjectTheorems.

Local Open Scope string_scope.

Section mutations.
  Context `{P : Platform} `{PL : !PlatformLaws P}.

Lemma IsControlledBy_UID m o o' : UID o = UID o' -> IsControlledBy m o = IsControlledBy m o'.
Proof. intros Hu. apply Bool.eq_iff_eq_true. rewrite !IsControlledBy_spec, Hu. done. Qed.

Lemma claimable_labels o m l : claimable o (setLabels m l) <-> claimable o m.
Proof. done. Qed.

Lemma controlled_claimable o m m' : SetControllerReference o m = inr m' -> claimable o m'.
Proof. intros H r Hr. rewrite (SetControllerReference_ref _ _ _ H) in Hr. by simplify_eq. Qed.

(** *** The namespace *)

Lemma setLabels_same m l : Labels m = l -> setLabels m l = m.
Proof. intros <-. by destruct m. Qed.

(** Taking control again of what the server stored. *)
Lemma SetControllerReference_same o m m' m'' :
  SetControllerReference o m = inr m' -> same_meta m' m'' -> SetControllerReference o m'' = inr m''.
Proof.
  intros Href Hsame. pose proof (SetControllerReference_again _ _ _ (UID m'') (Labels m') Href) as H.
  rewrite (setLabels_same (setUID _ _)) in H by done. unfold same_meta in Hsame. by rewrite <- Hsame in H.
Qed.

(** Mutating the namespace the server stored gives the same namespace. *)
Lemma mutateNamespace_again p o ns ns1 ns' :
  mutateNamespace p o ns = Ret ns1 -> same_namespace_meta (ns_meta ns1) (ns_meta ns') ->
  mutateNamespace p o ns' = Ret ns'.
Proof.
  intros Hmut Hsame.
  assert (exists l meta, SetControllerReference (projectOwner p)
      (setLabels (ns_meta ns) (Some (<[labelOrganizationRoot := Root (organization_Status o)]>
         (<[labelOrganization := projectOrg p]> l)))) = inr meta /\ ns1 = {| ns_meta := meta |})
    as (l & meta & Href & ->).
  { unfold mutateNamespace in Hmut. destruct (Labels (ns_meta ns)) as [l|]; [exists l|exists ∅]; simpl in Hmut;
      destruct (SetControllerReference _ _) as [e|meta] eqn:Href; simplify_eq/=; eauto. }
  destruct Hsame as [Hsame Hl]. simpl in Hsame, Hl.
  pose proof (SetControllerReference_ok _ _ _ Href) as [_ Hmeta].
  pose proof (SetControllerReference_again _ _ _ (UID (ns_meta ns')) (Labels (ns_meta ns')) Href) as Hagain.
  rewrite <- Hsame in Hagain. rewrite Hmeta in Hl. simpl in Hl.
  assert (exists l', Labels (ns_meta ns') = Some l' /\ l' !! labelOrganization = Some (projectOrg p) /\
    l' !! labelOrganizationRoot = Some (Root (organization_Status o))) as (l' & Hl' & Ho & Hr).
  { destruct Hl as [-> | ->]; simpl; eexists; (split; [done|]);
      [|rewrite !(lookup_insert_ne _ namespaceNameLabel) by done];
      rewrite lookup_insert_eq, lookup_insert_ne, lookup_insert_eq by done; done. }
  unfold mutateNamespace. rewrite Hl'. simpl.
  rewrite (insert_id _ labelOrganization), (insert_id _ labelOrganizationRoot) by done.
  rewrite setLabels_same by done. rewrite Hagain. simpl. by destruct ns'.
Qed.

Lemma mutateNamespace_claims p o ns :
  claimable (projectOwner p) (ns_meta ns) -> Namespace (project_meta p) = "" ->
  exists ns1, mutateNamespace p o ns = Ret ns1.
Proof.
  intros Hc Hn. unfold mutateNamespace.
  assert (forall l, exists m', SetControllerReference (projectOwner p) (setLabels (ns_meta ns) l) = inr m') as Hok.
  { intros l. by apply SetControllerReference_claims. }
  destruct (Labels (ns_meta ns)); simpl;
    match goal with |- context [SetControllerReference _ (setLabels _ ?l)] => destruct (Hok l) as [m' ->] end;
    simpl; eauto.
Qed.

Lemma mutateNamespace_meta p o ns ns1 : mutateNamespace p o ns = Ret ns1 ->
  Name (ns_meta ns1) = Name (ns_meta ns) /\ Namespace (ns_meta ns1) = Namespace (ns_meta ns) /\
  UID (ns_meta ns1) = UID (ns_meta ns) /\ DeletionTimestamp (ns_meta ns1) = DeletionTimestamp (ns_meta ns).
Proof.
  unfold mutateNamespace. intros Hmut.
  destruct (Labels (ns_meta ns)); simpl in Hmut;
    destruct (SetControllerReference _ _) as [e|meta] eqn:Href; simplify_eq/=;
    apply SetControllerReference_ok in Href as [_ ->]; done.
Qed.

(** The names that end up in the objects of a project. *)
Record names_valid (p : OrganizationProject) (o : Organization) : Prop := {
  nv_name : dnsLabel (Name (project_meta p)) = true;
  nv_organization : labelValue (projectOrg p) = true;
  nv_root : labelValue (Root (organization_Status o)) = true;
  nv_users u : u ∈ elems (Users (project_Spec p)) -> subjectValid (subjectOf u) = true;
}.

(** A namespace that the controller can claim and the server lets it change. *)
Record namespace_ready (p : OrganizationProject) (m : ObjectMeta) : Prop := {
  nr_name : Name m = Name (project_meta p);
  nr_scope : Namespace m = "";
  nr_claim : claimable (projectOwner p) m;
  nr_labels : labels_valid (Labels m);
  nr_active : DeletionTimestamp m = None;
}.

Lemma mutateNamespace_labels p o ns ns1 :
  mutateNamespace p o ns = Ret ns1 -> names_valid p o -> labels_valid (Labels (ns_meta ns)) ->
  labels_valid (Labels (ns_meta ns1)).
Proof.
  intros Hmut [_ Horg Hroot _] Hl.
  assert (exists l, Labels (ns_meta ns1) = Some (<[labelOrganizationRoot := Root (organization_Status o)]>
         (<[labelOrganization := projectOrg p]> l)) /\ labels_valid (Some l)) as (l & -> & Hl').
  { unfold mutateNamespace in Hmut. destruct (Labels (ns_meta ns)) as [l|]; [exists l|exists ∅]; simpl in Hmut;
      destruct (SetControllerReference _ _) as [e|meta] eqn:Href; simplify_eq/=;
      apply SetControllerReference_ok in Href as [_ ->]; done. }
  by apply labels_valid_insert, labels_valid_insert.
Qed.

(** The server's own label is valid too. *)
Lemma same_namespace_labels m m' :
  same_namespace_meta m m' -> dnsLabel (Name m) = true -> labels_valid (Labels m) -> labels_valid (Labels m').
Proof.
  intros [_ [-> | ->]] Hn Hl; [done|]. apply labels_valid_insert; [done|by apply dnsLabel_value|]. exact Hl.
Qed.

Lemma mutateNamespace_accepted p o ns ns1 st old :
  mutateNamespace p o ns = Ret ns1 -> names_valid p o -> namespace_ready p (ns_meta ns) ->
  namespace_accepted st old ns1.
Proof.
  intros Hmut Hv [Hname Hscope _ Hl _]. destruct (mutateNamespace_meta _ _ _ _ Hmut) as (Hn & Hs & _).
  split; [congruence|]. split; [rewrite Hn, Hname; apply Hv|]. by eapply mutateNamespace_labels.
Qed.

Lemma mutateNamespace_ready p o ns ns1 ns' :
  mutateNamespace p o ns = Ret ns1 -> same_namespace_meta (ns_meta ns1) (ns_meta ns') ->
  names_valid p o -> namespace_ready p (ns_meta ns) -> namespace_ready p (ns_meta ns').
Proof.
  intros Hmut Hsame Hv [Hname Hscope _ Hl Hact].
  destruct (mutateNamespace_meta _ _ _ _ Hmut) as (Hn & Hs & _ & Hd).
  pose proof (mutateNamespace_again _ _ _ _ _ Hmut Hsame) as Hfix. pose proof (proj1 Hsame) as Hm.
  constructor.
  - rewrite Hm. simpl. congruence.
  - rewrite Hm. simpl. congruence.
  - unfold mutateNamespace in Hfix. destruct (Labels (ns_meta ns')); simpl in Hfix;
      destruct (SetControllerReference _ _) as [e|meta] eqn:Href; simplify_eq/=; by eapply controlled_claimable.
  - eapply same_namespace_labels; [exact Hsame| |by eapply mutateNamespace_labels].
    rewrite Hn, Hname. apply Hv.
  - rewrite Hm. simpl. congruence.
Qed.

(** *** Bindings and policies *)

Lemma subjectsForRole_in users role ss s :
  subjectsForRole users role = Some ss -> s ∈ ss ->
  exists u, u ∈ elems users /\ pu_Role u = role /\ s = subjectOf u.
Proof.
  rewrite subjectsForRole_spec. intros Hss Hs.
  assert (s ∈ map subjectOf (filter (fun u => pu_Role u = role) (elems users))) as Hin
    by (destruct (map subjectOf _); [done|by simplify_eq]).
  apply list_elem_of_fmap in Hin as (u & -> & Hu). apply list_elem_of_filter in Hu as [??]. eauto.
Qed.

Lemma mutateBinding_accepted st ns role users ss b b1 :
  mutateBinding ns role (Some ss) b = Ret b1 -> subjectsForRole users role = Some ss ->
  (forall u, u ∈ elems users -> subjectValid (subjectOf u) = true) -> role <> "" ->
  forall old, (old = None -> active (Namespace (rb_meta b)) st) ->
  (forall b0, old = Some b0 -> rb_RoleRef b0 =
    {| rr_APIGroup := rbacGroupName; rr_Kind := "ClusterRole"; rr_Name := role |}) ->
  binding_accepted st old b1.
Proof.
  unfold mutateBinding. destruct (SetControllerReference _ (rb_meta b)) as [e|meta] eqn:Href; [done|].
  simpl. intros [= <-] Hss Hu Hr old Hact Hold. apply SetControllerReference_ok in Href as [_ Hmeta].
  split; [by rewrite Hmeta|]. split; [done|]. split; [simpl; right; left|]. split; [done|]. split; simpl.
  - intros s Hs. destruct (subjectsForRole_in _ _ _ _ Hss Hs) as (u & Hin & _ & ->). by apply Hu.
  - intros b0 Hb0. by rewrite (Hold b0 Hb0).
Qed.

Lemma desired_valid p nsName i np :
  np ∈ desiredNetworkPolicies p nsName i -> labelValue (projectOrg p) = true -> policy_valid (np_Spec np).
Proof.
  intros Hnp Ho.
  assert (selector_valid emptySelector) as He by apply labels_valid_empty.
  unfold desiredNetworkPolicies in Hnp.
  repeat case_decide; rewrite ?elem_of_cons, elem_of_nil in Hnp; destruct_or?; subst; try done;
    (split; [done|]); simpl; intros r q Hr Hq;
    rewrite ?elem_of_cons, ?elem_of_nil in Hr; destruct_or?; subst; try done; simpl in Hq;
    rewrite ?elem_of_cons, ?elem_of_nil in Hq; destruct_or?; subst; try done;
    (split; [simpl; auto|]); split; simpl; intros s [= <-]; [done|].
  by apply (labels_valid_insert _ _ ∅).
Qed.

Lemma mutateBinding_again ns role ss b b1 b' :
  mutateBinding ns role ss b = Ret b1 -> ksame rolebindingKind b1 b' -> mutateBinding ns role ss b' = Ret b'.
Proof.
  unfold mutateBinding. destruct (SetControllerReference _ (rb_meta b)) as [e|meta] eqn:Href; [done|].
  simpl. intros [= <-] (Hmeta & Href' & Hsub). simpl in *.
  rewrite (SetControllerReference_same _ _ _ _ Href Hmeta). simpl.
  destruct b'; simpl in *. by subst.
Qed.

Lemma mutateBinding_fixed ns role ss b : mutateBinding ns role ss b = Ret b ->
  rb_RoleRef b = {| rr_APIGroup := rbacGroupName; rr_Kind := "ClusterRole"; rr_Name := role |} /\
  claimable (namespaceOwner ns) (rb_meta b).
Proof.
  unfold mutateBinding. destruct (SetControllerReference _ (rb_meta b)) as [e|meta] eqn:Href; [done|].
  simpl. intros [= Heq]. rewrite <- Heq. split; [done|]. simpl. by eapply controlled_claimable.
Qed.

Lemma mutatePolicy_again ns spec q q1 q' :
  mutatePolicy ns spec q = Ret q1 -> ksame networkpolicyKind q1 q' -> mutatePolicy ns spec q' = Ret q'.
Proof.
  unfold mutatePolicy. destruct (SetControllerReference _ (np_meta q)) as [e|meta] eqn:Href; [done|].
  simpl. intros [= <-] (Hmeta & Hspec). simpl in *.
  rewrite (SetControllerReference_same _ _ _ _ Href Hmeta). simpl.
  destruct q'; simpl in *. by subst.
Qed.
End mutations.

Section actions.
  Context `{P : Platform} `{C : !Cluster} `{L : !LawfulCluster C} `{PL : !PlatformLaws P}.
  Context `{A : !AvailableCluster C}.
  Abbreviation RR := (ReconciliationRequest OrganizationProject Extension).
  Implicit Types rr : RR.

Lemma kput_namespaces s : kput namespaceKind (ksel namespaceKind s) s = s.
Proof. by destruct s. Qed.
Lemma kput_rolebindings s : kput rolebindingKind (ksel rolebindingKind s) s = s.
Proof. by destruct s. Qed.
Lemma kput_networkpolicies s : kput networkpolicyKind (ksel networkpolicyKind s) s = s.
Proof. by destruct s. Qed.

(* ------------------------------------------------------------------ *)
(** ** Each action returns *)

(** The namespace after ensureNamespace: a fixed point of its mutation, with the UID it
    had, and unchanged if it was one already. *)
Definition namespace_settled rr (o : Organization) rr' : Prop :=
  exists ns,
    mutateNamespace (Instance_ rr) o ns = Ret ns /\ namespace_ready (Instance_ rr) (ns_meta ns) /\
    (forall ns0, s_namespaces (storeOf rr) !! Name (project_meta (Instance_ rr)) = Some ns0 ->
       UID (ns_meta ns) = UID (ns_meta ns0) /\
       (mutateNamespace (Instance_ rr) o ns0 = Ret ns0 -> ns = ns0)) /\
    storeOf rr' = stored namespaceKind (Name (project_meta (Instance_ rr))) ns (storeOf rr) /\
    stateIn rr' = withNamespace ns (stateIn rr) /\
    Instance_ rr' = withStatusNamespace (Instance_ rr) (Name (project_meta (Instance_ rr))).

Lemma ensureNamespace_returns rr o :
  st_organization (stateIn rr) = Some o -> Namespace (project_meta (Instance_ rr)) = "" ->
  names_valid (Instance_ rr) o ->
  namespace_ready (Instance_ rr) (namespaceBefore (storeOf rr) (Instance_ rr)) ->
  wp ensureNamespace (returns (namespace_settled rr o)) rr.
Proof.
  intros Ho Hn Hv Hready. unfold ensureNamespace. apply wp_bind, wp_instance, wp_bind, wp_stateFor.
  intros rr1 (Hc1 & Hi1 & _) Hst1. rewrite Ho. apply wp_bind, wp_onClient.
  assert (storeOf rr1 = storeOf rr) as Hs1 by (unfold storeOf; by rewrite Hc1).
  set (before := default {| ns_meta := namedMeta "" (Name (project_meta (Instance_ rr))) |}
                   (s_namespaces (storeOf rr) !! Name (project_meta (Instance_ rr)))).
  assert (namespace_ready (Instance_ rr) (ns_meta before)) as Hbefore.
  { revert Hready. unfold before, namespaceBefore. by destruct (s_namespaces (storeOf rr) !! _). }
  destruct (mutateNamespace_claims (Instance_ rr) o before) as [ns1 Hmut]; [apply Hbefore|done|].
  pose proof (mutateNamespace_meta _ _ _ _ Hmut) as (_ & _ & Huid1 & _).
  apply (wp_CreateOrUpdate_available _ _ namespaceKind namespace_accepted kput_namespaces _ _ ns1);
    simpl; change (view (Client rr1)) with (storeOf rr1); rewrite Hs1;
    [exact Hmut|by eapply mutateNamespace_accepted|].
  intros ns w Hsame Hvw Hkept. apply wp_bind, wp_updateState. intros rr2 (Hc2 & Hi2 & _) Hst2.
  assert (storeOf rr2 = stored namespaceKind (Name (project_meta (Instance_ rr))) ns (storeOf rr)) as Hs2
    by (unfold storeOf at 1; by rewrite Hc2).
  assert (stateIn rr2 = withNamespace ns (stateIn rr)) as Hst
    by (rewrite Hst2; unfold withClient, stateIn in *; simpl; by rewrite Hst1).
  simpl in Hi2. rewrite Hi1 in Hi2.
  assert (forall rr', storeOf rr' = storeOf rr2 -> stateIn rr' = stateIn rr2 ->
    Instance_ rr' = withStatusNamespace (Instance_ rr) (Name (project_meta (Instance_ rr))) ->
    namespace_settled rr o rr') as Hdone.
  { intros rr' Hs' Hst' Hi'. exists ns. rewrite Hs', Hst'. split_and!; try done.
    - by eapply mutateNamespace_again.
    - by eapply mutateNamespace_ready.
    - intros ns0 Hns0. destruct (Hkept ns0 Hns0) as [Hu Heq].
      assert (before = ns0) as Hb by (unfold before; by rewrite Hns0). rewrite Hb in Hmut, Huid1.
      split; [congruence|]. intros Hfix0. destruct Heq as [-> _]; [congruence|done]. }
  case_decide as Hsn; [apply wp_setInstance|apply wp_ret]; (split; [done|]); apply Hdone; try done.
  rewrite Hi2. destruct (Instance_ rr) as [pm ps []]. simpl in *. by rewrite <- Hsn.
Qed.

(** *** One role *)

Definition roleRef (role : string) : RoleRef :=
  {| rr_APIGroup := rbacGroupName; rr_Kind := "ClusterRole"; rr_Name := role |}.

(** Nothing keeps the controller from maintaining the binding of a role. *)
Definition binding_free (ns : Namespaced) (users : slice ProjectUser) (role : string) (st : Store) : Prop :=
  forall b, s_rolebindings st !! bindingKey (Name (ns_meta ns)) role = Some b ->
    match subjectsForRole users role with
    | Some _ => claimable (namespaceOwner ns) (rb_meta b) /\ rb_RoleRef b = roleRef role
    | None => Finalizers (rb_meta b) = []
    end.

Definition binding_settled (ns : Namespaced) (users : slice ProjectUser) (role : string) (st : Store) : Prop :=
  match subjectsForRole users role with
  | Some ss => exists b, s_rolebindings st !! bindingKey (Name (ns_meta ns)) role = Some b /\
                 mutateBinding ns role (Some ss) b = Ret b
  | None => s_rolebindings st !! bindingKey (Name (ns_meta ns)) role = None
  end.

Lemma binding_settled_free ns users role st : binding_settled ns users role st -> binding_free ns users role st.
Proof.
  unfold binding_settled, binding_free. destruct (subjectsForRole users role); [|congruence].
  intros (b & Hb & Hmut) b' Hb'. simplify_eq. by apply mutateBinding_fixed in Hmut as [? ?].
Qed.

Lemma changes_only_refl_rb k st : changes_only rolebindingKind k st st.
Proof. split; [apply kput_self_rolebinding|done]. Qed.

Lemma ensureBinding_returns p ns role rr :
  Namespace (ns_meta ns) = "" -> active (Name (ns_meta ns)) (storeOf rr) -> role <> "" ->
  (forall u, u ∈ elems (Users (project_Spec p)) -> subjectValid (subjectOf u) = true) ->
  binding_free ns (Users (project_Spec p)) role (storeOf rr) ->
  wp (ensureBinding p ns role)
     (returns (fun rr' =>
        Instance_ rr' = Instance_ rr /\ stateIn rr' = stateIn rr /\
        changes_only rolebindingKind (bindingKey (Name (ns_meta ns)) role) (storeOf rr) (storeOf rr') /\
        binding_settled ns (Users (project_Spec p)) role (storeOf rr') /\
        (binding_settled ns (Users (project_Spec p)) role (storeOf rr) -> storeOf rr' = storeOf rr))) rr.
Proof.
  intros Hns Hact Hrole Husers Hfree. unfold ensureBinding, binding_free, binding_settled in *. case_decide as Hlen.
  - apply subjectsForRole_length in Hlen. rewrite Hlen in *. apply wp_bind, wp_onClient.
    apply (wp_Delete_available _ _ rolebindingKind binding_accepted);
      simpl; change (view (Client rr)) with (storeOf rr).
    intros r w Hnf Hr Habs Hpres.
    assert (IgnoreNotFound r = None) as ->.
    { destruct r as [e|]; [|apply IgnoreNotFound_nil]. by rewrite IgnoreNotFound_err, (Hnf e eq_refl). }
    apply wp_ret. split; [done|]. split; [done|]. split; [done|].
    change (storeOf (withClient rr w)) with (view w).
    unfold bindingMeta, namespacedKey in *. simpl in *. fold (bindingKey (Name (ns_meta ns)) role) in *.
    destruct (s_rolebindings (storeOf rr) !! bindingKey (Name (ns_meta ns)) role) as [b|] eqn:Hb.
    + rewrite (Hpres b eq_refl (Hfree b eq_refl)). split_and!.
      * split; [done|]. intros k' Hk'. simpl. by rewrite lookup_delete_ne.
      * simpl. apply lookup_delete_eq.
      * congruence.
    + rewrite Habs by done. split_and!; [apply changes_only_refl_rb|done|done].
  - destruct (subjectsForRole _ role) as [ss|] eqn:Hsub; [|done].
    set (rb := {| rb_meta := _; rb_RoleRef := _; rb_Subjects := _ |}).
    set (before := default rb (s_rolebindings (storeOf rr) !! bindingKey (Name (ns_meta ns)) role)).
    assert (exists b1, mutateBinding ns role (Some ss) before = Ret b1) as [b1 Hmut].
    { unfold mutateBinding. destruct (SetControllerReference_claims (namespaceOwner ns) (rb_meta before)) as [m' ->]; simpl; eauto.
      unfold before. destruct (s_rolebindings _ !! _) as [b|] eqn:Hb; [by destruct (Hfree b eq_refl)|done]. }
    apply wp_bind, wp_onClient.
    apply (wp_CreateOrUpdate_available _ _ rolebindingKind binding_accepted kput_rolebindings _ _ b1);
      simpl; change (view (Client rr)) with (storeOf rr); [exact Hmut| |].
    { eapply mutateBinding_accepted; [exact Hmut|exact Hsub|done|done| |].
      - unfold before. intros Hnone. 
        change (s_rolebindings (storeOf rr) !! bindingKey (Name (ns_meta ns)) role = None) in Hnone. by rewrite Hnone.
      - intros b Hb. by destruct (Hfree b Hb) as [_ ->]. }
    intros b w Hsame Hv Hkept. apply wp_ret. split; [done|]. split; [done|]. split; [done|].
    change (storeOf (withClient rr w)) with (view w). rewrite Hv. split_and!.
    + split; [done|]. intros k' Hk'. simpl. by rewrite lookup_insert_ne.
    + exists b. simpl. rewrite lookup_insert_eq. split; [done|]. by eapply mutateBinding_again.
    + intros (b0 & Hb0 & Hfix). destruct (Hkept b0 Hb0) as [_ Heq].
      assert (before = b0) as Hb by (unfold before; by rewrite Hb0).
      rewrite <- Hv. apply Heq. rewrite Hb in Hmut. congruence.
Qed.

(** *** One policy *)

(** A policy under this name is the controller's own. *)
Definition policy_ours (ns : Namespaced) (name : string) (st : Store) : Prop :=
  forall q, s_networkpolicies st !! (Name (ns_meta ns), name) = Some q ->
    IsControlledBy (np_meta q) (ns_meta ns) = true /\ claimable (namespaceOwner ns) (np_meta q).

Definition policy_settled (ns : Namespaced) (np : NetworkPolicy) (st : Store) : Prop :=
  exists q, s_networkpolicies st !! (Name (ns_meta ns), Name (np_meta np)) = Some q /\
    IsControlledBy (np_meta q) (ns_meta ns) = true /\ mutatePolicy ns (np_Spec np) q = Ret q.

(** A policy the preset does not want: none of ours under this name. *)
Definition policy_absent (ns : Namespaced) (name : string) (st : Store) : Prop :=
  forall q, s_networkpolicies st !! (Name (ns_meta ns), name) = Some q ->
    IsControlledBy (np_meta q) (ns_meta ns) = false.

Lemma policy_settled_ours ns np st : policy_settled ns np st -> policy_ours ns (Name (np_meta np)) st.
Proof.
  intros (q & Hq & Hctl & Hmut) q' Hq'. assert (q' = q) as -> by congruence. split; [done|].
  unfold mutatePolicy in Hmut. destruct (SetControllerReference _ (np_meta q)) as [e|meta] eqn:Href; [done|]. simpl in Hmut.
  injection Hmut as Heq. rewrite <- Heq. simpl. by eapply controlled_claimable.
Qed.

Lemma changes_only_refl_np k st : changes_only networkpolicyKind k st st.
Proof. split; [apply kput_self_networkpolicy|done]. Qed.

(** After one policy has been written. *)
Definition policy_written (ns : Namespaced) (np : NetworkPolicy) rr rr' : Prop :=
  Instance_ rr' = Instance_ rr /\ stateIn rr' = stateIn rr /\
  changes_only networkpolicyKind (Name (ns_meta ns), Name (np_meta np)) (storeOf rr) (storeOf rr') /\
  policy_settled ns np (storeOf rr') /\
  (policy_settled ns np (storeOf rr) -> storeOf rr' = storeOf rr).

Lemma ensurePolicy_returns ns np rr :
  Namespace (ns_meta ns) = "" -> active (Name (ns_meta ns)) (storeOf rr) -> policy_valid (np_Spec np) ->
  policy_ours ns (Name (np_meta np)) (storeOf rr) ->
  wp (ensurePolicy ns np) (returns (policy_written ns np rr)) rr.
Proof.
  intros Hns Hact Hvalid Hours. unfold ensurePolicy.
  set (key := (Name (ns_meta ns), Name (np_meta np))) in *.
  set (q0 := {| np_meta := _; np_Spec := zeroPolicySpec |}).
  set (before := default q0 (s_networkpolicies (storeOf rr) !! key)).
  assert (exists meta, SetControllerReference (namespaceOwner ns) (np_meta before) = inr meta) as [meta Href].
  { apply SetControllerReference_claims; [|done]. unfold before.
    destruct (s_networkpolicies (storeOf rr) !! key) as [q|] eqn:Hq; [by destruct (Hours q Hq)|done]. }
  assert (mutatePolicy ns (np_Spec np) before = Ret {| np_meta := meta; np_Spec := np_Spec np |}) as Hmut
    by (unfold mutatePolicy; by rewrite Href).
  assert (forall w, view w = storeOf rr ->
    wp (onClient (CreateOrUpdate networkpolicies q0 (mutatePolicy ns (np_Spec np))) ;;; ret tt)
      (returns (policy_written ns np rr)) (withClient rr w)) as Happly.
  { intros w Hv. apply wp_bind, wp_onClient.
    apply (wp_CreateOrUpdate_available _ _ networkpolicyKind policy_accepted kput_networkpolicies _ _
             {| np_meta := meta; np_Spec := np_Spec np |}); simpl; rewrite Hv; [exact Hmut| |].
    { split; [|exact Hvalid]. intros Hnone. change (s_networkpolicies (storeOf rr) !! key = None) in Hnone. simpl.
      apply SetControllerReference_ok in Href as [_ ->]. unfold before. by rewrite Hnone. }
    intros q w' Hsame Hv' Hkept. apply wp_ret. split; [done|]. unfold policy_written.
    change (storeOf (withClient _ w')) with (view w'). rewrite Hv'. split; [done|]. split; [done|]. split_and!.
    - split; [done|]. intros k' Hk'. simpl. by rewrite lookup_insert_ne.
    - exists q. simpl. rewrite lookup_insert_eq. split; [done|]. split; [|by eapply mutatePolicy_again].
      destruct Hsame as [Hmeta _]. unfold same_meta in Hmeta. simpl in Hmeta.
      rewrite Hmeta, IsControlledBy_setUID. by apply SetControllerReference_ok in Href as [? _].
    - intros (q1 & Hq1 & _ & Hfix). destruct (Hkept q1 Hq1) as [_ Heq].
      fold key in Hq1. assert (before = q1) as Hb by (unfold before; by rewrite Hq1).
      rewrite <- Hv'. apply Heq. rewrite Hb in Hmut. congruence. }
  apply wp_bind, wp_onClient, (wp_Get_available _ _ networkpolicyKind policy_accepted); simpl.
  - intros q w Hq Hv. destruct (Hours q Hq) as [Hctl _]. rewrite Hctl. simpl. by apply Happly.
  - intros e w _ Hnf Hv. rewrite Hnf. simpl. by apply Happly.
Qed.

Lemma removeStalePolicy_returns ns desired name rr :
  np_keyed (storeOf rr) ->
  (name ∉ names desired -> forall q, s_networkpolicies (storeOf rr) !! (Name (ns_meta ns), name) = Some q ->
     IsControlledBy (np_meta q) (ns_meta ns) = true -> Finalizers (np_meta q) = []) ->
  wp (removeStalePolicy ns desired name)
     (returns (fun rr' =>
        Instance_ rr' = Instance_ rr /\ stateIn rr' = stateIn rr /\
        changes_only networkpolicyKind (Name (ns_meta ns), name) (storeOf rr) (storeOf rr') /\
        (name ∉ names desired -> policy_absent ns name (storeOf rr')) /\
        (name ∈ names desired \/ policy_absent ns name (storeOf rr) -> storeOf rr' = storeOf rr))) rr.
Proof.
  intros Hkeyed Hfin. unfold removeStalePolicy. fold (names desired). case_decide as Hin.
  { apply wp_ret. split_and!; try done. apply changes_only_refl_np. }
  apply wp_bind, wp_onClient, (wp_Get_available _ _ networkpolicyKind policy_accepted); simpl.
  2:{ intros e w Hnone Hnf Hv. rewrite Hnf. apply wp_ret. unfold policy_absent.
      change (storeOf (withClient rr w)) with (view w). rewrite Hv. change (view (Client rr)) with (storeOf rr) in *.
      split_and!; try done; [apply changes_only_refl_np|]. intros _ q Hq. congruence. }
  intros q w Hq Hv. destruct (IsControlledBy _ _) eqn:Hctl; simpl.
  2:{ apply wp_ret. unfold policy_absent. change (storeOf (withClient rr w)) with (view w). rewrite Hv.
      change (view (Client rr)) with (storeOf rr) in *.
      split_and!; try done; [apply changes_only_refl_np|]. intros _ q' Hq'. congruence. }
  pose proof (Hkeyed _ _ Hq) as Hkey.
  apply wp_bind, wp_onClient, (wp_Delete_available _ _ networkpolicyKind policy_accepted); simpl; rewrite Hkey, Hv.
  intros r w' Hnf _ _ Hpres. specialize (Hpres q Hq (Hfin Hin q Hq Hctl)).
  assert (wp (match r with Some err => if negb (IsNotFound err) then fail (ELib err) else ret tt | None => ret tt end)
     (returns (fun rr' => rr' = withClient (withClient rr w) w')) (withClient (withClient rr w) w')) as Hwp.
  { destruct r as [e|]; [rewrite (Hnf e eq_refl)|]; done. }
  eapply wp_mono; [exact Hwp|]. intros r' rr' [-> ->]. unfold policy_absent.
  change (storeOf (withClient _ w')) with (view w'). rewrite Hpres. change (view (Client rr)) with (storeOf rr) in *.
  split_and!; try done.
  - split; [done|]. intros k' Hk'. simpl. by rewrite lookup_delete_ne.
  - intros _ q'. simpl. by rewrite lookup_delete_eq.
  - intros [Hin'|Habs]; [done|]. by rewrite (Habs q Hq) in Hctl.
Qed.

(** *** All policies *)

Definition policies_settled (ns : Namespaced) (desired : list NetworkPolicy) (st : Store) : Prop :=
  (forall np, np ∈ desired -> policy_settled ns np st) /\
  (forall name, name ∈ managedNetworkPolicies -> name ∉ names desired -> policy_absent ns name st).

(** Policies apart, nothing has changed. *)
Definition policies_only (st st' : Store) : Prop := st' = kput networkpolicyKind (s_networkpolicies st') st.

Lemma policies_only_trans st1 st2 st3 : policies_only st1 st2 -> policies_only st2 st3 -> policies_only st1 st3.
Proof. unfold policies_only. destruct st1, st2, st3. simpl. congruence. Qed.

Lemma policy_settled_ext ns np st st' :
  s_networkpolicies st' !! (Name (ns_meta ns), Name (np_meta np)) =
  s_networkpolicies st !! (Name (ns_meta ns), Name (np_meta np)) ->
  policy_settled ns np st -> policy_settled ns np st'.
Proof. unfold policy_settled. by intros ->. Qed.

Lemma active_ext name st st' : s_namespaces st' = s_namespaces st -> active name st -> active name st'.
Proof. unfold active. by intros ->. Qed.

Lemma ensurePolicies_returns ns desired rr :
  Namespace (ns_meta ns) = "" -> active (Name (ns_meta ns)) (storeOf rr) ->
  (forall np, np ∈ desired -> policy_valid (np_Spec np)) -> NoDup (names desired) ->
  (forall np, np ∈ desired -> policy_ours ns (Name (np_meta np)) (storeOf rr)) ->
  wp (range desired (ensurePolicy ns))
     (returns (fun rr' =>
        Instance_ rr' = Instance_ rr /\ stateIn rr' = stateIn rr /\ policies_only (storeOf rr) (storeOf rr') /\
        (forall np, np ∈ desired -> policy_settled ns np (storeOf rr')) /\
        (forall name, name ∉ names desired ->
           s_networkpolicies (storeOf rr') !! (Name (ns_meta ns), name) =
           s_networkpolicies (storeOf rr) !! (Name (ns_meta ns), name)) /\
        ((forall np, np ∈ desired -> policy_settled ns np (storeOf rr)) -> storeOf rr' = storeOf rr))) rr.
Proof.
  intros Hns Hact Hvalid Hnd Hours.
  apply wp_range with (I := fun pre rr' =>
    Instance_ rr' = Instance_ rr /\ stateIn rr' = stateIn rr /\ policies_only (storeOf rr) (storeOf rr') /\
    (forall np, np ∈ pre -> policy_settled ns np (storeOf rr')) /\
    (forall name, name ∉ names pre ->
       s_networkpolicies (storeOf rr') !! (Name (ns_meta ns), name) =
       s_networkpolicies (storeOf rr) !! (Name (ns_meta ns), name)) /\
    ((forall np, np ∈ desired -> policy_settled ns np (storeOf rr)) -> storeOf rr' = storeOf rr)).
  - split_and!; try done; [apply kput_self_networkpolicy|by intros np ?%elem_of_nil].
  - intros pre np rest rr1 Hl (Hi & Hst & Honly & Hin & Hout & Hfix). rewrite Hl, names_app in Hnd. simpl in Hnd.
    apply NoDup_app in Hnd as (_ & Hdisj & _).
    assert (Name (np_meta np) ∉ names pre) as Hfresh by (intros Hp; apply (Hdisj _ Hp); by left).
    assert (np ∈ desired) as Hnp by (rewrite Hl; set_solver).
    eapply wp_mono; [apply ensurePolicy_returns; [done|by eapply active_ext; [rewrite Honly|]|by apply Hvalid|]|].
    { intros q. rewrite Hout by done. by apply Hours. }
    intros r rr2 [-> (Hi2 & Hst2 & [Hk2 Hother2] & Hset2 & Hfix2)]. simpl in Hother2. split_and!.
    + congruence.
    + congruence.
    + by eapply policies_only_trans.
    + intros np' [Hnp'|Hnp']%elem_of_app; [|by apply list_elem_of_singleton in Hnp' as ->].
      eapply policy_settled_ext; [apply Hother2|by apply Hin]. intros [= Heq].
      apply Hfresh. rewrite <- Heq. by apply elem_of_names.
    + intros name Hname. rewrite names_app in Hname. simpl in Hname.
      rewrite Hother2 by (intros [= ->]; apply Hname, elem_of_app; right; by left).
      apply Hout. intros Hp. by apply Hname, elem_of_app; left.
    + intros Hall. rewrite Hfix2; [by apply Hfix|]. rewrite Hfix by done. by apply Hall.
  - intros rr' H. split; [done|exact H].
Qed.

Lemma removeStale_returns ns desired rr :
  np_keyed (storeOf rr) ->
  (forall name q, name ∈ managedNetworkPolicies -> name ∉ names desired ->
     s_networkpolicies (storeOf rr) !! (Name (ns_meta ns), name) = Some q ->
     IsControlledBy (np_meta q) (ns_meta ns) = true -> Finalizers (np_meta q) = []) ->
  wp (range managedNetworkPolicies (removeStalePolicy ns desired))
     (returns (fun rr' =>
        Instance_ rr' = Instance_ rr /\ stateIn rr' = stateIn rr /\ policies_only (storeOf rr) (storeOf rr') /\
        (forall name, name ∈ names desired ->
           s_networkpolicies (storeOf rr') !! (Name (ns_meta ns), name) =
           s_networkpolicies (storeOf rr) !! (Name (ns_meta ns), name)) /\
        (forall name, name ∈ managedNetworkPolicies -> name ∉ names desired -> policy_absent ns name (storeOf rr')) /\
        ((forall name, name ∈ managedNetworkPolicies -> name ∉ names desired -> policy_absent ns name (storeOf rr)) ->
         storeOf rr' = storeOf rr))) rr.
Proof.
  intros Hkeyed Hfin.
  assert (NoDup managedNetworkPolicies) as Hnd by (apply (bool_decide_unpack _); reflexivity).
  apply wp_range with (I := fun pre rr' =>
    Instance_ rr' = Instance_ rr /\ stateIn rr' = stateIn rr /\ policies_only (storeOf rr) (storeOf rr') /\
    np_keyed (storeOf rr') /\
    (forall name, name ∈ names desired \/ name ∉ pre ->
       s_networkpolicies (storeOf rr') !! (Name (ns_meta ns), name) =
       s_networkpolicies (storeOf rr) !! (Name (ns_meta ns), name)) /\
    (forall name, name ∈ pre -> name ∉ names desired -> policy_absent ns name (storeOf rr')) /\
    ((forall name, name ∈ managedNetworkPolicies -> name ∉ names desired -> policy_absent ns name (storeOf rr)) ->
     storeOf rr' = storeOf rr)).
  - split_and!; try done; [apply kput_self_networkpolicy|by intros name ?%elem_of_nil].
  - intros pre name rest rr1 Hl (Hi & Hst & Honly & Hkey & Hkeep & Habs & Hfix).
    assert (name ∉ pre) as Hfresh.
    { rewrite Hl in Hnd. apply NoDup_app in Hnd as (_ & Hd & _). intros Hp. apply (Hd _ Hp). by left. }
    assert (name ∈ managedNetworkPolicies) as Hman by (rewrite Hl; apply elem_of_app; right; by left).
    assert (name ∉ names desired -> forall q, s_networkpolicies (storeOf rr1) !! (Name (ns_meta ns), name) = Some q ->
      IsControlledBy (np_meta q) (ns_meta ns) = true -> Finalizers (np_meta q) = []) as Hfin1.
    { intros Hnd' q. rewrite Hkeep by (by right). by apply Hfin. }
    eapply wp_mono; [exact (wp_conj _ _ _ _ (removeStalePolicy_returns ns desired name rr1 Hkey Hfin1)
      (removeStalePolicy_spec ns desired name rr1 Hman Hkey))|].
    intros r rr2 [[-> (Hi2 & Hst2 & [Hk2 Hother2] & Habs2 & Hfix2)] (_ & _ & Hframe & _)]. simpl in Hother2. split_and!.
    + congruence.
    + congruence.
    + by eapply policies_only_trans.
    + by apply (npf_keyed _ _ _ Hframe).
    + intros n Hn. destruct (decide (n = name)) as [->|Hne].
      * destruct Hn as [Hn|Hn]; [|destruct Hn; apply elem_of_app; right; by left].
        rewrite Hfix2 by (by left). by apply Hkeep; left.
      * rewrite Hother2 by congruence. apply Hkeep. destruct Hn as [|Hn]; [by left|right].
        intros Hp. by apply Hn, elem_of_app; left.
    + intros n [Hn|Hn]%elem_of_app Hnd'.
      * intros q. rewrite Hother2 by (intros [= ->]; done). by apply Habs.
      * apply list_elem_of_singleton in Hn as ->. by apply Habs2.
    + intros Hall. rewrite Hfix2; [by apply Hfix|]. destruct (decide (name ∈ names desired)); [by left|right].
      rewrite Hfix by done. by apply Hall.
  - intros rr' (? & ? & ? & ? & Hkeep & ? & ?). split_and!; try done. intros name Hn. apply Hkeep. by left.
Qed.

(** The last action. *)
Lemma ensureNetworkPolicies_returns rr ns :
  st_namespace (stateIn rr) = Some ns -> st_isolation (stateIn rr) <> "" -> np_keyed (storeOf rr) ->
  Namespace (ns_meta ns) = "" -> active (Name (ns_meta ns)) (storeOf rr) ->
  labelValue (projectOrg (Instance_ rr)) = true ->
  let desired := desiredNetworkPolicies (Instance_ rr) (Name (ns_meta ns)) (st_isolation (stateIn rr)) in
  (forall np, np ∈ desired -> policy_ours ns (Name (np_meta np)) (storeOf rr)) ->
  (forall name q, name ∈ managedNetworkPolicies -> name ∉ names desired ->
     s_networkpolicies (storeOf rr) !! (Name (ns_meta ns), name) = Some q ->
     IsControlledBy (np_meta q) (ns_meta ns) = true -> Finalizers (np_meta q) = []) ->
  wp ensureNetworkPolicies
     (returns (fun rr' =>
        Instance_ rr' = Instance_ rr /\ policies_only (storeOf rr) (storeOf rr') /\
        policies_settled ns desired (storeOf rr') /\
        (policies_settled ns desired (storeOf rr) -> storeOf rr' = storeOf rr))) rr.
Proof.
  intros Hstn Hiso Hkeyed Hns Hact Hlabel desired Hours Hfin. unfold ensureNetworkPolicies.
  apply wp_bind, wp_instance, wp_bind, wp_stateFor. intros rr1 Hsame Hst1. rewrite Hstn, decide_False by done.
  pose proof (storeOf_same _ _ Hsame) as Hs1. destruct Hsame as (_ & Hi1 & _). fold desired.
  destruct (desired_names (Instance_ rr) (Name (ns_meta ns)) (st_isolation (stateIn rr))) as [Hnd Hman].
  fold desired in Hnd, Hman. apply wp_bind.
  pose proof (ensurePolicies_spec ns desired rr1 Hnd Hman) as Hspec. rewrite Hs1 in Hspec. specialize (Hspec Hkeyed).
  assert (forall np, np ∈ desired -> policy_ours ns (Name (np_meta np)) (storeOf rr1)) as Hours1 by (by rewrite Hs1).
  assert (active (Name (ns_meta ns)) (storeOf rr1)) as Hact1 by by rewrite Hs1.
  assert (forall np, np ∈ desired -> policy_valid (np_Spec np)) as Hvalid.
  { intros np Hnp. by eapply desired_valid. }
  pose proof (ensurePolicies_returns ns desired rr1 Hns Hact1 Hvalid Hnd Hours1) as Hret.
  eapply wp_mono; [exact (wp_conj _ _ _ _ Hspec Hret)|].
  intros r rr2 [(_ & _ & Hframe & _) [-> (Hi2 & _ & Honly & Hset & Hout & Hfix)]]. rewrite Hs1 in *.
  eapply wp_mono; [apply (removeStale_returns ns desired); [by apply (npf_keyed _ _ _ Hframe)|]|].
  { intros name q Hm Hn. rewrite Hout by done. by apply Hfin. }
  intros r rr3 [-> (Hi3 & _ & Honly3 & Hkeep3 & Habs3 & Hfix3)]. split_and!; [done|congruence| | |].
  - by eapply policies_only_trans.
  - split; [|done]. intros np Hnp. eapply policy_settled_ext; [apply Hkeep3|by apply Hset].
    by apply elem_of_names.
  - intros [Hall1 Hall2]. rewrite Hfix3; [by apply Hfix|]. rewrite Hfix by done. done.
Qed.

(** *** Both bindings *)

Lemma binding_key_neq name : bindingKey name "edit" <> bindingKey name "view".
Proof. by intros [=]. Qed.

Lemma binding_ext (Q : Namespaced -> slice ProjectUser -> string -> Store -> Prop) ns users role st st' :
  Q = binding_free \/ Q = binding_settled ->
  s_rolebindings st' !! bindingKey (Name (ns_meta ns)) role =
  s_rolebindings st !! bindingKey (Name (ns_meta ns)) role -> Q ns users role st -> Q ns users role st'.
Proof. intros [-> | ->] Heq; unfold binding_free, binding_settled; by rewrite Heq. Qed.

Lemma ensureRBAC_returns rr ns :
  st_namespace (stateIn rr) = Some ns -> Namespace (ns_meta ns) = "" -> active (Name (ns_meta ns)) (storeOf rr) ->
  (forall u, u ∈ elems (Users (project_Spec (Instance_ rr))) -> subjectValid (subjectOf u) = true) ->
  (forall role, role ∈ ["edit"; "view"] -> binding_free ns (Users (project_Spec (Instance_ rr))) role (storeOf rr)) ->
  wp ensureRBAC
     (returns (fun rr' =>
        Instance_ rr' = Instance_ rr /\ stateIn rr' = stateIn rr /\
        storeOf rr' = kput rolebindingKind (s_rolebindings (storeOf rr')) (storeOf rr) /\
        (forall role, role ∈ ["edit"; "view"] ->
           binding_settled ns (Users (project_Spec (Instance_ rr))) role (storeOf rr')) /\
        ((forall role, role ∈ ["edit"; "view"] ->
           binding_settled ns (Users (project_Spec (Instance_ rr))) role (storeOf rr)) ->
         storeOf rr' = storeOf rr))) rr.
Proof.
  intros Hstn Hns Hact Husers Hfree. unfold ensureRBAC. apply wp_bind, wp_instance, wp_bind, wp_stateFor.
  intros rr1 Hsame Hst1. rewrite Hstn. pose proof (storeOf_same _ _ Hsame) as Hs1.
  destruct Hsame as (_ & Hi1 & _). simpl.
  assert ("edit" ∈ ["edit"; "view"] /\ "view" ∈ ["edit"; "view"]) as [Hedit Hview] by (split; set_solver).
  apply wp_bind. eapply wp_mono; [apply ensureBinding_returns; rewrite ?Hs1; try done; by apply Hfree|].
  intros r rr2 [-> (Hi2 & Hst2 & [Hk2 Hother2] & Hset2 & Hfix2)]. rewrite Hs1 in *.
  apply wp_bind. eapply wp_mono; [apply ensureBinding_returns; [done|by eapply active_ext; [rewrite Hk2|]|done|done|]|].
  { eapply (binding_ext binding_free); [by left|apply (Hother2 _ (not_eq_sym (binding_key_neq _)))|by apply Hfree]. }
  intros r rr3 [-> (Hi3 & Hst3 & [Hk3 Hother3] & Hset3 & Hfix3)]. apply wp_ret.
  split_and!; [done|congruence|congruence| | |].
  - rewrite Hk3, Hk2. by destruct (storeOf rr).
  - intros role [->|[->|[]%elem_of_nil]%elem_of_cons]%elem_of_cons; [|done].
    eapply (binding_ext binding_settled); [by right|apply (Hother3 _ (binding_key_neq _))|done].
  - intros Hall. rewrite Hfix3; [by apply Hfix2, Hall|]. rewrite Hfix2 by (by apply Hall). by apply Hall.
Qed.
End actions.

(* ------------------------------------------------------------------ *)
(** ** A whole reconciliation *)

Section convergence.
  Context `{P : Platform} `{C : !Cluster} `{L : !LawfulCluster C} `{PL : !PlatformLaws P}.
  Context `{A : !AvailableCluster C} `{F : !Framework} `{FL : !FrameworkLaws F}.
  Abbreviation RR := (ReconciliationRequest OrganizationProject Extension).
  Implicit Types rr : RR.

(** The namespace of a project, before it exists. *)
Definition newNamespace (p : OrganizationProject) : Namespaced :=
  {| ns_meta := namedMeta "" (Name (project_meta p)) |}.

(** Nothing is in the way of the project: its organization has a root; the API server takes
    the project's name for a namespace, the organization's and the root's names for label
    values and the users for subjects; its namespace, if there is one, is not going away
    and can be claimed; and what is stored under the names of its bindings and policies is
    its own and not held by finalizers. *)
Record unobstructed (p : OrganizationProject) (st : Store) : Prop := {
  uo_scope : Namespace (project_meta p) = "";
  uo_organization : exists o, s_organizations st !! projectOrg p = Some o /\
    Root (organization_Status o) <> "" /\ names_valid p o;
  uo_namespace ns : s_namespaces st !! Name (project_meta p) = Some ns -> namespace_ready p (ns_meta ns);
  uo_binding role b : role ∈ ["edit"; "view"] ->
    s_rolebindings st !! bindingKey (Name (project_meta p)) role = Some b ->
    Finalizers (rb_meta b) = [] /\ rb_RoleRef b = roleRef role /\
    claimable (namespaceOwner (newNamespace p)) (rb_meta b);
  uo_policy name q : name ∈ managedNetworkPolicies ->
    s_networkpolicies st !! (Name (project_meta p), name) = Some q ->
    Finalizers (np_meta q) = [] /\ claimable (namespaceOwner (newNamespace p)) (np_meta q) /\
    exists ns, s_namespaces st !! Name (project_meta p) = Some ns /\ IsControlledBy (np_meta q) (ns_meta ns) = true;
}.

(** The fixed point. *)
Definition settled (p : OrganizationProject) (st : Store) : Prop :=
  exists o ns,
    Namespace (project_meta p) = "" /\ status_Namespace (project_Status p) = Name (project_meta p) /\
    s_organizations st !! projectOrg p = Some o /\ Root (organization_Status o) <> "" /\
    names_valid p o /\ s_namespaces st !! Name (project_meta p) = Some ns /\
    namespace_ready p (ns_meta ns) /\ mutateNamespace p o ns = Ret ns /\
    (forall role, role ∈ ["edit"; "view"] -> binding_settled ns (Users (project_Spec p)) role st) /\
    policies_settled ns (desiredNetworkPolicies p (Name (project_meta p)) (preset st p)) st.

(** What a run needs, for any namespace object it may end up with. *)
Record startable (p : OrganizationProject) (st : Store) : Prop := {
  sa_scope : Namespace (project_meta p) = "";
  sa_organization : exists o, s_organizations st !! projectOrg p = Some o /\
    Root (organization_Status o) <> "" /\ names_valid p o;
  sa_namespace : namespace_ready p (namespaceBefore st p);
  sa_objects ns : Name (ns_meta ns) = Name (project_meta p) ->
    (forall ns0, s_namespaces st !! Name (project_meta p) = Some ns0 -> UID (ns_meta ns) = UID (ns_meta ns0)) ->
    let desired := desiredNetworkPolicies p (Name (project_meta p)) (preset st p) in
    (forall role, role ∈ ["edit"; "view"] -> binding_free ns (Users (project_Spec p)) role st) /\
    (forall np, np ∈ desired -> policy_ours ns (Name (np_meta np)) st) /\
    (forall name q, name ∈ managedNetworkPolicies -> name ∉ names desired ->
       s_networkpolicies st !! (Name (project_meta p), name) = Some q ->
       IsControlledBy (np_meta q) (ns_meta ns) = true -> Finalizers (np_meta q) = []);
}.

Lemma claimable_name ns ns' m : Name (ns_meta ns) = Name (ns_meta ns') ->
  claimable (namespaceOwner ns) m -> claimable (namespaceOwner ns') m.
Proof. intros Hn Hc r Hr. destruct (Hc r Hr) as (? & ? & Hname). simpl in *. by rewrite <- Hn. Qed.

Lemma unobstructed_startable p st : unobstructed p st -> startable p st.
Proof.
  intros [Hscope Horg Hns Hb Hp]. constructor; [done|done| |].
  - unfold namespaceBefore. destruct (s_namespaces st !! _) as [ns|] eqn:E; [by apply Hns|].
    constructor; [done|done|by intros r|apply labels_valid_empty|done].
  - intros ns Hn Hu. split_and!.
    + intros role Hrole b Hstored. rewrite Hn in Hstored.
      destruct (Hb role b Hrole Hstored) as (Hfin & Href & Hc).
      destruct (subjectsForRole _ role); [|done]. split; [|done].
      eapply claimable_name; [|exact Hc]. by rewrite Hn.
    + intros np Hnp q Hq. rewrite Hn in Hq.
      destruct (desired_names p (Name (project_meta p)) (preset st p)) as [_ Hman].
      destruct (Hp _ q (Hman _ (elem_of_names _ _ Hnp)) Hq) as (_ & Hc & ns0 & Hns0 & Hctl). split.
      * rewrite <- Hctl. apply IsControlledBy_UID. by apply Hu.
      * eapply claimable_name; [|exact Hc]. by rewrite Hn.
    + intros name q Hman _ Hq _. by destruct (Hp name q Hman Hq).
Qed.

Lemma settled_startable p st : settled p st -> startable p st.
Proof.
  intros (o & ns0 & Hscope & _ & Ho & Hroot & Hv & Hns0 & Hready & Hmut & Hb & Hset & Habs).
  pose proof (nr_name _ _ Hready) as Hname0.
  constructor; [done|eauto|unfold namespaceBefore; by rewrite Hns0|].
  - intros ns Hn Hu. specialize (Hu ns0 Hns0). split_and!.
    + intros role Hrole b Hstored. rewrite Hn, <- Hname0 in Hstored.
      pose proof (binding_settled_free _ _ _ _ (Hb role Hrole) b Hstored) as Hfree.
      destruct (subjectsForRole _ role); [|done]. destruct Hfree as [Hc ?]. split; [|done].
      eapply claimable_name; [|exact Hc]. congruence.
    + intros np Hnp q Hq. rewrite Hn, <- Hname0 in Hq.
      destruct (policy_settled_ours _ _ _ (Hset np Hnp) q Hq) as [Hctl Hc]. split.
      * rewrite <- Hctl. by apply IsControlledBy_UID.
      * eapply claimable_name; [|exact Hc]. congruence.
    + intros name q Hman Hnot Hq Hctl. rewrite <- Hname0 in Hq. pose proof (Habs name Hman Hnot q Hq) as Hno.
      by rewrite (IsControlledBy_UID _ _ (ns_meta ns0)), Hno in Hctl.
Qed.

(** The last two actions, on the store [st] with the namespace [ns] written. *)
Lemma bindings_policies_return rr ns i p st :
  np_keyed st -> Instance_ rr = withStatusNamespace p (Name (project_meta p)) ->
  storeOf rr = stored namespaceKind (Name (project_meta p)) ns st ->
  st_namespace (stateIn rr) = Some ns -> st_isolation (stateIn rr) = i -> i = preset st p ->
  namespace_ready p (ns_meta ns) ->
  (forall ns0, s_namespaces st !! Name (project_meta p) = Some ns0 -> UID (ns_meta ns) = UID (ns_meta ns0)) ->
  startable p st ->
  wp (runActions [ensureRBAC; ensureNetworkPolicies])
     (returns (fun rr' =>
        Instance_ rr' = Instance_ rr /\
        (exists rbs nps, storeOf rr' = kput networkpolicyKind nps (kput rolebindingKind rbs (storeOf rr))) /\
        (forall role, role ∈ ["edit"; "view"] -> binding_settled ns (Users (project_Spec p)) role (storeOf rr')) /\
        policies_settled ns (desiredNetworkPolicies p (Name (project_meta p)) i) (storeOf rr') /\
        ((forall role, role ∈ ["edit"; "view"] -> binding_settled ns (Users (project_Spec p)) role (storeOf rr)) ->
         policies_settled ns (desiredNetworkPolicies p (Name (project_meta p)) i) (storeOf rr) ->
         storeOf rr' = storeOf rr))) rr.
Proof.
  intros Hkeyed Hi Hs Hstn Hsti Hpre [Hname Hnsp _ _ Hactive] Huid Hstart.
  destruct (sa_organization _ _ Hstart) as (_ & _ & _ & [_ Hlabel _ Husers]).
  assert (active (Name (ns_meta ns)) (storeOf rr)) as Hact.
  { exists ns. rewrite Hs, Hname. simpl. by rewrite lookup_insert_eq. }
  destruct (sa_objects _ _ Hstart ns Hname Huid) as (Hfree & Hours & Hfin). rewrite <- Hpre in Hours, Hfin.
  apply wp_runActions_cons. eapply wp_mono.
  { apply (ensureRBAC_returns rr ns Hstn Hnsp Hact); rewrite Hi; [exact Husers|]. rewrite Hs. exact Hfree. }
  intros r rr1 [-> (Hi1 & Hst1 & Hs1 & Hset1 & Hfix1)]. rewrite Hi in Hset1, Hfix1. simpl in Hset1, Hfix1.
  assert (s_networkpolicies (storeOf rr1) = s_networkpolicies st) as Hnp1 by by rewrite Hs1, Hs.
  assert (active (Name (ns_meta ns)) (storeOf rr1)) as Hact1 by (eapply active_ext; [by rewrite Hs1|done]).
  apply wp_runActions_cons. eapply wp_mono.
  { apply (ensureNetworkPolicies_returns rr1 ns); rewrite ?Hst1, ?Hi1, ?Hi, ?Hsti, ?Hname; try done.
    - rewrite Hpre. apply preset_nonempty.
    - intros k q. rewrite Hnp1. apply Hkeyed.
    - by rewrite <- Hname.
    - intros np Hnp q. rewrite Hnp1. by apply Hours.
    - intros name q Hm Hn. rewrite Hnp1. by apply Hfin. }
  rewrite Hst1, Hi1, Hi, Hsti, Hname. intros r rr2 [-> (Hi2 & Honly & Hset2 & Hfix2)].
  apply wp_runActions_nil. split_and!; [done|congruence| | |exact Hset2|].
  - eexists _, _. rewrite Honly, Hs1. reflexivity.
  - intros role Hrole. eapply (binding_ext binding_settled); [by right| |by apply Hset1]. by rewrite Honly.
  - intros Hb Hp. rewrite Hfix2; [by apply Hfix1|]. rewrite Hfix1 by done. exact Hp.
Qed.

Lemma reconcile_returns rr :
  well_keyed (storeOf rr) -> startable (Instance_ rr) (storeOf rr) ->
  wp (runActions (rc_Actions NewOrganizationProjectReconciler))
     (returns (fun rr' => settled (Instance_ rr') (storeOf rr') /\
        (settled (Instance_ rr) (storeOf rr) -> storeOf rr' = storeOf rr /\ Instance_ rr' = Instance_ rr))) rr.
Proof.
  intros [Hnpk Hnsk] Hstart. pose proof Hstart as [Hscope (o & Ho & Hroot & Hv) Hready _]. simpl.
  apply wp_runActions_cons. eapply wp_mono; [apply (validateParentOrganization_spec True (fun _ => available_api))|].
  intros r rr1 (Hs1 & Hi1 & Hr1).
  assert (r = Ret tt /\ stateIn rr1 = withOrganization o (stateIn rr)) as [-> Hst1].
  { destruct r as [[]|[]|]; [|try (destruct Hr1 as [_ Hnone]; by rewrite Hnone in Ho)..|done].
    - destruct Hr1 as (o' & Ho' & _ & Hst). by simplify_eq.
    - destruct Hr1 as (_ & _ & o' & Ho' & Hr). by simplify_eq. }
  apply wp_runActions_cons. eapply wp_mono; [apply (computeEffectiveIsolation_spec True (fun _ => available_api))|].
  intros r2 rr2 (-> & Hs2 & Hi2 & i & Hst2 & _ & Hpre & _). specialize (Hpre I).
  rewrite Hs1, Hi1 in Hpre. rewrite Hs1 in Hs2. rewrite Hi1 in Hi2.
  apply wp_runActions_cons.
  eapply wp_mono; [apply (ensureNamespace_returns rr2 o); rewrite ?Hst2, ?Hst1, ?Hi2, ?Hs2; done|].
  intros r rr3 [-> (ns & Hmut & Hready3 & Hkept & Hs3 & Hst3 & Hi3)]. rewrite Hi2, Hs2 in *.
  eapply wp_mono; [apply (bindings_policies_return rr3 ns i (Instance_ rr) (storeOf rr)); try done|].
  { by rewrite Hst3. } { by rewrite Hst3, Hst2. }
  { intros ns0 Hns0. by apply Hkept. }
  intros r rr4 [-> (Hi4 & (rbs & nps & Hs4) & Hb4 & Hp4 & Hfix4)]. split; [done|]. split.
  - rewrite Hi4, Hi3. exists o, ns. simpl. split_and!; try done.
    + by rewrite Hs4, Hs3.
    + by destruct Hv.
    + rewrite Hs4, Hs3. simpl. apply lookup_insert_eq.
    + by destruct Hready3.
    + assert (preset (storeOf rr4) (withStatusNamespace (Instance_ rr) (Name (project_meta (Instance_ rr)))) = i) as ->
        by (rewrite Hpre; unfold preset; by rewrite Hs4, Hs3).
      exact Hp4.
  - intros (o' & ns0 & _ & Hstat & Ho' & _ & _ & Hns0 & _ & Hmut0 & Hb0 & Hp0). simplify_eq.
    destruct (Hkept ns0 Hns0) as [_ Heq]. specialize (Heq Hmut0). subst ns0.
    assert (storeOf rr3 = storeOf rr) as Hs.
    { rewrite Hs3. unfold stored. simpl. rewrite insert_id by done. by destruct (storeOf rr). }
    rewrite Hfix4, Hs; [|by rewrite Hs..]. split; [done|]. rewrite Hi4, Hi3.
    destruct (Instance_ rr) as [pm ps []]. simpl in *. by rewrite <- Hstat.
Qed.

(** A run that returns keeps namespaces and policies under their names. *)
Lemma reconcile_keyed rr : well_keyed (storeOf rr) ->
  wp (runActions (rc_Actions NewOrganizationProjectReconciler))
     (fun r rr' => r = Ret tt -> well_keyed (storeOf rr')) rr.
Proof.
  intros Hk. eapply wp_mono; [apply (project_reconcile_spec False (False_ind _) rr Hk)|].
  by intros r rr' (_ & _ & Hk' & _) _.
Qed.

(** C17: Progress and stability: with an API server that is up and accepts what its own
    validation allows, and nothing in the way of the project (its name a DNS label, the
    names of its organization and of the root label values, every user a valid subject,
    its objects its own), a reconciliation succeeds; and reconciling the project again, from the
    store and the object the first one leaves, succeeds and changes neither. *)
Theorem project_converges rr :
  well_keyed (storeOf rr) -> unobstructed (Instance_ rr) (storeOf rr) ->
  exists rr', runActions (rc_Actions NewOrganizationProjectReconciler) rr = (Ret tt, rr') /\
    forall rr2, storeOf rr2 = storeOf rr' -> Instance_ rr2 = Instance_ rr' ->
      exists rr3, runActions (rc_Actions NewOrganizationProjectReconciler) rr2 = (Ret tt, rr3) /\
        storeOf rr3 = storeOf rr' /\ Instance_ rr3 = Instance_ rr'.
Proof.
  intros Hk Hun.
  pose proof (wp_conj _ _ _ _ (reconcile_keyed rr Hk) (reconcile_returns rr Hk (unobstructed_startable _ _ Hun))) as Hwp.
  unfold wp in Hwp. destruct (runActions _ rr) as [r rr']. simpl in Hwp.
  destruct Hwp as [Hk' [-> [Hset _]]]. specialize (Hk' eq_refl).
  exists rr'. split; [done|]. intros rr2 Hs2 Hi2.
  assert (well_keyed (storeOf rr2) /\ settled (Instance_ rr2) (storeOf rr2)) as [Hk2 Hset2] by by rewrite Hs2, Hi2.
  pose proof (reconcile_returns rr2 Hk2 (settled_startable _ _ Hset2)) as Hwp2.
  unfold wp in Hwp2. destruct (runActions _ rr2) as [r2 rr3]. simpl in Hwp2.
  destruct Hwp2 as [-> [_ Hfix]]. destruct (Hfix Hset2) as [Hs3 Hi3].
  exists rr3. split; [done|]. split; congruence.
Qed.
End convergence.

(* ------------------------------------------------------------------ *)

Section runs.
Import FakeInstances.
#[local] Existing Instance sequentialFramework.
#[local] Existing Instance sequentialFramework_laws.
#[local] Existing Instance FakeCluster_available.

Lemma lab_names : names_valid (lab "genomics") (org "genomics" "research" "research").
Proof.
  constructor; try reflexivity. intros u Hu. simpl in Hu.
  rewrite !elem_of_cons, elem_of_nil in Hu. by destruct Hu as [-> | [-> |]].
Qed.

Lemma lab_unobstructed : unobstructed (lab "genomics") labStore.
Proof.
  constructor.
  - done.
  - exists (org "genomics" "research" "research"). split; [|split; [done|exact lab_names]].
    change (s_organizations demoStore !! "genomics" = Some (org "genomics" "research" "research")).
    apply demo_organization. auto.
  - intros ns Hns. apply lab_namespace in Hns as [_ ->].
    constructor; [done|done|by intros r|apply labels_valid_empty|done].
  - intros role b _ Hb. simpl in Hb. by rewrite lookup_empty in Hb.
  - intros name q _ Hq. apply lab_policy in Hq as [_ ->]. split; [done|]. split.
    + intros r [= <-]. done.
    + exists labNs. split; [by apply lookup_singleton_eq|reflexivity].
Qed.

(** The example project, whose namespace still has a policy of its former preset. *)
Lemma project_converges_witness :
  exists rr', runActions (rc_Actions NewOrganizationProjectReconciler) (projectRequest labStore (lab "genomics"))
      = (Ret tt, rr') /\
    forall rr2, storeOf rr2 = storeOf rr' -> Instance_ rr2 = Instance_ rr' ->
      exists rr3, runActions (rc_Actions NewOrganizationProjectReconciler) rr2 = (Ret tt, rr3) /\
        storeOf rr3 = storeOf rr' /\ Instance_ rr3 = Instance_ rr'.
Proof. exact (project_converges (projectRequest labStore (lab "genomics")) labStore_keyed lab_unobstructed). Defined.
End runs.
