(* ===== verification/ProjectInterference.v ===== *)
(** The OrganizationProject controller while others work on the cluster: what each of its
    calls may change, and that a role binding it writes serves exactly the users of its role. *)

From stdpp Require Import gmap strings list.
From Stdlib Require Import ZArith.
From S2P Require Import Prelude Platform Api Cluster Fake Framework OrganizationCtl ProjectCtl NetPol.
From S2P Require Import ProjectSpecs ProjectPipeline ProjectTheorems Interference.

Local Open Scope string_scope.

Section project.
  Context `{P : Platform} `{C : !Cluster} `{L : !LawfulCluster C} `{PL : !PlatformLaws P}.
  Abbreviation BR := (Request Busy OrganizationProject Extension).
  Implicit Types rr : BR.

(** The project under reconciliation, as it was read. *)
Context (p0 : OrganizationProject).
Abbreviation project := (Name (project_meta p0)).

(** A call of the controller: it changes nothing, or exactly one object. *)
Inductive project_call (st : Store) : Store -> Prop :=
| call_nothing : project_call st st
  (** the namespace of the project's name, labelled and claimed *)
| call_namespace ns :
    map_index (Labels (ns_meta ns)) "organization.opendatahub.io/name" = Some (projectOrg p0) ->
    IsControlledBy (ns_meta ns) (project_meta p0) = true ->
    project_call st (kput namespaceKind (<[project := ns]> (s_namespaces st)) st)
  (** the binding of a role, for exactly the users listed with it *)
| call_bind role u b :
    role ∈ ["edit"; "view"] -> u ∈ elems (Users (project_Spec p0)) -> pu_Role u = role ->
    serves (Users (project_Spec p0)) role b ->
    project_call st
      (kput rolebindingKind (<[(project, "tenant-" +:+ role) := b]> (s_rolebindings st)) st)
  (** the removal of the binding of a role without users, which a finalizer may delay *)
| call_unbind role x :
    role ∈ ["edit"; "view"] -> unused (Users (project_Spec p0)) role ->
    x = None \/ (exists b0, s_rolebindings st !! (project, "tenant-" +:+ role) = Some b0 /\
                   Finalizers (rb_meta b0) <> []) ->
    project_call st
      (kput rolebindingKind
         (partial_alter (fun _ => x) (project, "tenant-" +:+ role) (s_rolebindings st)) st)
  (** a policy that some preset wants *)
| call_policy i name np :
    wants i (projectOrg p0) name (np_Spec np) ->
    project_call st
      (kput networkpolicyKind (<[(project, name) := np]> (s_networkpolicies st)) st)
  (** the removal of a policy under a managed name, which a finalizer may delay *)
| call_unpolicy name x :
    name ∈ policyNames ->
    x = None \/ (exists q, s_networkpolicies st !! (project, name) = Some q /\ Finalizers (np_meta q) <> []) ->
    project_call st
      (kput networkpolicyKind (partial_alter (fun _ => x) (project, name) (s_networkpolicies st)) st).

#[local] Instance project_call_refl : Reflexive project_call.
Proof. intros st. apply call_nothing. Qed.

(** The others store objects under their keys, and may do anything else. *)
Definition keys_kept (st st' : Store) : Prop := well_keyed st -> well_keyed st'.

#[export] Instance keys_kept_preorder : PreOrder keys_kept.
Proof. unfold keys_kept. split; [by intros st|]. intros st1 st2 st3 ??. auto. Qed.

Record underway (rr : BR) : Prop := {
  pu_calm : calm keys_kept project_call (Client rr);
  pu_keyed : well_keyed (now (Client rr));
  pu_meta : project_meta (Instance_ rr) = project_meta p0;
  pu_spec : project_Spec (Instance_ rr) = project_Spec p0;
  pu_namespace ns : st_namespace (stateIn (C := busyCluster) rr) = Some ns -> Name (ns_meta ns) = project;
}.

Abbreviation proceeds := (fun r rr => r <> Panic /\ underway rr).

Lemma underway_with w rr :
  underway rr -> calm keys_kept project_call w -> well_keyed (now w) ->
  underway (withClient (C := busyCluster) rr w).
Proof. by intros [_ _ ? ? ?] ? ?. Qed.

Lemma underway_same rr rr' :
  underway rr -> Client rr' = Client rr -> Instance_ rr' = Instance_ rr ->
  (forall ns, st_namespace (stateIn (C := busyCluster) rr') = Some ns -> Name (ns_meta ns) = project) ->
  underway rr'.
Proof. intros [? ? ? ? _] Hc Hi Hn. split; rewrite ?Hc, ?Hi; done. Qed.

Lemma underway_then {A} (m : GoM BR error A) (k : GoM BR error unit) rr :
  wp m proceeds rr -> (forall rr', underway rr' -> wp k proceeds rr') -> wp (m ;;; k) proceeds rr.
Proof.
  intros Hm Hk. apply (wp_bind_keeping underway). eapply wp_mono; [exact Hm|]. intros r rr' [Hp Hu].
  split; [done|]. split; [done|]. intros _ _. by apply Hk.
Qed.

Lemma underway_Get `{Countable K} {T} (c : TypedClient world K T) (kd : Kind K T)
    `{!LawfulClient view c kd} k (Q : outcome error (liberror + T) -> _ -> Prop) rr :
  underway rr ->
  (forall r rr', underway rr' -> Instance_ rr' = Instance_ rr ->
     Extensions rr' = Extensions rr ->
     (forall o, r = inr o -> ksel kd (now (Client rr')) !! k = Some o) -> Q (Ret r) rr') ->
  wp (onClient (C := busyCluster) (call (Get (busyClient c) k))) Q rr.
Proof.
  intros Hrr HQ. apply (wp_onClient (C := busyCluster)).
  apply (wp_busy_Get keys_kept project_call c kd False (False_rect _)); [apply Hrr|].
  intros s' r Hs' Hkeyed _ _ Hr. apply HQ; [|done|done|by intros o ->].
  apply underway_with; [done|done|]. apply Hkeyed, Hrr.
Qed.

(** The shared state. *)
Lemma underway_updateState f rr :
  underway rr ->
  (forall s, (forall ns, st_namespace s = Some ns -> Name (ns_meta ns) = project) ->
     forall ns, st_namespace (f s) = Some ns -> Name (ns_meta ns) = project) ->
  wp (updateState (C := busyCluster) f) proceeds rr.
Proof.
  intros Hrr Hf. apply (wp_updateState (C := busyCluster)). intros rr' (Hcl & Hi & _) Hst.
  split; [done|]. apply (underway_same rr); [done..|]. rewrite Hst. apply Hf, Hrr.
Qed.

Lemma underway_stateFor rr (Q : outcome error _ -> _ -> Prop) :
  underway rr ->
  (forall s rr', underway rr' -> Instance_ rr' = Instance_ rr ->
     (forall ns, st_namespace s = Some ns -> Name (ns_meta ns) = project) -> Q (Ret s) rr') ->
  wp (stateFor (C := busyCluster)) Q rr.
Proof.
  intros Hrr HQ. apply (wp_stateFor (C := busyCluster)). intros rr' (Hcl & Hi & _) Hst.
  apply HQ; [|done|apply Hrr]. apply (underway_same rr); [done..|]. rewrite Hst. apply Hrr.
Qed.

(** ** The actions *)

Lemma validateParentOrganization_underway rr :
  underway rr -> wp (validateParentOrganization (C := busyCluster)) proceeds rr.
Proof.
  intros Hrr. unfold validateParentOrganization. apply wp_bind, (wp_instance (C := busyCluster)), wp_bind.
  apply (underway_Get organizations organizationKind); [done|]. intros [e|o] rr1 Hrr1 _ _ _; [by apply wp_fail|].
  case_decide; [by apply wp_fail|]. by apply underway_updateState.
Qed.

Lemma computeEffectiveIsolation_underway rr :
  underway rr -> wp (computeEffectiveIsolation (C := busyCluster)) proceeds rr.
Proof.
  intros Hrr. unfold computeEffectiveIsolation. apply wp_bind, (wp_instance (C := busyCluster)).
  apply (wp_bind_keeping underway), (wp_onClient (C := busyCluster)).
  assert (forall i w, underway (withClient (C := busyCluster) rr w) ->
    @Ret error _ i <> Panic /\ underway (withClient (C := busyCluster) rr w) /\
    forall a, @Ret error _ i = Ret a ->
      wp (updateState (C := busyCluster) (withIsolation a)) proceeds (withClient (C := busyCluster) rr w)) as Hdone.
  { intros i w Hw. split; [done|]. split; [done|]. intros a _. by apply underway_updateState. }
  unfold effectiveIsolation. case_decide; [apply wp_ret, Hdone, underway_with; [done|apply Hrr..]|].
  apply wp_bind, (wp_busy_Get keys_kept project_call profiles profileKind False (False_rect _)); [apply Hrr|].
  intros s' r Hs' Hkeyed _ _ _.
  assert (underway (withClient (C := busyCluster) rr s')) by (apply underway_with; [done|done|apply Hkeyed, Hrr]).
  destruct r; [|case_decide]; by apply wp_ret, Hdone.
Qed.

Lemma mutateNamespace_name p o ns ns1 ns' :
  mutateNamespace p o ns = Ret ns1 -> ksame namespaceKind ns1 ns' -> Name (ns_meta ns') = Name (ns_meta ns).
Proof. intros Hm Hs. by eapply mutateNamespace_spec in Hm as [? _]. Qed.

Lemma project_call_namespace p o st ns ns1 ns' :
  project_meta p = project_meta p0 -> project_Spec p = project_Spec p0 ->
  mutateNamespace p o ns = Ret ns1 -> ksame namespaceKind ns1 ns' ->
  project_call st (stored namespaceKind project ns' st).
Proof.
  intros Hm Hs Hmut Hsame. destruct (mutateNamespace_spec _ _ _ _ _ Hmut Hsame) as (_ & Hl & _ & _ & _ & _ & Hc).
  apply call_namespace; [|by rewrite <- Hm]. unfold projectOrg in *. by rewrite <- Hs.
Qed.

Lemma ensureNamespace_underway rr :
  underway rr -> wp (ensureNamespace (C := busyCluster)) proceeds rr.
Proof.
  intros Hrr. unfold ensureNamespace. apply wp_bind, (wp_instance (C := busyCluster)), wp_bind.
  apply underway_stateFor; [done|]. intros s rr1 Hrr1 Hi1 _.
  destruct (st_organization s) as [o|]; [|by apply wp_fail].
  change (@world P busyCluster) with (@Busy P C). rewrite (pu_meta _ Hrr). apply wp_bind, (wp_onClient (C := busyCluster)).
  assert (forall st ns1 ns', well_keyed st -> mutateNamespace (Instance_ rr) o
      (default {| ns_meta := namedMeta "" project |} (s_namespaces st !! project)) = Ret ns1 ->
    ksame namespaceKind ns1 ns' -> Name (ns_meta ns') = project) as Hname.
  { intros st ns1 ns' [_ Hk] Hm Hs. rewrite (mutateNamespace_name _ _ _ _ _ Hm Hs).
    destruct (s_namespaces st !! project) eqn:Hns; [by apply Hk|done]. }
  apply (wp_busy_CreateOrUpdate keys_kept project_call namespaces namespaceKind); [apply Hrr1|..]; simpl.
  - intros st _. apply mutateNamespace_no_panic.
  - intros st ns1 ns' _ [Hm Hsame]. eapply project_call_namespace; [apply Hrr..|exact Hm|exact Hsame].
  - intros s' st ns1 ns' Hs' Hkeyed [Hm Hsame] Hnow.
    pose proof (Hkeyed (pu_keyed _ Hrr1)) as Hwk. specialize (Hname st ns1 ns' Hwk Hm Hsame).
    apply underway_then.
    + apply underway_updateState; [apply underway_with; [done|done|]|]; [|by intros ? _ ? [= <-]].
      rewrite Hnow. destruct Hwk as [Hnp Hns]. split; [exact Hnp|]. intros k ns. simpl.
      destruct (decide (k = project)) as [->|Hne]; [rewrite lookup_insert_eq; by intros [= <-]|].
      rewrite lookup_insert_ne by done. apply Hns.
    + intros rr2 Hrr2. case_decide; [|by apply wp_ret]. apply (wp_setInstance (C := busyCluster)).
      split; [done|]. destruct Hrr as [_ _ ? ? _], Hrr2 as [? ? _ _ ?]. by split.
  - intros s' e Hs' Hkeyed. split; [done|]. apply underway_with; [done|done|]. apply Hkeyed, Hrr1.
Qed.

(** *** Role bindings *)

Lemma ensureBinding_underway p ns role rr :
  project_Spec p = project_Spec p0 -> Name (ns_meta ns) = project -> role ∈ ["edit"; "view"] ->
  underway rr -> wp (ensureBinding (C := busyCluster) p ns role) proceeds rr.
Proof.
  intros Hspec Hname Hrole Hrr. unfold ensureBinding. rewrite Hspec.
  assert (forall st x, well_keyed st ->
    well_keyed (kput rolebindingKind (partial_alter (fun _ => x) (bindingKey project role) (s_rolebindings st)) st))
    as Hwk by done.
  case_decide as Hlen; apply wp_bind, (wp_onClient (C := busyCluster)).
  - apply (wp_busy_Delete keys_kept project_call rolebindings rolebindingKind); [apply Hrr|..]; simpl; rewrite ?Hname.
    + intros st b0 x _ (Hb0 & Hfin & _).
      apply call_unbind; [done|exact (proj1 (subjectsForRole_None _ _) (proj1 (subjectsForRole_length _ _) Hlen))|].
      destruct (decide (Finalizers (rb_meta b0) = [])) as [Hf|Hf]; [left; by apply Hfin|right; by exists b0].
    + intros s' st b0 x Hs' Hkeyed _ Hnow. rewrite IgnoreNotFound_nil. apply wp_ret. split; [done|].
      apply underway_with; [done|done|]. rewrite Hnow. apply Hwk, Hkeyed, Hrr.
    + intros s' e Hs' Hkeyed. assert (underway (withClient (C := busyCluster) rr s'))
        by (apply underway_with; [done|done|apply Hkeyed, Hrr]).
      destruct (IgnoreNotFound _); [by apply wp_fail|by apply wp_ret].
  - apply (wp_busy_CreateOrUpdate keys_kept project_call rolebindings rolebindingKind); [apply Hrr|..];
      simpl; rewrite ?Hname.
    + intros st _. unfold mutateBinding. by destruct (SetControllerReference _ _).
    + intros st b1 b' _ [Hm (_ & Href & Hsub)]. unfold mutateBinding in Hm.
      destruct (SetControllerReference _ _); [done|]. injection Hm as <-. simpl in Href, Hsub.
      assert (serves (Users (project_Spec p0)) role b') as Hserves by by apply subjects_serve.
      destruct (elems (subjectsForRole (Users (project_Spec p0)) role)) as [|s ss] eqn:Hel; [done|].
      assert (s ∈ elems (subjectsForRole (Users (project_Spec p0)) role)) as (u & Hu & Hr & _)%subjectsForRole_exact
        by (rewrite Hel; left).
      by apply (call_bind st role u b').
    + intros s' st b1 b' Hs' Hkeyed _ Hnow. apply wp_ret. split; [done|].
      apply underway_with; [done|done|]. rewrite Hnow. apply (Hwk st (Some b')), Hkeyed, Hrr.
    + intros s' e Hs' Hkeyed. split; [done|]. apply underway_with; [done|done|]. apply Hkeyed, Hrr.
Qed.

Lemma ensureRBAC_underway rr :
  underway rr -> wp (ensureRBAC (C := busyCluster)) proceeds rr.
Proof.
  intros Hrr. unfold ensureRBAC. apply wp_bind, (wp_instance (C := busyCluster)), wp_bind.
  apply underway_stateFor; [done|]. intros s rr1 Hrr1 _ Hns.
  destruct (st_namespace s) as [ns|]; [|by apply wp_fail]. specialize (Hns ns eq_refl). simpl.
  pose proof (pu_spec _ Hrr) as Hspec.
  apply underway_then; [apply ensureBinding_underway; [done|done|left|done]|]. intros rr2 Hrr2.
  apply underway_then; [apply ensureBinding_underway; [done|done|right; left|done]|]. intros rr3 Hrr3. by apply wp_ret.
Qed.

(** *** Network policies *)

Lemma well_keyed_policy st name x :
  well_keyed st -> (forall p, x = Some p -> namespacedKey (np_meta p) = (project, name)) ->
  well_keyed (kput networkpolicyKind (partial_alter (fun _ => x) (project, name) (s_networkpolicies st)) st).
Proof.
  intros [Hnp Hns] Hx. split; [|exact Hns]. intros k p. simpl.
  destruct (decide (k = (project, name))) as [->|Hne]; [rewrite lookup_partial_alter_eq; apply Hx|].
  rewrite lookup_partial_alter_ne by done. apply Hnp.
Qed.

Lemma mutatePolicy_key ns spec np np1 np' :
  mutatePolicy ns spec np = Ret np1 -> ksame networkpolicyKind np1 np' ->
  namespacedKey (np_meta np') = namespacedKey (np_meta np).
Proof.
  unfold mutatePolicy. intros Hm [Hsame _]. destruct (SetControllerReference _ _) as [e|m] eqn:Hset; [done|].
  injection Hm as <-. simpl in Hsame. apply SetControllerReference_ok in Hset as [_ Hmeta].
  unfold same_meta in Hsame. by rewrite Hsame, Hmeta.
Qed.

Lemma applyPolicy_underway ns np rr :
  Name (ns_meta ns) = project -> (exists i, wants i (projectOrg p0) (Name (np_meta np)) (np_Spec np)) ->
  underway rr ->
  wp (onClient (C := busyCluster) (CreateOrUpdate (busyClient networkpolicies)
        {| np_meta := namedMeta (Name (ns_meta ns)) (Name (np_meta np)); np_Spec := zeroPolicySpec |}
        (mutatePolicy ns (np_Spec np))) ;;; ret tt) proceeds rr.
Proof.
  intros Hname [i Hman] Hrr. rewrite Hname. apply wp_bind, (wp_onClient (C := busyCluster)).
  apply (wp_busy_CreateOrUpdate keys_kept project_call networkpolicies networkpolicyKind); [apply Hrr|..]; simpl.
  - intros st _. unfold mutatePolicy. by destruct (SetControllerReference _ _).
  - intros st p1 p' _ [Hm [_ Hspec]]. apply (call_policy st i _ p'). unfold mutatePolicy in Hm.
    destruct (SetControllerReference _ _); [done|]. injection Hm as <-. simpl in Hspec. by rewrite Hspec.
  - intros s' st p1 p' Hs' Hkeyed [Hm Hsame] Hnow. apply wp_ret. split; [done|].
    apply underway_with; [done|done|]. rewrite Hnow. pose proof (Hkeyed (pu_keyed _ Hrr)) as Hwk.
    apply (well_keyed_policy st _ (Some p')); [done|]. intros p [= <-].
    rewrite (mutatePolicy_key _ _ _ _ _ Hm Hsame).
    destruct (s_networkpolicies st !! _) eqn:Hp; [by apply (proj1 Hwk)|done].
  - intros s' e Hs' Hkeyed. split; [done|]. apply underway_with; [done|done|]. apply Hkeyed, Hrr.
Qed.

Lemma ensurePolicy_underway ns np rr :
  Name (ns_meta ns) = project -> (exists i, wants i (projectOrg p0) (Name (np_meta np)) (np_Spec np)) ->
  underway rr -> wp (ensurePolicy (C := busyCluster) ns np) proceeds rr.
Proof.
  intros Hname Hman Hrr. unfold ensurePolicy. cbv zeta.
  apply wp_bind, (underway_Get networkpolicies networkpolicyKind); [done|].
  intros [e|existing] rr1 Hrr1 _ _ _; destruct (negb _); try (by apply wp_fail); by apply applyPolicy_underway.
Qed.

Lemma removeStalePolicy_underway ns desired name rr :
  Name (ns_meta ns) = project -> name ∈ managedNetworkPolicies ->
  underway rr -> wp (removeStalePolicy (C := busyCluster) ns desired name) proceeds rr.
Proof.
  intros Hname Hman Hrr. unfold removeStalePolicy. rewrite Hname. case_decide; [by apply wp_ret|].
  apply wp_bind, (underway_Get networkpolicies networkpolicyKind); [done|].
  intros [e|stale] rr1 Hrr1 _ _ Hr; [destruct (IsNotFound e); [by apply wp_ret|by apply wp_fail]|].
  destruct (negb _); [by apply wp_ret|]. specialize (Hr stale eq_refl). simpl in Hr.
  assert (namespacedKey (np_meta stale) = (project, name)) as Hkey by by apply (proj1 (pu_keyed _ Hrr1)).
  apply wp_bind, (wp_onClient (C := busyCluster)).
  apply (wp_busy_Delete keys_kept project_call networkpolicies networkpolicyKind); [apply Hrr1|..];
    simpl; rewrite ?Hkey.
  - intros st q0 x _ (Hq0 & Hfin & _). apply call_unpolicy; [done|].
    destruct (decide (Finalizers (np_meta q0) = [])) as [Hf|Hf]; [left; by apply Hfin|right; by exists q0].
  - intros s' st q0 x Hs' Hkeyed (Hq0 & _ & Hx) Hnow. apply wp_ret. split; [done|].
    apply underway_with; [done|done|]. rewrite Hnow. pose proof (Hkeyed (pu_keyed _ Hrr1)) as Hwk.
    apply well_keyed_policy; [done|]. intros q [-> _]%Hx. by apply (proj1 Hwk).
  - intros s' e Hs' Hkeyed. assert (underway (withClient (C := busyCluster) rr1 s'))
        by (apply underway_with; [done|done|apply Hkeyed, Hrr1]).
    destruct (negb _); [by apply wp_fail|by apply wp_ret].
Qed.

Lemma range_underway {A} (l : list A) (body : A -> GoM BR error unit) rr :
  (forall x rr, x ∈ l -> underway rr -> wp (body x) proceeds rr) ->
  underway rr -> wp (range l body) proceeds rr.
Proof.
  intros Hbody Hrr. apply (wp_range _ _ (fun _ => underway)); [done| |by split].
  intros seen x rest rr' -> Hrr'. eapply wp_mono; [apply Hbody; [set_solver|done]|].
  intros [] rr2 [Hp Hrr2]; done.
Qed.

Lemma ensureNetworkPolicies_underway rr :
  underway rr -> wp (ensureNetworkPolicies (C := busyCluster)) proceeds rr.
Proof.
  intros Hrr. unfold ensureNetworkPolicies. apply wp_bind, (wp_instance (C := busyCluster)), wp_bind.
  apply underway_stateFor; [done|]. intros s rr1 Hrr1 _ Hns.
  destruct (st_namespace s) as [ns|]; [|by apply wp_fail]. specialize (Hns ns eq_refl).
  case_decide; [by apply wp_fail|]. apply underway_then.
  - apply range_underway; [|done]. intros np rr2 Hnp Hrr2. apply ensurePolicy_underway; [done| |done].
    exists (st_isolation s). replace (projectOrg p0) with (projectOrg (Instance_ rr))
      by (unfold projectOrg; by rewrite (pu_spec _ Hrr)).
    apply (wants_desired _ (Name (ns_meta ns))). eauto.
  - intros rr2 Hrr2. apply range_underway; [|done]. intros name rr3 Hin Hrr3.
    by apply removeStalePolicy_underway.
Qed.
End project.

(* ------------------------------------------------------------------ *)
(** ** The whole reconciliation *)

Section theorems.
  Context `{P : Platform} `{C : !Cluster} `{L : !LawfulCluster C} `{PL : !PlatformLaws P}.
  Context `{F : !@Framework P busyCluster} `{!FrameworkLaws F}.

(** C14: a reconciliation of a project among others that may do anything.  Every single
    call changes nothing, or one object in the namespace of the project's name: the
    namespace itself, which it claims and labels with the organization; a binding for
    exactly the users listed with the role, or the removal of one without users; a policy
    that some preset wants, or the removal of one under a managed name (a finalizer may
    hold what is removed).  At no moment does a call grant more, whatever the others do in
    between, and the reconciliation never panics. *)
Theorem project_under_interference (rr : Request Busy OrganizationProject Extension) :
  let p := Instance_ rr in
  others_keep keys_kept (Client rr) -> calls (Client rr) = [] ->
  well_keyed (now (Client rr)) -> Extensions rr = None ->
  let (r, rr') := runActions (C := busyCluster)
    (rc_Actions (C := busyCluster) NewOrganizationProjectReconciler) rr in
  r <> Panic /\ Forall (fun call => project_call p (fst call) (snd call)) (calls (Client rr')).
Proof.
  intros p Hq Hc Hkeyed Hx.
  assert (underway p rr) as Hrr.
  { split; [by apply calm_start|done..|]. intros ns. unfold stateIn. change (@world P busyCluster) with (@Busy P C). by rewrite Hx. }
  enough (wp (runActions (C := busyCluster) (rc_Actions (C := busyCluster) NewOrganizationProjectReconciler))
    (fun r rr => r <> Panic /\ underway p rr) rr) as H.
  { unfold wp in H. destruct (runActions (C := busyCluster) _ rr) as [r rr']. simpl in H.
    destruct H as [Hp [[_ Hcalls] _ _ _ _]]. done. }
  simpl.
  repeat (apply (wp_runActions_cons (C := busyCluster)); eapply wp_mono;
    [first [by apply (validateParentOrganization_underway p)|by apply (computeEffectiveIsolation_underway p)|
            by apply (ensureNamespace_underway p)|by apply (ensureRBAC_underway p)|
            by apply (ensureNetworkPolicies_underway p)]|];
    intros [[]|?|] ? [? ?]; [|done|done]).
  by apply (wp_runActions_nil (C := busyCluster)).
Qed.
End theorems.

(* ------------------------------------------------------------------ *)
(** ** A run *)

Section runs.
Import FakeInstances.
#[local] Existing Instance sequentialFramework.
#[local] Existing Instance sequentialFramework_laws.

(** Somebody opens the edit binding of the project to everyone, again and again. *)
Definition everyone : RBACSubject :=
  {| rs_Kind := "Group"; rs_APIGroup := rbacGroupName; rs_Name := "system:authenticated"; rs_Namespace := "" |}.
Definition tamper (w : FakeWorld) : FakeWorld :=
  withStore w (kput rolebindingKind
    {[bindingKey "lab" "edit" := {| rb_meta := bindingMeta "lab" "edit";
        rb_RoleRef := {| rr_APIGroup := rbacGroupName; rr_Kind := "ClusterRole"; rr_Name := "edit" |};
        rb_Subjects := Some [everyone] |}]} (fw_store w)).

Lemma project_under_interference_witness :
  let rr : Request Busy OrganizationProject Extension :=
    {| Client := {| real := fakeWorld labStore; moves := replicate 6 (tamper : world -> world); calls := [] |};
       Instance_ := lab "genomics"; Conditions := []; Extensions := None |} in
  Forall (fun call => project_call (lab "genomics") (fst call) (snd call))
    (calls (Client (snd (runActions (C := busyCluster)
       (rc_Actions (C := busyCluster) NewOrganizationProjectReconciler) rr)))).
Proof.
  intros rr. assert (others_keep keys_kept (Client rr)) as Hkeep
    by (apply Forall_replicate; by intros w [Hnp Hns]).
  pose proof (project_under_interference rr Hkeep eq_refl labStore_keyed eq_refl) as H. cbv zeta in H.
  destruct (runActions (C := busyCluster) _ rr) as [r rr']. exact (proj2 H).
Defined.
End runs.
