(* ===== verification/MaaS.v ===== *)
(** The MaaSConfiguration controller (internal/controller/maasconfiguration): the
    AITenant it renders for a root organization, its ownership rules, its cleanup
    finalizer and the conditions it reports. *)

From stdpp Require Import gmap strings list.
From Stdlib Require Import ZArith.
From S2P Require Import Prelude Platform Api Cluster Framework OrganizationCtl.

Local Open Scope string_scope.

Definition conditionCapabilityManaged : string := "CapabilityManaged".
Definition conditionMaaSReady : string := "MaaSReady".

Definition maasNamespace : string := "ai-tenants".
Definition maasFinalizer : string := "organization.opendatahub.io/maas-cleanup".
Definition organizationLabel : string := "organization.opendatahub.io/name".
Definition managedByLabel : string := "maas.opendatahub.io/managed-by".
Definition temporaryManagedBy : string := "tenancy-operator".
Definition maxAITenantNameSize : nat := 41.
Definition nestedNameField : string := "name".
Definition gatewayField : string := "gateway".
Definition tlsField : string := "tls".

Definition maasGVK : GroupVersionKind :=
  {| gvk_Group := "maas.opendatahub.io"; gvk_Version := "v1alpha1"; gvk_Kind := "AITenant" |}.

(** The marks the controller makes. *)
Definition markTrue (ty reason : string) : ConditionMark :=
  {| cm_Type := ty; cm_Status := ConditionTrue; cm_Reason := reason; cm_Message := None |}.
Definition markFalse (ty reason : string) (msg : text) : ConditionMark :=
  {| cm_Type := ty; cm_Status := ConditionFalse; cm_Reason := reason; cm_Message := Some msg |}.
Definition markUnknown (ty reason : string) (msg : text) : ConditionMark :=
  {| cm_Type := ty; cm_Status := ConditionUnknown; cm_Reason := reason; cm_Message := Some msg |}.

Section controller.
  Context `{P : Platform} `{C : !Cluster}.
  Abbreviation RR := (ReconciliationRequest MaaSConfiguration unit).
  Abbreviation MaaSAction := (GoM RR error unit).

(** metav1.Time.IsZero of a pointer. *)
Definition IsZero (t : option Z) : bool := match t with None => true | Some _ => false end.

Definition withMaaSMeta (c : MaaSConfiguration) (m : ObjectMeta) : MaaSConfiguration :=
  {| maas_meta := m; maas_Spec := maas_Spec c; maas_Status := maas_Status c |}.

Definition maasOwner (c : MaaSConfiguration) : Owner :=
  {| own_gvk := apiKind "MaaSConfiguration"; own_meta := maas_meta c |}.

(** [resources.GvkToUnstructured(maasGVK)] with its namespace and name set. *)
Definition newAITenant (name : string) : Unstructured :=
  {| u_meta := namedMeta maasNamespace name; Object := GvkToUnstructured maasGVK |}.

Definition hasMaaS : GoM world error bool :=
  let* r := call (HasCRD maasGVK) in
  match r with
  | inr ok => ret ok
  | inl _ => ret false
  end.

Definition markCapabilityUnavailable : MaaSAction :=
  mark (markFalse conditionCapabilityManaged "CapabilityNotManaged"
          (Sprintf "the MaaS AITenant CRD is not installed" [])) ;;;
  mark (markUnknown conditionMaaSReady "CapabilityNotManaged"
          (Sprintf "MaaS provisioning is waiting for the AITenant CRD" [])).

Definition specOIDCClientID (spec : MaaSConfigurationSpec) : string :=
  match maas_OIDC spec with
  | None => ""
  | Some oidc => ClientID oidc
  end.

(** [if err := unstructured.SetNestedField(...); err != nil { return err }] *)
Definition setField (obj : gmap string any) (v : any) (path : list string)
    : outcome error (gmap string any) := libErr (SetNestedField obj v path).

Definition render (obj : gmap string any) (spec : MaaSConfigurationSpec) (profile : OrganizationProfile)
    : outcome error (gmap string any) :=
  let oidc : gmap string any := ∅ in
  let hasOIDC := false in
  let platform := profile_Platform (profile_Spec profile) in
  let (oidc, hasOIDC) :=
    match platform with
    | Some {| platform_OIDC := Some o |} => (<["issuerUrl" := AStr (IssuerURL o)]> oidc, true)
    | _ => (oidc, hasOIDC)
    end in
  let (oidc, hasOIDC) :=
    match maas_OIDC spec with
    | Some _ => (<["clientId" := AStr (specOIDCClientID spec)]> oidc, true)
    | None => (oidc, hasOIDC)
    end in
  let? obj := if hasOIDC then setField obj (AMap oidc) ["spec"; "oidc"]
              else Ret (RemoveNestedField obj ["spec"; "oidc"]) in
  let? obj := match platform with
              | Some {| IngressGatewayRef := Some gw |} =>
                  setField obj (AMap {[nestedNameField := AStr (gw_Name gw)]}) ["spec"; gatewayField]
              | _ => Ret (RemoveNestedField obj ["spec"; gatewayField])
              end in
  let? obj := match maas_TLS spec with
              | Some tls =>
                  setField obj
                    (AMap {["certificateRef" :=
                              AMap (<[nestedNameField := AStr (cert_Name (CertificateRef tls))]>
                                      {["namespace" := AStr (cert_Namespace (CertificateRef tls))]})]})
                    ["spec"; tlsField]
              | None => Ret (RemoveNestedField obj ["spec"; tlsField])
              end in
  match maas_Quotas spec with
  | Some q =>
      setField obj
        (AMap (<["maxModels" := AInt (MaxModels q)]>
                 (<["maxSubscriptions" := AInt (MaxSubscriptions q)]>
                    {["maxApiKeys" := AInt (MaxAPIKeys q)]})))
        ["spec"; "resourceQuotas"]
  | None => Ret (RemoveNestedField obj ["spec"; "resourceQuotas"])
  end.

(** [condition[key] == want] for a string [want]. *)
Definition fieldIs (condition : gmap string any) (key want : string) : bool :=
  match condition !! key with
  | Some (AStr s) => bool_decide (s = want)
  | _ => false
  end.

Fixpoint ready_loop (statusConditions : list any) : bool :=
  match statusConditions with
  | [] => false
  | raw :: rest =>
      match raw with
      | AMap condition =>
          if fieldIs condition "type" "Ready" && fieldIs condition "status" "True" then true
          else ready_loop rest
      | _ => ready_loop rest
      end
  end.

Definition ready (obj : gmap string any) : bool :=
  let '(statusConditions, found, _) := NestedSlice obj ["status"; "conditions"] in
  if negb found then false else ready_loop statusConditions.

(** The first half of cleanupMaaS: the generated AITenant is deleted. *)
Definition releaseAITenant (configuration : MaaSConfiguration) : MaaSAction :=
  let* r := onClient (call (Get unstructureds (maasNamespace, Name (maas_meta configuration)))) in
  match r with
  | inl err =>
      if negb (IsNotFound err) && negb (IsNoMatchError err)
      then fail (ErrorfW (Sprintf "get generated AITenant for cleanup: %w" []) (ELib err))
      else ret tt
  | inr obj =>
      if IsControlledBy (u_meta obj) (maas_meta configuration) then
        let* e := onClient (call (Delete unstructureds obj)) in
        match e with
        | Some err => if negb (IsNotFound err)
                      then fail (ErrorfW (Sprintf "delete generated AITenant: %w" []) (ELib err))
                      else ret tt
        | None => ret tt
        end
      else ret tt
  end.

Definition cleanupMaaS (configuration : MaaSConfiguration) : MaaSAction :=
  releaseAITenant configuration ;;;
  let configuration := withMaaSMeta configuration (RemoveFinalizer (maas_meta configuration) maasFinalizer) in
  setInstance configuration ;;;
  let* r := onClient (call (Update maasconfigurations configuration)) in
  match r with
  | inl err => fail (ErrorfW (Sprintf "remove MaaS cleanup finalizer: %w" []) (ELib err))
  | inr configuration => setInstance configuration
  end.

(** The first part of reconcileMaaS: the cleanup finalizer is stored. *)
Definition ensureFinalizer : MaaSAction :=
  let* configuration := instance in
  if negb (ContainsFinalizer (maas_meta configuration) maasFinalizer) then
    let configuration := withMaaSMeta configuration (AddFinalizer (maas_meta configuration) maasFinalizer) in
    setInstance configuration ;;;
    let* r := onClient (call (Update maasconfigurations configuration)) in
    match r with
    | inl err => fail (ErrorfW (Sprintf "add MaaS cleanup finalizer: %w" []) (ELib err))
    | inr configuration => setInstance configuration
    end
  else ret tt.

(** The labels and the rendered content of the AITenant. *)
Definition prepareAITenant (configuration : MaaSConfiguration) (profile : OrganizationProfile)
    (obj : Unstructured) : outcome error Unstructured :=
  let organizationName := maasOrg configuration in
  let labels := match Labels (u_meta obj) with None => Some ∅ | l => l end in
  let? labels := map_assign labels organizationLabel organizationName in
  let? labels := map_assign labels managedByLabel temporaryManagedBy in
  let? content := render (Object obj) (maas_Spec configuration) profile in
  Ret {| u_meta := setLabels (u_meta obj) labels; Object := content |}.

(** The write; the server's version of the object is left in [obj]. *)
Definition writeAITenant (created : bool) (obj : Unstructured) : GoM RR error Unstructured :=
  if created then
    let* r := onClient (call (Create unstructureds obj)) in
    match r with
    | inl err => fail (ErrorfW (Sprintf "create AITenant: %w" []) (ELib err))
    | inr obj => ret obj
    end
  else
    let* r := onClient (call (Update unstructureds obj)) in
    match r with
    | inl err => fail (ErrorfW (Sprintf "update AITenant: %w" []) (ELib err))
    | inr obj => ret obj
    end.

(** The last part: the AITenant is created or updated, and its readiness reported. *)
Definition applyAITenant (created : bool) (configuration : MaaSConfiguration)
    (profile : OrganizationProfile) (obj : Unstructured) : MaaSAction :=
  let* obj := lift (prepareAITenant configuration profile obj) in
  let* obj := writeAITenant created obj in
  if ready (Object obj) then mark (markTrue conditionMaaSReady "MaaSReady")
  else mark (markUnknown conditionMaaSReady "WaitingForMaaS"
               (Sprintf "AITenant is waiting for the MaaS controller" [])).

(** The middle part: the existing AITenant, or a new one with its owners. *)
Definition claimAITenant (configuration : MaaSConfiguration) (organization : Organization)
    (profile : OrganizationProfile) : MaaSAction :=
  let name := Name (maas_meta configuration) in
  let* r := onClient (call (Get unstructureds (maasNamespace, name))) in
  match r with
  | inl err =>
      if negb (IsNotFound err)
      then fail (ErrorfW (Sprintf "get AITenant %q: %w" [OStr name]) (ELib err))
      else
        let obj := newAITenant name in
        match SetControllerReference (maasOwner configuration) (u_meta obj) with
        | inl err => fail (ErrorfW (Sprintf "set AITenant owner reference: %w" []) (ELib err))
        | inr meta =>
            match SetOwnerReference (organizationOwner organization) meta with
            | inl err => fail (ErrorfW (Sprintf "set organization owner reference: %w" []) (ELib err))
            | inr meta => applyAITenant true configuration profile {| u_meta := meta; Object := Object obj |}
            end
        end
  | inr obj =>
      if negb (IsControlledBy (u_meta obj) (maas_meta configuration)) then
        mark (markFalse conditionMaaSReady "ExistingResourceNotOwned"
                (Sprintf "an existing AITenant with this name is not managed by this MaaSConfiguration" []))
      else applyAITenant false configuration profile obj
  end.

Definition reconcileMaaS : MaaSAction :=
  let* configuration := instance in
  if negb (IsZero (DeletionTimestamp (maas_meta configuration))) then cleanupMaaS configuration
  else
    ensureFinalizer ;;;
    let* configuration := instance in
    let* ok := onClient hasMaaS in
    if negb ok then markCapabilityUnavailable
    else
      mark (markTrue conditionCapabilityManaged "CapabilityManaged") ;;;
      let organizationName := maasOrg configuration in
      let* r := onClient (call (Get organizations organizationName)) in
      match r with
      | inl err => fail (ErrorfW (Sprintf "get organization %q: %w" [OStr organizationName]) (ELib err))
      | inr organization =>
          if decide (organizationParent organization <> "") then
            mark (markFalse conditionMaaSReady "RootOrganizationRequired"
                    (Sprintf "MaaS is supported only for root organizations" []))
          else if decide (maxAITenantNameSize < String.length (Name (maas_meta configuration))) then
            mark (markFalse conditionMaaSReady "NameTooLong"
                    (Sprintf "organization name exceeds the AITenant name limit of %d characters"
                       [OInt (Z.of_nat maxAITenantNameSize)]))
          else
            let* r := onClient (call (Get profiles organizationName)) in
            match r with
            | inl err => fail (ErrorfW (Sprintf "get organization profile %q: %w" [OStr organizationName])
                                 (ELib err))
            | inr profile => claimAITenant configuration organization profile
            end
      end.

(** The events that trigger a reconciliation. *)
Inductive Event := CreateEvent | UpdateEvent | DeleteEvent | GenericEvent.

Definition maasPredicate (e : Event) : bool :=
  match e with
  | CreateEvent => true
  | UpdateEvent => true
  | DeleteEvent => true
  | GenericEvent => false
  end.

(** The names of the configurations to reconcile after a change of an AITenant. *)
Fixpoint mapAITenant_loop (owners : list OwnerReference) : list string :=
  match owners with
  | [] => []
  | owner :: rest =>
      if bool_decide (APIVersion owner = GroupVersion_String (apiKind "MaaSConfiguration")) &&
         bool_decide (owner_Kind owner = "MaaSConfiguration") &&
         match Controller owner with Some b => b | None => false end
      then [owner_Name owner]
      else mapAITenant_loop rest
  end.

Definition mapAITenant (obj : ObjectMeta) : list string := mapAITenant_loop (OwnerReferences obj).

(** What NewMaaSConfigurationReconciler registers. *)
Definition NewMaaSConfigurationReconciler : ReconcilerConfig MaaSConfiguration unit :=
  {| rc_For := "MaaSConfiguration";
     rc_Owns := [];
     rc_WatchesGVK := [maasGVK];
     rc_FinalizerName := Some maasFinalizer;
     rc_Actions := [reconcileMaaS];
     rc_Finalizers := [reconcileMaaS];
     rc_Dependents := [conditionCapabilityManaged; conditionMaaSReady; ProvisioningSucceeded] |}.
End controller.
