(* ===== verification/MaaSSpecs.v ===== *)
(** What the steps of the MaaSConfiguration controller do: the rendered fields of
    an AITenant, the finalizer, the ownership check and the cleanup. *)

From stdpp Require Import gmap strings list.
From Stdlib Require Import ZArith.
From S2P Require Import Prelude Platform Api Cluster Framework OrganizationCtl MaaS.

Local Open Scope string_scope.

(* ------------------------------------------------------------------ *)
(** ** Rendering *)

(** A field of the AITenant spec. *)
Definition specField (obj : gmap string any) (k : string) : option any :=
  match obj !! "spec" with Some (AMap m) => m !! k | _ => None end.

(** The spec is missing or an object: nothing else can be written into. *)
Definition spec_is_map (obj : gmap string any) : Prop :=
  match obj !! "spec" with None => True | Some (AMap _) => True | Some _ => False end.
#[export] Instance spec_is_map_dec obj : Decision (spec_is_map obj).
Proof. unfold spec_is_map. destruct (obj !! "spec") as [[]|]; apply _. Defined.

(** The content of the spec, empty when there is none. *)
Definition specMap (obj : gmap string any) : gmap string any :=
  match obj !! "spec" with Some (AMap m) => m | _ => ∅ end.

Section rendering.
  Context `{P : Platform} `{PL : !PlatformLaws P}.

Definition platformOIDC (p : OrganizationProfile) : option OIDCConfig :=
  profile_Platform (profile_Spec p) ≫= platform_OIDC.
Definition platformGateway (p : OrganizationProfile) : option GatewayReference :=
  profile_Platform (profile_Spec p) ≫= IngressGatewayRef.

(** The desired value of each rendered field; [None] is a field that must not be there. *)
Definition oidcField (spec : MaaSConfigurationSpec) (p : OrganizationProfile) : option any :=
  match platformOIDC p, maas_OIDC spec with
  | None, None => None
  | Some o, None => Some (AMap {["issuerUrl" := AStr (IssuerURL o)]})
  | None, Some c => Some (AMap {["clientId" := AStr (ClientID c)]})
  | Some o, Some c =>
      Some (AMap (<["clientId" := AStr (ClientID c)]> {["issuerUrl" := AStr (IssuerURL o)]}))
  end.
Definition gatewayFieldValue (p : OrganizationProfile) : option any :=
  gw ← platformGateway p; Some (AMap {["name" := AStr (gw_Name gw)]}).
Definition tlsFieldValue (spec : MaaSConfigurationSpec) : option any :=
  t ← maas_TLS spec;
  Some (AMap {["certificateRef" :=
                 AMap (<["name" := AStr (cert_Name (CertificateRef t))]>
                         {["namespace" := AStr (cert_Namespace (CertificateRef t))]})]}).
Definition quotasField (spec : MaaSConfigurationSpec) : option any :=
  q ← maas_Quotas spec;
  Some (AMap (<["maxModels" := AInt (MaxModels q)]>
                (<["maxSubscriptions" := AInt (MaxSubscriptions q)]>
                   {["maxApiKeys" := AInt (MaxAPIKeys q)]}))).

(** Set a field, or remove it. *)
Definition putField (obj : gmap string any) (k : string) (v : option any)
    : outcome error (gmap string any) :=
  match v with
  | Some v => setField obj v ["spec"; k]
  | None => Ret (RemoveNestedField obj ["spec"; k])
  end.

Lemma render_fields obj spec p :
  render obj spec p =
  obind (putField obj "oidc" (oidcField spec p)) (fun obj =>
  obind (putField obj "gateway" (gatewayFieldValue p)) (fun obj =>
  obind (putField obj "tls" (tlsFieldValue spec)) (fun obj =>
  putField obj "resourceQuotas" (quotasField spec)))).
Proof.
  unfold render, oidcField, gatewayFieldValue, tlsFieldValue, quotasField, specOIDCClientID,
    platformOIDC, platformGateway.
  destruct (profile_Platform _) as [[[] []]|], (maas_OIDC spec), (maas_TLS spec), (maas_Quotas spec);
    reflexivity.
Qed.

Lemma specField_specMap obj k : specField obj k = specMap obj !! k.
Proof.
  unfold specField, specMap.
  destruct (obj !! "spec") as [[]|]; by rewrite ?lookup_empty.
Qed.

Lemma setField_spec obj v k :
  (spec_is_map obj ->
   setField obj v ["spec"; k] = Ret (<["spec" := AMap (<[k := v]> (specMap obj))]> obj)) /\
  (~ spec_is_map obj -> exists e, setField obj v ["spec"; k] = Err e).
Proof.
  unfold spec_is_map, specMap, setField. destruct (obj !! "spec") as [x|] eqn:Hs.
  - destruct x; split; try done;
      try (intros _; destruct (SetNestedField_blocked obj v "spec" k _ Hs) as [e ->]; [done|by eexists]).
    intros _. by rewrite (SetNestedField_in _ _ _ _ _ Hs).
  - split; [|done]. intros _. by rewrite (SetNestedField_new _ _ _ _ Hs).
Qed.

(** One field, set or removed: the others and the rest of the object stay. *)
Lemma putField_ok obj k v obj' :
  putField obj k v = Ret obj' ->
  specField obj' k = v /\ (forall k', k' <> k -> specField obj' k' = specField obj k') /\
  (forall a, a <> "spec" -> obj' !! a = obj !! a) /\ (spec_is_map obj -> spec_is_map obj').
Proof.
  unfold putField. destruct v as [v|]; intros Hput.
  - destruct (setField_spec obj v k) as [Hset Hblocked].
    destruct (decide (spec_is_map obj)) as [Hm|Hm]; [|destruct (Hblocked Hm); congruence].
    rewrite (Hset Hm) in Hput. injection Hput as <-.
    assert (forall k', specField (<["spec" := AMap (<[k := v]> (specMap obj))]> obj) k' =
                       <[k := v]> (specMap obj) !! k') as Hf
      by (intros k'; unfold specField; by rewrite lookup_insert_eq).
    split; [by rewrite Hf, lookup_insert_eq|].
    split; [intros k' Hk; by rewrite Hf, specField_specMap, lookup_insert_ne|].
    split; [intros a Ha; by rewrite lookup_insert_ne|].
    intros _. unfold spec_is_map. by rewrite lookup_insert_eq.
  - injection Hput as <-. rewrite RemoveNestedField_two. unfold specField, spec_is_map.
    destruct (obj !! "spec") as [[]|] eqn:Hs; try (by rewrite Hs).
    rewrite lookup_insert_eq. split; [by rewrite lookup_delete_eq|].
    split; [intros k' Hk; by rewrite lookup_delete_ne|].
    split; [intros a Ha; by rewrite lookup_insert_ne|done].
Qed.

Lemma putField_total obj k v : spec_is_map obj -> exists obj', putField obj k v = Ret obj'.
Proof.
  intros Hs. destruct v as [v|]; [|by eexists]. simpl.
  eexists. by apply setField_spec.
Qed.

Lemma putField_outcome obj k v :
  (exists obj', putField obj k v = Ret obj') \/ ~ spec_is_map obj /\ exists e, putField obj k v = Err e.
Proof.
  destruct v as [v|]; [|left; by eexists]. simpl.
  destruct (setField_spec obj v k) as [Hset Hblocked].
  destruct (decide (spec_is_map obj)); [left|right]; eauto.
Qed.

(** What a rendered AITenant holds. *)
Record rendered (spec : MaaSConfigurationSpec) (p : OrganizationProfile)
    (obj obj' : gmap string any) : Prop := {
  rd_oidc : specField obj' "oidc" = oidcField spec p;
  rd_gateway : specField obj' "gateway" = gatewayFieldValue p;
  rd_tls : specField obj' "tls" = tlsFieldValue spec;
  rd_quotas : specField obj' "resourceQuotas" = quotasField spec;
  rd_others k : k ∉ ["oidc"; "gateway"; "tls"; "resourceQuotas"] ->
    specField obj' k = specField obj k;
}.

Lemma render_ok obj spec p obj' :
  render obj spec p = Ret obj' ->
  rendered spec p obj obj' /\ forall a, a <> "spec" -> obj' !! a = obj !! a.
Proof.
  rewrite render_fields. intros H.
  destruct (putField obj "oidc" _) as [o1|e|] eqn:H1; simpl in H; try done.
  destruct (putField o1 "gateway" _) as [o2|e|] eqn:H2; simpl in H; try done.
  destruct (putField o2 "tls" _) as [o3|e|] eqn:H3; simpl in H; try done.
  apply putField_ok in H1 as (F1 & O1 & A1 & _), H2 as (F2 & O2 & A2 & _),
    H3 as (F3 & O3 & A3 & _), H as (F4 & O4 & A4 & _).
  split; [constructor|].
  - by rewrite O4, O3, O2.
  - by rewrite O4, O3.
  - by rewrite O4.
  - done.
  - intros k Hk. rewrite O4, O3, O2, O1; set_solver.
  - intros a Ha. by rewrite A4, A3, A2, A1.
Qed.

Lemma rendered_ext spec p obj obj1 obj2 :
  obj2 !! "spec" = obj1 !! "spec" -> rendered spec p obj obj1 -> rendered spec p obj obj2.
Proof.
  intros Heq. assert (forall k, specField obj2 k = specField obj1 k) as Hf
    by (intros k; unfold specField; by rewrite Heq).
  intros [H1 H2 H3 H4 H5]. constructor; try (by rewrite Hf). intros k Hk. rewrite Hf. auto.
Qed.

Lemma render_total obj spec p : spec_is_map obj -> exists obj', render obj spec p = Ret obj'.
Proof.
  intros Hs. rewrite render_fields.
  destruct (putField_total obj "oidc" (oidcField spec p) Hs) as [o1 H1]. rewrite H1. simpl.
  apply putField_ok in H1 as (_ & _ & _ & Hs1).
  destruct (putField_total o1 "gateway" (gatewayFieldValue p) (Hs1 Hs)) as [o2 H2]. rewrite H2. simpl.
  apply putField_ok in H2 as (_ & _ & _ & Hs2).
  destruct (putField_total o2 "tls" (tlsFieldValue spec) (Hs2 (Hs1 Hs))) as [o3 H3]. rewrite H3. simpl.
  apply putField_ok in H3 as (_ & _ & _ & Hs3). apply putField_total. auto.
Qed.

Lemma render_no_panic obj spec p : render obj spec p <> Panic.
Proof.
  rewrite render_fields.
  destruct (putField_outcome obj "oidc" (oidcField spec p)) as [[o1 H1]|[_ [e H1]]]; rewrite H1; simpl; [|done].
  destruct (putField_outcome o1 "gateway" (gatewayFieldValue p)) as [[o2 H2]|[_ [e H2]]]; rewrite H2; simpl; [|done].
  destruct (putField_outcome o2 "tls" (tlsFieldValue spec)) as [[o3 H3]|[_ [e H3]]]; rewrite H3; simpl; [|done].
  destruct (putField_outcome o3 "resourceQuotas" (quotasField spec)) as [[o4 H4]|[_ [e H4]]]; by rewrite H4.
Qed.

(** Rendering what is already rendered changes nothing. *)
Lemma putField_id obj k v : specField obj k = v -> putField obj k v = Ret obj.
Proof.
  unfold putField. destruct v as [v|]; intros Hf.
  - assert (exists m, obj !! "spec" = Some (AMap m) /\ m !! k = Some v) as (m & Hm & Hk).
    { unfold specField in Hf. destruct (obj !! "spec") as [[]|]; try done. eauto. }
    rewrite (proj1 (setField_spec obj v k)) by (unfold spec_is_map; by rewrite Hm).
    unfold specMap. rewrite Hm, (insert_id m) by done. by rewrite insert_id.
  - rewrite RemoveNestedField_two. unfold specField in Hf.
    destruct (obj !! "spec") as [[]|] eqn:Hm; try done.
    rewrite delete_id by done. by rewrite insert_id.
Qed.

Lemma render_id obj spec p obj0 : rendered spec p obj0 obj -> render obj spec p = Ret obj.
Proof.
  intros [H1 H2 H3 H4 _]. rewrite render_fields.
  rewrite (putField_id _ _ _ H1). simpl. rewrite (putField_id _ _ _ H2). simpl.
  rewrite (putField_id _ _ _ H3). simpl. by rewrite (putField_id _ _ _ H4).
Qed.

(* ------------------------------------------------------------------ *)
(** ** Readiness and event routing *)

Definition is_ready_condition (c : any) : Prop :=
  exists m, c = AMap m /\ m !! "type" = Some (AStr "Ready") /\ m !! "status" = Some (AStr "True").

Lemma fieldIs_spec m k v : fieldIs m k v = true <-> m !! k = Some (AStr v).
Proof.
  unfold fieldIs. destruct (m !! k) as [[]|]; try naive_solver.
  rewrite bool_decide_eq_true. naive_solver.
Qed.

Lemma ready_loop_spec l : ready_loop l = true <-> exists c, c ∈ l /\ is_ready_condition c.
Proof.
  induction l as [|c l IH]; simpl.
  { split; [done|]. by intros (c & ?%elem_of_nil & _). }
  setoid_rewrite elem_of_cons. unfold is_ready_condition in *.
  assert (ready_loop l = true -> exists c', (c' = c \/ c' ∈ l) /\
    exists m, c' = AMap m /\ m !! "type" = Some (AStr "Ready") /\ m !! "status" = Some (AStr "True")) as Hl.
  { rewrite IH. intros (c' & Hc' & Hr). exists c'. auto. }
  destruct c as [| | | | | |m]; try (split; [exact Hl|];
    intros (c' & [->|Hc'] & m' & Hm & Hr); [done|]; apply IH; exists c'; eauto).
  destruct (fieldIs m "type" "Ready" && fieldIs m "status" "True") eqn:Hc.
  - apply andb_true_iff in Hc as [H1%fieldIs_spec H2%fieldIs_spec]. split; [|done]. intros _.
    exists (AMap m). split; [by left|]. by exists m.
  - split; [exact Hl|]. intros (c' & [->|Hc'] & m' & Hm & H1 & H2).
    + injection Hm as ->. apply fieldIs_spec in H1, H2. by rewrite H1, H2 in Hc.
    + apply IH. exists c'. eauto.
Qed.

Lemma ready_spec obj :
  ready obj = true <->
  exists m l c, obj !! "status" = Some (AMap m) /\ m !! "conditions" = Some (ASlice l) /\
    c ∈ l /\ is_ready_condition c.
Proof.
  unfold ready.
  assert ((exists m l, obj !! "status" = Some (AMap m) /\ m !! "conditions" = Some (ASlice l)) \/
          (forall m l, obj !! "status" = Some (AMap m) -> m !! "conditions" <> Some (ASlice l))) as Hd.
  { destruct (obj !! "status") as [[]|]; try (right; congruence).
    destruct (m !! "conditions") as [[]|] eqn:Hm; try (right; intros ?? [= <-]; congruence).
    left. eauto. }
  destruct Hd as [(m & l & Hm & Hl)|Hno].
  - rewrite (NestedSlice_found _ _ _ _ _ Hm Hl). simpl. rewrite ready_loop_spec. split.
    + intros (c & Hc). exists m, l, c. tauto.
    + intros (m' & l' & c & Hm' & Hl' & Hc). exists c. congruence.
  - pose proof (NestedSlice_missing obj "status" "conditions" Hno) as Hf.
    destruct (NestedSlice obj ["status"; "conditions"]) as [[l found] e]. simpl in Hf. subst found. simpl.
    split; [done|]. intros (m & l' & c & Hm & Hl & _). by destruct (Hno m l' Hm).
Qed.
End rendering.

(** The first controlling reference decides where an event goes. *)
Lemma mapAITenant_controller m r :
  controllerOf m = Some r -> APIVersion r = GroupVersion_String (apiKind "MaaSConfiguration") ->
  owner_Kind r = "MaaSConfiguration" -> mapAITenant m = [owner_Name r].
Proof.
  unfold mapAITenant, controllerOf. intros Hc Hv Hk.
  induction (OwnerReferences m) as [|r' l IH]; simpl in *; [done|].
  case_bool_decide as Hctl.
  - injection Hc as ->. rewrite Hctl, Hv, Hk. by rewrite !bool_decide_true.
  - destruct (Controller r') as [[]|]; [done| |]; rewrite !andb_false_r; auto.
Qed.

(* ------------------------------------------------------------------ *)
(** ** The steps of a reconciliation *)

Section steps.
  Context `{P : Platform} `{C : !Cluster} `{L : !LawfulCluster C} `{PL : !PlatformLaws P}.
  Abbreviation RR := (ReconciliationRequest MaaSConfiguration unit).
  Implicit Types rr : RR.

Definition maasStore (rr : RR) : Store := view (Client rr).

Definition tenantKey (c : MaaSConfiguration) : string * string := (maasNamespace, Name (maas_meta c)).

(** An object under deletion is only there because a finalizer holds it. *)
Definition held (m : ObjectMeta) : Prop := DeletionTimestamp m <> None -> Finalizers m <> [].

(** The AITenant [u] is what configuration [c] and profile [p] ask for; labels and spec
    fields the operator does not own are those of [u0]. *)
Record tenant_managed (c : MaaSConfiguration) (p : OrganizationProfile) (u0 u : Unstructured) : Prop := {
  tm_key : namespacedKey (u_meta u) = tenantKey c;
  tm_controller : IsControlledBy (u_meta u) (maas_meta c) = true;
  tm_organization : map_index (Labels (u_meta u)) organizationLabel = Some (maasOrg c);
  tm_managedBy : map_index (Labels (u_meta u)) managedByLabel = Some temporaryManagedBy;
  tm_labels k : k <> organizationLabel -> k <> managedByLabel ->
    map_index (Labels (u_meta u)) k = map_index (Labels (u_meta u0)) k;
  tm_rendered : rendered (maas_Spec c) p (Object u0) (Object u);
  tm_held : held (u_meta u);
}.

Lemma tenant_managed_from c p u0 u1 u :
  Labels (u_meta u0) = Labels (u_meta u1) -> Object u0 = Object u1 ->
  tenant_managed c p u1 u -> tenant_managed c p u0 u.
Proof. intros Hl Ho [H1 H2 H3 H4 H5 H6 H7]. constructor; rewrite ?Hl, ?Ho; done. Qed.

(** The mark that reports the readiness of an AITenant. *)
Definition readinessMark (u : Unstructured) : ConditionMark :=
  if ready (Object u) then markTrue conditionMaaSReady "MaaSReady"
  else markUnknown conditionMaaSReady "WaitingForMaaS"
         (Sprintf "AITenant is waiting for the MaaS controller" []).

Lemma prepareAITenant_no_panic c p u : prepareAITenant c p u <> Panic.
Proof.
  unfold prepareAITenant. destruct (Labels (u_meta u)); simpl;
    destruct (render _ _ p) eqn:Hr; simpl; try done; by apply render_no_panic in Hr.
Qed.

Lemma prepareAITenant_ok c p u u' :
  prepareAITenant c p u = Ret u' ->
  u_meta u' = setLabels (u_meta u) (Labels (u_meta u')) /\
  map_index (Labels (u_meta u')) organizationLabel = Some (maasOrg c) /\
  map_index (Labels (u_meta u')) managedByLabel = Some temporaryManagedBy /\
  (forall k, k <> organizationLabel -> k <> managedByLabel ->
     map_index (Labels (u_meta u')) k = map_index (Labels (u_meta u)) k) /\
  rendered (maas_Spec c) p (Object u) (Object u').
Proof.
  intros Hprep. set (ls := default ∅ (Labels (u_meta u))).
  assert (obind (render (Object u) (maas_Spec c) p) (fun content => Ret
    {| u_meta := setLabels (u_meta u) (Some (<[managedByLabel := temporaryManagedBy]>
         (<[organizationLabel := maasOrg c]> ls))); Object := content |}) = Ret u') as Hcore.
  { subst ls. rewrite <- Hprep. unfold prepareAITenant. by destruct (Labels (u_meta u)). }
  clear Hprep. destruct (render _ _ _) as [content|e|] eqn:Hr; simpl in Hcore; try done.
  injection Hcore as <-. simpl. split; [done|].
  split; [by rewrite lookup_insert_ne, lookup_insert_eq by done|].
  split; [by rewrite lookup_insert_eq|]. split; [|by apply render_ok in Hr as [? _]].
  intros k Hk1 Hk2. rewrite !lookup_insert_ne by done. subst ls.
  destruct (Labels (u_meta u)); simpl; by rewrite ?lookup_empty.
Qed.

Lemma writeAITenant_spec created u rr :
  held (u_meta u) ->
  wp (writeAITenant created u)
     (fun r rr' => Instance_ rr' = Instance_ rr /\ Conditions rr' = Conditions rr /\
        match r with
        | Ret u' => ksame aitenantKind u u' /\
            maasStore rr' = stored aitenantKind (namespacedKey (u_meta u)) u' (maasStore rr)
        | Err _ => maasStore rr' = maasStore rr
        | Panic => False
        end) rr.
Proof.
  intros Hheld. unfold writeAITenant, maasStore.
  destruct created; apply wp_bind, wp_onClient.
  - apply (wp_Create _ _ aitenantKind); simpl.
    + intros u' w _ Hsame Hv. by apply wp_ret.
    + intros e w Hv. by apply wp_fail.
  - apply (wp_Update _ _ aitenantKind); simpl.
    + intros u' r w _ Hsame _ Hv Hr. apply wp_ret. split; [done|]. split; [done|]. split; [done|].
      destruct Hr as [->|(-> & Hd & Hf)]; [done|]. by destruct (Hheld Hd).
    + intros e w Hv. by apply wp_fail.
Qed.

Lemma applyAITenant_spec created c p u rr :
  namespacedKey (u_meta u) = tenantKey c -> IsControlledBy (u_meta u) (maas_meta c) = true ->
  held (u_meta u) ->
  wp (applyAITenant created c p u)
     (fun r rr' => Instance_ rr' = Instance_ rr /\
        match r with
        | Ret _ => exists u', tenant_managed c p u u' /\
            OwnerReferences (u_meta u') = OwnerReferences (u_meta u) /\
            maasStore rr' = stored aitenantKind (tenantKey c) u' (maasStore rr) /\
            Conditions rr' = (Conditions rr ++ [readinessMark u'])%list
        | Err _ => maasStore rr' = maasStore rr /\ Conditions rr' = Conditions rr
        | Panic => False
        end) rr.
Proof.
  intros Hkey Hctl Hheld. unfold applyAITenant. apply wp_bind, run_wp.
  intros r rr1 [= <- <-]. destruct (prepareAITenant c p u) as [u1|e|] eqn:Hprep; [|done|].
  2:{ by apply prepareAITenant_no_panic in Hprep. }
  apply prepareAITenant_ok in Hprep as (Hmeta & Horg & Hby & Hothers & Hrend).
  assert (namespacedKey (u_meta u1) = tenantKey c) as Hkey1 by by rewrite Hmeta.
  apply wp_bind. eapply wp_mono.
  { apply (writeAITenant_spec created u1). unfold held. by rewrite Hmeta. }
  intros [u'|e|] rr' (Hi & Hc & Hr); [|done|done]. destruct Hr as [[Hsame Hspec] Hst].
  rewrite Hkey1 in Hst. unfold same_meta in Hsame. revert Hsame. generalize (UID (u_meta u')).
  intros uid Hsame.
  assert (tenant_managed c p u u') as Htm.
  { constructor; rewrite ?Hsame; try done.
    - rewrite IsControlledBy_setUID, Hmeta. rewrite !IsControlledBy_spec in *. exact Hctl.
    - by eapply rendered_ext.
    - unfold held. simpl. by rewrite Hmeta. }
  assert (OwnerReferences (u_meta u') = OwnerReferences (u_meta u)) as Hown
    by (rewrite Hsame; simpl; by rewrite Hmeta).
  destruct (ready (Object u')) eqn:Hrd; apply wp_mark; (split; [done|]); exists u';
    unfold readinessMark; rewrite Hrd; simpl; rewrite Hc; done.
Qed.

(** AITenants are stored under their own names, and held when under deletion. *)
Definition tenants_ok (st : Store) : Prop :=
  forall k u, s_aitenants st !! k = Some u -> namespacedKey (u_meta u) = k /\ held (u_meta u).

Definition notOwnedMark : ConditionMark :=
  markFalse conditionMaaSReady "ExistingResourceNotOwned"
    (Sprintf "an existing AITenant with this name is not managed by this MaaSConfiguration" []).

Lemma claimAITenant_spec c o p rr :
  tenants_ok (maasStore rr) ->
  wp (claimAITenant c o p)
     (fun r rr' => Instance_ rr' = Instance_ rr /\
        match r with
        | Ret _ =>
            (exists u, s_aitenants (maasStore rr) !! tenantKey c = Some u /\
               IsControlledBy (u_meta u) (maas_meta c) = false /\
               maasStore rr' = maasStore rr /\ Conditions rr' = (Conditions rr ++ [notOwnedMark])%list) \/
            (exists u', (forall u, s_aitenants (maasStore rr) !! tenantKey c = Some u ->
                           IsControlledBy (u_meta u) (maas_meta c) = true) /\
               tenant_managed c p (default (newAITenant (Name (maas_meta c)))
                                     (s_aitenants (maasStore rr) !! tenantKey c)) u' /\
               (s_aitenants (maasStore rr) !! tenantKey c = None ->
                mapAITenant (u_meta u') = [Name (maas_meta c)]) /\
               maasStore rr' = stored aitenantKind (tenantKey c) u' (maasStore rr) /\
               Conditions rr' = (Conditions rr ++ [readinessMark u'])%list)
        | Err _ => maasStore rr' = maasStore rr /\ Conditions rr' = Conditions rr
        | Panic => False
        end) rr.
Proof.
  intros Hok. unfold claimAITenant. apply wp_bind, wp_onClient.
  apply (wp_Get _ _ aitenantKind False (False_ind _)); simpl.
  - intros u w Hu Hv. destruct (Hok _ _ Hu) as [Hkey Hheld].
    assert (maasStore (withClient rr w) = maasStore rr) as Hs by done.
    destruct (IsControlledBy _ _) eqn:Hctl; simpl.
    2:{ apply wp_mark. split; [done|]. left. exists u. done. }
    eapply wp_mono; [by apply (applyAITenant_spec false c p u)|]. rewrite Hs.
    intros [[]|e|] rr' (Hi & Hr); (split; [done|]); [|done|done].
    destruct Hr as (u' & Htm & _ & Hst & Hc). right. exists u'.
    change (s_aitenants (maasStore rr) !! tenantKey c = Some u) in Hu. rewrite Hu.
    split; [by intros ? [= <-]|]. done.
  - intros e w Hnf _ Hv. destruct (IsNotFound e); simpl; [|by apply wp_fail].
    specialize (Hnf eq_refl). change (s_aitenants (maasStore rr) !! tenantKey c = None) in Hnf.
    assert (maasStore (withClient rr w) = maasStore rr) as Hs by done.
    destruct (SetControllerReference _ _) as [e1|m1] eqn:H1; [by apply wp_fail|].
    destruct (SetOwnerReference _ _) as [e2|m2] eqn:H2; [by apply wp_fail|].
    pose proof (SetControllerReference_ref _ _ _ H1) as Href.
    apply SetControllerReference_ok in H1 as [Hctl Hm1]. apply SetOwnerReference_ok in H2 as [Hm2 Hkeep].
    assert (controllerOf m2 = Some (ownerRef (maasOwner c) (Some true))) as Href2.
    { rewrite Hkeep; [done|]. intros r. rewrite Href. by intros [= <-]. }
    eapply wp_mono; [apply (applyAITenant_spec true c p); simpl|].
    + rewrite Hm2, Hm1. done.
    + apply IsControlledBy_spec. exists (ownerRef (maasOwner c) (Some true)). done.
    + rewrite Hm2, Hm1. by intros H.
    + rewrite Hs. intros [[]|e'|] rr' (Hi & Hr); (split; [done|]); [|done|done].
      destruct Hr as (u' & Htm & Hown & Hst & Hc). right. exists u'. rewrite Hnf.
      split; [done|]. split; [|split; [|done]].
      * eapply tenant_managed_from; [| |exact Htm]; simpl; [|done]. by rewrite Hm2, Hm1.
      * intros _. rewrite (mapAITenant_controller _ (ownerRef (maasOwner c) (Some true))); try done.
        unfold controllerOf in *. by rewrite Hown.
Qed.

(** The finalizer is stored before anything else happens. *)
Lemma ensureFinalizer_spec rr :
  s_maas (maasStore rr) !! Name (maas_meta (Instance_ rr)) = Some (Instance_ rr) ->
  DeletionTimestamp (maas_meta (Instance_ rr)) = None -> UID (maas_meta (Instance_ rr)) <> "" ->
  wp ensureFinalizer
     (fun r rr' => Conditions rr' = Conditions rr /\
        match r with
        | Ret _ => maas_Spec (Instance_ rr') = maas_Spec (Instance_ rr) /\
            maas_meta (Instance_ rr') =
              setFinalizers (maas_meta (Instance_ rr)) (Finalizers (maas_meta (Instance_ rr'))) /\
            maasFinalizer ∈ Finalizers (maas_meta (Instance_ rr')) /\
            maasStore rr' = stored maasKind (Name (maas_meta (Instance_ rr))) (Instance_ rr') (maasStore rr)
        | Err _ => maasStore rr' = maasStore rr
        | Panic => False
        end) rr.
Proof.
  intros Hst Hdel Huid. unfold ensureFinalizer. apply wp_bind, wp_instance.
  destruct (ContainsFinalizer _ _) eqn:Hf; simpl.
  - apply wp_ret. apply ContainsFinalizer_spec in Hf. split; [done|]. split; [done|].
    split; [by destruct (maas_meta (Instance_ rr))|]. split; [done|].
    unfold stored. simpl. rewrite insert_id by done. by destruct (maasStore rr).
  - destruct (AddFinalizer_spec (maas_meta (Instance_ rr)) maasFinalizer) as [Hmeta Hin].
    apply wp_bind, wp_setInstance, wp_bind, wp_onClient.
    apply (wp_Update _ _ maasKind); simpl.
    + intros c' r w _ [Hsame Hspec] Hu Hv Hr. apply wp_setInstance. simpl. split; [done|].
      rewrite Hmeta in Hsame, Hu, Hr, Hv. simpl in *. specialize (Hu Huid).
      unfold same_meta in Hsame. rewrite Hu in Hsame.
      split; [done|]. split; [by rewrite Hsame; destruct (maas_meta (Instance_ rr))|].
      split; [rewrite Hsame; simpl; apply Hin; by left|].
      destruct Hr as [->|(_ & Hd & _)]; [|done]. exact Hv.
    + intros e w Hv. by apply wp_fail.
Qed.

(** The AITenants after the generated one has been released: the others are as they
    were, and one under the configuration's name is foreign or held by a finalizer. *)
Record tenant_released (c : MaaSConfiguration) (st st' : Store) : Prop := {
  tr_kind : st' = kput aitenantKind (s_aitenants st') st;
  tr_others k : k <> tenantKey c -> s_aitenants st' !! k = s_aitenants st !! k;
  tr_foreign u : s_aitenants st !! tenantKey c = Some u ->
    IsControlledBy (u_meta u) (maas_meta c) = false -> s_aitenants st' !! tenantKey c = Some u;
  tr_gone u' : s_aitenants st' !! tenantKey c = Some u' ->
    s_aitenants st !! tenantKey c = Some u' /\ IsControlledBy (u_meta u') (maas_meta c) = false \/
    exists u, s_aitenants st !! tenantKey c = Some u /\ Finalizers (u_meta u) <> [];
  tr_ok : tenants_ok st -> tenants_ok st';
}.

Lemma kput_self_aitenant st : st = kput aitenantKind (s_aitenants st) st.
Proof. by destruct st. Qed.

Lemma tenant_released_same c st :
  (forall u, s_aitenants st !! tenantKey c = Some u -> IsControlledBy (u_meta u) (maas_meta c) = false) ->
  tenant_released c st st.
Proof. intros H. constructor; [apply kput_self_aitenant|done|done| |done]. intros u Hu. left. auto. Qed.

(** The deletion that was issued: an AITenant of the configuration's name that it controls
    was deleted where it was read, while the configurations were still as they had been;
    any other was left alone.  [ts] are the AITenants left. *)
Definition tenant_deleted (c : MaaSConfiguration) rr (ts : gmap (string * string) Unstructured) : Prop :=
  match s_aitenants (maasStore rr) !! tenantKey c with
  | Some u =>
      if IsControlledBy (u_meta u) (maas_meta c) then
        exists w', Delete unstructureds u (snd (Get unstructureds (tenantKey c) (Client rr))) = (None, w') /\
          ts = s_aitenants (view w') /\ s_maas (view w') = s_maas (maasStore rr) /\
          (Finalizers (u_meta u) = [] -> ts !! tenantKey c = None)
      else ts = s_aitenants (maasStore rr)
  | None => ts = s_aitenants (maasStore rr)
  end.

Lemma releaseAITenant_deletes c rr :
  tenants_ok (maasStore rr) ->
  wp (releaseAITenant c) (fun r rr' => r = Ret tt -> tenant_deleted c rr (s_aitenants (maasStore rr'))) rr.
Proof.
  intros Hok. unfold releaseAITenant, tenant_deleted. apply wp_bind, wp_onClient.
  fold (tenantKey c). apply wp_call. intros r w Hget. rewrite Hget. cbn [snd].
  destruct r as [e|u].
  - destruct (get_failed _ _ _ _ Hget) as [Hnf Hv]. unfold maasStore in *.
    assert ((negb (IsNotFound e) && negb (IsNoMatchError e)) = false ->
      s_aitenants (view (Client rr)) !! tenantKey c = None) as Hnone.
    { intros He. apply andb_false_iff in He as [He|He]; apply negb_false_iff in He;
        [exact (Hnf He)|exact (aitenants_nomatch _ _ _ _ Hget He)]. }
    destruct (negb (IsNotFound e) && negb (IsNoMatchError e)); [by apply wp_fail|].
    apply wp_ret. simpl. rewrite Hnone, Hv by done. done.
  - apply get_found in Hget as [Hu Hv]. change (s_aitenants (maasStore rr) !! tenantKey c = Some u) in Hu.
    rewrite Hu. destruct (Hok _ _ Hu) as [Hkey _]. destruct (IsControlledBy _ _).
    2:{ apply wp_ret. intros _. unfold maasStore. simpl. by rewrite Hv. }
    apply wp_bind, wp_onClient, wp_call. intros d w' Hdel. simpl in Hdel. destruct d as [e|].
    + destruct (delete_failed _ _ _ _ Hdel) as [Hnf _]. destruct (IsNotFound e); [|by apply wp_fail].
      specialize (Hnf eq_refl). simpl in Hnf. rewrite Hkey, Hv in Hnf.
      discriminate (eq_trans (eq_sym Hnf) Hu).
    + apply wp_ret. intros _. exists w'. split; [done|].
      apply delete_done in Hdel as (u0 & x & Hu0 & Hv' & Hfin & _). unfold maasStore in *. simpl in *. rewrite Hkey, Hv in *. rewrite Hu in Hu0. injection Hu0 as <-.
      split; [done|]. rewrite Hv'. split; [done|]. intros Hf. simpl.
      by rewrite lookup_partial_alter_eq, (Hfin Hf).
Qed.

Lemma releaseAITenant_spec c rr :
  tenants_ok (maasStore rr) ->
  wp (releaseAITenant c)
     (fun r rr' => Instance_ rr' = Instance_ rr /\ Conditions rr' = Conditions rr /\
        match r with
        | Ret _ => tenant_released c (maasStore rr) (maasStore rr')
        | Err _ => maasStore rr' = maasStore rr
        | Panic => False
        end) rr.
Proof.
  intros Hok. unfold releaseAITenant. apply wp_bind, wp_onClient, wp_call.
  intros [e|u] w Hget.
  - destruct (get_failed _ _ _ _ Hget) as [Hnf Hv]. unfold maasStore.
    destruct (negb (IsNotFound e) && negb (IsNoMatchError e)) eqn:He; [by apply wp_fail|].
    apply wp_ret. simpl. rewrite Hv. split; [done|]. split; [done|].
    apply tenant_released_same. intros u Hu.
    apply andb_false_iff in He as [He|He]; apply negb_false_iff in He.
    + discriminate (eq_trans (eq_sym (Hnf He)) Hu).
    + pose proof (aitenants_nomatch _ _ _ _ Hget He) as Hn. discriminate (eq_trans (eq_sym Hn) Hu).
  - apply get_found in Hget as [Hu Hv]. change (s_aitenants (maasStore rr) !! tenantKey c = Some u) in Hu.
    destruct (Hok _ _ Hu) as [Hkey _]. destruct (IsControlledBy _ _) eqn:Hctl.
    2:{ apply wp_ret. unfold maasStore in *. simpl. rewrite Hv. split; [done|]. split; [done|].
        apply tenant_released_same. congruence. }
    apply wp_bind, wp_onClient, (wp_Delete _ _ aitenantKind); simpl; unfold maasStore in *;
      rewrite Hkey, Hv.
    + intros u0 x w' Hu0 Hv' Hfin Hkept. apply wp_ret. simpl. rewrite Hv'. split; [done|]. split; [done|].
      rewrite Hu in Hu0. injection Hu0 as <-. constructor; simpl; [done| | | |].
      * intros k Hk. by rewrite lookup_partial_alter_ne.
      * congruence.
      * intros u'. rewrite lookup_partial_alter_eq. intros ->. right. exists u. split; [done|].
        intros Hf. by specialize (Hfin Hf).
      * intros _ k u'. simpl. destruct (decide (k = tenantKey c)) as [->|Hne].
        -- rewrite lookup_partial_alter_eq. intros ->. destruct (Hkept u' eq_refl) as [Hk Hf].
           split; [unfold namespacedKey in *; congruence|]. intros _. rewrite Hf. intros Hnil. by specialize (Hfin Hnil).
        -- rewrite lookup_partial_alter_ne by congruence. apply Hok.
    + intros e w' Hnf Hv'. destruct (IsNotFound e); simpl; [|apply wp_fail; simpl; by rewrite Hv'].
      discriminate (eq_trans (eq_sym (Hnf eq_refl)) Hu).
Qed.
End steps.
