(* ===== verification/MaaSTheorems.v ===== *)
(** What the MaaSConfiguration controller guarantees: every outcome of a
    reconciliation with the conditions it reports, the AITenant it renders, that
    foreign AITenants are never touched, and that cleanup comes before the release
    of the finalizer. *)

From stdpp Require Import gmap strings list.
From Stdlib Require Import ZArith.
From S2P Require Import Prelude Platform Api Cluster Fake Framework OrganizationCtl MaaS MaaSSpecs.

Local Open Scope string_scope.

Section verdicts.
  Context `{P : Platform} `{C : !Cluster} `{L : !LawfulCluster C} `{PL : !PlatformLaws P}.
  Abbreviation RR := (ReconciliationRequest MaaSConfiguration unit).
  Implicit Types rr : RR.

Definition capabilityMark : ConditionMark := markTrue conditionCapabilityManaged "CapabilityManaged".
Definition noCapabilityMarks : list ConditionMark :=
  [markFalse conditionCapabilityManaged "CapabilityNotManaged"
     (Sprintf "the MaaS AITenant CRD is not installed" []);
   markUnknown conditionMaaSReady "CapabilityNotManaged"
     (Sprintf "MaaS provisioning is waiting for the AITenant CRD" [])].
Definition notRootMark : ConditionMark :=
  markFalse conditionMaaSReady "RootOrganizationRequired"
    (Sprintf "MaaS is supported only for root organizations" []).
Definition nameTooLongMark : ConditionMark :=
  markFalse conditionMaaSReady "NameTooLong"
    (Sprintf "organization name exceeds the AITenant name limit of %d characters"
       [OInt 41]).

(** A configuration that can be served: a root organization, a name that fits. *)
Definition servable (st : Store) (c : MaaSConfiguration) : Prop :=
  exists o, s_organizations st !! maasOrg c = Some o /\ organizationParent o = "" /\
    String.length (Name (maas_meta c)) <= 41.

(** The outcomes of a reconciliation: the marks made and the AITenants left. *)
Inductive maas_verdict (st : Store) (c : MaaSConfiguration) :
    bool -> list ConditionMark -> gmap (string * string) Unstructured -> Prop :=
| verdict_no_capability :
    maas_verdict st c false noCapabilityMarks (s_aitenants st)
| verdict_not_root o :
    s_organizations st !! maasOrg c = Some o -> organizationParent o <> "" ->
    maas_verdict st c true [capabilityMark; notRootMark] (s_aitenants st)
| verdict_name_too_long o :
    s_organizations st !! maasOrg c = Some o -> organizationParent o = "" ->
    41 < String.length (Name (maas_meta c)) ->
    maas_verdict st c true [capabilityMark; nameTooLongMark] (s_aitenants st)
| verdict_not_owned u :
    servable st c -> s_aitenants st !! tenantKey c = Some u ->
    IsControlledBy (u_meta u) (maas_meta c) = false ->
    maas_verdict st c true [capabilityMark; notOwnedMark] (s_aitenants st)
| verdict_rendered p u' :
    servable st c -> s_profiles st !! maasOrg c = Some p ->
    (forall u, s_aitenants st !! tenantKey c = Some u -> IsControlledBy (u_meta u) (maas_meta c) = true) ->
    tenant_managed c p (default (newAITenant (Name (maas_meta c))) (s_aitenants st !! tenantKey c)) u' ->
    (s_aitenants st !! tenantKey c = None -> mapAITenant (u_meta u') = [Name (maas_meta c)]) ->
    maas_verdict st c true [capabilityMark; readinessMark u'] (<[tenantKey c := u']> (s_aitenants st)).

(** Whether the AITenant kind is served, as the framework answers; an error counts as no. *)
Definition crdServed (w : world) : bool :=
  match fst (HasCRD {| gvk_Group := "maas.opendatahub.io"; gvk_Version := "v1alpha1";
                       gvk_Kind := "AITenant" |} w) with
  | inr b => b
  | inl _ => false
  end.

(** The framework is asked once the finalizer has been stored. *)
Definition askedAt rr : world := Client (snd (ensureFinalizer rr)).

Lemma ensureFinalizer_asked rr : wp ensureFinalizer (fun _ rr1 => Client rr1 = askedAt rr) rr.
Proof. done. Qed.

Lemma hasMaaS_spec w :
  wp hasMaaS (fun r w' => r = Ret (crdServed w) /\ view w' = view w) w.
Proof.
  unfold hasMaaS, crdServed. apply wp_bind, wp_call. intros b w' Hb.
  pose proof (HasCRD_pure maasGVK w) as Hp. unfold maasGVK in *. rewrite Hb in *. simpl in *.
  destruct b; by apply wp_ret.
Qed.

(** The instance after the finalizer has been stored: only its finalizers differ. *)
Definition finalized (c c' : MaaSConfiguration) : Prop :=
  maas_Spec c' = maas_Spec c /\
  maas_meta c' = setFinalizers (maas_meta c) (Finalizers (maas_meta c')) /\
  maasFinalizer ∈ Finalizers (maas_meta c').

Lemma finalized_controlled c c' m :
  finalized c c' -> IsControlledBy m (maas_meta c') = IsControlledBy m (maas_meta c).
Proof.
  intros (_ & Hm & _). apply Bool.eq_iff_eq_true. rewrite !IsControlledBy_spec, Hm. done.
Qed.

Lemma finalized_name c c' : finalized c c' -> Name (maas_meta c') = Name (maas_meta c).
Proof. by intros (_ & -> & _). Qed.

Lemma finalized_org c c' : finalized c c' -> maasOrg c' = maasOrg c.
Proof. unfold maasOrg. by intros (-> & _). Qed.

Lemma finalized_managed c c' p u0 u :
  finalized c c' -> tenant_managed c' p u0 u -> tenant_managed c p u0 u.
Proof.
  intros Hf [H1 H2 H3 H4 H5 H6 H7]. pose proof (finalized_name _ _ Hf) as Hn.
  pose proof (finalized_org _ _ Hf) as Ho. constructor; try done.
  - unfold tenantKey in *. congruence.
  - by rewrite <- (finalized_controlled _ _ _ Hf).
  - by rewrite <- Ho.
  - by destruct Hf as [<- _].
Qed.

(** What a reconciliation of a configuration that is not being deleted leaves. *)
Definition maas_outcome rr (r : outcome error unit) rr' : Prop :=
  match r with
  | Ret _ => exists c' ms ts,
      maas_verdict (maasStore rr) (Instance_ rr) (crdServed (askedAt rr)) ms ts /\
      Conditions rr' = (Conditions rr ++ ms)%list /\ finalized (Instance_ rr) c' /\
      maasStore rr' = kput aitenantKind ts (stored maasKind (Name (maas_meta (Instance_ rr))) c' (maasStore rr))
  | Err _ => maasStore rr' = maasStore rr \/
      exists c', finalized (Instance_ rr) c' /\
        maasStore rr' = stored maasKind (Name (maas_meta (Instance_ rr))) c' (maasStore rr)
  | Panic => False
  end.

(** The configuration under reconciliation is the stored one. *)
Definition current rr : Prop :=
  s_maas (maasStore rr) !! Name (maas_meta (Instance_ rr)) = Some (Instance_ rr) /\
  UID (maas_meta (Instance_ rr)) <> "".

Lemma kput_aitenants_id st : kput aitenantKind (s_aitenants st) st = st.
Proof. by destruct st. Qed.

(** From the AITenant on: the claim, with the finalizer stored. *)
Lemma claim_verdict rr c' o p rr1 :
  tenants_ok (maasStore rr) -> finalized (Instance_ rr) c' -> crdServed (askedAt rr) = true ->
  s_organizations (maasStore rr) !! maasOrg (Instance_ rr) = Some o -> organizationParent o = "" ->
  String.length (Name (maas_meta (Instance_ rr))) <= 41 ->
  s_profiles (maasStore rr) !! maasOrg (Instance_ rr) = Some p ->
  maasStore rr1 = stored maasKind (Name (maas_meta (Instance_ rr))) c' (maasStore rr) ->
  Conditions rr1 = (Conditions rr ++ [capabilityMark])%list ->
  wp (claimAITenant c' o p) (maas_outcome rr) rr1.
Proof.
  intros Hok Hfin Hcrd Ho Hroot Hlen Hp Hs1 Hc1.
  assert (s_aitenants (maasStore rr1) = s_aitenants (maasStore rr)) as Hts by by rewrite Hs1.
  assert (tenantKey c' = tenantKey (Instance_ rr)) as Hkey
    by (unfold tenantKey; by rewrite (finalized_name _ _ Hfin)).
  eapply wp_mono; [apply (claimAITenant_spec c' o p); unfold tenants_ok; rewrite Hts; exact Hok|].
  rewrite Hts, Hkey, Hc1. intros [[]|e|] rr' (_ & Hr); [| |done].
  2:{ right. exists c'. destruct Hr as [-> _]. by rewrite Hs1. }
  assert (servable (maasStore rr) (Instance_ rr)) as Hserv by by exists o.
  destruct Hr as [(u & Hu & Hctl & Hs & Hc)|(u' & Hctl & Htm & Hmap & Hs & Hc)];
    rewrite <- (app_assoc (Conditions rr)) in Hc; simpl in Hc.
  - rewrite (finalized_controlled _ _ _ Hfin) in Hctl.
    exists c', [capabilityMark; notOwnedMark], (s_aitenants (maasStore rr)).
    split; [rewrite Hcrd; by eapply verdict_not_owned|]. split; [done|]. split; [done|].
    rewrite Hs, Hs1. done.
  - exists c', [capabilityMark; readinessMark u'],
      (<[tenantKey (Instance_ rr) := u']> (s_aitenants (maasStore rr))).
    rewrite (finalized_name _ _ Hfin) in Hmap, Htm. split; [|split; [done|split; [done|]]].
    + rewrite Hcrd. eapply verdict_rendered; [done|done| |by eapply finalized_managed|done].
      intros u Hu. rewrite <- (finalized_controlled _ _ _ Hfin). auto.
    + rewrite Hs, Hs1. unfold stored. done.
Qed.

Lemma unchanged_verdict rr c' ms rr' :
  maas_verdict (maasStore rr) (Instance_ rr) (crdServed (askedAt rr)) ms (s_aitenants (maasStore rr)) ->
  finalized (Instance_ rr) c' ->
  maasStore rr' = stored maasKind (Name (maas_meta (Instance_ rr))) c' (maasStore rr) ->
  Conditions rr' = (Conditions rr ++ ms)%list -> maas_outcome rr (Ret tt) rr'.
Proof.
  intros Hv Hf Hs Hc. exists c', ms, (s_aitenants (maasStore rr)).
  split; [done|]. split; [done|]. split; [done|]. by rewrite Hs.
Qed.

Lemma reconcileMaaS_spec rr :
  current rr -> tenants_ok (maasStore rr) -> DeletionTimestamp (maas_meta (Instance_ rr)) = None ->
  wp reconcileMaaS (maas_outcome rr) rr.
Proof.
  intros [Hcur Huid] Hok Hdel. unfold reconcileMaaS. apply wp_bind, wp_instance. rewrite Hdel. simpl.
  apply wp_bind. eapply wp_mono; [exact (wp_conj _ _ _ _ (ensureFinalizer_asked rr) (ensureFinalizer_spec rr Hcur Hdel Huid))|].
  intros [[]|e|] rr1 (Hw1 & Hc1 & Hr1); [|by left|done].
  destruct Hr1 as (Hspec & Hmeta & Hin & Hs1). set (c' := Instance_ rr1) in *.
  assert (finalized (Instance_ rr) c') as Hfin by done.
  apply wp_bind, wp_instance, wp_bind, wp_onClient. eapply wp_mono; [apply hasMaaS_spec|].
  fold c'. intros r w (-> & Hv). change (view w = maasStore rr1) in Hv. rewrite Hs1 in Hv.
  rewrite Hw1. destruct (crdServed (askedAt rr)) eqn:Hcrd; simpl.
  2:{ unfold markCapabilityUnavailable. apply wp_bind, wp_mark, wp_mark.
      apply (unchanged_verdict rr c' noCapabilityMarks); [|done|exact Hv|].
      - rewrite Hcrd. constructor.
      - simpl. by rewrite Hc1, <- app_assoc. }
  apply wp_bind, wp_mark, wp_bind, wp_onClient.
  apply (wp_Get _ _ organizationKind False (False_ind _)); simpl; rewrite Hv;
    rewrite (finalized_org _ _ Hfin); simpl.
  2:{ intros e w2 _ _ Hv2. apply wp_fail. right. exists c'. done. }
  intros o w2 Ho Hv2. case_decide as Hroot.
  { apply wp_mark, (unchanged_verdict rr c' [capabilityMark; notRootMark]); [|done|exact Hv2|].
    - rewrite Hcrd. by eapply verdict_not_root.
    - simpl. by rewrite Hc1, <- app_assoc. }
  rewrite (finalized_name _ _ Hfin). case_decide as Hlen.
  { apply wp_mark, (unchanged_verdict rr c' [capabilityMark; nameTooLongMark]);
      [|done|exact Hv2|].
    - rewrite Hcrd. by eapply verdict_name_too_long.
    - simpl. by rewrite Hc1, <- app_assoc. }
  apply wp_bind, wp_onClient. apply (wp_Get _ _ profileKind False (False_ind _)); simpl; rewrite Hv2; simpl.
  2:{ intros e w3 _ _ Hv3. apply wp_fail. right. exists c'. done. }
  intros p w3 Hp Hv3.
  apply (claim_verdict rr c' o p); try done; [unfold maxAITenantNameSize in Hlen; lia|]. simpl. by rewrite Hc1.
Qed.

(** Deletion: the AITenant is released first, then the finalizer. *)
Definition cleanup_outcome rr (r : outcome error unit) rr' : Prop :=
  match r with
  | Ret _ => exists st1 x, tenant_released (Instance_ rr) (maasStore rr) st1 /\
      maasStore rr' = kput maasKind (partial_alter (fun _ => x)
                        (Name (maas_meta (Instance_ rr))) (s_maas (maasStore rr))) st1 /\
      forall c', x = Some c' -> maasFinalizer ∉ Finalizers (maas_meta c') /\
        maas_Spec c' = maas_Spec (Instance_ rr) /\
        Name (maas_meta c') = Name (maas_meta (Instance_ rr))
  | Err _ => maasStore rr' = maasStore rr \/
      tenant_released (Instance_ rr) (maasStore rr) (maasStore rr')
  | Panic => False
  end.

Lemma cleanupMaaS_spec rr :
  tenants_ok (maasStore rr) -> DeletionTimestamp (maas_meta (Instance_ rr)) <> None ->
  wp reconcileMaaS (cleanup_outcome rr) rr.
Proof.
  intros Hok Hdel. unfold reconcileMaaS. apply wp_bind, wp_instance.
  destruct (DeletionTimestamp _); [|done]. simpl. unfold cleanupMaaS.
  apply wp_bind. eapply wp_mono; [by apply releaseAITenant_spec|].
  intros [[]|e|] rr1 (Hi1 & _ & Hr1); [|by left|done].
  destruct (RemoveFinalizer_spec (maas_meta (Instance_ rr)) maasFinalizer) as [Hmeta Hin].
  apply wp_bind, wp_setInstance, wp_bind, wp_onClient.
  apply (wp_Update _ _ maasKind); simpl; change (view (Client rr1)) with (maasStore rr1).
  - intros c' x w _ [Hsame Hspec] _ Hv Hx. apply wp_setInstance. simpl in *.
    exists (maasStore rr1), x. split; [done|]. split.
    + change (view w = kput maasKind (partial_alter (fun _ => x) (Name (maas_meta (Instance_ rr)))
                (s_maas (maasStore rr))) (maasStore rr1)).
      rewrite Hv, Hmeta. simpl. by rewrite (tr_kind _ _ _ Hr1).
    + intros c'' ->. destruct Hx as [[= ->]|[? _]]; [|done]. unfold same_meta in Hsame.
      split; [rewrite Hsame; simpl; rewrite Hin; by intros [? _]|]. split; [done|].
      rewrite Hsame. simpl. by rewrite Hmeta.
  - intros e w Hv. apply wp_fail. right.
    change (tenant_released (Instance_ rr) (maasStore rr) (view w)). by rewrite Hv.
Qed.

(** The deletion comes before the finalizer is taken off. *)
Lemma cleanup_deletes rr :
  tenants_ok (maasStore rr) -> DeletionTimestamp (maas_meta (Instance_ rr)) <> None ->
  wp reconcileMaaS (fun r rr' => r = Ret tt ->
    tenant_deleted (Instance_ rr) rr (s_aitenants (maasStore rr'))) rr.
Proof.
  intros Hok Hdel. unfold reconcileMaaS. apply wp_bind, wp_instance.
  destruct (DeletionTimestamp _); [|done]. simpl. unfold cleanupMaaS.
  apply wp_bind. eapply wp_mono; [by apply releaseAITenant_deletes|].
  intros [[]|e|] rr1 Hr1; [|done|done]. specialize (Hr1 eq_refl).
  apply wp_bind, wp_setInstance, wp_bind, wp_onClient.
  apply (wp_Update _ _ maasKind); simpl; change (view (Client rr1)) with (maasStore rr1).
  - intros c' x w _ _ _ Hv _. apply wp_setInstance. intros _. unfold maasStore at 1. simpl. by rewrite Hv.
  - intros e w Hv. by apply wp_fail.
Qed.
End verdicts.

Section theorems.
  Context `{P : Platform} `{C : !Cluster} `{L : !LawfulCluster C} `{PL : !PlatformLaws P}.
  Abbreviation RR := (ReconciliationRequest MaaSConfiguration unit).

(** Rendering is exact and converges.  Into an object whose spec is missing or an
    object, render always succeeds: each of the four fields has the value the
    configuration and the profile ask for and is absent when they ask for none,
    everything else in the object is as it was, and rendering the result again
    changes nothing.  On no input does it panic. *)
Theorem render_correct (obj : gmap string any) (spec : MaaSConfigurationSpec) (p : OrganizationProfile) :
  (spec_is_map obj ->
   exists obj', render obj spec p = Ret obj' /\ rendered spec p obj obj' /\
     (forall a, a <> "spec" -> obj' !! a = obj !! a) /\ render obj' spec p = Ret obj') /\
  render obj spec p <> Panic.
Proof.
  split; [|apply render_no_panic]. intros Hs. destruct (render_total obj spec p Hs) as [obj' Hr].
  exists obj'. destruct (render_ok _ _ _ _ Hr) as [Hrend Hrest]. repeat (split; [done|]).
  by eapply render_id.
Qed.

(** An AITenant counts as ready exactly when its status carries a condition of type
    Ready with status True; malformed statuses and conditions never do. *)
Theorem ready_correct (obj : gmap string any) :
  ready obj = true <->
  exists status conditions condition,
    obj !! "status" = Some (AMap status) /\ status !! "conditions" = Some (ASlice conditions) /\
    AMap condition ∈ conditions /\
    condition !! "type" = Some (AStr "Ready") /\ condition !! "status" = Some (AStr "True").
Proof.
  rewrite ready_spec. unfold is_ready_condition. split.
  - intros (m & l & c & Hm & Hl & Hc & m' & -> & H1 & H2). exists m, l, m'. done.
  - intros (m & l & m' & Hm & Hl & Hc & H1 & H2). exists m, l, (AMap m'). eauto 10.
Qed.

(** C18: every outcome of a reconciliation of a live configuration.  If it returns, the
    marks it made and the AITenants it left are those of one of the five verdicts
    (kind not served, not a root organization, name longer than 41 characters, existing
    AITenant not owned, AITenant rendered), where the first one is given exactly when the
    framework, asked after the finalizer was stored, does not answer that the AITenant
    kind is served; and the configuration is stored with the cleanup finalizer and an
    unchanged spec.  If it fails, no AITenant has changed; it never panics. *)
Theorem maas_reconcile_correct (rr : RR) :
  current rr -> tenants_ok (maasStore rr) -> DeletionTimestamp (maas_meta (Instance_ rr)) = None ->
  match reconcileMaaS rr with
  | (Ret _, rr') => exists ms c',
      maas_verdict (maasStore rr) (Instance_ rr) (crdServed (askedAt rr)) ms (s_aitenants (maasStore rr')) /\
      Conditions rr' = (Conditions rr ++ ms)%list /\
      s_maas (maasStore rr') !! Name (maas_meta (Instance_ rr)) = Some c' /\
      maasFinalizer ∈ Finalizers (maas_meta c') /\ maas_Spec c' = maas_Spec (Instance_ rr)
  | (Err _, rr') => s_aitenants (maasStore rr') = s_aitenants (maasStore rr)
  | (Panic, _) => False
  end.
Proof.
  intros Hcur Hok Hdel. pose proof (reconcileMaaS_spec rr Hcur Hok Hdel) as Hwp. unfold wp in Hwp.
  destruct (reconcileMaaS rr) as [[[]|e|] rr']; simpl in Hwp; [| |done].
  - destruct Hwp as (c' & ms & ts & Hv & Hc & (Hspec & _ & Hin) & Hs).
    exists ms, c'. rewrite Hs. simpl. rewrite lookup_insert_eq. done.
  - by destruct Hwp as [->|(c' & _ & ->)].
Qed.

(** Whatever happens, also during cleanup and on every error, the controller touches
    no AITenant but the one named after the configuration, and not even that one
    unless the configuration controls it; and of the other kinds it changes nothing
    but the configuration itself. *)
Theorem foreign_tenants_untouched (rr : RR) :
  current rr -> tenants_ok (maasStore rr) ->
  let st := maasStore rr in let st' := maasStore (snd (reconcileMaaS rr)) in
  (forall k u, s_aitenants st !! k = Some u ->
     k <> tenantKey (Instance_ rr) \/ IsControlledBy (u_meta u) (maas_meta (Instance_ rr)) = false ->
     s_aitenants st' !! k = Some u) /\
  (forall k, k <> Name (maas_meta (Instance_ rr)) -> s_maas st' !! k = s_maas st !! k) /\
  st' = kput maasKind (s_maas st') (kput aitenantKind (s_aitenants st') st).
Proof.
  intros Hcur Hok st st'.
  assert (forall st1, tenant_released (Instance_ rr) st st1 ->
    forall k u, s_aitenants st !! k = Some u ->
      k <> tenantKey (Instance_ rr) \/ IsControlledBy (u_meta u) (maas_meta (Instance_ rr)) = false ->
      s_aitenants st1 !! k = Some u) as Hrel.
  { intros st1 [_ Hothers Hforeign _] k u Hk Hor.
    destruct (decide (k = tenantKey (Instance_ rr))) as [->|Hne]; [|by rewrite Hothers].
    destruct Hor; [done|auto]. }
  assert (forall s : Store, s = kput maasKind (s_maas s) (kput aitenantKind (s_aitenants s) s)) as Hid
    by by intros [].
  destruct (DeletionTimestamp (maas_meta (Instance_ rr))) as [t|] eqn:Hdel.
  - pose proof (cleanupMaaS_spec rr Hok ltac:(congruence)) as Hwp. unfold wp, cleanup_outcome in Hwp.
    fold st st' in Hwp. destruct (fst (reconcileMaaS rr)); [| |done].
    + destruct Hwp as (st1 & x & Hr & Hs & _). pose proof (Hrel _ Hr) as Hk. destruct Hr as [Hkind _ _ _].
      rewrite Hs. simpl. split; [done|]. split; [|by rewrite Hkind].
      intros k Hne. by rewrite lookup_partial_alter_ne.
    + destruct Hwp as [->|Hr]; [done|]. split; [by apply Hrel|]. destruct Hr as [-> _ _ _].
      split; [done|]. by destruct st.
  - pose proof (reconcileMaaS_spec rr Hcur Hok Hdel) as Hwp. unfold wp, maas_outcome in Hwp.
    fold st st' in Hwp. destruct (fst (reconcileMaaS rr)); [| |done].
    + destruct Hwp as (c' & ms & ts & Hv & _ & _ & Hs). rewrite Hs. simpl.
      split; [|split; [intros k Hne; by rewrite lookup_insert_ne|done]].
      intros k u Hk Hor. inversion Hv as [| | | |p u' _ _ Hctl _ _]; subst; try done.
      rewrite lookup_insert_ne; [done|]. intros <-. destruct Hor as [|Hf]; [done|].
      rewrite (Hctl _ Hk) in Hf. done.
    + destruct Hwp as [->|(c' & _ & ->)]; [done|]. split; [done|].
      split; [intros k Hne; simpl; by rewrite lookup_insert_ne|by destruct st].
Qed.

(** C21: the finalizer is the last thing to go.  Reconciling a configuration under deletion
    never panics; if it returns, the stored configuration (if it is still there) no longer
    has the cleanup finalizer, and an AITenant of its name that it controlled has been
    deleted while the configuration still stood as it was: the API server accepted the
    deletion of the very object that was read, and it is gone unless a finalizer of its own
    holds it; an AITenant it does not control stays.  If it fails, the stored configuration
    is untouched, so the cleanup will run again. *)
Theorem cleanup_before_release (rr : RR) :
  tenants_ok (maasStore rr) -> DeletionTimestamp (maas_meta (Instance_ rr)) <> None ->
  match reconcileMaaS rr with
  | (Ret _, rr') =>
      (forall c', s_maas (maasStore rr') !! Name (maas_meta (Instance_ rr)) = Some c' ->
         maasFinalizer ∉ Finalizers (maas_meta c')) /\
      tenant_deleted (Instance_ rr) rr (s_aitenants (maasStore rr')) /\
      (forall u', s_aitenants (maasStore rr') !! tenantKey (Instance_ rr) = Some u' ->
         IsControlledBy (u_meta u') (maas_meta (Instance_ rr)) = false \/
         exists u, s_aitenants (maasStore rr) !! tenantKey (Instance_ rr) = Some u /\
           Finalizers (u_meta u) <> [])
  | (Err _, rr') => s_maas (maasStore rr') = s_maas (maasStore rr)
  | (Panic, _) => False
  end.
Proof.
  intros Hok Hdel.
  pose proof (wp_conj _ _ _ _ (cleanup_deletes rr Hok Hdel) (cleanupMaaS_spec rr Hok Hdel)) as Hwp.
  unfold wp, cleanup_outcome in Hwp. destruct (reconcileMaaS rr) as [[[]|e|] rr']; simpl in Hwp; [| |by destruct Hwp].
  - destruct Hwp as [Hd (st1 & x & [Hkind _ _ Hgone] & Hs & Hx)]. specialize (Hd eq_refl).
    split; [|split; [exact Hd|]]; rewrite Hs; simpl.
    + rewrite lookup_partial_alter_eq. intros c' Hc. by apply Hx.
    + intros u' Hu'. destruct (Hgone u' Hu') as [[_ ?]|?]; auto.
  - destruct Hwp as [_ [->|[-> _ _ _]]]; done.
Qed.
End theorems.

(* ------------------------------------------------------------------ *)
(** ** Runs *)

Section runs.
Import FakeInstances.

(** A configuration of the root organization of the demo tree. *)
Definition researchConfig (deletion : option Z) : MaaSConfiguration :=
  {| maas_meta := {| Name := "research"; Namespace := ""; UID := "uid-maas-research"; Labels := None;
                     Annotations := None; OwnerReferences := []; Finalizers := [maasFinalizer];
                     DeletionTimestamp := deletion |};
     maas_Spec := {| maas_OrganizationRef := {| ref_Name := "research" |};
                     maas_OIDC := Some {| ClientID := "client" |}; maas_TLS := None;
                     maas_Quotas := Some {| MaxModels := 2; MaxSubscriptions := 3; MaxAPIKeys := 4 |} |};
     maas_Status := {| maas_apiStatus := zeroStatus |} |}.

Definition tenantOf (owner : Owner) : Unstructured :=
  {| u_meta := setOwnerReferences (namedMeta maasNamespace "research") [ownerRef owner (Some true)];
     Object := {["spec" := AMap {["tls" := AStr "old"]}]} |}.

Definition maasRequest (c : MaaSConfiguration) (owner : Owner)
    : ReconciliationRequest MaaSConfiguration unit :=
  {| Client := {| fw_store := kput maasKind {["research" := c]}
                    (kput aitenantKind {[(maasNamespace, "research") := tenantOf owner]} demoStore);
                  fw_crds := [maasGVK] |};
     Instance_ := c; Conditions := []; Extensions := None |}.

Lemma maasRequest_ok c owner : tenants_ok (maasStore (maasRequest c owner)).
Proof.
  intros k u Hk. assert (s_aitenants (maasStore (maasRequest c owner)) =
    {[(maasNamespace, "research") := tenantOf owner]}) as Hs by reflexivity.
  rewrite Hs in Hk. apply lookup_singleton_Some in Hk as [<- <-]. split; [done|]. by intros H.
Qed.

Lemma maasRequest_current d owner : current (maasRequest (researchConfig d) owner).
Proof.
  split; [|done]. assert (s_maas (maasStore (maasRequest (researchConfig d) owner)) =
    {["research" := researchConfig d]}) as Hs by reflexivity.
  rewrite Hs. apply lookup_singleton_eq.
Qed.

Lemma render_correct_witness :
  exists obj', render (GvkToUnstructured maasGVK) (maas_Spec (researchConfig None))
                 (profileWith "research" None 0) = Ret obj' /\
    specField obj' "oidc" = Some (AMap {["clientId" := AStr "client"]}) /\ specField obj' "tls" = None.
Proof.
  destruct (render_correct (GvkToUnstructured maasGVK) (maas_Spec (researchConfig None))
              (profileWith "research" None 0)) as [Hr _].
  destruct Hr as (obj' & Hr & [H1 _ H3 _ _] & _).
  - unfold spec_is_map. by rewrite GvkToUnstructured_empty.
  - exists obj'. split; [exact Hr|]. split; [exact H1|exact H3].
Defined.

Lemma ready_correct_witness :
  ready {["status" := AMap {["conditions" := ASlice
    [AStr "junk"; AMap (<["type" := AStr "Ready"]> {["status" := AStr "True"]})]]}]} = true.
Proof.
  apply ready_correct. do 3 eexists. split; [apply lookup_singleton_eq|].
  split; [apply lookup_singleton_eq|]. split; [right; left|].
  split; [apply lookup_insert_eq|]. rewrite lookup_insert_ne by discriminate. apply lookup_singleton_eq.
Defined.

(** The configuration updates its own AITenant: the kind is served, so the first mark made
    says so. *)
Lemma maas_reconcile_correct_witness :
  exists rr' c' ms,
    reconcileMaaS (maasRequest (researchConfig None) (maasOwner (researchConfig None))) = (Ret tt, rr') /\
    Conditions rr' = capabilityMark :: ms /\ maasFinalizer ∈ Finalizers (maas_meta c') /\
    s_maas (maasStore rr') !! "research" = Some c'.
Proof.
  pose proof (maas_reconcile_correct (maasRequest (researchConfig None) (maasOwner (researchConfig None)))
    (maasRequest_current _ _) (maasRequest_ok _ _) eq_refl) as H.
  destruct (reconcileMaaS _) as [[[]|e|] rr'] eqn:Hrun;
    [|apply (f_equal (fun x => is_ret (fst x))) in Hrun; vm_compute in Hrun; discriminate|done].
  destruct H as (ms & c' & Hv & Hc & Hs & Hin & _).
  assert (crdServed (askedAt (maasRequest (researchConfig None) (maasOwner (researchConfig None)))) = true)
    as Hcrd by (vm_compute; reflexivity).
  rewrite Hcrd in Hv.
  assert (exists ms', ms = capabilityMark :: ms') as [ms' ->] by (inversion Hv; subst; by eexists).
  exists rr', c', ms'. split; [reflexivity|]. split; [exact Hc|]. split; [exact Hin|exact Hs].
Defined.

(** An AITenant of somebody else survives under the configuration's name. *)
Lemma foreign_tenants_untouched_witness :
  let owner := organizationOwner (org "genomics" "research" "research") in
  s_aitenants (maasStore (snd (reconcileMaaS (maasRequest (researchConfig None) owner)))) !!
    (maasNamespace, "research") = Some (tenantOf owner).
Proof.
  intros owner. apply (foreign_tenants_untouched (maasRequest (researchConfig None) owner)
    (maasRequest_current _ _) (maasRequest_ok _ _)).
  - assert (s_aitenants (maasStore (maasRequest (researchConfig None) owner)) =
      {[(maasNamespace, "research") := tenantOf owner]}) as -> by reflexivity.
    apply lookup_singleton_eq.
  - right. reflexivity.
Defined.

Lemma cleanup_before_release_witness :
  exists rr',
    reconcileMaaS (maasRequest (researchConfig (Some 1%Z)) (maasOwner (researchConfig None))) = (Ret tt, rr') /\
    forall c', s_maas (maasStore rr') !! "research" = Some c' -> maasFinalizer ∉ Finalizers (maas_meta c').
Proof.
  pose proof (cleanup_before_release
    (maasRequest (researchConfig (Some 1%Z)) (maasOwner (researchConfig None)))
    (maasRequest_ok _ _) ltac:(discriminate)) as H.
  destruct (reconcileMaaS _) as [[[]|e|] rr'] eqn:Hrun;
    [|apply (f_equal (fun x => is_ret (fst x))) in Hrun; vm_compute in Hrun; discriminate|done].
  exists rr'. split; [reflexivity|]. exact (proj1 H).
Defined.
End runs.
