(* ===== verification/MaaSInterference.v ===== *)
(** The MaaSConfiguration controller while others work on the cluster: which AITenants its
    calls may touch, and the window in which its cleanup takes one it does not control. *)

From stdpp Require Import gmap strings list.
From Stdlib Require Import ZArith.
From S2P Require Import Prelude Platform Api Cluster Fake Framework OrganizationCtl MaaS MaaSSpecs MaaSTheorems.
From S2P Require Import Validation Available Interference.

Local Open Scope string_scope.

Section maas.
  Context `{P : Platform} `{C : !Cluster} `{L : !LawfulCluster C} `{PL : !PlatformLaws P}.
  Implicit Types rr : Request Busy MaaSConfiguration unit.

(** The configuration under reconciliation, as it was read. *)
Context (c0 : MaaSConfiguration).

(** The version of the configuration the controller holds now. *)
Definition same_configuration (c : MaaSConfiguration) : Prop :=
  Name (maas_meta c) = Name (maas_meta c0) /\ UID (maas_meta c) = UID (maas_meta c0) /\
  maas_Spec c = maas_Spec c0.

Definition tenants_keyed (st : Store) : Prop :=
  forall k u, s_aitenants st !! k = Some u -> namespacedKey (u_meta u) = k.

(** An AITenant of the configuration's name that it does not control. *)
Definition foreign_tenant (st : Store) (u : Unstructured) : Prop :=
  s_aitenants st !! tenantKey c0 = Some u /\ IsControlledBy (u_meta u) (maas_meta c0) = false.

(** Its own. *)
Definition own_tenant (st : Store) (u : Unstructured) : Prop :=
  s_aitenants st !! tenantKey c0 = Some u /\ IsControlledBy (u_meta u) (maas_meta c0) = true.

(** The others store AITenants under their keys, and put no foreign one in the place of
    the configuration's. *)
Definition no_takeover (st st' : Store) : Prop :=
  (tenants_keyed st -> tenants_keyed st') /\
  forall u, foreign_tenant st' u -> foreign_tenant st u.

#[export] Instance no_takeover_preorder : PreOrder no_takeover.
Proof. split; [by split|]. intros st1 st2 st3 [??] [??]. split; auto. Qed.

(** A call of the controller: it writes the configuration, with the spec it has, or the
    AITenant of its name if the configuration controls it. *)
Definition maas_call (st st' : Store) : Prop :=
  st' = st \/
  (exists r, st' = kput maasKind (partial_alter (fun _ => r) (Name (maas_meta c0)) (s_maas st)) st /\
     forall c, r = Some c -> same_configuration c) \/
  (exists r, st' = kput aitenantKind (partial_alter (fun _ => r) (tenantKey c0) (s_aitenants st)) st /\
     forall u, ~ foreign_tenant st u).

#[local] Instance maas_call_refl : Reflexive maas_call.
Proof. by left. Qed.

(** What holds between the steps of a reconciliation. *)
Record underway (rr : Request Busy MaaSConfiguration unit) : Prop := {
  uw_calm : calm no_takeover maas_call (Client rr);
  uw_keyed : tenants_keyed (now (Client rr));
  uw_same : same_configuration (Instance_ rr);
}.

(** A step keeps it, and does not panic. *)
Abbreviation proceeds := (fun r rr => r <> Panic /\ underway rr).

Lemma tenant_underway_with w rr :
  underway rr -> calm no_takeover maas_call w -> tenants_keyed (now w) ->
  underway (withClient (C := busyCluster) rr w).
Proof. by intros [_ _ Hsame] ? ?. Qed.

Lemma tenantKey_same c : same_configuration c -> tenantKey c = tenantKey c0.
Proof. intros (Hn & _ & _). unfold tenantKey. by rewrite Hn. Qed.

Lemma controlled_same c m : same_configuration c -> IsControlledBy m (maas_meta c) = IsControlledBy m (maas_meta c0).
Proof.
  intros (_ & Hu & _). apply eq_true_iff_eq. by rewrite !IsControlledBy_spec, Hu.
Qed.

(** Reads. *)
Lemma tenant_underway_Get `{Countable K} {T} (c : TypedClient world K T) (kd : Kind K T)
    `{!LawfulClient view c kd} k (Q : outcome error (liberror + T) -> _ -> Prop) rr :
  underway rr ->
  (forall r rr', underway rr' ->
     match r with inr o => ksel kd (now (Client rr')) !! k = Some o | inl e =>
       IsNotFound e = true -> ksel kd (now (Client rr')) !! k = None end -> Q (Ret r) rr') ->
  wp (onClient (C := busyCluster) (call (Get (busyClient c) k))) Q rr.
Proof.
  intros Hrr HQ. apply (wp_onClient (C := busyCluster)).
  apply (wp_busy_Get no_takeover maas_call c kd False (False_rect _)); [apply Hrr|].
  intros s' r Hs' [Hkeyed _] _ _ Hr. apply HQ.
  - apply tenant_underway_with; [done|done|]. apply Hkeyed, Hrr.
  - destruct r; [by destruct Hr|done].
Qed.

(** The configuration is written with the spec it has. *)
Lemma underway_setInstance c rr (Q : outcome error unit -> _ -> Prop) :
  underway rr -> same_configuration c ->
  (forall rr', underway rr' -> Q (Ret tt) rr') ->
  wp (setInstance (C := busyCluster) c) Q rr.
Proof. intros [? ? _] Hc HQ. apply (wp_setInstance (C := busyCluster)), HQ. by split. Qed.

Hypothesis identified : UID (maas_meta c0) <> "".

Lemma underway_Update c rr (Q : outcome error (liberror + MaaSConfiguration) -> _ -> Prop) :
  underway rr -> same_configuration c ->
  (forall r rr', underway rr' -> (forall c', r = inr c' -> same_configuration c') -> Q (Ret r) rr') ->
  wp (onClient (C := busyCluster) (call (Update (busyClient maasconfigurations) c))) Q rr.
Proof.
  intros Hrr (Hname & Huid & Hspec) HQ. apply (wp_onClient (C := busyCluster)).
  assert (forall c', ksame maasKind c c' ->
    (UID (maas_meta c) <> "" -> UID (maas_meta c') = UID (maas_meta c)) -> same_configuration c') as Hsame.
  { intros c' [Hm Hs] Hu. unfold same_meta in Hm. unfold same_configuration.
    rewrite Hu, Huid by by rewrite Huid. rewrite Hm. simpl. by rewrite Hname, Hs, Hspec. }
  apply (wp_busy_Update no_takeover maas_call maasconfigurations maasKind); [apply Hrr|..]; simpl; rewrite ?Hname.
  - intros st c' r _ (_ & Hk & Hu & Hr). right; left. exists r. split; [done|].
    intros c1 ->. destruct Hr as [[= ->]|[? _]]; [|done]. by apply Hsame.
  - intros s' st c' r Hs' [Hkeyed _] (_ & Hk & Hu & _) Hnow. apply HQ.
    + apply tenant_underway_with; [done|done|]. rewrite Hnow. exact (Hkeyed (uw_keyed _ Hrr)).
    + intros c1 [= <-]. by apply Hsame.
  - intros s' e Hs' [Hkeyed _]. apply HQ; [|done]. apply tenant_underway_with; [done|done|]. apply Hkeyed, Hrr.
Qed.

(** A write at the key of the AITenant keeps the others under theirs. *)
Lemma tenants_keyed_write st r :
  tenants_keyed st -> (forall u, r = Some u -> namespacedKey (u_meta u) = tenantKey c0) ->
  tenants_keyed (kput aitenantKind (partial_alter (fun _ => r) (tenantKey c0) (s_aitenants st)) st).
Proof.
  intros Hk Hr k u. simpl. destruct (decide (k = tenantKey c0)) as [->|Hne].
  - rewrite lookup_partial_alter_eq. auto.
  - rewrite lookup_partial_alter_ne by done. apply Hk.
Qed.

(** Whether an object found under the key is the configuration's. *)
Definition ours (st : Store) : Prop := forall u, ~ foreign_tenant st u.

Lemma ours_kept st st' : no_takeover st st' -> ours st -> ours st'.
Proof. intros [_ H] Ho u Hu. by eapply Ho, H. Qed.


Lemma ours_found st u c :
  same_configuration c -> s_aitenants st !! tenantKey c0 = Some u ->
  IsControlledBy (u_meta u) (maas_meta c) = true -> ours st.
Proof.
  intros Hc Hu Hctl u' [Hu' Hctl']. rewrite (controlled_same c) in Hctl by done. congruence.
Qed.

(** The AITenant found is deleted or updated, or one is created, by calls of the allowed kind. *)
Lemma underway_Delete u rr (Q : outcome error (option liberror) -> _ -> Prop) :
  underway rr -> ours (now (Client rr)) -> namespacedKey (u_meta u) = tenantKey c0 ->
  (forall r rr', underway rr' -> Q (Ret r) rr') ->
  wp (onClient (C := busyCluster) (call (Delete (busyClient unstructureds) u))) Q rr.
Proof.
  intros Hrr Hours Hkey HQ. apply (wp_onClient (C := busyCluster)).
  apply (wp_busy_Delete no_takeover maas_call unstructureds aitenantKind); [apply Hrr|..]; simpl; rewrite ?Hkey.
  - intros st u0 r Hst _. right; right. exists r. split; [done|]. by eapply ours_kept.
  - intros s' st u0 r Hs' [Hkeyed _] (Hu0 & _ & Hr) Hnow. apply HQ, tenant_underway_with; [done|done|]. rewrite Hnow.
    apply tenants_keyed_write; [by apply Hkeyed, Hrr|].
    intros u1 [-> _]%Hr. exact (Hkeyed (uw_keyed _ Hrr) _ _ Hu0).
  - intros s' e Hs' [Hkeyed _]. apply HQ, tenant_underway_with; [done|done|]. apply Hkeyed, Hrr.
Qed.

Lemma namespacedKey_same m m' : same_meta m m' -> namespacedKey m' = namespacedKey m.
Proof. unfold same_meta. by intros ->. Qed.

Lemma underway_write created u rr :
  underway rr -> (created = false -> ours (now (Client rr))) -> namespacedKey (u_meta u) = tenantKey c0 ->
  wp (writeAITenant (C := busyCluster) created u) proceeds rr.
Proof.
  intros Hrr Hours Hkey. unfold writeAITenant. destruct created; apply wp_bind, (wp_onClient (C := busyCluster)).
  - apply (wp_busy_Create no_takeover maas_call unstructureds aitenantKind); [apply Hrr|..]; simpl; rewrite ?Hkey.
    + intros st u' _ Hnone _. right; right. exists (Some u'). split; [done|]. intros u1 [Hu1 _]. congruence.
    + intros s' u' st Hs' [Hkeyed _] _ [Hsame _] Hnow. apply wp_ret. split; [done|].
      apply tenant_underway_with; [done|done|]. rewrite Hnow. apply tenants_keyed_write; [by apply Hkeyed, Hrr|].
      intros u1 [= <-]. by rewrite (namespacedKey_same _ _ Hsame).
    + intros s' e Hs' [Hkeyed _] _. apply wp_fail. split; [done|]. apply tenant_underway_with; [done|done|]. apply Hkeyed, Hrr.
  - apply (wp_busy_Update no_takeover maas_call unstructureds aitenantKind); [apply Hrr|..]; simpl; rewrite ?Hkey.
    + intros st u' r Hst _. right; right. exists r. split; [done|]. eapply ours_kept; [done|auto].
    + intros s' st u' r Hs' [Hkeyed _] (_ & [Hsame _] & _ & Hr) Hnow. apply wp_ret. split; [done|].
      apply tenant_underway_with; [done|done|]. rewrite Hnow. apply tenants_keyed_write; [by apply Hkeyed, Hrr|].
      intros u1 ->. destruct Hr as [[= ->]|[? _]]; [|done]. by rewrite (namespacedKey_same _ _ Hsame).
    + intros s' e Hs' [Hkeyed _]. apply wp_fail. split; [done|]. apply tenant_underway_with; [done|done|]. apply Hkeyed, Hrr.
Qed.

Lemma underway_mark cm rr : underway rr -> wp (mark (C := busyCluster) cm) proceeds rr.
Proof. intros [? ? ?]. apply (wp_mark (C := busyCluster)). split; [done|]. by split. Qed.

(** The cleanup: the AITenant is deleted only if a read found it controlled. *)
Lemma releaseAITenant_underway c rr :
  underway rr -> same_configuration c ->
  wp (releaseAITenant (C := busyCluster) c) proceeds rr.
Proof.
  intros Hrr Hc. unfold releaseAITenant. apply wp_bind.
  apply (tenant_underway_Get unstructureds aitenantKind); [done|]. intros [e|u] rr1 Hrr1 Hr; simpl in Hr.
  { destruct (_ && _); [by apply wp_fail|by apply wp_ret]. }
  destruct (IsControlledBy _ _) eqn:Hctl; [|by apply wp_ret].
  change (maasNamespace, Name (maas_meta c)) with (tenantKey c) in Hr. rewrite (tenantKey_same c) in Hr by done.
  apply wp_bind, underway_Delete; [done|by eapply ours_found|by apply (uw_keyed _ Hrr1)|].
  intros [e|] rr2 Hrr2; [destruct (negb _); [by apply wp_fail|]|]; by apply wp_ret.
Qed.

Lemma withMaaSMeta_same c m :
  same_configuration c -> Name m = Name (maas_meta c) -> UID m = UID (maas_meta c) ->
  same_configuration (withMaaSMeta c m).
Proof. intros (? & ? & ?) ? ?. split; simpl; [congruence|]. split; simpl; congruence. Qed.

Lemma finalizers_same c f :
  same_configuration c ->
  same_configuration (withMaaSMeta c (AddFinalizer (maas_meta c) f)) /\
  same_configuration (withMaaSMeta c (RemoveFinalizer (maas_meta c) f)).
Proof.
  intros Hc. destruct (AddFinalizer_spec (maas_meta c) f) as [Ha _], (RemoveFinalizer_spec (maas_meta c) f) as [Hr _].
  split; (apply withMaaSMeta_same; [done|..]); [by rewrite Ha|by rewrite Ha|by rewrite Hr|by rewrite Hr].
Qed.

(** Writing back the configuration that is held, changed in its finalizers only. *)
Lemma store_configuration c (t : text) rr :
  underway rr -> same_configuration c ->
  wp (setInstance (C := busyCluster) c ;;;
      let* r := onClient (C := busyCluster) (call (Update (busyClient maasconfigurations) c)) in
      match r with
      | inl err => fail (ErrorfW t (ELib err))
      | inr c' => setInstance (C := busyCluster) c'
      end) proceeds rr.
Proof.
  intros Hrr Hc. apply wp_bind, underway_setInstance; [done..|]. intros rr1 Hrr1.
  apply wp_bind, underway_Update; [done..|]. intros [e|c'] rr2 Hrr2 Hr; [by apply wp_fail|].
  apply underway_setInstance; [done|by apply Hr|done].
Qed.

Lemma cleanupMaaS_underway c rr :
  underway rr -> same_configuration c -> wp (cleanupMaaS (C := busyCluster) c) proceeds rr.
Proof.
  intros Hrr Hc. unfold cleanupMaaS. apply (wp_bind_keeping underway).
  eapply wp_mono; [by apply releaseAITenant_underway|]. intros r rr1 [Hp Hrr1].
  split; [done|]. split; [done|]. intros _ _. apply store_configuration; [done|]. by apply finalizers_same.
Qed.

Lemma ensureFinalizer_underway rr :
  underway rr -> wp (ensureFinalizer (C := busyCluster)) proceeds rr.
Proof.
  intros Hrr. unfold ensureFinalizer. apply wp_bind, (wp_instance (C := busyCluster)).
  destruct (negb _); [|by apply wp_ret]. apply store_configuration; [done|]. apply finalizers_same, Hrr.
Qed.

Lemma applyAITenant_underway created c p u rr :
  underway rr -> (created = false -> ours (now (Client rr))) -> namespacedKey (u_meta u) = tenantKey c0 ->
  wp (applyAITenant (C := busyCluster) created c p u) proceeds rr.
Proof.
  intros Hrr Hours Hkey. unfold applyAITenant. apply (wp_bind_keeping underway), run_wp.
  intros r rr1 [= <- <-]. split; [apply prepareAITenant_no_panic|]. split; [done|].
  intros u1 Hu1. apply prepareAITenant_ok in Hu1 as (Hmeta & _). apply (wp_bind_keeping underway).
  eapply wp_mono; [apply (underway_write created u1); [done|done|]|].
  { by rewrite <- Hkey, Hmeta. }
  intros r rr2 [Hp Hrr2]. split; [done|]. split; [done|].
  intros u2 _. destruct (ready _); by apply underway_mark.
Qed.

Lemma newAITenant_key c o m m' :
  same_configuration c ->
  SetControllerReference (maasOwner c) (u_meta (newAITenant (Name (maas_meta c)))) = inr m ->
  SetOwnerReference (organizationOwner o) m = inr m' -> namespacedKey m' = tenantKey c0.
Proof.
  intros Hc [_ Hm]%SetControllerReference_ok [Hm' _]%SetOwnerReference_ok.
  rewrite <- (tenantKey_same c Hc), Hm', Hm. done.
Qed.

Lemma claimAITenant_underway c o p rr :
  underway rr -> same_configuration c ->
  wp (claimAITenant (C := busyCluster) c o p) proceeds rr.
Proof.
  intros Hrr Hc. unfold claimAITenant. apply wp_bind.
  apply (tenant_underway_Get unstructureds aitenantKind); [done|]. intros [e|u] rr1 Hrr1 Hr; simpl in Hr.
  - destruct (negb _); [by apply wp_fail|].
    destruct (SetControllerReference _ _) as [e'|m] eqn:Hctl; [by apply wp_fail|].
    destruct (SetOwnerReference _ _) as [e'|m'] eqn:Hown; [by apply wp_fail|].
    apply applyAITenant_underway; [done|done|]. by eapply newAITenant_key.
  - change (maasNamespace, Name (maas_meta c)) with (tenantKey c) in Hr. rewrite (tenantKey_same c) in Hr by done.
    destruct (IsControlledBy _ _) eqn:Hctl; simpl; [|by apply underway_mark].
    apply applyAITenant_underway; [done| |by apply (uw_keyed _ Hrr1)]. intros _. by eapply ours_found.
Qed.

(** Whether the kind is served. *)
Lemma hasMaaS_underway rr :
  underway rr -> wp (onClient (C := busyCluster) (hasMaaS (C := busyCluster))) proceeds rr.
Proof.
  intros Hrr. apply (wp_onClient (C := busyCluster)). unfold hasMaaS. apply wp_bind.
  apply (wp_busy_HasCRD no_takeover maas_call); [apply Hrr|]. intros s' r Hs' [Hkeyed _].
  assert (underway (withClient (C := busyCluster) rr s'))
    by (apply tenant_underway_with; [done|done|]; apply Hkeyed, Hrr).
  destruct r; by apply wp_ret.
Qed.

Lemma reconcileMaaS_underway rr :
  underway rr -> wp (reconcileMaaS (C := busyCluster)) proceeds rr.
Proof.
  intros Hrr. unfold reconcileMaaS. apply wp_bind, (wp_instance (C := busyCluster)).
  destruct (negb _); [apply cleanupMaaS_underway; [done|apply Hrr]|]. apply (wp_bind_keeping underway).
  eapply wp_mono; [by apply ensureFinalizer_underway|]. intros r rr1 [Hp Hrr1]. split; [done|]. split; [done|].
  intros _ _. apply wp_bind, (wp_instance (C := busyCluster)). apply (wp_bind_keeping underway).
  eapply wp_mono; [by apply hasMaaS_underway|]. intros r2 rr2 [Hp2 Hrr2]. split; [done|]. split; [done|].
  intros ok _. destruct (negb ok).
  { unfold markCapabilityUnavailable. apply (wp_bind_keeping underway). eapply wp_mono; [by apply underway_mark|].
    intros r3 rr3 [Hp3 Hrr3]. split; [done|]. split; [done|]. intros _ _. by apply underway_mark. }
  apply (wp_bind_keeping underway). eapply wp_mono; [by apply underway_mark|].
  intros r3 rr3 [Hp3 Hrr3]. split; [done|]. split; [done|]. intros _ _. apply wp_bind.
  apply (tenant_underway_Get organizations organizationKind); [done|]. intros [e|o] rr4 Hrr4 _; [by apply wp_fail|].
  case_decide; [by apply underway_mark|]. case_decide; [by apply underway_mark|]. apply wp_bind.
  apply (tenant_underway_Get profiles profileKind); [done|]. intros [e|p] rr5 Hrr5 _; [by apply wp_fail|].
  apply claimAITenant_underway; [done|apply Hrr1].
Qed.
End maas.

Section theorems.
  Context `{P : Platform} `{C : !Cluster} `{L : !LawfulCluster C} `{PL : !PlatformLaws P}.

(** C19: a reconciliation or a cleanup of a configuration among others that may do anything
    but put a foreign AITenant in the place of the configuration's own.  Every single call
    writes nothing, or the configuration with the spec it has, or the AITenant of the
    configuration's name at a moment when no foreign one is there; it never panics. *)
Theorem maas_under_interference (rr : Request Busy MaaSConfiguration unit) :
  let c := Instance_ rr in
  UID (maas_meta c) <> "" -> tenants_keyed (now (Client rr)) ->
  others_keep (no_takeover c) (Client rr) -> calls (Client rr) = [] ->
  let (r, rr') := reconcileMaaS (C := busyCluster) rr in
  r <> Panic /\ Forall (fun call => maas_call c (fst call) (snd call)) (calls (Client rr')).
Proof.
  intros c Huid Hkeyed Hq Hc.
  assert (underway c rr) as Hrr by (split; [by apply calm_start|done|by split]).
  pose proof (reconcileMaaS_underway c Huid rr Hrr) as H. unfold wp in H.
  destruct (reconcileMaaS (C := busyCluster) rr) as [r rr']. simpl in H.
  destruct H as [Hp [[_ Hcalls] _ _]]. done.
Qed.

(** The calls made are only added to. *)
Lemma wp_atWork_run {A} (f : world -> A * world) (Q : outcome error A -> Busy -> Prop) s :
  (forall a w', f (current_world s) = (a, w') ->
     Q (Ret a) {| real := w'; moves := tail (moves s);
                  calls := (calls s ++ [(view (current_world s), view w')])%list |}) ->
  wp (call (atWork f)) Q s.
Proof. intros HQ. unfold wp, call, atWork. by destruct (f (current_world s)) eqn:Hf; apply HQ. Qed.

(** C20: the cleanup reads the AITenant, checks that the configuration controls it, and
    deletes by name, without naming the version it checked.  Whenever another takes the
    name between the two calls (replaces the controlled AITenant with one that the
    configuration does not control and no finalizer holds), and the API server answers,
    the deletion hits the AITenant of the other. *)
Theorem cleanup_race (accepts : Store -> Unstructured -> Prop)
    `{W : !AvailableWrites view unstructureds aitenantKind accepts}
    (rr : Request Busy MaaSConfiguration unit) first takes others u v :
  let c := Instance_ rr in
  DeletionTimestamp (maas_meta c) <> None -> moves (Client rr) = first :: takes :: others ->
  own_tenant c (view (first (real (Client rr)))) u -> namespacedKey (u_meta u) = tenantKey c ->
  (forall w, view w = view (first (real (Client rr))) ->
     foreign_tenant c (view (takes w)) v /\ Finalizers (u_meta v) = []) ->
  exists st st', (st, st') ∈ calls (Client (snd (reconcileMaaS (C := busyCluster) rr))) /\
    foreign_tenant c st v /\ s_aitenants st' !! tenantKey c = None.
Proof.
  intros c Hdel Hmoves [Hu Hctl] Hkey Htakes.
  enough (wp (reconcileMaaS (C := busyCluster)) (fun _ rr' => exists st st',
    (st, st') ∈ calls (Client rr') /\ foreign_tenant c st v /\ s_aitenants st' !! tenantKey c = None) rr) as H.
  { unfold wp in H. by destruct (reconcileMaaS (C := busyCluster) rr). }
  unfold reconcileMaaS. apply wp_bind, (wp_instance (C := busyCluster)).
  change (@world P busyCluster) with (@Busy P C). fold c.
  destruct (DeletionTimestamp (maas_meta c)); [|done]. simpl. unfold cleanupMaaS, releaseAITenant.
  apply wp_bind, wp_bind, (wp_onClient (C := busyCluster)), wp_atWork_run.
  change (@world P busyCluster) with (@Busy P C). unfold current_world. rewrite Hmoves. intros r w1 Hget.
  destruct (get_present (c := unstructureds) (kd := aitenantKind) (tenantKey c) _ u Hu) as (w1' & Hget' & Hv1).
  unfold tenantKey in Hget'. rewrite Hget in Hget'. injection Hget' as -> ->. rewrite Hctl.
  apply wp_bind, (wp_onClient (C := busyCluster)), wp_atWork_run. unfold current_world. simpl.
  intros d w2 Hrun. destruct (Htakes w1' Hv1) as [[Hv Hfor] Hfin].
  assert (ksel aitenantKind (view (takes w1')) !! kkey aitenantKind u = Some v) as Hv' by (simpl; by rewrite Hkey).
  destruct (remove_available (c := unstructureds) u _ v Hv') as [w2' Hrun'].
  rewrite Hrun in Hrun'. injection Hrun' as -> ->.
  apply delete_done in Hrun as (u0 & x & Hu0 & Hv2 & Hgone & _). rewrite Hv' in Hu0. injection Hu0 as <-.
  apply wp_ret, wp_bind, (wp_setInstance (C := busyCluster)), wp_bind, (wp_onClient (C := busyCluster)), wp_atWork_run.
  intros r w3 _.
  assert (exists st st', (st, st') ∈ (((calls (Client rr) ++ [(view (first (real (Client rr))), view w1')]) ++
      [(view (takes w1'), view w2')]) ++ [(view (current_world (C := C) {| real := w2'; moves := others;
         calls := (calls (Client rr) ++ [(view (first (real (Client rr))), view w1')]) ++
           [(view (takes w1'), view w2')] |}), view w3)])%list /\
    foreign_tenant c st v /\ s_aitenants st' !! tenantKey c = None) as Hdone.
  { exists (view (takes w1')), (view w2'). split; [set_solver|]. split; [done|].
    rewrite Hv2, (Hgone Hfin). simpl. rewrite Hkey. apply lookup_partial_alter_eq. }
  destruct r; [apply wp_fail|apply (wp_setInstance (C := busyCluster))]; exact Hdone.
Qed.
End theorems.

(* ------------------------------------------------------------------ *)
(** ** Runs *)

Module Races.
Import FakeInstances.

(** The AITenant of the configuration, replaced by that of another owner. *)
Definition stranger : Owner := organizationOwner (org "genomics" "research" "research").
Definition takeover (w : FakeWorld) : FakeWorld :=
  withStore w (kput aitenantKind {[(maasNamespace, "research") := tenantOf stranger]} (fw_store w)).

Definition racing (c : MaaSConfiguration) (others : list (world -> world))
    : Request Busy MaaSConfiguration unit :=
  {| Client := {| real := Client (maasRequest c (maasOwner c)); moves := others; calls := [] |};
     Instance_ := c; Conditions := []; Extensions := None |}.

(** An AITenant taken by the other owner between the two calls of the cleanup, and deleted. *)
Lemma cleanup_race_witness :
  let c := researchConfig (Some 1%Z) in
  exists st st', (st, st') ∈ calls (Client (snd (reconcileMaaS (C := busyCluster) (racing c [id; takeover])))) /\
    foreign_tenant c st (tenantOf stranger) /\ s_aitenants st' !! tenantKey c = None.
Proof.
  intros c.
  assert (AvailableWrites view (unstructureds (Cluster := FakeCluster)) aitenantKind (fun _ _ => True)) as W
    by exact (fakeClient_writes aitenantKind _).
  apply (cleanup_race (C := FakeCluster) (fun _ _ => True) (racing c [id; takeover]) id takeover [] (tenantOf (maasOwner c)) (tenantOf stranger)).
  - done.
  - done.
  - split; [apply lookup_singleton_eq|reflexivity].
  - done.
  - intros w _. split; [split; [apply lookup_singleton_eq|reflexivity]|done].
Defined.

Lemma maas_under_interference_witness :
  let rr := racing (researchConfig (Some 1%Z)) [id; fun w => withStore w (kput aitenantKind ∅ (fw_store w))] in
  Forall (fun call => maas_call (researchConfig (Some 1%Z)) (fst call) (snd call))
    (calls (Client (snd (reconcileMaaS (C := busyCluster) rr)))).
Proof.
  intros rr. pose proof (maas_under_interference rr) as H. simpl in H.
  destruct (reconcileMaaS (C := busyCluster) rr) as [r rr']. apply H; [done| | |done].
  - intros k u Hk. by apply (maasRequest_ok (researchConfig (Some 1%Z)) (maasOwner (researchConfig (Some 1%Z)))) in Hk as [? _].
  - apply Forall_cons. split; [intros w; reflexivity|]. apply Forall_singleton. intros w. split.
    + intros _ k u Hk. simpl in Hk. by rewrite lookup_empty in Hk.
    + intros u [Hk _]. simpl in Hk. by rewrite lookup_empty in Hk.
Defined.
End Races.
