(* ===== verification/MaaSLiveness.v ===== *)
(** Progress of the MaaSConfiguration controller on an API server that is up: what a
    reconciliation needs to succeed, and that the next one changes nothing.

    [accepts] is what admission asks of a write to a MaaSConfiguration, [tenantAccepts] what
    the schema of the AITenant kind, which belongs to the MaaS operator, asks of one to an
    AITenant. *)

From stdpp Require Import gmap strings list.
From Stdlib Require Import ZArith.
From S2P Require Import Prelude Platform Api Cluster Validation Available Framework OrganizationCtl MaaS MaaSSpecs MaaSTheorems.

Local Open Scope string_scope.

(** The API server, for the calls of this controller. *)
Class AvailableMaaS `{P : Platform} (C : Cluster) `{!LawfulCluster C}
    (accepts : Store -> MaaSConfiguration -> Prop) (tenantAccepts : Store -> Unstructured -> Prop) : Prop := {
  maas_reads :: ReliableReads C;
  maas_writes :: AvailableWrites view maasconfigurations maasKind accepts;
  aitenants_writes :: AvailableWrites view unstructureds aitenantKind tenantAccepts;
}.

Section liveness.
  Context `{P : Platform} `{PL : !PlatformLaws P} `{C : !Cluster} `{L : !LawfulCluster C}.
  Context (accepts : Store -> MaaSConfiguration -> Prop) (tenantAccepts : Store -> Unstructured -> Prop).
  Context `{AM : !AvailableMaaS C accepts tenantAccepts}.
  Abbreviation RR := (ReconciliationRequest MaaSConfiguration unit).
  Implicit Types rr : RR.

(* ------------------------------------------------------------------ *)
(** ** The AITenant *)

(** Preparing the AITenant again changes nothing. *)
Definition tenant_settled (c : MaaSConfiguration) (p : OrganizationProfile) (u : Unstructured) : Prop :=
  prepareAITenant c p u = Ret u.

Lemma prepareAITenant_total c p u : spec_is_map (Object u) -> exists u', prepareAITenant c p u = Ret u'.
Proof.
  intros Hs. destruct (render_total (Object u) (maas_Spec c) p Hs) as [obj' Hr].
  unfold prepareAITenant. destruct (Labels (u_meta u)); simpl; rewrite Hr; by eexists.
Qed.

Lemma render_keeps_map obj spec p obj' :
  render obj spec p = Ret obj' -> spec_is_map obj -> spec_is_map obj'.
Proof.
  rewrite render_fields. intros H Hs.
  destruct (putField obj "oidc" _) as [o1|e|] eqn:H1; simpl in H; try done.
  destruct (putField o1 "gateway" _) as [o2|e|] eqn:H2; simpl in H; try done.
  destruct (putField o2 "tls" _) as [o3|e|] eqn:H3; simpl in H; try done.
  apply putField_ok in H1 as (_ & _ & _ & A1), H2 as (_ & _ & _ & A2), H3 as (_ & _ & _ & A3),
    H as (_ & _ & _ & A4). auto.
Qed.

Lemma prepared_keeps_map c p u u1 u' :
  prepareAITenant c p u = Ret u1 -> ksame aitenantKind u1 u' -> spec_is_map (Object u) -> spec_is_map (Object u').
Proof.
  intros Hprep [_ Hspec] Hs. unfold prepareAITenant in Hprep.
  assert (spec_is_map (Object u1)) as H1.
  { destruct (Labels (u_meta u)); simpl in Hprep;
      destruct (render _ _ _) as [obj'|e|] eqn:Hr; simpl in Hprep; try done;
      injection Hprep as <-; by eapply render_keeps_map. }
  unfold spec_is_map in *. by rewrite Hspec.
Qed.

(** What the server makes of a prepared AITenant is settled. *)
Lemma prepared_settled c p u u1 u' :
  prepareAITenant c p u = Ret u1 -> ksame aitenantKind u1 u' -> tenant_settled c p u'.
Proof.
  intros Hprep [Hmeta Hspec].
  apply prepareAITenant_ok in Hprep as (_ & Horg & Hby & _ & Hrend). unfold same_meta in Hmeta.
  assert (Labels (u_meta u') = Labels (u_meta u1)) as Hl by (rewrite Hmeta; done). clear Hmeta.
  unfold tenant_settled, prepareAITenant. rewrite Hl.
  destruct (Labels (u_meta u1)) as [ls|] eqn:E; [|done]. simpl in Horg, Hby |- *.
  rewrite (render_id (Object u') (maas_Spec c) p (Object u)) by by eapply rendered_ext.
  simpl. rewrite (insert_id ls) by done. rewrite insert_id by done.
  destruct u' as [[] obj]. simpl in *. by rewrite <- Hl.
Qed.

Lemma tenant_settled_finalizers c c' p u :
  maas_Spec c' = maas_Spec c -> tenant_settled c p u -> tenant_settled c' p u.
Proof. intros Hs. unfold tenant_settled, prepareAITenant, maasOrg. by rewrite Hs. Qed.

(** Whatever satisfies the configuration and the profile is accepted. *)
Definition asked_accepted (c : MaaSConfiguration) (p : OrganizationProfile) (u0 : Unstructured) : Prop :=
  forall st u, tenant_managed c p u0 u -> tenantAccepts st u.

(** The AITenant the controller starts from: the stored one, or a new one. *)
Definition tenantBefore (st : Store) (c : MaaSConfiguration) : Unstructured :=
  default (newAITenant (Name (maas_meta c))) (s_aitenants st !! tenantKey c).

Lemma prepared_managed c p u u1 :
  prepareAITenant c p u = Ret u1 -> namespacedKey (u_meta u) = tenantKey c ->
  IsControlledBy (u_meta u) (maas_meta c) = true -> held (u_meta u) -> tenant_managed c p u u1.
Proof.
  intros (Hmeta & Horg & Hby & Hothers & Hrend)%prepareAITenant_ok Hkey Hctl Hheld.
  constructor; try done.
  - by rewrite Hmeta.
  - by rewrite Hmeta, IsControlledBy_setLabels.
  - unfold held. by rewrite Hmeta.
Qed.

Lemma tenant_managed_trans c p u0 u1 u2 :
  tenant_managed c p u0 u1 -> tenant_managed c p u1 u2 -> tenant_managed c p u0 u2.
Proof.
  intros [_ _ _ _ L1 [_ _ _ _ R1] _] [H1 H2 H3 H4 L2 [R2 R3 R4 R5 R6] H7].
  constructor; try done; [intros k ??; by rewrite L2, L1|].
  constructor; try done. intros k Hk. by rewrite R6, R1.
Qed.

(** The write: the AITenant of a created or an updated object is stored. *)
Lemma writeAITenant_returns (created : bool) u rr :
  held (u_meta u) -> tenantAccepts (maasStore rr) u ->
  (if created then s_aitenants (maasStore rr) !! namespacedKey (u_meta u) = None
   else is_Some (s_aitenants (maasStore rr) !! namespacedKey (u_meta u))) ->
  wp (writeAITenant created u)
     (fun r rr' => Instance_ rr' = Instance_ rr /\
        exists u', r = Ret u' /\ ksame aitenantKind u u' /\
          maasStore rr' = stored aitenantKind (namespacedKey (u_meta u)) u' (maasStore rr) /\
          (created = false -> s_aitenants (maasStore rr) !! namespacedKey (u_meta u) = Some u -> u' = u)) rr.
Proof.
  intros Hheld Hacc Hpre. unfold writeAITenant, maasStore in *. destruct created; apply wp_bind, wp_onClient.
  - apply (wp_Create_available _ _ aitenantKind tenantAccepts); [done..|]. simpl.
    intros u' w Hsame Hv. apply wp_ret. split; [done|]. exists u'. done.
  - destruct Hpre as [u0 Hu0]. apply (wp_Update_available _ _ aitenantKind tenantAccepts _ u0); [done..|].
    simpl. intros u' r w Hsame _ Hkeep Hv Hr. apply wp_ret. split; [done|]. exists u'.
    split; [done|]. split; [done|]. split.
    + destruct Hr as [->|(-> & Hd & Hf)]; [done|]. by destruct (Hheld Hd).
    + intros _ Hu. rewrite Hu0 in Hu. injection Hu as ->. auto.
Qed.

Definition tenant_result (c : MaaSConfiguration) (p : OrganizationProfile) rr rr' : Prop :=
  Instance_ rr' = Instance_ rr /\
  exists u', maasStore rr' = stored aitenantKind (tenantKey c) u' (maasStore rr) /\
    tenant_settled c p u' /\ IsControlledBy (u_meta u') (maas_meta c) = true /\
    namespacedKey (u_meta u') = tenantKey c /\ held (u_meta u') /\ spec_is_map (Object u') /\
    forall u, s_aitenants (maasStore rr) !! tenantKey c = Some u -> tenant_settled c p u -> u' = u.

Lemma applyAITenant_returns (created : bool) c p u rr :
  namespacedKey (u_meta u) = tenantKey c -> IsControlledBy (u_meta u) (maas_meta c) = true ->
  held (u_meta u) -> spec_is_map (Object u) ->
  s_aitenants (maasStore rr) !! tenantKey c = (if created then None else Some u) ->
  asked_accepted c p u ->
  wp (applyAITenant created c p u) (returns (tenant_result c p rr)) rr.
Proof.
  intros Hkey Hctl Hheld Hspec Hpre Hacc. destruct (prepareAITenant_total c p u Hspec) as [u1 Hprep].
  unfold applyAITenant. apply wp_bind, run_wp. rewrite Hprep. intros r rr1 [= <- <-].
  pose proof (prepareAITenant_ok _ _ _ _ Hprep) as (Hmeta & _).
  assert (namespacedKey (u_meta u1) = tenantKey c) as Hkey1 by by rewrite Hmeta.
  apply wp_bind. eapply wp_mono.
  { apply (writeAITenant_returns created u1); [unfold held; by rewrite Hmeta|by apply Hacc, prepared_managed|].
    rewrite Hkey1, Hpre. by destruct created. }
  rewrite Hkey1. intros r rr' (Hi & u' & -> & Hsame & Hst & Hkeep).
  assert (tenant_result c p rr rr') as Hres.
  { pose proof (prepared_keeps_map _ _ _ _ _ Hprep Hsame Hspec) as Hmap.
    split; [done|]. exists u'. split; [done|]. split; [by eapply prepared_settled|].
    destruct Hsame as [Hm _]. unfold same_meta in Hm. revert Hm. generalize (UID (u_meta u')). intros uid Hm.
    rewrite Hm. split; [rewrite IsControlledBy_setUID, Hmeta; rewrite !IsControlledBy_spec in *; exact Hctl|].
    split; [done|]. split; [unfold held; simpl; by rewrite Hmeta|]. split; [done|].
    intros v Hv Hset. rewrite Hpre in Hv. destruct created; [done|]. injection Hv as <-.
    unfold tenant_settled in Hset. rewrite Hset in Hprep. injection Hprep as <-. auto. }
  destruct (ready (Object u')); apply wp_mark; (split; [done|]); exact Hres.
Qed.

(** Nothing is in the way of configuration [c]: its organization is a root and has a
    profile, its name fits, and an AITenant of that name is its own. *)
Record maas_unobstructed (st : Store) (c : MaaSConfiguration) (o : Organization)
    (p : OrganizationProfile) : Prop := {
  mu_organization : s_organizations st !! maasOrg c = Some o;
  mu_root : organizationParent o = "";
  mu_name : String.length (Name (maas_meta c)) <= 41;
  mu_profile : s_profiles st !! maasOrg c = Some p;
  mu_scope : Namespace (maas_meta c) = "" /\ Namespace (organization_meta o) = "";
  mu_tenant u : s_aitenants st !! tenantKey c = Some u ->
    IsControlledBy (u_meta u) (maas_meta c) = true /\ spec_is_map (Object u);
}.

Lemma claimAITenant_returns c o p rr :
  tenants_ok (maasStore rr) -> maas_unobstructed (maasStore rr) c o p ->
  asked_accepted c p (tenantBefore (maasStore rr) c) ->
  wp (claimAITenant c o p) (returns (tenant_result c p rr)) rr.
Proof.
  intros Hok Hmu Hacc. unfold claimAITenant. apply wp_bind, wp_onClient.
  apply (wp_Get _ _ aitenantKind True (fun _ => _)); simpl.
  - intros u w Hu Hv. destruct (Hok _ _ Hu) as [Hkey Hheld]. destruct (mu_tenant _ _ _ _ Hmu u Hu) as [Hctl Hs].
    assert (maasStore (withClient rr w) = maasStore rr) as Hst by done.
    change (s_aitenants (maasStore rr) !! tenantKey c = Some u) in Hu. unfold tenantBefore in Hacc. rewrite Hu in Hacc.
    rewrite Hctl. simpl. eapply wp_mono; [apply (applyAITenant_returns false); try done|].
    + by rewrite Hst.
    + intros r rr' [-> Hres]. split; [done|]. unfold tenant_result in *. by rewrite <- Hst.
  - intros e w Hnf Hr Hv. rewrite (Hr I). simpl. specialize (Hnf (Hr I)).
    change (s_aitenants (maasStore rr) !! tenantKey c = None) in Hnf. unfold tenantBefore in Hacc. rewrite Hnf in Hacc.
    assert (maasStore (withClient rr w) = maasStore rr) as Hst by done.
    destruct (SetControllerReference_claims (maasOwner c) (namedMeta maasNamespace (Name (maas_meta c))))
      as [m1 H1]; [done|apply (mu_scope _ _ _ _ Hmu)|].
    destruct (SetOwnerReference_claims (organizationOwner o) m1) as [m2 H2]; [apply (mu_scope _ _ _ _ Hmu)|].
    cbn [u_meta newAITenant Object]. rewrite H1, H2.
    pose proof (SetControllerReference_ref _ _ _ H1) as Href.
    apply SetControllerReference_ok in H1 as [Hctl Hm1]. apply SetOwnerReference_ok in H2 as [Hm2 Hkeep].
    assert (controllerOf m2 = Some (ownerRef (maasOwner c) (Some true))) as Href2.
    { rewrite Hkeep; [done|]. intros r. rewrite Href. by intros [= <-]. }
    eapply wp_mono; [apply (applyAITenant_returns true c p); simpl|].
    + rewrite Hm2, Hm1. done.
    + apply IsControlledBy_spec. exists (ownerRef (maasOwner c) (Some true)). done.
    + rewrite Hm2, Hm1. by intros H.
    + unfold spec_is_map. by rewrite GvkToUnstructured_empty.
    + by rewrite Hst.
    + intros st u Hu. apply (Hacc st). eapply tenant_managed_from; [| |exact Hu]; simpl; [|done]. by rewrite Hm2, Hm1.
    + intros r rr' [-> Hres]. split; [done|]. unfold tenant_result in *. by rewrite <- Hst.
Qed.

(* ------------------------------------------------------------------ *)
(** ** The finalizer and the whole reconciliation *)

Definition withFinalizer (c : MaaSConfiguration) : MaaSConfiguration :=
  withMaaSMeta c (AddFinalizer (maas_meta c) maasFinalizer).

Lemma ensureFinalizer_returns rr :
  current rr -> DeletionTimestamp (maas_meta (Instance_ rr)) = None ->
  (maasFinalizer ∉ Finalizers (maas_meta (Instance_ rr)) -> accepts (maasStore rr) (withFinalizer (Instance_ rr))) ->
  wp ensureFinalizer (returns (fun rr' =>
     finalized (Instance_ rr) (Instance_ rr') /\
     maasStore rr' = stored maasKind (Name (maas_meta (Instance_ rr))) (Instance_ rr') (maasStore rr) /\
     (maasFinalizer ∈ Finalizers (maas_meta (Instance_ rr)) -> Instance_ rr' = Instance_ rr))) rr.
Proof.
  intros [Hst Huid] Hdel Hacc.
  assert (wp ensureFinalizer (fun r rr' => r = Ret tt /\
     (maasFinalizer ∈ Finalizers (maas_meta (Instance_ rr)) -> Instance_ rr' = Instance_ rr)) rr) as Hret.
  { unfold ensureFinalizer. apply wp_bind, wp_instance. destruct (ContainsFinalizer _ _) eqn:Hf; simpl.
    - by apply wp_ret.
    - assert (maasFinalizer ∉ Finalizers (maas_meta (Instance_ rr))) as Hni
        by (rewrite <- ContainsFinalizer_spec, Hf; done).
      destruct (AddFinalizer_spec (maas_meta (Instance_ rr)) maasFinalizer) as [Hmeta _].
      apply wp_bind, wp_setInstance, wp_bind, wp_onClient.
      apply (wp_Update_available _ _ maasKind accepts _ (Instance_ rr)); simpl.
      + by rewrite Hmeta.
      + by apply Hacc.
      + intros c' r w _ _ _ _ _. by apply wp_setInstance. }
  eapply wp_mono; [exact (wp_conj _ _ _ _ Hret (ensureFinalizer_spec rr Hst Hdel Huid))|].
  intros r rr' [[-> Hkeep] (_ & Hspec & Hmeta & Hfin & Hs)]. split; [done|]. by split.
Qed.

(** What a successful reconciliation leaves, and when it leaves everything as it was. *)
Definition provisioned (p : OrganizationProfile) rr rr' : Prop :=
  finalized (Instance_ rr) (Instance_ rr') /\
  exists u', maasStore rr' = stored aitenantKind (tenantKey (Instance_ rr)) u'
               (stored maasKind (Name (maas_meta (Instance_ rr))) (Instance_ rr') (maasStore rr)) /\
    tenant_settled (Instance_ rr) p u' /\ IsControlledBy (u_meta u') (maas_meta (Instance_ rr)) = true /\
    namespacedKey (u_meta u') = tenantKey (Instance_ rr) /\ held (u_meta u') /\ spec_is_map (Object u') /\
    (maasFinalizer ∈ Finalizers (maas_meta (Instance_ rr)) -> Instance_ rr' = Instance_ rr) /\
    forall u, s_aitenants (maasStore rr) !! tenantKey (Instance_ rr) = Some u ->
      tenant_settled (Instance_ rr) p u -> u' = u.

Lemma unobstructed_finalized st c c' o p :
  finalized c c' -> maas_unobstructed st c o p ->
  maas_unobstructed (stored maasKind (Name (maas_meta c)) c' st) c' o p.
Proof.
  intros Hfin [H1 H2 H3 H4 [H5 H5'] H6]. pose proof (finalized_name _ _ Hfin) as Hn.
  pose proof (finalized_org _ _ Hfin) as Ho. destruct Hfin as (Hspec & Hmeta & Hin) eqn:E.
  constructor; rewrite ?Hn, ?Ho; try done.
  - split; [by rewrite Hmeta|done].
  - intros u Hu. unfold tenantKey in *. rewrite Hn in Hu. destruct (H6 u Hu) as [Hc ?]. split; [|done].
    by rewrite (finalized_controlled c c').
Qed.

Lemma reconcileMaaS_returns o p rr :
  (forall w, crdServed w = true) -> current rr -> tenants_ok (maasStore rr) ->
  DeletionTimestamp (maas_meta (Instance_ rr)) = None ->
  maas_unobstructed (maasStore rr) (Instance_ rr) o p ->
  (maasFinalizer ∉ Finalizers (maas_meta (Instance_ rr)) -> accepts (maasStore rr) (withFinalizer (Instance_ rr))) ->
  asked_accepted (Instance_ rr) p (tenantBefore (maasStore rr) (Instance_ rr)) ->
  wp reconcileMaaS (returns (provisioned p rr)) rr.
Proof.
  intros Hcrd Hcur Hok Hdel Hmu Hacc Hten. unfold reconcileMaaS. apply wp_bind, wp_instance. rewrite Hdel. simpl.
  apply wp_bind. eapply wp_mono; [by apply ensureFinalizer_returns|].
  intros r rr1 [-> (Hfin & Hs1 & Hkeep)]. apply wp_bind, wp_instance, wp_bind, wp_onClient.
  eapply wp_mono; [apply hasMaaS_spec|]. rewrite Hcrd. intros r w [-> Hv]. simpl.
  apply wp_bind, wp_mark.
  pose proof (unobstructed_finalized _ _ _ _ _ Hfin Hmu) as Hmu1. rewrite <- Hs1 in Hmu1.
  assert (view w = maasStore rr1) as Hw by done.
  apply wp_bind, wp_onClient. apply (wp_Get _ _ organizationKind True (fun _ => _)); simpl; rewrite Hw.
  2:{ intros e w2 Hnf HR _. by rewrite (mu_organization _ _ _ _ Hmu1) in Hnf; specialize (Hnf (HR I)). }
  intros o' w2 Ho' Hv2. rewrite (mu_organization _ _ _ _ Hmu1) in Ho'. injection Ho' as <-.
  rewrite decide_False by (intros Hp; by apply Hp, (mu_root _ _ _ _ Hmu1)).
  rewrite decide_False by (pose proof (mu_name _ _ _ _ Hmu1); unfold maxAITenantNameSize; lia).
  apply wp_bind, wp_onClient. apply (wp_Get _ _ profileKind True (fun _ => _)); simpl; rewrite Hv2.
  2:{ intros e w3 Hnf HR _. by rewrite (mu_profile _ _ _ _ Hmu1) in Hnf; specialize (Hnf (HR I)). }
  intros p' w3 Hp' Hv3. rewrite (mu_profile _ _ _ _ Hmu1) in Hp'. injection Hp' as <-.
  eapply wp_mono; [apply (claimAITenant_returns _ o p)|].
  - unfold maasStore. simpl. rewrite Hv3, Hs1. exact Hok.
  - unfold maasStore. simpl. rewrite Hv3. exact Hmu1.
  - assert (tenantBefore (maasStore rr1) (Instance_ rr1) = tenantBefore (maasStore rr) (Instance_ rr)) as Hb
      by (unfold tenantBefore, tenantKey; by rewrite Hs1, (finalized_name _ _ Hfin)).
    intros st u Hu. unfold maasStore in Hu at 1. simpl in Hu. rewrite Hv3, Hb in Hu. apply (Hten st).
    by eapply finalized_managed.
  - intros r rr' [-> Hres]. split; [done|]. unfold tenant_result in Hres. unfold maasStore at 1 2 in Hres.
    simpl in Hres. rewrite Hv3 in Hres. destruct Hres as (Hi & u' & Hst & Hset & Hctl & Hkey & Hheld & Hmap & Hsame).
    unfold provisioned. rewrite Hi. simpl. split; [done|]. exists u'. unfold tenantKey in *. rewrite (finalized_name _ _ Hfin), Hs1 in *.
    split_and!; try done.
    + eapply tenant_settled_finalizers; [|exact Hset]. by destruct Hfin as [-> _].
    + by rewrite <- (finalized_controlled _ _ _ Hfin).
    + intros u Hu Hsu. apply Hsame; [unfold maasStore; simpl; rewrite ?Hv3; exact Hu|]. eapply tenant_settled_finalizers; [|exact Hsu]. by destruct Hfin as [-> _].
Qed.

(** After a successful reconciliation everything the next one needs is in place. *)
Lemma provisioned_ready o p rr rr' :
  current rr -> tenants_ok (maasStore rr) -> DeletionTimestamp (maas_meta (Instance_ rr)) = None ->
  maas_unobstructed (maasStore rr) (Instance_ rr) o p -> provisioned p rr rr' ->
  current rr' /\ tenants_ok (maasStore rr') /\ DeletionTimestamp (maas_meta (Instance_ rr')) = None /\
  maas_unobstructed (maasStore rr') (Instance_ rr') o p /\
  maasFinalizer ∈ Finalizers (maas_meta (Instance_ rr')) /\
  exists u, s_aitenants (maasStore rr') !! tenantKey (Instance_ rr') = Some u /\
    tenant_settled (Instance_ rr') p u.
Proof.
  intros [_ Huid] Hok Hdel Hmu (Hfin & u' & Hst & Hset & Hctl & Hkey & Hheld & Hmap & _ & _).
  pose proof (finalized_name _ _ Hfin) as Hn. pose proof Hfin as (Hspec & Hmeta & Hin).
  pose proof (unobstructed_finalized _ _ _ _ _ Hfin Hmu) as [M1 M2 M3 M4 M5 _].
  assert (tenantKey (Instance_ rr') = tenantKey (Instance_ rr)) as Hk by (unfold tenantKey; by rewrite Hn).
  rewrite Hst. split_and!.
  - split; [rewrite Hst, Hn; apply lookup_insert_eq|]. by rewrite Hmeta.
  - intros k u. simpl. rewrite lookup_insert_Some. intros [[<- <-]|[_ ?]]; [done|by apply Hok].
  - by rewrite Hmeta.
  - constructor; try done. intros u. rewrite Hk. simpl. rewrite lookup_insert_eq. intros [= <-].
    by rewrite (finalized_controlled _ _ _ Hfin).
  - done.
  - exists u'. rewrite Hk. simpl. split; [apply lookup_insert_eq|]. by eapply tenant_settled_finalizers.
Qed.

(** What a reconciliation that returns provisioned, in the words of the configuration and
    the profile. *)
Lemma provisioned_managed o p rr rr' :
  crdServed (askedAt rr) = true -> maas_unobstructed (maasStore rr) (Instance_ rr) o p ->
  maas_outcome rr (Ret tt) rr' -> provisioned p rr rr' ->
  exists u', maasStore rr' = stored aitenantKind (tenantKey (Instance_ rr)) u'
               (stored maasKind (Name (maas_meta (Instance_ rr))) (Instance_ rr') (maasStore rr)) /\
    tenant_managed (Instance_ rr) p (tenantBefore (maasStore rr) (Instance_ rr)) u'.
Proof.
  intros Hcrd [M1 M2 M3 M4 _ M6] (c' & ms & ts & Hv & _ & _ & Hs) (_ & u' & Hst & _).
  exists u'. split; [done|]. rewrite Hcrd in Hv.
  assert (ts !! tenantKey (Instance_ rr) = Some u') as Hu.
  { apply (f_equal s_aitenants) in Hs. rewrite Hst in Hs. simpl in Hs. rewrite <- Hs. apply lookup_insert_eq. }
  clear Hst Hs. inversion Hv as [|o' Ho' Hp|o' Ho' Hp Hl|u Hsv Hk Hf|p' u'' Hsv Hp' Hc Hm Hmap]; subst.
  - congruence.
  - lia.
  - destruct (M6 _ Hk) as [Hc _]. congruence.
  - rewrite lookup_insert_eq in Hu. assert (p' = p) as -> by congruence. by injection Hu as <-.
Qed.

Lemma maas_converges_on o p rr :
  (forall w, crdServed w = true) -> current rr -> tenants_ok (maasStore rr) ->
  DeletionTimestamp (maas_meta (Instance_ rr)) = None ->
  maas_unobstructed (maasStore rr) (Instance_ rr) o p ->
  (maasFinalizer ∉ Finalizers (maas_meta (Instance_ rr)) -> accepts (maasStore rr) (withFinalizer (Instance_ rr))) ->
  asked_accepted (Instance_ rr) p (tenantBefore (maasStore rr) (Instance_ rr)) ->
  exists rr', reconcileMaaS rr = (Ret tt, rr') /\ finalized (Instance_ rr) (Instance_ rr') /\
    (exists u', maasStore rr' = stored aitenantKind (tenantKey (Instance_ rr)) u'
                  (stored maasKind (Name (maas_meta (Instance_ rr))) (Instance_ rr') (maasStore rr)) /\
       tenant_managed (Instance_ rr) p (tenantBefore (maasStore rr) (Instance_ rr)) u') /\
    forall rr2, maasStore rr2 = maasStore rr' -> Instance_ rr2 = Instance_ rr' ->
      exists rr3, reconcileMaaS rr2 = (Ret tt, rr3) /\
        maasStore rr3 = maasStore rr' /\ Instance_ rr3 = Instance_ rr'.
Proof.
  intros Hcrd Hcur Hok Hdel Hmu Hacc Hten.
  pose proof (wp_conj _ _ _ _ (reconcileMaaS_spec rr Hcur Hok Hdel)
    (reconcileMaaS_returns o p rr Hcrd Hcur Hok Hdel Hmu Hacc Hten)) as Hwp. unfold wp in Hwp.
  destruct (reconcileMaaS rr) as [r rr']. simpl in Hwp. destruct Hwp as [Hout [-> Hprov]].
  destruct (provisioned_managed o p rr rr' (Hcrd _) Hmu Hout Hprov) as (v & Hv & Hman).
  exists rr'. split; [done|]. split; [apply Hprov|]. split; [by exists v|]. intros rr2 Hs2 Hi2.
  destruct (provisioned_ready o p rr rr' Hcur Hok Hdel Hmu Hprov) as (Hcur' & Hok' & Hdel' & Hmu' & Hin & u & Hu & Hset).
  pose proof (proj1 Hprov) as Hfin.
  assert (asked_accepted (Instance_ rr') p (tenantBefore (maasStore rr') (Instance_ rr'))) as Hten'.
  { intros st u2 Hu2. apply (Hten st). eapply tenant_managed_trans; [exact Hman|].
    apply (finalized_managed _ _ _ _ _ Hfin) in Hu2. unfold tenantBefore, tenantKey in Hu2.
    rewrite (finalized_name _ _ Hfin), Hv in Hu2. simpl in Hu2. unfold tenantKey in Hu2.
    by rewrite lookup_insert_eq in Hu2. }
  assert (current rr2) as Hcur2 by (unfold current in *; by rewrite Hs2, Hi2).
  rewrite <- Hs2, <- Hi2 in *.
  pose proof (reconcileMaaS_returns o p rr2 Hcrd Hcur2 Hok' Hdel' Hmu' ltac:(done) Hten') as Hwp2.
  unfold wp in Hwp2. destruct (reconcileMaaS rr2) as [r3 rr3]. simpl in Hwp2.
  destruct Hwp2 as [-> (_ & u' & Hst & _ & _ & _ & _ & _ & Hkeep & Hsame)].
  exists rr3. split; [done|]. rewrite (Hkeep Hin) in *. split; [|done].
  rewrite Hst, (Hsame u Hu Hset). unfold stored. simpl. destruct Hcur2 as [Hc2 _].
  rewrite (insert_id (s_maas _)) by done. rewrite (insert_id (s_aitenants _)) by done.
  by destruct (maasStore rr2).
Qed.

(* ------------------------------------------------------------------ *)
(** ** Deletion *)

Definition withoutFinalizer (c : MaaSConfiguration) : MaaSConfiguration :=
  withMaaSMeta c (RemoveFinalizer (maas_meta c) maasFinalizer).

Lemma releaseAITenant_returns c rr :
  tenants_ok (maasStore rr) ->
  wp (releaseAITenant c) (returns (fun rr' => Instance_ rr' = Instance_ rr /\
        tenant_released c (maasStore rr) (maasStore rr'))) rr.
Proof.
  intros Hok.
  assert (wp (releaseAITenant c) (fun r _ => r = Ret tt) rr) as Hret.
  { unfold releaseAITenant. apply wp_bind, wp_onClient.
    apply (wp_Get _ _ aitenantKind True (fun _ => _)); simpl.
    - intros u w Hu Hv. destruct (Hok _ _ Hu) as [Hkey _].
      destruct (IsControlledBy _ _); [|by apply wp_ret].
      apply wp_bind, wp_onClient. unfold wp, call. cbn [Client withClient].
      destruct (remove_available (kd := aitenantKind) (accepts := tenantAccepts) u w u) as [w' ->];
        [simpl; by rewrite Hkey, Hv|done].
    - intros e w Hnf HR Hv. rewrite (HR I). by apply wp_ret. }
  eapply wp_mono; [exact (wp_conj _ _ _ _ Hret (releaseAITenant_spec c rr Hok))|].
  intros r rr' [-> (Hi & _ & Hrel)]. done.
Qed.

(** Where admission lets the finalizer go, a configuration under deletion is released. *)
Lemma cleanup_returns old rr :
  tenants_ok (maasStore rr) -> DeletionTimestamp (maas_meta (Instance_ rr)) <> None ->
  s_maas (maasStore rr) !! Name (maas_meta (Instance_ rr)) = Some old ->
  (forall ts, accepts (kput aitenantKind ts (maasStore rr)) (withoutFinalizer (Instance_ rr))) ->
  wp reconcileMaaS (fun r rr' => r = Ret tt /\ cleanup_outcome rr r rr') rr.
Proof.
  intros Hok Hdel Hold Hacc. apply wp_conj; [|by apply cleanupMaaS_spec].
  unfold reconcileMaaS. apply wp_bind, wp_instance. destruct (DeletionTimestamp _); [|done]. simpl.
  unfold cleanupMaaS. apply wp_bind. eapply wp_mono; [by apply releaseAITenant_returns|].
  intros r rr1 [-> (Hi & Hrel)].
  destruct (RemoveFinalizer_spec (maas_meta (Instance_ rr)) maasFinalizer) as [Hmeta _].
  apply wp_bind, wp_setInstance, wp_bind, wp_onClient.
  apply (wp_Update_available _ _ maasKind accepts _ old); simpl;
    change (view (Client rr1)) with (maasStore rr1); rewrite (tr_kind _ _ _ Hrel).
  - by rewrite Hmeta.
  - apply Hacc.
  - intros c' x w _ _ _ _ _. by apply wp_setInstance.
Qed.
End liveness.
