(* ===== verification/Manager.v ===== *)
(** The entry point cmd/main.go: the flags with their defaults, the options of the
    webhook and metrics servers, and the order in which the manager is built,
    wired and started; and the Setup*WebhookWithManager functions.

    The manager belongs to controller-runtime: [ManagerRuntime] performs one request
    at a time and may fail at any of them.  [main] takes the parsed flags; CommandLine.v
    parses them. *)

From stdpp Require Import gmap strings list.
From Stdlib Require Import ZArith.
From S2P Require Import Prelude Platform Api Cluster Authz Framework OrganizationCtl ProjectCtl NetPol MaaS.

Local Open Scope string_scope.

(* ------------------------------------------------------------------ *)
(** ** Flags and options *)

Record Flags := {
  metricsAddr : string;
  probeAddr : string;
  enableLeaderElection : bool;
  secureMetrics : bool;
  webhookCertPath : string;
  webhookCertName : string;
  webhookCertKey : string;
  metricsCertPath : string;
  metricsCertName : string;
  metricsCertKey : string;
  enableHTTP2 : bool;
}.

(** The values without any command-line argument. *)
Definition defaultFlags : Flags :=
  {| metricsAddr := "0";
     probeAddr := ":8081";
     enableLeaderElection := false;
     secureMetrics := true;
     webhookCertPath := "";
     webhookCertName := "tls.crt";
     webhookCertKey := "tls.key";
     metricsCertPath := "";
     metricsCertName := "tls.crt";
     metricsCertKey := "tls.key";
     enableHTTP2 := false |}.

(** crypto/tls.Config: the field the operator sets. *)
Record tlsConfig := { NextProtos : slice string }.
Abbreviation tlsOption := (tlsConfig -> tlsConfig).

(** webhook.Options *)
Record WebhookOptions := {
  wh_TLSOpts : list tlsOption;
  wh_CertDir : string;
  wh_CertName : string;
  wh_KeyName : string;
}.

(** metricsserver.Options; the filter that authenticates and authorizes requests is
    the only one the code uses. *)
Inductive FilterProvider := WithAuthenticationAndAuthorization.
Record MetricsOptions := {
  BindAddress : string;
  SecureServing : bool;
  ms_TLSOpts : list tlsOption;
  ms_FilterProvider : option FilterProvider;
  ms_CertDir : string;
  ms_CertName : string;
  ms_KeyName : string;
}.

(** ctrl.Options *)
Record ManagerOptions := {
  Metrics : MetricsOptions;
  WebhookServer : WebhookOptions;
  HealthProbeBindAddress : string;
  LeaderElection : bool;
  LeaderElectionID : string;
}.

Definition disableHTTP2 : tlsOption := fun c => {| NextProtos := Some ["http/1.1"] |}.

Definition tlsOpts (f : Flags) : list tlsOption :=
  let opts : list tlsOption := [] in
  if negb (enableHTTP2 f) then (opts ++ [disableHTTP2])%list else opts.

Definition webhookServerOptions (f : Flags) : WebhookOptions :=
  let options := {| wh_TLSOpts := tlsOpts f; wh_CertDir := ""; wh_CertName := ""; wh_KeyName := "" |} in
  if decide (0 < String.length (webhookCertPath f)) then
    {| wh_TLSOpts := wh_TLSOpts options; wh_CertDir := webhookCertPath f;
       wh_CertName := webhookCertName f; wh_KeyName := webhookCertKey f |}
  else options.

Definition metricsServerOptions (f : Flags) : MetricsOptions :=
  let options := {| BindAddress := metricsAddr f; SecureServing := secureMetrics f; ms_TLSOpts := tlsOpts f;
                    ms_FilterProvider := None; ms_CertDir := ""; ms_CertName := ""; ms_KeyName := "" |} in
  let options :=
    if secureMetrics f then
      {| BindAddress := BindAddress options; SecureServing := SecureServing options;
         ms_TLSOpts := ms_TLSOpts options;
         ms_FilterProvider := Some WithAuthenticationAndAuthorization;
         ms_CertDir := ms_CertDir options; ms_CertName := ms_CertName options;
         ms_KeyName := ms_KeyName options |}
    else options in
  if decide (0 < String.length (metricsCertPath f)) then
    {| BindAddress := BindAddress options; SecureServing := SecureServing options;
       ms_TLSOpts := ms_TLSOpts options; ms_FilterProvider := ms_FilterProvider options;
       ms_CertDir := metricsCertPath f; ms_CertName := metricsCertName f; ms_KeyName := metricsCertKey f |}
  else options.

Definition managerOptions (f : Flags) : ManagerOptions :=
  {| Metrics := metricsServerOptions f;
     WebhookServer := webhookServerOptions f;
     HealthProbeBindAddress := probeAddr f;
     LeaderElection := enableLeaderElection f;
     LeaderElectionID := "07b03902.opendatahub.io" |}.

(* ------------------------------------------------------------------ *)
(** ** Requests to the runtime *)

Inductive Op :=
| AddToScheme (group : string)
| GetConfigOrDie
| NewManager (o : ManagerOptions)
| BuildController (kind : string)
| CompleteWebhook (kind : string) (authz : authorizer)
| AddHealthzCheck (name : string)
| AddReadyzCheck (name : string)
| Start.

Class ManagerRuntime `{P : Platform} := {
  manager : Type;
  perform : Op -> manager -> option liberror * manager;
}.

Section main.
  Context `{P : Platform} `{C : !Cluster} `{M : !ManagerRuntime}.
  Context (getenv : string -> string).

(** [if err := ...; err != nil { os.Exit(1) }]; an error is the exit status. *)
Definition orExit (op : Op) : GoM manager Z unit :=
  let* err := call (perform op) in
  match err with
  | Some _ => fail 1%Z
  | None => ret tt
  end.

(** utilruntime.Must *)
Definition Must (op : Op) : GoM manager Z unit :=
  let* err := call (perform op) in
  match err with
  | Some _ => panic
  | None => ret tt
  end.

Definition init : GoM manager Z unit :=
  Must (AddToScheme "client-go") ;;;
  Must (AddToScheme "apiextensions.k8s.io/v1") ;;;
  Must (AddToScheme "organization.opendatahub.io/v1alpha1").

(** The registration of a validator with its own authorizer. *)
Definition SetupOrganizationWebhookWithManager : Op := CompleteWebhook "Organization" (newAuthorizer getenv).
Definition SetupMaaSConfigurationWebhookWithManager : Op :=
  CompleteWebhook "MaaSConfiguration" (newAuthorizer getenv).
Definition SetupOrganizationProfileWebhookWithManager : Op :=
  CompleteWebhook "OrganizationProfile" (newAuthorizer getenv).
Definition SetupOrganizationProjectWebhookWithManager : Op :=
  CompleteWebhook "OrganizationProject" (newAuthorizer getenv).

Definition main (f : Flags) : GoM manager Z unit :=
  orExit GetConfigOrDie ;;;
  orExit (NewManager (managerOptions f)) ;;;
  orExit (BuildController (rc_For NewOrganizationReconciler)) ;;;
  orExit (BuildController (rc_For NewOrganizationProfileReconciler)) ;;;
  orExit (BuildController (rc_For NewMaaSConfigurationReconciler)) ;;;
  orExit (BuildController (rc_For NewOrganizationProjectReconciler)) ;;;
  (if decide (getenv "ENABLE_WEBHOOKS" <> "false") then orExit SetupOrganizationWebhookWithManager
   else ret tt) ;;;
  (if decide (getenv "ENABLE_WEBHOOKS" <> "false") then orExit SetupMaaSConfigurationWebhookWithManager
   else ret tt) ;;;
  (if decide (getenv "ENABLE_WEBHOOKS" <> "false") then orExit SetupOrganizationProfileWebhookWithManager
   else ret tt) ;;;
  (if decide (getenv "ENABLE_WEBHOOKS" <> "false") then orExit SetupOrganizationProjectWebhookWithManager
   else ret tt) ;;;
  orExit (AddHealthzCheck "healthz") ;;;
  orExit (AddReadyzCheck "readyz") ;;;
  orExit Start.
End main.

(* ------------------------------------------------------------------ *)
(** ** What is asked of the runtime, in order *)

(** A startup plan: the requests of a complete run. *)
Definition webhookPlan (getenv : string -> string) : list Op :=
  if decide (getenv "ENABLE_WEBHOOKS" = "false") then []
  else map (fun kind => CompleteWebhook kind (newAuthorizer getenv))
         ["Organization"; "MaaSConfiguration"; "OrganizationProfile"; "OrganizationProject"].
Definition wiringPlan (getenv : string -> string) (f : Flags) : list Op :=
  ([GetConfigOrDie; NewManager (managerOptions f)] ++
   map BuildController ["Organization"; "OrganizationProfile"; "MaaSConfiguration"; "OrganizationProject"] ++
   webhookPlan getenv ++ [AddHealthzCheck "healthz"; AddReadyzCheck "readyz"])%list.

Section plan.
  Context `{P : Platform} `{C : !Cluster} `{M : !ManagerRuntime}.

(** Performing a list of requests until one fails: how many succeeded, and the state. *)
Fixpoint performed (ops : list Op) (m : manager) : nat * manager :=
  match ops with
  | [] => (0, m)
  | op :: ops' =>
      match perform op m with
      | (Some _, m') => (0, m')
      | (None, m') => let (n, m'') := performed ops' m' in (S n, m'')
      end
  end.

Lemma range_performed ops m :
  range ops orExit m =
  let (n, m') := performed ops m in
  (if decide (n = length ops) then Ret tt else Err 1%Z, m').
Proof.
  revert m. induction ops as [|op ops IH]; intros m; simpl; [done|].
  unfold bind at 1, orExit at 1, bind, call.
  destruct (perform op m) as [[e|] m1]; simpl; [done|].
  rewrite IH. destruct (performed ops m1) as [n m']. simpl.
  destruct (decide (n = length ops)) as [->|Hn]; [by rewrite decide_True|].
  rewrite decide_False; [done|]. intros [= ?]. done.
Qed.

Lemma range_app (ops1 ops2 : list Op) :
  forall m, range (ops1 ++ ops2) orExit m = bind (range ops1 orExit) (fun _ => range ops2 orExit) m.
Proof.
  induction ops1 as [|op ops1 IH]; intros m; simpl; [done|].
  unfold bind at 1 2 3. destruct (orExit op m) as [[[]|e|] m1]; [|done|done]. apply IH.
Qed.

Lemma main_range getenv f m : main getenv f m = range (wiringPlan getenv f ++ [Start])%list orExit m.
Proof.
  unfold main, wiringPlan, webhookPlan, SetupOrganizationWebhookWithManager,
    SetupMaaSConfigurationWebhookWithManager, SetupOrganizationProfileWebhookWithManager,
    SetupOrganizationProjectWebhookWithManager.
  destruct (decide (getenv "ENABLE_WEBHOOKS" <> "false")) as [Hne|Heq].
  - rewrite decide_False by done. simpl. unfold bind, ret.
    repeat match goal with
           | |- context [orExit ?op ?m] => destruct (orExit op m) as [[[]|?|] ?]; try done
           end.
  - apply dec_stable in Heq. rewrite decide_True by done. simpl. unfold bind, ret.
    repeat match goal with
           | |- context [orExit ?op ?m] => destruct (orExit op m) as [[[]|?|] ?]; try done
           end.
Qed.
End plan.
