(* ===== verification/ManagerTheorems.v ===== *)
(** What [main] guarantees of given flags: the run as a list of requests, the servers do
    not speak HTTP/2 unless asked to, and the metrics endpoint is protected whenever it is
    served securely. *)

From stdpp Require Import gmap strings list.
From Stdlib Require Import ZArith.
From S2P Require Import Prelude Platform Api Cluster Fake Authz Framework Manager.

Local Open Scope string_scope.

(** A server's TLS configuration after its options have been applied in order. *)
Definition configure (opts : list tlsOption) (c : tlsConfig) : tlsConfig :=
  fold_left (fun c o => o c) opts c.

Section theorems.
  Context `{P : Platform} `{C : !Cluster} `{M : !ManagerRuntime}.

(** The run of [main], as a list of requests. *)
Lemma main_performed (getenv : string -> string) (f : Flags) (m : manager) :
  main getenv f m =
  let (n, m') := performed (wiringPlan getenv f) m in
  if decide (n = length (wiringPlan getenv f)) then
    match perform Start m' with
    | (None, m'') => (Ret tt, m'')
    | (Some _, m'') => (Err 1%Z, m'')
    end
  else (Err 1%Z, m').
Proof.
  rewrite main_range, range_app. unfold bind at 1. rewrite range_performed.
  destruct (performed _ m) as [n m']. case_decide; [|done].
  simpl. unfold orExit, bind, call, ret. destruct (perform Start m') as [[e|] m'']; done.
Qed.
End theorems.

(** Without --enable-http2 both servers offer http/1.1 and nothing else, whatever
    their TLS configuration was; with it, neither server's configuration is touched;
    it is off by default. *)
Lemma http2_off_by_default (f : Flags) (c : tlsConfig) :
  let o := managerOptions f in
  (enableHTTP2 f = false ->
   NextProtos (configure (wh_TLSOpts (WebhookServer o)) c) = Some ["http/1.1"] /\
   NextProtos (configure (ms_TLSOpts (Metrics o)) c) = Some ["http/1.1"]) /\
  (enableHTTP2 f = true ->
   configure (wh_TLSOpts (WebhookServer o)) c = c /\ configure (ms_TLSOpts (Metrics o)) c = c) /\
  enableHTTP2 defaultFlags = false.
Proof.
  simpl. unfold webhookServerOptions, metricsServerOptions, tlsOpts.
  split; [|split; [|done]]; intros ->; simpl; split;
    repeat case_decide; repeat case_match; done.
Qed.

(** The metrics endpoint authenticates and authorizes its clients exactly when it is
    served over TLS, which is the default; a certificate directory given on the
    command line is used with its file names, and none otherwise. *)
Lemma metrics_protected (f : Flags) :
  let o := Metrics (managerOptions f) in
  (ms_FilterProvider o = Some WithAuthenticationAndAuthorization <-> SecureServing o = true) /\
  SecureServing o = secureMetrics f /\ SecureServing (Metrics (managerOptions defaultFlags)) = true /\
  ms_CertDir o = metricsCertPath f /\
  (ms_CertName o, ms_KeyName o) =
    (if decide (metricsCertPath f = "") then ("", "") else (metricsCertName f, metricsCertKey f)).
Proof.
  simpl. unfold metricsServerOptions. destruct (metricsCertPath f) as [|ch rest];
    destruct (secureMetrics f); simpl; repeat (split; [done|]); done.
Qed.

(* ------------------------------------------------------------------ *)
(** ** Runs *)

Section runs.
Import FakeInstances.

(** A runtime that records what it is asked and refuses one request. *)
Definition recording (refused : Op -> bool) : ManagerRuntime :=
  {| manager := list Op;
     perform op tr := (if refused op then Some FForbidden else None, (tr ++ [op])%list) |}.

Definition refuseReadyz (op : Op) : bool :=
  match op with AddReadyzCheck _ => true | _ => false end.
End runs.
