(* ===== verification/Rbac.v ===== *)
(** The permissions of the operator: the kubebuilder:rbac markers beside the controllers,
    from which its ClusterRole (config/rbac/role.yaml) is generated, and the cluster as
    the API server shows it to a user who has them.

    How the API server evaluates the rules of a role is [RBAC] and its laws;
    [guardedCluster] refuses every call the rules do not allow. *)

From stdpp Require Import gmap strings list.
From S2P Require Import Prelude Platform Api Cluster Framework OrganizationCtl ProjectCtl NetPol MaaS.

Local Open Scope string_scope.

(* ------------------------------------------------------------------ *)
(** ** Rules *)

(** rbacv1.PolicyRule.  A resource may name a subresource, as in "organizations/status". *)
Record PolicyRule := {
  APIGroups : list string;
  Resources : list string;
  Verbs : list string;
  ResourceNames : list string;
}.

(** A marker for one group and one resource. *)
Definition rbac (group resource : string) (verbs : list string) : PolicyRule :=
  {| APIGroups := [group]; Resources := [resource]; Verbs := verbs; ResourceNames := [] |}.

Definition apiGroup : string := "organization.opendatahub.io".
Definition allVerbs : list string := ["get"; "list"; "watch"; "create"; "update"; "patch"; "delete"].
Definition readVerbs : list string := ["get"; "list"; "watch"].

Definition organizationRules : list PolicyRule :=
  [rbac apiGroup "organizations" allVerbs;
   rbac apiGroup "organizations/finalizers" ["update"];
   rbac apiGroup "organizations/status" ["get"; "update"; "patch"];
   rbac apiGroup "organizationprofiles" ["get"; "list"; "watch"; "create"]].

Definition organizationprofileRules : list PolicyRule :=
  [rbac apiGroup "organizationprofiles" allVerbs;
   rbac apiGroup "organizationprofiles/status" ["get"; "update"; "patch"];
   rbac apiGroup "organizationprofiles/finalizers" ["update"]].

Definition organizationprojectRules : list PolicyRule :=
  [rbac apiGroup "organizationprojects" allVerbs;
   rbac apiGroup "organizationprojects/status" ["get"; "update"; "patch"];
   rbac apiGroup "organizations" readVerbs;
   rbac apiGroup "organizationprofiles" readVerbs;
   rbac "" "namespaces" ["get"; "list"; "watch"; "create"; "update"; "patch"];
   rbac "" "namespaces/finalizers" ["update"];
   rbac apiGroup "organizationprojects/finalizers" ["update"];
   rbac "rbac.authorization.k8s.io" "rolebindings" allVerbs;
   {| APIGroups := ["rbac.authorization.k8s.io"]; Resources := ["clusterroles"]; Verbs := ["bind"];
      ResourceNames := ["edit"; "view"] |};
   rbac "networking.k8s.io" "networkpolicies" allVerbs].

Definition maasconfigurationRules : list PolicyRule :=
  [rbac apiGroup "maasconfigurations" allVerbs;
   rbac apiGroup "maasconfigurations/status" ["get"; "update"; "patch"];
   rbac apiGroup "maasconfigurations/finalizers" ["update"];
   rbac apiGroup "organizations" readVerbs;
   rbac apiGroup "organizations/finalizers" ["update"];
   rbac apiGroup "organizationprofiles" readVerbs;
   rbac "maas.opendatahub.io" "aitenants" allVerbs;
   rbac "maas.opendatahub.io" "aitenants/status" ["get"; "watch"];
   rbac "apiextensions.k8s.io" "customresourcedefinitions" readVerbs].

(** The operator runs under one ClusterRole, the union of the markers. *)
Definition managerRole : list PolicyRule :=
  (organizationRules ++ organizationprofileRules ++ organizationprojectRules ++ maasconfigurationRules)%list.

(* ------------------------------------------------------------------ *)
(** ** Evaluation *)

(** authorizer.Attributes of a request; [at_Name] is empty for list, watch and create. *)
Record Attributes := {
  at_APIGroup : string;
  at_Resource : string;
  at_Name : string;
  at_Verb : string;
}.

Definition coversName (r : PolicyRule) (name : string) : Prop :=
  ResourceNames r = [] \/ name ∈ ResourceNames r.
Definition covers (r : PolicyRule) (a : Attributes) : Prop :=
  at_APIGroup a ∈ APIGroups r /\ at_Resource a ∈ Resources r /\ at_Verb a ∈ Verbs r /\
  coversName r (at_Name a).

(** No "*" in a rule. *)
Definition literal (r : PolicyRule) : Prop :=
  "*" ∉ APIGroups r /\ "*" ∉ Resources r /\ "*" ∉ Verbs r.

#[export] Instance coversName_dec r n : Decision (coversName r n).
Proof. unfold coversName. apply _. Defined.
#[export] Instance covers_dec r a : Decision (covers r a).
Proof. unfold covers. apply _. Defined.
#[export] Instance literal_dec r : Decision (literal r).
Proof. unfold literal. apply _. Defined.

Class RBAC `{P : Platform} := {
  Allows : list PolicyRule -> Attributes -> bool;
  forbidden : liberror;
}.

Class RBACLaws `{P : Platform} (A : RBAC) : Prop := {
  (** rules are additive, and each allows what it lists *)
  Allows_covered rules r a : r ∈ rules -> covers r a -> Allows rules a = true;
  (** nothing else is allowed by rules without wildcards *)
  Allows_only rules a :
    Forall literal rules -> Allows rules a = true -> Exists (fun r => covers r a) rules;
  forbidden_not_absent : IsNotFound forbidden = false;
  forbidden_not_unknown : IsNoMatchError forbidden = false;
}.

(** A decidable sufficient condition, for rules that are given. *)
Definition covered (rules : list PolicyRule) (a : Attributes) : bool :=
  existsb (fun r => bool_decide (covers r a)) rules.

Lemma covered_allowed `{P : Platform} `{A : !RBAC} `{!RBACLaws A} rules a :
  covered rules a = true -> Allows rules a = true.
Proof.
  intros (r & Hin & Hr)%existsb_exists. apply bool_decide_eq_true in Hr.
  eapply Allows_covered; [by apply list_elem_of_In|done].
Qed.

(* ------------------------------------------------------------------ *)
(** ** The cluster behind a role *)

Section guard.
  Context `{P : Platform} `{A : !RBAC}.
  Context (rules : list PolicyRule).

Definition can (group resource name : string) (verbs : list string) : bool :=
  forallb (fun v => Allows rules {| at_APIGroup := group; at_Resource := resource;
                                    at_Name := name; at_Verb := v |}) verbs.

(** The calls on one resource.  Reads go through the manager's cache, which lists and
    watches; CreateOrUpdate reads, then creates or updates, and is refused here unless it
    may do all of it. *)
Definition guardClient {W K T} (group resource : string) (nameOfKey : K -> string)
    (nameOf : T -> string) (c : TypedClient W K T) : TypedClient W K T := {|
  Get k w := if can group resource (nameOfKey k) readVerbs then Get c k w else (inl forbidden, w);
  List w := if can group resource "" readVerbs then List c w else (inl forbidden, w);
  Create o w := if can group resource "" ["create"] then Create c o w else (inl forbidden, w);
  Update o w := if can group resource (nameOf o) ["update"] then Update c o w else (inl forbidden, w);
  Delete o w := if can group resource (nameOf o) ["delete"] then Delete c o w else (Some forbidden, w);
  CreateOrUpdate o f w :=
    if can group resource (nameOf o) (readVerbs ++ ["update"])%list && can group resource "" ["create"]
    then CreateOrUpdate c o f w else (Err (ELib forbidden), w);
|}.

(** Writing a role binding takes the right to bind the role it refers to. *)
Definition bindable (r : RoleRef) : bool :=
  can (rr_APIGroup r) (if decide (rr_Kind r = "ClusterRole") then "clusterroles" else "roles")
    (rr_Name r) ["bind"].

Definition guardBindings {W} (c : TypedClient W (string * string) RoleBinding)
    : TypedClient W (string * string) RoleBinding := {|
  Get := Get c;
  List := List c;
  Create o w := if bindable (rb_RoleRef o) then Create c o w else (inl forbidden, w);
  Update o w := if bindable (rb_RoleRef o) then Update c o w else (inl forbidden, w);
  Delete := Delete c;
  CreateOrUpdate o f :=
    CreateOrUpdate c o
      (fun o0 => let? o1 := f o0 in
                 if bindable (rb_RoleRef o1) then Ret o1 else Err (ELib forbidden));
|}.

Definition guardedCluster (C : Cluster) : Cluster := {|
  world := @world _ C;
  organizations := guardClient apiGroup "organizations" id (fun o => Name (organization_meta o)) (@organizations _ C);
  profiles := guardClient apiGroup "organizationprofiles" id (fun o => Name (profile_meta o)) (@profiles _ C);
  projects := guardClient apiGroup "organizationprojects" id (fun o => Name (project_meta o)) (@projects _ C);
  maasconfigurations := guardClient apiGroup "maasconfigurations" id (fun o => Name (maas_meta o)) (@maasconfigurations _ C);
  namespaces := guardClient "" "namespaces" id (fun o => Name (ns_meta o)) (@namespaces _ C);
  rolebindings := guardBindings (guardClient "rbac.authorization.k8s.io" "rolebindings" snd (fun o => Name (rb_meta o)) (@rolebindings _ C));
  networkpolicies := guardClient "networking.k8s.io" "networkpolicies" snd (fun o => Name (np_meta o)) (@networkpolicies _ C);
  unstructureds := guardClient "maas.opendatahub.io" "aitenants" snd (fun o => Name (u_meta o)) (@unstructureds _ C);
  HasCRD g w := if can "apiextensions.k8s.io" "customresourcedefinitions" "" readVerbs
                then @HasCRD _ C g w else (inl forbidden, w);
|}.
End guard.
