(* ===== verification/RbacTheorems.v ===== *)
(** The permissions beside each controller are enough for everything it asks of the API
    server, and what the operator as a whole can never do with its role. *)

From stdpp Require Import gmap strings list.
From Stdlib Require Import FunctionalExtensionality.
From S2P Require Import Prelude Platform Api Cluster Fake Authz Webhooks Framework OrganizationCtl.
From S2P Require Import ProjectCtl NetPol MaaS Rbac.

Local Open Scope string_scope.

(* ------------------------------------------------------------------ *)
(** ** Calls that pass the guard *)

Section guard.
  Context `{P : Platform} `{A : !RBAC} `{AL : !RBACLaws A}.

(** The calls that are known to be allowed, whatever the name, are the original ones. *)
Definition passing {W K T} rules group resource kf nf (c : TypedClient W K T)
    (reads creates updates deletes : bool) : TypedClient W K T :=
  let g := guardClient rules group resource kf nf c in {|
    Get := if reads then Get c else Get g;
    List := if reads then List c else List g;
    Create := if creates then Create c else Create g;
    Update := if updates then Update c else Update g;
    Delete := if deletes then Delete c else Delete g;
    CreateOrUpdate := if reads && creates && updates then CreateOrUpdate c else CreateOrUpdate g;
  |}.

Lemma can_covered rules group resource name verbs :
  forallb (fun v => covered rules {| at_APIGroup := group; at_Resource := resource;
                                     at_Name := name; at_Verb := v |}) verbs = true ->
  can rules group resource name verbs = true.
Proof.
  unfold can. rewrite !forallb_forall. intros H v Hv. by apply covered_allowed, H.
Qed.

Lemma can_app rules group resource name vs vs' :
  can rules group resource name vs = true -> can rules group resource name vs' = true ->
  can rules group resource name (vs ++ vs')%list = true.
Proof. unfold can. intros H H'. by rewrite forallb_app, H, H'. Qed.

Lemma guardClient_passing {W K T} rules group resource kf nf (c : TypedClient W K T)
    (reads creates updates deletes : bool) :
  (reads = true -> forall n, can rules group resource n readVerbs = true) ->
  (creates = true -> can rules group resource "" ["create"] = true) ->
  (updates = true -> forall n, can rules group resource n ["update"] = true) ->
  (deletes = true -> forall n, can rules group resource n ["delete"] = true) ->
  guardClient rules group resource kf nf c =
  passing rules group resource kf nf c reads creates updates deletes.
Proof.
  intros Hr Hc Hu Hd. unfold passing, guardClient. f_equal.
  - destruct reads; [|done]. extensionality k. extensionality w. by rewrite Hr.
  - destruct reads; [|done]. extensionality w. by rewrite Hr.
  - destruct creates; [|done]. extensionality o. extensionality w. by rewrite Hc.
  - destruct updates; [|done]. extensionality o. extensionality w. by rewrite Hu.
  - destruct deletes; [|done]. extensionality o. extensionality w. by rewrite Hd.
  - destruct (reads && creates && updates) eqn:E; [|done].
    apply andb_true_iff in E as [[-> ->]%andb_true_iff ->].
    extensionality o. extensionality f. extensionality w.
    rewrite (can_app rules group resource (nf o) readVerbs ["update"]) by auto.
    by rewrite Hc.
Qed.

(** The right to bind is asked for the two roles of a project only. *)
Lemma mutateBinding_bindable rules ns role subjects :
  can rules rbacGroupName "clusterroles" role ["bind"] = true ->
  (fun rb => let? rb1 := mutateBinding ns role subjects rb in
             if bindable rules (rb_RoleRef rb1) then Ret rb1 else Err (ELib forbidden)) =
  mutateBinding ns role subjects.
Proof.
  intros Hcan. extensionality rb. unfold mutateBinding.
  destruct (libErr _) as [meta|e|]; [|done..]. cbn [obind].
  match goal with |- context [bindable rules ?r] =>
    change (bindable rules r) with (can rules rbacGroupName "clusterroles" role ["bind"]) end.
  by rewrite Hcan.
Qed.
End guard.

(* ------------------------------------------------------------------ *)
(** ** The controllers and the webhooks behind their roles *)

(** What the framework asks for a registered controller: to read the kind it is for, the
    kinds it owns and those it watches, and to write the status of the first, and its
    finalizers when it has one of its own. *)
Definition resourceOf (kind : string) : string * string :=
  if decide (kind = "Namespace") then ("", "namespaces")
  else if decide (kind = "AITenant") then ("maas.opendatahub.io", "aitenants")
  else (apiGroup, if decide (kind = "Organization") then "organizations"
                  else if decide (kind = "OrganizationProfile") then "organizationprofiles"
                  else if decide (kind = "OrganizationProject") then "organizationprojects"
                  else "maasconfigurations").

Section roles.
  Context `{P : Platform} `{A : !RBAC} `{AL : !RBACLaws A} `{C : !Cluster}.

Definition serves {I X} (rules : list PolicyRule) (rc : ReconcilerConfig I X) : Prop :=
  (forall kind, kind ∈ rc_For rc :: (rc_Owns rc ++ map gvk_Kind (rc_WatchesGVK rc))%list ->
     let (group, resource) := resourceOf kind in can rules group resource "" readVerbs = true) /\
  (forall name, let (group, resource) := resourceOf (rc_For rc) in
     can rules group (resource +:+ "/status") name ["update"; "patch"] = true /\
     (rc_FinalizerName rc <> None -> can rules group resource name ["update"] = true)).

Ltac by_rule := intros; apply can_covered; vm_compute; reflexivity.

(** The guard of a resource of which the given verbs are allowed. *)
Ltac open_guard client r c u d :=
  rewrite (guardClient_passing _ _ _ _ _ client r c u d); [|by_rule || discriminate..].

Lemma organization_role :
  rc_Actions (NewOrganizationReconciler (C := guardedCluster organizationRules C)) =
  rc_Actions (NewOrganizationReconciler (C := C)).
Proof.
  unfold guardedCluster. open_guard (organizations) true true true true.
  open_guard (profiles) true true false false. reflexivity.
Qed.

Lemma maas_role :
  rc_Actions (NewMaaSConfigurationReconciler (C := guardedCluster maasconfigurationRules C)) =
  rc_Actions (NewMaaSConfigurationReconciler (C := C)).
Proof.
  unfold guardedCluster. open_guard (organizations) true false false false.
  open_guard (profiles) true false false false. open_guard (maasconfigurations) true true true true.
  open_guard (unstructureds) true true true true.
  rewrite (can_covered maasconfigurationRules) by (vm_compute; reflexivity). reflexivity.
Qed.
Lemma ensureBinding_role project ns role :
  role ∈ ["edit"; "view"] ->
  ensureBinding (C := guardedCluster organizationprojectRules C) project ns role =
  ensureBinding (C := C) project ns role.
Proof.
  intros Hrole. unfold guardedCluster. open_guard (rolebindings) true true true true.
  unfold ensureBinding. destruct (decide _); [reflexivity|].
  rewrite <- (mutateBinding_bindable organizationprojectRules ns role) at 2; [reflexivity|].
  apply list_elem_of_In in Hrole as [<-|[<-|[]]]; by_rule.
Qed.

Lemma project_role :
  rc_Actions (NewOrganizationProjectReconciler (C := guardedCluster organizationprojectRules C)) =
  rc_Actions (NewOrganizationProjectReconciler (C := C)).
Proof.
  assert (ensureRBAC (C := guardedCluster organizationprojectRules C) = ensureRBAC (C := C)) as Hrbac.
  { unfold ensureRBAC. refine (f_equal (bind (instance (C := C))) _). extensionality project.
    refine (f_equal (bind (stateFor (C := C))) _). extensionality state. destruct (st_namespace _) as [ns|]; [|reflexivity].
    cbn [range]. refine (f_equal2 bind (ensureBinding_role project ns "edit" ltac:(set_solver)) _).
    extensionality u. by refine (f_equal2 bind (ensureBinding_role project ns "view" ltac:(set_solver)) _). }
  cbn [rc_Actions NewOrganizationProjectReconciler]. rewrite Hrbac.
  unfold guardedCluster. open_guard (organizations) true false false false.
  open_guard (profiles) true false false false. open_guard (namespaces) true true true false.
  open_guard (networkpolicies) true true true true. reflexivity.
Qed.
Lemma webhooks_role (a : authorizer) ctx :
  (forall o, OrganizationWebhook.ValidateCreate (C := guardedCluster managerRole C) a ctx o =
             OrganizationWebhook.ValidateCreate (C := C) a ctx o) /\
  (forall o o', OrganizationWebhook.ValidateUpdate (C := guardedCluster managerRole C) a ctx o o' =
                OrganizationWebhook.ValidateUpdate (C := C) a ctx o o') /\
  (forall o, OrganizationProfileWebhook.ValidateCreate (C := guardedCluster managerRole C) a ctx o =
             OrganizationProfileWebhook.ValidateCreate (C := C) a ctx o) /\
  (forall o o', OrganizationProfileWebhook.ValidateUpdate (C := guardedCluster managerRole C) a ctx o o' =
                OrganizationProfileWebhook.ValidateUpdate (C := C) a ctx o o') /\
  (forall o, OrganizationProjectWebhook.ValidateCreate (C := guardedCluster managerRole C) a ctx o =
             OrganizationProjectWebhook.ValidateCreate (C := C) a ctx o) /\
  (forall o o', OrganizationProjectWebhook.ValidateUpdate (C := guardedCluster managerRole C) a ctx o o' =
                OrganizationProjectWebhook.ValidateUpdate (C := C) a ctx o o') /\
  (forall o, MaaSConfigurationWebhook.ValidateCreate (C := guardedCluster managerRole C) a ctx o =
             MaaSConfigurationWebhook.ValidateCreate (C := C) a ctx o) /\
  (forall o o', MaaSConfigurationWebhook.ValidateUpdate (C := guardedCluster managerRole C) a ctx o o' =
                MaaSConfigurationWebhook.ValidateUpdate (C := C) a ctx o o') /\
  (forall o, MaaSConfigurationWebhook.ValidateDelete (C := guardedCluster managerRole C) a ctx o =
             MaaSConfigurationWebhook.ValidateDelete (C := C) a ctx o).
Proof.
  unfold guardedCluster. open_guard (organizations) true true true true.
  open_guard (profiles) true true true true. open_guard (projects) true true true true.
  open_guard (maasconfigurations) true true true true. split_and!; reflexivity.
Qed.

Ltac serves_by_rule :=
  split; [intros kind Hkind; apply list_elem_of_In in Hkind; cbn in Hkind;
          repeat destruct Hkind as [<-|Hkind]; try contradiction; by_rule
         |intros name; split; by_rule].

(** C26: the markers beside each controller grant what the controller needs.  Behind a
    role with just those rules, the actions of the three controllers that have some
    are the same functions as on an unguarded client, so no call is ever refused
    (binding the two project roles included); what the framework asks for each
    registration is granted too; and under the operator's whole role the same holds
    for the webhooks' reads. *)
Theorem roles_suffice :
  (rc_Actions (NewOrganizationReconciler (C := guardedCluster organizationRules C)) =
     rc_Actions (NewOrganizationReconciler (C := C)) /\
   rc_Actions (NewOrganizationProjectReconciler (C := guardedCluster organizationprojectRules C)) =
     rc_Actions (NewOrganizationProjectReconciler (C := C)) /\
   rc_Actions (NewMaaSConfigurationReconciler (C := guardedCluster maasconfigurationRules C)) =
     rc_Actions (NewMaaSConfigurationReconciler (C := C))) /\
  (serves organizationRules NewOrganizationReconciler /\
   serves organizationprofileRules NewOrganizationProfileReconciler /\
   serves organizationprojectRules NewOrganizationProjectReconciler /\
   serves maasconfigurationRules NewMaaSConfigurationReconciler) /\
  forall (a : authorizer) ctx,
    (forall o, OrganizationWebhook.ValidateCreate (C := guardedCluster managerRole C) a ctx o =
               OrganizationWebhook.ValidateCreate (C := C) a ctx o) /\
    (forall o, OrganizationProfileWebhook.ValidateCreate (C := guardedCluster managerRole C) a ctx o =
               OrganizationProfileWebhook.ValidateCreate (C := C) a ctx o) /\
    (forall o, OrganizationProjectWebhook.ValidateCreate (C := guardedCluster managerRole C) a ctx o =
               OrganizationProjectWebhook.ValidateCreate (C := C) a ctx o) /\
    (forall o, MaaSConfigurationWebhook.ValidateCreate (C := guardedCluster managerRole C) a ctx o =
               MaaSConfigurationWebhook.ValidateCreate (C := C) a ctx o).
Proof.
  split; [|split].
  - split; [apply organization_role|split; [apply project_role|apply maas_role]].
  - split; [|split; [|split]]; serves_by_rule.
  - intros a ctx. destruct (webhooks_role a ctx) as (H1 & _ & H3 & _ & H5 & _ & H7 & _). done.
Qed.

(** What no rule of the role lets the operator do. *)
Definition restrained (r : PolicyRule) : Prop :=
  ("namespaces" ∈ Resources r -> "delete" ∉ Verbs r) /\
  ("bind" ∈ Verbs r -> Resources r = ["clusterroles"] /\ ResourceNames r = ["edit"; "view"]) /\
  ("clusterroles" ∈ Resources r \/ "customresourcedefinitions" ∈ Resources r ->
     Forall (fun v => v ∈ ["get"; "list"; "watch"; "bind"]) (Verbs r)) /\
  Forall (fun v => v ∉ ["escalate"; "impersonate"; "deletecollection"]) (Verbs r).

(** The limits of the operator's role, whatever its code does: it cannot delete a
    namespace, binds no cluster role but edit and view, changes no cluster role and no
    custom resource definition, and neither impersonates nor escalates. *)
Theorem role_limits (r : Attributes) :
  Allows managerRole r = true ->
  (at_Resource r = "namespaces" -> at_Verb r <> "delete") /\
  (at_Verb r = "bind" -> at_Resource r = "clusterroles" /\ at_Name r ∈ ["edit"; "view"]) /\
  (at_Resource r ∈ ["clusterroles"; "customresourcedefinitions"] ->
     at_Verb r ∈ ["get"; "list"; "watch"; "bind"]) /\
  at_Verb r ∉ ["escalate"; "impersonate"; "deletecollection"].
Proof.
  intros Hallow. assert (Forall literal managerRole /\ Forall restrained managerRole) as [Hlit Hres].
  { apply (bool_decide_unpack _). vm_compute. exact I. }
  apply (Allows_only _ _ Hlit), Exists_exists in Hallow as (rule & Hin & _ & Hr & Hv & Hn).
  rewrite Forall_forall in Hres. destruct (Hres rule Hin) as (H1 & H2 & H3 & H4).
  rewrite Forall_forall in H4. split_and!; [| | |by apply H4].
  - intros E E'. rewrite E in Hr. rewrite E' in Hv. by apply H1.
  - intros E. rewrite E in Hv. destruct (H2 Hv) as [HR HN]. rewrite HR in Hr.
    apply list_elem_of_singleton in Hr. split; [done|].
    destruct Hn as [Hn|Hn]; [by rewrite HN in Hn|by rewrite HN in Hn].
  - intros E. assert ("clusterroles" ∈ Resources rule \/ "customresourcedefinitions" ∈ Resources rule) as Hor.
    { apply list_elem_of_In in E as [E|[E|[]]]; rewrite E; auto. }
    apply H3 in Hor. rewrite Forall_forall in Hor. by apply Hor.
Qed.
End roles.

(* ------------------------------------------------------------------ *)
(** ** An evaluation of rules that satisfies the laws *)

Section runs.
Import FakeInstances.

#[local] Instance literalRBAC : RBAC := {| Allows := covered; forbidden := FForbidden |}.

#[local] Instance literalRBAC_laws : RBACLaws literalRBAC.
Proof.
  constructor; [|intros rules a _ Hc|done|done].
  - intros rules r a Hin Hr. apply existsb_exists. exists r.
    split; [by apply list_elem_of_In|by apply bool_decide_eq_true].
  - apply existsb_exists in Hc as (r & Hin & Hr). apply Exists_exists. exists r.
    split; [by apply list_elem_of_In|by apply bool_decide_eq_true in Hr].
Qed.

(** The project controller's actions on the example cluster, behind its role. *)
Lemma roles_suffice_witness :
  rc_Actions (NewOrganizationProjectReconciler (C := guardedCluster organizationprojectRules FakeCluster)) =
  rc_Actions (NewOrganizationProjectReconciler (C := FakeCluster)).
Proof. exact (proj1 (proj2 (proj1 (roles_suffice (C := FakeCluster))))). Defined.

Definition bindEdit : Attributes :=
  {| at_APIGroup := "rbac.authorization.k8s.io"; at_Resource := "clusterroles"; at_Name := "edit";
     at_Verb := "bind" |}.

Lemma role_limits_witness : at_Name bindEdit ∈ ["edit"; "view"].
Proof.
  destruct (role_limits bindEdit) as (_ & Hbind & _); [vm_compute; reflexivity|].
  apply Hbind. reflexivity.
Defined.
End runs.
