(* ===== verification/AdmissionChain.v ===== *)
(** Validating admission as the API server performs it: the kubebuilder:webhook markers
    beside the validators (config/webhook/manifests.yaml is generated from them), the paths
    the validators are served under, and the cluster as a client sees it whose writes go
    through them.

    The API server and the webhook server of controller-runtime are [AdmissionServer];
    [AdmissionLaws] says when a webhook is called and what its answer does. *)

From stdpp Require Import gmap strings list.
From Stdlib Require Import ZArith Ascii.
From S2P Require Import Prelude Platform Api Cluster Authz Webhooks Framework OrganizationCtl Manager.

Local Open Scope string_scope.

(* ------------------------------------------------------------------ *)
(** ** The markers *)

Record WebhookConfiguration := {
  wc_path : string;
  wc_mutating : bool;
  wc_failurePolicy : string;
  wc_groups : list string;
  wc_resources : list string;
  wc_verbs : list string;
  wc_versions : list string;
  wc_name : string;
}.

Definition organizationMarker : WebhookConfiguration :=
  {| wc_path := "/validate-organization-opendatahub-io-v1alpha1-organization"; wc_mutating := false;
     wc_failurePolicy := "fail"; wc_groups := ["organization.opendatahub.io"];
     wc_resources := ["organizations"]; wc_verbs := ["create"; "update"]; wc_versions := ["v1alpha1"];
     wc_name := "vorganization-v1alpha1.kb.io" |}.
Definition organizationprofileMarker : WebhookConfiguration :=
  {| wc_path := "/validate-organization-opendatahub-io-v1alpha1-organizationprofile"; wc_mutating := false;
     wc_failurePolicy := "fail"; wc_groups := ["organization.opendatahub.io"];
     wc_resources := ["organizationprofiles"]; wc_verbs := ["create"; "update"]; wc_versions := ["v1alpha1"];
     wc_name := "vorganizationprofile-v1alpha1.kb.io" |}.
Definition organizationprojectMarker : WebhookConfiguration :=
  {| wc_path := "/validate-organization-opendatahub-io-v1alpha1-organizationproject"; wc_mutating := false;
     wc_failurePolicy := "fail"; wc_groups := ["organization.opendatahub.io"];
     wc_resources := ["organizationprojects"]; wc_verbs := ["create"; "update"]; wc_versions := ["v1alpha1"];
     wc_name := "vorganizationproject-v1alpha1.kb.io" |}.
Definition maasconfigurationMarker : WebhookConfiguration :=
  {| wc_path := "/validate-organization-opendatahub-io-v1alpha1-maasconfiguration"; wc_mutating := false;
     wc_failurePolicy := "fail"; wc_groups := ["organization.opendatahub.io"];
     wc_resources := ["maasconfigurations"]; wc_verbs := ["create"; "update"; "delete"];
     wc_versions := ["v1alpha1"]; wc_name := "vmaasconfiguration-v1alpha1.kb.io" |}.

(** The generated configuration lists them by path. *)
Definition webhookConfigurations : list WebhookConfiguration :=
  [maasconfigurationMarker; organizationMarker; organizationprofileMarker; organizationprojectMarker].

(* ------------------------------------------------------------------ *)
(** ** Reviews *)

Record ReviewAttributes := {
  rv_Group : string; rv_Version : string; rv_Resource : string; rv_Verb : string }.

Definition calledFor (r : ReviewAttributes) (c : WebhookConfiguration) : bool :=
  slices_Contains (wc_groups c) (rv_Group r) && slices_Contains (wc_versions c) (rv_Version r) &&
  slices_Contains (wc_resources c) (rv_Resource r) && slices_Contains (wc_verbs c) (rv_Verb r).

(** strings.ToLower on ASCII and strings.ReplaceAll of one byte. *)
Definition lowerAscii (c : ascii) : ascii :=
  let n := nat_of_ascii c in
  if ((65 <=? n) && (n <=? 90))%nat then ascii_of_nat (n + 32) else c.
Fixpoint mapString (f : ascii -> ascii) (s : string) : string :=
  match s with EmptyString => EmptyString | String c s' => String (f c) (mapString f s') end.
Definition ToLower : string -> string := mapString lowerAscii.
Definition ReplaceByte (old new : ascii) : string -> string :=
  mapString (fun c => if decide (c = old) then new else c).

Section chain.
  Context `{P : Platform} `{C : !Cluster}.

(** The validator of a kind, as the admission chain calls it. *)
Record Validator (T : Type) := {
  v_create : context -> T -> GoM world error Warnings;
  v_update : context -> T -> T -> GoM world error Warnings;
  v_delete : context -> T -> GoM world error Warnings;
}.

Definition organizationValidator (a : authorizer) : Validator Organization :=
  {| v_create := OrganizationWebhook.ValidateCreate a;
     v_update := OrganizationWebhook.ValidateUpdate a;
     v_delete := OrganizationWebhook.ValidateDelete a |}.
Definition profileValidator (a : authorizer) : Validator OrganizationProfile :=
  {| v_create := OrganizationProfileWebhook.ValidateCreate a;
     v_update := OrganizationProfileWebhook.ValidateUpdate a;
     v_delete := OrganizationProfileWebhook.ValidateDelete a |}.
Definition projectValidator (a : authorizer) : Validator OrganizationProject :=
  {| v_create := OrganizationProjectWebhook.ValidateCreate a;
     v_update := OrganizationProjectWebhook.ValidateUpdate a;
     v_delete := OrganizationProjectWebhook.ValidateDelete a |}.
Definition maasValidator (a : authorizer) : Validator MaaSConfiguration :=
  {| v_create := MaaSConfigurationWebhook.ValidateCreate a;
     v_update := MaaSConfigurationWebhook.ValidateUpdate a;
     v_delete := MaaSConfigurationWebhook.ValidateDelete a |}.

(** A request under review. *)
Inductive Operation (T : Type) :=
| OpCreate (obj : T)
| OpUpdate (oldObj newObj : T)
| OpDelete (oldObj : T).
Arguments OpCreate {T}.
Arguments OpUpdate {T}.
Arguments OpDelete {T}.

Definition verbOf {T} (op : Operation T) : string :=
  match op with OpCreate _ => "create" | OpUpdate _ _ => "update" | OpDelete _ => "delete" end.

Definition validateOp {T} (v : Validator T) (ctx : context) (op : Operation T) : GoM world error Warnings :=
  match op with
  | OpCreate obj => v_create T v ctx obj
  | OpUpdate old new => v_update T v ctx old new
  | OpDelete old => v_delete T v ctx old
  end.

Class AdmissionServer := {
  (** the error a client gets for a denied request *)
  denied : liberror;
  (** the path under which controller-runtime serves the validator of a kind *)
  validatePath : GroupVersionKind -> string;
  (** calls the configured webhooks at the paths that are served; [None] admits *)
  callWebhooks : list WebhookConfiguration -> ReviewAttributes ->
    (string -> option (GoM world error Warnings)) -> world -> option liberror * world;
}.

(** The answer of a validator, as the client gets it.  A panic is a failed call. *)
Definition answer `{!AdmissionServer} (m : GoM world error Warnings) (w : world) : option liberror * world :=
  match m w with
  | (Ret _, w') => (None, w')
  | (_, w') => (Some denied, w')
  end.

Class AdmissionLaws (S : AdmissionServer) : Prop := {
  denied_not_absent : IsNotFound denied = false;
  validatePath_spec g : validatePath g =
    "/validate-" +:+ ReplaceByte "." "-" (gvk_Group g) +:+ "-" +:+ gvk_Version g +:+ "-" +:+ ToLower (gvk_Kind g);
  (** a request that no configuration lists is not reviewed *)
  callWebhooks_none cs r h w :
    List.filter (calledFor r) cs = [] -> callWebhooks cs r h w = (None, w);
  (** the one that lists it decides; if its path is not served its failure policy does *)
  callWebhooks_one cs r c h w :
    List.filter (calledFor r) cs = [c] ->
    callWebhooks cs r h w =
    match h (wc_path c) with
    | Some m => answer m w
    | None => if decide (wc_failurePolicy c = "fail") then (Some denied, w) else (None, w)
    end;
}.

(** A kind the operator serves. *)
Record ServedKind (T : Type) := {
  sk_kind : string;
  sk_resource : string;
  sk_validator : authorizer -> Validator T;
}.

Definition servedOrganization : ServedKind Organization :=
  {| sk_kind := "Organization"; sk_resource := "organizations"; sk_validator := organizationValidator |}.
Definition servedProfile : ServedKind OrganizationProfile :=
  {| sk_kind := "OrganizationProfile"; sk_resource := "organizationprofiles"; sk_validator := profileValidator |}.
Definition servedProject : ServedKind OrganizationProject :=
  {| sk_kind := "OrganizationProject"; sk_resource := "organizationprojects"; sk_validator := projectValidator |}.
Definition servedMaaS : ServedKind MaaSConfiguration :=
  {| sk_kind := "MaaSConfiguration"; sk_resource := "maasconfigurations"; sk_validator := maasValidator |}.

(** The webhooks among the requests to the manager. *)
Definition registrations (ops : list Op) : list (string * authorizer) :=
  omap (fun op => match op with CompleteWebhook kind a => Some (kind, a) | _ => None end) ops.

(** A manager that grants every request and keeps a record of them. *)
Definition recorder : ManagerRuntime := {| manager := list Op; perform op ops := (None, (ops ++ [op])%list) |}.

(** What a running operator serves: the webhooks that [main] has registered. *)
Definition servedBy (getenv : string -> string) (f : Flags) : list (string * authorizer) :=
  registrations (snd (main (M := recorder) getenv f [])).

Lemma range_recorded ops (m : list Op) :
  snd (range ops (orExit (M := recorder)) m) = (m ++ ops)%list.
Proof.
  revert m. induction ops as [|op ops IH]; intros m; simpl; [by rewrite app_nil_r|].
  unfold bind at 1, orExit at 1, bind, call. simpl. etrans; [apply IH|]. by rewrite <- app_assoc.
Qed.

Lemma servedBy_plan getenv f : servedBy getenv f = registrations (webhookPlan getenv).
Proof.
  unfold servedBy. rewrite (main_range (M := recorder)).
  etrans; [exact (f_equal registrations (range_recorded _ []))|]. unfold wiringPlan, webhookPlan.
  by destruct (decide (getenv "ENABLE_WEBHOOKS" = "false")).
Qed.

Context `{S : !AdmissionServer}.

(** The handler at a path: the validator registered for the kind of that path.  An object
    of another kind cannot be decoded. *)
Definition handlerAt {T} (regs : list (string * authorizer)) (sk : ServedKind T) (ctx : context)
    (op : Operation T) (path : string) : option (GoM world error Warnings) :=
  match List.find (fun r => bool_decide (validatePath (apiKind (fst r)) = path)) regs with
  | Some (kind, a) =>
      Some (if decide (kind = sk_kind T sk) then validateOp (sk_validator T sk a) ctx op
            else fail (Errorf (Sprintf "unable to decode" [])))
  | None => None
  end.

Definition review {T} (regs : list (string * authorizer)) (sk : ServedKind T) (ctx : context)
    (op : Operation T) : world -> option liberror * world :=
  callWebhooks webhookConfigurations
    {| rv_Group := gvk_Group (apiKind (sk_kind T sk)); rv_Version := gvk_Version (apiKind (sk_kind T sk));
       rv_Resource := sk_resource T sk; rv_Verb := verbOf op |}
    (handlerAt regs sk ctx op).
End chain.
Arguments Validator {P C}.
Arguments OpCreate {T}.
Arguments OpUpdate {T}.
Arguments OpDelete {T}.
Arguments sk_kind {P C T}.
Arguments sk_resource {P C T}.
Arguments sk_validator {P C T}.

(* ------------------------------------------------------------------ *)
(** ** The cluster behind the webhooks *)

Section admitted.
  Context `{P : Platform} `{C : !Cluster} `{L : !LawfulCluster C} `{S : !AdmissionServer}.
  Context (regs : list (string * authorizer)) (ctx : context).

(** A write that the review of [op] comes before. *)
Definition reviewed {T A} (sk : ServedKind T) (op : Operation T) (refused : liberror -> A)
    (write : world -> A * world) (w : world) : A * world :=
  match review regs sk ctx op w with
  | (Some e, w') => (refused e, w')
  | (None, w') => write w'
  end.

(** The client of a kind.  An update or deletion is reviewed with the stored object; one
    of an object that is not stored fails before any review. *)
Definition admittedClient {T} (sk : ServedKind T) (kd : Kind string T)
    (c : TypedClient world string T) : TypedClient world string T := {|
  Get := Get c;
  List := List c;
  Create o := reviewed sk (OpCreate o) inl (Create c o);
  Update o w := match ksel kd (view w) !! kkey kd o with
                | Some old => reviewed sk (OpUpdate old o) inl (Update c o) w
                | None => Update c o w
                end;
  Delete o w := match ksel kd (view w) !! kkey kd o with
                | Some old => reviewed sk (OpDelete old) Some (Delete c o) w
                | None => Delete c o w
                end;
  CreateOrUpdate o f w :=
    match f (default o (ksel kd (view w) !! kkey kd o)) with
    | Ret o1 =>
        reviewed sk (match ksel kd (view w) !! kkey kd o with
                     | Some old => OpUpdate old o1
                     | None => OpCreate o1
                     end) (fun e => Err (ELib e)) (CreateOrUpdate c o f) w
    | _ => CreateOrUpdate c o f w
    end;
|}.

Definition admittedCluster : Cluster := {|
  world := world;
  organizations := admittedClient servedOrganization organizationKind organizations;
  profiles := admittedClient servedProfile profileKind profiles;
  projects := admittedClient servedProject projectKind projects;
  maasconfigurations := admittedClient servedMaaS maasKind maasconfigurations;
  namespaces := namespaces;
  rolebindings := rolebindings;
  networkpolicies := networkpolicies;
  unstructureds := unstructureds;
  HasCRD := HasCRD;
|}.
End admitted.
