(* ===== verification/ChainTheorems.v ===== *)
(** What the markers and the served paths amount to, and the operator as a client of its
    own webhooks. *)

From stdpp Require Import gmap strings list.
From Stdlib Require Import ZArith Ascii FunctionalExtensionality.
From S2P Require Import Prelude Platform Api Cluster Fake Authz Webhooks Framework OrganizationCtl.
From S2P Require Import ProjectCtl NetPol Manager AdmissionChain.

Local Open Scope string_scope.

(* ------------------------------------------------------------------ *)
(** ** Dispatch *)

Section dispatch.
  Context `{P : Platform} `{C : !Cluster} `{L : !LawfulCluster C}.
  Context `{S : !AdmissionServer} `{SL : !AdmissionLaws S}.

(** The configurations that list a request. *)
Definition called {T} (sk : ServedKind T) (op : Operation T) : list WebhookConfiguration :=
  List.filter (calledFor {| rv_Group := gvk_Group (apiKind (sk_kind sk));
                            rv_Version := gvk_Version (apiKind (sk_kind sk));
                            rv_Resource := sk_resource sk; rv_Verb := verbOf op |}) webhookConfigurations.

(** The markers of a kind agree with its validator: one configuration, closed on failure,
    at the path of the kind, for every operation the validator can refuse; and the
    validator only reads. *)
Record governed {T} (sk : ServedKind T) : Prop := {
  gv_called op :
    (exists c, called sk op = [c] /\ wc_failurePolicy c = "fail" /\ wc_path c = validatePath (apiKind (sk_kind sk))) \/
    called sk op = [] /\ forall a ctx, validateOp (sk_validator sk a) ctx op = ret None;
  gv_served getenv : getenv "ENABLE_WEBHOOKS" <> "false" ->
    List.find (fun r => bool_decide (validatePath (apiKind (fst r)) = validatePath (apiKind (sk_kind sk))))
      (registrations (webhookPlan getenv)) = Some (sk_kind sk, newAuthorizer getenv);
  gv_reads a ctx op w : view (snd (validateOp (sk_validator sk a) ctx op w)) = view w;
}.

Lemma answer_view m w : view (snd (m w)) = view w -> view (snd (answer m w)) = view w.
Proof. unfold answer. by destruct (m w) as [[] ?]. Qed.

Lemma review_view {T} (sk : ServedKind T) regs ctx op w :
  governed sk -> view (snd (review regs sk ctx op w)) = view w.
Proof.
  intros Hg. unfold review. destruct (gv_called _ Hg op) as [(c & Hc & Hf & _)|[Hc _]].
  - rewrite (callWebhooks_one _ _ c) by exact Hc. unfold handlerAt.
    destruct (List.find _ regs) as [[kind a]|]; [|by rewrite decide_True].
    apply answer_view. case_decide; [apply (gv_reads _ Hg)|done].
  - by rewrite callWebhooks_none by exact Hc.
Qed.

(** With the webhooks enabled, the answer to every request is the validator's. *)
Lemma review_enabled {T} (sk : ServedKind T) getenv f ctx op w :
  governed sk -> getenv "ENABLE_WEBHOOKS" <> "false" ->
  review (servedBy getenv f) sk ctx op w =
  answer (validateOp (sk_validator sk (newAuthorizer getenv)) ctx op) w.
Proof.
  intros Hg Hen. rewrite servedBy_plan. unfold review. destruct (gv_called _ Hg op) as [(c & Hc & _ & Hp)|[Hc Hret]].
  - rewrite (callWebhooks_one _ _ c) by exact Hc. unfold handlerAt. rewrite Hp, (gv_served _ Hg) by done.
    by rewrite decide_True.
  - rewrite callWebhooks_none by exact Hc. unfold answer. by rewrite Hret.
Qed.

(** With the webhooks disabled, nothing the validator could refuse is admitted. *)
Lemma review_disabled {T} (sk : ServedKind T) getenv f ctx op w :
  governed sk -> getenv "ENABLE_WEBHOOKS" = "false" ->
  review (servedBy getenv f) sk ctx op w =
  if decide (called sk op = []) then (None, w) else (Some denied, w).
Proof.
  intros Hg Hdis. rewrite servedBy_plan. unfold review, webhookPlan. rewrite decide_True by done.
  destruct (gv_called _ Hg op) as [(c & Hc & Hf & _)|[Hc _]]; rewrite Hc.
  - rewrite (callWebhooks_one _ _ c) by exact Hc. simpl. by rewrite decide_True.
  - by rewrite callWebhooks_none by exact Hc.
Qed.
Lemma checks_view {A} R (m : GoM world error A) w Q : checks R m w Q -> view (snd (m w)) = view w.
Proof. by intros [? _]. Qed.

Ltac govern marker :=
  constructor;
  [ intros [o|o o'|o];
    first [left; exists marker; split; [vm_compute; reflexivity|split; [done|by rewrite validatePath_spec]]
          |right; split; [vm_compute; reflexivity|done]]
  | intros getenv Hen; unfold webhookPlan; rewrite decide_False by done;
    cbn [map registrations omap list_omap List.find fst sk_kind]; rewrite !validatePath_spec; reflexivity
  | intros a ctx [o|o o'|o] w; cbn [validateOp sk_validator v_create v_update v_delete] ].

Lemma organization_governed : governed servedOrganization.
Proof.
  govern organizationMarker; [| |done]; eapply (checks_view False).
  - by apply organization_create_checks.
  - by apply organization_update_checks.
Qed.
Lemma profile_governed : governed servedProfile.
Proof.
  govern organizationprofileMarker; [| |done]; eapply (checks_view False).
  - by apply profile_create_checks.
  - by apply profile_update_checks.
Qed.
Lemma project_governed : governed servedProject.
Proof.
  govern organizationprojectMarker; [| |done]; eapply (checks_view False).
  - by apply project_create_counts.
  - by apply project_update_checks.
Qed.
Lemma maas_governed : governed servedMaaS.
Proof.
  govern maasconfigurationMarker; eapply (checks_view False).
  - by apply maas_create_checks.
  - by apply maas_update_checks.
  - by apply maas_delete_checks.
Qed.
End dispatch.

(* ------------------------------------------------------------------ *)
(** ** The admitted cluster is lawful *)

Section lawful.
  Context `{P : Platform} `{C : !Cluster} `{L : !LawfulCluster C}.
  Context `{S : !AdmissionServer} `{SL : !AdmissionLaws S}.
  Context (regs : list (string * authorizer)) (ctx : context).

Lemma review_denied {T} (sk : ServedKind T) op w e w' :
  governed sk -> review regs sk ctx op w = (Some e, w') -> e = denied.
Proof.
  intros Hg. unfold review. destruct (gv_called _ Hg op) as [(c & Hc & Hf & _)|[Hc _]].
  - rewrite (callWebhooks_one _ _ c) by exact Hc. destruct (handlerAt _ _ _ _ _) as [m|].
    + unfold answer. destruct (m w) as [[] ?]; congruence.
    + rewrite decide_True by done. congruence.
  - rewrite callWebhooks_none by exact Hc. discriminate.
Qed.

(** A reviewed write is refused with the store as it was, or happens on it. *)
Lemma reviewed_cases {T A} (sk : ServedKind T) op refused (write : world -> A * world) w r w' :
  governed sk -> reviewed regs ctx sk op refused write w = (r, w') ->
  r = refused denied /\ view w' = view w \/ exists w1, view w1 = view w /\ write w1 = (r, w').
Proof.
  intros Hg. unfold reviewed. pose proof (review_view sk regs ctx op w Hg) as Hv.
  destruct (review _ _ _ _ w) as [[e|] w1] eqn:Hr; simpl in Hv.
  - intros [= <- <-]. apply review_denied in Hr as ->; [|done]. by left.
  - intros Hw. right. by exists w1.
Qed.

Lemma admittedClient_lawful {T} (sk : ServedKind T) (kd : Kind string T) (c : TypedClient world string T) :
  governed sk -> LawfulClient view c kd -> LawfulClient view (admittedClient regs ctx sk kd c) kd.
Proof.
  intros Hg Hc. constructor; simpl.
  - apply (get_found (kd := kd)).
  - apply (get_failed (kd := kd)).
  - apply (list_found (kd := kd)).
  - apply (list_failed (kd := kd)).
  - intros o w o' w' H. apply reviewed_cases in H as [[? _]|(w1 & <- & H)]; [done| |done].
    by apply (create_done (kd := kd)).
  - intros o w e w' H. apply reviewed_cases in H as [[_ ?]|(w1 & <- & H)]; [done| |done].
    by eapply (create_failed (kd := kd)).
  - intros o w o' w' H. destruct (ksel kd (view w) !! _) as [old|] eqn:Hold.
    + apply reviewed_cases in H as [[? _]|(w1 & Hv & H)]; [done| |done].
      apply (update_done (kd := kd)) in H. by rewrite Hv, Hold in H.
    + apply (update_done (kd := kd)) in H. by rewrite Hold in H.
  - intros o w e w' H. destruct (ksel kd (view w) !! _) as [old|].
    + apply reviewed_cases in H as [[_ ?]|(w1 & <- & H)]; [done| |done]. by eapply (update_failed (kd := kd)).
    + by eapply (update_failed (kd := kd)).
  - intros o w w' H. destruct (ksel kd (view w) !! _) as [old|] eqn:Hold.
    + apply reviewed_cases in H as [[? _]|(w1 & Hv & H)]; [done| |done].
      apply (delete_done (kd := kd)) in H. by rewrite Hv, Hold in H.
    + apply (delete_done (kd := kd)) in H. by rewrite Hold in H.
  - intros o w e w' H. destruct (ksel kd (view w) !! _) as [old|] eqn:Hold.
    + apply reviewed_cases in H as [[[= ->] ?]|(w1 & Hv & H)]; [|  |done].
      * split; [by rewrite denied_not_absent|done].
      * apply (delete_failed (kd := kd)) in H. by rewrite Hv, Hold in H.
    + apply (delete_failed (kd := kd)) in H. by rewrite Hold in H.
  - intros o f w o' w' H. destruct (f _) as [o1|e|] eqn:Hf.
    + apply reviewed_cases in H as [[? _]|(w1 & Hv & H)]; [done| |done].
      apply (createOrUpdate_done (kd := kd)) in H. by rewrite Hv, Hf in H.
    + apply (createOrUpdate_done (kd := kd)) in H. by rewrite Hf in H.
    + apply (createOrUpdate_done (kd := kd)) in H. by rewrite Hf in H.
  - intros o f w e w' H. destruct (f _) as [o1|e1|] eqn:Hf.
    + apply reviewed_cases in H as [[_ ?]|(w1 & <- & H)]; [done| |done]. by eapply (createOrUpdate_failed (kd := kd)).
    + by eapply (createOrUpdate_failed (kd := kd)).
    + by eapply (createOrUpdate_failed (kd := kd)).
  - intros o f w w' H. destruct (f _) as [o1|e1|] eqn:Hf; [| |done].
    + apply reviewed_cases in H as [[? _]|(w1 & Hv & H)]; [done| |done].
      apply (createOrUpdate_panic (kd := kd)) in H. by rewrite Hv, Hf in H.
    + apply (createOrUpdate_panic (kd := kd)) in H. by rewrite Hf in H.
Qed.
(** Everything proved of lawful clusters holds with the webhooks in front. *)
Definition admittedCluster_lawful : LawfulCluster (admittedCluster regs ctx).
Proof.
  unshelve eapply (Build_LawfulCluster P (admittedCluster regs ctx) (view (LawfulCluster := L))).
  - exact (admittedClient_lawful _ _ _ organization_governed organizations_lawful).
  - exact (admittedClient_lawful _ _ _ profile_governed profiles_lawful).
  - exact (admittedClient_lawful _ _ _ project_governed projects_lawful).
  - exact (admittedClient_lawful _ _ _ maas_governed maas_lawful).
  - exact (namespaces_lawful (LawfulCluster := L)).
  - exact (rolebindings_lawful (LawfulCluster := L)).
  - exact (networkpolicies_lawful (LawfulCluster := L)).
  - exact (aitenants_lawful (LawfulCluster := L)).
  - exact (aitenants_nomatch (LawfulCluster := L)).
  - exact (HasCRD_pure (LawfulCluster := L)).
Defined.
End lawful.

(* ------------------------------------------------------------------ *)
(** ** The whole chain *)

Section chain_theorems.
  Context `{P : Platform} `{PL : !PlatformLaws P} `{C : !Cluster} `{L : !LawfulCluster C}.
  Context `{S : !AdmissionServer} `{SL : !AdmissionLaws S}.
  Context (getenv : string -> string) (flags : Flags) (ctx : context).

Abbreviation regs := (servedBy getenv flags).
Abbreviation authz := (newAuthorizer getenv).

(** The API server's answer to a request is the validator's. *)
Definition decidedBy {T} (sk : ServedKind T) : Prop :=
  forall op w, review regs sk ctx op w = answer (validateOp (sk_validator sk authz) ctx op) w.
(** The API server denies every request of the given kinds without a look at it. *)
Definition denies {T} (sk : ServedKind T) (verbs : list string) : Prop :=
  forall op w, verbOf op ∈ verbs -> review regs sk ctx op w = (Some denied, w).

Lemma denies_disabled {T} (sk : ServedKind T) verbs :
  governed sk -> getenv "ENABLE_WEBHOOKS" = "false" ->
  (forall op, verbOf op ∈ verbs -> called sk op <> []) -> denies sk verbs.
Proof.
  intros Hg Hdis Hc op w Hop. rewrite review_disabled by done. by rewrite decide_False by auto.
Qed.

(** C25: the markers, the paths and the registrations fit together.  The webhooks served
    are those [main] registers with the manager, whatever the flags.  With the webhooks
    enabled, the API server answers every create, update and delete of the four
    resources as the resource's validator does (a delete that no marker lists is one
    the validator always allows); started with ENABLE_WEBHOOKS=false, the operator
    leaves them unserved, and the API server denies every create and update, and every
    delete of a MaaSConfiguration, whoever asks. *)
Theorem admission_chain_correct :
  (getenv "ENABLE_WEBHOOKS" <> "false" ->
     decidedBy servedOrganization /\ decidedBy servedProfile /\ decidedBy servedProject /\
     decidedBy servedMaaS) /\
  (getenv "ENABLE_WEBHOOKS" = "false" ->
     denies servedOrganization ["create"; "update"] /\ denies servedProfile ["create"; "update"] /\
     denies servedProject ["create"; "update"] /\ denies servedMaaS ["create"; "update"; "delete"]).
Proof.
  split; intros Hen.
  - split_and!; intros op w; apply review_enabled; try done;
      [apply organization_governed|apply profile_governed|apply project_governed|apply maas_governed].
  - split_and!; apply denies_disabled; try done;
      try first [apply organization_governed|apply profile_governed|apply project_governed|apply maas_governed];
      intros [o|o o'|o] Hop; vm_compute; try discriminate;
      apply list_elem_of_In in Hop; cbn in Hop; intuition discriminate.
Qed.

Lemma requireAncestorAdmin_trusted u org action w :
  userFrom ctx u -> isTrusted authz u = true -> requireAncestorAdmin authz ctx org action w = (Ret tt, w).
Proof.
  intros Hu Ht. unfold requireAncestorAdmin, userFromContext, bind, lift. rewrite Hu. by rewrite Ht.
Qed.

Lemma profile_create_admitted u p w :
  getenv "ENABLE_WEBHOOKS" <> "false" -> userFrom ctx u -> isTrusted authz u = true ->
  Name (profile_meta p) = profileOrg p -> review regs servedProfile ctx (OpCreate p) w = (None, w).
Proof.
  intros Hen Hu Ht Hn. rewrite review_enabled by (apply profile_governed || done).
  unfold answer. cbn [validateOp sk_validator servedProfile profileValidator v_create].
  unfold OrganizationProfileWebhook.ValidateCreate. rewrite decide_False by (intros H; by apply H).
  unfold noWarnings, bind. by rewrite (requireAncestorAdmin_trusted u).
Qed.

Lemma ensureProfile_admitted u :
  getenv "ENABLE_WEBHOOKS" <> "false" -> userFrom ctx u -> isTrusted authz u = true ->
  ensureProfile (C := admittedCluster regs ctx) = ensureProfile (C := C).
Proof.
  intros Hen Hu Ht. unfold ensureProfile. refine (f_equal (bind (instance (C := C))) _). extensionality o.
  refine (f_equal (bind (onClient (C := C) (call (Get (profiles (Cluster := C)) _)))) _). extensionality r.
  destruct r as [err|p]; [|reflexivity]. destruct (negb (IsNotFound err)); [reflexivity|].
  destruct (SetControllerReference _ _) as [e|meta] eqn:Hset; [reflexivity|].
  apply SetControllerReference_ok in Hset as [_ Hmeta].
  refine (f_equal (fun create => bind (onClient (C := C) (call create)) _) _).
  extensionality w. cbn. unfold reviewed.
  rewrite (profile_create_admitted u); [reflexivity|done..|]. cbn. by rewrite Hmeta.
Qed.

(** The operator's controllers live with the operator's webhooks: for a trusted user,
    as the operator's service account is, the actions of the organization controller
    do on the cluster behind the webhooks exactly what they do on the bare one (the
    profile they create is admitted); those of the project controller never write a
    resource under review. *)
Theorem own_writes_admitted u :
  getenv "ENABLE_WEBHOOKS" <> "false" -> userFrom ctx u -> isTrusted authz u = true ->
  rc_Actions (NewOrganizationReconciler (C := admittedCluster regs ctx)) =
    rc_Actions (NewOrganizationReconciler (C := C)) /\
  rc_Actions (NewOrganizationProjectReconciler (C := admittedCluster regs ctx)) =
    rc_Actions (NewOrganizationProjectReconciler (C := C)).
Proof.
  intros Hen Hu Ht. split; [|reflexivity]. cbn [rc_Actions NewOrganizationReconciler].
  by rewrite (ensureProfile_admitted u).
Qed.
End chain_theorems.

(* ------------------------------------------------------------------ *)
(** ** A server that satisfies the laws *)

Module FakeAdmission.
Import FakeInstances.

Definition FakeServer {C : Cluster} : AdmissionServer := {|
  denied := FForbidden;
  validatePath g :=
    "/validate-" +:+ ReplaceByte "." "-" (gvk_Group g) +:+ "-" +:+ gvk_Version g +:+ "-" +:+ ToLower (gvk_Kind g);
  callWebhooks cs r h w :=
    match List.filter (calledFor r) cs with
    | [] => (None, w)
    | c :: _ =>
        match h (wc_path c) with
        | Some m => match m w with (Ret _, w') => (None, w') | (_, w') => (Some FForbidden, w') end
        | None => if decide (wc_failurePolicy c = "fail") then (Some FForbidden, w) else (None, w)
        end
    end;
|}.
#[export] Existing Instance FakeServer.

#[export] Instance FakeServer_laws {C : Cluster} : AdmissionLaws (FakeServer (C := C)).
Proof.
  constructor; [done|done| |].
  - intros cs r h w Hf. cbn. by rewrite Hf.
  - intros cs r c h w Hf. cbn. by rewrite Hf.
Qed.

Definition noEnv (_ : string) : string := "".
(** The operator's service account. *)
Definition operatorUser : UserInfo :=
  {| Username := "system:serviceaccount:tenancy-operator-system:tenancy-operator-controller-manager";
     Groups := ["system:serviceaccounts"; "system:serviceaccounts:tenancy-operator-system"; "system:authenticated"] |}.
Definition operatorCtx : context := ctxOf (Username operatorUser) (Groups operatorUser).

Lemma admission_chain_correct_witness :
  decidedBy noEnv defaultFlags operatorCtx servedProfile /\
  denies (fun _ => "false") defaultFlags operatorCtx servedProfile ["create"; "update"].
Proof.
  split.
  - destruct (admission_chain_correct noEnv defaultFlags operatorCtx) as [Hen _].
    apply Hen. discriminate.
  - destruct (admission_chain_correct (fun _ => "false") defaultFlags operatorCtx) as [_ Hdis].
    apply Hdis. reflexivity.
Defined.

Lemma own_writes_admitted_witness :
  rc_Actions (NewOrganizationReconciler
    (C := admittedCluster (servedBy noEnv defaultFlags) operatorCtx)) =
  rc_Actions (NewOrganizationReconciler (C := FakeCluster)).
Proof.
  apply (own_writes_admitted noEnv defaultFlags operatorCtx operatorUser); [discriminate|reflexivity|reflexivity].
Defined.
End FakeAdmission.
