(* ===== verification/MaaSLifecycle.v ===== *)
(** The life of a MaaSConfiguration behind the operator's own webhooks: its deletion, which
    the MaaS webhook can block, and the convergence of its reconciliation. *)

From stdpp Require Import gmap strings list.
From Stdlib Require Import ZArith.
From S2P Require Import Prelude Platform Api Cluster Fake Authz Webhooks Framework OrganizationCtl.
From S2P Require Import Validation Available MaaS MaaSSpecs MaaSTheorems MaaSLiveness Manager AdmissionChain ChainTheorems.

Local Open Scope string_scope.

Section deletion.
  Context `{P : Platform} `{PL : !PlatformLaws P} `{C : !Cluster} `{L : !LawfulCluster C}.
  Context `{S : !AdmissionServer} `{SL : !AdmissionLaws S}.
  Context (getenv : string -> string) (flags : Flags) (ctx : context).
  Hypothesis enabled : getenv "ENABLE_WEBHOOKS" <> "false".

(** The webhooks of a running operator. *)
Abbreviation regs := (servedBy getenv flags).
Abbreviation authz := (newAuthorizer getenv).
(** The cluster behind the webhooks. *)
Abbreviation AC := (admittedCluster (C := C) regs ctx).
Abbreviation AL := (admittedCluster_lawful (C := C) regs ctx).
Abbreviation RR := (ReconciliationRequest MaaSConfiguration unit).

(** An update of a stored configuration reaches the store only if the webhook admits it. *)
Lemma maas_update_reviewed old c (w : @world _ C) :
  s_maas (view w) !! Name (maas_meta c) = Some old ->
  exists w1, view w1 = view w /\
    Update (maasconfigurations (Cluster := AC)) c w =
    if is_ret (fst (MaaSConfigurationWebhook.ValidateUpdate (C := C) authz ctx old c w))
    then Update (maasconfigurations (Cluster := C)) c w1 else (inl (denied (AdmissionServer := S)), w1).
Proof.
  intros Hold. exists (snd (review regs servedMaaS ctx (OpUpdate old c) w)).
  split; [apply review_view, maas_governed|]. cbn. rewrite Hold. unfold reviewed.
  rewrite review_enabled by (apply maas_governed || done). unfold answer, admits.
  cbn [validateOp sk_validator servedMaaS maasValidator v_update].
  by destruct (MaaSConfigurationWebhook.ValidateUpdate _ _ _ _ w) as [[] w1].
Qed.

(** C24: a MaaSConfiguration that outlives its organization can never be deleted.  Nothing
    keeps an organization from being deleted first; from then on the MaaS webhook refuses
    every update of the configuration, also the operator's own that removes the cleanup
    finalizer.  Whatever the API server answers otherwise and whoever the operator runs
    as, the reconciliation of the configuration under deletion fails and leaves the
    stored configuration, with its finalizer, as it was. *)
Theorem orphaned_configuration_stuck (rr : RR) old :
  tenants_ok (view (LawfulCluster := L) (Client rr)) ->
  DeletionTimestamp (maas_meta (Instance_ rr)) <> None ->
  s_maas (view (LawfulCluster := L) (Client rr)) !! Name (maas_meta (Instance_ rr)) = Some old ->
  s_organizations (view (LawfulCluster := L) (Client rr)) !! maasOrg (Instance_ rr) = None ->
  exists e rr', reconcileMaaS (C := AC) rr = (Err e, rr') /\
    s_maas (view (LawfulCluster := L) (Client rr')) = s_maas (view (LawfulCluster := L) (Client rr)).
Proof.
  intros Hok Hdel Hold Horg.
  assert (wp (reconcileMaaS (C := AC)) (fun r rr' => (exists e, r = Err e) /\
    s_maas (maasStore (L := AL) rr') = s_maas (maasStore (L := AL) rr)) rr) as [[e He] Hs].
  2:{ exists e, (snd (reconcileMaaS (C := AC) rr)). split; [|exact Hs].
      rewrite <- He. by destruct (reconcileMaaS (C := AC) rr). }
  unfold reconcileMaaS. apply wp_bind, wp_instance. destruct (DeletionTimestamp _); [|done]. simpl.
  unfold cleanupMaaS. apply wp_bind. eapply wp_mono; [by apply (releaseAITenant_spec (L := AL))|].
  intros [[]|e|] rr1 (Hi & _ & Hrel); [|split; [by eexists|exact (f_equal s_maas Hrel)]|done].
  pose proof (tr_kind _ _ _ Hrel) as Hkind.
  assert (s_maas (maasStore (L := AL) rr1) = s_maas (maasStore (L := AL) rr)) as Hm by by rewrite Hkind.
  assert (s_organizations (maasStore (L := AL) rr1) = s_organizations (maasStore (L := AL) rr)) as Ho by by rewrite Hkind.
  apply wp_bind, (wp_setInstance (C := AC)), wp_bind, (wp_onClient (C := AC)), wp_call. cbn [Client withInstance].
  set (c := withMaaSMeta _ _). intros b w Hupd.
  destruct (RemoveFinalizer_spec (maas_meta (Instance_ rr)) maasFinalizer) as [Hmeta _].
  destruct (maas_update_reviewed old c (Client rr1)) as (w1 & Hv1 & Hrev).
  { change (s_maas (maasStore (L := AL) rr1) !! Name (maas_meta c) = Some old). rewrite Hm. unfold c. simpl.
    by rewrite Hmeta. }
  pose proof (eq_trans (eq_sym Hrev) Hupd) as Heq. clear Hrev Hupd. destruct (is_ret _) eqn:Had.
  - eapply (checks_sound False) in Had; [|by apply maas_update_checks]. exfalso.
    destruct Had as (_ & (_ & _ & (o & Ho' & _) & _) & _).
    change (s_organizations (maasStore (L := AL) rr1) !! maasOrg c = Some o) in Ho'.
    rewrite Ho in Ho'. discriminate (eq_trans (eq_sym Horg) Ho').
  - injection Heq as <- <-. apply wp_fail. split; [by eexists|].
    change (s_maas (view w1) = s_maas (maasStore (L := AL) rr)). by rewrite Hv1, <- Hm.
Qed.

(* ------------------------------------------------------------------ *)
(** ** A server that is up, and a trusted operator *)

  Context (tenantAccepts : Store -> Unstructured -> Prop).
  Context `{AM : !AvailableMaaS C (fun _ _ => True) tenantAccepts} (u : UserInfo).
  Hypothesis operator : userFrom ctx u.
  Hypothesis trusted : isTrusted authz u = true.

(** What the webhook asks of a write by a trusted user. *)
Definition maas_accepted (st : Store) (c : MaaSConfiguration) : Prop :=
  maas_wellplaced st c /\ forall old, s_maas st !! Name (maas_meta c) = Some old -> maasOrg old = maasOrg c.

Lemma operator_may_configure st org : may_configure authz ctx st org.
Proof. exists u. auto. Qed.

Lemma reviewed_admitted {A} op refused (write : @world _ C -> A * @world _ C) w :
  admits (validateOp (maasValidator authz) ctx op) w ->
  exists w1, view w1 = view w /\ reviewed regs ctx servedMaaS op refused write w = write w1.
Proof.
  intros Had. exists (snd (review regs servedMaaS ctx op w)).
  split; [apply review_view, maas_governed|]. unfold reviewed.
  rewrite review_enabled by (apply maas_governed || done). unfold answer. cbn [sk_validator servedMaaS].
  unfold admits in Had. by destruct (validateOp _ _ _ w) as [[] w1].
Qed.

Lemma maas_behind_available :
  AvailableWrites (view (LawfulCluster := L)) (maasconfigurations (Cluster := AC)) maasKind maas_accepted.
Proof.
  constructor.
  - pose proof (writes_reads (AvailableWrites := maas_writes (C := C))) as [Hg Hl]. by constructor.
  - intros c w Hn [Hwp _]. cbn.
    destruct (reviewed_admitted (OpCreate c) inl (Create maasconfigurations c) w) as (w1 & Hv & ->).
    { apply (checks_admits _ _ _ (maas_create_checks True (fun _ => _) authz ctx c w)).
      split; [done|apply operator_may_configure]. }
    apply (create_available (kd := maasKind) (accepts := fun _ _ => True)); [|done]. by rewrite Hv.
  - intros c w old Hold [Hwp Himm]. cbn in Hold |- *. rewrite Hold.
    destruct (reviewed_admitted (OpUpdate old c) inl (Update maasconfigurations c) w) as (w1 & Hv & ->).
    { apply (checks_admits _ _ _ (maas_update_checks True (fun _ => _) authz ctx old c w)).
      split; [by apply Himm|]. split; [done|apply operator_may_configure]. }
    apply (update_available (kd := maasKind) (accepts := fun _ _ => True)); [|done]. by rewrite Hv.
  - intros c w old Hold. cbn in Hold |- *. rewrite Hold.
    destruct (reviewed_admitted (OpDelete old) Some (Delete maasconfigurations c) w) as (w1 & Hv & ->).
    { apply (checks_admits _ _ _ (maas_delete_checks True (fun _ => _) authz ctx old w)).
      apply operator_may_configure. }
    eapply (remove_available (kd := maasKind) (accepts := fun _ _ => True)). by rewrite Hv.
Qed.

Lemma behind_webhooks_available : AvailableMaaS AC (LawfulCluster0 := AL) maas_accepted tenantAccepts.
Proof.
  pose proof (maas_reads (C := C)) as [Ho Hp Hj Hm].
  unshelve econstructor; [|exact maas_behind_available|exact (aitenants_writes (C := C))].
  constructor; [destruct Ho as [A1 A2 A3]|destruct Hp as [A1 A2 A3]|destruct Hj as [A1 A2 A3]|destruct Hm as [A1 A2 A3]];
    constructor; [exact A1|exact A2|exact A3|exact A1|exact A2|exact A3|exact A1|exact A2|exact A3|exact A1|exact A2|exact A3].
Qed.

(** Adding or removing the finalizer is accepted where the configuration is well placed. *)
Lemma finalizer_write_accepted st ts old c fs :
  maas_wellplaced st c -> s_maas st !! Name (maas_meta c) = Some old -> maasOrg old = maasOrg c ->
  maas_accepted (kput aitenantKind ts st) (withMaaSMeta c (setFinalizers (maas_meta c) fs)).
Proof.
  intros Hwp Hold Heq. split; [exact Hwp|]. intros old' Hold'. cbn in Hold'. rewrite Hold in Hold'.
  by injection Hold' as <-.
Qed.
Lemma withoutFinalizer_accepted st ts old c :
  maas_wellplaced st c -> s_maas st !! Name (maas_meta c) = Some old -> maasOrg old = maasOrg c ->
  maas_accepted (kput aitenantKind ts st) (withoutFinalizer c).
Proof.
  unfold withoutFinalizer. destruct (RemoveFinalizer_spec (maas_meta c) maasFinalizer) as [-> _].
  apply finalizer_write_accepted.
Qed.
Lemma withFinalizer_accepted st c :
  maas_wellplaced st c -> s_maas st !! Name (maas_meta c) = Some c -> maas_accepted st (withFinalizer c).
Proof.
  intros Hwp Hc. unfold withFinalizer.
  destruct (AddFinalizer_spec (maas_meta c) maasFinalizer) as [-> _].
  rewrite (kput_self_aitenant st). by eapply finalizer_write_accepted.
Qed.

(** C23: while its organization is there, a configuration can be deleted: on an API server
    that is up and for a trusted operator, the reconciliation of a well placed
    configuration under deletion returns, with the webhooks in front; afterwards the
    stored configuration (if there still is one) has no cleanup finalizer, and no
    AITenant it controls is left unless a finalizer holds it. *)
Theorem maas_deletion_completes (rr : RR) old :
  let st := view (LawfulCluster := L) (Client rr) in
  let c := Instance_ rr in
  tenants_ok st -> DeletionTimestamp (maas_meta c) <> None ->
  s_maas st !! Name (maas_meta c) = Some old -> maasOrg old = maasOrg c -> maas_wellplaced st c ->
  exists rr' : RR, reconcileMaaS (C := AC) rr = (Ret tt, rr') /\
    let st' := view (LawfulCluster := L) (Client rr') in
    (forall c', s_maas st' !! Name (maas_meta c) = Some c' -> maasFinalizer ∉ Finalizers (maas_meta c')) /\
    (forall t', s_aitenants st' !! tenantKey c = Some t' ->
       IsControlledBy (u_meta t') (maas_meta c) = false \/
       exists t, s_aitenants st !! tenantKey c = Some t /\ Finalizers (u_meta t) <> []).
Proof.
  intros st c Hok Hdel Hold Heq Hwp.
  pose proof (cleanup_returns (L := AL) maas_accepted tenantAccepts (AM := behind_webhooks_available) old rr Hok Hdel Hold) as Hrun.
  destruct Hrun as [Hret Hout].
  { intros ts. by eapply withoutFinalizer_accepted. }
  destruct (reconcileMaaS (C := AC) rr) as [r rr']. simpl in Hret, Hout. subst r.
  exists rr'. split; [done|]. destruct Hout as (st1 & x & [Hkind _ _ Hgone] & Hs & Hx).
  change (view (LawfulCluster := L) (Client rr')) with (maasStore (L := AL) rr'). rewrite Hs. cbv zeta. simpl.
  split.
  - intros c' Hc. apply Hx. by rewrite lookup_partial_alter_eq in Hc.
  - intros t' Ht. destruct (Hgone t' Ht) as [[_ ?]|?]; auto.
Qed.

(** C22: a configuration converges behind the webhooks: on an API server that is up and
    serves AITenants, for a trusted operator, the reconciliation of a well placed
    configuration with nothing in its way returns.  It leaves the configuration with its
    finalizer, and the AITenant of its name stored, controlled and labelled as the
    configuration's, with the OIDC, gateway, TLS and quota fields of its spec exactly those
    that the configuration and the profile ask for and everything else of the spec as in
    the AITenant that was there; nothing else changes.  The reconciliation after that
    changes neither the store nor the configuration.  Of the AITenant kind's own schema
    only that it takes such an AITenant is assumed. *)
Theorem maas_converges (rr : RR) o p :
  let st := view (LawfulCluster := L) (Client rr) in
  let c := Instance_ rr in
  (forall w, crdServed (C := C) w = true) -> current (L := L) rr -> tenants_ok st ->
  DeletionTimestamp (maas_meta c) = None ->
  maas_wellplaced st c -> maas_unobstructed st c o p ->
  asked_accepted tenantAccepts c p (tenantBefore st c) ->
  exists rr' : RR, reconcileMaaS (C := AC) rr = (Ret tt, rr') /\ finalized c (Instance_ rr') /\
    (exists u', view (LawfulCluster := L) (Client rr') =
                  stored aitenantKind (tenantKey c) u' (stored maasKind (Name (maas_meta c)) (Instance_ rr') st) /\
       tenant_managed c p (tenantBefore st c) u') /\
    forall rr2 : RR, view (LawfulCluster := L) (Client rr2) = view (LawfulCluster := L) (Client rr') ->
      Instance_ rr2 = Instance_ rr' ->
      exists rr3 : RR, reconcileMaaS (C := AC) rr2 = (Ret tt, rr3) /\
        view (LawfulCluster := L) (Client rr3) = view (LawfulCluster := L) (Client rr') /\
        Instance_ rr3 = Instance_ rr'.
Proof.
  intros st c Hcrd Hcur Hok Hdel Hwp Hmu Hten.
  apply (maas_converges_on (L := AL) maas_accepted tenantAccepts (AM := behind_webhooks_available) o p rr
           Hcrd Hcur Hok Hdel Hmu); [|exact Hten].
  intros _. apply withFinalizer_accepted; [exact Hwp|exact (proj1 Hcur)].
Qed.
End deletion.

(* ------------------------------------------------------------------ *)
(** ** Runs *)

Module FakeLifecycle.
Import FakeInstances FakeAdmission.

#[local] Instance fakeMaaS_available : AvailableMaaS FakeCluster (fun _ _ => True) (fun _ _ => True).
Proof. constructor; [exact _|apply fakeClient_writes..]. Qed.

(** The in-memory cluster with every kind served. *)
Definition servingCluster : Cluster := {|
  world := FakeWorld;
  organizations := organizations (Cluster := FakeCluster);
  profiles := profiles (Cluster := FakeCluster);
  projects := projects (Cluster := FakeCluster);
  maasconfigurations := maasconfigurations (Cluster := FakeCluster);
  namespaces := namespaces (Cluster := FakeCluster);
  rolebindings := rolebindings (Cluster := FakeCluster);
  networkpolicies := networkpolicies (Cluster := FakeCluster);
  unstructureds := unstructureds (Cluster := FakeCluster);
  HasCRD g w := (inr true, w);
|}.
Definition servingCluster_lawful : LawfulCluster servingCluster.
Proof.
  unshelve eapply (Build_LawfulCluster _ servingCluster fw_store).
  - exact (organizations_lawful (LawfulCluster := FakeCluster_lawful)).
  - exact (profiles_lawful (LawfulCluster := FakeCluster_lawful)).
  - exact (projects_lawful (LawfulCluster := FakeCluster_lawful)).
  - exact (maas_lawful (LawfulCluster := FakeCluster_lawful)).
  - exact (namespaces_lawful (LawfulCluster := FakeCluster_lawful)).
  - exact (rolebindings_lawful (LawfulCluster := FakeCluster_lawful)).
  - exact (networkpolicies_lawful (LawfulCluster := FakeCluster_lawful)).
  - exact (aitenants_lawful (LawfulCluster := FakeCluster_lawful)).
  - exact (aitenants_nomatch (LawfulCluster := FakeCluster_lawful)).
  - reflexivity.
Defined.
Lemma servingCluster_available :
  AvailableMaaS servingCluster (LawfulCluster0 := servingCluster_lawful) (fun _ _ => True) (fun _ _ => True).
Proof.
  unshelve econstructor; [|exact (fakeClient_writes maasKind _)|exact (fakeClient_writes aitenantKind _)].
  constructor; apply fakeClient_reliable.
Qed.

(** The in-memory cluster behind the webhooks. *)
Definition fakeChain : Cluster :=
  admittedCluster (L := FakeCluster_lawful) (S := FakeServer) (servedBy (C := FakeCluster) noEnv defaultFlags) operatorCtx.

Definition ownRequest (d : option Z) := maasRequest (researchConfig d) (maasOwner (researchConfig None)).

Lemma ownRequest_wellplaced d : maas_wellplaced (maasStore (ownRequest d)) (researchConfig d).
Proof.
  split; [done|]. split; [done|]. split.
  - exists (org "research" "" "research"). split; [|done].
    change (s_organizations demoStore !! "research" = Some (org "research" "" "research")).
    apply demo_organization. by left.
  - intros k m Hm _. change (({["research" := researchConfig d]} : gmap string MaaSConfiguration) !! k = Some m) in Hm.
    by apply lookup_singleton_Some in Hm as [_ <-].
Qed.

(** The organization of the configuration under deletion is gone. *)
Definition orphanRequest : ReconciliationRequest MaaSConfiguration unit :=
  withClient (ownRequest (Some 1%Z))
    {| fw_store := kput organizationKind ∅ (fw_store (Client (ownRequest (Some 1%Z)))); fw_crds := [maasGVK] |}.

Lemma orphaned_configuration_stuck_witness :
  exists e rr',
    reconcileMaaS (C := fakeChain) orphanRequest = (Err e, rr') /\
    s_maas (fw_store (Client rr')) = s_maas (fw_store (Client orphanRequest)).
Proof.
  apply (orphaned_configuration_stuck noEnv defaultFlags operatorCtx ltac:(discriminate) orphanRequest (researchConfig (Some 1%Z))).
  - exact (maasRequest_ok (researchConfig (Some 1%Z)) (maasOwner (researchConfig None))).
  - discriminate.
  - change (({["research" := researchConfig (Some 1%Z)]} : gmap string MaaSConfiguration) !! "research" = Some (researchConfig (Some 1%Z))).
    apply lookup_singleton_eq.
  - apply lookup_empty.
Defined.

Lemma maas_deletion_completes_witness :
  exists rr' : ReconciliationRequest MaaSConfiguration unit,
    reconcileMaaS (C := fakeChain) (ownRequest (Some 1%Z)) = (Ret tt, rr') /\
    forall c', s_maas (fw_store (Client rr')) !! "research" = Some c' -> maasFinalizer ∉ Finalizers (maas_meta c').
Proof.
  destruct (maas_deletion_completes noEnv defaultFlags operatorCtx ltac:(discriminate) (fun _ _ => True) operatorUser eq_refl eq_refl
    (ownRequest (Some 1%Z)) (researchConfig (Some 1%Z))) as (rr' & Hrun & Hfin & _).
  - exact (maasRequest_ok (researchConfig (Some 1%Z)) (maasOwner (researchConfig None))).
  - discriminate.
  - exact (proj1 (maasRequest_current (Some 1%Z) (maasOwner (researchConfig None)))).
  - reflexivity.
  - exact (ownRequest_wellplaced (Some 1%Z)).
  - exists rr'. split; [exact Hrun|exact Hfin].
Defined.

Lemma ownRequest_unobstructed :
  maas_unobstructed (maasStore (ownRequest None)) (researchConfig None) (org "research" "" "research")
    (profileWith "research" (Some [userSubject "alice"]) 0).
Proof.
  constructor.
  - change (s_organizations demoStore !! "research" = Some (org "research" "" "research")).
    apply demo_organization. by left.
  - reflexivity.
  - vm_compute. lia.
  - change (s_profiles demoStore !! "research" = Some (profileWith "research" (Some [userSubject "alice"]) 0)).
    apply demo_profile. by left.
  - done.
  - intros t Ht.
    change (({[(maasNamespace, "research") := tenantOf (maasOwner (researchConfig None))]} :
      gmap (string * string) Unstructured) !! (maasNamespace, "research") = Some t) in Ht.
    apply lookup_singleton_Some in Ht as [_ <-]. split; [reflexivity|].
    unfold spec_is_map, tenantOf. simpl. by rewrite lookup_singleton_eq.
Qed.

Lemma maas_converges_witness :
  exists (rr' : ReconciliationRequest MaaSConfiguration unit) u',
    reconcileMaaS (C := admittedCluster (C := servingCluster) (L := servingCluster_lawful)
      (servedBy (C := servingCluster) noEnv defaultFlags) operatorCtx) (ownRequest None) = (Ret tt, rr') /\
    s_aitenants (fw_store (Client rr')) !! (maasNamespace, "research") = Some u' /\
    specField (Object u') "resourceQuotas" =
      Some (AMap (<["maxModels" := AInt 2]> (<["maxSubscriptions" := AInt 3]> {["maxApiKeys" := AInt 4]}))).
Proof.
  destruct (maas_converges (C := servingCluster) (L := servingCluster_lawful)
    noEnv defaultFlags operatorCtx ltac:(discriminate) (fun _ _ => True) (AM := servingCluster_available)
    operatorUser eq_refl eq_refl
    (ownRequest None) (org "research" "" "research") (profileWith "research" (Some [userSubject "alice"]) 0))
    as (rr' & Hrun & _ & (u' & Hst & Hman) & _).
  - reflexivity.
  - exact (maasRequest_current None (maasOwner (researchConfig None))).
  - exact (maasRequest_ok (researchConfig None) (maasOwner (researchConfig None))).
  - reflexivity.
  - exact (ownRequest_wellplaced None).
  - exact ownRequest_unobstructed.
  - done.
  - exists rr', u'. split; [exact Hrun|]. split; [|exact (rd_quotas _ _ _ _ (tm_rendered _ _ _ _ Hman))].
    apply (f_equal s_aitenants) in Hst. etrans; [exact (f_equal (lookup _) Hst)|apply lookup_insert_eq].
Defined.
End FakeLifecycle.
