(* ===== verification/Json.v ===== *)
(** The JSON form of the API types: encoding/json as it follows the tags of the struct
    fields in api/v1alpha1.

    A [GoType] is how a Go type is encoded and decoded; [struct] makes one of a struct from
    its tagged fields, in their order.  JSON is the tree [any], not its text.  Metadata and
    status belong to the libraries; what is encoded here is the spec of each resource. *)

From stdpp Require Import gmap strings list.
From Stdlib Require Import ZArith.
From S2P Require Import Prelude Platform Api.

Local Open Scope string_scope.

(* ------------------------------------------------------------------ *)
(** ** Types *)

Record GoType (T : Type) := {
  toJSON : T -> any;
  (** [None]: the value does not decode *)
  fromJSON : any -> option T;
  (** the zero value, which an absent field or a null leaves *)
  zero : T;
  (** what the omitempty option leaves out *)
  isEmpty : T -> bool;
}.
Arguments toJSON {T}.
Arguments fromJSON {T}.
Arguments zero {T}.
Arguments isEmpty {T}.

(** A null leaves the zero value. *)
Definition unmarshal {T} (t : GoType T) (v : any) : option T :=
  match v with ANil => Some (zero t) | _ => fromJSON t v end.

Definition goString : GoType string :=
  {| toJSON := AStr; fromJSON v := match v with AStr s => Some s | _ => None end;
     zero := ""; isEmpty s := bool_decide (s = "") |}.

#[export] Instance int32_range_dec z : Decision (int32_range z).
Proof. unfold int32_range. apply _. Defined.

(** A number outside the range of the type does not decode. *)
Definition goInt32 : GoType Z :=
  {| toJSON := AInt;
     fromJSON v := match v with AInt z => if decide (int32_range z) then Some z else None | _ => None end;
     zero := 0%Z; isEmpty z := bool_decide (z = 0%Z) |}.

Definition goPtr {T} (t : GoType T) : GoType (option T) :=
  {| toJSON p := match p with Some x => toJSON t x | None => ANil end;
     fromJSON v := match v with ANil => Some None | _ => Some <$> fromJSON t v end;
     zero := None; isEmpty p := bool_decide (p = None) |}.

Definition goSlice {T} (t : GoType T) : GoType (slice T) :=
  {| toJSON s := match s with Some l => ASlice (map (toJSON t) l) | None => ANil end;
     fromJSON v := match v with ASlice l => Some <$> mapM (unmarshal t) l | _ => None end;
     zero := None; isEmpty s := bool_decide (length (elems s) = 0) |}.

(* ------------------------------------------------------------------ *)
(** ** Structs *)

(** Some fields of a struct, as a tuple [A]. *)
Record Fields (A : Type) := {
  names : list string;
  marshalFields : A -> list (string * any);
  unmarshalFields : gmap string any -> option A;
  zeroFields : A;
}.
Arguments names {A}.
Arguments marshalFields {A}.
Arguments unmarshalFields {A}.
Arguments zeroFields {A}.

Definition tagged {T} (omitempty : bool) (name : string) (t : GoType T) : Fields T :=
  {| names := [name];
     marshalFields x := if omitempty && isEmpty t x then [] else [(name, toJSON t x)];
     unmarshalFields m := match m !! name with Some v => unmarshal t v | None => Some (zero t) end;
     zeroFields := zero t |}.
(** The tags `json:"name"` and `json:"name,omitempty"`. *)
Definition field {T} : string -> GoType T -> Fields T := tagged false.
Definition omitempty {T} : string -> GoType T -> Fields T := tagged true.

Definition both {A B} (f : Fields A) (g : Fields B) : Fields (A * B) :=
  {| names := (names f ++ names g)%list;
     marshalFields x := (marshalFields f (fst x) ++ marshalFields g (snd x))%list;
     unmarshalFields m := a ← unmarshalFields f m; b ← unmarshalFields g m; Some (a, b);
     zeroFields := (zeroFields f, zeroFields g) |}.

(** A struct is never empty.  Fields it does not have are ignored when it is decoded. *)
Definition struct {A T} (f : Fields A) (make : A -> T) (parts : T -> A) : GoType T :=
  {| toJSON x := AMap (list_to_map (marshalFields f (parts x)));
     fromJSON v := match v with AMap m => make <$> unmarshalFields f m | _ => None end;
     zero := make (zeroFields f); isEmpty _ := false |}.

Declare Scope json_scope.
Delimit Scope json_scope with json.
Infix "⊗" := both (at level 45, left associativity) : json_scope.
Local Open Scope json_scope.

(* ------------------------------------------------------------------ *)
(** ** The types of api/v1alpha1 *)

Definition json_Subject : GoType Subject :=
  struct (field "kind" goString ⊗ field "name" goString ⊗ omitempty "namespace" goString)
    (fun '(k, n, ns) => {| subject_Kind := k; subject_Name := n; subject_Namespace := ns |})
    (fun s => (subject_Kind s, subject_Name s, subject_Namespace s)).

Definition json_OrganizationReference : GoType OrganizationReference :=
  struct (field "name" goString) Build_OrganizationReference ref_Name.

Definition json_OIDCConfig : GoType OIDCConfig :=
  struct (field "issuerUrl" goString) Build_OIDCConfig IssuerURL.

Definition json_GatewayReference : GoType GatewayReference :=
  struct (field "group" goString ⊗ field "kind" goString ⊗ field "name" goString ⊗
          omitempty "namespace" goString)
    (fun '(g, k, n, ns) => {| gw_Group := g; gw_Kind := k; gw_Name := n; gw_Namespace := ns |})
    (fun r => (gw_Group r, gw_Kind r, gw_Name r, gw_Namespace r)).

Definition json_OrganizationPlatformConfig : GoType OrganizationPlatformConfig :=
  struct (omitempty "oidc" (goPtr json_OIDCConfig) ⊗
          omitempty "ingressGatewayRef" (goPtr json_GatewayReference))
    (fun '(o, g) => {| platform_OIDC := o; IngressGatewayRef := g |})
    (fun c => (platform_OIDC c, IngressGatewayRef c)).

Definition json_ProjectDefaults : GoType ProjectDefaults :=
  struct (omitempty "networkIsolation" goString ⊗ omitempty "maxProjects" goInt32)
    (fun '(i, n) => {| default_NetworkIsolation := i; MaxProjects := n |})
    (fun d => (default_NetworkIsolation d, MaxProjects d)).

Definition json_OrganizationProfileSpec : GoType OrganizationProfileSpec :=
  struct (field "organizationRef" json_OrganizationReference ⊗
          omitempty "admins" (goSlice json_Subject) ⊗
          omitempty "defaults" json_ProjectDefaults ⊗
          omitempty "platform" (goPtr json_OrganizationPlatformConfig))
    (fun '(r, a, d, p) => {| profile_OrganizationRef := r; Admins := a; Defaults := d; profile_Platform := p |})
    (fun s => (profile_OrganizationRef s, Admins s, Defaults s, profile_Platform s)).

Definition json_OrganizationSpec : GoType OrganizationSpec :=
  struct (omitempty "parent" goString) Build_OrganizationSpec Parent.

Definition json_NetworkGrant : GoType NetworkGrant :=
  struct (field "to" goString ⊗ field "direction" goString ⊗ omitempty "ports" (goSlice goInt32))
    (fun '(t, d, p) => {| To := t; Direction := d; Ports := p |})
    (fun g => (To g, Direction g, Ports g)).

Definition json_ProjectUser : GoType ProjectUser :=
  struct (field "kind" goString ⊗ field "name" goString ⊗ omitempty "namespace" goString ⊗
          field "role" goString)
    (fun '(k, n, ns, r) => {| pu_Kind := k; pu_Name := n; pu_Namespace := ns; pu_Role := r |})
    (fun u => (pu_Kind u, pu_Name u, pu_Namespace u, pu_Role u)).

Definition json_OrganizationProjectSpec : GoType OrganizationProjectSpec :=
  struct (field "organizationRef" json_OrganizationReference ⊗
          omitempty "users" (goSlice json_ProjectUser) ⊗
          omitempty "networkIsolation" goString ⊗
          omitempty "networkGrants" (goSlice json_NetworkGrant))
    (fun '(r, u, i, g) =>
       {| project_OrganizationRef := r; Users := u; NetworkIsolation := i; NetworkGrants := g |})
    (fun s => (project_OrganizationRef s, Users s, NetworkIsolation s, NetworkGrants s)).

Definition json_MaaSOIDC : GoType MaaSOIDC :=
  struct (field "clientId" goString) Build_MaaSOIDC ClientID.

Definition json_MaaSCertificateRef : GoType MaaSCertificateRef :=
  struct (field "name" goString ⊗ omitempty "namespace" goString)
    (fun '(n, ns) => {| cert_Name := n; cert_Namespace := ns |})
    (fun r => (cert_Name r, cert_Namespace r)).

Definition json_MaaSTLS : GoType MaaSTLS :=
  struct (field "certificateRef" json_MaaSCertificateRef) Build_MaaSTLS CertificateRef.

Definition json_MaaSQuotas : GoType MaaSQuotas :=
  struct (omitempty "maxModels" goInt32 ⊗ omitempty "maxSubscriptions" goInt32 ⊗
          omitempty "maxApiKeys" goInt32)
    (fun '(m, s, k) => {| MaxModels := m; MaxSubscriptions := s; MaxAPIKeys := k |})
    (fun q => (MaxModels q, MaxSubscriptions q, MaxAPIKeys q)).

Definition json_MaaSConfigurationSpec : GoType MaaSConfigurationSpec :=
  struct (field "organizationRef" json_OrganizationReference ⊗
          omitempty "oidc" (goPtr json_MaaSOIDC) ⊗ omitempty "tls" (goPtr json_MaaSTLS) ⊗
          omitempty "quotas" (goPtr json_MaaSQuotas))
    (fun '(r, o, t, q) =>
       {| maas_OrganizationRef := r; maas_OIDC := o; maas_TLS := t; maas_Quotas := q |})
    (fun s => (maas_OrganizationRef s, maas_OIDC s, maas_TLS s, maas_Quotas s)).
