(* ===== verification/JsonTheorems.v ===== *)
(** Decoding what was encoded: the codecs of Json.v, from the types up to the specs. *)

From stdpp Require Import gmap strings list.
From Stdlib Require Import ZArith.
From S2P Require Import Prelude Platform Api Json.

Local Open Scope string_scope.
Local Open Scope json_scope.

(* ------------------------------------------------------------------ *)
(** ** Laws *)

(** Encoding and decoding a value that [fits] gives the value [normal] makes of it. *)
Definition Codec {T} (t : GoType T) (fits : T -> Prop) (normal : T -> T) : Prop :=
  forall x, fits x -> unmarshal t (toJSON t x) = Some (normal x).

Record FieldsCodec {A} (f : Fields A) (fits : A -> Prop) (normal : A -> A) : Prop := {
  fc_keys x k : k ∈ (marshalFields f x).*1 -> k ∈ names f;
  fc_only m1 m2 : (forall k, k ∈ names f -> m1 !! k = m2 !! k) -> unmarshalFields f m1 = unmarshalFields f m2;
  fc_round x : fits x -> unmarshalFields f (list_to_map (marshalFields f x)) = Some (normal x);
}.

(** What the omitempty option makes of a value. *)
Definition normalOmit {T} (t : GoType T) (normal : T -> T) (x : T) : T :=
  if isEmpty t x then zero t else normal x.

Lemma codec_string : Codec goString (fun _ => True) id.
Proof. by intros x _. Qed.
Lemma codec_int32 : Codec goInt32 int32_range id.
Proof. intros x Hx. cbn. by rewrite decide_True. Qed.
Lemma codec_ptr {T} (t : GoType T) fits normal :
  (forall x, toJSON t x <> ANil) -> Codec t fits normal ->
  Codec (goPtr t) (fun p => forall x, p = Some x -> fits x) (fmap normal).
Proof.
  intros Hnil Hc [x|] Hx; [|done]. specialize (Hc x (Hx x eq_refl)). specialize (Hnil x). unfold unmarshal in *. simpl.
  destruct (toJSON t x); try done; simpl; by rewrite Hc.
Qed.
Lemma codec_slice {T} (t : GoType T) fits normal :
  Codec t fits normal ->
  Codec (goSlice t) (fun s => Forall fits (elems s)) (fmap (map normal)).
Proof.
  intros Hc [l|] Hl; [|done]. simpl in *. assert (mapM (unmarshal t) (map (toJSON t) l) = Some (map normal l)) as ->; [|done].
  induction Hl as [|x l Hx Hl IH]; [done|]. simpl. rewrite Hc by done. simpl. by rewrite IH.
Qed.
Lemma struct_not_nil {A T} (f : Fields A) (make : A -> T) parts x : toJSON (struct f make parts) x <> ANil.
Proof. done. Qed.
Lemma codec_struct {A T} (f : Fields A) (make : A -> T) parts fits normal (fits' : T -> Prop) normal' :
  FieldsCodec f fits normal -> (forall x, fits' x -> fits (parts x)) ->
  (forall x, fits' x -> make (normal (parts x)) = normal' x) -> Codec (struct f make parts) fits' normal'.
Proof. intros [_ _ Hr] Hf Hn x Hx. simpl. rewrite Hr by auto. simpl. by rewrite Hn. Qed.

Lemma tagged_codec {T} b name (t : GoType T) fits normal :
  Codec t fits normal ->
  FieldsCodec (tagged b name t) fits (if b then normalOmit t normal else normal).
Proof.
  intros Hc. constructor.
  - intros x k. simpl. destruct (b && isEmpty t x); simpl; [by intros ?%elem_of_nil|done].
  - intros m1 m2 Hm. simpl. by rewrite Hm by constructor.
  - intros x Hx. simpl. unfold normalOmit.
    destruct b; simpl; [destruct (isEmpty t x); simpl; [by rewrite lookup_empty|]|];
      rewrite lookup_insert_eq; by apply Hc.
Qed.
Lemma field_codec {T} name (t : GoType T) fits normal :
  Codec t fits normal -> FieldsCodec (field name t) fits normal.
Proof. apply (tagged_codec false). Qed.
Lemma omitempty_codec {T} name (t : GoType T) fits normal :
  Codec t fits normal -> FieldsCodec (omitempty name t) fits (normalOmit t normal).
Proof. apply (tagged_codec true). Qed.

(** Encoded fields are found under their own names only. *)
Lemma lookup_both_l {A B} (f : Fields A) (g : Fields B) fits normal x y k :
  FieldsCodec g fits normal -> k ∉ names g ->
  (list_to_map (marshalFields (f ⊗ g) (x, y)) : gmap string any) !! k =
  (list_to_map (marshalFields f x) : gmap string any) !! k.
Proof.
  intros Hg Hk. simpl. rewrite list_to_map_app, lookup_union_l; [done|]. apply not_elem_of_list_to_map_1.
  intros Hin. by apply Hk, (fc_keys _ _ _ Hg y).
Qed.
Lemma lookup_both_r {A B} (f : Fields A) (g : Fields B) fits normal x y k :
  FieldsCodec f fits normal -> k ∉ names f ->
  (list_to_map (marshalFields (f ⊗ g) (x, y)) : gmap string any) !! k =
  (list_to_map (marshalFields g y) : gmap string any) !! k.
Proof.
  intros Hf Hk. simpl. rewrite list_to_map_app, lookup_union_r; [done|]. apply not_elem_of_list_to_map_1.
  intros Hin. by apply Hk, (fc_keys _ _ _ Hf x).
Qed.

Lemma both_codec {A B} (f : Fields A) (g : Fields B) fits1 normal1 fits2 normal2 :
  FieldsCodec f fits1 normal1 -> FieldsCodec g fits2 normal2 ->
  bool_decide (Forall (fun k => k ∉ names g) (names f)) = true ->
  FieldsCodec (f ⊗ g) (fun x => fits1 (fst x) /\ fits2 (snd x)) (fun x => (normal1 (fst x), normal2 (snd x))).
Proof.
  intros Hf Hg Hd%bool_decide_eq_true. rewrite Forall_forall in Hd. constructor.
  - intros [x y] k. simpl. rewrite fmap_app, !elem_of_app.
    intros [H|H]; [left; by eapply fc_keys|right; by eapply (fc_keys _ _ _ Hg)].
  - intros m1 m2 Hm. simpl. rewrite (fc_only _ _ _ Hf m1 m2), (fc_only _ _ _ Hg m1 m2); [done|..];
      intros k Hk; apply Hm; simpl; apply elem_of_app; auto.
  - intros [x y] [Hx Hy]. simpl in Hx, Hy. cbn [unmarshalFields both].
    rewrite (fc_only _ _ _ Hf _ (list_to_map (marshalFields f x))).
    2:{ intros k Hk. eapply lookup_both_l; eauto. }
    rewrite (fc_only _ _ _ Hg _ (list_to_map (marshalFields g y))).
    2:{ intros k Hk. eapply lookup_both_r; [exact Hf|]. intros Hk'. by apply (Hd k Hk'). }
    rewrite (fc_round _ _ _ Hf), (fc_round _ _ _ Hg) by done. done.
Qed.

Create HintDb json.
#[export] Hint Resolve codec_string codec_int32 codec_ptr codec_slice field_codec omitempty_codec both_codec
  struct_not_nil : json.
#[export] Hint Extern 1 (bool_decide _ = true) => reflexivity : json.

(* ------------------------------------------------------------------ *)
(** ** The types *)

Lemma normalOmit_string s : normalOmit goString id s = s.
Proof. unfold normalOmit. cbn. by case_bool_decide. Qed.
Lemma normalOmit_int32 z : normalOmit goInt32 id z = z.
Proof. unfold normalOmit. cbn. by case_bool_decide. Qed.
Lemma normalOmit_ptr {T} (t : GoType T) normal p : normalOmit (goPtr t) (fmap normal) p = normal <$> p.
Proof. by destruct p. Qed.

(** An empty slice is left out and comes back as nil. *)
Definition nilIfEmpty {A} (s : slice A) : slice A := match elems s with [] => None | l => Some l end.
Lemma normalOmit_slice {T} (t : GoType T) normal s :
  normalOmit (goSlice t) (fmap (map normal)) s = nilIfEmpty (map normal <$> s).
Proof. by destruct s as [[|x l]|]. Qed.
Lemma normalOmit_struct {A T} (f : Fields A) (make : A -> T) parts normal x :
  normalOmit (struct f make parts) normal x = normal x.
Proof. done. Qed.
Lemma option_fmap_id {A} (p : option A) : id <$> p = p.
Proof. by destruct p. Qed.
Lemma slice_map_id {A} (s : slice A) : map id <$> s = s.
Proof. destruct s as [l|]; [|done]. simpl. f_equal. apply map_id. Qed.

#[export] Hint Rewrite normalOmit_string normalOmit_int32 @normalOmit_ptr @normalOmit_slice @option_fmap_id
  @slice_map_id : json.

Ltac codec :=
  eapply codec_struct; [eauto 20 with json|intros [] Hfits; cbn in *; split_and?; auto using Forall_true; naive_solver|];
  intros [] _; cbn [fst snd]; autorewrite with json; try done.

Lemma Subject_codec : Codec json_Subject (fun _ => True) id.
Proof. codec. Qed.
Lemma OrganizationReference_codec : Codec json_OrganizationReference (fun _ => True) id.
Proof. codec. Qed.
Lemma OIDCConfig_codec : Codec json_OIDCConfig (fun _ => True) id.
Proof. codec. Qed.
Lemma GatewayReference_codec : Codec json_GatewayReference (fun _ => True) id.
Proof. codec. Qed.
Lemma ProjectUser_codec : Codec json_ProjectUser (fun _ => True) id.
Proof. codec. Qed.
Lemma MaaSOIDC_codec : Codec json_MaaSOIDC (fun _ => True) id.
Proof. codec. Qed.
Lemma MaaSCertificateRef_codec : Codec json_MaaSCertificateRef (fun _ => True) id.
Proof. codec. Qed.
Lemma MaaSQuotas_codec :
  Codec json_MaaSQuotas
    (fun q => int32_range (MaxModels q) /\ int32_range (MaxSubscriptions q) /\ int32_range (MaxAPIKeys q)) id.
Proof. codec. Qed.
Lemma ProjectDefaults_codec : Codec json_ProjectDefaults (fun d => int32_range (MaxProjects d)) id.
Proof. codec. Qed.
#[export] Hint Resolve Subject_codec OrganizationReference_codec OIDCConfig_codec GatewayReference_codec
  ProjectUser_codec MaaSOIDC_codec MaaSCertificateRef_codec MaaSQuotas_codec ProjectDefaults_codec : json.
Lemma OrganizationPlatformConfig_codec : Codec json_OrganizationPlatformConfig (fun _ => True) id.
Proof. codec. Qed.
Lemma MaaSTLS_codec : Codec json_MaaSTLS (fun _ => True) id.
Proof. codec. Qed.
Definition normalGrant (g : NetworkGrant) : NetworkGrant :=
  {| To := To g; Direction := Direction g; Ports := nilIfEmpty (Ports g) |}.
Lemma NetworkGrant_codec : Codec json_NetworkGrant (fun g => Forall int32_range (elems (Ports g))) normalGrant.
Proof. codec. Qed.
#[export] Hint Resolve OrganizationPlatformConfig_codec MaaSTLS_codec NetworkGrant_codec : json.

(* ------------------------------------------------------------------ *)
(** ** The specs *)

Definition fitsProfile (s : OrganizationProfileSpec) : Prop := int32_range (MaxProjects (Defaults s)).
Definition normalProfile (s : OrganizationProfileSpec) : OrganizationProfileSpec :=
  {| profile_OrganizationRef := profile_OrganizationRef s; Admins := nilIfEmpty (Admins s);
     Defaults := Defaults s; profile_Platform := profile_Platform s |}.
Definition fitsProject (s : OrganizationProjectSpec) : Prop :=
  Forall (fun g => Forall int32_range (elems (Ports g))) (elems (NetworkGrants s)).
Definition normalProject (s : OrganizationProjectSpec) : OrganizationProjectSpec :=
  {| project_OrganizationRef := project_OrganizationRef s; Users := nilIfEmpty (Users s);
     NetworkIsolation := NetworkIsolation s;
     NetworkGrants := nilIfEmpty (map normalGrant <$> NetworkGrants s) |}.
Definition fitsMaaS (s : MaaSConfigurationSpec) : Prop :=
  forall q, maas_Quotas s = Some q ->
    int32_range (MaxModels q) /\ int32_range (MaxSubscriptions q) /\ int32_range (MaxAPIKeys q).

Lemma OrganizationSpec_codec : Codec json_OrganizationSpec (fun _ => True) id.
Proof. codec. Qed.
Lemma OrganizationProfileSpec_codec : Codec json_OrganizationProfileSpec fitsProfile normalProfile.
Proof. codec. Qed.
Lemma OrganizationProjectSpec_codec : Codec json_OrganizationProjectSpec fitsProject normalProject.
Proof. codec. Qed.
Lemma MaaSConfigurationSpec_codec : Codec json_MaaSConfigurationSpec fitsMaaS id.
Proof. codec. Qed.

(** Normalizing loses nothing: it does not change the JSON. *)
Lemma marshal_nilIfEmpty {T} name (t : GoType T) s :
  marshalFields (omitempty name (goSlice t)) (nilIfEmpty s) = marshalFields (omitempty name (goSlice t)) s.
Proof. by destruct s as [[|x l]|]. Qed.
Lemma toJSON_normalGrant g : toJSON json_NetworkGrant (normalGrant g) = toJSON json_NetworkGrant g.
Proof. unfold json_NetworkGrant. cbn [toJSON struct marshalFields both]. cbn [fst snd normalGrant To Direction Ports]. by rewrite marshal_nilIfEmpty. Qed.
Lemma toJSON_normalProfile s : toJSON json_OrganizationProfileSpec (normalProfile s) = toJSON json_OrganizationProfileSpec s.
Proof.
  unfold json_OrganizationProfileSpec. cbn [toJSON struct marshalFields both].
  cbn [fst snd normalProfile profile_OrganizationRef Admins Defaults profile_Platform]. by rewrite marshal_nilIfEmpty.
Qed.
Lemma marshal_map {T} name (t : GoType T) normal (s : slice T) :
  (forall x, toJSON t (normal x) = toJSON t x) ->
  marshalFields (omitempty name (goSlice t)) (map normal <$> s) = marshalFields (omitempty name (goSlice t)) s.
Proof.
  intros Hn. destruct s as [[|x l]|]; [done| |done]. cbn. do 4 f_equal; [apply Hn|].
  rewrite map_map. by apply map_ext.
Qed.
Lemma toJSON_normalProject s : toJSON json_OrganizationProjectSpec (normalProject s) = toJSON json_OrganizationProjectSpec s.
Proof.
  unfold json_OrganizationProjectSpec. cbn [toJSON struct marshalFields both].
  cbn [fst snd normalProject project_OrganizationRef Users NetworkIsolation NetworkGrants].
  by rewrite !marshal_nilIfEmpty, marshal_map by apply toJSON_normalGrant.
Qed.

(** The JSON form of the four specs determines them: a spec whose numbers are int32s
    decodes from its own encoding, with a slice that is empty but not nil (left out by
    omitempty) coming back as nil and nothing else changed; the encoding of what comes
    back is the same again. *)
Theorem json_roundtrip :
  (forall s, fromJSON json_OrganizationSpec (toJSON json_OrganizationSpec s) = Some s) /\
  (forall s, fitsProfile s ->
     fromJSON json_OrganizationProfileSpec (toJSON json_OrganizationProfileSpec s) = Some (normalProfile s) /\
     toJSON json_OrganizationProfileSpec (normalProfile s) = toJSON json_OrganizationProfileSpec s) /\
  (forall s, fitsProject s ->
     fromJSON json_OrganizationProjectSpec (toJSON json_OrganizationProjectSpec s) = Some (normalProject s) /\
     toJSON json_OrganizationProjectSpec (normalProject s) = toJSON json_OrganizationProjectSpec s) /\
  (forall s, fitsMaaS s ->
     fromJSON json_MaaSConfigurationSpec (toJSON json_MaaSConfigurationSpec s) = Some s).
Proof.
  split_and!; intros s.
  - by apply OrganizationSpec_codec.
  - intros Hs. split; [by apply OrganizationProfileSpec_codec|apply toJSON_normalProfile].
  - intros Hs. split; [by apply OrganizationProjectSpec_codec|apply toJSON_normalProject].
  - by apply MaaSConfigurationSpec_codec.
Qed.
