(* ===== verification/Schema.v ===== *)
(** The schemas of the four resources: the kubebuilder:validation and kubebuilder:default
    markers of api/v1alpha1, from which the custom resource definitions in config/crd are
    generated.

    The API server checks a spec against its schema before any webhook sees it;
    [SchemaServer] and [SchemaLaws] say what that means. *)

From stdpp Require Import gmap strings list.
From Stdlib Require Import ZArith.
From S2P Require Import Prelude Platform Api.

Local Open Scope string_scope.

(* ------------------------------------------------------------------ *)
(** ** Schemas *)

(** A field of an object.  A field is required unless it is marked +optional or has the
    omitempty option. *)
Record Property (S : Type) := {
  p_name : string;
  p_required : bool;
  p_default : option any;
  p_schema : S;
}.
Arguments p_name {S}.
Arguments p_required {S}.
Arguments p_default {S}.
Arguments p_schema {S}.

Inductive Schema :=
| SString (minLength1 : bool) (enum : list string)
| SInteger (minimum maximum : option Z)
| SArray (items : Schema)
| SObject (properties : list (Property Schema)).

(** The value has the type, the required fields and no unknown ones, and keeps to the
    bounds.  Numbers that are not integers of the tree are left open. *)
Fixpoint conforms (s : Schema) (v : any) {struct s} : bool :=
  match s, v with
  | SString ne enum, AStr x =>
      (negb ne || negb (bool_decide (x = ""))) && (bool_decide (enum = []) || slices_Contains enum x)
  | SInteger lo hi, AInt z =>
      match lo with Some l => l <=? z | None => true end%Z && match hi with Some h => z <=? h | None => true end%Z
  | SInteger _ _, AFloat _ => true
  | SArray items, ASlice l => forallb (conforms items) l
  | SObject ps, AMap m =>
      forallb (fun p => match m !! p_name p with
                        | Some v => conforms (p_schema p) v
                        | None => negb (p_required p)
                        end) ps &&
      bool_decide (map_Forall (fun k _ => k ∈ map p_name ps) m)
  | _, _ => false
  end.

(** Its numbers are int32s.  The int32 format of a schema is not among those the API
    server checks. *)
Fixpoint fits32 (s : Schema) (v : any) {struct s} : bool :=
  match s, v with
  | SInteger _ _, AInt z => bool_decide (int32_range z)
  | SInteger _ _, _ => false
  | SArray items, ASlice l => forallb (fits32 items) l
  | SObject ps, AMap m =>
      forallb (fun p => match m !! p_name p with Some v => fits32 (p_schema p) v | None => true end) ps
  | _, _ => true
  end.

(** Absent fields get their defaults. *)
Fixpoint defaulted (s : Schema) (v : any) {struct s} : any :=
  match s, v with
  | SArray items, ASlice l => ASlice (map (defaulted items) l)
  | SObject ps, AMap m =>
      AMap (fold_right
              (fun p m => match m !! p_name p with
                          | Some v => <[p_name p := defaulted (p_schema p) v]> m
                          | None => match p_default p with Some d => <[p_name p := d]> m | None => m end
                          end) m ps)
  | _, v => v
  end.

(* ------------------------------------------------------------------ *)
(** ** The markers *)

Definition property (req : bool) (d : option any) (name : string) (s : Schema) : Property Schema :=
  {| p_name := name; p_required := req; p_default := d; p_schema := s |}.
Definition required : string -> Schema -> Property Schema := property true None.
Definition optional : string -> Schema -> Property Schema := property false None.
Definition withDefault (d : any) : string -> Schema -> Property Schema := property false (Some d).

Definition anyString : Schema := SString false [].
Definition minLength1 : Schema := SString true [].
Definition oneOf (enum : list string) : Schema := SString false enum.
Definition anyInteger : Schema := SInteger None None.

Definition schema_Subject : Schema :=
  SObject [required "kind" (oneOf ["User"; "Group"; "ServiceAccount"]); required "name" minLength1;
           optional "namespace" anyString].

Definition schema_OrganizationReference : Schema := SObject [required "name" minLength1].

Definition schema_OIDCConfig : Schema := SObject [required "issuerUrl" minLength1].

Definition schema_GatewayReference : Schema :=
  SObject [required "group" minLength1; required "kind" minLength1; required "name" minLength1;
           optional "namespace" anyString].

Definition schema_OrganizationPlatformConfig : Schema :=
  SObject [optional "oidc" schema_OIDCConfig; optional "ingressGatewayRef" schema_GatewayReference].

Definition presets : list string := ["none"; "tenant"; "strict"].

Definition schema_ProjectDefaults : Schema :=
  SObject [withDefault (AStr "tenant") "networkIsolation" (oneOf presets);
           withDefault (AInt 0) "maxProjects" (SInteger (Some 0%Z) None)].

Definition schema_OrganizationProfileSpec : Schema :=
  SObject [required "organizationRef" schema_OrganizationReference;
           optional "admins" (SArray schema_Subject);
           optional "defaults" schema_ProjectDefaults;
           optional "platform" schema_OrganizationPlatformConfig].

Definition schema_OrganizationSpec : Schema := SObject [optional "parent" anyString].

Definition schema_NetworkGrant : Schema :=
  SObject [required "to" minLength1; required "direction" (oneOf ["ingress"; "egress"]);
           optional "ports" (SArray (SInteger (Some 1%Z) (Some 65535%Z)))].

Definition schema_ProjectUser : Schema :=
  SObject [required "kind" (oneOf ["User"; "Group"; "ServiceAccount"]); required "name" minLength1;
           optional "namespace" anyString; required "role" (oneOf ["edit"; "view"])].

Definition schema_OrganizationProjectSpec : Schema :=
  SObject [required "organizationRef" schema_OrganizationReference;
           optional "users" (SArray schema_ProjectUser);
           optional "networkIsolation" (oneOf presets);
           optional "networkGrants" (SArray schema_NetworkGrant)].

Definition schema_MaaSOIDC : Schema := SObject [required "clientId" minLength1].

Definition schema_MaaSCertificateRef : Schema :=
  SObject [required "name" minLength1; optional "namespace" anyString].

Definition schema_MaaSTLS : Schema := SObject [required "certificateRef" schema_MaaSCertificateRef].

Definition schema_MaaSQuotas : Schema :=
  SObject [optional "maxModels" anyInteger; optional "maxSubscriptions" anyInteger;
           optional "maxApiKeys" anyInteger].

Definition schema_MaaSConfigurationSpec : Schema :=
  SObject [required "organizationRef" schema_OrganizationReference;
           optional "oidc" schema_MaaSOIDC; optional "tls" schema_MaaSTLS;
           optional "quotas" schema_MaaSQuotas].

(* ------------------------------------------------------------------ *)
(** ** The API server *)

Class SchemaServer := {
  (** what is stored for a request with this spec, if it is not refused *)
  storedAs : Schema -> any -> option any;
}.

Class SchemaLaws (S : SchemaServer) : Prop := {
  stored_conforms s v v' : storedAs s v = Some v' -> conforms s v' = true;
  stored_accepts s v :
    conforms s (defaulted s v) = true -> fits32 s (defaulted s v) = true ->
    storedAs s v = Some (defaulted s v);
}.
