(* ===== verification/SchemaTheorems.v ===== *)
(** What the schemas promise the code: every spec the API server stores decodes, and the
    decoded value keeps to the markers; every such value is accepted when it is written. *)

From stdpp Require Import gmap strings list.
From Stdlib Require Import ZArith.
From S2P Require Import Prelude Platform Api Json JsonTheorems Schema.

Local Open Scope string_scope.
Local Open Scope json_scope.

(* ------------------------------------------------------------------ *)
(** ** A schema and a type *)

(** Schema [s] describes exactly the values of Go type [t] with [valid]. *)
Record Describes {T} (s : Schema) (t : GoType T) (valid : T -> Prop) : Prop := {
  d_decode v : conforms s v = true -> fits32 s v = true -> exists x, fromJSON t v = Some x /\ valid x;
  d_encode x : valid x -> conforms s (toJSON t x) = true /\ fits32 s (toJSON t x) = true;
}.

(** The check of one property of an object. *)
Definition checked (m : gmap string any) (p : Property Schema) : Prop :=
  match m !! p_name p with
  | Some v => conforms (p_schema p) v = true /\ fits32 (p_schema p) v = true
  | None => p_required p = false
  end.

Record DescribesFields {A} (ps : list (Property Schema)) (f : Fields A) (valid : A -> Prop) : Prop := {
  df_names : map p_name ps = names f;
  df_keys x k : k ∈ (marshalFields f x).*1 -> k ∈ names f;
  df_decode m : Forall (checked m) ps -> exists x, unmarshalFields f m = Some x /\ valid x;
  df_encode m x : valid x ->
    (forall k, k ∈ names f -> m !! k = (list_to_map (marshalFields f x) : gmap string any) !! k) ->
    Forall (checked m) ps;
}.

Lemma conforms_not_nil s : conforms s ANil = false.
Proof. by destruct s. Qed.

Lemma conforms_unmarshal {T} s (t : GoType T) v : conforms s v = true -> unmarshal t v = fromJSON t v.
Proof. destruct v; [by rewrite conforms_not_nil|done..]. Qed.

Lemma conforms_object ps m :
  (conforms (SObject ps) (AMap m) = true /\ fits32 (SObject ps) (AMap m) = true) <->
  Forall (checked m) ps /\ map_Forall (fun k _ => k ∈ map p_name ps) m.
Proof.
  simpl. rewrite andb_true_iff, bool_decide_eq_true, !forallb_forall.
  rewrite List.Forall_forall. unfold checked. split.
  - intros [[H1 H2] H3]. split; [|done]. intros p Hp. specialize (H1 p Hp). specialize (H3 p Hp).
    destruct (m !! p_name p); [done|]. by apply negb_true_iff.
  - intros [H1 H2]. split_and!; [|done|]; intros p Hp; specialize (H1 p Hp);
      destruct (m !! p_name p); try done; [by destruct H1|by rewrite H1|by destruct H1].
Qed.

Lemma describes_string ne enum (valid : string -> Prop) :
  (forall x, valid x <-> (ne = true -> x <> "") /\ (enum <> [] -> x ∈ enum)) ->
  Describes (SString ne enum) goString valid.
Proof.
  intros Hv. assert (forall x, conforms (SString ne enum) (AStr x) = true <-> valid x) as Hc.
  { intros x. rewrite Hv. simpl. unfold slices_Contains.
    rewrite andb_true_iff, !orb_true_iff, !negb_true_iff, !bool_decide_eq_true, bool_decide_eq_false.
    destruct ne; (destruct (decide (enum = [])) as [->|]); naive_solver. }
  split.
  - intros []; try done. intros Hs _. exists s. split; [done|]. by apply Hc.
  - intros x Hx. by rewrite Hc.
Qed.

Lemma describes_integer lo hi (valid : Z -> Prop) :
  (forall z, valid z <-> int32_range z /\ (forall l, lo = Some l -> l <= z)%Z /\ (forall h, hi = Some h -> z <= h)%Z) ->
  Describes (SInteger lo hi) goInt32 valid.
Proof.
  intros Hv. assert (forall z, (conforms (SInteger lo hi) (AInt z) = true /\ fits32 (SInteger lo hi) (AInt z) = true) <-> valid z) as Hc.
  { intros z. rewrite Hv. simpl. rewrite andb_true_iff, bool_decide_eq_true.
    destruct lo, hi; rewrite ?Z.leb_le; naive_solver. }
  split.
  - intros []; try done. intros H1 H2. assert (valid z) as Hz by by apply Hc. exists z. split; [|done].
    simpl. rewrite decide_True; [done|]. by apply Hv in Hz as [? _].
  - intros z. apply Hc.
Qed.

Lemma describes_array {T} s (t : GoType T) valid :
  Describes s t valid ->
  Describes (SArray s) (goSlice t) (fun l => exists l', l = Some l' /\ Forall valid l').
Proof.
  intros [Hd He]. split.
  - intros []; try done. simpl. rewrite !forallb_forall. intros H1 H2.
    assert (exists l', mapM (unmarshal t) l = Some l' /\ Forall valid l') as (l' & -> & Hl).
    { induction l as [|v l IH]; [exists []; split; [done|constructor]|].
      destruct IH as (l' & Hl' & Hv); [intros x Hx; apply H1; by right|intros x Hx; apply H2; by right|].
      destruct (Hd v) as (x & Hx & Hvx); [apply H1; by left|apply H2; by left|].
      exists (x :: l'). simpl. rewrite (conforms_unmarshal s) by (apply H1; by left). rewrite Hx. simpl. rewrite Hl'.
      split; [done|by constructor]. }
    exists (Some l'). split; [done|]. by exists l'.
  - intros l (l' & -> & Hl). simpl. rewrite !forallb_forall.
    split; intros v Hin; apply in_map_iff in Hin as (x & <- & Hin);
      (rewrite Forall_forall in Hl; apply He, Hl; by apply list_elem_of_In).
Qed.

Lemma describes_ptr {T} s (t : GoType T) valid :
  Describes s t valid -> Describes s (goPtr t) (fun p => exists x, p = Some x /\ valid x).
Proof.
  intros [Hd He]. split.
  - intros v H1 H2. destruct (Hd v H1 H2) as (x & Hx & Hv). exists (Some x). split; [|by exists x].
    simpl. destruct v; try (by rewrite Hx). by rewrite conforms_not_nil in H1.
  - intros p (x & -> & Hx). by apply He.
Qed.

Lemma describes_required {T} name s (t : GoType T) valid :
  Describes s t valid -> DescribesFields [required name s] (field name t) valid.
Proof.
  intros [Hd He]. constructor; [done|by intros x k| |].
  - intros m Hm. rewrite Forall_singleton in Hm. unfold checked, required, field in *. simpl in *.
    destruct (m !! name) as [v|]; [|done]. destruct Hm as [H1 H2]. rewrite (conforms_unmarshal s) by done. auto.
  - intros m x Hx Hm. apply Forall_singleton. unfold checked, required, field in *. simpl in *.
    rewrite Hm by constructor. rewrite lookup_insert_eq. auto.
Qed.

Lemma describes_optional {T} name d s (t : GoType T) valid :
  Describes s t valid -> isEmpty t (zero t) = true \/ valid (zero t) ->
  DescribesFields [property false d name s] (omitempty name t) (fun x => isEmpty t x = true \/ valid x).
Proof.
  intros [Hd He] Hz. constructor; [done| | |].
  - intros x k. simpl. destruct (isEmpty t x); simpl; [by intros ?%elem_of_nil|done].
  - intros m Hm. rewrite Forall_singleton in Hm. unfold checked in Hm. simpl in *.
    destruct (m !! name) as [v|]; [|by exists (zero t)].
    destruct Hm as [H1 H2]. rewrite (conforms_unmarshal s) by done.
    destruct (Hd v H1 H2) as (x & Hx & Hv). exists x. auto.
  - intros m x Hx Hm. apply Forall_singleton. unfold checked. simpl in *. rewrite Hm by constructor.
    destruct (isEmpty t x) eqn:E; simpl; [by rewrite lookup_empty|].
    rewrite lookup_insert_eq. destruct Hx; [done|]. auto.
Qed.

Lemma describes_both {A B} ps1 ps2 (f : Fields A) (g : Fields B) valid1 valid2 :
  DescribesFields ps1 f valid1 -> DescribesFields ps2 g valid2 ->
  bool_decide (Forall (fun k => k ∉ names g) (names f)) = true ->
  DescribesFields (ps1 ++ ps2) (f ⊗ g) (fun x => valid1 (fst x) /\ valid2 (snd x)).
Proof.
  intros [Hn1 Hk1 Hd1 He1] [Hn2 Hk2 Hd2 He2] Hdis%bool_decide_eq_true. rewrite Forall_forall in Hdis. constructor.
  - by rewrite map_app, Hn1, Hn2.
  - intros [x y] k. simpl. rewrite fmap_app, !elem_of_app. intros [H|H]; [left|right]; eauto.
  - intros m [H1 H2]%Forall_app. destruct (Hd1 m H1) as (x & Hx & Hv), (Hd2 m H2) as (y & Hy & Hw).
    exists (x, y). simpl. by rewrite Hx, Hy.
  - intros m [x y] [Hx Hy] Hm. simpl in *. apply Forall_app. split; [apply (He1 _ x Hx)|apply (He2 _ y Hy)];
      intros k Hk; rewrite Hm by (apply elem_of_app; auto); rewrite list_to_map_app.
    + rewrite lookup_union_l; [done|]. apply not_elem_of_list_to_map_1. intros Hin. by eapply Hdis, Hk2.
    + rewrite lookup_union_r; [done|]. apply not_elem_of_list_to_map_1. intros Hin. by eapply Hdis; [eapply Hk1|].
Qed.

Lemma describes_struct {A T} ps (f : Fields A) (make : A -> T) parts valid (valid' : T -> Prop) :
  DescribesFields ps f valid -> (forall a, valid a -> valid' (make a)) -> (forall x, valid' x -> valid (parts x)) ->
  Describes (SObject ps) (struct f make parts) valid'.
Proof.
  intros [Hn Hk Hd He] Hv1 Hv2. split.
  - intros [| | | | | |m]; try done. intros H1 H2.
    destruct (proj1 (conforms_object ps m) (conj H1 H2)) as [Hc _].
    destruct (Hd m Hc) as (a & Ha & Hv). exists (make a). simpl. rewrite Ha. auto.
  - intros x Hx. apply conforms_object. split; [by apply (He _ (parts x)); [apply Hv2|]|].
    intros k v Hv. rewrite Hn. apply (Hk (parts x)). apply elem_of_list_to_map_2 in Hv.
    apply list_elem_of_fmap. by exists (k, v).
Qed.

(* ------------------------------------------------------------------ *)
(** ** The types *)

Lemma describes_any : Describes anyString goString (fun _ => True).
Proof. apply describes_string. naive_solver. Qed.
Lemma describes_minLength1 : Describes minLength1 goString (fun x => x <> "").
Proof. apply describes_string. naive_solver. Qed.
Lemma describes_oneOf enum : enum <> [] -> Describes (oneOf enum) goString (fun x => x ∈ enum).
Proof. intros H. apply describes_string. naive_solver. Qed.
Lemma describes_bounds lo hi :
  Describes (SInteger lo hi) goInt32
    (fun z => int32_range z /\ (forall l, lo = Some l -> l <= z)%Z /\ (forall h, hi = Some h -> z <= h)%Z).
Proof. by apply describes_integer. Qed.

Create HintDb schema.
#[export] Hint Resolve describes_any describes_minLength1 describes_oneOf describes_bounds describes_array
  describes_ptr describes_required describes_optional : schema.
#[export] Hint Extern 1 (isEmpty _ (zero _) = true \/ _) => left; reflexivity : schema.
#[export] Hint Extern 1 (_ <> []) => discriminate : schema.

(** Splits the properties of an object as its fields are. *)
Ltac describe_fields :=
  lazymatch goal with
  | |- DescribesFields ?ps (both ?f ?g) _ =>
      let n := eval cbv in (length (names f)) in
      let ps1 := eval cbv [firstn] in (firstn n ps) in
      let ps2 := eval cbv [skipn] in (skipn n ps) in
      change ps with (ps1 ++ ps2)%list; eapply describes_both; [describe_fields|describe_fields|reflexivity]
  | |- _ => eauto with schema
  end.
Ltac describe := eapply describes_struct; [describe_fields|cbn -[elems]|cbn -[elems]].

(** What "left out or valid" means for the optional types. *)
Lemma optional_slice {A} (P : A -> Prop) (s : slice A) :
  (bool_decide (length (elems s) = 0) = true \/ exists l, s = Some l /\ Forall P l) <-> Forall P (elems s).
Proof.
  rewrite bool_decide_eq_true. destruct s as [l|]; simpl; [|split; auto].
  split; [intros [H|(l' & [= <-] & H)]|]; [by destruct l|done|]. intros H. right. by exists l.
Qed.
Lemma optional_ptr {A} (P : A -> Prop) (p : option A) :
  (bool_decide (p = None) = true \/ exists x, p = Some x /\ P x) <-> forall x, p = Some x -> P x.
Proof. rewrite bool_decide_eq_true. destruct p; naive_solver. Qed.
Lemma optional_oneOf (s : string) enum : (bool_decide (s = "") = true \/ s ∈ enum) <-> s ∈ "" :: enum.
Proof. by rewrite bool_decide_eq_true, elem_of_cons. Qed.
Lemma optional_any (b : bool) : (b = true \/ True) <-> True.
Proof. tauto. Qed.
Lemma optional_struct (P : Prop) : (false = true \/ P) <-> P.
Proof. intuition discriminate. Qed.

Ltac valid :=
  intros ?; repeat match goal with x : _ * _ |- _ => destruct x end; cbn [fst snd];
  rewrite ?optional_slice, ?optional_ptr, ?optional_oneOf, ?optional_any, ?optional_struct; intros;
  cbn -[elems] in *; tauto.

Definition valid_Subject (s : Subject) : Prop :=
  subject_Kind s ∈ ["User"; "Group"; "ServiceAccount"] /\ subject_Name s <> "".
Lemma Subject_described : Describes schema_Subject json_Subject valid_Subject.
Proof. describe; unfold valid_Subject; valid. Qed.

Definition valid_OrganizationReference (r : OrganizationReference) : Prop := ref_Name r <> "".
Lemma OrganizationReference_described :
  Describes schema_OrganizationReference json_OrganizationReference valid_OrganizationReference.
Proof. describe; unfold valid_OrganizationReference; valid. Qed.

Definition valid_OIDCConfig (o : OIDCConfig) : Prop := IssuerURL o <> "".
Lemma OIDCConfig_described : Describes schema_OIDCConfig json_OIDCConfig valid_OIDCConfig.
Proof. describe; unfold valid_OIDCConfig; valid. Qed.

Definition valid_GatewayReference (g : GatewayReference) : Prop :=
  gw_Group g <> "" /\ gw_Kind g <> "" /\ gw_Name g <> "".
Lemma GatewayReference_described : Describes schema_GatewayReference json_GatewayReference valid_GatewayReference.
Proof. describe; unfold valid_GatewayReference; valid. Qed.
#[export] Hint Resolve Subject_described OrganizationReference_described OIDCConfig_described
  GatewayReference_described : schema.

Definition valid_OrganizationPlatformConfig (c : OrganizationPlatformConfig) : Prop :=
  (forall o, platform_OIDC c = Some o -> valid_OIDCConfig o) /\
  (forall g, IngressGatewayRef c = Some g -> valid_GatewayReference g).
Lemma OrganizationPlatformConfig_described :
  Describes schema_OrganizationPlatformConfig json_OrganizationPlatformConfig valid_OrganizationPlatformConfig.
Proof. describe; unfold valid_OrganizationPlatformConfig; valid. Qed.

Definition valid_ProjectDefaults (d : ProjectDefaults) : Prop :=
  default_NetworkIsolation d ∈ "" :: presets /\ (0 <= MaxProjects d < 2 ^ 31)%Z.
Lemma ProjectDefaults_described : Describes schema_ProjectDefaults json_ProjectDefaults valid_ProjectDefaults.
Proof.
  describe; unfold valid_ProjectDefaults.
  - intros [i n]. cbn [fst snd]. rewrite optional_oneOf, bool_decide_eq_true. unfold int32_range.
    intros [Hi [->|(Hr & Hl & _)]]; split; try done. simpl. specialize (Hl 0%Z eq_refl). lia.
  - intros [i n]. rewrite optional_oneOf. simpl. intros [Hi Hn]. split; [done|]. right.
    unfold int32_range. split; [lia|]. split; [intros l [= <-]; lia|done].
Qed.
Lemma ProjectDefaults_zero :
  isEmpty json_ProjectDefaults (zero json_ProjectDefaults) = true \/ valid_ProjectDefaults (zero json_ProjectDefaults).
Proof. right. split; [by left|]. simpl. lia. Qed.
#[export] Hint Resolve OrganizationPlatformConfig_described ProjectDefaults_described ProjectDefaults_zero : schema.

Definition valid_OrganizationProfileSpec (s : OrganizationProfileSpec) : Prop :=
  valid_OrganizationReference (profile_OrganizationRef s) /\ Forall valid_Subject (elems (Admins s)) /\
  valid_ProjectDefaults (Defaults s) /\
  (forall c, profile_Platform s = Some c -> valid_OrganizationPlatformConfig c).
Lemma OrganizationProfileSpec_described :
  Describes schema_OrganizationProfileSpec json_OrganizationProfileSpec valid_OrganizationProfileSpec.
Proof. describe; unfold valid_OrganizationProfileSpec; valid. Qed.

Lemma OrganizationSpec_described : Describes schema_OrganizationSpec json_OrganizationSpec (fun _ => True).
Proof. describe; valid. Qed.

Definition valid_NetworkGrant (g : NetworkGrant) : Prop :=
  To g <> "" /\ Direction g ∈ ["ingress"; "egress"] /\ Forall (fun p => (1 <= p <= 65535)%Z) (elems (Ports g)).
Lemma ports_described :
  Describes (SInteger (Some 1%Z) (Some 65535%Z)) goInt32 (fun p => (1 <= p <= 65535)%Z).
Proof.
  apply describes_integer. intros z. unfold int32_range. split.
  - intros H. split; [lia|]. split; intros ? [= <-]; lia.
  - intros (_ & H1 & H2). specialize (H1 1%Z eq_refl). specialize (H2 65535%Z eq_refl). lia.
Qed.
#[export] Hint Resolve ports_described | 0 : schema.
Lemma NetworkGrant_described : Describes schema_NetworkGrant json_NetworkGrant valid_NetworkGrant.
Proof. describe; unfold valid_NetworkGrant; valid. Qed.

Definition valid_ProjectUser (u : ProjectUser) : Prop :=
  pu_Kind u ∈ ["User"; "Group"; "ServiceAccount"] /\ pu_Name u <> "" /\ pu_Role u ∈ ["edit"; "view"].
Lemma ProjectUser_described : Describes schema_ProjectUser json_ProjectUser valid_ProjectUser.
Proof. describe; unfold valid_ProjectUser; valid. Qed.
#[export] Hint Resolve NetworkGrant_described ProjectUser_described : schema.

Definition valid_OrganizationProjectSpec (s : OrganizationProjectSpec) : Prop :=
  valid_OrganizationReference (project_OrganizationRef s) /\ Forall valid_ProjectUser (elems (Users s)) /\
  NetworkIsolation s ∈ "" :: presets /\ Forall valid_NetworkGrant (elems (NetworkGrants s)).
Lemma OrganizationProjectSpec_described :
  Describes schema_OrganizationProjectSpec json_OrganizationProjectSpec valid_OrganizationProjectSpec.
Proof. describe; unfold valid_OrganizationProjectSpec; valid. Qed.

Definition valid_MaaSOIDC (o : MaaSOIDC) : Prop := ClientID o <> "".
Lemma MaaSOIDC_described : Describes schema_MaaSOIDC json_MaaSOIDC valid_MaaSOIDC.
Proof. describe; unfold valid_MaaSOIDC; valid. Qed.
Definition valid_MaaSCertificateRef (c : MaaSCertificateRef) : Prop := cert_Name c <> "".
Lemma MaaSCertificateRef_described :
  Describes schema_MaaSCertificateRef json_MaaSCertificateRef valid_MaaSCertificateRef.
Proof. describe; unfold valid_MaaSCertificateRef; valid. Qed.
#[export] Hint Resolve MaaSOIDC_described MaaSCertificateRef_described : schema.
Definition valid_MaaSTLS (t : MaaSTLS) : Prop := valid_MaaSCertificateRef (CertificateRef t).
Lemma MaaSTLS_described : Describes schema_MaaSTLS json_MaaSTLS valid_MaaSTLS.
Proof. describe; unfold valid_MaaSTLS; valid. Qed.

Definition valid_MaaSQuotas (q : MaaSQuotas) : Prop :=
  int32_range (MaxModels q) /\ int32_range (MaxSubscriptions q) /\ int32_range (MaxAPIKeys q).
Lemma anyInteger_described : Describes anyInteger goInt32 int32_range.
Proof. apply describes_integer. naive_solver. Qed.
#[export] Hint Resolve anyInteger_described | 0 : schema.
Lemma optional_int32 (z : Z) : (bool_decide (z = 0%Z) = true \/ int32_range z) <-> int32_range z.
Proof. rewrite bool_decide_eq_true. split; [intros [->|]; done|auto]. Qed.
Lemma MaaSQuotas_described : Describes schema_MaaSQuotas json_MaaSQuotas valid_MaaSQuotas.
Proof.
  describe; unfold valid_MaaSQuotas; intros ?; repeat match goal with x : _ * _ |- _ => destruct x end; cbn [fst snd];
    rewrite !optional_int32; simpl; tauto.
Qed.
#[export] Hint Resolve MaaSTLS_described MaaSQuotas_described : schema.

Definition valid_MaaSConfigurationSpec (s : MaaSConfigurationSpec) : Prop :=
  valid_OrganizationReference (maas_OrganizationRef s) /\
  (forall o, maas_OIDC s = Some o -> valid_MaaSOIDC o) /\ (forall t, maas_TLS s = Some t -> valid_MaaSTLS t) /\
  (forall q, maas_Quotas s = Some q -> valid_MaaSQuotas q).
Lemma MaaSConfigurationSpec_described :
  Describes schema_MaaSConfigurationSpec json_MaaSConfigurationSpec valid_MaaSConfigurationSpec.
Proof. describe; unfold valid_MaaSConfigurationSpec; valid. Qed.

(* ------------------------------------------------------------------ *)
(** ** Defaults *)

Fixpoint noDefaults (s : Schema) : bool :=
  match s with
  | SString _ _ | SInteger _ _ => true
  | SArray items => noDefaults items
  | SObject ps => forallb (fun p => bool_decide (p_default p = None) && noDefaults (p_schema p)) ps
  end.

Lemma defaulted_id : forall s v, noDefaults s = true -> defaulted s v = v.
Proof.
  fix IH 1. intros [ne enum|lo hi|items|ps] v Hs; [done|done| |].
  - destruct v as [| | | | |l|]; try done. simpl. f_equal.
    induction l as [|x l IHl]; [done|]. simpl. by rewrite IH, IHl.
  - destruct v as [| | | | | |m]; try done. simpl. f_equal.
    induction ps as [|[n r d s] ps IHp]; [done|]. simpl in Hs |- *.
    apply andb_true_iff in Hs as [[Hd%bool_decide_eq_true Hs]%andb_true_iff Hps].
    rewrite IHp by done. destruct (m !! n) as [v|] eqn:Hv.
    + rewrite IH by done. by apply insert_id.
    + by rewrite Hd.
Qed.

(** The defaults of a profile's defaults. *)
Definition withIsolation (d : ProjectDefaults) : ProjectDefaults :=
  {| default_NetworkIsolation :=
       if decide (default_NetworkIsolation d = "") then "tenant" else default_NetworkIsolation d;
     MaxProjects := MaxProjects d |}.

Lemma defaulted_ProjectDefaults d :
  exists m, defaulted schema_ProjectDefaults (toJSON json_ProjectDefaults d) = AMap m /\
    m !! "networkIsolation" = Some (AStr (default_NetworkIsolation (withIsolation d))) /\
    m !! "maxProjects" = Some (AInt (MaxProjects d)) /\
    forall k v, m !! k = Some v -> k ∈ ["networkIsolation"; "maxProjects"].
Proof.
  set (m0 := list_to_map (marshalFields (omitempty "networkIsolation" goString ⊗ omitempty "maxProjects" goInt32)
    (default_NetworkIsolation d, MaxProjects d)) : gmap string any).
  change (toJSON json_ProjectDefaults d) with (AMap m0).
  assert (m0 !! "networkIsolation" = if decide (default_NetworkIsolation d = "") then None
                                     else Some (AStr (default_NetworkIsolation d))) as Hi.
  { subst m0. cbn. repeat case_bool_decide; case_decide; done || by simplify_map_eq. }
  assert (m0 !! "maxProjects" = if decide (MaxProjects d = 0%Z) then None else Some (AInt (MaxProjects d))) as Hn.
  { subst m0. cbn. repeat case_bool_decide; case_decide; done || by simplify_map_eq. }
  assert (forall k v, m0 !! k = Some v -> k ∈ ["networkIsolation"; "maxProjects"]) as Hk.
  { intros k v Hv. subst m0. apply elem_of_list_to_map_2, (list_elem_of_fmap_2 fst) in Hv.
    revert Hv. cbn. repeat case_bool_decide; cbn; set_solver. }
  clearbody m0. unfold withIsolation. cbn. eexists. split; [reflexivity|]. rewrite Hn.
  destruct (decide (MaxProjects d = 0%Z)) as [->|]; (rewrite lookup_insert_ne by done); rewrite Hi;
    destruct (decide (default_NetworkIsolation d = "")); simplify_map_eq; split_and!; try done;
    intros k v; rewrite !lookup_insert_Some; intros Hkv; destruct_or?; destruct_and?; subst; eauto; set_solver.
Qed.

Definition withDefaults (s : OrganizationProfileSpec) : OrganizationProfileSpec :=
  {| profile_OrganizationRef := profile_OrganizationRef s; Admins := Admins s;
     Defaults := withIsolation (Defaults s); profile_Platform := profile_Platform s |}.

(** The defaults of one field. *)
Definition defaultField (p : Property Schema) (m : gmap string any) : gmap string any :=
  match m !! p_name p with
  | Some v => <[p_name p := defaulted (p_schema p) v]> m
  | None => match p_default p with Some d => <[p_name p := d]> m | None => m end
  end.
Lemma defaultField_id p m :
  p_default p = None -> noDefaults (p_schema p) = true -> defaultField p m = m.
Proof.
  intros Hd Hs. unfold defaultField. destruct (m !! p_name p) as [v|] eqn:Hv; [|by rewrite Hd].
  rewrite defaulted_id by done. by apply insert_id.
Qed.

(** Only the defaults of a profile change. *)
Lemma defaulted_profile_map m d :
  m !! "defaults" = Some d ->
  defaulted schema_OrganizationProfileSpec (AMap m) =
  AMap (<["defaults" := defaulted schema_ProjectDefaults d]> m).
Proof.
  intros Hd.
  change (defaulted schema_OrganizationProfileSpec (AMap m)) with
    (AMap (defaultField (required "organizationRef" schema_OrganizationReference)
      (defaultField (optional "admins" (SArray schema_Subject))
        (defaultField (optional "defaults" schema_ProjectDefaults)
          (defaultField (optional "platform" schema_OrganizationPlatformConfig) m))))).
  rewrite (defaultField_id (optional "platform" _)) by done.
  assert (defaultField (optional "defaults" schema_ProjectDefaults) m =
          <["defaults" := defaulted schema_ProjectDefaults d]> m) as ->
    by (unfold defaultField; simpl; by rewrite Hd).
  rewrite (defaultField_id (optional "admins" _)) by done.
  by rewrite (defaultField_id (required "organizationRef" _)) by done.
Qed.

Lemma ProjectDefaults_defaulted d :
  valid_ProjectDefaults d ->
  let v := defaulted schema_ProjectDefaults (toJSON json_ProjectDefaults d) in
  conforms schema_ProjectDefaults v = true /\ fits32 schema_ProjectDefaults v = true /\
  unmarshal json_ProjectDefaults v = Some (withIsolation d).
Proof.
  intros [Hi Hn] v. destruct (defaulted_ProjectDefaults d) as (m & Hm & H1 & H2 & Hk). subst v. rewrite Hm.
  assert (default_NetworkIsolation (withIsolation d) ∈ presets) as Hp.
  { unfold withIsolation. simpl. case_decide; [by right; left|]. by apply elem_of_cons in Hi as [?|?]. }
  apply Logic.and_assoc. split.
  - apply conforms_object. split; [|intros k v Hv; by apply (Hk k v)].
    rewrite Forall_cons, Forall_singleton. unfold checked. simpl. rewrite H1, H2. simpl. unfold slices_Contains.
    rewrite (bool_decide_true _ Hp), !bool_decide_eq_true, andb_true_iff, Z.leb_le.
    unfold int32_range. split; [done|]. split; [split; [lia|done]|lia].
  - assert (int32_range (MaxProjects d)) as Hr by (unfold int32_range; lia).
    simpl. rewrite H1, H2. simpl. by destruct (decide (int32_range (MaxProjects d))).
Qed.

(** The fields of a profile's spec, as the codec has them. *)
Abbreviation profileFields :=
  (field "organizationRef" json_OrganizationReference ⊗ omitempty "admins" (goSlice json_Subject) ⊗
   omitempty "defaults" json_ProjectDefaults ⊗ omitempty "platform" (goPtr json_OrganizationPlatformConfig)).

Lemma both_unmarshal {A B} (f : Fields A) (g : Fields B) m x y :
  unmarshalFields (f ⊗ g) m = Some (x, y) <-> unmarshalFields f m = Some x /\ unmarshalFields g m = Some y.
Proof. simpl. destruct (unmarshalFields f m), (unmarshalFields g m); simpl; naive_solver. Qed.
Lemma tagged_insert_ne {T} b name (t : GoType T) k v m :
  name <> k -> unmarshalFields (tagged b name t) (<[k := v]> m) = unmarshalFields (tagged b name t) m.
Proof. intros Hk. simpl. by rewrite lookup_insert_ne. Qed.
Lemma tagged_insert_eq {T} b name (t : GoType T) v m :
  unmarshalFields (tagged b name t) (<[name := v]> m) = unmarshal t v.
Proof. simpl. by rewrite lookup_insert_eq. Qed.

(** Replacing the defaults replaces the decoded defaults. *)
Lemma unmarshal_defaults m r a d p d' v :
  unmarshalFields profileFields m = Some (r, a, d, p) -> unmarshal json_ProjectDefaults v = Some d' ->
  unmarshalFields profileFields (<["defaults" := v]> m) = Some (r, a, d', p).
Proof.
  rewrite !both_unmarshal. unfold field, omitempty. rewrite tagged_insert_eq, !tagged_insert_ne by done. tauto.
Qed.

(** A valid profile is accepted with its defaults filled in, and comes back as such. *)
Lemma OrganizationProfileSpec_defaulted s :
  valid_OrganizationProfileSpec s ->
  let v := defaulted schema_OrganizationProfileSpec (toJSON json_OrganizationProfileSpec s) in
  conforms schema_OrganizationProfileSpec v = true /\ fits32 schema_OrganizationProfileSpec v = true /\
  fromJSON json_OrganizationProfileSpec v = Some (withDefaults (normalProfile s)).
Proof.
  intros Hs v. pose proof Hs as (_ & _ & Hd & _).
  assert (fitsProfile s) as Hf by (destruct Hd; unfold fitsProfile, int32_range; lia).
  pose proof (d_encode _ _ _ OrganizationProfileSpec_described s Hs) as Hc.
  pose proof (OrganizationProfileSpec_codec s Hf) as Hr.
  set (m := list_to_map (marshalFields profileFields
    (profile_OrganizationRef s, Admins s, Defaults s, profile_Platform s)) : gmap string any).
  change (toJSON json_OrganizationProfileSpec s) with (AMap m) in *.
  assert (m !! "defaults" = Some (toJSON json_ProjectDefaults (Defaults s))) as Hm.
  { subst m. erewrite lookup_both_l; [|eauto with json|apply (bool_decide_unpack _); reflexivity].
    erewrite lookup_both_r; [|eauto with json|apply (bool_decide_unpack _); reflexivity]. apply lookup_insert_eq. }
  subst v. rewrite (defaulted_profile_map m _ Hm).
  destruct (ProjectDefaults_defaulted (Defaults s) Hd) as (C1 & C2 & C3). apply Logic.and_assoc. split.
  - apply conforms_object in Hc as [Hc Hk]. apply conforms_object. split.
    + rewrite Forall_forall in Hc |- *. intros p Hp. specialize (Hc p Hp). unfold checked in *.
      destruct (decide (p_name p = "defaults")) as [E|E]; [|by rewrite lookup_insert_ne].
      rewrite E, lookup_insert_eq. apply list_elem_of_In in Hp. cbn in Hp.
      by destruct Hp as [<-|[<-|[<-|[<-|[]]]]]; cbn in E.
    + intros k w Hw. apply lookup_insert_Some in Hw as [[<- _]|[_ Hw]]; [by do 2 right; left|by apply (Hk k w)].
  - unfold unmarshal in Hr. unfold json_OrganizationProfileSpec in *. cbn [fromJSON struct] in *.
    apply fmap_Some in Hr as ([[[r a] d] p] & Hr & Heq). rewrite (unmarshal_defaults _ _ _ _ _ _ _ Hr C3). cbn [fmap option_fmap option_map].
    injection Heq as E1 E2 E3 E4. unfold withDefaults. cbn. by rewrite E1, E2, E4.
Qed.

(* ------------------------------------------------------------------ *)
(** ** The API server *)

Section server.
  Context `{S : !SchemaServer} `{SL : !SchemaLaws S}.

(** Every stored spec whose numbers are int32s decodes to a valid one. *)
Definition decodesTo {T} (s : Schema) (t : GoType T) (valid : T -> Prop) : Prop :=
  forall v v', storedAs s v = Some v' -> fits32 s v' = true -> exists x, fromJSON t v' = Some x /\ valid x.
(** Every valid spec is stored when it is written, and read back as [back] says. *)
Definition storedLike {T} (s : Schema) (t : GoType T) (valid : T -> Prop) (back : T -> T) : Prop :=
  forall x, valid x -> exists v', storedAs s (toJSON t x) = Some v' /\ fromJSON t v' = Some (back x).

Lemma described_decodes {T} s (t : GoType T) valid : Describes s t valid -> decodesTo s t valid.
Proof. intros [Hd _] v v' Hv Hf. apply Hd; [|done]. by eapply stored_conforms. Qed.

Lemma described_stored {A T} ps (f : Fields A) (make : A -> T) parts valid fits back :
  Describes (SObject ps) (struct f make parts) valid -> noDefaults (SObject ps) = true ->
  Codec (struct f make parts) fits back -> (forall x, valid x -> fits x) ->
  storedLike (SObject ps) (struct f make parts) valid back.
Proof.
  intros [_ He] Hn Hc Hf x Hx. destruct (He x Hx) as [H1 H2]. eexists. split.
  - rewrite stored_accepts; rewrite ?defaulted_id by done; done.
  - apply (Hc x). auto.
Qed.

Lemma valid_fitsProject s : valid_OrganizationProjectSpec s -> fitsProject s.
Proof.
  intros (_ & _ & _ & Hg). eapply Forall_impl; [exact Hg|]. intros g (_ & _ & Hp).
  eapply Forall_impl; [exact Hp|]. unfold int32_range. simpl. lia.
Qed.
Lemma valid_fitsMaaS s : valid_MaaSConfigurationSpec s -> fitsMaaS s.
Proof. intros (_ & _ & _ & H) q Hq. exact (H q Hq). Qed.

(** A MaaS spec that asks for [n] models. *)
Definition quotaSpec (n : Z) : MaaSConfigurationSpec :=
  {| maas_OrganizationRef := {| ref_Name := "research" |}; maas_OIDC := None; maas_TLS := None;
     maas_Quotas := Some {| MaxModels := n; MaxSubscriptions := 0; MaxAPIKeys := 0 |} |}.

Lemma maas_stored : storedLike schema_MaaSConfigurationSpec json_MaaSConfigurationSpec valid_MaaSConfigurationSpec id.
Proof. eapply described_stored; [apply MaaSConfigurationSpec_described|done|apply MaaSConfigurationSpec_codec|apply valid_fitsMaaS]. Qed.

(** C27: the schemas give the Go types their invariants.  Whatever spec the API server
    stores decodes, if its numbers are int32s, and the decoded value has a reference that
    is not empty, subjects and users of the three kinds with names, roles that are edit
    or view, presets that are none, tenant, strict or empty, a project quota that is not
    negative, ports between 1 and 65535, and names where a platform or MaaS setting is
    there at all.  The quotas of a MaaS spec are int32s and no more: a spec with a quota
    of any such value, a negative one too, is stored and read back. *)
Theorem stored_specs_typed :
  decodesTo schema_OrganizationSpec json_OrganizationSpec (fun _ => True) /\
  decodesTo schema_OrganizationProfileSpec json_OrganizationProfileSpec valid_OrganizationProfileSpec /\
  decodesTo schema_OrganizationProjectSpec json_OrganizationProjectSpec valid_OrganizationProjectSpec /\
  decodesTo schema_MaaSConfigurationSpec json_MaaSConfigurationSpec valid_MaaSConfigurationSpec /\
  (forall n, int32_range n -> exists v,
     storedAs schema_MaaSConfigurationSpec (toJSON json_MaaSConfigurationSpec (quotaSpec n)) = Some v /\
     fromJSON json_MaaSConfigurationSpec v = Some (quotaSpec n)).
Proof.
  split_and!; [apply described_decodes..|].
  - apply OrganizationSpec_described.
  - apply OrganizationProfileSpec_described.
  - apply OrganizationProjectSpec_described.
  - apply MaaSConfigurationSpec_described.
  - intros n Hn. apply (maas_stored (quotaSpec n)). split; [done|]. split; [done|]. split; [done|].
    intros q [= <-]. by split_and!.
Qed.

(** C28: a valid spec that the operator (or any Go client) writes is accepted by the schema
    and read back as written: the same organization or MaaS spec, the same project up to
    empty slices, and a profile with the default preset filled in where it had none.  The
    schema of a profile is the only one that changes what is written. *)
Theorem valid_specs_stored :
  storedLike schema_OrganizationSpec json_OrganizationSpec (fun _ => True) id /\
  storedLike schema_OrganizationProfileSpec json_OrganizationProfileSpec valid_OrganizationProfileSpec
    (fun s => withDefaults (normalProfile s)) /\
  storedLike schema_OrganizationProjectSpec json_OrganizationProjectSpec valid_OrganizationProjectSpec
    normalProject /\
  storedLike schema_MaaSConfigurationSpec json_MaaSConfigurationSpec valid_MaaSConfigurationSpec id.
Proof.
  split_and!.
  - eapply described_stored; [apply OrganizationSpec_described|done|apply OrganizationSpec_codec|done].
  - intros s Hs. destruct (OrganizationProfileSpec_defaulted s Hs) as (H1 & H2 & H3).
    eexists. split; [by apply stored_accepts|exact H3].
  - eapply described_stored;
      [apply OrganizationProjectSpec_described|done|apply OrganizationProjectSpec_codec|apply valid_fitsProject].
  - exact maas_stored.
Qed.
End server.
