(* ===== verification/SchemaEffects.v ===== *)
(** What the schemas add to the controllers: with specs that passed them, every user of a
    project gets a binding and every project one of the three presets. *)

From stdpp Require Import gmap strings list.
From Stdlib Require Import ZArith Ascii.
From S2P Require Import Prelude Platform Api Cluster Fake Authz Framework OrganizationCtl ProjectCtl NetPol.
From S2P Require Import ProjectSpecs ProjectPipeline ProjectTheorems.
From S2P Require Json JsonTheorems Schema SchemaTheorems.
Import Json Schema SchemaTheorems.

Local Open Scope string_scope.

Section effects.
  Context `{P : Platform} `{PL : !PlatformLaws P} `{C : !Cluster} `{L : !LawfulCluster C}.
  Context `{F : !Framework} `{FL : !FrameworkLaws F}.
  Abbreviation RR := (ReconciliationRequest OrganizationProject Extension).

(** The profiles of a store passed their schema. *)
Definition profiles_typed (st : Store) : Prop :=
  forall k p, s_profiles st !! k = Some p -> valid_OrganizationProfileSpec (profile_Spec p).

Lemma preset_typed st p :
  valid_OrganizationProjectSpec (project_Spec p) -> profiles_typed st -> preset st p ∈ presets.
Proof.
  intros (_ & _ & Hi & _) Hst. unfold preset. case_decide as Hn; [by apply elem_of_cons in Hi as [?|?]|].
  destruct (s_profiles st !! projectOrg p) as [pr|] eqn:Hpr; [|by right; left].
  destruct (Hst _ _ Hpr) as (_ & _ & [Hd _] & _).
  case_decide as Hn'; [by apply elem_of_cons in Hd as [?|?]|by right; left].
Qed.

(** C29: with typed specs nothing a project asks for is dropped.  After a successful
    reconciliation of a project whose spec, and whose organization's profile, passed
    their schemas, the isolation the controller worked with is one of the three presets (and
    the documented one, where profiles can be read), every user of the project
    is bound to the cluster role named in its entry, and every subject bound for a role
    that has users is one of the three kinds and has a name. *)
Theorem typed_project_exact (rr rr' : RR) :
  well_keyed (storeOf rr) -> profiles_typed (storeOf rr) ->
  valid_OrganizationProjectSpec (project_Spec (Instance_ rr)) ->
  runActions (rc_Actions NewOrganizationProjectReconciler) rr = (Ret tt, rr') ->
  let users := elems (Users (project_Spec (Instance_ rr))) in
  let bindingFor := bindingKey (Name (project_meta (Instance_ rr))) in
  st_isolation (stateIn rr') ∈ presets /\
  (ReliableReads C -> st_isolation (stateIn rr') = preset (storeOf rr) (Instance_ rr)) /\
  (forall u, u ∈ users -> exists b,
     s_rolebindings (storeOf rr') !! bindingFor (pu_Role u) = Some b /\
     subjectOf u ∈ elems (rb_Subjects b) /\
     rb_RoleRef b = {| rr_APIGroup := rbacGroupName; rr_Kind := "ClusterRole"; rr_Name := pu_Role u |}) /\
  (forall u b s, u ∈ users -> s_rolebindings (storeOf rr') !! bindingFor (pu_Role u) = Some b ->
     s ∈ elems (rb_Subjects b) -> rs_Kind s ∈ ["User"; "Group"; "ServiceAccount"] /\ rs_Name s <> "").
Proof.
  intros Hk Hst Hspec Hrun users bindingFor.
  pose proof (wp_run _ _ _ _ _ (project_reconcile_spec (ReliableReads C) id rr Hk) Hrun)
    as (_ & _ & _ & i & o & ns & [(Hpre & HR & _) Hiso] & Hprov). rewrite Hiso.
  split; [destruct Hpre as [-> | ->]; [by apply preset_typed|by right; left]|]. split; [exact HR|].
  destruct Hspec as (_ & Hu & _ & _). rewrite Forall_forall in Hu.
  assert (forall u, u ∈ users -> exists b, s_rolebindings (storeOf rr') !! bindingFor (pu_Role u) = Some b /\
    rb_Subjects b = subjectsForRole (Users (project_Spec (Instance_ rr))) (pu_Role u) /\
    subjectOf u ∈ elems (rb_Subjects b) /\
    rb_RoleRef b = {| rr_APIGroup := rbacGroupName; rr_Kind := "ClusterRole"; rr_Name := pu_Role u |}) as Hbound.
  { intros u Hin. destruct (Hu u Hin) as (_ & _ & Hrole).
    pose proof (pp_bindings _ _ _ _ _ _ _ Hprov (pu_Role u) Hrole) as Hb. unfold binding_state in Hb.
    rewrite (pp_name _ _ _ _ _ _ _ Hprov) in Hb.
    assert (subjectOf u ∈ elems (subjectsForRole (Users (project_Spec (Instance_ rr))) (pu_Role u))) as Hsub.
    { apply subjectsForRole_exact. by exists u. }
    destruct (subjectsForRole _ _) as [subjects|]; [|by apply elem_of_nil in Hsub].
    destruct Hb as (b & Hb & Hsubs & Href & _). exists b. by rewrite Hsubs. }
  split.
  - intros u Hin. destruct (Hbound u Hin) as (b & ? & _ & ? & ?). by exists b.
  - intros u b s Hin Hb Hs. destruct (Hbound u Hin) as (b' & Hb' & Hsubs & _). rewrite Hb in Hb'.
    injection Hb' as <-. rewrite Hsubs in Hs. apply subjectsForRole_exact in Hs as (u' & Hin' & _ & ->).
    destruct (Hu u' Hin') as (Hkind & Hname & _). unfold subjectOf. by case_decide as E; [rewrite E in Hkind|].
Qed.
End effects.

(** The comments say a namespace is required for a ServiceAccount; no marker does.  Such a
    subject passes the schema, and stands for no service account. *)
Lemma namespaceless_account name :
  name <> "" ->
  valid_Subject {| subject_Kind := "ServiceAccount"; subject_Name := name; subject_Namespace := "" |} /\
  forall ns sa, ns <> "" -> string_has ":"%char ns = false ->
    subjectMatches {| subject_Kind := "ServiceAccount"; subject_Name := name; subject_Namespace := "" |}
      {| Username := serviceAccountUsername ns sa; Groups := [] |} = false.
Proof.
  intros Hn. split; [split; [by right; right; left|done]|]. intros ns sa Hns Hc. unfold subjectMatches.
  cbn [subject_Kind subject_Name subject_Namespace Username]. rewrite !decide_False, decide_True by done.
  apply bool_decide_eq_false. intros Heq. unfold serviceAccountUsername in Heq.
  apply string_app_inj_l in Heq. by apply string_app_sep_inj in Heq as [? _].
Qed.

(* ------------------------------------------------------------------ *)
(** ** Runs *)

Module FakeSchema.
Import FakeInstances.
#[local] Existing Instance sequentialFramework.
#[local] Existing Instance sequentialFramework_laws.

(** A server that fills in the defaults and refuses what does not conform then. *)
#[local] Instance FakeSchemaServer : SchemaServer := {|
  storedAs s v := let v' := defaulted s v in if conforms s v' then Some v' else None
|}.
#[local] Instance FakeSchemaServer_laws : SchemaLaws FakeSchemaServer.
Proof.
  constructor; simpl.
  - intros s v v'. destruct (conforms s (defaulted s v)) eqn:E; [|done]. by intros [= <-].
  - intros s v Hc _. by rewrite Hc.
Qed.

Definition labSpec : OrganizationProjectSpec := project_Spec (lab "genomics").

Lemma labSpec_valid : valid_OrganizationProjectSpec labSpec.
Proof.
  split; [done|]. split; [|split; [by left|constructor]].
  apply (bool_decide_unpack _). vm_compute. exact I.
Qed.

Lemma json_roundtrip_witness :
  fromJSON json_OrganizationProjectSpec (toJSON json_OrganizationProjectSpec labSpec) = Some labSpec.
Proof.
  destruct JsonTheorems.json_roundtrip as (_ & _ & Hproject & _).
  apply (Hproject labSpec). constructor.
Defined.

Lemma stored_specs_typed_witness :
  exists s, fromJSON json_OrganizationProjectSpec (toJSON json_OrganizationProjectSpec labSpec) = Some s /\
    valid_OrganizationProjectSpec s.
Proof.
  destruct stored_specs_typed as (_ & _ & Hproject & _).
  apply (Hproject (toJSON json_OrganizationProjectSpec labSpec)); reflexivity.
Defined.

(** A profile without a preset is read back with "tenant". *)
Definition bareProfile : OrganizationProfileSpec :=
  {| profile_OrganizationRef := {| ref_Name := "genomics" |}; Admins := Some [];
     Defaults := {| default_NetworkIsolation := ""; MaxProjects := 3 |}; profile_Platform := None |}.
Lemma valid_specs_stored_witness :
  exists v, storedAs schema_OrganizationProfileSpec (toJSON json_OrganizationProfileSpec bareProfile) = Some v /\
    fromJSON json_OrganizationProfileSpec v =
      Some {| profile_OrganizationRef := {| ref_Name := "genomics" |}; Admins := None;
              Defaults := {| default_NetworkIsolation := "tenant"; MaxProjects := 3 |}; profile_Platform := None |}.
Proof.
  destruct valid_specs_stored as (_ & Hprofile & _ & _). apply (Hprofile bareProfile).
  split; [done|]. split; [constructor|]. split; [|done]. split; [by left|]. simpl. lia.
Defined.

Lemma typed_project_exact_witness :
  exists rr',
    runActions (rc_Actions NewOrganizationProjectReconciler) (projectRequest labStore (lab "genomics")) =
      (Ret tt, rr') /\
    exists b, s_rolebindings (storeOf rr') !! bindingKey "lab" "edit" = Some b /\
      subjectOf (projectUser "User" "dora" "" "edit") ∈ elems (rb_Subjects b).
Proof.
  destruct lab_reconciles as [rr' Hrun]. exists rr'. split; [exact Hrun|].
  destruct (typed_project_exact _ rr' labStore_keyed) with (3 := Hrun) as (_ & _ & Hbound & _).
  - intros k p Hp. apply demo_profile in Hp as [[_ ->]|[[_ ->]|[_ ->]]]; (split; [done|]);
      (split; [apply (bool_decide_unpack _); vm_compute; exact I|]); (split; [|done]);
      (split; [by right; right; left|]); simpl; lia.
  - exact labSpec_valid.
  - destruct (Hbound (projectUser "User" "dora" "" "edit")) as (b & Hb & Hs & _); [by left|].
    exists b. split; [exact Hb|exact Hs].
Defined.
End FakeSchema.
