(* ===== verification/Admission.v ===== *)
(** The operator as a whole: the four resources change through requests that the
    webhooks admit, through status writes of the framework and through the
    controllers' reconciliations, while others may write the provisioned objects.
    [step] is one such change of the stored objects; the invariants hold along every
    sequence of steps.

    A step is atomic: the validator runs on the store the request is persisted to,
    and a reconciliation is one step (Interference.v takes it apart into its calls).
    [astep] takes admission apart from persistence, as the API server does, for the
    project quota. *)

From stdpp Require Import gmap strings list.
From Stdlib Require Import ZArith.
From S2P Require Import Prelude Platform Api Cluster Fake Authz Webhooks Framework OrganizationCtl AdmissionChain.
From S2P Require Import ProjectCtl NetPol ProjectSpecs ProjectPipeline MaaS MaaSSpecs MaaSTheorems.

Local Open Scope string_scope.

(* ------------------------------------------------------------------ *)
(** ** Requests for one kind *)

Section requests.
  Context `{P : Platform} `{C : !Cluster} `{L : !LawfulCluster C}.

Context {T : Type} (kd : Kind string T) (v : Validator T) (status_write : T -> T -> Prop).

Inductive change (st : Store) : Store -> Prop :=
| change_create ctx o w :
    view w = st -> ksel kd st !! kkey kd o = None -> admits (v_create T v ctx o) w ->
    change st (stored kd (kkey kd o) o st)
| change_update ctx old new w :
    view w = st -> ksel kd st !! kkey kd new = Some old -> admits (v_update T v ctx old new) w ->
    change st (stored kd (kkey kd new) new st)
| change_delete ctx k old w :
    view w = st -> ksel kd st !! k = Some old -> admits (v_delete T v ctx old) w ->
    change st (kput kd (delete k (ksel kd st)) st)
| change_status k old new :
    ksel kd st !! k = Some old -> status_write old new -> change st (stored kd k new st).

Context (ksel_kput : forall m s, ksel kd (kput kd m s) = m).

(** A property of every stored object that admission establishes and keeps. *)
Lemma change_invariant (Φ : string -> T -> Prop) st st' :
  (forall ctx o w, admits (v_create T v ctx o) w -> Φ (kkey kd o) o) ->
  (forall ctx old new w, admits (v_update T v ctx old new) w ->
     Φ (kkey kd new) old -> Φ (kkey kd new) new) ->
  (forall k old new, status_write old new -> Φ k old -> Φ k new) ->
  (forall k o, ksel kd st !! k = Some o -> Φ k o) -> change st st' ->
  forall k o, ksel kd st' !! k = Some o -> Φ k o.
Proof.
  intros Hc Hu Hs Hst Hch k o.
  destruct Hch as [ctx o' w _ _ Had|ctx old new w _ Hold Had|ctx k' old w _ _ _|k' old new Hold Hw];
    unfold stored; rewrite ksel_kput.
  - rewrite lookup_insert_Some. intros [[<- <-]|[_ ?]]; eauto.
  - rewrite lookup_insert_Some. intros [[<- <-]|[_ ?]]; eauto.
  - rewrite lookup_delete_Some. intros [_ ?]. eauto.
  - rewrite lookup_insert_Some. intros [[<- <-]|[_ ?]]; eauto.
Qed.

(** A field that admitted updates and status writes keep never changes under a key
    that stays in use. *)
Lemma change_immutable {A} (f : T -> A) st st' :
  (forall ctx old new w, admits (v_update T v ctx old new) w -> f old = f new) ->
  (forall old new, status_write old new -> f old = f new) -> change st st' ->
  forall k o o', ksel kd st !! k = Some o -> ksel kd st' !! k = Some o' -> f o' = f o.
Proof.
  intros Hu Hs Hch k o o' Ho.
  destruct Hch as [ctx new w _ Hnone Had|ctx old new w _ Hold Had|ctx k' old w _ _ _|k' old new Hold Hw];
    unfold stored; rewrite ksel_kput.
  - rewrite lookup_insert_Some. intros [[<- <-]|[_ ?]]; congruence.
  - rewrite lookup_insert_Some. intros [[<- <-]|[_ ?]]; [|congruence].
    rewrite Hold in Ho. injection Ho as <-. symmetry. eauto.
  - rewrite lookup_delete_Some. intros [_ ?]. congruence.
  - rewrite lookup_insert_Some. intros [[<- <-]|[_ ?]]; [|congruence].
    rewrite Hold in Ho. injection Ho as <-. symmetry. eauto.
Qed.

(** A change of one kind leaves the others alone. *)
Lemma change_other {K' T'} `{Countable K'} (kd' : Kind K' T') st st' :
  change st st' -> (forall m s, ksel kd' (kput kd m s) = ksel kd' s) -> ksel kd' st' = ksel kd' st.
Proof. intros Hch Hother. destruct Hch; apply Hother. Qed.
End requests.

(* ------------------------------------------------------------------ *)
(** ** The system *)

Section system.
  Context `{P : Platform} `{C : !Cluster} `{L : !LawfulCluster C} `{PL : !PlatformLaws P}.
  Context `{F : !Framework} `{FL : !FrameworkLaws F}.
  Context (a : authorizer).

(** A status write changes neither metadata nor spec. *)
Definition organization_status (o o' : Organization) : Prop :=
  organization_meta o' = organization_meta o /\ organization_Spec o' = organization_Spec o.
Definition profile_status (p p' : OrganizationProfile) : Prop :=
  profile_meta p' = profile_meta p /\ profile_Spec p' = profile_Spec p.
Definition project_status (p p' : OrganizationProject) : Prop :=
  project_meta p' = project_meta p /\ project_Spec p' = project_Spec p.
Definition maas_status (c c' : MaaSConfiguration) : Prop :=
  maas_meta c' = maas_meta c /\ maas_Spec c' = maas_Spec c.

(** Anyone may write the objects the operator provisions, or the AITenant controller
    their AITenants.  The API server keys an object by its name and keeps one under
    deletion only while a finalizer holds it. *)
Inductive written {K T} `{Countable K} (kd : Kind K T) (st : Store) : Store -> Prop :=
| written_put o : held (kmeta kd o) -> written kd st (stored kd (kkey kd o) o st)
| written_removed k : written kd st (kput kd (delete k (ksel kd st)) st).

Inductive others_write (st : Store) : Store -> Prop :=
| write_namespace st' : written namespaceKind st st' -> others_write st st'
| write_rolebinding st' : written rolebindingKind st st' -> others_write st st'
| write_networkpolicy st' : written networkpolicyKind st st' -> others_write st st'
| write_aitenant st' : written aitenantKind st st' -> others_write st st'.

Inductive step (st : Store) : Store -> Prop :=
| step_organization st' : change organizationKind (organizationValidator a) organization_status st st' -> step st st'
| step_profile st' : change profileKind (profileValidator a) profile_status st st' -> step st st'
| step_project st' : change projectKind (projectValidator a) project_status st st' -> step st st'
| step_maas st' : change maasKind (maasValidator a) maas_status st st' -> step st st'
| reconcile_organization rr :
    stateOf rr = st ->
    step st (stateOf (snd (runActions (rc_Actions NewOrganizationReconciler) rr)))
| reconcile_project rr :
    storeOf rr = st ->
    step st (storeOf (snd (runActions (rc_Actions NewOrganizationProjectReconciler) rr)))
| reconcile_maas rr :
    maasStore rr = st -> current rr ->
    step st (maasStore (snd (reconcileMaaS rr)))
| step_others st' : others_write st st' -> step st st'.

(** Namespaces, network policies and AITenants are stored under their own names, and
    an AITenant under deletion is held by a finalizer.  The reconciliations rely on
    it, and every step keeps it. *)
Definition objects_ok (st : Store) : Prop := well_keyed st /\ tenants_ok st.

(** What the reconciliations do to the four resources. *)
Lemma reconcile_organization_api rr :
  let st' := stateOf (snd (runActions (rc_Actions NewOrganizationReconciler) rr)) in
  s_organizations st' = s_organizations (stateOf rr) /\ s_projects st' = s_projects (stateOf rr) /\
  s_maas st' = s_maas (stateOf rr) /\
  (s_profiles st' = s_profiles (stateOf rr) \/
   exists k p, s_profiles (stateOf rr) !! k = None /\ Name (profile_meta p) = k /\ profileOrg p = k /\
     s_profiles st' = <[k := p]> (s_profiles (stateOf rr))).
Proof.
  pose proof (reconcile_spec False (False_ind _) rr) as Hwp. unfold wp in Hwp.
  destruct (runActions _ rr) as [[[]|e|] rr']; simpl in *; [| |done].
  - destruct Hwp as (root & _ & _ & [[_ ->]|(Hn & p & (Hname & Horg & _) & ->)]); [auto|].
    split; [done|]. split; [done|]. split; [done|]. right. eauto 10.
  - destruct Hwp as [-> _]. auto.
Qed.

Lemma reconcile_project_api rr :
  well_keyed (storeOf rr) ->
  let st' := storeOf (snd (runActions (rc_Actions NewOrganizationProjectReconciler) rr)) in
  s_organizations st' = s_organizations (storeOf rr) /\ s_profiles st' = s_profiles (storeOf rr) /\
  s_projects st' = s_projects (storeOf rr) /\ s_maas st' = s_maas (storeOf rr).
Proof.
  intros Hk. pose proof (project_reconcile_spec False (False_ind _) rr Hk) as Hwp.
  destruct Hwp as [[(? & ? & ? & ? & ?) _ _ _] _]. done.
Qed.

Lemma reconcile_maas_api rr :
  current rr -> tenants_ok (maasStore rr) ->
  let st' := maasStore (snd (reconcileMaaS rr)) in
  s_organizations st' = s_organizations (maasStore rr) /\ s_profiles st' = s_profiles (maasStore rr) /\
  s_projects st' = s_projects (maasStore rr) /\
  (s_maas st' = s_maas (maasStore rr) \/ exists x,
     s_maas st' = partial_alter (fun _ => x) (Name (maas_meta (Instance_ rr))) (s_maas (maasStore rr)) /\
     forall c', x = Some c' -> Name (maas_meta c') = Name (maas_meta (Instance_ rr)) /\
       maas_Spec c' = maas_Spec (Instance_ rr)).
Proof.
  intros Hcur Hok st'. destruct (DeletionTimestamp (maas_meta (Instance_ rr))) as [t|] eqn:Hdel.
  - pose proof (cleanupMaaS_spec rr Hok ltac:(congruence)) as Hwp. unfold wp, cleanup_outcome in Hwp.
    fold st' in Hwp. destruct (fst (reconcileMaaS rr)); [| |done].
    + destruct Hwp as (st1 & x & [Hkind _ _ _ _] & Hs & Hx). rewrite Hs, Hkind. simpl.
      repeat (split; [done|]). right. exists x. split; [done|]. intros c' Hc'.
      by destruct (Hx c' Hc') as (_ & ? & ?).
    + destruct Hwp as [->|[-> _ _ _ _]]; auto.
  - pose proof (reconcileMaaS_spec rr Hcur Hok Hdel) as Hwp. unfold wp, maas_outcome in Hwp.
    fold st' in Hwp. destruct (fst (reconcileMaaS rr)); [| |done].
    + destruct Hwp as (c' & ms & ts & _ & _ & Hfin & Hs). rewrite Hs. simpl.
      repeat (split; [done|]). right. exists (Some c'). split; [done|]. intros c'' [= <-].
      split; [by apply finalized_name|by destruct Hfin].
    + destruct Hwp as [->|(c' & Hfin & ->)]; [auto|]. simpl. repeat (split; [done|]). right.
      exists (Some c'). split; [done|]. intros c'' [= <-].
      split; [by apply finalized_name|by destruct Hfin].
Qed.

(* ------------------------------------------------------------------ *)
(** ** The objects the operator provisions *)

Lemma objects_ok_ext st st' :
  s_namespaces st' = s_namespaces st -> s_networkpolicies st' = s_networkpolicies st ->
  s_aitenants st' = s_aitenants st -> objects_ok st -> objects_ok st'.
Proof. unfold objects_ok, well_keyed, np_keyed, tenants_ok. by intros -> -> ->. Qed.

(** What others write leaves the four resources alone and the objects in order. *)
Lemma others_write_api st st' :
  others_write st st' ->
  s_organizations st' = s_organizations st /\ s_profiles st' = s_profiles st /\
  s_projects st' = s_projects st /\ s_maas st' = s_maas st.
Proof. intros [? []|? []|? []|? []]; done. Qed.

Lemma written_invariant {K T} `{Countable K} (kd : Kind K T) (Φ : K -> T -> Prop) st st' :
  (forall m s, ksel kd (kput kd m s) = m) -> (forall o, held (kmeta kd o) -> Φ (kkey kd o) o) ->
  written kd st st' -> (forall k o, ksel kd st !! k = Some o -> Φ k o) ->
  forall k o, ksel kd st' !! k = Some o -> Φ k o.
Proof.
  intros Hput Hnew Hw Hst k o. destruct Hw as [o' Hheld|k']; unfold stored; rewrite Hput.
  - rewrite lookup_insert_Some. intros [[<- <-]|[_ ?]]; eauto.
  - rewrite lookup_delete_Some. intros [_ ?]. eauto.
Qed.

Lemma objects_ok_others st st' : others_write st st' -> objects_ok st -> objects_ok st'.
Proof.
  intros Hw [[Hnp Hns] Ht]. destruct Hw as [st' Hw|st' Hw|st' Hw|st' Hw].
  - split; [split|]; [by destruct Hw| |by destruct Hw].
    by apply (written_invariant namespaceKind (fun k ns => Name (ns_meta ns) = k) st st').
  - by destruct Hw.
  - split; [split|]; [|by destruct Hw..].
    intros k np. by apply (written_invariant networkpolicyKind (fun k np => namespacedKey (np_meta np) = k) st st').
  - split; [split; by destruct Hw|].
    intros k u. by apply (written_invariant aitenantKind (fun k u => namespacedKey (u_meta u) = k /\ held (u_meta u)) st st').
Qed.

Lemma objects_ok_organization rr :
  objects_ok (stateOf rr) ->
  objects_ok (stateOf (snd (runActions (rc_Actions NewOrganizationReconciler) rr))).
Proof.
  pose proof (reconcile_spec False (False_ind _) rr) as Hwp. unfold wp in Hwp.
  destruct (runActions _ rr) as [[[]|e|] rr']; simpl in *; [| |done].
  - destruct Hwp as (root & _ & _ & [[_ ->]|(_ & p & _ & ->)]); [done|]. by apply objects_ok_ext.
  - by destruct Hwp as [-> _].
Qed.

Lemma objects_ok_project rr :
  objects_ok (storeOf rr) ->
  objects_ok (storeOf (snd (runActions (rc_Actions NewOrganizationProjectReconciler) rr))).
Proof.
  intros [Hk Ht]. destruct (project_reconcile_spec False (False_ind _) rr Hk)
    as ([(_ & _ & _ & _ & Heq) _ _ _] & _ & Hk' & _).
  split; [done|]. unfold tenants_ok. by rewrite Heq.
Qed.

(** The AITenants of every verdict are in order. *)
Lemma tenants_ok_verdict st c b ms ts :
  maas_verdict st c b ms ts -> tenants_ok st -> tenants_ok (kput aitenantKind ts st).
Proof.
  intros Hv Hok k u. destruct Hv as [| | | |p u' _ _ _ Hm _]; simpl; try apply Hok.
  rewrite lookup_insert_Some. intros [[<- <-]|[_ ?]]; [|by apply Hok].
  split; [apply (tm_key _ _ _ _ Hm)|apply (tm_held _ _ _ _ Hm)].
Qed.

Lemma objects_ok_maas rr :
  current rr -> objects_ok (maasStore rr) -> objects_ok (maasStore (snd (reconcileMaaS rr))).
Proof.
  intros Hcur [Hk Ht]. set (st' := maasStore (snd (reconcileMaaS rr))).
  destruct (DeletionTimestamp (maas_meta (Instance_ rr))) as [t|] eqn:Hdel.
  - pose proof (cleanupMaaS_spec rr Ht ltac:(congruence)) as Hwp. unfold wp, cleanup_outcome in Hwp.
    fold st' in Hwp. destruct (fst (reconcileMaaS rr)); [| |done].
    + destruct Hwp as (st1 & x & [Hkind _ _ _ Hok'] & -> & _). split; [by rewrite Hkind|exact (Hok' Ht)].
    + destruct Hwp as [->|[Hkind _ _ _ Hok']]; [done|]. split; [by rewrite Hkind|exact (Hok' Ht)].
  - pose proof (reconcileMaaS_spec rr Hcur Ht Hdel) as Hwp. unfold wp, maas_outcome in Hwp.
    fold st' in Hwp. destruct (fst (reconcileMaaS rr)); [| |done].
    + destruct Hwp as (c' & ms & ts & Hv & _ & _ & ->).
      split; [exact Hk|exact (tenants_ok_verdict _ _ _ _ _ Hv Ht)].
    + by destruct Hwp as [->|(c' & _ & ->)].
Qed.

Ltac change_elsewhere Hch :=
  first [exact (change_other _ _ _ namespaceKind _ _ Hch (fun _ _ => eq_refl))
        |exact (change_other _ _ _ networkpolicyKind _ _ Hch (fun _ _ => eq_refl))
        |exact (change_other _ _ _ aitenantKind _ _ Hch (fun _ _ => eq_refl))].

Lemma objects_ok_step st st' : step st st' -> objects_ok st -> objects_ok st'.
Proof.
  intros Hstep Hok.
  destruct Hstep as [st' Hch|st' Hch|st' Hch|st' Hch|rr <-|rr <-|rr <- Hcur|st' Hw];
    try (refine (objects_ok_ext st st' _ _ _ Hok); change_elsewhere Hch).
  - by apply objects_ok_organization.
  - by apply objects_ok_project.
  - by apply objects_ok_maas.
  - by apply (objects_ok_others st).
Qed.

Lemma objects_ok_steps st st' : rtc step st st' -> objects_ok st -> objects_ok st'.
Proof. intros Hsteps. induction Hsteps; eauto using objects_ok_step. Qed.

(* ------------------------------------------------------------------ *)
(** ** Names and references *)

(** A profile and a MaaS configuration are stored under the name of the organization
    they refer to. *)
Definition profile_named (k : string) (p : OrganizationProfile) : Prop :=
  Name (profile_meta p) = k /\ profileOrg p = k.
Definition maas_named (k : string) (c : MaaSConfiguration) : Prop :=
  Name (maas_meta c) = k /\ maasOrg c = k.
Definition well_named (st : Store) : Prop :=
  (forall k p, s_profiles st !! k = Some p -> profile_named k p) /\
  (forall k c, s_maas st !! k = Some c -> maas_named k c).

Lemma well_named_profile st st' :
  (forall k p, s_profiles st !! k = Some p -> profile_named k p) ->
  change profileKind (profileValidator a) profile_status st st' ->
  forall k p, s_profiles st' !! k = Some p -> profile_named k p.
Proof.
  intros Hst Hch. apply (change_invariant profileKind (profileValidator a) profile_status
    (fun _ _ => eq_refl) profile_named st st'); try done; simpl.
  - intros ctx o w Had. eapply (checks_sound False) in Had; [|by apply profile_create_checks].
    destruct Had as [Heq _]. split; [done|congruence].
  - intros ctx old new w Had. eapply (checks_sound False) in Had; [|by apply profile_update_checks].
    destruct Had as [Heq _]. intros [_ Hold]. split; [done|congruence].
  - intros k old new [Hmeta Hspec]. unfold profile_named, profileOrg. by rewrite Hmeta, Hspec.
Qed.

Lemma well_named_maas st st' :
  (forall k c, s_maas st !! k = Some c -> maas_named k c) ->
  change maasKind (maasValidator a) maas_status st st' ->
  forall k c, s_maas st' !! k = Some c -> maas_named k c.
Proof.
  intros Hst Hch. apply (change_invariant maasKind (maasValidator a) maas_status
    (fun _ _ => eq_refl) maas_named st st'); try done; simpl.
  - intros ctx o w Had. eapply (checks_sound False) in Had; [|by apply maas_create_checks].
    destruct Had as [(_ & Heq & _) _]. split; [done|congruence].
  - intros ctx old new w Had. eapply (checks_sound False) in Had; [|by apply maas_update_checks].
    destruct Had as [Heq _]. intros [_ Hold]. split; [done|congruence].
  - intros k old new [Hmeta Hspec]. unfold maas_named, maasOrg. by rewrite Hmeta, Hspec.
Qed.

Lemma well_named_step st st' : step st st' -> objects_ok st -> well_named st -> well_named st'.
Proof.
  intros Hstep Hobj [Hp Hm]. unfold well_named.
  destruct Hstep as [st' Hch|st' Hch|st' Hch|st' Hch|rr <-|rr <-|rr <- Hcur|st' Hw].
  - rewrite (change_other _ _ _ profileKind _ _ Hch (fun _ _ => eq_refl) : s_profiles st' = _).
    by rewrite (change_other _ _ _ maasKind _ _ Hch (fun _ _ => eq_refl) : s_maas st' = _).
  - rewrite (change_other _ _ _ maasKind _ _ Hch (fun _ _ => eq_refl) : s_maas st' = _).
    split; [by eapply well_named_profile|done].
  - rewrite (change_other _ _ _ profileKind _ _ Hch (fun _ _ => eq_refl) : s_profiles st' = _).
    by rewrite (change_other _ _ _ maasKind _ _ Hch (fun _ _ => eq_refl) : s_maas st' = _).
  - rewrite (change_other _ _ _ profileKind _ _ Hch (fun _ _ => eq_refl) : s_profiles st' = _).
    split; [done|by eapply well_named_maas].
  - destruct (reconcile_organization_api rr) as (_ & _ & -> & [->|(k & p & _ & Hn & Ho & ->)]); [done|].
    split; [|done]. intros k' p'. rewrite lookup_insert_Some. intros [[<- <-]|[_ ?]]; [done|eauto].
  - destruct (reconcile_project_api rr (proj1 Hobj)) as (_ & -> & _ & ->). done.
  - destruct (reconcile_maas_api rr Hcur (proj2 Hobj)) as (_ & -> & _ & [->|(x & -> & Hx)]); [done|].
    split; [done|]. intros k c. destruct (decide (k = Name (maas_meta (Instance_ rr)))) as [->|Hne].
    + rewrite lookup_partial_alter_eq. intros Hc. destruct (Hx c Hc) as [Hn Hspec].
      destruct Hcur as [Hcur _]. apply Hm in Hcur as [_ Ho]. split; [done|].
      unfold maasOrg in *. by rewrite Hspec.
    + rewrite lookup_partial_alter_ne by done. eauto.
  - destruct (others_write_api _ _ Hw) as (_ & -> & _ & ->). done.
Qed.

(** The references a user can never change, kind by kind. *)
Definition references_kept (st st' : Store) : Prop :=
  (forall k o o', s_organizations st !! k = Some o -> s_organizations st' !! k = Some o' ->
     organizationParent o' = organizationParent o) /\
  (forall k p p', s_profiles st !! k = Some p -> s_profiles st' !! k = Some p' ->
     profileOrg p' = profileOrg p) /\
  (forall k p p', s_projects st !! k = Some p -> s_projects st' !! k = Some p' ->
     projectOrg p' = projectOrg p) /\
  (forall k c c', s_maas st !! k = Some c -> s_maas st' !! k = Some c' -> maasOrg c' = maasOrg c).

(** A kind whose objects are the same keeps its references. *)
Lemma same_kept {T A} (m m' : gmap string T) (f : T -> A) :
  m' = m -> forall k o o', m !! k = Some o -> m' !! k = Some o' -> f o' = f o.
Proof. intros -> k o o' H1 H2. congruence. Qed.

Ltac kept_by Hch :=
  apply same_kept;
  first [exact (change_other _ _ _ organizationKind _ _ Hch (fun _ _ => eq_refl))
        |exact (change_other _ _ _ profileKind _ _ Hch (fun _ _ => eq_refl))
        |exact (change_other _ _ _ projectKind _ _ Hch (fun _ _ => eq_refl))
        |exact (change_other _ _ _ maasKind _ _ Hch (fun _ _ => eq_refl))].

(** An admitted update keeps the reference of its kind. *)
Lemma update_keeps {T A} (v : Validator T) (f : T -> A) (Q : context -> T -> T -> world -> Prop) :
  (forall ctx old new w, checks False (v_update T v ctx old new) w (f old = f new /\ Q ctx old new w)) ->
  forall ctx old new w, admits (v_update T v ctx old new) w -> f old = f new.
Proof. intros Hc ctx old new w Had. eapply (checks_sound False) in Had; [|apply Hc]. by destruct Had. Qed.

Lemma organization_kept st st' :
  change organizationKind (organizationValidator a) organization_status st st' ->
  forall k o o', s_organizations st !! k = Some o -> s_organizations st' !! k = Some o' ->
    organizationParent o' = organizationParent o.
Proof.
  intros Hch. eapply (change_immutable organizationKind _ _ (fun _ _ => eq_refl)); [| |exact Hch].
  - eapply update_keeps. intros. by apply organization_update_checks.
  - intros old new [_ Hs]. unfold organizationParent. by rewrite Hs.
Qed.

Lemma profile_kept st st' :
  change profileKind (profileValidator a) profile_status st st' ->
  forall k p p', s_profiles st !! k = Some p -> s_profiles st' !! k = Some p' ->
    profileOrg p' = profileOrg p.
Proof.
  intros Hch. eapply (change_immutable profileKind _ _ (fun _ _ => eq_refl)); [| |exact Hch].
  - eapply update_keeps. intros. by apply profile_update_checks.
  - intros old new [_ Hs]. unfold profileOrg. by rewrite Hs.
Qed.

Lemma project_kept st st' :
  change projectKind (projectValidator a) project_status st st' ->
  forall k p p', s_projects st !! k = Some p -> s_projects st' !! k = Some p' ->
    projectOrg p' = projectOrg p.
Proof.
  intros Hch. eapply (change_immutable projectKind _ _ (fun _ _ => eq_refl)); [| |exact Hch].
  - eapply update_keeps. intros. by apply project_update_checks.
  - intros old new [_ Hs]. unfold projectOrg. by rewrite Hs.
Qed.

Lemma maas_kept st st' :
  change maasKind (maasValidator a) maas_status st st' ->
  forall k c c', s_maas st !! k = Some c -> s_maas st' !! k = Some c' -> maasOrg c' = maasOrg c.
Proof.
  intros Hch. eapply (change_immutable maasKind _ _ (fun _ _ => eq_refl)); [| |exact Hch].
  - eapply update_keeps. intros. by apply maas_update_checks.
  - intros old new [_ Hs]. unfold maasOrg. by rewrite Hs.
Qed.

Lemma references_step st st' : step st st' -> objects_ok st -> references_kept st st'.
Proof.
  intros Hstep Hobj. unfold references_kept.
  destruct Hstep as [st' Hch|st' Hch|st' Hch|st' Hch|rr <-|rr <-|rr <- Hcur|st' Hw].
  - split_and!; [by apply organization_kept|kept_by Hch..].
  - split_and!; [kept_by Hch|by apply profile_kept|kept_by Hch..].
  - split_and!; [kept_by Hch|kept_by Hch|by apply project_kept|kept_by Hch].
  - split_and!; [kept_by Hch..|by apply maas_kept].
  - destruct (reconcile_organization_api rr) as (Ho & Hp & Hm & Hr).
    split_and!; [by apply same_kept| |by apply same_kept..].
    destruct Hr as [Heq|(k & p & Hn & _ & _ & ->)]; [by apply same_kept|].
    intros k' q q' Hq. rewrite lookup_insert_Some. intros [[<- _]|[_ ?]]; congruence.
  - destruct (reconcile_project_api rr (proj1 Hobj)) as (? & ? & ? & ?).
    split_and!; by apply same_kept.
  - destruct (reconcile_maas_api rr Hcur (proj2 Hobj)) as (? & ? & ? & Hr).
    split_and!; [by apply same_kept..|].
    destruct Hr as [Heq|(x & -> & Hx)]; [by apply same_kept|].
    intros k c c' Hc. destruct (decide (k = Name (maas_meta (Instance_ rr)))) as [->|Hne].
    + rewrite lookup_partial_alter_eq. intros Hc'. destruct (Hx c' Hc') as [_ Hspec].
      destruct Hcur as [Hcur _]. rewrite Hcur in Hc. injection Hc as <-. unfold maasOrg. by rewrite Hspec.
    + rewrite lookup_partial_alter_ne by done. congruence.
  - destruct (others_write_api _ _ Hw) as (? & ? & ? & ?). split_and!; by apply same_kept.
Qed.

(* ------------------------------------------------------------------ *)
(** ** The project quota *)

Definition ownedMap (org : string) (m : gmap string OrganizationProject) : Z :=
  ownedIn org (map_to_list m).*2.

Lemma ownedMap_insert org m k p :
  m !! k = None ->
  ownedMap org (<[k := p]> m) = (ownedMap org m + if decide (projectOrg p = org) then 1 else 0)%Z.
Proof.
  intros Hk. unfold ownedMap. rewrite (ownedIn_perm org _ (p :: (map_to_list m).*2)).
  - unfold ownedIn. rewrite filter_cons. case_decide; simpl; lia.
  - by rewrite (map_to_list_insert m k p Hk).
Qed.

Lemma ownedMap_delete org m k p :
  m !! k = Some p ->
  ownedMap org m = (ownedMap org (delete k m) + if decide (projectOrg p = org) then 1 else 0)%Z.
Proof.
  intros Hk. rewrite <- (insert_delete_id m k p Hk) at 1.
  apply ownedMap_insert, lookup_delete_eq.
Qed.

Lemma ownedMap_update org m k p p' :
  m !! k = Some p -> projectOrg p' = projectOrg p -> ownedMap org (<[k := p']> m) = ownedMap org m.
Proof.
  intros Hk Horg. rewrite (ownedMap_delete org m k p Hk), <- (insert_delete_eq m k p').
  rewrite ownedMap_insert by apply lookup_delete_eq. by rewrite Horg.
Qed.

(** While the cap of [org] is at most [N] and the store is of a size the int32
    counter can count. *)
Definition capped (N : Z) (org : string) (st : Store) : Prop :=
  (forall p, s_profiles st !! org = Some p -> (MaxProjects (Defaults (profile_Spec p)) <= N)%Z) /\
  (Z.of_nat (size (s_projects st)) < 2 ^ 31)%Z.

Lemma quota_change N org st st' :
  change projectKind (projectValidator a) project_status st st' -> capped N org st ->
  (owned st org <= N)%Z -> (owned st' org <= N)%Z.
Proof.
  intros Hch [Hcap Hsize] Hle. change (ownedMap org (s_projects st) <= N)%Z in Hle.
  change (ownedMap org (s_projects st') <= N)%Z.
  destruct Hch as [ctx p w Hw Hnone Had|ctx old new w Hw Hold Had|ctx k old w _ Hold _|k old new Hold Hs];
    simpl in *.
  - rewrite ownedMap_insert by done. case_decide as Horg; [|lia].
    eapply (checks_sound False) in Had; [|apply project_create_checks; [done|by rewrite Hw]].
    destruct Had as (_ & pr & Hpr & Hlt). rewrite Hw, Horg in *. apply Hcap in Hpr.
    change (ownedMap org (s_projects st) < MaxProjects (Defaults (profile_Spec pr)))%Z in Hlt. lia.
  - rewrite (ownedMap_update _ _ _ old); [done|done|].
    eapply (checks_sound False) in Had; [|by apply project_update_checks]. by destruct Had.
  - rewrite (ownedMap_delete org _ k old Hold) in Hle. case_decide; lia.
  - rewrite (ownedMap_update _ _ _ old); [done|done|]. destruct Hs as [_ Hs].
    unfold projectOrg. by rewrite Hs.
Qed.

Lemma quota_step N org st st' :
  step st st' -> objects_ok st -> capped N org st -> (owned st org <= N)%Z -> (owned st' org <= N)%Z.
Proof.
  intros Hstep Hobj Hcap Hle.
  assert (s_projects st' = s_projects st -> (owned st' org <= N)%Z) as Hsame
    by (unfold owned; by intros ->).
  destruct Hstep as [st' Hch|st' Hch|st' Hch|st' Hch|rr <-|rr <-|rr <- Hcur|st' Hw].
  - apply Hsame, (change_other _ _ _ projectKind _ _ Hch (fun _ _ => eq_refl)).
  - apply Hsame, (change_other _ _ _ projectKind _ _ Hch (fun _ _ => eq_refl)).
  - by eapply quota_change.
  - apply Hsame, (change_other _ _ _ projectKind _ _ Hch (fun _ _ => eq_refl)).
  - apply Hsame. by destruct (reconcile_organization_api rr) as (_ & ? & _).
  - apply Hsame. by destruct (reconcile_project_api rr (proj1 Hobj)) as (_ & _ & ? & _).
  - apply Hsame. by destruct (reconcile_maas_api rr Hcur (proj2 Hobj)) as (_ & _ & ? & _).
  - apply Hsame. by destruct (others_write_api _ _ Hw) as (_ & _ & ? & _).
Qed.

(** Admission and persistence apart: [q] holds the admitted creates that are not yet
    stored. *)
Inductive astep : Store * list OrganizationProject -> Store * list OrganizationProject -> Prop :=
| astep_admit st q ctx p w :
    view w = st -> s_projects st !! Name (project_meta p) = None ->
    admits (OrganizationProjectWebhook.ValidateCreate a ctx p) w -> astep (st, q) (st, p :: q)
| astep_persist st q1 q2 p :
    s_projects st !! Name (project_meta p) = None ->
    astep (st, (q1 ++ p :: q2)%list) (stored projectKind (Name (project_meta p)) p st, (q1 ++ q2)%list).
End system.
