(* ===== verification/AdmissionTheorems.v ===== *)
(** Invariants of the operator over every sequence of requests, status writes,
    reconciliations and writes of others; the limit of the project quota when admission and
    persistence interleave; and projects named after namespaces that exist. *)

From stdpp Require Import gmap strings list relations.
From Stdlib Require Import ZArith.
From S2P Require Import Prelude Platform Api Cluster Fake Validation Available Authz Webhooks Framework OrganizationCtl.
From S2P Require Import ProjectCtl NetPol ProjectSpecs ProjectPipeline ProjectTheorems ProjectLiveness MaaS MaaSSpecs MaaSTheorems Admission.

Local Open Scope string_scope.

Section theorems.
  Context `{P : Platform} `{C : !Cluster} `{L : !LawfulCluster C} `{PL : !PlatformLaws P}.
  Context `{F : !Framework} `{FL : !FrameworkLaws F}.

(** C31: every organization has at most one profile and one MaaS configuration, and they
    are found under its name: in every store reachable by admitted requests, status
    writes, reconciliations and what others write to the provisioned objects, from a
    store where this holds, a profile or configuration is stored under the name of the organization it refers to. *)
Theorem one_profile_per_organization a st st' :
  rtc (step a) st st' -> objects_ok st -> well_named st ->
  well_named st' /\
  (forall k1 k2 p1 p2, s_profiles st' !! k1 = Some p1 -> s_profiles st' !! k2 = Some p2 ->
     profileOrg p1 = profileOrg p2 -> k1 = k2) /\
  (forall k1 k2 c1 c2, s_maas st' !! k1 = Some c1 -> s_maas st' !! k2 = Some c2 ->
     maasOrg c1 = maasOrg c2 -> k1 = k2).
Proof.
  intros Hsteps Hobj Hst. assert (well_named st') as [Hp Hm].
  { induction Hsteps as [|st1 st2 st3 Hstep _ IH]; [done|].
    eapply IH; [by eapply objects_ok_step|by eapply well_named_step]. }
  split; [done|]. split.
  - intros k1 k2 p1 p2 [_ <-]%Hp [_ <-]%Hp. done.
  - intros k1 k2 c1 c2 [_ <-]%Hm [_ <-]%Hm. done.
Qed.

(** C32: no step, be it a request, a status write, a reconciliation or a write of others,
    changes which parent an organization has or which organization a profile, a project or a MaaS configuration refers
    to; only deleting the object and creating another under its name can. *)
Theorem references_immutable a st st' : step a st st' -> objects_ok st -> references_kept st st'.
Proof. apply references_step. Qed.

(** C33: the quota holds as long as requests are admitted one at a time: along every
    sequence of steps on which the organization's cap never exceeds N, an
    organization that owned at most N projects never owns more, whoever asks. *)
Theorem quota_never_exceeded a N org st st' :
  rtc (fun s s' => step a s s' /\ capped N org s) st st' ->
  objects_ok st -> (owned st org <= N)%Z -> (owned st' org <= N)%Z.
Proof.
  intros Hsteps Hobj Hle. induction Hsteps as [|st1 st2 st3 [Hstep Hcap] _ IH]; [done|].
  eapply IH; [by eapply objects_ok_step|by eapply quota_step].
Qed.

(** The scan for a second configuration never decides: in a store where
    configurations are named after their organization, the webhook admits a create
    exactly for the name, root and self-admin conditions. *)
Theorem duplicate_scan_redundant `{Rel : !ReliableReads C} a ctx (obj : MaaSConfiguration) w :
  well_named (view w) ->
  admits (MaaSConfigurationWebhook.ValidateCreate a ctx obj) w <->
  maasOrg obj <> "" /\ Name (maas_meta obj) = maasOrg obj /\
  (exists o, s_organizations (view w) !! maasOrg obj = Some o /\ organizationParent o = "") /\
  may_configure a ctx (view w) (maasOrg obj).
Proof.
  intros [_ Hm]. rewrite (checks_admits _ _ _ (maas_create_checks True (fun _ => Rel) a ctx obj w)).
  unfold maas_wellplaced. split; [tauto|]. intros (He & Hn & Ho & Hauth).
  split; [|done]. repeat (split; [done|]). intros k m [Hk Hmo]%Hm Heq. congruence.
Qed.
End theorems.

(* ------------------------------------------------------------------ *)
(** ** Admission and persistence interleaved *)

Section races.
  Context `{P : Platform} `{C : !Cluster} `{L : !LawfulCluster C} `{Rel : !ReliableReads C}.
  Context (a : authorizer).

(** Creates that the store admits can all wait for their persistence at once. *)
Lemma admit_all ctx w ps q :
  (forall p, p ∈ ps -> s_projects (view w) !! Name (project_meta p) = None /\
     admits (OrganizationProjectWebhook.ValidateCreate a ctx p) w) ->
  rtc (astep a) (view w, q) (view w, (ps ++ q)%list).
Proof.
  induction ps as [|p ps IH]; intros Hps; [done|]. eapply rtc_r.
  - apply IH. intros p' Hp'. apply Hps. by right.
  - destruct (Hps p) as [Hn Had]; [by left|]. by apply (astep_admit _ _ _ ctx p w).
Qed.

(** What waits is stored, each under its name. *)
Lemma persist_all org ps st :
  NoDup (map (fun p => Name (project_meta p)) ps) ->
  (forall p, p ∈ ps -> projectOrg p = org /\ s_projects st !! Name (project_meta p) = None) ->
  exists st', rtc (astep a) (st, ps) (st', []) /\ s_profiles st' = s_profiles st /\
    (owned st' org = owned st org + Z.of_nat (length ps))%Z.
Proof.
  revert st. induction ps as [|p ps IH]; intros st Hnd Hps.
  { exists st. split; [done|]. split; [done|]. simpl. lia. }
  apply NoDup_cons in Hnd as [Hp Hnd]. destruct (Hps p) as [Horg Hnone]; [by left|].
  destruct (IH (stored projectKind (Name (project_meta p)) p st)) as (st' & Hsteps & Hprof & Howned); [done| |].
  { intros p' Hp'. destruct (Hps p') as [? Hn']; [by right|]. split; [done|]. simpl.
    rewrite lookup_insert_ne; [done|]. intros Heq. apply Hp. rewrite Heq. apply (list_elem_of_fmap_2 (fun p => Name (project_meta p)) ps p' Hp'). }
  exists st'. split; [|split; [done|]].
  - eapply rtc_l; [by apply (astep_persist _ st [] ps p)|exact Hsteps].
  - rewrite Howned. change (owned (stored projectKind (Name (project_meta p)) p st) org)
      with (ownedMap org (<[Name (project_meta p) := p]> (s_projects st))).
    rewrite ownedMap_insert, decide_True by done. change (ownedMap org (s_projects st)) with (owned st org).
    rewrite length_cons. lia.
Qed.

(** C34: the cap is a check, not a lock: while an organization owns fewer projects than
    its cap, creates of any number of new projects of it, by anyone with authority over
    it, are all admitted if they are validated before any of them is stored; once
    stored, the organization owns that many more, whatever its cap. *)
Theorem quota_race ctx w org pr ps :
  s_profiles (view w) !! org = Some pr ->
  (owned (view w) org < MaxProjects (Defaults (profile_Spec pr)))%Z ->
  (Z.of_nat (size (s_projects (view w))) < 2 ^ 31)%Z ->
  may_act a ctx (view w) org ->
  (forall p, p ∈ ps -> projectOrg p = org /\ s_projects (view w) !! Name (project_meta p) = None) ->
  NoDup (map (fun p => Name (project_meta p)) ps) ->
  exists st', rtc (astep a) (view w, []) (st', []) /\ s_profiles st' = s_profiles (view w) /\
    (owned st' org = owned (view w) org + Z.of_nat (length ps))%Z.
Proof.
  intros Hpr Hcap Hsize Hauth Hps Hnd.
  destruct (persist_all org ps (view w) Hnd Hps) as (st' & Hstore & ? & ?).
  exists st'. split; [|done]. etransitivity; [|exact Hstore].
  rewrite <- (app_nil_r ps) at 1. apply (admit_all ctx). intros p Hp. destruct (Hps p Hp) as [Horg Hnone].
  split; [done|]. apply (checks_admits _ _ _ (project_create_checks True (fun _ => Rel) a ctx p w Hsize)).
  rewrite Horg. eauto.
Qed.
End races.

(* ------------------------------------------------------------------ *)
(** ** A project named after a namespace that exists *)

Section takeover.
  Context `{P : Platform} `{C : !Cluster} `{L : !LawfulCluster C} `{PL : !PlatformLaws P}.
  Context `{A : !AvailableCluster C} `{F : !Framework} `{FL : !FrameworkLaws F}.

(** Storing the project itself is in nobody's way. *)
Lemma unobstructed_stored p st : unobstructed p st -> unobstructed p (stored projectKind (Name (project_meta p)) p st).
Proof. intros [? ? ? ? ?]. by constructor. Qed.

(** C35: nothing compares the name of a project with the namespaces that exist.  Whoever
    administers an organization with quota left, or one within the two levels above, may
    create a project of it named after any namespace that no controller owns; if nothing else is in the way,
    reconciling the project returns, and then the project controls that namespace
    and every user it lists is bound to the listed role there. *)
Theorem namespace_takeover a ctx u p pr ns w :
  userFrom ctx u -> inherits_admin 3 (view w) u (projectOrg p) ->
  s_profiles (view w) !! projectOrg p = Some pr ->
  (owned (view w) (projectOrg p) < MaxProjects (Defaults (profile_Spec pr)))%Z ->
  (Z.of_nat (size (s_projects (view w))) < 2 ^ 31)%Z ->
  well_keyed (view w) -> unobstructed p (view w) ->
  s_namespaces (view w) !! Name (project_meta p) = Some ns -> controllerOf (ns_meta ns) = None ->
  admits (OrganizationProjectWebhook.ValidateCreate a ctx p) w /\
  forall rr, Instance_ rr = p -> storeOf rr = stored projectKind (Name (project_meta p)) p (view w) ->
    exists rr', runActions (rc_Actions NewOrganizationProjectReconciler) rr = (Ret tt, rr') /\
      (exists ns', s_namespaces (storeOf rr') !! Name (project_meta p) = Some ns' /\
         IsControlledBy (ns_meta ns') (project_meta p) = true) /\
      forall v, v ∈ elems (Users (project_Spec p)) -> pu_Role v ∈ ["edit"; "view"] ->
        exists b, s_rolebindings (storeOf rr') !! (Name (project_meta p), "tenant-" +:+ pu_Role v) = Some b /\
          rb_RoleRef b = roleRef (pu_Role v) /\ subjectOf v ∈ elems (rb_Subjects b).
Proof.
  intros Hu Hin Hpr Hcap Hsize Hk Hun Hns Hfree. split.
  { apply (checks_admits _ _ _ (project_create_checks True (fun _ => available_api) a ctx p w Hsize)).
    split; [|by eauto]. exists u. auto. }
  intros rr Hi Hs.
  assert (well_keyed (storeOf rr)) as Hk' by by rewrite Hs.
  assert (startable (Instance_ rr) (storeOf rr)) as Hstart.
  { apply unobstructed_startable. rewrite Hi, Hs. by apply unobstructed_stored. }
  pose proof (wp_conj _ _ _ _ (reconcile_returns rr Hk' Hstart)
    (project_reconcile_spec False (False_ind _) rr Hk')) as Hwp.
  unfold wp in Hwp. destruct (runActions _ rr) as [r rr']. simpl in Hwp.
  destruct Hwp as [[-> _] (_ & _ & _ & i & o & ns' & _ & Hprov)]. rewrite Hi in Hprov.
  exists rr'. split; [done|]. apply provisioned_asked in Hprov as [].
  split; [exists ns'; tauto|]. intros v Hv Hr.
  destruct (pa_bound (pu_Role v) v Hr Hv eq_refl) as (b & Hb & [Href Hsubj] & _). exists b.
  split; [done|]. split; [done|]. apply Hsubj. eauto.
Qed.
End takeover.

(* ------------------------------------------------------------------ *)
(** ** Runs *)

Section runs.
Import FakeInstances.
#[local] Existing Instance sequentialFramework.
#[local] Existing Instance sequentialFramework_laws.
#[local] Existing Instance FakeCluster_available.

Definition defaultAuthorizer : authorizer := newAuthorizer (fun _ => "").
Definition adminCtx : context := ctxOf "root" ["system:masters"].

Definition projectOf (name owner : string) : OrganizationProject :=
  {| project_meta := setUID (namedMeta "" name) ("uid-project-" +:+ name);
     project_Spec := {| project_OrganizationRef := {| ref_Name := owner |}; Users := None;
                        NetworkIsolation := ""; NetworkGrants := None |};
     project_Status := {| project_apiStatus := zeroStatus; status_Namespace := "" |} |}.

Lemma admin_trusted : isTrusted defaultAuthorizer {| Username := "root"; Groups := ["system:masters"] |} = true.
Proof. reflexivity. Qed.

(** Two projects of an organization with a cap of one. *)
Lemma quota_race_witness :
  exists st, rtc (astep defaultAuthorizer) (demoStore, []) (st, []) /\
    s_profiles st !! "proteomics" = Some (profileWith "proteomics" (Some [userSubject "carol"]) 1) /\
    owned st "proteomics" = 2%Z.
Proof.
  assert (s_profiles demoStore !! "proteomics" = Some (profileWith "proteomics" (Some [userSubject "carol"]) 1)) as Hpr
    by (apply demo_profile; auto).
  destruct (quota_race (C := FakeCluster) defaultAuthorizer adminCtx (fakeWorld demoStore) "proteomics"
    (profileWith "proteomics" (Some [userSubject "carol"]) 1)
    [projectOf "first" "proteomics"; projectOf "second" "proteomics"]) as (st & Hsteps & Hprof & Howned).
  - exact Hpr.
  - reflexivity.
  - reflexivity.
  - eexists. split; [reflexivity|]. left. exact admin_trusted.
  - intros p Hp. rewrite !elem_of_cons, elem_of_nil in Hp.
    destruct Hp as [-> | [-> |[]]]; (split; [reflexivity|apply lookup_empty]).
  - apply (bool_decide_unpack _). reflexivity.
  - exists st. split; [exact Hsteps|]. split; [by rewrite Hprof|]. rewrite Howned. reflexivity.
Defined.

(** A namespace that was there before the operator, and a project of its name. *)
Definition tenantAdmin : UserInfo := {| Username := "carol"; Groups := ["tenancy-users"] |}.
Definition systemNs : Namespaced := {| ns_meta := setUID (namedMeta "" "kube-system") "uid-ns-kube-system" |}.
Definition systemStore : Store := kput namespaceKind {["kube-system" := systemNs]} demoStore.
Definition systemProject : OrganizationProject :=
  {| project_meta := setUID (namedMeta "" "kube-system") "uid-project-kube-system";
     project_Spec := {| project_OrganizationRef := {| ref_Name := "proteomics" |};
                        Users := Some [projectUser "User" "carol" "" "edit"];
                        NetworkIsolation := ""; NetworkGrants := None |};
     project_Status := {| project_apiStatus := zeroStatus; status_Namespace := "" |} |}.

Lemma system_namespace k ns : s_namespaces systemStore !! k = Some ns -> k = "kube-system" /\ ns = systemNs.
Proof. simpl. intros H. apply lookup_singleton_Some in H as [<- <-]. done. Qed.

Lemma system_unobstructed : unobstructed systemProject systemStore.
Proof.
  constructor.
  - done.
  - exists (org "proteomics" "genomics" "research").
    change (s_organizations systemStore) with (s_organizations demoStore).
    split; [apply demo_organization; auto|]. split; [done|].
    constructor; try reflexivity. intros u Hu. simpl in Hu. by apply list_elem_of_singleton in Hu as ->.
  - intros ns Hns. apply system_namespace in Hns as [_ ->].
    constructor; [done|done|by intros r|apply labels_valid_empty|done].
  - intros role b _ Hb. simpl in Hb. by rewrite lookup_empty in Hb.
  - intros name q _ Hq. simpl in Hq. by rewrite lookup_empty in Hq.
Qed.

(** An admin of "proteomics" who is not trusted with the cluster takes kube-system. *)
Lemma namespace_takeover_witness :
  isTrusted defaultAuthorizer tenantAdmin = false /\
  admits (OrganizationProjectWebhook.ValidateCreate defaultAuthorizer (inr tenantAdmin) systemProject)
    (fakeWorld systemStore) /\
  exists rr', runActions (rc_Actions NewOrganizationProjectReconciler)
      (projectRequest (stored projectKind "kube-system" systemProject systemStore) systemProject) = (Ret tt, rr') /\
    (exists ns, s_namespaces (storeOf rr') !! "kube-system" = Some ns /\
       IsControlledBy (ns_meta ns) (project_meta systemProject) = true) /\
    exists b, s_rolebindings (storeOf rr') !! ("kube-system", "tenant-edit") = Some b /\
      rb_RoleRef b = roleRef "edit" /\ subjectOf (projectUser "User" "carol" "" "edit") ∈ elems (rb_Subjects b).
Proof.
  assert (s_profiles systemStore !! "proteomics" = Some (profileWith "proteomics" (Some [userSubject "carol"]) 1)) as Hpr
    by (apply demo_profile; auto).
  destruct (namespace_takeover (C := FakeCluster) defaultAuthorizer (inr tenantAdmin) tenantAdmin systemProject
    (profileWith "proteomics" (Some [userSubject "carol"]) 1) systemNs
    (fakeWorld systemStore) eq_refl) as [Had Hrun]; [|exact Hpr|reflexivity|reflexivity| |exact system_unobstructed| |reflexivity|].
  - exists 0, "proteomics". split; [lia|]. split; [by constructor|]. eexists _, (userSubject "carol"). split; [exact Hpr|].
    split; [apply (bool_decide_unpack _)|]; reflexivity.
  - split; [intros k q Hq; simpl in Hq; by rewrite lookup_empty in Hq|].
    by intros k ns [-> ->]%system_namespace.
  - apply lookup_singleton_eq.
  - split; [reflexivity|]. split; [exact Had|].
    destruct (Hrun (projectRequest (stored projectKind "kube-system" systemProject systemStore) systemProject)
      eq_refl eq_refl) as (rr' & Hrun' & Hns & Hb).
    exists rr'. split; [exact Hrun'|]. split; [exact Hns|].
    apply (Hb (projectUser "User" "carol" "" "edit")); by left.
Defined.

Lemma demoStore_well_named : well_named demoStore.
Proof.
  split.
  - intros k p Hk. apply demo_profile in Hk as [[-> ->]|[[-> ->]|[-> ->]]]; done.
  - intros k c Hk. simpl in Hk. by rewrite lookup_empty in Hk.
Qed.

Lemma demoStore_objects : objects_ok demoStore.
Proof. split; [split|]; intros k o Hk; simpl in Hk; by rewrite lookup_empty in Hk. Qed.

(** The system admin creates a project in the demo tree. *)
Definition afterCreate : Store := stored projectKind "first" (projectOf "first" "proteomics") demoStore.

Lemma create_first : step defaultAuthorizer demoStore afterCreate.
Proof.
  apply step_project, (change_create projectKind _ _ demoStore adminCtx
    (projectOf "first" "proteomics") (fakeWorld demoStore));
    [reflexivity|apply lookup_empty|vm_compute; reflexivity].
Qed.

Lemma one_profile_per_organization_witness : well_named afterCreate.
Proof.
  apply (one_profile_per_organization defaultAuthorizer demoStore afterCreate);
    [apply rtc_once, create_first|apply demoStore_objects|apply demoStore_well_named].
Defined.

Lemma references_immutable_witness : references_kept demoStore afterCreate.
Proof. apply (references_immutable defaultAuthorizer demoStore afterCreate create_first), demoStore_objects. Defined.

Lemma quota_never_exceeded_witness : (owned afterCreate "proteomics" <= 1)%Z.
Proof.
  apply (quota_never_exceeded defaultAuthorizer 1 "proteomics" demoStore afterCreate).
  - apply rtc_once. split; [exact create_first|]. split; [|reflexivity].
    intros p Hp. apply demo_profile in Hp as [[[=] _]|[[[=] _]|[_ ->]]]. reflexivity.
  - exact demoStore_objects.
  - vm_compute. discriminate.
Defined.

Lemma duplicate_scan_redundant_witness :
  exists c, admits (MaaSConfigurationWebhook.ValidateCreate defaultAuthorizer adminCtx c)
              (fakeWorld demoStore) /\ Name (maas_meta c) = maasOrg c.
Proof.
  exists (researchConfig None).
  assert (admits (MaaSConfigurationWebhook.ValidateCreate defaultAuthorizer adminCtx (researchConfig None))
            (fakeWorld demoStore)) as Had by (vm_compute; reflexivity).
  split; [exact Had|].
  apply (duplicate_scan_redundant defaultAuthorizer adminCtx (researchConfig None) (fakeWorld demoStore))
    in Had; [exact (proj1 (proj2 Had))|exact demoStore_well_named].
Defined.
End runs.
