(* ===== verification/SchemaInvariant.v ===== *)
(** The schemas and the steps of the system together: where the API server stores only
    specs its schemas accept, the specs the controllers and webhooks work on stay within
    them in every reachable store, whatever the operator itself writes. *)

From stdpp Require Import gmap strings list relations.
From Stdlib Require Import ZArith Ascii.
From S2P Require Import Prelude Platform Api Cluster Fake Authz Webhooks Framework OrganizationCtl AdmissionChain.
From S2P Require Import ProjectCtl NetPol ProjectSpecs ProjectPipeline ProjectTheorems MaaS MaaSSpecs MaaSTheorems.
From S2P Require Import Admission AdmissionTheorems SchemaEffects.
From S2P Require Json JsonTheorems Schema SchemaTheorems.
Import Json Schema SchemaTheorems.

Local Open Scope string_scope.

Section guarded.
  Context `{SV : !SchemaServer} `{SL : !SchemaLaws SV}.

(** The API server stored this spec: some request, completed with its defaults and found to
    conform, is what the object was read from. *)
Definition stored_spec {S} (sch : Schema) (t : GoType S) (s : S) : Prop :=
  exists v v', storedAs sch v = Some v' /\ fits32 sch v' = true /\ fromJSON t v' = Some s.

Lemma stored_spec_valid {S} sch (t : GoType S) valid s :
  Describes sch t valid -> stored_spec sch t s -> valid s.
Proof.
  intros Hd (v & v' & Hv & Hf & Hs). destruct (described_decodes _ _ _ Hd v v' Hv Hf) as (s' & Hs' & ?).
  congruence.
Qed.

(** A change of one kind puts in only specs that were there or that the server stored. *)
Definition guarded {P : Platform} {T S} (kd : Kind string T) (spec : T -> S) sch (t : GoType S) (st st' : Store) : Prop :=
  forall k o, ksel kd st' !! k = Some o ->
    (exists o0, ksel kd st !! k = Some o0 /\ spec o = spec o0) \/ stored_spec sch t (spec o).

Lemma guarded_valid {P : Platform} {T S} (kd : Kind string T) (spec : T -> S) sch t valid st st' :
  Describes sch t valid -> guarded kd spec sch t st st' ->
  (forall k o, ksel kd st !! k = Some o -> valid (spec o)) ->
  forall k o, ksel kd st' !! k = Some o -> valid (spec o).
Proof.
  intros Hd Hg Hst k o Ho. destruct (Hg k o Ho) as [(o0 & Ho0 & ->)|Hs]; [by eapply Hst|].
  by eapply stored_spec_valid.
Qed.
End guarded.

Section system.
  Context `{P : Platform} `{C : !Cluster} `{L : !LawfulCluster C} `{PL : !PlatformLaws P}.
  Context `{F : !Framework} `{FL : !FrameworkLaws F} `{SV : !SchemaServer} `{SL : !SchemaLaws SV}.
  Context (a : authorizer).

(** The steps of the system, where requests and status writes go through the schemas and the
    organization under reconciliation has a name. *)
Inductive gstep (st : Store) : Store -> Prop :=
| gstep_organization st' :
    change organizationKind (organizationValidator a) organization_status st st' -> gstep st st'
| gstep_profile st' :
    change profileKind (profileValidator a) profile_status st st' ->
    guarded profileKind profile_Spec schema_OrganizationProfileSpec json_OrganizationProfileSpec st st' ->
    gstep st st'
| gstep_project st' :
    change projectKind (projectValidator a) project_status st st' ->
    guarded projectKind project_Spec schema_OrganizationProjectSpec json_OrganizationProjectSpec st st' ->
    gstep st st'
| gstep_maas st' :
    change maasKind (maasValidator a) maas_status st st' ->
    guarded maasKind maas_Spec schema_MaaSConfigurationSpec json_MaaSConfigurationSpec st st' ->
    gstep st st'
| greconcile_organization rr :
    stateOf rr = st -> Name (organization_meta (Instance_ rr)) <> "" ->
    gstep st (stateOf (snd (runActions (rc_Actions NewOrganizationReconciler) rr)))
| greconcile_project rr :
    storeOf rr = st ->
    gstep st (storeOf (snd (runActions (rc_Actions NewOrganizationProjectReconciler) rr)))
| greconcile_maas rr :
    maasStore rr = st -> current rr ->
    gstep st (maasStore (snd (reconcileMaaS rr)))
| gstep_others st' : others_write st st' -> gstep st st'.

Lemma gstep_step st st' : gstep st st' -> step a st st'.
Proof. intros []; eauto using step. Qed.

(** The specs of the three kinds are as their schemas say. *)
Record specs_typed (st : Store) : Prop := {
  ty_profiles : profiles_typed st;
  ty_projects k p : s_projects st !! k = Some p -> valid_OrganizationProjectSpec (project_Spec p);
  ty_maas k c : s_maas st !! k = Some c -> valid_MaaSConfigurationSpec (maas_Spec c);
}.

Lemma specs_typed_ext st st' :
  s_profiles st' = s_profiles st -> s_projects st' = s_projects st -> s_maas st' = s_maas st ->
  specs_typed st -> specs_typed st'.
Proof. intros H1 H2 H3 [T1 T2 T3]. split; unfold profiles_typed in *; rewrite ?H1, ?H2, ?H3; done. Qed.

(** The profile the organization controller writes conforms, although no request wrote it. *)
Lemma restrictive_valid o p :
  Name (organization_meta o) <> "" -> restrictive_for o p -> valid_OrganizationProfileSpec (profile_Spec p).
Proof.
  intros Hn (_ & Horg & Hadm & Hmax & Hiso & Hplat & _). unfold profileOrg in Horg.
  split; [unfold valid_OrganizationReference; by rewrite Horg|]. rewrite Hadm.
  split; [constructor|]. split; [|by rewrite Hplat].
  unfold valid_ProjectDefaults. rewrite Hiso, Hmax. split; [set_solver|lia].
Qed.

Lemma typed_organization rr :
  Name (organization_meta (Instance_ rr)) <> "" -> specs_typed (stateOf rr) ->
  specs_typed (stateOf (snd (runActions (rc_Actions NewOrganizationReconciler) rr))).
Proof.
  intros Hn Hty. pose proof (reconcile_spec False (False_ind _) rr) as Hwp. unfold wp in Hwp.
  destruct (runActions _ rr) as [[[]|e|] rr']; simpl in *; [| |done].
  2:{ destruct Hwp as [-> _]. done. }
  destruct Hwp as (root & _ & Hi & [[_ ->]|(_ & p & Hp & ->)]); [done|].
  destruct Hty as [Hprof Hproj Hmaas]. split; [|exact Hproj|exact Hmaas].
  intros k q. unfold stored. simpl. rewrite lookup_insert_Some. intros [[_ <-]|[_ Hq]]; [|by eapply Hprof].
  eapply restrictive_valid; [|done]. by rewrite Hi.
Qed.

Lemma typed_maas rr :
  current rr -> tenants_ok (maasStore rr) -> specs_typed (maasStore rr) ->
  specs_typed (maasStore (snd (reconcileMaaS rr))).
Proof.
  intros Hcur Hok Hty. destruct (reconcile_maas_api rr Hcur Hok) as (_ & Hp & Hj & Hm).
  destruct Hm as [Hm|(x & Hm & Hx)]; [by eapply specs_typed_ext|].
  destruct Hty as [H1 H2 H3]. split; [unfold profiles_typed; by rewrite Hp|by rewrite Hj|].
  rewrite Hm. intros k c. destruct (decide (k = Name (maas_meta (Instance_ rr)))) as [->|Hne].
  - rewrite lookup_partial_alter_eq. intros Hc. destruct (Hx c Hc) as [_ ->].
    destruct Hcur as [Hcur _]. by eapply H3.
  - rewrite lookup_partial_alter_ne by done. apply H3.
Qed.

Ltac elsewhere Hch kd := exact (change_other _ _ _ kd _ _ Hch (fun _ _ => eq_refl)).

Lemma typed_gstep st st' : gstep st st' -> objects_ok st -> specs_typed st -> specs_typed st'.
Proof.
  intros Hstep Hobj Hty. destruct Hstep as [st' Hch|st' Hch Hg|st' Hch Hg|st' Hch Hg|rr <- Hn|rr <-|rr <- Hcur|st' Hw].
  - apply (specs_typed_ext st); [elsewhere Hch profileKind|elsewhere Hch projectKind|elsewhere Hch maasKind|done].
  - destruct Hty as [H1 H2 H3]. split.
    + exact (guarded_valid _ _ _ _ _ _ _ OrganizationProfileSpec_described Hg H1).
    + assert (s_projects st' = s_projects st) as -> by elsewhere Hch projectKind. done.
    + assert (s_maas st' = s_maas st) as -> by elsewhere Hch maasKind. done.
  - destruct Hty as [H1 H2 H3]. split.
    + unfold profiles_typed. assert (s_profiles st' = s_profiles st) as -> by elsewhere Hch profileKind. done.
    + exact (guarded_valid _ _ _ _ _ _ _ OrganizationProjectSpec_described Hg H2).
    + assert (s_maas st' = s_maas st) as -> by elsewhere Hch maasKind. done.
  - destruct Hty as [H1 H2 H3]. split.
    + unfold profiles_typed. assert (s_profiles st' = s_profiles st) as -> by elsewhere Hch profileKind. done.
    + assert (s_projects st' = s_projects st) as -> by elsewhere Hch projectKind. done.
    + exact (guarded_valid _ _ _ _ _ _ _ MaaSConfigurationSpec_described Hg H3).
  - by apply typed_organization.
  - destruct (reconcile_project_api rr (proj1 Hobj)) as (_ & ? & ? & ?). by apply (specs_typed_ext (storeOf rr)).
  - apply typed_maas; [done|apply Hobj|done].
  - destruct (others_write_api _ _ Hw) as (_ & ? & ? & ?). by apply (specs_typed_ext st).
Qed.

(** C30: the schemas hold for the whole system, not only for single requests.  Along every
    sequence of requests and status writes that pass through the schemas,
    reconciliations and writes of others, the specs of the stored profiles, projects and
    MaaS configurations stay valid, although the controllers' own writes are not decoded
    from a request.  So in every reachable store the isolation the project controller computes
    for a project is one of the three presets (the documented one, where profiles can be
    read), and each user of the project is among the subjects it binds to the user's role,
    which is edit or view. *)
Theorem reachable_specs_typed st st' :
  rtc gstep st st' -> objects_ok st -> specs_typed st ->
  specs_typed st' /\
  forall k p, s_projects st' !! k = Some p ->
    (forall w, view w = st' -> exists i w', effectiveIsolation p w = (Ret i, w') /\ i ∈ presets /\
       (ReliableReads C -> i = preset st' p)) /\
    forall u, u ∈ elems (Users (project_Spec p)) ->
      pu_Role u ∈ ["edit"; "view"] /\ subjectOf u ∈ elems (subjectsForRole (Users (project_Spec p)) (pu_Role u)).
Proof.
  intros Hsteps Hobj Hty. assert (specs_typed st') as Hty'.
  { induction Hsteps as [|st1 st2 st3 Hstep _ IH]; [done|].
    apply IH; [by eapply objects_ok_step, Hobj; apply gstep_step|by eapply typed_gstep]. }
  split; [done|]. intros k p Hp. pose proof (ty_projects _ Hty' k p Hp) as Hv.
  split.
  - intros w Hw. pose proof (effectiveIsolation_spec (ReliableReads C) id p w) as Hwp. unfold wp in Hwp.
    destruct (effectiveIsolation p w) as [r w']. simpl in Hwp. rewrite Hw in Hwp.
    destruct Hwp as (_ & i & -> & Hi & HR & _). exists i, w'. split; [done|]. split; [|exact HR].
    destruct Hi as [-> | ->]; [by apply preset_typed; [|apply Hty']|by right; left].
  - destruct Hv as (_ & Hu & _). rewrite Forall_forall in Hu. intros u Hin.
    destruct (Hu u Hin) as (_ & _ & Hr). split; [exact Hr|]. apply subjectsForRole_exact. by exists u.
Qed.
End system.

(* ------------------------------------------------------------------ *)
(** ** A run *)

Section runs.
Import FakeInstances FakeSchema.
#[local] Existing Instance sequentialFramework.
#[local] Existing Instance sequentialFramework_laws.
#[local] Existing Instance FakeSchemaServer.
#[local] Existing Instance FakeSchemaServer_laws.

Lemma demoStore_typed : specs_typed demoStore.
Proof.
  split; [|intros k p Hk; simpl in Hk; by rewrite lookup_empty in Hk..].
  intros k p Hk. apply demo_profile in Hk as [[_ ->]|[[_ ->]|[_ ->]]]; simpl;
    (split; [done|]; split; [|split; [|done]]).
  all: try (apply (bool_decide_unpack _); vm_compute; exact I).
  all: split; [apply (bool_decide_unpack _); vm_compute; exact I|simpl; lia].
Qed.

Lemma first_stored :
  stored_spec schema_OrganizationProjectSpec json_OrganizationProjectSpec
    (project_Spec (projectOf "first" "proteomics")).
Proof.
  set (s := project_Spec _). exists (toJSON json_OrganizationProjectSpec s), (toJSON json_OrganizationProjectSpec s).
  split; [reflexivity|]. split; [reflexivity|].
  apply (JsonTheorems.OrganizationProjectSpec_codec s). constructor.
Qed.

(** The project created in the demo tree went through its schema. *)
Lemma reachable_specs_typed_witness : specs_typed afterCreate.
Proof.
  apply (reachable_specs_typed defaultAuthorizer demoStore afterCreate); [|exact demoStore_objects|exact demoStore_typed].
  apply rtc_once, gstep_project.
  - apply (change_create projectKind _ _ demoStore adminCtx (projectOf "first" "proteomics") (fakeWorld demoStore));
      [reflexivity|apply lookup_empty|vm_compute; reflexivity].
  - intros k o Hk. simpl in Hk. apply lookup_insert_Some in Hk as [[_ <-]|[_ Hk]]; [right; exact first_stored|].
    by rewrite lookup_empty in Hk.
Defined.
End runs.
