(* ===== verification/CommandLine.v ===== *)
(** The command line of cmd/main.go: the flags it registers and what flag.Parse of the Go
    standard library makes of the arguments, up to the start of the manager.

    flag.CommandLine exits on errors: an error is the exit status (2, or 0 after a
    request for help).  Other packages register flags too (zap.Options.BindFlags, the
    configuration of controller-runtime): they are the class [OtherFlags]. *)

From stdpp Require Import gmap strings list.
From Stdlib Require Import ZArith Ascii.
From S2P Require Import Prelude Platform Api Cluster Authz Framework Manager.

Local Open Scope string_scope.

(* ------------------------------------------------------------------ *)
(** ** The registered flags *)

(** A variable bound to a flag: how a parsed value is stored in it. *)
Inductive FlagVar :=
| StringVar (set : string -> Flags -> Flags)
| BoolVar (set : bool -> Flags -> Flags).

Definition flagVars : list (string * FlagVar) :=
  [("metrics-bind-address", StringVar (fun x '(Build_Flags _ b c d e g h i j k l) => Build_Flags x b c d e g h i j k l));
   ("health-probe-bind-address", StringVar (fun x '(Build_Flags a _ c d e g h i j k l) => Build_Flags a x c d e g h i j k l));
   ("leader-elect", BoolVar (fun x '(Build_Flags a b _ d e g h i j k l) => Build_Flags a b x d e g h i j k l));
   ("metrics-secure", BoolVar (fun x '(Build_Flags a b c _ e g h i j k l) => Build_Flags a b c x e g h i j k l));
   ("webhook-cert-path", StringVar (fun x '(Build_Flags a b c d _ g h i j k l) => Build_Flags a b c d x g h i j k l));
   ("webhook-cert-name", StringVar (fun x '(Build_Flags a b c d e _ h i j k l) => Build_Flags a b c d e x h i j k l));
   ("webhook-cert-key", StringVar (fun x '(Build_Flags a b c d e g _ i j k l) => Build_Flags a b c d e g x i j k l));
   ("metrics-cert-path", StringVar (fun x '(Build_Flags a b c d e g h _ j k l) => Build_Flags a b c d e g h x j k l));
   ("metrics-cert-name", StringVar (fun x '(Build_Flags a b c d e g h i _ k l) => Build_Flags a b c d e g h i x k l));
   ("metrics-cert-key", StringVar (fun x '(Build_Flags a b c d e g h i j _ l) => Build_Flags a b c d e g h i j x l));
   ("enable-http2", BoolVar (fun x '(Build_Flags a b c d e g h i j k _) => Build_Flags a b c d e g h i j k x))].

Fixpoint assoc {A} (k : string) (l : list (string * A)) : option A :=
  match l with
  | [] => None
  | (k', a) :: l' => if decide (k' = k) then Some a else assoc k l'
  end.

(** The flags of other packages: whether a name is registered and boolean, and the effect
    of setting it, which may be refused. *)
Class OtherFlags := {
  otherState : Type;
  otherInit : otherState;
  otherLookup : string -> option bool;
  otherSet : string -> string -> otherState -> option otherState;
}.

(* ------------------------------------------------------------------ *)
(** ** flag.Parse *)

(** strconv.ParseBool *)
Definition ParseBool (s : string) : option bool :=
  if decide (s ∈ ["1"; "t"; "T"; "TRUE"; "true"; "True"]) then Some true
  else if decide (s ∈ ["0"; "f"; "F"; "FALSE"; "false"; "False"]) then Some false
  else None.

(** A string up to its first '=' and what follows it. *)
Fixpoint cutEquals (s : string) : string * option string :=
  match s with
  | EmptyString => (EmptyString, None)
  | String c s' =>
      if decide (c = "="%char) then (EmptyString, Some s')
      else let (n, v) := cutEquals s' in (String c n, v)
  end.

(** The beginning of parseOne: not a flag, the terminator, bad syntax, or a name with an
    optional value. *)
Inductive token := NotFlag | Terminator | BadSyntax | FlagToken (name : string) (value : option string).

Definition flagName (s : string) : token :=
  match s with
  | EmptyString => BadSyntax
  | String c s' =>
      if decide (c = "-"%char \/ c = "="%char) then BadSyntax
      else let (n, v) := cutEquals s' in FlagToken (String c n) v
  end.

Definition tokenOf (s : string) : token :=
  match s with
  | String c1 (String c2 s') =>
      if decide (c1 = "-"%char) then
        if decide (c2 = "-"%char) then
          match s' with EmptyString => Terminator | _ => flagName s' end
        else flagName (String c2 s')
      else NotFlag
  | _ => NotFlag
  end.

Section parse.
  Context `{O : OtherFlags}.

Abbreviation parsed := (Flags * otherState)%type.

(** The flag of a name: whether it is boolean, and its Set. *)
Definition formal (name : string) : option (bool * (string -> parsed -> option parsed)) :=
  match assoc name flagVars with
  | Some (StringVar set) => Some (false, fun v s => Some (set v (fst s), snd s))
  | Some (BoolVar set) =>
      Some (true, fun v s => b ← ParseBool v; Some (set b (fst s), snd s))
  | None =>
      match otherLookup name with
      | Some isBool => Some (isBool, fun v s => o ← otherSet name v (snd s); Some (fst s, o))
      | None => None
      end
  end.

(** The loop over parseOne.  The remaining arguments are not used by the program. *)
Fixpoint parseArgs (args : list string) (s : parsed) {struct args} : outcome Z parsed :=
  match args with
  | [] => Ret s
  | a :: rest =>
      match tokenOf a with
      | NotFlag | Terminator => Ret s
      | BadSyntax => Err 2%Z
      | FlagToken name value =>
          match formal name with
          | None => if decide (name = "help" \/ name = "h") then Err 0%Z else Err 2%Z
          | Some (true, set) =>
              match set (default "true" value) s with
              | Some s' => parseArgs rest s'
              | None => Err 2%Z
              end
          | Some (false, set) =>
              match value with
              | Some v => match set v s with Some s' => parseArgs rest s' | None => Err 2%Z end
              | None =>
                  match rest with
                  | [] => Err 2%Z
                  | v :: rest' => match set v s with Some s' => parseArgs rest' s' | None => Err 2%Z end
                  end
              end
          end
      end
  end.

(** Registering a name twice panics; then the arguments are parsed. *)
Definition parseFlags (args : list string) : outcome Z parsed :=
  if existsb (fun nv => match otherLookup (fst nv) with Some _ => true | None => false end) flagVars
  then Panic
  else parseArgs args (defaultFlags, otherInit).
End parse.

(** The whole entry point: [main] after its package's [init]. *)
Definition entry `{P : Platform} `{C : !Cluster} `{M : !ManagerRuntime} `{O : OtherFlags}
    (getenv : string -> string) (args : list string) : GoM manager Z unit :=
  init ;;;
  let* s := lift (parseFlags args) in
  main getenv (fst s).
