(* ===== verification/CommandLineTheorems.v ===== *)
(** What the command line means: the parser accepts exactly sequences of settings, in any
    of the spellings of the flag package, and gives their effect in order; and the servers
    are protected unless an argument says otherwise. *)

From stdpp Require Import gmap strings list.
From Stdlib Require Import ZArith Ascii.
From S2P Require Import Prelude Platform Api Cluster Fake Authz Framework Manager CommandLine ManagerTheorems.

Local Open Scope string_scope.

(* ------------------------------------------------------------------ *)
(** ** Settings and their spellings *)

(** [-name=value], [-name] and [-name value], with one dash or two. *)
Inductive setting :=
| WithValue (two : bool) (name value : string)
| Bare (two : bool) (name : string)
| Separate (two : bool) (name value : string).

Definition dashes (two : bool) : string := if two then "--" else "-".
Definition spell (i : setting) : list string :=
  match i with
  | WithValue two name value => [dashes two +:+ name +:+ String "="%char value]
  | Bare two name => [dashes two +:+ name]
  | Separate two name value => [dashes two +:+ name; value]
  end.

Definition nameOf (i : setting) : string :=
  match i with WithValue _ n _ => n | Bare _ n => n | Separate _ n _ => n end.

(** A name the parser can read: it has no '=' and does not start with a dash. *)
Definition goodName (name : string) : Prop :=
  string_has "="%char name = false /\ exists c s, name = String c s /\ c <> "-"%char.

(** What the parser stops at. *)
Definition endsFlags (args : list string) : Prop :=
  match args with [] => True | a :: _ => tokenOf a = NotFlag \/ tokenOf a = Terminator end.

Section meaning.
  Context `{O : OtherFlags}.

Definition effect (i : setting) (s : Flags * otherState) : option (Flags * otherState) :=
  match i, formal (nameOf i) with
  | WithValue _ _ v, Some (_, set) => set v s
  | Bare _ _, Some (true, set) => set "true" s
  | Separate _ _ v, Some (false, set) => set v s
  | _, _ => None
  end.

Fixpoint effects (ss : list setting) (s : Flags * otherState) : option (Flags * otherState) :=
  match ss with
  | [] => Some s
  | i :: ss' => s' ← effect i s; effects ss' s'
  end.

(* ------------------------------------------------------------------ *)
(** ** Tokens *)

Lemma cutEquals_spec s n v : cutEquals s = (n, v) <->
  string_has "="%char n = false /\ s = n +:+ match v with Some v => String "="%char v | None => "" end.
Proof.
  revert n v. induction s as [|c s IH]; intros n v; cbn.
  - split.
    + intros [= <- <-]. done.
    + intros [_ H]. destruct n; [|discriminate H]. by destruct v; [discriminate H|].
  - case_decide as Hc; [subst c|].
    + split; [intros [= <- <-]; done|]. intros [Hn H]. destruct n as [|c' n].
      * destruct v; [by injection H as ->|discriminate H].
      * injection H as <- H. discriminate Hn.
    + destruct (cutEquals s) as [n' v'] eqn:E. split.
      * intros [= <- <-]. destruct (proj1 (IH n' v') eq_refl) as [Hn ->]. cbn.
        by rewrite bool_decide_false.
      * intros [Hn H]. destruct n as [|c' n].
        { destruct v; [by injection H as -> ->|discriminate H]. }
        injection H as <- H. simpl in Hn. apply orb_false_elim in Hn as [_ Hn].
        assert ((n', v') = (n, v)) as [= -> ->] by (by apply IH). done.
Qed.

Lemma flagName_spec s n v : flagName s = FlagToken n v <->
  goodName n /\ s = n +:+ match v with Some v => String "="%char v | None => "" end.
Proof.
  unfold goodName. destruct s as [|c s]; simpl.
  - split; [done|]. intros [(_ & c & n' & -> & _) H]. discriminate H.
  - case_decide as Hc.
    + split; [done|]. intros [(Hn & c' & n' & -> & Hd) H]. injection H as <- H.
      destruct Hc as [-> | ->]; [done|discriminate Hn].
    + destruct (cutEquals s) as [n' v'] eqn:E. split.
      * intros [= <- <-]. apply cutEquals_spec in E as [Hn ->]. split; [|done]. split; [|naive_solver].
        simpl. rewrite bool_decide_false by naive_solver. done.
      * intros [(Hn & c' & m & -> & Hd) H]. injection H as <- H. simpl in Hn.
        apply orb_false_elim in Hn as [_ Hn].
        assert ((n', v') = (m, v)) as [= -> ->] by (rewrite <- E; by apply cutEquals_spec). done.
Qed.

Lemma goodName_append n x : goodName n -> exists c s, n +:+ x = String c s /\ c <> "-"%char.
Proof. intros (_ & c & s & -> & Hc). by exists c, (s +:+ x). Qed.

Lemma tokenOf_spec a n v : tokenOf a = FlagToken n v <->
  goodName n /\ exists two, a = dashes two +:+ n +:+ match v with Some v => String "="%char v | None => "" end.
Proof.
  split.
  - destruct a as [|c1 [|c2 s]]; try done. unfold tokenOf. case_decide; [subst|done]. case_decide; [subst|].
    + destruct s; [done|]. intros [Hn Heq]%flagName_spec. split; [done|]. exists true. by rewrite Heq.
    + intros [Hn Heq]%flagName_spec. split; [done|]. exists false. by rewrite Heq.
  - intros [Hn [two ->]]. set (x := match v with Some _ => _ | None => _ end).
    destruct (goodName_append n x Hn) as (c & s & Heq & Hc). rewrite Heq.
    assert (flagName (String c s) = FlagToken n v) as Hf by (apply flagName_spec; by rewrite <- Heq).
    destruct two; cbn [dashes]; [done|]. change ("-" +:+ String c s) with (String "-"%char (String c s)).
    unfold tokenOf. by rewrite decide_True, decide_False by done.
Qed.

(* ------------------------------------------------------------------ *)
(** ** The parser accepts settings *)

Lemma append_nil_r s : s +:+ "" = s.
Proof. induction s as [|c s IH]; [done|]. change (String c (s +:+ "") = String c s). by rewrite IH. Qed.

(** One setting at the front of the arguments. *)
Lemma parseArgs_setting i rest s s' : goodName (nameOf i) -> effect i s = Some s' ->
  parseArgs (spell i ++ rest) s = parseArgs rest s'.
Proof.
  intros Hn He.
  assert (forall two v, tokenOf (dashes two +:+ nameOf i +:+
    match v with Some v => String "="%char v | None => "" end) = FlagToken (nameOf i) v) as Htok.
  { intros two v. apply tokenOf_spec. split; [done|]. by exists two. }
  destruct i as [two n v|two n|two n v]; unfold effect in He; simpl in *.
  - rewrite (Htok two (Some v)). destruct (formal n) as [[[] set]|]; [..|done]; simpl; by rewrite He.
  - specialize (Htok two None). rewrite append_nil_r in Htok. rewrite Htok.
    destruct (formal n) as [[[] set]|]; [|done..]. simpl. by rewrite He.
  - specialize (Htok two None). rewrite append_nil_r in Htok. rewrite Htok.
    destruct (formal n) as [[[] set]|]; [done| |done]. by rewrite He.
Qed.

(** A flag at the front of accepted arguments is a setting. *)
Lemma parseArgs_front a rest s s' n v : tokenOf a = FlagToken n v -> parseArgs (a :: rest) s = Ret s' ->
  exists i rest' s1, (a :: rest = spell i ++ rest')%list /\ goodName (nameOf i) /\ effect i s = Some s1 /\
    parseArgs rest' s1 = Ret s' /\ length rest' < length (a :: rest).
Proof.
  intros Htok Hp. simpl in Hp. rewrite Htok in Hp. apply tokenOf_spec in Htok as [Hn [two ->]].
  destruct (formal n) as [[isBool set]|] eqn:Hf; [|by case_decide].
  destruct v as [v|].
  - assert (exists s1, set v s = Some s1 /\ parseArgs rest s1 = Ret s') as (s1 & Hs1 & Hrest).
    { destruct isBool; simpl in Hp; destruct (set v s); try done; eauto. }
    exists (WithValue two n v), rest, s1. unfold effect. simpl. rewrite Hf. split_and!; try done. lia.
  - rewrite append_nil_r. destruct isBool; simpl in Hp.
    + destruct (set "true" s) as [s1|] eqn:Hs1; [|done].
      exists (Bare two n), rest, s1. unfold effect. simpl. rewrite Hf. split_and!; try done. lia.
    + destruct rest as [|v rest']; [done|]. destruct (set v s) as [s1|] eqn:Hs1; [|done].
      exists (Separate two n v), rest', s1. unfold effect. simpl. rewrite Hf. split_and!; try done. lia.
Qed.

(** The arguments that follow the flags. *)
Lemma parseArgs_end args s : endsFlags args -> parseArgs args s = Ret s.
Proof. destruct args as [|a rest]; simpl; [done|]. by intros [-> | ->]. Qed.

(** Accepted arguments are settings. *)
Lemma parseArgs_settings args s s' : parseArgs args s = Ret s' ->
  exists ss rest, (args = flat_map spell ss ++ rest)%list /\ endsFlags rest /\
    Forall (fun i => goodName (nameOf i)) ss /\ effects ss s = Some s'.
Proof.
  remember (length args) as n eqn:Hlen. revert args s Hlen.
  induction (lt_wf n) as [n _ IH]. intros args s -> Hp.
  destruct args as [|a rest]; [exists [], []; simpl in *; simplify_eq; split_and!; done|].
  destruct (tokenOf a) as [| | |m v] eqn:Htok.
  1,2: exists [], (a :: rest); simpl in Hp; rewrite Htok in Hp; simplify_eq; split_and!; [done|simpl; auto|done..].
  1: simpl in Hp; rewrite Htok in Hp; done.
  destruct (parseArgs_front a rest s s' m v Htok Hp) as (i & rest' & s1 & Heq & Hgood & He & Hrest & Hlt).
  destruct (IH _ Hlt rest' s1 eq_refl Hrest) as (ss & tl & -> & Hend & Hall & Heff).
  exists (i :: ss), tl. simpl. rewrite <- app_assoc, He. by split_and!; [|done|constructor|].
Qed.

(** Arguments that are not accepted end the program with one of two exit statuses. *)
Lemma parseArgs_status args s : match parseArgs args s with
  | Ret _ => True
  | Err status => status = 0%Z \/ status = 2%Z
  | Panic => False
  end.
Proof.
  remember (length args) as n eqn:Hlen. revert args s Hlen. induction (lt_wf n) as [n _ IH]. intros args s ->.
  destruct args as [|a rest]; simpl; [done|].
  destruct (tokenOf a) as [| | |name v]; [done..|auto|].
  destruct (formal name) as [[[] set]|]; [| |case_decide; auto].
  - destruct (set _ s); [|auto]. eapply IH; [|done]. simpl. lia.
  - destruct v as [v|]; [destruct (set v s); [|auto]; eapply IH; [|done]; simpl; lia|].
    destruct rest as [|v rest']; [auto|]. destruct (set v s); [|auto]. eapply IH; [|done]. simpl. lia.
Qed.

(** The parser accepts a command line exactly when it is a sequence of settings of
    registered flags, each spelled -name=value, -name (for a boolean flag) or -name value
    (for another), with one dash or two, followed by nothing, by an argument that is no
    flag or by the terminator; what it returns is the effect of the settings in order.
    On any other command line the program exits with status 2, or 0 after a request for
    help. *)
Theorem command_line_correct args s :
  (forall s', parseArgs args s = Ret s' <->
     exists ss rest, (args = flat_map spell ss ++ rest)%list /\ endsFlags rest /\
       Forall (fun i => goodName (nameOf i)) ss /\ effects ss s = Some s') /\
  match parseArgs args s with
  | Ret _ => True
  | Err status => status = 0%Z \/ status = 2%Z
  | Panic => False
  end.
Proof.
  split; [intros s'; split|apply parseArgs_status].
  - apply parseArgs_settings.
  - intros (ss & rest & -> & Hend & Hall & Heff). revert s Heff.
    induction Hall as [|i ss Hi _ IH]; intros s Heff; simpl in *.
    + simplify_eq. by apply parseArgs_end.
    + destruct (effect i s) as [s1|] eqn:He; [|done]. rewrite <- app_assoc.
      rewrite (parseArgs_setting i _ s s1) by done. by apply IH.
Qed.

(* ------------------------------------------------------------------ *)
(** ** Protected unless an argument says otherwise *)

(** A setting changes the variable of its own flag only. *)
Lemma effect_keeps {A} (get : Flags -> A) name i s s' :
  Forall (fun nv => fst nv = name \/ match snd nv with
                      | StringVar set => forall v f, get (set v f) = get f
                      | BoolVar set => forall b f, get (set b f) = get f
                      end) flagVars ->
  effect i s = Some s' -> nameOf i <> name -> get (fst s') = get (fst s).
Proof.
  intros Hall He Hne.
  assert (exists isBool set v, formal (nameOf i) = Some (isBool, set) /\ set v s = Some s') as (b & set & v & Hf & Hs).
  { unfold effect in He. destruct i; destruct (formal _) as [[[] set]|]; try done; eauto. }
  unfold formal in Hf. destruct (assoc (nameOf i) flagVars) as [var|] eqn:Ha.
  - assert ((nameOf i, var) ∈ flagVars) as Hin.
    { clear -Ha. induction flagVars as [|[k x] l IH]; [done|]. simpl in Ha.
      case_decide; simplify_eq; [by left|right; by apply IH]. }
    destruct (proj1 (Forall_forall _ _) Hall _ Hin) as [?|Hkeep]; [done|]. simpl in Hkeep.
    destruct var; simplify_eq/=; [done|]. destruct (ParseBool v); simplify_eq/=. done.
  - destruct (otherLookup (nameOf i)); simplify_eq. destruct (otherSet _ v (snd s)); by simplify_eq/=.
Qed.

Definition mentions (name : string) (args : list string) : Prop :=
  exists a v, a ∈ args /\ tokenOf a = FlagToken name v.

Lemma effects_keep {A} (get : Flags -> A) name ss rest s s' :
  (forall i s s', effect i s = Some s' -> nameOf i <> name -> get (fst s') = get (fst s)) ->
  Forall (fun i => goodName (nameOf i)) ss -> effects ss s = Some s' ->
  ~ mentions name (flat_map spell ss ++ rest)%list -> get (fst s') = get (fst s).
Proof.
  intros Hkeep Hall. revert s. induction Hall as [|i ss Hi Hall IH]; intros s He Hm; simpl in *; [by simplify_eq|].
  destruct (effect i s) as [s1|] eqn:E; [|done]. trans (get (fst s1)).
  - apply IH; [done|]. intros (a & v & Ha & Hv). apply Hm. exists a, v. split; [|done]. set_solver.
  - eapply Hkeep; [done|]. intros <-. apply Hm. unfold mentions.
    destruct i as [two n v|two n|two n v]; simpl.
    + eexists _, (Some v). split; [by left|]. apply tokenOf_spec. eauto.
    + eexists _, None. split; [by left|]. apply tokenOf_spec. rewrite append_nil_r. eauto.
    + eexists _, None. split; [by left|]. apply tokenOf_spec. rewrite append_nil_r. eauto.
Qed.

Lemma parseFlags_keeps {A} (get : Flags -> A) name args f o :
  (forall i s s', effect i s = Some s' -> nameOf i <> name -> get (fst s') = get (fst s)) ->
  parseFlags args = Ret (f, o) -> ~ mentions name args -> get f = get defaultFlags.
Proof.
  intros Hkeep Hp Hm. unfold parseFlags in Hp. destruct (existsb _ _); [done|].
  apply parseArgs_settings in Hp as (ss & rest & -> & _ & Hall & He).
  by apply (effects_keep get name ss rest (defaultFlags, otherInit) (f, o)).
Qed.

(** Every variable but one is left alone by a flag's setter. *)
Ltac keeps_vars :=
  repeat (apply Forall_cons_2; [first [by left|right; by intros ? []]|]); apply Forall_nil_2.

(** C38: Whatever command line the operator is started with: unless an argument names
    enable-http2, both servers offer http/1.1 and nothing else; unless one names
    metrics-secure, the metrics endpoint is served over TLS and authenticates and
    authorizes its clients. *)
Theorem secure_by_default args f o c : parseFlags args = Ret (f, o) ->
  let m := managerOptions f in
  (~ mentions "enable-http2" args ->
     NextProtos (configure (wh_TLSOpts (WebhookServer m)) c) = Some ["http/1.1"] /\
     NextProtos (configure (ms_TLSOpts (Metrics m)) c) = Some ["http/1.1"]) /\
  (~ mentions "metrics-secure" args ->
     SecureServing (Metrics m) = true /\
     ms_FilterProvider (Metrics m) = Some WithAuthenticationAndAuthorization).
Proof.
  intros Hp m. split; intros Hm.
  - apply http2_off_by_default. eapply (parseFlags_keeps enableHTTP2); [|done..].
    intros i s s'. apply effect_keeps. keeps_vars.
  - assert (SecureServing (Metrics m) = true) as Hs; [|split; [done|by apply metrics_protected]].
    trans (secureMetrics f); [apply metrics_protected|].
    eapply (parseFlags_keeps secureMetrics); [|done..].
    intros i s s'. apply effect_keeps. keeps_vars.
Qed.
End meaning.

(* ------------------------------------------------------------------ *)
(** ** The whole start *)

Section startup.
  Context `{P : Platform} `{C : !Cluster} `{M : !ManagerRuntime} `{O : OtherFlags}.

Definition schemePlan : list Op :=
  map AddToScheme ["client-go"; "apiextensions.k8s.io/v1"; "organization.opendatahub.io/v1alpha1"].

Lemma init_performed (m : manager) : init m =
  let (n, m') := performed schemePlan m in (if decide (n = 3) then Ret tt else Panic, m').
Proof.
  unfold init, Must, bind, call, schemePlan. simpl.
  destruct (perform _ m) as [[e|] m1]; [done|]. simpl.
  destruct (perform _ m1) as [[e|] m2]; [done|]. simpl.
  destruct (perform _ m2) as [[e|] m3]; done.
Qed.

(** C37: The manager is started only when it is completely wired.  Whatever the runtime
    answers, the entry point registers the three API groups (a failure is a panic), then
    reads the command line (exit status 2 for a bad one, 0 for a request for help, before
    anything else is asked), then asks for the configuration, the manager, the four
    controllers, the four webhooks (unless ENABLE_WEBHOOKS is "false"; all with the trust
    settings of the environment) and the two probes, in this order; it stops with exit
    status 1 at the first failure; and it asks to start exactly when all of them succeeded. *)
Theorem startup_order (getenv : string -> string) (args : list string) (m : manager) :
  entry getenv args m =
  let (n0, m0) := performed schemePlan m in
  if decide (n0 = 3) then
    match parseFlags args with
    | Err status => (Err status, m0)
    | Panic => (Panic, m0)
    | Ret (f, _) =>
        let (n, m') := performed (wiringPlan getenv f) m0 in
        if decide (n = length (wiringPlan getenv f)) then
          match perform Start m' with
          | (None, m'') => (Ret tt, m'')
          | (Some _, m'') => (Err 1%Z, m'')
          end
        else (Err 1%Z, m')
    end
  else (Panic, m0).
Proof.
  unfold entry, bind at 1. rewrite init_performed. destruct (performed schemePlan m) as [n0 m0].
  case_decide; [|done]. unfold bind, lift. destruct (parseFlags args) as [[f o]|e|]; [|done..].
  apply main_performed.
Qed.
End startup.

(* ------------------------------------------------------------------ *)
(** ** Runs *)

Section runs.
Import FakeInstances.

(** One boolean flag of the logger and one path. *)
Definition exampleFlags : OtherFlags :=
  {| otherState := list (string * string);
     otherInit := [];
     otherLookup n := if decide (n = "zap-devel") then Some true
                      else if decide (n = "kubeconfig") then Some false else None;
     otherSet n v s := Some ((n, v) :: s) |}.

Definition exampleArgs : list string :=
  ["--metrics-bind-address=:8443"; "-leader-elect"; "--kubeconfig"; "/etc/kube=config"; "-zap-devel=false"].

Lemma exampleArgs_parsed : exists f, parseFlags (O := exampleFlags) exampleArgs
    = Ret (f, [("zap-devel", "false"); ("kubeconfig", "/etc/kube=config")]) /\
  metricsAddr f = ":8443" /\ enableLeaderElection f = true /\ secureMetrics f = true.
Proof. eexists. split; [vm_compute; reflexivity|]. done. Qed.

Lemma secure_by_default_witness : exists f o,
  parseFlags (O := exampleFlags) exampleArgs = Ret (f, o) /\
  NextProtos (configure (wh_TLSOpts (WebhookServer (managerOptions f))) {| NextProtos := Some ["h2"] |})
    = Some ["http/1.1"].
Proof.
  eexists _, _. split; [vm_compute; reflexivity|].
  eapply (secure_by_default (O := exampleFlags) exampleArgs); [vm_compute; reflexivity|].
  intros (a & v & Ha & Hv). unfold exampleArgs in Ha. rewrite !elem_of_cons in Ha.
  destruct Ha as [-> |[-> |[-> |[-> |[-> |Ha]]]]]; [vm_compute in Hv; discriminate Hv..|].
  by apply not_elem_of_nil in Ha.
Defined.

(** When the last probe cannot be registered the manager is not started. *)
Lemma startup_order_witness :
  exists tr, entry (M := recording refuseReadyz) (O := exampleFlags) (fun _ => "") [] [] = (Err 1%Z, tr) /\
    (tr = schemePlan ++ wiringPlan (fun _ => "") defaultFlags)%list.
Proof.
  eexists. split; [|reflexivity].
  rewrite (startup_order (M := recording refuseReadyz) (O := exampleFlags) (fun _ => "") [] []). reflexivity.
Defined.
End runs.
