(* ===== verification/Heap.v ===== *)
(** A memory for Go values, to say what a deep copy is.

    A value is a base value, a struct with named fields, a pointer or a slice (an
    array location, an offset and a length).  A pointer refers to a variable, a
    slice to an array; both live in a heap of cells.  A place is what [&x.f] and
    [&a[i]] denote: a location, an index when it is an array, and a path of fields.
    [reads] gives the tree of data a value stands for and the set of locations it
    reaches; [copying] says that a function of two places makes a deep copy. *)

From stdpp Require Import gmap strings list.
From Stdlib Require Import ZArith.
From S2P Require Import Prelude.

Local Open Scope string_scope.

Abbreviation loc := positive.

Inductive base := BStr (s : string) | BInt (z : Z) | BBool (b : bool).
Inductive basekind := KStr | KInt | KBool.

Inductive goval :=
| VBase (b : base)
| VStruct (fs : list (string * goval))
| VPtr (p : option loc)
| VSlice (s : option (loc * nat * nat)).

Inductive cell := CVal (v : goval) | CArr (vs : list goval).
Abbreviation heap := (gmap loc cell).

(** Library structs whose copy is made by the library. *)
Inductive libkind := LObjectMeta | LListMeta | LStatus.

Inductive gotype :=
| TBase (k : basekind)
| TStruct (ts : list (string * gotype))
| TPtr (t : gotype)
| TSlice (t : gotype)
| TLib (k : libkind).

(** The data a value stands for, without locations. *)
Inductive tree :=
| RBase (b : base)
| RStruct (rs : list tree)
| RNil
| RRef (r : tree)
| RSlice (rs : list tree)
| RLib (label : string).

Definition kindOf (b : base) : basekind :=
  match b with BStr _ => KStr | BInt _ => KInt | BBool _ => KBool end.
#[export] Instance basekind_eq_dec : EqDecision basekind.
Proof. solve_decision. Defined.

(** Induction on types with a hypothesis for every field. *)
Fixpoint gotype_nested_ind (Q : gotype -> Prop)
    (Hbase : forall k, Q (TBase k))
    (Hstruct : forall ts, Forall (fun nt => Q (snd nt)) ts -> Q (TStruct ts))
    (Hptr : forall t, Q t -> Q (TPtr t)) (Hslice : forall t, Q t -> Q (TSlice t))
    (Hlib : forall k, Q (TLib k)) (t : gotype) : Q t :=
  let rec := gotype_nested_ind Q Hbase Hstruct Hptr Hslice Hlib in
  match t with
  | TBase k => Hbase k
  | TStruct ts => Hstruct ts
      ((fix go (ts : list (string * gotype)) : Forall (fun nt => Q (snd nt)) ts :=
          match ts with
          | [] => List.Forall_nil _
          | (n, t) :: ts' => List.Forall_cons _ (n, t) ts' (rec t) (go ts')
          end) ts)
  | TPtr t => Hptr t (rec t)
  | TSlice t => Hslice t (rec t)
  | TLib k => Hlib k
  end.

(* ------------------------------------------------------------------ *)
(** ** Memory operations *)

Abbreviation Mem := (GoM heap Empty_set).

Definition alloc (c : cell) : Mem loc :=
  fun h => let l := fresh (dom h) in (Ret l, <[l := c]> h).

(** [v.n], and [v] with its field [n] changed. *)
Fixpoint getf (n : string) (fs : list (string * goval)) : option goval :=
  match fs with
  | [] => None
  | (m, v) :: fs' => if decide (m = n) then Some v else getf n fs'
  end.
Fixpoint alterf (g : goval -> goval) (n : string) (fs : list (string * goval)) : list (string * goval) :=
  match fs with
  | [] => []
  | (m, v) :: fs' => if decide (m = n) then (m, g v) :: fs' else (m, v) :: alterf g n fs'
  end.

Record place := Place { ploc : loc; pidx : option nat; ppath : list string }.
Definition var (l : loc) : place := Place l None [].
Definition field (p : place) (n : string) : place := Place (ploc p) (pidx p) (ppath p ++ [n]).
Notation "p '@.' n" := (field p n) (at level 9, n at level 0).

Fixpoint getPath (q : list string) (v : goval) : option goval :=
  match q with
  | [] => Some v
  | n :: q' => match v with VStruct fs => x ← getf n fs; getPath q' x | _ => None end
  end.
Fixpoint setPath (q : list string) (x : goval) (v : goval) : goval :=
  match q with
  | [] => x
  | n :: q' => match v with VStruct fs => VStruct (alterf (setPath q' x) n fs) | _ => v end
  end.

Definition getCell (i : option nat) (c : cell) : option goval :=
  match i, c with None, CVal v => Some v | Some i, CArr vs => vs !! i | _, _ => None end.
Definition updCell (i : option nat) (g : goval -> goval) (c : cell) : cell :=
  match i, c with
  | None, CVal v => CVal (g v)
  | Some i, CArr vs => CArr (alter g i vs)
  | _, _ => c
  end.

Definition readp (h : heap) (p : place) : option goval :=
  c ← h !! ploc p; v ← getCell (pidx p) c; getPath (ppath p) v.
Definition writep (p : place) (x : goval) (h : heap) : heap :=
  alter (updCell (pidx p) (setPath (ppath p) x)) (ploc p) h.

(** The value of a place, and an assignment to it. *)
Definition read (p : place) : Mem goval :=
  fun h => match readp h p with Some v => (Ret v, h) | None => (Panic, h) end.
Definition write (p : place) (x : goval) : Mem unit :=
  fun h => match readp h p with Some _ => (Ret tt, writep p x h) | None => (Panic, h) end.

(** [*out = *in] *)
Definition assign (in_ out : place) : Mem unit := let* v := read in_ in write out v.

(** [*p] of a pointer held in a place, as a place; [( *p)[i]] of a slice. *)
Definition deref (p : place) : Mem place :=
  let* v := read p in match v with VPtr (Some l) => ret (var l) | _ => panic end.
Definition index (p : place) (i : nat) : Mem place :=
  let* v := read p in
  match v with
  | VSlice (Some (a, off, len)) => if decide (i < len) then ret (Place a (Some (off + i)) []) else panic
  | _ => panic
  end.
Definition len (p : place) : Mem nat :=
  let* v := read p in
  match v with
  | VSlice (Some (_, _, len)) => ret len
  | VSlice None => ret 0
  | _ => panic
  end.
Definition isNil (p : place) : Mem bool :=
  let* v := read p in
  match v with
  | VPtr p => ret (bool_decide (p = None))
  | VSlice s => ret (bool_decide (s = None))
  | _ => panic
  end.

(** The built-in [copy] on two slices: as many elements as both have, all read before
    any is written. *)
Definition copy (dst src : place) : Mem unit :=
  let* d := read dst in
  let* s := read src in
  match d, s with
  | VSlice (Some (a, off, n)), VSlice (Some (b, off', n')) =>
      fun h => match h !! a, h !! b with
               | Some (CArr xs), Some (CArr ys) =>
                   if decide (off + n <= length xs /\ off' + n' <= length ys) then
                     (Ret tt, <[a := CArr (list_inserts off (take (min n n') (drop off' ys)) xs)]> h)
                   else (Panic, h)
               | _, _ => (Panic, h)
               end
  | VSlice _, VSlice _ => ret tt
  | _, _ => panic
  end.

(* ------------------------------------------------------------------ *)
(** ** Library structs *)

Class LibTypes := {
  lib_zero : libkind -> goval;
  lib_reads : heap -> libkind -> goval -> option (tree * gset loc);
  lib_DeepCopyInto : libkind -> place -> place -> Mem unit;
}.

Section memory.
  Context `{LT : LibTypes}.

Fixpoint zero (t : gotype) : goval :=
  match t with
  | TBase KStr => VBase (BStr "")
  | TBase KInt => VBase (BInt 0)
  | TBase KBool => VBase (BBool false)
  | TStruct ts => VStruct (map (fun nt => (fst nt, zero (snd nt))) ts)
  | TPtr _ => VPtr None
  | TSlice _ => VSlice None
  | TLib k => lib_zero k
  end.

(** The trees and footprints of the elements of a list of values. *)
Definition reads_list (rd : goval -> option (tree * gset loc)) (vs : list goval)
    : option (list (tree * gset loc)) := mapM rd vs.

Definition footprint (rs : list (tree * gset loc)) : gset loc := ⋃ (rs.*2).

Fixpoint reads (h : heap) (t : gotype) (v : goval) {struct t} : option (tree * gset loc) :=
  match t, v with
  | TBase k, VBase b => if decide (kindOf b = k) then Some (RBase b, ∅) else None
  | TStruct ts, VStruct fs =>
      rs ← (fix go (ts : list (string * gotype)) (fs : list (string * goval)) :=
              match ts, fs with
              | [], [] => Some []
              | (n, t) :: ts', (m, x) :: fs' =>
                  if decide (m = n) then
                    r ← reads h t x; rs ← go ts' fs'; Some (r :: rs)
                  else None
              | _, _ => None
              end) ts fs;
      Some (RStruct (rs.*1), footprint rs)
  | TPtr t, VPtr None => Some (RNil, ∅)
  | TPtr t, VPtr (Some l) =>
      match h !! l with
      | Some (CVal x) => '(r, L) ← reads h t x; Some (RRef r, {[l]} ∪ L)
      | _ => None
      end
  | TSlice t, VSlice None => Some (RNil, ∅)
  | TSlice t, VSlice (Some (a, off, len)) =>
      match h !! a with
      | Some (CArr vs) =>
          if decide (off + len <= length vs) then
            rs ← reads_list (reads h t) (take len (drop off vs));
            Some (RSlice (rs.*1), {[a]} ∪ footprint rs)
          else None
      | _ => None
      end
  | TLib k, v => lib_reads h k v
  | _, _ => None
  end.

(** The fields of a struct, one by one. *)
Fixpoint reads_fields (h : heap) (ts : list (string * gotype)) (fs : list (string * goval))
    : option (list (tree * gset loc)) :=
  match ts, fs with
  | [], [] => Some []
  | (n, t) :: ts', (m, x) :: fs' =>
      if decide (m = n) then r ← reads h t x; rs ← reads_fields h ts' fs'; Some (r :: rs) else None
  | _, _ => None
  end.

Lemma reads_struct h ts fs :
  reads h (TStruct ts) (VStruct fs) =
  rs ← reads_fields h ts fs; Some (RStruct (rs.*1), footprint rs).
Proof.
  simpl. f_equal. revert fs. induction ts as [|[n t] ts IH]; intros [|[m x] fs]; try done.
  simpl. case_decide; [|done]. destruct (reads h t x); [|done]. simpl. by rewrite IH.
Qed.

(** A deep copy from one place to another: it always returns, changes nothing that was
    there but the place it writes to, and leaves there a value that stands for the same
    data in memory of its own.  [pre] is what the two places hold before. *)
Definition copying (pre : goval -> goval -> Prop) (t : gotype) (f : place -> place -> Mem unit) : Prop :=
  forall h i o v w r L,
    readp h i = Some v -> readp h o = Some w -> pre v w ->
    reads h t v = Some (r, L) -> ploc o ∉ L -> ploc i <> ploc o ->
    exists h1 v' L', f i o h = (Ret tt, writep o v' h1) /\ h ⊆ h1 /\
      reads h1 t v' = Some (r, L') /\ L' ## dom h.

(** Into a place that holds anything, and over a shallow copy. *)
Definition copiesInto := copying (fun _ _ => True).
Definition copiesOver := copying eq.

(** Types without references. *)
Fixpoint flat (t : gotype) : bool :=
  match t with
  | TBase _ => true
  | TStruct ts => forallb (fun nt => flat (snd nt)) ts
  | TPtr _ | TSlice _ | TLib _ => false
  end.

(* ------------------------------------------------------------------ *)
(** ** Statements the generated functions are made of *)

Definition new (t : gotype) : Mem loc := alloc (CVal (zero t)).
Definition make (t : gotype) (n : nat) : Mem goval :=
  let* a := alloc (CArr (replicate n (zero t))) in ret (VSlice (Some (a, 0, n))).

(** [if in.F != nil { in, out := &in.F, &out.F; *out = new(T); into( *in, *out) }];
    [*( *out) = *( *in)] is [into := assign]. *)
Definition copyPtr (t : gotype) (into : place -> place -> Mem unit) (in_ out : place) : Mem unit :=
  let* nil := isNil in_ in
  if nil then ret tt else
  let* l := new t in
  write out (VPtr (Some l)) ;;;
  let* i := deref in_ in
  let* o := deref out in
  into i o.

(** [if in.F != nil { in, out := &in.F, &out.F; *out = make([]T, len( *in)); copy( *out, *in) }] *)
Definition copySlice (t : gotype) (in_ out : place) : Mem unit :=
  let* nil := isNil in_ in
  if nil then ret tt else
  let* n := len in_ in
  let* s := make t n in
  write out s ;;;
  copy out in_.

(** The same with [for i := range *in { ( *in)[i].DeepCopyInto(&( *out)[i]) }] for [copy]. *)
Definition copySliceInto (t : gotype) (into : place -> place -> Mem unit) (in_ out : place) : Mem unit :=
  let* nil := isNil in_ in
  if nil then ret tt else
  let* n := len in_ in
  let* s := make t n in
  write out s ;;;
  range (seq 0 n) (fun k =>
    let* i := index in_ k in
    let* o := index out k in
    into i o).
End memory.

(** What the library documents about its own copies: they are deep, and what a value
    stands for depends on the memory it reaches only. *)
Class LibTypesLaws (LT : LibTypes) : Prop := {
  lib_reads_local h h' k v r L :
    lib_reads h k v = Some (r, L) -> (forall l, l ∈ L -> h' !! l = h !! l) ->
    lib_reads h' k v = Some (r, L);
  lib_reads_dom h k v r L : lib_reads h k v = Some (r, L) -> L ⊆ dom h;
  lib_copies k : copiesInto (TLib k) (lib_DeepCopyInto k);
}.
