(* ===== verification/HeapLemmas.v ===== *)
(** The laws of the memory of Heap.v: what a reading depends on, how writes to places
    compose, and how a new cell is linked from a place. *)

From stdpp Require Import gmap strings list.
From Stdlib Require Import ZArith Lia.
From S2P Require Import Prelude Heap.

Local Open Scope string_scope.

Create HintDb deepcopy.

(* ------------------------------------------------------------------ *)
(** ** Lists of readings *)

Lemma footprint_elem (rs : list (tree * gset loc)) l :
  l ∈ footprint rs <-> exists r L, (r, L) ∈ rs /\ l ∈ L.
Proof.
  unfold footprint. rewrite elem_of_union_list. split.
  - intros (L & HL & Hl). apply list_elem_of_fmap in HL as ([r L'] & -> & Hin). eauto.
  - intros (r & L & Hin & Hl). exists L. split; [|done].
    apply list_elem_of_fmap. by exists (r, L).
Qed.

Lemma footprint_cons r L (rs : list (tree * gset loc)) : footprint ((r, L) :: rs) = L ∪ footprint rs.
Proof. done. Qed.

(** Readings of the same trees, each in memory outside [D]. *)
Definition copied (D : gset loc) (p q : tree * gset loc) : Prop := fst p = fst q /\ snd q ## D.

Lemma copied_trees D rs rs' : Forall2 (copied D) rs rs' -> rs'.*1 = rs.*1.
Proof. induction 1 as [|p q rs rs' [Heq _] _ IH]; [done|]. csimpl. by rewrite Heq, IH. Qed.

Lemma copied_footprint D rs rs' : Forall2 (copied D) rs rs' -> footprint rs' ## D.
Proof.
  induction 1 as [|p [r L] rs rs' [_ HL] _ IH]; [apply disjoint_empty_l|].
  rewrite footprint_cons. by apply disjoint_union_l.
Qed.

Lemma Forall2_same_mem {A B} (Q : A -> B -> Prop) xs ys :
  Forall2 Q xs ys -> Forall2 (fun x y => Q x y /\ y ∈ ys) xs ys.
Proof.
  induction 1 as [|x y xs ys Hxy _ IH]; constructor; [split; [done|by left]|].
  eapply Forall2_impl; [exact IH|]. intros x' y' [? ?]. split; [done|by right].
Qed.

(* ------------------------------------------------------------------ *)
(** ** Places *)

Lemma getPath_snoc q n v : getPath (q ++ [n]) v =
  (x ← getPath q v; match x with VStruct fs => getf n fs | _ => None end).
Proof.
  revert v. induction q as [|m q IH]; intros v; simpl.
  - destruct v; simpl; try done. by destruct (getf n fs).
  - destruct v; simpl; try done. destruct (getf m fs); simpl; [apply IH|done].
Qed.

Lemma alterf_compose f g n fs : alterf f n (alterf g n fs) = alterf (fun x => f (g x)) n fs.
Proof.
  induction fs as [|[m v] fs IH]; simpl; [done|]. case_decide; simpl.
  - by rewrite decide_True.
  - rewrite decide_False by done. by rewrite IH.
Qed.

Lemma alterf_ext f g n fs : (forall x, f x = g x) -> alterf f n fs = alterf g n fs.
Proof. intros H. induction fs as [|[m v] fs IH]; simpl; [done|]. case_decide; by rewrite ?H, ?IH. Qed.

Lemma getf_alterf g n fs : getf n (alterf g n fs) = g <$> getf n fs.
Proof.
  induction fs as [|[m v] fs IH]; simpl; [done|]. case_decide; simpl.
  - by rewrite decide_True.
  - by rewrite decide_False.
Qed.

Lemma getf_lookup n x fs k : NoDup (fs.*1) -> fs !! k = Some (n, x) -> getf n fs = Some x.
Proof.
  revert k. induction fs as [|[m v] fs IH]; intros k Hnd Hk; [done|]. csimpl in Hnd.
  apply NoDup_cons in Hnd as [Hm Hnd]. simpl. destruct k as [|k]; simpl in Hk.
  - simplify_eq. by rewrite decide_True.
  - rewrite decide_False; [by eapply IH|]. intros ->. apply Hm, list_elem_of_fmap.
    exists (n, x). split; [done|]. by eapply list_elem_of_lookup_2.
Qed.

Lemma alterf_lookup g n fs k m x : NoDup (fs.*1) -> fs !! k = Some (m, x) ->
  alterf g n fs !! k = Some (m, if decide (m = n) then g x else x).
Proof.
  revert k. induction fs as [|[m' v] fs IH]; intros k Hnd Hk; [done|]. csimpl in Hnd.
  apply NoDup_cons in Hnd as [Hm Hnd]. simpl. destruct k as [|k]; simpl in Hk.
  - simplify_eq. by case_decide.
  - destruct (decide (m' = n)) as [->|Hd]; simpl; [|by apply IH]. rewrite decide_False; [done|].
    intros ->. apply Hm, list_elem_of_fmap. exists (n, x). split; [done|]. by eapply list_elem_of_lookup_2.
Qed.

Lemma alterf_names g n fs : (alterf g n fs).*1 = fs.*1.
Proof. induction fs as [|[m v] fs IH]; [done|]. simpl. case_decide; csimpl; by rewrite ?IH. Qed.

Lemma setPath_setPath q x y v : setPath q x (setPath q y v) = setPath q x v.
Proof.
  revert v. induction q as [|n q IH]; intros v; simpl; [done|]. destruct v; try done.
  rewrite alterf_compose. f_equal. by apply alterf_ext.
Qed.

Lemma setPath_field q n x fs v :
  setPath (q ++ [n]) x (setPath q (VStruct fs) v) = setPath q (VStruct (alterf (fun _ => x) n fs)) v.
Proof.
  revert v. induction q as [|m q IH]; intros v; simpl; [done|]. destruct v; try done.
  rewrite alterf_compose. f_equal. by apply alterf_ext.
Qed.

Lemma getPath_setPath q x v w : getPath q v = Some w -> getPath q (setPath q x v) = Some x.
Proof.
  revert v. induction q as [|n q IH]; intros v H; simpl in *; [done|]. destruct v; try done.
  rewrite getf_alterf. destruct (getf n fs); simpl in *; [by apply IH|done].
Qed.

Lemma updCell_compose i f g c : updCell i f (updCell i g c) = updCell i (fun x => f (g x)) c.
Proof. destruct i, c; simpl; try done. by rewrite list_alter_alter_eq. Qed.

Lemma updCell_ext i f g c : (forall x, f x = g x) -> updCell i f c = updCell i g c.
Proof. intros H. destruct i, c; simpl; try done; f_equal; [by apply list_alter_ext|done]. Qed.

Lemma getCell_updCell i g c : getCell i (updCell i g c) = g <$> getCell i c.
Proof. destruct i, c; simpl; try done. by rewrite list_lookup_alter_eq. Qed.

(** Two writes, the second to the same place or to a field of it. *)
Lemma writep_writep p x y h : writep p x (writep p y h) = writep p x h.
Proof.
  unfold writep. rewrite alter_alter_eq. apply alter_ext. intros c _. simpl.
  rewrite updCell_compose. apply updCell_ext. intros v. apply setPath_setPath.
Qed.

Lemma writep_field p n x fs h :
  writep (p @. n) x (writep p (VStruct fs) h) = writep p (VStruct (alterf (fun _ => x) n fs)) h.
Proof.
  unfold writep. simpl. rewrite alter_alter_eq. apply alter_ext. intros c _. simpl.
  rewrite updCell_compose. apply updCell_ext. intros v. apply setPath_field.
Qed.

Lemma readp_writep p x h w : readp h p = Some w -> readp (writep p x h) p = Some x.
Proof.
  unfold readp, writep. rewrite lookup_alter_eq. destruct (h !! ploc p) as [c|]; simpl; [|done].
  rewrite getCell_updCell. destruct (getCell (pidx p) c); simpl; [|done]. apply getPath_setPath.
Qed.

Lemma readp_writep_ne p q x h : ploc p <> ploc q -> readp (writep p x h) q = readp h q.
Proof. intros H. unfold readp, writep. by rewrite lookup_alter_ne. Qed.

Lemma readp_field h p n fs : readp h p = Some (VStruct fs) -> readp h (p @. n) = getf n fs.
Proof.
  unfold readp. simpl. destruct (h !! ploc p) as [c|]; simpl; [|done].
  destruct (getCell (pidx p) c); simpl; [|done]. intros H. by rewrite getPath_snoc, H.
Qed.

Lemma readp_mono h h' p v : h ⊆ h' -> readp h p = Some v -> readp h' p = Some v.
Proof.
  unfold readp. intros Hsub. destruct (h !! ploc p) as [c|] eqn:E; simpl; [|done].
  by rewrite (lookup_weaken _ _ _ _ E Hsub).
Qed.

Lemma readp_is_Some h p v : readp h p = Some v -> exists c, h !! ploc p = Some c.
Proof. unfold readp. destruct (h !! ploc p); simpl; [eauto|done]. Qed.

Lemma dom_writep p x h : dom (writep p x h) = dom h.
Proof. unfold writep. by rewrite dom_alter_L. Qed.

Lemma writep_other p x h l : l <> ploc p -> writep p x h !! l = h !! l.
Proof. intros H. unfold writep. by rewrite lookup_alter_ne. Qed.

Lemma sub_lookup (h h' : heap) l : h ⊆ h' -> l ∈ dom h -> h' !! l = h !! l.
Proof. intros Hsub [c Hc]%elem_of_dom. rewrite Hc. by eapply lookup_weaken. Qed.

(** A write can be moved after what happened since to the rest of the heap. *)
Lemma writep_undo p x h k c :
  h !! ploc p = Some c -> k !! ploc p = writep p x h !! ploc p ->
  writep p x (<[ploc p := c]> k) = k.
Proof.
  intros Hc Hk. unfold writep in *. rewrite lookup_alter_eq, Hc in Hk. simpl in Hk.
  apply map_eq. intros l. destruct (decide (ploc p = l)) as [<-|Hne].
  - by rewrite lookup_alter_eq, lookup_insert_eq, Hk.
  - by rewrite lookup_alter_ne, lookup_insert_ne.
Qed.

Lemma run_read h p v : readp h p = Some v -> read p h = (Ret v, h).
Proof. unfold read. by intros ->. Qed.

Lemma run_write h p x v : readp h p = Some v -> write p x h = (Ret tt, writep p x h).
Proof. unfold write. by intros ->. Qed.

Lemma run_bind {A B} (m : Mem A) (k : A -> Mem B) h a h1 : m h = (Ret a, h1) -> bind m k h = k a h1.
Proof. unfold bind. by intros ->. Qed.

(* ------------------------------------------------------------------ *)
(** ** Readings *)

Section readings.
  Context `{LT : LibTypes} `{!LibTypesLaws LT}.

Definition reads_field (h : heap) (nt : string * gotype) (nx : string * goval) (p : tree * gset loc) : Prop :=
  fst nx = fst nt /\ reads h (snd nt) (snd nx) = Some p.

Lemma reads_fields_Some h ts fs rs : reads_fields h ts fs = Some rs <-> Forall3 (reads_field h) ts fs rs.
Proof.
  split.
  - revert fs rs. induction ts as [|[n t] ts IH]; intros [|[m x] fs] rs H; simpl in H; simplify_eq; [constructor|].
    case_decide; [subst|done]. destruct (reads h t x) eqn:E; [|done]. simpl in H.
    destruct (reads_fields h ts fs) eqn:E'; [|done]. simplify_eq/=.
    constructor; [done|by apply IH].
  - induction 1 as [|[n t] [m x] p ts fs rs [Hn Hr] _ IH]; [done|]. simpl in *.
    by rewrite decide_True, Hr, IH.
Qed.

Lemma reads_struct_Some h ts v p : reads h (TStruct ts) v = Some p <->
  exists fs rs, v = VStruct fs /\ Forall3 (reads_field h) ts fs rs /\ p = (RStruct (rs.*1), footprint rs).
Proof.
  split.
  - destruct v as [|fs| |]; try done. rewrite reads_struct. intros H.
    destruct (reads_fields h ts fs) as [rs|] eqn:E; [|done]. simplify_eq/=.
    exists fs, rs. by rewrite <- reads_fields_Some.
  - intros (fs & rs & -> & H & ->). apply reads_fields_Some in H. by rewrite reads_struct, H.
Qed.

(** The elements of a slice. *)
Lemma reads_slice_Some h t a off n p : reads h (TSlice t) (VSlice (Some (a, off, n))) = Some p <->
  exists vs rs, h !! a = Some (CArr vs) /\ off + n <= length vs /\
    Forall2 (fun x q => reads h t x = Some q) (take n (drop off vs)) rs /\
    p = (RSlice (rs.*1), {[a]} ∪ footprint rs).
Proof.
  simpl. unfold reads_list. split.
  - destruct (h !! a) as [[|vs]|] eqn:Ea; try done. case_decide; [|done]. intros H'.
    destruct (mapM _ _) as [rs|] eqn:E; [|done]. simplify_eq/=. exists vs, rs.
    by rewrite <- mapM_Some.
  - intros (vs & rs & -> & Hlen & H & ->). apply mapM_Some in H. by rewrite decide_True, H.
Qed.

Lemma reads_ptr_Some h t l p : reads h (TPtr t) (VPtr (Some l)) = Some p <->
  exists x r L, h !! l = Some (CVal x) /\ reads h t x = Some (r, L) /\ p = (RRef r, {[l]} ∪ L).
Proof.
  simpl. split.
  - destruct (h !! l) as [[x|]|] eqn:El; try done. destruct (reads h t x) as [[r L]|] eqn:E; [|done].
    simpl. intros ?. simplify_eq. by exists x, r, L.
  - by intros (x & r & L & -> & -> & ->).
Qed.

(** A reading depends on the locations it reaches only. *)
Lemma reads_local h h' t v r L :
  reads h t v = Some (r, L) -> (forall l, l ∈ L -> h' !! l = h !! l) -> reads h' t v = Some (r, L).
Proof.
  revert v r L. induction t as [k|ts IH|t IH|t IH|k] using gotype_nested_ind; intros v r L H Hagree.
  - destruct v; simpl in *; try done.
  - apply reads_struct_Some in H as (fs & rs & -> & HF & [= -> ->]).
    apply reads_struct_Some. exists fs, rs. split_and!; try done.
    induction HF as [|[n t] [m x] [r L] ts fs rs [Hn Hr] _ IH']; constructor.
    + split; [done|]. apply Forall_cons in IH as [IH _]. eapply IH; [done|].
      intros l Hl. apply Hagree. rewrite footprint_cons. set_solver.
    + apply Forall_cons in IH as [_ IH]. apply IH'; [done|].
      intros l Hl. apply Hagree. rewrite footprint_cons. set_solver.
  - destruct v as [| |[l|]|]; try done. apply reads_ptr_Some in H as (x & r' & L' & Hl & Hr & [= -> ->]).
    apply reads_ptr_Some. exists x, r', L'. rewrite Hagree by set_solver. split_and!; try done.
    eapply IH; [done|]. set_solver.
  - destruct v as [| | |[[[a off] n]|]]; try done.
    apply reads_slice_Some in H as (vs & rs & Ha & Hlen & HF & [= -> ->]).
    apply reads_slice_Some. exists vs, rs. rewrite Hagree by set_solver. split_and!; try done.
    assert (forall l, l ∈ footprint rs -> h' !! l = h !! l) as Hagree' by set_solver.
    clear Ha Hlen Hagree. induction HF as [|x [r L] xs rs Hr _ IH']; constructor.
    + eapply IH; [done|]. intros l Hl. apply Hagree'. rewrite footprint_cons. set_solver.
    + apply IH'. intros l Hl. apply Hagree'. rewrite footprint_cons. set_solver.
  - by eapply lib_reads_local.
Qed.

Lemma reads_dom h t v r L : reads h t v = Some (r, L) -> L ⊆ dom h.
Proof.
  revert v r L. induction t as [k|ts IH|t IH|t IH|k] using gotype_nested_ind; intros v r L H.
  - destruct v; simpl in *; try done. case_decide; simplify_eq. set_solver.
  - apply reads_struct_Some in H as (fs & rs & -> & HF & [= -> ->]).
    induction HF as [|[n t] [m x] [r L] ts fs rs [Hn Hr] _ IH']; [apply empty_subseteq|].
    apply Forall_cons in IH as [IH ?]. rewrite footprint_cons. apply union_subseteq.
    split; [by eapply IH|by apply IH'].
  - destruct v as [| |[l|]|]; simpl in H; simplify_eq; [|set_solver].
    apply reads_ptr_Some in H as (x & r' & L' & Hl & Hr & [= -> ->]).
    apply union_subseteq. split; [|by eapply IH]. apply singleton_subseteq_l, elem_of_dom. eauto.
  - destruct v as [| | |[[[a off] n]|]]; try done; [|simpl in H; simplify_eq; set_solver].
    apply reads_slice_Some in H as (vs & rs & Ha & Hlen & HF & [= -> ->]).
    apply union_subseteq. split; [apply singleton_subseteq_l, elem_of_dom; eauto|].
    clear Ha Hlen. induction HF as [|x [r L] xs rs Hr _ IH']; [apply empty_subseteq|].
    rewrite footprint_cons. apply union_subseteq. split; [by eapply IH|done].
  - by eapply lib_reads_dom.
Qed.

(** A value without references is read the same everywhere. *)
Lemma reads_flat h t v r L : flat t = true -> reads h t v = Some (r, L) -> L = ∅.
Proof.
  revert v r L. induction t as [k|ts IH|t IH|t IH|k] using gotype_nested_ind; intros v r L Hf H; try done.
  - destruct v; simpl in *; try done. case_decide; by simplify_eq.
  - apply reads_struct_Some in H as (fs & rs & -> & HF & [= -> ->]). simpl in Hf.
    induction HF as [|[n t] [m x] [r L] ts fs rs [Hn Hr] _ IH']; [done|]. simpl in *.
    apply andb_prop in Hf as [Hf Hfs]. apply Forall_cons in IH as [IH ?]. rewrite footprint_cons.
    rewrite IH' by done. rewrite (IH x r L) by done. by rewrite union_empty_l_L.
Qed.

Lemma reads_weaken h h' t v r L : reads h t v = Some (r, L) -> h ⊆ h' -> reads h' t v = Some (r, L).
Proof.
  intros H Hsub. eapply reads_local; [done|]. intros l Hl.
  assert (is_Some (h !! l)) as [c Hc] by (apply elem_of_dom; by eapply reads_dom).
  rewrite Hc. by eapply lookup_weaken.
Qed.
End readings.

#[export] Hint Resolve reads_weaken reads_dom : deepcopy.

(* ------------------------------------------------------------------ *)
(** ** A new cell, referred to from a place *)

Lemma alterf_same n g fs x : getf n fs = Some x -> g x = x -> alterf g n fs = fs.
Proof.
  induction fs as [|[m v] fs IH]; simpl; [done|]. case_decide; intros Hx Hg; simplify_eq.
  - by rewrite Hg.
  - by rewrite IH.
Qed.

Lemma setPath_same q v w : getPath q v = Some w -> setPath q w v = v.
Proof.
  revert v. induction q as [|n q IH]; intros v H; simpl in *; [congruence|]. destruct v; try done.
  destruct (getf n fs) eqn:E; [|done]. simpl in H. erewrite alterf_same; eauto.
Qed.

Lemma writep_same h p w : readp h p = Some w -> writep p w h = h.
Proof.
  unfold readp, writep. destruct (h !! ploc p) as [c|] eqn:Ec; [|done]. simpl. intros H.
  apply alter_id. intros c' Hc'. simplify_eq.
  destruct (getCell (pidx p) c) as [v|] eqn:Ev; [|done]. simpl in H.
  destruct (pidx p), c; simpl in *; try done.
  - f_equal. rewrite <- (list_alter_id (fun x => x) vs n) at 2 by done.
    apply list_alter_ext; [|done]. intros y Hy. simplify_eq. by apply setPath_same.
  - simplify_eq. by rewrite setPath_same.
Qed.

Section fresh_cell.
  Context (h : heap) (o : place) (w x : goval) (l : loc) (c : cell).
  Hypotheses (Ho : readp h o = Some w) (Hl : l ∉ dom h).

Definition linked : heap := writep o x (<[l := c]> h).

Lemma linked_neq : ploc o <> l.
Proof.
  intros <-. apply Hl, elem_of_dom. apply readp_is_Some in Ho as [c' ->]. eauto.
Qed.

Lemma linked_new : linked !! l = Some c.
Proof. pose proof linked_neq. unfold linked, writep. by rewrite lookup_alter_ne, lookup_insert_eq. Qed.

Lemma linked_old l' : l' ∈ dom h -> l' <> ploc o -> linked !! l' = h !! l'.
Proof.
  intros Hd Hne. unfold linked, writep. rewrite lookup_alter_ne by done.
  apply lookup_insert_ne. set_solver.
Qed.

Lemma linked_readp p v : readp h p = Some v -> ploc p <> ploc o -> readp linked p = Some v.
Proof.
  intros Hp Hne. unfold linked. rewrite readp_writep_ne by done. eapply readp_mono; [|done].
  by apply insert_subseteq, not_elem_of_dom.
Qed.

Lemma linked_out : readp linked o = Some x.
Proof.
  unfold linked. apply readp_writep with w. eapply readp_mono; [|done].
  by apply insert_subseteq, not_elem_of_dom.
Qed.

Lemma linked_write : write o x (<[l := c]> h) = (Ret tt, linked).
Proof.
  apply run_write with w. eapply readp_mono; [|done]. by apply insert_subseteq, not_elem_of_dom.
Qed.

Lemma dom_linked : dom linked = {[l]} ∪ dom h.
Proof. unfold linked. rewrite dom_writep. apply dom_insert_L. Qed.

(** Whatever is done afterwards outside the old heap, the write to the place can be
    seen as the last step. *)
Lemma linked_last s : (forall l', l' ∈ dom h -> s !! l' = linked !! l') ->
  exists h1, s = writep o x h1 /\ h ⊆ h1 /\ forall l', l' <> ploc o -> h1 !! l' = s !! l'.
Proof.
  intros Hs. destruct (readp_is_Some _ _ _ Ho) as [co Hco].
  exists (<[ploc o := co]> s). split_and!.
  - symmetry. apply (writep_undo o x (<[l := c]> h)).
    + by rewrite lookup_insert_ne by (apply not_eq_sym, linked_neq).
    + apply Hs, elem_of_dom. eauto.
  - apply map_subseteq_spec. intros l' c' Hc'. destruct (decide (l' = ploc o)) as [->|Hne].
    + rewrite lookup_insert_eq. congruence.
    + rewrite lookup_insert_ne by done. assert (l' ∈ dom h) by (apply elem_of_dom; eauto).
      by rewrite Hs, linked_old.
  - intros l' Hne. by rewrite lookup_insert_ne.
Qed.
End fresh_cell.

(* ------------------------------------------------------------------ *)
(** ** Runs of the memory operations *)

(** Run one operation of the goal. *)
Ltac mrun lem := erewrite run_bind by (eapply lem; eauto); cbv beta iota.

Lemma run_deref h p l : readp h p = Some (VPtr (Some l)) -> deref p h = (Ret (var l), h).
Proof. intros H. unfold deref. by erewrite run_bind by by apply run_read. Qed.

Lemma run_isNil h p v : readp h p = Some v -> v = VPtr None \/ v = VSlice None ->
  isNil p h = (Ret true, h).
Proof. intros H Hv. unfold isNil. mrun run_read. by destruct Hv as [-> | ->]. Qed.

Lemma run_notNil h p v : readp h p = Some v ->
  (exists l, v = VPtr (Some l)) \/ (exists s, v = VSlice (Some s)) -> isNil p h = (Ret false, h).
Proof. intros H Hv. unfold isNil. mrun run_read. by destruct Hv as [[? ->]|[? ->]]. Qed.

Lemma run_alloc h c : alloc c h = (Ret (fresh (dom h)), <[fresh (dom h) := c]> h).
Proof. done. Qed.

Lemma run_len h p a off n : readp h p = Some (VSlice (Some (a, off, n))) -> len p h = (Ret n, h).
Proof. intros H. unfold len. by erewrite run_bind by by apply run_read. Qed.

Lemma run_index h p a off n i : readp h p = Some (VSlice (Some (a, off, n))) -> i < n ->
  index p i h = (Ret (Place a (Some (off + i)) []), h).
Proof.
  intros H Hi. unfold index. erewrite run_bind by by apply run_read. cbn. by rewrite decide_True.
Qed.
