(* ===== verification/CopyLemmas.v ===== *)
(** Each statement of the generated copy functions is a deep copy ([copiesInto] or
    [copiesOver] of Heap.v), and so is a struct whose fields are copied one by one.
    [Filled] is the state between two statements of a struct's DeepCopyInto. *)

From stdpp Require Import gmap strings list.
From Stdlib Require Import ZArith Lia.
From S2P Require Import Prelude Heap HeapLemmas.

Section copiers.
  Context `{LT : LibTypes} `{!LibTypesLaws LT}.

Lemma into_over t f : copiesInto t f -> copiesOver t f.
Proof. intros Hf h i o v w r L Hi Ho _. by apply (Hf h i o v w). Qed.

(** [*out = *in] copies a value without references. *)
Lemma assign_copies t : flat t = true -> copiesInto t assign.
Proof.
  intros Ht h i o v w r L Hi Ho _ Hr _ _. exists h, v, L. unfold assign.
  erewrite run_bind by by apply run_read. erewrite run_write by done. split_and!; try done.
  rewrite (reads_flat h t v r L) by done. set_solver.
Qed.

(** A nil pointer or slice is already copied. *)
Lemma nil_copied t h o w r : readp h o = Some w -> reads h t w = Some (r, ∅) ->
  exists h1 v' L', ret (E := Empty_set) tt h = (Ret tt, writep o v' h1) /\ h ⊆ h1 /\
    reads h1 t v' = Some (r, L') /\ L' ## dom h.
Proof.
  intros Ho Hr. exists h, w, ∅. rewrite (writep_same h o w Ho). split_and!; done.
Qed.

(** A reading survives linking a new cell from a place it does not reach. *)
Lemma linked_reads h o w x l c t v r L :
  readp h o = Some w -> l ∉ dom h -> reads h t v = Some (r, L) -> ploc o ∉ L ->
  reads (linked h o x l c) t v = Some (r, L).
Proof.
  intros Ho Hl Hr HoL. eapply reads_local; [done|]. intros l' Hl'.
  eapply linked_old; [done..|by eapply reads_dom|set_solver].
Qed.

Lemma copyPtr_copies t f : copiesInto t f -> copiesOver (TPtr t) (copyPtr t f).
Proof.
  intros Hf h i o v w r L Hi Ho <- Hr HoL Hio. unfold copyPtr.
  destruct v as [| |[l|]|]; try done; [mrun run_notNil|mrun run_isNil].
  2: { cbn in Hr. simplify_eq. by eapply (nil_copied (TPtr t)). }
  apply reads_ptr_Some in Hr as (x & r' & L' & Hl & Hr & [= -> ->]).
  mrun run_alloc.
  pose proof (is_fresh (dom h)) as Hfresh. set (l' := fresh (dom h)) in *. clearbody l'.
  mrun linked_write. set (h3 := linked _ _ _ _ _).
  assert (l ∈ dom h) by (apply elem_of_dom; eauto).
  pose proof (reads_dom _ _ _ _ _ Hr) as HL'.
  erewrite run_bind by (eapply run_deref, linked_readp; done).
  erewrite run_bind by (eapply run_deref, linked_out; done).
  destruct (Hf h3 (var l) (var l') x (zero t) r' L') as (h4 & x' & L1 & Hrun & Hsub & Hr' & Hdisj); try done.
  { unfold readp. simpl. unfold h3. erewrite linked_old, Hl by (done || set_solver). done. }
  { unfold readp. simpl. unfold h3. by erewrite linked_new. }
  { eapply linked_reads; [done..|set_solver]. }
  { simpl. set_solver. }
  { simpl. intros ->. done. }
  rewrite Hrun. destruct (linked_last h o (VPtr (Some l)) (VPtr (Some l')) l' (CVal (zero t)) Ho Hfresh
    (writep (var l') x' h4)) as (h1 & Hs & Hsub1 & Hrest).
  { intros l0 Hl0. rewrite writep_other by (simpl; set_solver). apply sub_lookup; [done|rewrite dom_linked; set_solver]. }
  unfold h3 in Hdisj. rewrite dom_linked in Hdisj.
  exists h1, (VPtr (Some l')), ({[l']} ∪ L1). split_and!; [by rewrite Hs|done| |set_solver].
  assert (ploc o <> l') by (eapply linked_neq; done).
  assert (is_Some (h !! ploc o)) as Hod%elem_of_dom by (eapply readp_is_Some; done).
  apply reads_ptr_Some. exists x', r', L1. split_and!; [|eapply reads_local; [exact Hr'|]|done].
  - rewrite Hrest by done. unfold writep; simpl. rewrite lookup_alter_eq.
    rewrite (lookup_weaken h3 h4 l' (CVal (zero t))); [done|by eapply linked_new|done].
  - intros l0 Hl0. rewrite Hrest by set_solver. apply writep_other. simpl. set_solver.
Qed.

(** A slice whose new array holds copies of the elements. *)
Lemma slice_finish h o w l n t zs s xs rs rs' :
  readp h o = Some w -> l ∉ dom h ->
  (forall l', l' ∈ dom h -> s !! l' = linked h o (VSlice (Some (l, 0, n))) l (CArr zs) !! l') ->
  s !! l = Some (CArr xs) -> length xs = n ->
  Forall2 (fun x q => reads s t x = Some q) xs rs' -> Forall2 (copied ({[l]} ∪ dom h)) rs rs' ->
  exists h1 v' L', (Ret (E := Empty_set) tt, s) = (Ret tt, writep o v' h1) /\ h ⊆ h1 /\
    reads h1 (TSlice t) v' = Some (RSlice (rs.*1), L') /\ L' ## dom h.
Proof.
  intros Ho Hl Hagree Hsl Hlen HF Hcop.
  destruct (linked_last h o w _ l _ Ho Hl s Hagree) as (h1 & Hs & Hsub & Hrest).
  assert (ploc o <> l) as Hne by (eapply linked_neq; done).
  assert (ploc o ∈ dom h) by (apply elem_of_dom; eapply readp_is_Some; done).
  pose proof (copied_footprint _ _ _ Hcop) as Hfoot.
  exists h1, (VSlice (Some (l, 0, n))), ({[l]} ∪ footprint rs'). split_and!; [by rewrite <- Hs|done| |set_solver].
  apply reads_slice_Some. exists xs, rs'. rewrite Hrest by done. split_and!; [done|lia| |].
  - rewrite drop_0, <- Hlen, firstn_all. eapply Forall2_impl; [by apply Forall2_same_mem|].
    intros x [r L] [Hx Hin]. eapply reads_local; [exact Hx|]. intros l0 Hl0. apply Hrest. intros ->.
    assert (ploc o ∈ footprint rs') by (apply footprint_elem; eauto). set_solver.
  - by rewrite (copied_trees _ _ _ Hcop).
Qed.

(** The start of both slice statements, for a slice that is not nil. *)
Lemma slice_start h t i o a off n (k : nat -> Mem unit) :
  readp h i = Some (VSlice (Some (a, off, n))) -> readp h o = Some (VSlice (Some (a, off, n))) ->
  let l := fresh (dom h) in
  (let* nil := isNil i in
   if nil then ret tt else
   let* n := len i in
   let* s := make t n in
   write o s ;;; k n) h = k n (linked h o (VSlice (Some (l, 0, n))) l (CArr (replicate n (zero t)))).
Proof.
  intros Hi Ho l. mrun run_notNil. mrun run_len.
  erewrite run_bind; [|unfold make; mrun run_alloc; reflexivity].
  erewrite run_bind; [done|]. eapply linked_write; [done|apply is_fresh].
Qed.

Lemma flat_copied h t xs rs D : flat t = true ->
  Forall2 (fun x q => reads h t x = Some q) xs rs -> Forall2 (copied D) rs rs.
Proof.
  intros Ht. induction 1 as [|x [r L] xs rs Hr _ IH]; constructor; [|done]. split; [done|].
  simpl. rewrite (reads_flat h t x r L) by done. apply disjoint_empty_l.
Qed.

Lemma copySlice_copies t : flat t = true -> copiesOver (TSlice t) (copySlice t).
Proof.
  intros Ht h i o v w r L Hi Ho <- Hr HoL Hio.
  destruct v as [| | |[[[a off] n]|]]; try done.
  2: { unfold copySlice. mrun run_isNil. cbn in Hr. simplify_eq. by eapply (nil_copied (TSlice t)). }
  apply reads_slice_Some in Hr as (vs & rs & Ha & Hlen & HF & [= -> ->]).
  unfold copySlice. rewrite (slice_start h t i o a off n (fun _ => copy o i) Hi Ho).
  pose proof (is_fresh (dom h)) as Hfresh. set (l := fresh (dom h)) in *. clearbody l.
  assert (a ∈ dom h) by (apply elem_of_dom; eauto).
  set (h3 := linked _ _ _ _ _). unfold copy.
  erewrite run_bind by (eapply run_read, linked_out; done).
  erewrite run_bind by (eapply run_read, linked_readp; done). cbv beta iota.
  unfold h3 at 1. erewrite linked_new by done.
  unfold h3 at 1. erewrite linked_old, Ha by (done || set_solver).
  rewrite length_replicate, decide_True, Nat.min_id by lia.
  rewrite <- (app_nil_r (take n _)), list_inserts_0_l by (rewrite length_take, length_drop, length_replicate; lia).
  eapply slice_finish; [exact Ho|exact Hfresh| | | | |].
  - intros l' Hl'. apply lookup_insert_ne. set_solver.
  - apply lookup_insert_eq.
  - rewrite length_take, length_drop. lia.
  - eapply Forall2_impl; [exact HF|]. intros x [r L] Hx. eapply reads_local; [done|].
    rewrite (reads_flat h t x r L) by done. set_solver.
  - by eapply flat_copied.
Qed.

(** The loop over the elements of a slice: after [k] rounds the new array holds copies of
    the first [k] elements and nothing else of the linked heap has changed. *)
Section slice_loop.
  Context (t : gotype) (f : place -> place -> Mem unit) (h : heap) (i o : place).
  Context (a l : loc) (off n : nat) (vs : list goval) (rs : list (tree * gset loc)).
  Hypotheses (Hf : copiesInto t f) (Hl : l ∉ dom h) (Hio : ploc i <> ploc o).
  Hypotheses (Hi : readp h i = Some (VSlice (Some (a, off, n))))
    (Ho : readp h o = Some (VSlice (Some (a, off, n)))).
  Hypotheses (Ha : h !! a = Some (CArr vs)) (Hlen : off + n <= length vs).
  Hypothesis HF : Forall2 (fun x q => reads h t x = Some q) (take n (drop off vs)) rs.
  Hypothesis HoL : ploc o ∉ {[a]} ∪ footprint rs.

Let h3 := linked h o (VSlice (Some (l, 0, n))) l (CArr (replicate n (zero t))).

Definition filledTo (k : nat) (s : heap) : Prop :=
  (forall l', l' ∈ dom h -> s !! l' = h3 !! l') /\
  exists xs rs', s !! l = Some (CArr (xs ++ replicate (n - k) (zero t))) /\ length xs = k /\
    Forall2 (fun x q => reads s t x = Some q) xs rs' /\ Forall2 (copied ({[l]} ∪ dom h)) (take k rs) rs'.

Lemma filledTo_start : filledTo 0 h3.
Proof.
  split; [done|]. exists [], []. rewrite Nat.sub_0_r. split_and!; try done. by eapply linked_new.
Qed.

Lemma filledTo_in s k : filledTo k s -> readp s i = Some (VSlice (Some (a, off, n))).
Proof.
  intros [Hagree _]. destruct (readp_is_Some _ _ _ Hi) as [c Hc].
  unfold readp. rewrite Hagree by (apply elem_of_dom; eauto). fold (readp h3 i).
  by eapply linked_readp.
Qed.

Lemma filledTo_out s k : filledTo k s -> readp s o = Some (VSlice (Some (l, 0, n))).
Proof.
  intros [Hagree _]. destruct (readp_is_Some _ _ _ Ho) as [c Hc].
  unfold readp. rewrite Hagree by (apply elem_of_dom; eauto). fold (readp h3 o).
  by eapply linked_out.
Qed.

Lemma filledTo_dom s k : filledTo k s -> {[l]} ∪ dom h ⊆ dom s.
Proof.
  intros [Hagree (xs & rs' & Hsl & _)]. apply union_subseteq. split.
  - apply singleton_subseteq_l, elem_of_dom. eauto.
  - intros l' Hl'. apply elem_of_dom. rewrite Hagree by done. apply elem_of_dom.
    unfold h3. rewrite dom_linked. set_solver.
Qed.

Lemma filledTo_extend s k h4 x' r L L1 :
  filledTo k s -> k < n -> s ⊆ h4 -> rs !! k = Some (r, L) ->
  reads h4 t x' = Some (r, L1) -> L1 ## dom s ->
  filledTo (S k) (writep (Place l (Some k) []) x' h4).
Proof.
  intros Hk Hkn Hsub Hrs Hr Hdisj. pose proof (filledTo_dom s k Hk) as Hdom.
  destruct Hk as [Hagree (xs & rs' & Hsl & Hxs & HR & HC)]. split.
  { intros l' Hl'. rewrite writep_other by (simpl; set_solver).
    rewrite <- Hagree by done. apply sub_lookup; [done|set_solver]. }
  exists (xs ++ [x']), (rs' ++ [(r, L1)]). split_and!.
  - unfold writep; simpl. rewrite lookup_alter_eq, (lookup_weaken s h4 l _ Hsl Hsub). simpl.
    rewrite alter_app_r_alt, Hxs, Nat.sub_diag by lia.
    replace (n - k) with (S (n - S k)) by lia. by rewrite <- app_assoc.
  - rewrite length_app. simpl. lia.
  - apply Forall2_app; [|constructor; [|constructor]].
    + eapply Forall2_impl; [apply (Forall2_same_mem _ _ _ HR)|]. intros x [q M] [Hx Hin].
      apply list_elem_of_lookup_1 in Hin as [j Hj].
      destruct (Forall2_lookup_r _ _ _ _ _ HC Hj) as (q' & _ & [_ HM]). simpl in HM.
      eapply reads_local; [exact Hx|]. intros l0 Hl0. rewrite writep_other by (simpl; set_solver).
      apply sub_lookup; [done|]. by eapply reads_dom.
    + eapply reads_local; [exact Hr|]. intros l0 Hl0. apply writep_other. simpl. set_solver.
  - erewrite take_S_r by done. apply Forall2_app; [done|]. constructor; [|done].
    split; [done|]. simpl. set_solver.
Qed.

Lemma filledTo_round s k : filledTo k s -> k < n ->
  exists s', f (Place a (Some (off + k)) []) (Place l (Some k) []) s = (Ret tt, s') /\ filledTo (S k) s'.
Proof.
  intros Hs Hk. pose proof Hs as [Hagree (xs & rs' & Hsl & Hxs & _)].
  assert (is_Some (take n (drop off vs) !! k)) as [y Hy].
  { apply lookup_lt_is_Some. rewrite length_take, length_drop. lia. }
  destruct (Forall2_lookup_l _ _ _ _ _ HF Hy) as ([r L] & HrL & Hr).
  assert (L ⊆ footprint rs) as HLf.
  { intros l0 Hl0. apply footprint_elem. exists r, L. split; [by eapply list_elem_of_lookup_2|done]. }
  pose proof (reads_dom _ _ _ _ _ Hr) as HLd.
  assert (a ∈ dom h) as Had by (apply elem_of_dom; eauto).
  destruct (Hf s (Place a (Some (off + k)) []) (Place l (Some k) []) y (zero t) r L)
    as (h4 & x' & L1 & Hrun & Hsub & Hr' & Hdisj).
  { unfold readp; simpl. rewrite Hagree by done. unfold h3. erewrite linked_old, Ha by (done || set_solver).
    simpl. rewrite lookup_take_lt, lookup_drop in Hy by lia. by rewrite Hy. }
  { unfold readp; simpl. rewrite Hsl. simpl. rewrite lookup_app_r by lia.
    rewrite Hxs, Nat.sub_diag, lookup_replicate_2 by lia. done. }
  { done. }
  { eapply reads_local; [exact Hr|]. intros l0 Hl0. rewrite Hagree by set_solver.
    eapply linked_old; [done..| |]; set_solver. }
  { simpl. set_solver. }
  { simpl. set_solver. }
  eexists. split; [exact Hrun|]. by eapply filledTo_extend.
Qed.

Lemma filledTo_loop s k m : filledTo k s -> k + m = n ->
  exists s', range (seq k m) (fun k => let* i := index i k in let* o := index o k in f i o) s = (Ret tt, s')
    /\ filledTo n s'.
Proof.
  revert s k. induction m as [|m IH]; intros s k Hk Hkm.
  { exists s. split; [done|]. by replace n with k by lia. }
  destruct (filledTo_round s k) as (s1 & Hrun & Hs1); [done|lia|].
  destruct (IH s1 (S k)) as (s' & Hrest & Hs'); [done|lia|]. exists s'. split; [|done].
  cbn [seq range]. rewrite (run_bind _ _ _ tt s1); [done|].
  erewrite run_bind by (eapply run_index; [by eapply filledTo_in|lia]).
  erewrite run_bind by (eapply run_index; [by eapply filledTo_out|lia]). done.
Qed.
End slice_loop.

Lemma copySliceInto_copies t f : copiesInto t f -> copiesOver (TSlice t) (copySliceInto t f).
Proof.
  intros Hf h i o v w r L Hi Ho <- Hr HoL Hio.
  destruct v as [| | |[[[a off] n]|]]; try done.
  2: { unfold copySliceInto. mrun run_isNil. cbn in Hr. simplify_eq. by eapply (nil_copied (TSlice t)). }
  apply reads_slice_Some in Hr as (vs & rs & Ha & Hlen & HF & [= -> ->]).
  unfold copySliceInto. rewrite (slice_start h t i o a off n (fun n => range (seq 0 n) _) Hi Ho).
  pose proof (is_fresh (dom h)) as Hfresh. set (l := fresh (dom h)) in *. clearbody l.
  destruct (filledTo_loop t f h i o a l off n vs rs Hf Hfresh Hio Hi Ho Ha Hlen HF HoL
    (linked h o (VSlice (Some (l, 0, n))) l (CArr (replicate n (zero t)))) 0 n)
    as (s' & -> & Hagree & xs & rs' & Hsl & Hxs & HR & HC); [by eapply filledTo_start|done|].
  rewrite Nat.sub_diag, app_nil_r in Hsl.
  assert (length rs = n) as Hrs by (apply Forall2_length in HF; rewrite length_take, length_drop in HF; lia).
  rewrite <- Hrs, firstn_all in HC. by eapply slice_finish.
Qed.
(* ------------------------------------------------------------------ *)
(** ** Structs *)

(** The type of a field. *)
Fixpoint fieldType (ts : list (string * gotype)) (n : string) : option gotype :=
  match ts with
  | [] => None
  | (m, t) :: ts' => if decide (m = n) then Some t else fieldType ts' n
  end.

(** All fields that hold references are among [D]. *)
Definition covered (ts : list (string * gotype)) (D : list string) : bool :=
  forallb (fun nt => flat (snd nt) || bool_decide (fst nt ∈ D)) ts.

(** The statements after [*out = *in]: each copies one field not copied before, and in
    the end no field shares memory with the original. *)
Inductive Stmts (i o : place) (ts : list (string * gotype)) : list string -> Mem unit -> Prop :=
| Stmts_last D n t f :
    fieldType ts n = Some t -> n ∉ D -> copiesOver t f -> covered ts (n :: D) = true ->
    Stmts i o ts D (f (i @. n) (o @. n))
| Stmts_next D n t f m :
    fieldType ts n = Some t -> n ∉ D -> copiesOver t f -> Stmts i o ts (n :: D) m ->
    Stmts i o ts D (f (i @. n) (o @. n) ;;; m).

Lemma fieldType_lookup ts n t : fieldType ts n = Some t -> exists k, ts !! k = Some (n, t).
Proof.
  induction ts as [|[m t'] ts IH]; simpl; [done|]. case_decide; intros H'; simplify_eq.
  - by exists 0.
  - destruct (IH H') as [k Hk]. by exists (S k).
Qed.

Lemma reads_fields_pointwise h D ts gs rs :
  gs.*1 = ts.*1 -> length rs = length ts ->
  (forall k n t x r L, ts !! k = Some (n, t) -> gs !! k = Some (n, x) -> rs !! k = Some (r, L) ->
     exists L', reads h t x = Some (r, L') /\ L' ## D) ->
  exists rs', Forall3 (reads_field h) ts gs rs' /\ Forall2 (copied D) rs rs'.
Proof.
  revert gs rs. induction ts as [|[n t] ts IH]; intros [|[m x] gs] [|[r L] rs] Hn Hl H; try done.
  { exists []. split; constructor. }
  csimpl in *. simplify_eq.
  destruct (IH gs rs) as (rs' & H3 & H2); [done|lia|intros k; apply (H (S k))|].
  destruct (H 0 n t x r L) as (L' & Hr & HL); [done..|].
  exists ((r, L') :: rs'). split; constructor; done.
Qed.

Lemma NoDup_fst_lookup {A B} (l : list (A * B)) i j a b c :
  NoDup (l.*1) -> l !! i = Some (a, b) -> l !! j = Some (a, c) -> i = j.
Proof.
  intros Hnd Hi Hj. eapply (NoDup_lookup (l.*1)); [done|..]; rewrite list_lookup_fmap.
  - by rewrite Hi.
  - by rewrite Hj.
Qed.

Lemma reads_fields_names h ts fs rs : Forall3 (reads_field h) ts fs rs -> fs.*1 = ts.*1.
Proof. induction 1 as [|[n t] [m x] p ts fs rs [Hn _] _ IH]; [done|]. csimpl in *. congruence. Qed.

Section struct.
  Context (h0 : heap) (i o : place) (w : goval) (ts : list (string * gotype)).
  Context (fs : list (string * goval)) (rs : list (tree * gset loc)).
  Hypotheses (Hi : readp h0 i = Some (VStruct fs)) (Ho : readp h0 o = Some w).
  Hypotheses (HF : Forall3 (reads_field h0) ts fs rs) (Hnd : NoDup (ts.*1)).
  Hypotheses (HoL : ploc o ∉ footprint rs) (Hio : ploc i <> ploc o).

(** The fields [D] are copied; the others are as in the original. *)
Definition Filled (D : list string) (s : heap) : Prop :=
  exists h1 gs, s = writep o (VStruct gs) h1 /\ h0 ⊆ h1 /\ gs.*1 = ts.*1 /\
    forall k n t x r L, ts !! k = Some (n, t) -> fs !! k = Some (n, x) -> rs !! k = Some (r, L) ->
      exists x', gs !! k = Some (n, x') /\
        (if decide (n ∈ D) then exists L', reads h1 t x' = Some (r, L') /\ L' ## dom h0 else x' = x).

Lemma names_eq : fs.*1 = ts.*1.
Proof. by eapply reads_fields_names. Qed.

Lemma Filled_start : Filled [] (writep o (VStruct fs) h0).
Proof.
  exists h0, fs. split_and!; [done..|apply names_eq|]. intros k n t x r L _ Hx _. exists x.
  by rewrite decide_False by set_solver.
Qed.

(** The heap before the last write, after more cells were added. *)
Lemma writep_push gs h1 h4 : h0 ⊆ h1 -> writep o (VStruct gs) h1 ⊆ h4 ->
  exists h1', writep o (VStruct gs) h1' = h4 /\ h1 ⊆ h1' /\ (forall l, l <> ploc o -> h1' !! l = h4 !! l).
Proof.
  intros Hsub Hsub4. destruct (readp_is_Some _ _ _ Ho) as [c Hc].
  assert (h1 !! ploc o = Some c) as Hc1 by (by eapply lookup_weaken).
  exists (<[ploc o := c]> h4). split_and!.
  - apply (writep_undo o _ h1); [done|]. apply sub_lookup; [done|]. rewrite dom_writep. apply elem_of_dom. eauto.
  - apply map_subseteq_spec. intros l c' Hc'. destruct (decide (l = ploc o)) as [->|Hne].
    + rewrite lookup_insert_eq. congruence.
    + rewrite lookup_insert_ne by done. eapply lookup_weaken; [|exact Hsub4]. by rewrite writep_other.
  - intros l Hne. by rewrite lookup_insert_ne.
Qed.

Lemma Filled_extend D gs h1 h4 k n t x' r L L' :
  h0 ⊆ h1 -> gs.*1 = ts.*1 ->
  (forall k n t x r L, ts !! k = Some (n, t) -> fs !! k = Some (n, x) -> rs !! k = Some (r, L) ->
      exists x', gs !! k = Some (n, x') /\
        (if decide (n ∈ D) then exists L', reads h1 t x' = Some (r, L') /\ L' ## dom h0 else x' = x)) ->
  writep o (VStruct gs) h1 ⊆ h4 -> ts !! k = Some (n, t) -> rs !! k = Some (r, L) ->
  reads h4 t x' = Some (r, L') -> L' ## dom h1 ->
  Filled (n :: D) (writep (o @. n) x' h4).
Proof.
  intros Hsub Hgs Hfields Hsub4 Hk HrL Hr' Hdisj.
  destruct (writep_push gs h1 h4 Hsub Hsub4) as (h1' & <- & Hsub1 & Hrest).
  assert (ploc o ∈ dom h1) as Hod.
  { destruct (readp_is_Some _ _ _ Ho) as [c Hc]. apply elem_of_dom. exists c. by eapply lookup_weaken. }
  exists h1', (alterf (fun _ => x') n gs). split_and!.
  - apply writep_field.
  - by trans h1.
  - by rewrite alterf_names.
  - intros k' m t' y r0 L0 Ht' Hy HrL0. destruct (Hfields k' m t' y r0 L0) as (y' & Hy' & Hd); [done..|].
    eexists. split; [apply alterf_lookup; [by rewrite Hgs|done]|].
    destruct (decide (m = n)) as [->|Hne].
    + assert (k' = k) as -> by (eapply (NoDup_fst_lookup ts); done). simplify_eq.
      rewrite decide_True by set_solver. exists L'. split; [|apply subseteq_dom in Hsub; set_solver].
      eapply reads_local; [exact Hr'|]. intros l Hl. apply Hrest. set_solver.
    + destruct (decide (m ∈ D)) as [Hin|Hin].
      * rewrite decide_True by set_solver. destruct Hd as (L1 & Hr1 & HL1). exists L1. eauto using reads_weaken.
      * by rewrite decide_False by set_solver.
Qed.

Lemma Filled_step D n t f s : Filled D s -> fieldType ts n = Some t -> n ∉ D -> copiesOver t f ->
  exists s', f (i @. n) (o @. n) s = (Ret tt, s') /\ Filled (n :: D) s'.
Proof.
  intros (h1 & gs & -> & Hsub & Hgs & Hfields) Hn HD Hf.
  apply fieldType_lookup in Hn as [k Hk].
  destruct (Forall3_lookup_l _ _ _ _ _ _ HF Hk) as ([m x] & [r L] & Hx & HrL & [Hm Hr]). simpl in Hm, Hr. subst m.
  destruct (Hfields k n t x r L) as (x0 & Hx0 & Hd); [done..|]. rewrite decide_False in Hd by done. subst x0.
  set (s := writep o (VStruct gs) h1).
  assert (readp h1 o = Some w) as Ho1 by (by eapply readp_mono).
  assert (L ⊆ footprint rs) as HLf.
  { intros l0 Hl0. apply footprint_elem. exists r, L. split; [by eapply list_elem_of_lookup_2|done]. }
  pose proof (reads_dom _ _ _ _ _ Hr) as HLd.
  destruct (Hf s (i @. n) (o @. n) x x r L) as (h4 & x' & L' & Hrun & Hsub4 & Hr' & Hdisj).
  { erewrite readp_field; [|unfold s; rewrite readp_writep_ne by done; by eapply readp_mono].
    eapply getf_lookup; [by rewrite names_eq|done]. }
  { erewrite readp_field; [|by eapply readp_writep]. eapply getf_lookup; [by rewrite Hgs|done]. }
  { done. }
  { eapply reads_local; [exact Hr|]. intros l0 Hl0. unfold s. rewrite writep_other by set_solver.
    apply sub_lookup; [done|set_solver]. }
  { simpl. set_solver. }
  { done. }
  eexists. split; [exact Hrun|]. unfold s in Hdisj. rewrite dom_writep in Hdisj. by eapply Filled_extend.
Qed.

(** The remaining statements copy what is left. *)
Lemma Filled_run D m s : Stmts i o ts D m -> Filled D s ->
  exists s' D', m s = (Ret tt, s') /\ Filled D' s' /\ covered ts D' = true.
Proof.
  intros Hm. revert s. induction Hm as [D n t f Hn HD Hf Hcov|D n t f m Hn HD Hf _ IH]; intros s Hs;
    destruct (Filled_step D n t f s Hs Hn HD Hf) as (s1 & Hrun & Hs1).
  - by exists s1, (n :: D).
  - destruct (IH s1 Hs1) as (s' & D' & Hm & Hs'). exists s', D'. by erewrite run_bind.
Qed.

Lemma Filled_finish D s : Filled D s -> covered ts D = true ->
  exists h1 v' L', s = writep o v' h1 /\ h0 ⊆ h1 /\
    reads h1 (TStruct ts) v' = Some (RStruct (rs.*1), L') /\ L' ## dom h0.
Proof.
  intros (h1 & gs & -> & Hsub & Hgs & Hfields) Hcov.
  destruct (reads_fields_pointwise h1 (dom h0) ts gs rs) as (rs' & H3 & H2); [done| | |].
  - by eapply eq_sym, Forall3_length_lr.
  - intros k n t x' r L Ht Hx' Hr.
    destruct (Forall3_lookup_l _ _ _ _ _ _ HF Ht) as ([m x] & p & Hx & Hp & [Hm Hread]). simpl in *. simplify_eq.
    destruct (Hfields k n t x r L) as (x0 & Hx0 & Hd); [done..|]. simplify_eq.
    destruct (decide (n ∈ D)) as [Hin|Hin]; [done|]. subst x'.
    unfold covered in Hcov. rewrite forallb_forall in Hcov.
    specialize (Hcov (n, t)). simpl in Hcov. rewrite (bool_decide_false (n ∈ D)), orb_false_r in Hcov by done.
    assert (flat t = true) as Hflat.
    { apply Hcov, list_elem_of_In. by eapply list_elem_of_lookup_2. }
    exists L. split; [by eapply reads_weaken|]. rewrite (reads_flat h0 t x r L) by done. set_solver.
  - exists h1, (VStruct gs), (footprint rs'). split_and!; [done..| |by eapply copied_footprint].
    apply reads_struct_Some. exists gs, rs'. by rewrite (copied_trees _ _ _ H2).
Qed.
End struct.

(** A struct is copied by copying it shallowly and then each field that holds references. *)
Lemma struct_copies ts m :
  bool_decide (NoDup (ts.*1)) = true -> (forall i o, Stmts i o ts [] (m i o)) ->
  copiesInto (TStruct ts) (fun i o => assign i o ;;; m i o).
Proof.
  intros Hnd%bool_decide_eq_true Hm h i o v w r L Hi Ho _ Hr HoL Hio.
  apply reads_struct_Some in Hr as (fs & rs & -> & HF & [= -> ->]).
  destruct (Filled_run h i o w ts fs rs Hi Ho HF Hnd HoL Hio [] (m i o) (writep o (VStruct fs) h))
    as (s' & D & Hrun & HFill & Hcov); [done|by eapply Filled_start|].
  destruct (Filled_finish h i o w ts fs rs Hi Ho HF Hnd HoL Hio D s' HFill Hcov) as (h1 & v' & L' & -> & ? & ? & ?).
  exists h1, v', L'. split_and!; [|done..]. erewrite run_bind; [exact Hrun|].
  unfold assign. erewrite run_bind by by apply run_read. by eapply run_write.
Qed.
End copiers.
