(* ===== verification/DeepCopy.v ===== *)
(** api/v1alpha1/zz_generated.deepcopy.go: the layout of every API type in memory, the
    list types included, and the generated copy functions on the heap of Heap.v.

    [X_DeepCopyInto] takes the places its two pointers refer to.  Its statements are
    those of Heap.v: [assign] is [*out = *in] and [out.F = in.F], [copyPtr], [copySlice]
    and [copySliceInto] are the blocks guarded by [if in.F != nil].  The metadata and
    status structs of the libraries are copied by the libraries ([lib_DeepCopyInto]). *)

From stdpp Require Import gmap strings list.
From Stdlib Require Import ZArith.
From S2P Require Import Prelude Heap.

Local Open Scope string_scope.

(* ------------------------------------------------------------------ *)
(** ** Types *)

(** metav1.TypeMeta: two strings. *)
Definition T_TypeMeta : gotype := TStruct [("Kind", TBase KStr); ("APIVersion", TBase KStr)].

Definition T_Subject : gotype :=
  TStruct [("Kind", TBase KStr);
    ("Name", TBase KStr);
    ("Namespace", TBase KStr)].
Definition T_OrganizationReference : gotype := TStruct [("Name", TBase KStr)].
Definition T_ProjectDefaults : gotype :=
  TStruct [("NetworkIsolation", TBase KStr);
    ("MaxProjects", TBase KInt)].
Definition T_OIDCConfig : gotype := TStruct [("IssuerURL", TBase KStr)].
Definition T_GatewayReference : gotype :=
  TStruct [("Group", TBase KStr);
    ("Kind", TBase KStr);
    ("Name", TBase KStr);
    ("Namespace", TBase KStr)].
Definition T_OrganizationPlatformConfig : gotype :=
  TStruct [("OIDC", TPtr T_OIDCConfig);
    ("IngressGatewayRef", TPtr T_GatewayReference)].
Definition T_OrganizationProfileSpec : gotype :=
  TStruct [("OrganizationRef", T_OrganizationReference);
    ("Admins", TSlice T_Subject);
    ("Defaults", T_ProjectDefaults);
    ("Platform", TPtr T_OrganizationPlatformConfig)].
Definition T_OrganizationProfileStatus : gotype := TStruct [("Status", TLib LStatus)].
Definition T_OrganizationProfile : gotype :=
  TStruct [("TypeMeta", T_TypeMeta);
    ("ObjectMeta", TLib LObjectMeta);
    ("Spec", T_OrganizationProfileSpec);
    ("Status", T_OrganizationProfileStatus)].
Definition T_OrganizationProfileList : gotype :=
  TStruct [("TypeMeta", T_TypeMeta);
    ("ListMeta", TLib LListMeta);
    ("Items", TSlice T_OrganizationProfile)].
Definition T_OrganizationSpec : gotype := TStruct [("Parent", TBase KStr)].
Definition T_OrganizationStatus : gotype :=
  TStruct [("Status", TLib LStatus);
    ("Root", TBase KStr)].
Definition T_Organization : gotype :=
  TStruct [("TypeMeta", T_TypeMeta);
    ("ObjectMeta", TLib LObjectMeta);
    ("Spec", T_OrganizationSpec);
    ("Status", T_OrganizationStatus)].
Definition T_OrganizationList : gotype :=
  TStruct [("TypeMeta", T_TypeMeta);
    ("ListMeta", TLib LListMeta);
    ("Items", TSlice T_Organization)].
Definition T_ProjectUser : gotype :=
  TStruct [("Kind", TBase KStr);
    ("Name", TBase KStr);
    ("Namespace", TBase KStr);
    ("Role", TBase KStr)].
Definition T_NetworkGrant : gotype :=
  TStruct [("To", TBase KStr);
    ("Direction", TBase KStr);
    ("Ports", TSlice (TBase KInt))].
Definition T_OrganizationProjectSpec : gotype :=
  TStruct [("OrganizationRef", T_OrganizationReference);
    ("Users", TSlice T_ProjectUser);
    ("NetworkIsolation", TBase KStr);
    ("NetworkGrants", TSlice T_NetworkGrant)].
Definition T_OrganizationProjectStatus : gotype :=
  TStruct [("Status", TLib LStatus);
    ("Namespace", TBase KStr)].
Definition T_OrganizationProject : gotype :=
  TStruct [("TypeMeta", T_TypeMeta);
    ("ObjectMeta", TLib LObjectMeta);
    ("Spec", T_OrganizationProjectSpec);
    ("Status", T_OrganizationProjectStatus)].
Definition T_OrganizationProjectList : gotype :=
  TStruct [("TypeMeta", T_TypeMeta);
    ("ListMeta", TLib LListMeta);
    ("Items", TSlice T_OrganizationProject)].
Definition T_MaaSOIDC : gotype := TStruct [("ClientID", TBase KStr)].
Definition T_MaaSCertificateRef : gotype :=
  TStruct [("Name", TBase KStr);
    ("Namespace", TBase KStr)].
Definition T_MaaSTLS : gotype := TStruct [("CertificateRef", T_MaaSCertificateRef)].
Definition T_MaaSQuotas : gotype :=
  TStruct [("MaxModels", TBase KInt);
    ("MaxSubscriptions", TBase KInt);
    ("MaxAPIKeys", TBase KInt)].
Definition T_MaaSConfigurationSpec : gotype :=
  TStruct [("OrganizationRef", T_OrganizationReference);
    ("OIDC", TPtr T_MaaSOIDC);
    ("TLS", TPtr T_MaaSTLS);
    ("Quotas", TPtr T_MaaSQuotas)].
Definition T_MaaSConfigurationStatus : gotype := TStruct [("Status", TLib LStatus)].
Definition T_MaaSConfiguration : gotype :=
  TStruct [("TypeMeta", T_TypeMeta);
    ("ObjectMeta", TLib LObjectMeta);
    ("Spec", T_MaaSConfigurationSpec);
    ("Status", T_MaaSConfigurationStatus)].
Definition T_MaaSConfigurationList : gotype :=
  TStruct [("TypeMeta", T_TypeMeta);
    ("ListMeta", TLib LListMeta);
    ("Items", TSlice T_MaaSConfiguration)].

(* ------------------------------------------------------------------ *)
(** ** DeepCopyInto *)

Section deepcopy.
  Context `{LT : LibTypes}.

Definition Subject_DeepCopyInto (in_ out : place) : Mem unit :=
  assign in_ out.
Definition OrganizationReference_DeepCopyInto (in_ out : place) : Mem unit :=
  assign in_ out.
Definition ProjectDefaults_DeepCopyInto (in_ out : place) : Mem unit :=
  assign in_ out.
Definition OIDCConfig_DeepCopyInto (in_ out : place) : Mem unit :=
  assign in_ out.
Definition GatewayReference_DeepCopyInto (in_ out : place) : Mem unit :=
  assign in_ out.
Definition OrganizationPlatformConfig_DeepCopyInto (in_ out : place) : Mem unit :=
  assign in_ out ;;;
  copyPtr T_OIDCConfig assign (in_ @. "OIDC") (out @. "OIDC") ;;;
  copyPtr T_GatewayReference assign (in_ @. "IngressGatewayRef") (out @. "IngressGatewayRef").
Definition OrganizationProfileSpec_DeepCopyInto (in_ out : place) : Mem unit :=
  assign in_ out ;;;
  assign (in_ @. "OrganizationRef") (out @. "OrganizationRef") ;;;
  copySlice T_Subject (in_ @. "Admins") (out @. "Admins") ;;;
  assign (in_ @. "Defaults") (out @. "Defaults") ;;;
  copyPtr T_OrganizationPlatformConfig OrganizationPlatformConfig_DeepCopyInto (in_ @. "Platform") (out @. "Platform").
Definition OrganizationProfileStatus_DeepCopyInto (in_ out : place) : Mem unit :=
  assign in_ out ;;;
  lib_DeepCopyInto LStatus (in_ @. "Status") (out @. "Status").
Definition OrganizationProfile_DeepCopyInto (in_ out : place) : Mem unit :=
  assign in_ out ;;;
  assign (in_ @. "TypeMeta") (out @. "TypeMeta") ;;;
  lib_DeepCopyInto LObjectMeta (in_ @. "ObjectMeta") (out @. "ObjectMeta") ;;;
  OrganizationProfileSpec_DeepCopyInto (in_ @. "Spec") (out @. "Spec") ;;;
  OrganizationProfileStatus_DeepCopyInto (in_ @. "Status") (out @. "Status").
Definition OrganizationProfileList_DeepCopyInto (in_ out : place) : Mem unit :=
  assign in_ out ;;;
  assign (in_ @. "TypeMeta") (out @. "TypeMeta") ;;;
  lib_DeepCopyInto LListMeta (in_ @. "ListMeta") (out @. "ListMeta") ;;;
  copySliceInto T_OrganizationProfile OrganizationProfile_DeepCopyInto (in_ @. "Items") (out @. "Items").
Definition OrganizationSpec_DeepCopyInto (in_ out : place) : Mem unit :=
  assign in_ out.
Definition OrganizationStatus_DeepCopyInto (in_ out : place) : Mem unit :=
  assign in_ out ;;;
  lib_DeepCopyInto LStatus (in_ @. "Status") (out @. "Status").
Definition Organization_DeepCopyInto (in_ out : place) : Mem unit :=
  assign in_ out ;;;
  assign (in_ @. "TypeMeta") (out @. "TypeMeta") ;;;
  lib_DeepCopyInto LObjectMeta (in_ @. "ObjectMeta") (out @. "ObjectMeta") ;;;
  assign (in_ @. "Spec") (out @. "Spec") ;;;
  OrganizationStatus_DeepCopyInto (in_ @. "Status") (out @. "Status").
Definition OrganizationList_DeepCopyInto (in_ out : place) : Mem unit :=
  assign in_ out ;;;
  assign (in_ @. "TypeMeta") (out @. "TypeMeta") ;;;
  lib_DeepCopyInto LListMeta (in_ @. "ListMeta") (out @. "ListMeta") ;;;
  copySliceInto T_Organization Organization_DeepCopyInto (in_ @. "Items") (out @. "Items").
Definition ProjectUser_DeepCopyInto (in_ out : place) : Mem unit :=
  assign in_ out.
Definition NetworkGrant_DeepCopyInto (in_ out : place) : Mem unit :=
  assign in_ out ;;;
  copySlice (TBase KInt) (in_ @. "Ports") (out @. "Ports").
Definition OrganizationProjectSpec_DeepCopyInto (in_ out : place) : Mem unit :=
  assign in_ out ;;;
  assign (in_ @. "OrganizationRef") (out @. "OrganizationRef") ;;;
  copySlice T_ProjectUser (in_ @. "Users") (out @. "Users") ;;;
  copySliceInto T_NetworkGrant NetworkGrant_DeepCopyInto (in_ @. "NetworkGrants") (out @. "NetworkGrants").
Definition OrganizationProjectStatus_DeepCopyInto (in_ out : place) : Mem unit :=
  assign in_ out ;;;
  lib_DeepCopyInto LStatus (in_ @. "Status") (out @. "Status").
Definition OrganizationProject_DeepCopyInto (in_ out : place) : Mem unit :=
  assign in_ out ;;;
  assign (in_ @. "TypeMeta") (out @. "TypeMeta") ;;;
  lib_DeepCopyInto LObjectMeta (in_ @. "ObjectMeta") (out @. "ObjectMeta") ;;;
  OrganizationProjectSpec_DeepCopyInto (in_ @. "Spec") (out @. "Spec") ;;;
  OrganizationProjectStatus_DeepCopyInto (in_ @. "Status") (out @. "Status").
Definition OrganizationProjectList_DeepCopyInto (in_ out : place) : Mem unit :=
  assign in_ out ;;;
  assign (in_ @. "TypeMeta") (out @. "TypeMeta") ;;;
  lib_DeepCopyInto LListMeta (in_ @. "ListMeta") (out @. "ListMeta") ;;;
  copySliceInto T_OrganizationProject OrganizationProject_DeepCopyInto (in_ @. "Items") (out @. "Items").
Definition MaaSOIDC_DeepCopyInto (in_ out : place) : Mem unit :=
  assign in_ out.
Definition MaaSCertificateRef_DeepCopyInto (in_ out : place) : Mem unit :=
  assign in_ out.
Definition MaaSTLS_DeepCopyInto (in_ out : place) : Mem unit :=
  assign in_ out ;;;
  assign (in_ @. "CertificateRef") (out @. "CertificateRef").
Definition MaaSQuotas_DeepCopyInto (in_ out : place) : Mem unit :=
  assign in_ out.
Definition MaaSConfigurationSpec_DeepCopyInto (in_ out : place) : Mem unit :=
  assign in_ out ;;;
  assign (in_ @. "OrganizationRef") (out @. "OrganizationRef") ;;;
  copyPtr T_MaaSOIDC assign (in_ @. "OIDC") (out @. "OIDC") ;;;
  copyPtr T_MaaSTLS assign (in_ @. "TLS") (out @. "TLS") ;;;
  copyPtr T_MaaSQuotas assign (in_ @. "Quotas") (out @. "Quotas").
Definition MaaSConfigurationStatus_DeepCopyInto (in_ out : place) : Mem unit :=
  assign in_ out ;;;
  lib_DeepCopyInto LStatus (in_ @. "Status") (out @. "Status").
Definition MaaSConfiguration_DeepCopyInto (in_ out : place) : Mem unit :=
  assign in_ out ;;;
  assign (in_ @. "TypeMeta") (out @. "TypeMeta") ;;;
  lib_DeepCopyInto LObjectMeta (in_ @. "ObjectMeta") (out @. "ObjectMeta") ;;;
  MaaSConfigurationSpec_DeepCopyInto (in_ @. "Spec") (out @. "Spec") ;;;
  MaaSConfigurationStatus_DeepCopyInto (in_ @. "Status") (out @. "Status").
Definition MaaSConfigurationList_DeepCopyInto (in_ out : place) : Mem unit :=
  assign in_ out ;;;
  assign (in_ @. "TypeMeta") (out @. "TypeMeta") ;;;
  lib_DeepCopyInto LListMeta (in_ @. "ListMeta") (out @. "ListMeta") ;;;
  copySliceInto T_MaaSConfiguration MaaSConfiguration_DeepCopyInto (in_ @. "Items") (out @. "Items").

(* ------------------------------------------------------------------ *)
(** ** DeepCopy and DeepCopyObject *)

(** [if in == nil { return nil }; out := new(T); in.DeepCopyInto(out); return out] *)
Definition deepCopy (t : gotype) (into : place -> place -> Mem unit) (in_ : option loc) : Mem (option loc) :=
  match in_ with
  | None => ret None
  | Some l =>
      let* out := new t in
      into (var l) (var out) ;;;
      ret (Some out)
  end.

(** A value of the interface runtime.Object: nil, or a pointer with its type. *)
Definition Object : Type := option (string * loc).

(** [if c := in.DeepCopy(); c != nil { return c }; return nil]: a nil pointer does not
    become an interface that holds a nil pointer. *)
Definition deepCopyObject (name : string) (copy : option loc -> Mem (option loc)) (in_ : option loc) : Mem Object :=
  let* c := copy in_ in
  match c with Some l => ret (Some (name, l)) | None => ret None end.

Definition Subject_DeepCopy := deepCopy T_Subject Subject_DeepCopyInto.
Definition OrganizationReference_DeepCopy := deepCopy T_OrganizationReference OrganizationReference_DeepCopyInto.
Definition ProjectDefaults_DeepCopy := deepCopy T_ProjectDefaults ProjectDefaults_DeepCopyInto.
Definition OIDCConfig_DeepCopy := deepCopy T_OIDCConfig OIDCConfig_DeepCopyInto.
Definition GatewayReference_DeepCopy := deepCopy T_GatewayReference GatewayReference_DeepCopyInto.
Definition OrganizationPlatformConfig_DeepCopy := deepCopy T_OrganizationPlatformConfig OrganizationPlatformConfig_DeepCopyInto.
Definition OrganizationProfileSpec_DeepCopy := deepCopy T_OrganizationProfileSpec OrganizationProfileSpec_DeepCopyInto.
Definition OrganizationProfileStatus_DeepCopy := deepCopy T_OrganizationProfileStatus OrganizationProfileStatus_DeepCopyInto.
Definition OrganizationProfile_DeepCopy := deepCopy T_OrganizationProfile OrganizationProfile_DeepCopyInto.
Definition OrganizationProfileList_DeepCopy := deepCopy T_OrganizationProfileList OrganizationProfileList_DeepCopyInto.
Definition OrganizationSpec_DeepCopy := deepCopy T_OrganizationSpec OrganizationSpec_DeepCopyInto.
Definition OrganizationStatus_DeepCopy := deepCopy T_OrganizationStatus OrganizationStatus_DeepCopyInto.
Definition Organization_DeepCopy := deepCopy T_Organization Organization_DeepCopyInto.
Definition OrganizationList_DeepCopy := deepCopy T_OrganizationList OrganizationList_DeepCopyInto.
Definition ProjectUser_DeepCopy := deepCopy T_ProjectUser ProjectUser_DeepCopyInto.
Definition NetworkGrant_DeepCopy := deepCopy T_NetworkGrant NetworkGrant_DeepCopyInto.
Definition OrganizationProjectSpec_DeepCopy := deepCopy T_OrganizationProjectSpec OrganizationProjectSpec_DeepCopyInto.
Definition OrganizationProjectStatus_DeepCopy := deepCopy T_OrganizationProjectStatus OrganizationProjectStatus_DeepCopyInto.
Definition OrganizationProject_DeepCopy := deepCopy T_OrganizationProject OrganizationProject_DeepCopyInto.
Definition OrganizationProjectList_DeepCopy := deepCopy T_OrganizationProjectList OrganizationProjectList_DeepCopyInto.
Definition MaaSOIDC_DeepCopy := deepCopy T_MaaSOIDC MaaSOIDC_DeepCopyInto.
Definition MaaSCertificateRef_DeepCopy := deepCopy T_MaaSCertificateRef MaaSCertificateRef_DeepCopyInto.
Definition MaaSTLS_DeepCopy := deepCopy T_MaaSTLS MaaSTLS_DeepCopyInto.
Definition MaaSQuotas_DeepCopy := deepCopy T_MaaSQuotas MaaSQuotas_DeepCopyInto.
Definition MaaSConfigurationSpec_DeepCopy := deepCopy T_MaaSConfigurationSpec MaaSConfigurationSpec_DeepCopyInto.
Definition MaaSConfigurationStatus_DeepCopy := deepCopy T_MaaSConfigurationStatus MaaSConfigurationStatus_DeepCopyInto.
Definition MaaSConfiguration_DeepCopy := deepCopy T_MaaSConfiguration MaaSConfiguration_DeepCopyInto.
Definition MaaSConfigurationList_DeepCopy := deepCopy T_MaaSConfigurationList MaaSConfigurationList_DeepCopyInto.

Definition OrganizationProfile_DeepCopyObject := deepCopyObject "OrganizationProfile" OrganizationProfile_DeepCopy.
Definition OrganizationProfileList_DeepCopyObject := deepCopyObject "OrganizationProfileList" OrganizationProfileList_DeepCopy.
Definition Organization_DeepCopyObject := deepCopyObject "Organization" Organization_DeepCopy.
Definition OrganizationList_DeepCopyObject := deepCopyObject "OrganizationList" OrganizationList_DeepCopy.
Definition OrganizationProject_DeepCopyObject := deepCopyObject "OrganizationProject" OrganizationProject_DeepCopy.
Definition OrganizationProjectList_DeepCopyObject := deepCopyObject "OrganizationProjectList" OrganizationProjectList_DeepCopy.
Definition MaaSConfiguration_DeepCopyObject := deepCopyObject "MaaSConfiguration" MaaSConfiguration_DeepCopy.
Definition MaaSConfigurationList_DeepCopyObject := deepCopyObject "MaaSConfigurationList" MaaSConfigurationList_DeepCopy.

(* ------------------------------------------------------------------ *)
(** ** All generated functions *)

Record Generated := {
  goType : gotype;
  DeepCopyInto : place -> place -> Mem unit;
  DeepCopy : option loc -> Mem (option loc);
}.

Definition generated : list (string * Generated) := [
  ("Subject", Build_Generated T_Subject Subject_DeepCopyInto Subject_DeepCopy);
  ("OrganizationReference", Build_Generated T_OrganizationReference OrganizationReference_DeepCopyInto OrganizationReference_DeepCopy);
  ("ProjectDefaults", Build_Generated T_ProjectDefaults ProjectDefaults_DeepCopyInto ProjectDefaults_DeepCopy);
  ("OIDCConfig", Build_Generated T_OIDCConfig OIDCConfig_DeepCopyInto OIDCConfig_DeepCopy);
  ("GatewayReference", Build_Generated T_GatewayReference GatewayReference_DeepCopyInto GatewayReference_DeepCopy);
  ("OrganizationPlatformConfig", Build_Generated T_OrganizationPlatformConfig OrganizationPlatformConfig_DeepCopyInto OrganizationPlatformConfig_DeepCopy);
  ("OrganizationProfileSpec", Build_Generated T_OrganizationProfileSpec OrganizationProfileSpec_DeepCopyInto OrganizationProfileSpec_DeepCopy);
  ("OrganizationProfileStatus", Build_Generated T_OrganizationProfileStatus OrganizationProfileStatus_DeepCopyInto OrganizationProfileStatus_DeepCopy);
  ("OrganizationProfile", Build_Generated T_OrganizationProfile OrganizationProfile_DeepCopyInto OrganizationProfile_DeepCopy);
  ("OrganizationProfileList", Build_Generated T_OrganizationProfileList OrganizationProfileList_DeepCopyInto OrganizationProfileList_DeepCopy);
  ("OrganizationSpec", Build_Generated T_OrganizationSpec OrganizationSpec_DeepCopyInto OrganizationSpec_DeepCopy);
  ("OrganizationStatus", Build_Generated T_OrganizationStatus OrganizationStatus_DeepCopyInto OrganizationStatus_DeepCopy);
  ("Organization", Build_Generated T_Organization Organization_DeepCopyInto Organization_DeepCopy);
  ("OrganizationList", Build_Generated T_OrganizationList OrganizationList_DeepCopyInto OrganizationList_DeepCopy);
  ("ProjectUser", Build_Generated T_ProjectUser ProjectUser_DeepCopyInto ProjectUser_DeepCopy);
  ("NetworkGrant", Build_Generated T_NetworkGrant NetworkGrant_DeepCopyInto NetworkGrant_DeepCopy);
  ("OrganizationProjectSpec", Build_Generated T_OrganizationProjectSpec OrganizationProjectSpec_DeepCopyInto OrganizationProjectSpec_DeepCopy);
  ("OrganizationProjectStatus", Build_Generated T_OrganizationProjectStatus OrganizationProjectStatus_DeepCopyInto OrganizationProjectStatus_DeepCopy);
  ("OrganizationProject", Build_Generated T_OrganizationProject OrganizationProject_DeepCopyInto OrganizationProject_DeepCopy);
  ("OrganizationProjectList", Build_Generated T_OrganizationProjectList OrganizationProjectList_DeepCopyInto OrganizationProjectList_DeepCopy);
  ("MaaSOIDC", Build_Generated T_MaaSOIDC MaaSOIDC_DeepCopyInto MaaSOIDC_DeepCopy);
  ("MaaSCertificateRef", Build_Generated T_MaaSCertificateRef MaaSCertificateRef_DeepCopyInto MaaSCertificateRef_DeepCopy);
  ("MaaSTLS", Build_Generated T_MaaSTLS MaaSTLS_DeepCopyInto MaaSTLS_DeepCopy);
  ("MaaSQuotas", Build_Generated T_MaaSQuotas MaaSQuotas_DeepCopyInto MaaSQuotas_DeepCopy);
  ("MaaSConfigurationSpec", Build_Generated T_MaaSConfigurationSpec MaaSConfigurationSpec_DeepCopyInto MaaSConfigurationSpec_DeepCopy);
  ("MaaSConfigurationStatus", Build_Generated T_MaaSConfigurationStatus MaaSConfigurationStatus_DeepCopyInto MaaSConfigurationStatus_DeepCopy);
  ("MaaSConfiguration", Build_Generated T_MaaSConfiguration MaaSConfiguration_DeepCopyInto MaaSConfiguration_DeepCopy);
  ("MaaSConfigurationList", Build_Generated T_MaaSConfigurationList MaaSConfigurationList_DeepCopyInto MaaSConfigurationList_DeepCopy)
].

(** The types with kubebuilder:object:root=true, which implement runtime.Object. *)
Definition objects : list (string * gotype * (option loc -> Mem Object)) := [
  ("OrganizationProfile", T_OrganizationProfile, OrganizationProfile_DeepCopyObject);
  ("OrganizationProfileList", T_OrganizationProfileList, OrganizationProfileList_DeepCopyObject);
  ("Organization", T_Organization, Organization_DeepCopyObject);
  ("OrganizationList", T_OrganizationList, OrganizationList_DeepCopyObject);
  ("OrganizationProject", T_OrganizationProject, OrganizationProject_DeepCopyObject);
  ("OrganizationProjectList", T_OrganizationProjectList, OrganizationProjectList_DeepCopyObject);
  ("MaaSConfiguration", T_MaaSConfiguration, MaaSConfiguration_DeepCopyObject);
  ("MaaSConfigurationList", T_MaaSConfigurationList, MaaSConfigurationList_DeepCopyObject)
].
End deepcopy.
