(* ===== verification/DeepCopyTheorems.v ===== *)
(** The generated copy functions are deep copies, for every API type. *)

From stdpp Require Import gmap strings list.
From Stdlib Require Import ZArith.
From S2P Require Import Prelude Heap HeapLemmas CopyLemmas DeepCopy.

Local Open Scope string_scope.

Section deepcopy_theorems.
  Context `{LT : LibTypes} `{!LibTypesLaws LT}.

Hint Resolve into_over assign_copies copyPtr_copies copySlice_copies copySliceInto_copies lib_copies : deepcopy.
Hint Extern 1 (flat _ = true) => reflexivity : deepcopy.

(** One statement of a struct's copy; all of them. *)
Ltac stmt := first
  [ eapply Stmts_next; [reflexivity|set_solver|solve [eauto with deepcopy]|]
  | eapply Stmts_last; [reflexivity|set_solver|solve [eauto with deepcopy]|reflexivity] ].
Ltac deep_copy := first
  [ apply assign_copies; reflexivity
  | apply struct_copies; [reflexivity|intros i o; repeat stmt] ].

Lemma Subject_copies : copiesInto T_Subject Subject_DeepCopyInto.
Proof. deep_copy. Qed.
#[local] Hint Resolve Subject_copies : deepcopy.
Lemma OrganizationReference_copies : copiesInto T_OrganizationReference OrganizationReference_DeepCopyInto.
Proof. deep_copy. Qed.
#[local] Hint Resolve OrganizationReference_copies : deepcopy.
Lemma ProjectDefaults_copies : copiesInto T_ProjectDefaults ProjectDefaults_DeepCopyInto.
Proof. deep_copy. Qed.
#[local] Hint Resolve ProjectDefaults_copies : deepcopy.
Lemma OIDCConfig_copies : copiesInto T_OIDCConfig OIDCConfig_DeepCopyInto.
Proof. deep_copy. Qed.
#[local] Hint Resolve OIDCConfig_copies : deepcopy.
Lemma GatewayReference_copies : copiesInto T_GatewayReference GatewayReference_DeepCopyInto.
Proof. deep_copy. Qed.
#[local] Hint Resolve GatewayReference_copies : deepcopy.
Lemma OrganizationPlatformConfig_copies : copiesInto T_OrganizationPlatformConfig OrganizationPlatformConfig_DeepCopyInto.
Proof. deep_copy. Qed.
#[local] Hint Resolve OrganizationPlatformConfig_copies : deepcopy.
Lemma OrganizationProfileSpec_copies : copiesInto T_OrganizationProfileSpec OrganizationProfileSpec_DeepCopyInto.
Proof. deep_copy. Qed.
#[local] Hint Resolve OrganizationProfileSpec_copies : deepcopy.
Lemma OrganizationProfileStatus_copies : copiesInto T_OrganizationProfileStatus OrganizationProfileStatus_DeepCopyInto.
Proof. deep_copy. Qed.
#[local] Hint Resolve OrganizationProfileStatus_copies : deepcopy.
Lemma OrganizationProfile_copies : copiesInto T_OrganizationProfile OrganizationProfile_DeepCopyInto.
Proof. deep_copy. Qed.
#[local] Hint Resolve OrganizationProfile_copies : deepcopy.
Lemma OrganizationProfileList_copies : copiesInto T_OrganizationProfileList OrganizationProfileList_DeepCopyInto.
Proof. deep_copy. Qed.
#[local] Hint Resolve OrganizationProfileList_copies : deepcopy.
Lemma OrganizationSpec_copies : copiesInto T_OrganizationSpec OrganizationSpec_DeepCopyInto.
Proof. deep_copy. Qed.
#[local] Hint Resolve OrganizationSpec_copies : deepcopy.
Lemma OrganizationStatus_copies : copiesInto T_OrganizationStatus OrganizationStatus_DeepCopyInto.
Proof. deep_copy. Qed.
#[local] Hint Resolve OrganizationStatus_copies : deepcopy.
Lemma Organization_copies : copiesInto T_Organization Organization_DeepCopyInto.
Proof. deep_copy. Qed.
#[local] Hint Resolve Organization_copies : deepcopy.
Lemma OrganizationList_copies : copiesInto T_OrganizationList OrganizationList_DeepCopyInto.
Proof. deep_copy. Qed.
#[local] Hint Resolve OrganizationList_copies : deepcopy.
Lemma ProjectUser_copies : copiesInto T_ProjectUser ProjectUser_DeepCopyInto.
Proof. deep_copy. Qed.
#[local] Hint Resolve ProjectUser_copies : deepcopy.
Lemma NetworkGrant_copies : copiesInto T_NetworkGrant NetworkGrant_DeepCopyInto.
Proof. deep_copy. Qed.
#[local] Hint Resolve NetworkGrant_copies : deepcopy.
Lemma OrganizationProjectSpec_copies : copiesInto T_OrganizationProjectSpec OrganizationProjectSpec_DeepCopyInto.
Proof. deep_copy. Qed.
#[local] Hint Resolve OrganizationProjectSpec_copies : deepcopy.
Lemma OrganizationProjectStatus_copies : copiesInto T_OrganizationProjectStatus OrganizationProjectStatus_DeepCopyInto.
Proof. deep_copy. Qed.
#[local] Hint Resolve OrganizationProjectStatus_copies : deepcopy.
Lemma OrganizationProject_copies : copiesInto T_OrganizationProject OrganizationProject_DeepCopyInto.
Proof. deep_copy. Qed.
#[local] Hint Resolve OrganizationProject_copies : deepcopy.
Lemma OrganizationProjectList_copies : copiesInto T_OrganizationProjectList OrganizationProjectList_DeepCopyInto.
Proof. deep_copy. Qed.
#[local] Hint Resolve OrganizationProjectList_copies : deepcopy.
Lemma MaaSOIDC_copies : copiesInto T_MaaSOIDC MaaSOIDC_DeepCopyInto.
Proof. deep_copy. Qed.
#[local] Hint Resolve MaaSOIDC_copies : deepcopy.
Lemma MaaSCertificateRef_copies : copiesInto T_MaaSCertificateRef MaaSCertificateRef_DeepCopyInto.
Proof. deep_copy. Qed.
#[local] Hint Resolve MaaSCertificateRef_copies : deepcopy.
Lemma MaaSTLS_copies : copiesInto T_MaaSTLS MaaSTLS_DeepCopyInto.
Proof. deep_copy. Qed.
#[local] Hint Resolve MaaSTLS_copies : deepcopy.
Lemma MaaSQuotas_copies : copiesInto T_MaaSQuotas MaaSQuotas_DeepCopyInto.
Proof. deep_copy. Qed.
#[local] Hint Resolve MaaSQuotas_copies : deepcopy.
Lemma MaaSConfigurationSpec_copies : copiesInto T_MaaSConfigurationSpec MaaSConfigurationSpec_DeepCopyInto.
Proof. deep_copy. Qed.
#[local] Hint Resolve MaaSConfigurationSpec_copies : deepcopy.
Lemma MaaSConfigurationStatus_copies : copiesInto T_MaaSConfigurationStatus MaaSConfigurationStatus_DeepCopyInto.
Proof. deep_copy. Qed.
#[local] Hint Resolve MaaSConfigurationStatus_copies : deepcopy.
Lemma MaaSConfiguration_copies : copiesInto T_MaaSConfiguration MaaSConfiguration_DeepCopyInto.
Proof. deep_copy. Qed.
#[local] Hint Resolve MaaSConfiguration_copies : deepcopy.
Lemma MaaSConfigurationList_copies : copiesInto T_MaaSConfigurationList MaaSConfigurationList_DeepCopyInto.
Proof. deep_copy. Qed.
#[local] Hint Resolve MaaSConfigurationList_copies : deepcopy.

(** Every generated DeepCopyInto is a deep copy and DeepCopy is made from it. *)
Lemma generated_copies : Forall (fun ng =>
  copiesInto (goType (snd ng)) (DeepCopyInto (snd ng)) /\
  DeepCopy (snd ng) = deepCopy (goType (snd ng)) (DeepCopyInto (snd ng))) generated.
Proof. 
  repeat apply Forall_cons_2; [..|apply Forall_nil_2].
  - exact (conj Subject_copies eq_refl).
  - exact (conj OrganizationReference_copies eq_refl).
  - exact (conj ProjectDefaults_copies eq_refl).
  - exact (conj OIDCConfig_copies eq_refl).
  - exact (conj GatewayReference_copies eq_refl).
  - exact (conj OrganizationPlatformConfig_copies eq_refl).
  - exact (conj OrganizationProfileSpec_copies eq_refl).
  - exact (conj OrganizationProfileStatus_copies eq_refl).
  - exact (conj OrganizationProfile_copies eq_refl).
  - exact (conj OrganizationProfileList_copies eq_refl).
  - exact (conj OrganizationSpec_copies eq_refl).
  - exact (conj OrganizationStatus_copies eq_refl).
  - exact (conj Organization_copies eq_refl).
  - exact (conj OrganizationList_copies eq_refl).
  - exact (conj ProjectUser_copies eq_refl).
  - exact (conj NetworkGrant_copies eq_refl).
  - exact (conj OrganizationProjectSpec_copies eq_refl).
  - exact (conj OrganizationProjectStatus_copies eq_refl).
  - exact (conj OrganizationProject_copies eq_refl).
  - exact (conj OrganizationProjectList_copies eq_refl).
  - exact (conj MaaSOIDC_copies eq_refl).
  - exact (conj MaaSCertificateRef_copies eq_refl).
  - exact (conj MaaSTLS_copies eq_refl).
  - exact (conj MaaSQuotas_copies eq_refl).
  - exact (conj MaaSConfigurationSpec_copies eq_refl).
  - exact (conj MaaSConfigurationStatus_copies eq_refl).
  - exact (conj MaaSConfiguration_copies eq_refl).
  - exact (conj MaaSConfigurationList_copies eq_refl).
Qed.

(** DeepCopy of a pointer: a new variable that holds a deep copy, or nil. *)
Lemma deepCopy_spec t f p h r L : copiesInto t f -> reads h (TPtr t) (VPtr p) = Some (r, L) ->
  exists p' h' L', deepCopy t f p h = (Ret p', h') /\ h ⊆ h' /\
    reads h' (TPtr t) (VPtr p') = Some (r, L') /\ L' ## dom h.
Proof.
  intros Hf Hr. destruct p as [l|]; [|cbn in Hr; simplify_eq; by exists None, h, ∅].
  apply reads_ptr_Some in Hr as (x & r' & L0 & Hl & Hr & [= -> ->]).
  unfold deepCopy. mrun run_alloc. set (l' := fresh (dom h)).
  assert (l' ∉ dom h) as Hfresh by apply is_fresh. clearbody l'.
  set (h2 := <[l' := CVal (zero t)]> h).
  assert (h ⊆ h2) as Hsub by (by apply insert_subseteq, not_elem_of_dom).
  pose proof (reads_dom _ _ _ _ _ Hr) as HL0.
  assert (l ∈ dom h) by (apply elem_of_dom; eauto).
  destruct (Hf h2 (var l) (var l') x (zero t) r' L0) as (h1 & v' & L' & Hrun & Hsub1 & Hr' & Hdisj).
  { unfold readp; simpl. by rewrite (lookup_weaken _ _ _ _ Hl Hsub). }
  { unfold readp, h2; simpl. by rewrite lookup_insert_eq. }
  { done. }
  { by eapply reads_weaken. }
  { simpl. set_solver. }
  { simpl. set_solver. }
  unfold h2 in Hdisj. rewrite dom_insert_L in Hdisj.
  exists (Some l'), (writep (var l') v' h1), ({[l']} ∪ L'). split_and!; [by erewrite run_bind| | |set_solver].
  - apply map_subseteq_spec. intros k c Hk. rewrite writep_other.
    + eapply lookup_weaken; [|exact Hsub1]. by eapply lookup_weaken.
    + simpl. intros ->. by apply Hfresh, elem_of_dom.
  - apply reads_ptr_Some. exists v', r', L'. split_and!; [|eapply reads_local; [exact Hr'|]|done].
    + unfold writep; simpl. rewrite lookup_alter_eq.
      rewrite (lookup_weaken h2 h1 l' (CVal (zero t))); [done|apply lookup_insert_eq|done].
    + intros k Hk. apply writep_other. simpl. set_solver.
Qed.

(** Each object type is among the generated ones, and its DeepCopyObject is made from its
    DeepCopy. *)
Lemma objects_copies : Forall (fun ntf => exists g, (fst (fst ntf), g) ∈ generated /\
    snd ntf = deepCopyObject (fst (fst ntf)) (DeepCopy g)) objects.
Proof.
  repeat apply Forall_cons_2; [..|apply Forall_nil_2]; eexists.
  - split; [apply (list_elem_of_lookup_2 _ 8); reflexivity|reflexivity].
  - split; [apply (list_elem_of_lookup_2 _ 9); reflexivity|reflexivity].
  - split; [apply (list_elem_of_lookup_2 _ 12); reflexivity|reflexivity].
  - split; [apply (list_elem_of_lookup_2 _ 13); reflexivity|reflexivity].
  - split; [apply (list_elem_of_lookup_2 _ 18); reflexivity|reflexivity].
  - split; [apply (list_elem_of_lookup_2 _ 19); reflexivity|reflexivity].
  - split; [apply (list_elem_of_lookup_2 _ 26); reflexivity|reflexivity].
  - split; [apply (list_elem_of_lookup_2 _ 27); reflexivity|reflexivity].
Qed.

Lemma generated_names : NoDup (generated.*1).
Proof. apply (bool_decide_eq_true_1 (NoDup _)). vm_compute. reflexivity. Qed.

Lemma object_of name g t f : (name, g) ∈ generated -> (name, t, f) ∈ objects ->
  f = deepCopyObject name (DeepCopy g).
Proof.
  intros Hg Hf. destruct (proj1 (Forall_forall _ _) objects_copies _ Hf) as (g' & Hg' & Heq). simpl in *.
  apply list_elem_of_lookup_1 in Hg as [i Hi], Hg' as [j Hj].
  assert (i = j) as -> by (eapply NoDup_fst_lookup; [apply generated_names|done..]). congruence.
Qed.

(** C39: For every API type, DeepCopy of a pointer returns, leaves everything that was in
    memory as it was, and its result stands for the same data (nil for nil, nil and empty
    slices kept apart) in memory that did not exist before.  DeepCopyObject returns the
    same copy under its type, and the nil interface for nil. *)
Theorem deepcopy_correct name g h p r L :
  (name, g) ∈ generated -> reads h (TPtr (goType g)) (VPtr p) = Some (r, L) ->
  exists p' h' L', DeepCopy g p h = (Ret p', h') /\ h ⊆ h' /\
    reads h' (TPtr (goType g)) (VPtr p') = Some (r, L') /\ L' ## dom h /\
    forall t f, (name, t, f) ∈ objects -> f p h = (Ret ((fun l => (name, l)) <$> p'), h').
Proof.
  intros Hg Hr. pose proof (proj1 (Forall_forall _ _) generated_copies _ Hg) as [Hf Heq].
  simpl in Hf, Heq. destruct (deepCopy_spec _ _ p h r L Hf Hr) as (p' & h' & L' & Hrun & Hrest).
  rewrite <- Heq in Hrun. exists p', h', L'. destruct Hrest as (? & ? & ?). split_and!; try done.
  intros t f Hobj. rewrite (object_of name g t f Hg Hobj). unfold deepCopyObject.
  erewrite run_bind by exact Hrun. by destruct p'.
Qed.

(** C40: A copy and its original can be changed independently: whatever is written later
    to the memory of the copy, the original still stands for the same data, and whatever is
    written to memory the original reaches, so does the copy. *)
Theorem deepcopy_isolated name g h p r L p' h' :
  (name, g) ∈ generated -> reads h (TPtr (goType g)) (VPtr p) = Some (r, L) ->
  DeepCopy g p h = (Ret p', h') ->
  exists L', reads h' (TPtr (goType g)) (VPtr p') = Some (r, L') /\
    (forall k : heap, (forall l, l ∉ L' -> k !! l = h' !! l) ->
       reads k (TPtr (goType g)) (VPtr p) = Some (r, L)) /\
    (forall k : heap, (forall l, l ∉ L -> k !! l = h' !! l) ->
       reads k (TPtr (goType g)) (VPtr p') = Some (r, L')).
Proof.
  intros Hg Hr Hrun. pose proof (proj1 (Forall_forall _ _) generated_copies _ Hg) as [Hf Heq].
  simpl in Hf, Heq. rewrite Heq in Hrun.
  destruct (deepCopy_spec _ _ p h r L Hf Hr) as (p1 & h1 & L' & Hrun' & Hsub & Hr' & Hdisj).
  rewrite Hrun in Hrun'. simplify_eq. pose proof (reads_dom _ _ _ _ _ Hr) as HL.
  assert (forall l, l ∈ L -> l ∉ L' /\ l ∈ dom h) as HLL' by (clear -Hdisj HL; set_solver).
  exists L'. split_and!; [done|..]; intros k Hk.
  - eapply reads_local; [exact Hr|]. intros l [? ?]%HLL'. rewrite Hk by done. by apply sub_lookup.
  - eapply reads_local; [exact Hr'|]. intros l Hl. apply Hk. by intros [? ?]%HLL'.
Qed.
End deepcopy_theorems.

(* ------------------------------------------------------------------ *)
(** ** A concrete library, and a profile in memory *)

(** A library without structs, over which the example one is defined. *)
Definition noLib : LibTypes :=
  {| lib_zero _ := VBase (BStr ""); lib_reads _ _ _ := None; lib_DeepCopyInto _ _ _ := ret tt |}.

Lemma noLib_laws : LibTypesLaws noLib.
Proof. by split. Qed.

(** Metadata with finalizers and statuses with conditions, as slices of strings. *)
Definition libField (k : libkind) : string :=
  match k with LObjectMeta => "Finalizers" | LListMeta => "RemainingItems" | LStatus => "Conditions" end.
Definition libType (k : libkind) : gotype := TStruct [("Name", TBase KStr); (libField k, TSlice (TBase KStr))].

Definition exampleLib : LibTypes :=
  {| lib_zero k := zero (LT := noLib) (libType k);
     lib_reads h k v := reads (LT := noLib) h (libType k) v;
     lib_DeepCopyInto k in_ out :=
       assign in_ out ;;;
       copySlice (LT := noLib) (TBase KStr) (in_ @. (libField k)) (out @. (libField k)) |}.

Lemma exampleLib_laws : LibTypesLaws exampleLib.
Proof.
  pose proof noLib_laws. split.
  - intros h h' k v r L. apply (reads_local (LT := noLib)).
  - intros h k v r L. apply (reads_dom (LT := noLib)).
  - intros k. refine (struct_copies (LT := noLib) _ _ _ _); [by destruct k|]. intros i o.
    eapply Stmts_last; [by destruct k|set_solver|by apply copySlice_copies|by destruct k].
Qed.

Definition str (s : string) : goval := VBase (BStr s).
Definition libVal (k : libkind) (name : string) : goval :=
  VStruct [("Name", str name); (libField k, VSlice None)].

(** A profile at 1 with one administrator in the array at 2 and a platform at 3 whose OIDC
    configuration is at 4. *)
Definition exampleProfile : goval :=
  VStruct [("TypeMeta", VStruct [("Kind", str "OrganizationProfile"); ("APIVersion", str "v1alpha1")]);
    ("ObjectMeta", libVal LObjectMeta "research");
    ("Spec", VStruct [("OrganizationRef", VStruct [("Name", str "research")]);
       ("Admins", VSlice (Some (2%positive, 0, 1)));
       ("Defaults", VStruct [("NetworkIsolation", str "tenant"); ("MaxProjects", VBase (BInt 5))]);
       ("Platform", VPtr (Some 3%positive))]);
    ("Status", VStruct [("Status", libVal LStatus "")])].
Definition exampleHeap : heap :=
  {[ 1%positive := CVal exampleProfile;
     2%positive := CArr [VStruct [("Kind", str "User"); ("Name", str "ada"); ("Namespace", str "")]];
     3%positive := CVal (VStruct [("OIDC", VPtr (Some 4%positive)); ("IngressGatewayRef", VPtr None)]);
     4%positive := CVal (VStruct [("IssuerURL", str "https://issuer")]) ]}.

Definition exampleGenerated : Generated :=
  Build_Generated T_OrganizationProfile (OrganizationProfile_DeepCopyInto (LT := exampleLib))
    (OrganizationProfile_DeepCopy (LT := exampleLib)).

Definition exampleReading : tree * gset loc :=
  default (RNil, ∅) (reads (LT := exampleLib) exampleHeap (TPtr T_OrganizationProfile) (VPtr (Some 1%positive))).

(** Copying the example profile gives a new variable with the same data. *)
Lemma deepcopy_correct_witness : exists p' h' L',
  DeepCopy exampleGenerated (Some 1%positive) exampleHeap = (Ret p', h') /\ exampleHeap ⊆ h' /\
  reads (LT := exampleLib) h' (TPtr T_OrganizationProfile) (VPtr p') = Some (fst exampleReading, L') /\
  L' ## dom exampleHeap /\
  forall t f, ("OrganizationProfile", t, f) ∈ objects (LT := exampleLib) ->
    f (Some 1%positive) exampleHeap = (Ret ((fun l => ("OrganizationProfile", l)) <$> p'), h').
Proof.
  apply (deepcopy_correct (LT := exampleLib) (LibTypesLaws0 := exampleLib_laws) "OrganizationProfile"
    exampleGenerated exampleHeap (Some 1%positive) (fst exampleReading) (snd exampleReading)).
  - apply (list_elem_of_lookup_2 _ 8). reflexivity.
  - vm_compute. reflexivity.
Defined.

(** Changing the administrator of the copy, in the array at 6, does not reach the original. *)
Lemma deepcopy_isolated_witness :
  let h' := snd (DeepCopy exampleGenerated (Some 1%positive) exampleHeap) in
  exists L', reads (LT := exampleLib) h' (TPtr T_OrganizationProfile) (VPtr (Some 5%positive))
      = Some (fst exampleReading, L') /\
    (forall k : heap, (forall l, l ∉ L' -> k !! l = h' !! l) ->
       reads (LT := exampleLib) k (TPtr T_OrganizationProfile) (VPtr (Some 1%positive)) = Some exampleReading) /\
    (forall k : heap, (forall l, l ∉ snd exampleReading -> k !! l = h' !! l) ->
       reads (LT := exampleLib) k (TPtr T_OrganizationProfile) (VPtr (Some 5%positive)) = Some (fst exampleReading, L')).
Proof.
  apply (deepcopy_isolated (LT := exampleLib) (LibTypesLaws0 := exampleLib_laws) "OrganizationProfile"
    exampleGenerated exampleHeap (Some 1%positive) (fst exampleReading) (snd exampleReading) (Some 5%positive)).
  - apply (list_elem_of_lookup_2 _ 8). reflexivity.
  - vm_compute. reflexivity.
  - vm_compute. reflexivity.
Defined.
