(* ===== verification/Scheme.v ===== *)
(** The registration of the API types: api/v1alpha1/groupversion_info.go and the init
    function of each *_types.go file.

    Schemes and scheme builders belong to apimachinery: [SchemeRuntime] has the calls the
    code makes, [SchemeLaws] what they are documented to do. *)

From stdpp Require Import gmap strings list.
From S2P Require Import Prelude Platform Api Cluster Framework OrganizationCtl ProjectCtl NetPol MaaS Heap DeepCopy.

Local Open Scope string_scope.

Class SchemeRuntime := {
  Scheme : Type;
  SchemeBuilder : Type;
  schemeError : Type;
  AddKnownTypes : string * string -> list string -> Scheme -> Scheme;
  AddToGroupVersion : string * string -> Scheme -> Scheme;
  NewSchemeBuilder : list (GoM Scheme schemeError unit) -> SchemeBuilder;
  Register : list (GoM Scheme schemeError unit) -> SchemeBuilder -> SchemeBuilder;
  builder_AddToScheme : SchemeBuilder -> GoM Scheme schemeError unit;
  (** scheme.Recognizes *)
  Recognizes : Scheme -> string * string -> string -> bool;
}.

Class SchemeLaws (R : SchemeRuntime) : Prop := {
  builder_runs fs gs : builder_AddToScheme (Register gs (NewSchemeBuilder fs)) = range (fs ++ gs)%list (fun f => f);
  register_register fs gs b : Register gs (Register fs b) = Register (fs ++ gs)%list b;
  recognizes_known s gv kinds gv' kind :
    Recognizes (AddKnownTypes gv kinds s) gv' kind =
    Recognizes s gv' kind || (bool_decide (gv' = gv) && bool_decide (kind ∈ kinds));
  recognizes_group s gv gv' kind :
    Recognizes s gv' kind = true -> Recognizes (AddToGroupVersion gv s) gv' kind = true;
}.

Section registration.
  Context `{R : SchemeRuntime}.

(** [var SchemeBuilder = runtime.NewSchemeBuilder(func(scheme) { ... })] *)
Definition groupBuilder : SchemeBuilder :=
  NewSchemeBuilder [fun s => (Ret tt, AddToGroupVersion SchemeGroupVersion s)].

(** The function a types file registers. *)
Definition addKnownTypes (kinds : list string) : GoM Scheme schemeError unit :=
  fun s => (Ret tt, AddKnownTypes SchemeGroupVersion kinds s).

Definition maasconfiguration_init (b : SchemeBuilder) : SchemeBuilder :=
  Register [addKnownTypes ["MaaSConfiguration"; "MaaSConfigurationList"]] b.
Definition organization_init (b : SchemeBuilder) : SchemeBuilder :=
  Register [addKnownTypes ["Organization"; "OrganizationList"]] b.
Definition organizationprofile_init (b : SchemeBuilder) : SchemeBuilder :=
  Register [addKnownTypes ["OrganizationProfile"; "OrganizationProfileList"]] b.
Definition organizationproject_init (b : SchemeBuilder) : SchemeBuilder :=
  Register [addKnownTypes ["OrganizationProject"; "OrganizationProjectList"]] b.

(** AddToScheme after the package's init functions, in the order of the files. *)
Definition v1alpha1_AddToScheme : GoM Scheme schemeError unit :=
  builder_AddToScheme
    (organizationproject_init (organizationprofile_init (organization_init (maasconfiguration_init groupBuilder)))).
End registration.

Section registered.
  Context `{R : SchemeRuntime} `{!SchemeLaws R} `{LT : LibTypes} `{P : Platform} `{C : !Cluster}.

Lemma v1alpha1_AddToScheme_run s : v1alpha1_AddToScheme s =
  (Ret tt, foldl (fun s kinds => AddKnownTypes SchemeGroupVersion kinds s) (AddToGroupVersion SchemeGroupVersion s)
     [["MaaSConfiguration"; "MaaSConfigurationList"]; ["Organization"; "OrganizationList"];
      ["OrganizationProfile"; "OrganizationProfileList"]; ["OrganizationProject"; "OrganizationProjectList"]]).
Proof.
  unfold v1alpha1_AddToScheme, organizationproject_init, organizationprofile_init, organization_init,
    maasconfiguration_init, groupBuilder.
  rewrite !register_register, builder_runs. reflexivity.
Qed.

(** Registration never fails, keeps what the scheme knew, and makes it know every type
    with a DeepCopyObject and every resource a controller reconciles. *)
Theorem scheme_complete s :
  exists s', v1alpha1_AddToScheme s = (Ret tt, s') /\
    (forall gv kind, Recognizes s gv kind = true -> Recognizes s' gv kind = true) /\
    (forall kind, In kind (map (fun o => fst (fst o)) objects) -> Recognizes s' SchemeGroupVersion kind = true) /\
    Forall (fun kind => Recognizes s' SchemeGroupVersion kind = true)
      [rc_For NewOrganizationReconciler; rc_For NewOrganizationProfileReconciler;
       rc_For NewOrganizationProjectReconciler; rc_For NewMaaSConfigurationReconciler].
Proof.
  eexists. split; [apply v1alpha1_AddToScheme_run|]. simpl. split_and!.
  - intros gv kind H. rewrite !recognizes_known, recognizes_group by done. done.
  - intros kind Hin. rewrite !recognizes_known, !(bool_decide_true (SchemeGroupVersion = _)) by done.
    destruct Hin as [<-|[<-|[<-|[<-|[<-|[<-|[<-|[<-|[]]]]]]]]]; cbn; by rewrite ?orb_true_r.
  - repeat constructor; rewrite !recognizes_known, !(bool_decide_true (SchemeGroupVersion = _)) by done;
      cbn; by rewrite ?orb_true_r.
Qed.
End registered.

(* ------------------------------------------------------------------ *)
(** ** A scheme that satisfies the laws *)

Section listed.

(** A scheme lists what it recognizes; a builder lists the functions it runs. *)
#[local] Instance listedScheme : SchemeRuntime := {|
  Scheme := list (string * string * string);
  SchemeBuilder := list (GoM (list (string * string * string)) Empty_set unit);
  schemeError := Empty_set;
  AddKnownTypes gv kinds s := (s ++ (pair gv <$> kinds))%list;
  AddToGroupVersion gv s := s;
  NewSchemeBuilder fs := fs;
  Register fs b := (b ++ fs)%list;
  builder_AddToScheme b := range b (fun f => f);
  Recognizes s gv kind := bool_decide ((gv, kind) ∈ s);
|}.

#[local] Instance listedScheme_laws : SchemeLaws listedScheme.
Proof.
  constructor; simpl; try done.
  - intros fs gs b. by rewrite app_assoc.
  - intros s gv kinds gv' kind. rewrite <- bool_decide_and, <- bool_decide_or.
    apply bool_decide_ext. rewrite elem_of_app, list_elem_of_fmap. naive_solver.
Qed.

Example listed_recognizes :
  Recognizes (snd (v1alpha1_AddToScheme [])) SchemeGroupVersion "OrganizationProfile" = true.
Proof. vm_compute. reflexivity. Qed.
End listed.
